(* ===== verification/_CoqProject ===== *)
-Q . S2P
Prelude.v
GoStrings.v
Base64.v
ApiTypes.v
Constants.v
Bpfman.v
Selectors.v
Crictl.v
Containers.v
ContainerSpecs.v
ContainerWitnesses.v
Links.v
LinkSpecs.v
LinkTheorems.v
LinkFaults.v
LinkUpdate.v
Kinds.v
ClKinds.v
NsKinds.v
KindSpecs.v
KindUpdates.v
KindTheorems.v
Application.v
Apps.v
AppSpecs.v
AppLoop.v
Keeps.v
Typing.v
Ledger.v
LedgerTheorems.v
Auth.v
AuthSpecs.v
Bpffs.v
BpffsSpecs.v
Processes.v
ProcessSpecs.v
Operator.v
OperatorSpecs.v
Protocol.v
ConfigTypes.v
Config.v
ConfigSpecs.v
ConfigSteps.v
ConfigTheorems.v
ConfigReconcile.v
OperatorMain.v
Watches.v
WatchTheorems.v
Heap.v
HeapSpecs.v
DeepCopy.v
DeepCopySpecs.v
Mains.v
MainSpecs.v
ConfigSim.v
ConfigWitnesses.v
Simulation.v
Scenarios.v
ProtocolWitnesses.v
LedgerWitnesses.v
LedgerScenarios.v
LoopScenarios.v
Serving.v
ServingTheorems.v
Resting.v
RestingTheorems.v
ServingScopes.v
ServingWitnesses.v
RestingWitnesses.v
WatchWitnesses.v
MainWitnesses.v
Witnesses.v
