(* ===== verification/Prelude.v ===== *)
(** * The bpfman operator in Rocq

    bpfman-operator runs eBPF programs on the nodes of a Kubernetes cluster. A
    user writes a ClusterBpfApplication (or, in a namespace, a BpfApplication): a
    bytecode image and a list of programs with attach points. On every node an
    agent (src/controllers/bpfman-agent) keeps one state object per application:
    it loads the programs through the bpfman daemon, expands the attach points to
    links (interfaces, namespaces, containers, functions), attaches and detaches
    links until the daemon has those and no others, and records what happened. In
    the cluster an operator (src/controllers/bpfman-operator) reads the state
    objects and reports one condition per application; finalizers of both keep an
    application that is being deleted until every node has let go of it. The
    operator also keeps bpfman itself installed: from one Config object it derives
    the daemon sets, configuration and monitoring objects of the cluster.

    This development models that code as state-passing functions with panics
    and proves what makes it correct.

    ** Conventions

    A method is a function in the monad [GoM W]: it takes the state [W] of
    everything outside the process and returns a value or a panic, with the new
    state. Receivers that a method assigns to are threaded as values. A Go
    [error] is its text; [(T, error)] is [result T] or an option. A slice is an
    optional list, because reflect.DeepEqual tells nil from empty. Unsigned and
    signed conversions wrap as at their width. Code outside the repository is a
    class of operations ([BpfmanClient], [NetNsCache], [ContainerGetter],
    [ApplicationAPI], [OperatorAPI], [ConfigAPI], [CRI], [MountHost], [MainHost],
    [LabelLib], [BytecodeLib], ...) and what is relied on is a class of laws next to it
    ([BpfmanLaws], [BpfmanLoadLaws], [HostLaws], [PollLaws], [ConfigAPILaws],
    [CRIConns], [MountTable], [TypedStore], [LedgerStore], [DaemonApart], [Quiet],
    [OperatorStore], ...); [Simulation], [LedgerWitnesses], [ServingWitnesses], [ConfigSim],
    [ContainerWitnesses], [MainWitnesses] and [BpffsSpecs] have instances of them. Two classes have an implementation in
    the repository, which is shown as an instance: [ContainerGetter] is
    [RealContainerGetter], [BytecodeLib] is [auth_BytecodeLib]. Texts that are
    parsed byte by byte are lists of bytes ([GoStrings]). Logging is left out.

    ** Files

    - [Prelude]: Go values, the monad and its weakest preconditions [wp], lists.
    - [ApiTypes]: src/apis/v1alpha1. [Constants]: src/internal/constants.go and
      src/pkg/helpers/helpers.go.
    - [Bpfman]: the daemon's client interface and its laws, and the calls of
      internal/bpfman_core.go; a simulated daemon.
    - [Selectors]: interface discovery, the node's interfaces, containers and
      the namespace cache (common.go, containers.go, internal/iface.go).
    - [Links]: reconcileProgram, updateLinks, processLinks, reconcileBpfLink and
      removeLinks, which every program reconciler has with the same text, over
      the record [Kind] of what differs. [Kinds], [ClKinds], [NsKinds]: the
      thirteen kinds, a Module per file cl_<kind>_program.go, ns_<kind>_program.go.
    - [LinkSpecs], [LinkTheorems], [LinkUpdate]: the link protocol as a step
      relation, the contracts of processLinks, updateLinks and reconcileProgram.
      They are proved for any kind that satisfies the interfaces [KindLaws] and
      [UpdateSpec]; [KindSpecs], [KindUpdates] and [KindTheorems] discharge these
      for the thirteen kinds.
    - [Application]: the application reconcilers of the agent, over the record
      [AppKind] of what the two scopes differ in; [Apps]: the two scopes
      (cl_application_program.go, ns_application_program.go). [AppSpecs] and
      [AppLoop]: their theorems. [Keeps]: invariants of the outside state that hold
      between any two calls; [Typing]: the state objects stay well-formed. [Ledger],
      [LedgerTheorems]: the programs that the daemon has and the programs that the
      state objects record.
      [Serving], [ServingTheorems]: what the agent promises for one application, for any
      scope that names the kinds of its programs (interface [ServedScope]), which
      [ServingScopes] discharges for both. [Resting], [RestingTheorems]: what a Reconcile
      leaves as it is.
    - [Operator], [OperatorSpecs]: the operator (common.go, common_cluster.go,
      common_namespace.go and the two reconcilers). [Protocol]: agents, operator and
      users on one API server, as a step relation.
    - [ConfigTypes], [Config]: the Config object, the objects the operator derives
      from it, and the configuration controller (config.go). [ConfigSpecs],
      [ConfigSteps], [ConfigTheorems], [ConfigReconcile]: the API server's laws,
      what one step may touch and what it reaches, and the theorems on Reconcile.
      [OperatorMain]: the default Config of cmd/bpfman-operator, and the platform
      probe and the filters of internal/k8s.go. [ConfigSim],
      [ConfigWitnesses]: a simulated cluster and the theorems applied to it.
    - [Crictl], [Containers]: pkg/crictl, the agent's containers.go and
      cmd/bpfman-crictl; [ContainerSpecs], [ContainerWitnesses].
    - [GoStrings], [Base64]: the functions of Go's strings and encoding/base64 that
      the parsers use. [Auth], [AuthSpecs]: pull secrets (internal/auth.go).
    - [Bpffs], [BpffsSpecs]: internal/bpffs and the mount mode of cmd/bpfman-agent.
      [Processes], [ProcessSpecs]: the interface watcher and the metrics server of
      cmd/bpfman-agent, cmd/metrics-proxy, internal/version and the cluster access
      of pkg/helpers.
    - [Watches], [WatchTheorems]: the SetupWithManager of all five controllers as lists
      of watches, the filters of the agent, and the handlers, predicates and the builder
      of the vendored controller-runtime that they use; what the events of those
      watches lead to.
    - [Heap], [HeapSpecs]: Go values in memory, and when a function copies them deeply.
      [DeepCopy], [DeepCopySpecs]: the functions of apis/v1alpha1/zz_generated.deepcopy.go.
    - [Mains], [MainSpecs]: the main functions of the agent, the operator and the
      metrics proxy (cmd/), as the order in which each process sets itself up, with the
      connection to bpfman (internal/conn).
    - [Simulation], [Scenarios]: a simulated node with its API server and whole runs of
      agent and operator on it; [LedgerScenarios]: runs in which a program is lost;
      [LoopScenarios]: runs that are driven by the events of the watches only.
    - [Witnesses], [ProtocolWitnesses], [LedgerWitnesses], [ServingWitnesses],
      [RestingWitnesses], [WatchWitnesses], [MainWitnesses]: the theorems applied to concrete inputs.

    ** What is shown

    Links. [link_step] says what one reconcile of a link may do to the daemon and
    the record; processLinks is proved to make such steps in order, whatever the
    daemon answers. From this: every recorded status is true of the daemon
    ([processLinks_settles]), links of others are never touched
    ([processLinks_leaves_others]), a daemon that serves what it can is brought to
    the desired links ([processLinks_converges]), a pass on a desired state
    changes nothing ([processLinks_steady]), and a program without an id panics
    if a link is wanted ([processLinks_unloaded]). updateLinks is proved equal to
    a merge by key ([updateLinks_merges]); together they give the refinement
    [reconcileProgram_converges], and [cl_kinds_reach_spec], [ns_kinds_reach_spec]
    for the kinds.

    Applications. The program list and load checks are characterised, load is
    followed by a positive load check, unload forgets everything, the initial
    list has an entry per program, conditions and status updates do what they
    should, deletion goes through unload, record, release of the finalizer, and
    an application that cannot be loaded ends the loop. Together with the theorems on
    links: a Reconcile of an application that the node runs serves all its programs, or
    reports which could not be, and leaves what the next one needs
    ([application_served]). The reconciles of the programs compose because no link
    belongs to two programs and each reconcile leaves the links of the others alone
    ([passed]). Once everything is served a Reconcile is quiet: it writes nothing to the
    API server and changes nothing in the daemon ([Reconcile_rests]), so that the agent,
    which is woken by its own writes, comes to rest. A Reconcile keeps the
    state objects well-formed, at both scopes ([Reconcile_well_formed]): entries have the
    struct of their type and are distinct, and an object that records a loaded program
    carries the agent's finalizer. And it keeps the books ([Reconcile_books]): where every
    program of the daemon is somebody else's or recorded by exactly one state object,
    and every recorded program is loaded, this is so again after every Reconcile that
    neither panics nor asks for a retry. The three hypotheses are needed: a refused
    status write ([conflict_leaks]), a failing read of the daemon ([get_error_leaks])
    and ids that are given out again ([reboot_mistakes_programs]) break the books.

    Operator. The condition is Success, Error or Pending exactly as the nodes'
    states say; the finalizer goes only when no state is held; the watch drops no
    event that matters. For any interleaving of the agents' and the operator's
    Reconciles with what users do, the operator does not release an application while
    a state object records a loaded program ([no_release_while_loaded]).

    Configuration. A pass of the configuration controller brings every resource to
    its desired content and the next pass writes nothing, although the API server
    fills in defaults ([Reconcile_settles]); it touches no object that it does not
    manage or that an override spares ([Reconcile_spares]), and of a Config without
    finalizer or being deleted only the finalizers ([Reconcile_finalizer]). From an
    empty cluster the operator comes up by itself ([bootstrap_settles]).

    Watches. Every object that the controller of the Config manages is watched: a change
    to one or its deletion makes a request whose Reconcile settles the cluster again
    ([drift_repaired]); the namespace is the exception ([namespace_unwatched]). An
    update of a state object makes a request that the operator resolves to the
    application it belongs to, or does not matter to it ([state_update_reaches_operator]).
    Driven by their watches alone, agent and operator come to rest in every order of
    turns, with the application in service and, after its deletion, gone
    ([event_driven_lifecycle]: all orders are computed, by a search that is proved to
    miss none); a deletion of the state object with the application can stall
    ([cascading_deletion_stalls]), since the deletion of a state wakes nobody
    ([state_deletion_unnoticed]).

    Main functions. The operator ends with 0 only after its manager has run with the
    controllers of the platform and a Config in the cluster ([operator_main_zero]); the
    agent likewise ([agent_setup_zero]), after it has its node's name, its client and its clientset; the metrics server speaks HTTP/1.1 only unless
    told otherwise ([operator_tls]), and two flags of the agent do nothing
    ([agent_unused_flags]).

    Deep copies. The agent builds a new status in place and compares it with a copy of
    the one it read. In this model values are not shared, so that a copy is the value
    itself. [DeepCopy_isolates] shows that this is right: for every API type the generated
    DeepCopy returns a value of the same contents that shares no memory with the original.

    Around the reconcilers. The container lookup reports exactly the selected
    containers of the first pod of that name, with 32-bit process ids, closes its
    connections, and does not panic. The credentials of a pull secret reach the load
    request; base64 decoding undoes encoding. The parser of mountinfo undoes what the
    kernel prints, and the mounting init container succeeds only when a bpffs is
    mounted. The interfaces that discovery offers are those that exist.

    Whole runs. [cluster_lifecycle] runs agent and operator from creation to deletion,
    [application_lifecycle] the agent alone; [unselected_node_panics] is a run that
    ends in a panic, [orphaned_state_stays] one in which the user deletes an application
    that the operator has not guarded yet.

    ** Bounds

    The loops of the source range over slices and are structural recursions. Two have
    fuel. [scan_lines] has as much as the file has bytes, and each line takes at least
    one ([scan_lines_fuel]). That of [poll] is [maxPollAttempts], 1201, what two minutes at
    an attempt every 100 ms allow, and [maxPollAttempts_enough] shows that more
    changes no outcome.

    ** Not modelled

    The parsing of flags, the scheme, the informers and the work queue of
    controller-runtime: [LoopScenarios] has queues of its own, of distinct requests,
    without delays. The signals that end a process. The HTTP servers and the reverse
    proxy beyond their handlers' choices.
    The syntax of JSON and YAML: documents are parsed by a class. The timeouts of
    contexts: a call that times out is a call with an error. Stale caches: a list or
    get answers from the state at the time of the call. Interleavings in
    [Protocol] are of whole Reconciles. Generated clientsets
    and informers (pkg/client). cmp.go has no code, all of it is commented out.

    ** This file

    Go's error values, slices and machine integers, the state-and-panic monad in
    which every effectful method is written, its weakest-precondition calculus,
    and the generic list lemmas and tactics the components share. *)

From stdpp Require Export base tactics list gmap strings pretty.
From stdpp Require Import options.

#[global] Open Scope string_scope.
#[global] Open Scope list_scope.
#[global] Open Scope Z_scope.

(** ** Go values *)

(** An [error] is identified with the text its [Error()] method prints; the
    nil error is [None] in an [option error]. *)
Abbreviation error := string (only parsing).

(** A [(T, error)] pair of results, of which callers use exactly one side. *)
Inductive result (A : Type) : Type :=
  | Ok (a : A)
  | Err (e : error).
Arguments Ok {_} _.
Arguments Err {_} _.

#[export] Instance result_eq_dec `{EqDecision A} : EqDecision (result A).
Proof. solve_decision. Defined.

Definition is_ok {A} (r : result A) : bool :=
  match r with Ok _ => true | Err _ => false end.

(** A slice: [None] is the nil slice, [Some l] a non-nil one. [range] does not
    tell them apart, [reflect.DeepEqual] does. *)
Definition slice (A : Type) : Type := option (list A).

Definition elems {A} (s : slice A) : list A := default [] s.

(** [append(s, x)] *)
Definition go_append {A} (s : slice A) (x : A) : slice A := Some (elems s ++ [x]).

(** A slice that was [old] and has been written element by element or appended
    to until it holds [l]: still nil only when it was nil and nothing was
    appended. *)
Definition to_slice {A} (old : slice A) (l : list A) : slice A :=
  match old, l with None, [] => None | _, _ => Some l end.

Lemma elems_to_slice {A} (old : slice A) l : elems (to_slice old l) = l.
Proof. by destruct old, l. Qed.

(** [reflect.DeepEqual] on values of a type with decidable equality. *)
Definition deep_equal `{EqDecision A} (x y : A) : bool := bool_decide (x = y).

(** Conversions and arithmetic at a machine width (two's complement). *)
Definition wrap_unsigned (w x : Z) : Z := x mod 2 ^ w.
Definition wrap_signed (w x : Z) : Z :=
  let y := x mod 2 ^ w in if y <? 2 ^ (w - 1) then y else y - 2 ^ w.

Definition to_uint32 : Z → Z := wrap_unsigned 32.
Definition to_uint64 : Z → Z := wrap_unsigned 64.
Definition to_int32 : Z → Z := wrap_signed 32.
Definition to_int64 : Z → Z := wrap_signed 64.

(** ** The state-and-panic monad *)

(** A Go call either returns or panics; in both cases the effects it had on
    the state so far remain. *)
Inductive outcome (A : Type) : Type :=
  | Ret (a : A)
  | Panic (why : string).
Arguments Ret {_} _.
Arguments Panic {_} _.

Definition GoM (S A : Type) : Type := S → outcome A * S.

#[export] Instance GoM_ret {S} : MRet (GoM S) := λ A a s, (Ret a, s).
#[export] Instance GoM_bind {S} : MBind (GoM S) := λ A B f m s,
  match m s with
  | (Ret a, s') => f a s'
  | (Panic why, s') => (Panic why, s')
  end.

Definition panic {S A} (why : string) : GoM S A := λ s, (Panic why, s).
Definition lift {S A} (f : S → A * S) : GoM S A := λ s, let '(a, s') := f s in (Ret a, s').

Definition nil_dereference : string :=
  "runtime error: invalid memory address or nil pointer dereference".

(** [*p] *)
Definition deref {S A} (p : option A) : GoM S A :=
  match p with Some a => mret a | None => panic nil_dereference end.

(** ** Weakest preconditions *)

(** [wpg pan m Q s]: running [m] from [s] either returns a value and a state
    that satisfy [Q], or panics and [pan] holds. With [pan := False] this is
    total correctness: the call returns and does not panic. *)
Definition wpg {S A} (pan : Prop) (m : GoM S A) (Q : A → S → Prop) (s : S) : Prop :=
  match m s with
  | (Ret a, s') => Q a s'
  | (Panic _, _) => pan
  end.

Abbreviation wp := (wpg False).
Abbreviation wlp := (wpg True).

Section wpg.
Context {S : Type} (pan : Prop).
Implicit Types s : S.

Lemma wpg_ret {A} (a : A) (Q : A → S → Prop) s : Q a s → wpg pan (mret a) Q s.
Proof. done. Qed.

Lemma wpg_bind {A B} (m : GoM S A) (f : A → GoM S B) Q s :
  wpg pan m (λ a, wpg pan (f a) Q) s → wpg pan (m ≫= f) Q s.
Proof. unfold wpg, mbind, GoM_bind. by destruct (m s) as [[a|] s']. Qed.

Lemma wpg_bind_inv {A B} (m : GoM S A) (f : A → GoM S B) Q s :
  wpg pan (m ≫= f) Q s → wpg pan m (λ a, wpg pan (f a) Q) s.
Proof. unfold wpg, mbind, GoM_bind. by destruct (m s) as [[a|] s']. Qed.

Lemma wpg_mono {A} (m : GoM S A) (Q1 Q2 : A → S → Prop) s :
  wpg pan m Q1 s → (∀ a s', Q1 a s' → Q2 a s') → wpg pan m Q2 s.
Proof. unfold wpg. destruct (m s) as [[a|] s']; auto. Qed.

Lemma wpg_and {A} (m : GoM S A) (Q1 Q2 : A → S → Prop) s :
  wpg pan m Q1 s → wpg pan m Q2 s → wpg pan m (λ a s', Q1 a s' ∧ Q2 a s') s.
Proof. unfold wpg. destruct (m s) as [[a|] s']; auto. Qed.

Lemma wpg_lift {A} (f : S → A * S) (Q : A → S → Prop) s :
  Q (f s).1 (f s).2 → wpg pan (lift f) Q s.
Proof. unfold wpg, lift. by destruct (f s). Qed.

Lemma wpg_deref {A} (p : option A) (a : A) (Q : A → S → Prop) s :
  p = Some a → Q a s → wpg pan (deref p) Q s.
Proof. by intros ->. Qed.
End wpg.

(** Total correctness gives the result of the run. *)
Lemma wp_run {S A} (m : GoM S A) (Q : A → S → Prop) s :
  wp m Q s → ∃ a s', m s = (Ret a, s') ∧ Q a s'.
Proof. unfold wpg. destruct (m s) as [[a|] s']; [by eauto|done]. Qed.

Lemma run_wp {S A} (m : GoM S A) (Q : A → S → Prop) s a s' :
  m s = (Ret a, s') → Q a s' → wp m Q s.
Proof. unfold wpg. by intros ->. Qed.

Lemma wlp_run {S A} (m : GoM S A) (Q : A → S → Prop) s a s' :
  wlp m Q s → m s = (Ret a, s') → Q a s'.
Proof. unfold wpg. intros HQ Hm. by rewrite Hm in HQ. Qed.

Lemma run_ret {S A} (a : A) (s : S) : (mret a : GoM S A) s = (Ret a, s).
Proof. done. Qed.

Lemma run_bind {S A B} (m : GoM S A) (f : A → GoM S B) s a s' :
  m s = (Ret a, s') → (m ≫= f) s = f a s'.
Proof. unfold mbind, GoM_bind. by intros ->. Qed.

Lemma run_bind_panic {S A B} (m : GoM S A) (f : A → GoM S B) s why s' :
  m s = (Panic why, s') → (m ≫= f) s = (Panic why, s').
Proof. unfold mbind, GoM_bind. by intros ->. Qed.

Lemma run_bind_inv {S A B} (m : GoM S A) (f : A → GoM S B) s b s' :
  (m ≫= f) s = (Ret b, s') → ∃ a s1, m s = (Ret a, s1) ∧ f a s1 = (Ret b, s').
Proof. unfold mbind, GoM_bind. destruct (m s) as [[a|] s1]; naive_solver. Qed.

Lemma run_lift {S A} (f : S → A * S) s : lift f s = (Ret (f s).1, (f s).2).
Proof. unfold lift. by destruct (f s). Qed.

(** One step of symbolic execution of a [wpg] goal. *)
Ltac wp_step :=
  match goal with
  | |- wpg _ (mbind _ _) _ _ => apply wpg_bind
  | |- wpg _ (mret _) _ _ => apply wpg_ret
  | |- wpg _ (lift _) _ _ => apply wpg_lift
  | |- wpg _ (deref (Some _)) _ _ => eapply wpg_deref; [reflexivity|]
  | |- wpg _ (let '(_, _) := ?x in _) _ _ => destruct x eqn:?
  | |- wpg _ (match ?x with _ => _ end) _ _ => destruct x eqn:?
  end.
Ltac wp_steps := repeat (wp_step; simpl).

(** ** Lists *)

(** The first index at which [f] holds: the [for i, a := range l] search. *)
Fixpoint find_index {A} (f : A → bool) (l : list A) : option nat :=
  match l with
  | [] => None
  | a :: l' => if f a then Some 0%nat else S <$> find_index f l'
  end.

Lemma find_index_Some {A} (f : A → bool) l i :
  find_index f l = Some i →
  ∃ a, l !! i = Some a ∧ f a = true ∧ ∀ j b, (j < i)%nat → l !! j = Some b → f b = false.
Proof.
  revert i. induction l as [|x l IH]; intros i H; simpl in H; [done|].
  destruct (f x) eqn:Hx.
  - injection H as <-. exists x. repeat split; auto. intros; lia.
  - destruct (find_index f l) as [k|] eqn:Hk; [|done]. simpl in H. injection H as <-.
    destruct (IH k eq_refl) as (a & Ha & Hfa & Hmin). exists a. repeat split; auto.
    intros [|j] b Hj Hb; simpl in Hb; [congruence|]. eapply Hmin; [|done]. lia.
Qed.

Lemma find_index_None {A} (f : A → bool) l :
  find_index f l = None ↔ ∀ a, a ∈ l → f a = false.
Proof.
  induction l as [|x l IH]; simpl.
  - split; [|done]. intros _ a Ha. by apply elem_of_nil in Ha.
  - destruct (f x) eqn:Hx.
    + split; [done|]. intros H. specialize (H x). rewrite Hx in H.
      by discriminate H; left.
    + rewrite fmap_None, IH. split.
      * intros H a [->|Ha]%elem_of_cons; auto.
      * intros H a Ha. apply H. by right.
Qed.

Lemma forallb_True_iff {A} (f : A → bool) l :
  forallb f l = true ↔ ∀ a, a ∈ l → f a = true.
Proof. rewrite forallb_forall. by setoid_rewrite <- list_elem_of_In. Qed.

(** ** Shared tactics *)

(** Case analysis on the innermost [match] or [if] of the goal. *)
Ltac case_go := repeat (case_match; simplify_eq/=; try done).

Create HintDb go discriminated.
#[export] Hint Resolve wpg_ret : go.
