(* ===== verification/GoStrings.v ===== *)
(** Byte strings and the functions of Go's package strings that the program uses on
    text it parses: HasPrefix, HasSuffix, Index, Fields, TrimSpace, SplitN with two
    parts, Join. A Go string is its list of bytes. *)

From Stdlib Require Import Ascii.
From S2P Require Import Prelude.
From stdpp Require Import options.

Abbreviation bytes := (list ascii).
Abbreviation to_bytes := String.list_ascii_of_string.
Abbreviation of_bytes := String.string_of_list_ascii.

Definition byte (z : Z) : ascii := ascii_of_N (Z.to_N z).
Definition code (c : ascii) : Z := Z.of_N (N_of_ascii c).

(** strings.HasPrefix, strings.HasSuffix *)
Fixpoint has_prefix (p l : bytes) : bool :=
  match p, l with
  | [], _ => true
  | a :: p', b :: l' => bool_decide (a = b) && has_prefix p' l'
  | _ :: _, [] => false
  end.

Definition has_suffix (p l : bytes) : bool := has_prefix (rev p) (rev l).

(** strings.Index: where [sep] first occurs. *)
Fixpoint index (sep l : bytes) : option nat :=
  if has_prefix sep l then Some 0%nat
  else match l with [] => None | _ :: l' => S <$> index sep l' end.

(** The encodings of the characters for which unicode.IsSpace holds. None of them
    has a byte that can stand inside another character before its last byte, so a
    text is searched for them byte by byte. *)
Definition white_space : list bytes :=
  List.map (List.map byte)
    ([[9]; [10]; [11]; [12]; [13]; [32]; [194; 133]; [194; 160]; [225; 154; 128]] ++
     List.map (λ z, [226; 128; z])
       [128; 129; 130; 131; 132; 133; 134; 135; 136; 137; 138; 168; 169; 175] ++
     [[226; 129; 159]; [227; 128; 128]]).

(** The white space that [l] starts with. *)
Definition space_at (l : bytes) : option bytes := List.find (λ p, has_prefix p l) white_space.

Definition emit (cur : bytes) : list bytes := match cur with [] => [] | _ => [cur] end.

(** strings.Fields: [cur] is the field read so far, [skip] the bytes left of a white
    space. *)
Fixpoint fields_from (skip : nat) (cur l : bytes) : list bytes :=
  match l with
  | [] => emit cur
  | c :: l' =>
      match skip with
      | S skip' => fields_from skip' cur l'
      | O =>
          match space_at l with
          | Some p => emit cur ++ fields_from (length p - 1) [] l'
          | None => fields_from 0 (cur ++ [c]) l'
          end
      end
  end.

Definition fields (l : bytes) : list bytes := fields_from 0 [] l.

(** strings.TrimSpace: [trim_start] of the text and of the text read backwards. *)
Fixpoint trim_start_skip (skip : nat) (patterns : list bytes) (l : bytes) : bytes :=
  match l with
  | [] => []
  | _ :: l' =>
      match skip with
      | S skip' => trim_start_skip skip' patterns l'
      | O =>
          match List.find (λ p, has_prefix p l) patterns with
          | Some p => trim_start_skip (length p - 1) patterns l'
          | None => l
          end
      end
  end.

Definition trim_space (l : bytes) : bytes :=
  rev (trim_start_skip 0 (List.map (@rev ascii) white_space)
         (rev (trim_start_skip 0 white_space l))).

(** strings.SplitN(s, sep, 2): one part, or the two parts around the first [sep]. *)
Definition split_n2 (sep l : bytes) : list bytes :=
  match index sep l with
  | None => [l]
  | Some i => [take i l; drop (i + length sep) l]
  end.

(** strings.Join(fs, " ") *)
Fixpoint join_spaces (fs : list bytes) : bytes :=
  match fs with
  | [] => []
  | [f] => f
  | f :: fs' => f ++ " "%char :: join_spaces fs'
  end.

(** ** Prefixes and the first occurrence *)

Lemma code_byte z : 0 <= z < 256 → code (byte z) = z.
Proof. intros Hz. unfold code, byte. rewrite N_ascii_embedding; lia. Qed.

Lemma byte_code c : byte (code c) = c.
Proof. unfold code, byte. rewrite N2Z.id. apply ascii_N_embedding. Qed.

Lemma code_bounds c : 0 <= code c < 256.
Proof. unfold code. pose proof (N_ascii_bounded c). lia. Qed.

Lemma to_of_bytes l : to_bytes (of_bytes l) = l.
Proof. apply String.list_ascii_of_string_of_list_ascii. Qed.

Lemma of_to_bytes s : of_bytes (to_bytes s) = s.
Proof. apply String.string_of_list_ascii_of_string. Qed.

Lemma to_bytes_app s t : to_bytes (s +:+ t) = to_bytes s ++ to_bytes t.
Proof. induction s as [|c s IH]; [done|]. cbn. by rewrite <- IH. Qed.

Lemma has_prefix_iff p l : has_prefix p l = true ↔ p `prefix_of` l.
Proof.
  revert l. induction p as [|a p IH]; intros l; cbn.
  { split; [intros _; apply prefix_nil|done]. }
  destruct l as [|b l]; [split; [done|intros Hp; by apply prefix_nil_not in Hp]|].
  rewrite andb_true_iff, bool_decide_eq_true, IH. split.
  - intros [-> Hp]. by apply prefix_cons.
  - intros Hp. split; [by eapply prefix_cons_inv_1|by eapply prefix_cons_inv_2].
Qed.

(** The first index at which [sep] occurs. *)
Lemma index_Some sep l i :
  index sep l = Some i ↔
  (i <= length l)%nat ∧ sep `prefix_of` drop i l ∧ ∀ j, (j < i)%nat → ¬ sep `prefix_of` drop j l.
Proof.
  revert i. induction l as [|c l IH]; intros i; cbn [index];
    destruct (has_prefix sep _) eqn:Hp.
  - split; [intros [= <-]|intros (Hi & _)].
    + split_and!; [cbn; lia|by apply has_prefix_iff|intros j Hj; lia].
    + f_equal. cbn in Hi. lia.
  - split; [done|]. intros (Hi & Hp' & _). cbn in Hi. replace i with 0%nat in Hp' by lia.
    apply has_prefix_iff in Hp'. cbn in *. congruence.
  - split; [intros [= <-]|intros (Hi & _ & Hmin)].
    + split_and!; [cbn; lia|by apply has_prefix_iff|intros j Hj; lia].
    + destruct i as [|i]; [done|]. destruct (Hmin 0%nat); [lia|by apply has_prefix_iff].
  - rewrite fmap_Some. split.
    + intros (k & Hk & ->). apply IH in Hk as (Hi & Hk & Hmin).
      split_and!; [cbn; lia|done|]. intros [|j] Hj; [|apply Hmin; lia].
      intros Hc%has_prefix_iff. cbn in Hc. congruence.
    + intros (Hi & Hk & Hmin). destruct i as [|i].
      { apply has_prefix_iff in Hk. cbn in Hk. congruence. }
      exists i. split; [|done]. apply IH. split_and!; [cbn in Hi; lia|done|].
      intros j Hj. apply (Hmin (S j)). lia.
Qed.

Lemma index_None sep l : index sep l = None ↔ ∀ i, (i <= length l)%nat → ¬ sep `prefix_of` drop i l.
Proof.
  split.
  - induction l as [|c l IH]; cbn [index]; destruct (has_prefix sep _) eqn:Hp; try done.
    + intros _ i Hi Hc. cbn in Hi. replace i with 0%nat in Hc by lia.
      apply has_prefix_iff in Hc. cbn in *. congruence.
    + intros Hn%fmap_None [|i] Hi Hc; [apply has_prefix_iff in Hc; cbn in *; congruence|].
      apply (IH Hn i); [cbn in Hi; lia|done].
  - intros Hn. destruct (index sep l) as [i|] eqn:Hi; [|done].
    apply index_Some in Hi as (Hi & Hp & _). by destruct (Hn i).
Qed.

(** An occurrence of one byte. *)
Lemma index_byte c l1 l2 : c ∉ l1 → index [c] (l1 ++ c :: l2) = Some (length l1).
Proof.
  intros Hc. apply index_Some. split_and!; [rewrite length_app; lia| |].
  - rewrite drop_app_length. apply (prefix_app_r [c] [c]). done.
  - intros j Hj (t & Ht). apply Hc, list_elem_of_lookup. exists j.
    pose proof (lookup_drop (l1 ++ c :: l2) j 0) as Hl. rewrite Ht, Nat.add_0_r in Hl.
    rewrite (lookup_app_l l1) in Hl by done. by rewrite <- Hl.
Qed.

(** ** Fields *)

(** A byte string in which no white space starts. *)
Definition spaceless (l : bytes) : Prop := ∀ i, (i < length l)%nat → space_at (drop i l) = None.

Definition spacelessb (l : bytes) : bool :=
  forallb (λ i, match space_at (drop i l) with None => true | Some _ => false end)
    (seq 0 (length l)).

Lemma spacelessb_iff l : spacelessb l = true ↔ spaceless l.
Proof.
  unfold spacelessb. rewrite forallb_True_iff. unfold spaceless. split.
  - intros Hf i Hi. specialize (Hf i). rewrite elem_of_seq in Hf.
    specialize (Hf ltac:(lia)). by destruct (space_at _).
  - intros Hs i Hi. apply elem_of_seq in Hi. by rewrite Hs by lia.
Qed.

Lemma space_at_iff l : space_at l = None ↔ ∀ p, p ∈ white_space → ¬ p `prefix_of` l.
Proof.
  unfold space_at. split.
  - intros Hf p Hp Hl. apply list_elem_of_In in Hp.
    pose proof (List.find_none _ _ Hf p Hp) as Hn. apply has_prefix_iff in Hl. cbn in Hn. congruence.
  - intros Hf. destruct (List.find _ _) as [p|] eqn:Hp; [|done].
    apply List.find_some in Hp as [Hin Hp]. apply has_prefix_iff in Hp.
    apply list_elem_of_In in Hin. by destruct (Hf p).
Qed.

(** White space does not contain a blank but the blank itself. *)
Lemma white_space_blank : Forall (λ p, " "%char ∉ tail p) white_space.
Proof.
  apply (Forall_impl (λ p, forallb (λ c, bool_decide (c ≠ " "%char)) (tail p) = true)).
  - repeat (constructor; [vm_compute; reflexivity|]). constructor.
  - intros p Hf Hc. rewrite forallb_True_iff in Hf. specialize (Hf _ Hc).
    by apply bool_decide_eq_true in Hf.
Qed.

Lemma prefix_stop {A} (p l r : list A) x :
  l ≠ [] → x ∉ tail p → p `prefix_of` l ++ x :: r → p `prefix_of` l.
Proof.
  destruct l as [|a l]; [done|]. intros _ Hx Hp. destruct p as [|b p]; [apply prefix_nil|].
  cbn in *. pose proof (prefix_cons_inv_1 _ _ _ _ Hp) as ->. apply prefix_cons_inv_2 in Hp.
  apply prefix_cons. revert l Hp. induction p as [|b p IH]; intros l Hp; [apply prefix_nil|].
  destruct l as [|a' l].
  - cbn in Hp. pose proof (prefix_cons_inv_1 _ _ _ _ Hp) as ->. destruct Hx. by left.
  - cbn in Hp. pose proof (prefix_cons_inv_1 _ _ _ _ Hp) as ->. apply prefix_cons_inv_2 in Hp.
    apply prefix_cons, IH; [|done]. intros Hc. apply Hx. by right.
Qed.

Lemma space_at_stop l r : l ≠ [] → space_at l = None → space_at (l ++ " "%char :: r) = None.
Proof.
  intros Hl Hs. rewrite space_at_iff in Hs. apply space_at_iff. intros p Hp Hpre.
  apply (Hs p Hp). eapply prefix_stop; [done| |exact Hpre].
  exact (proj1 (Forall_forall _ _) white_space_blank p Hp).
Qed.

Lemma space_at_blank l : space_at (" "%char :: l) = Some [" "%char].
Proof. vm_compute. reflexivity. Qed.

(** A field is read up to the blank after it, or to the end. *)
Lemma fields_from_field cur f r :
  spaceless f → fields_from 0 cur (f ++ " "%char :: r) = emit (cur ++ f) ++ fields r.
Proof.
  revert cur. induction f as [|c f IH]; intros cur Hf.
  - cbn -[space_at]. rewrite space_at_blank, app_nil_r. done.
  - pose proof (space_at_stop (c :: f) r ltac:(done) (Hf 0%nat ltac:(cbn; lia))) as Hs.
    cbn -[space_at] in *. rewrite Hs, IH; [by rewrite <- app_assoc|].
    intros i Hi. apply (Hf (S i)). cbn. lia.
Qed.

Lemma fields_from_last cur f : spaceless f → fields_from 0 cur f = emit (cur ++ f).
Proof.
  revert cur. induction f as [|c f IH]; intros cur Hf.
  - cbn. by rewrite app_nil_r.
  - pose proof (Hf 0%nat ltac:(cbn; lia)) as Hs. cbn -[space_at] in *. rewrite Hs, IH; [by rewrite <- app_assoc|].
    intros i Hi. apply (Hf (S i)). cbn. lia.
Qed.

(** Words: what Fields can produce. *)
Definition word (f : bytes) : Prop := f ≠ [] ∧ spaceless f.

Lemma fields_cons f r : word f → fields (f ++ " "%char :: r) = f :: fields r.
Proof.
  intros [Hf Hs]. unfold fields. rewrite fields_from_field by done.
  by destruct f.
Qed.

(** Fields undoes Join of words. *)
Lemma fields_join fs : Forall word fs → fields (join_spaces fs) = fs.
Proof.
  induction fs as [|f fs IH]; intros Hw; [done|]. apply Forall_cons in Hw as [Hf Hw].
  destruct fs as [|g fs].
  - cbn. destruct Hf as [Hne Hf]. unfold fields. rewrite fields_from_last by done. by destruct f.
  - change (join_spaces (f :: g :: fs)) with (f ++ " "%char :: join_spaces (g :: fs)).
    rewrite fields_cons, IH; done.
Qed.

(** No field contains a blank, or is empty. *)
Lemma fields_no_blank l : Forall (λ f, f ≠ [] ∧ " "%char ∉ f) (fields l).
Proof.
  unfold fields.
  assert (Hg : ∀ skip cur, " "%char ∉ cur →
    Forall (λ f, f ≠ [] ∧ " "%char ∉ f) (fields_from skip cur l)).
  { assert (He : ∀ cur, " "%char ∉ cur → Forall (λ f, f ≠ [] ∧ " "%char ∉ f) (emit cur)).
    { intros [|c cur] Hc; cbn; [constructor|by repeat constructor]. }
    induction l as [|c l IH]; intros skip cur Hc; cbn -[space_at]; [by apply He|].
    destruct skip as [|skip]; [|by apply IH].
    destruct (space_at (c :: l)) as [p|] eqn:Hs.
    - apply Forall_app. split; [by apply He|]. apply IH. apply not_elem_of_nil.
    - apply IH. rewrite elem_of_app, list_elem_of_singleton. intros [?|<-]; [done|].
      by rewrite space_at_blank in Hs. }
  apply Hg, not_elem_of_nil.
Qed.
