(* ===== verification/Base64.v ===== *)
(** The two base64 decoders of Go's encoding/base64 that pull secrets go through,
    StdEncoding and RawStdEncoding (RFC 4648 with and without padding; neither is
    strict about the unused bits, both skip line breaks), the encoder, and that
    decoding undoes encoding. *)

From Stdlib Require Import Ascii.
From S2P Require Import Prelude GoStrings.
From stdpp Require Import options.
#[local] Set Default Proof Using "Type*".

(** ** The alphabet *)

Definition alphabet : bytes :=
  to_bytes "ABCDEFGHIJKLMNOPQRSTUVWXYZabcdefghijklmnopqrstuvwxyz0123456789+/".

(** decodeMap *)
Definition digit_of (c : ascii) : option Z :=
  let z := code c in
  if (65 <=? z) && (z <=? 90) then Some (z - 65)
  else if (97 <=? z) && (z <=? 122) then Some (z - 71)
  else if (48 <=? z) && (z <=? 57) then Some (z + 4)
  else if z =? 43 then Some 62
  else if z =? 47 then Some 63
  else None.

Definition char_of (d : Z) : ascii := nth (Z.to_nat d) alphabet "A"%char.

Definition pad_char : ascii := "="%char.
Definition is_newline (c : ascii) : bool := bool_decide (c = byte 10 ∨ c = byte 13).

(** CorruptInputError *)
Definition corrupt (at_ : Z) : error := "illegal base64 data at input byte " +:+ pretty at_.

(** ** Decoding *)

(** The bytes that the digits [dbuf] of a quantum stand for: one less than digits. *)
Definition quantum (dbuf : list Z) : bytes :=
  let d i := nth i dbuf 0 in
  let val := Z.lor (Z.shiftl (d 0%nat) 18) (Z.lor (Z.shiftl (d 1%nat) 12)
               (Z.lor (Z.shiftl (d 2%nat) 6) (d 3%nat))) in
  take (length dbuf - 1)
    [byte (Z.land (Z.shiftr val 16) 255); byte (Z.land (Z.shiftr val 8) 255);
     byte (Z.land val 255)].

Fixpoint skip_newlines (si : Z) (src : bytes) : Z * bytes :=
  match src with
  | c :: src' => if is_newline c then skip_newlines (si + 1) src' else (si, src)
  | [] => (si, [])
  end.

(** What follows the first padding byte, which was read after [j] digits: a second
    one after two digits, and then nothing but line breaks. *)
Definition padding_ok (j : nat) (si : Z) (src : bytes) : option error :=
  let trailing '(si, src) :=
    match skip_newlines si src with
    | (_, []) => None
    | (si, _) => Some (corrupt si)
    end in
  match j with
  | 0%nat | 1%nat => Some (corrupt (si - 1))
  | 2%nat =>
      match skip_newlines si src with
      | (si, []) => Some (corrupt si)
      | (si, c :: src') =>
          if decide (c = pad_char) then trailing (si + 1, src') else Some (corrupt (si - 1))
      end
  | _ => trailing (si, src)
  end.

(** Encoding.Decode from position [si], with the digits [dbuf] of the quantum read so
    far. *)
Fixpoint decode_from (padded : bool) (dbuf : list Z) (si : Z) (src : bytes) : result bytes :=
  match src with
  | [] =>
      match length dbuf with
      | 0%nat => Ok []
      | j =>
          if bool_decide (j = 1%nat) || padded then Err (corrupt (si - Z.of_nat j))
          else Ok (quantum dbuf)
      end
  | c :: src' =>
      match digit_of c with
      | Some d =>
          if decide (length dbuf = 3%nat) then
            match decode_from padded [] (si + 1) src' with
            | Ok rest => Ok (quantum (dbuf ++ [d]) ++ rest)
            | Err err => Err err
            end
          else decode_from padded (dbuf ++ [d]) (si + 1) src'
      | None =>
          if is_newline c then decode_from padded dbuf (si + 1) src'
          else if decide (padded = true ∧ c = pad_char) then
            match padding_ok (length dbuf) (si + 1) src' with
            | Some err => Err err
            | None => Ok (quantum dbuf)
            end
          else Err (corrupt si)
      end
  end.

(** base64.StdEncoding.DecodeString, base64.RawStdEncoding.DecodeString *)
Definition StdEncoding_DecodeString : bytes → result bytes := decode_from true [] 0.
Definition RawStdEncoding_DecodeString : bytes → result bytes := decode_from false [] 0.

(** ** Encoding *)

(** The encoder, with and without padding: three bytes are four digits. *)
Definition chars (ds : list Z) : bytes := char_of <$> ds.

Fixpoint encode (padded : bool) (src : bytes) : bytes :=
  match src with
  | [] => []
  | [a] =>
      chars [code a / 4; code a mod 4 * 16] ++ (if padded then [pad_char; pad_char] else [])
  | [a; b] =>
      chars [code a / 4; code a mod 4 * 16 + code b / 16; code b mod 16 * 4] ++
      (if padded then [pad_char] else [])
  | a :: b :: c :: src' =>
      chars [code a / 4; code a mod 4 * 16 + code b / 16; code b mod 16 * 4 + code c / 64;
             code c mod 64] ++ encode padded src'
  end.

(** ** Decoding undoes encoding *)

Lemma digit_of_char d : 0 <= d < 64 → digit_of (char_of d) = Some d.
Proof.
  intros Hd.
  assert (Hall : Forall (λ n, digit_of (char_of (Z.of_nat n)) = Some (Z.of_nat n)) (seq 0 64)).
  { repeat (constructor; [vm_compute; reflexivity|]). constructor. }
  rewrite Forall_forall in Hall. specialize (Hall (Z.to_nat d)).
  rewrite Z2Nat.id in Hall by lia. apply Hall, elem_of_seq. lia.
Qed.

Lemma pad_char_no_digit : digit_of pad_char = None.
Proof. reflexivity. Qed.

(** A full quantum of encoded digits. *)
Lemma decode_digit padded dbuf si d src :
  0 <= d < 64 → length dbuf ≠ 3%nat →
  decode_from padded dbuf si (char_of d :: src) = decode_from padded (dbuf ++ [d]) (si + 1) src.
Proof.
  intros Hd Hl. cbn [decode_from]. rewrite digit_of_char by done.
  by destruct (decide (length dbuf = 3%nat)).
Qed.

Lemma decode_last_digit padded dbuf si d src :
  0 <= d < 64 → length dbuf = 3%nat →
  decode_from padded dbuf si (char_of d :: src) =
  match decode_from padded [] (si + 1) src with
  | Ok rest => Ok (quantum (dbuf ++ [d]) ++ rest)
  | Err err => Err err
  end.
Proof.
  intros Hd Hl. cbn [decode_from]. rewrite digit_of_char by done.
  by destruct (decide (length dbuf = 3%nat)).
Qed.

(** The value of the digits of a quantum, as a sum. *)
Lemma quantum_val d0 d1 d2 d3 :
  0 <= d0 < 64 → 0 <= d1 < 64 → 0 <= d2 < 64 → 0 <= d3 < 64 →
  Z.lor (Z.shiftl d0 18) (Z.lor (Z.shiftl d1 12) (Z.lor (Z.shiftl d2 6) d3)) =
  d0 * 2 ^ 18 + d1 * 2 ^ 12 + d2 * 2 ^ 6 + d3.
Proof.
  intros H0 H1 H2 H3.
  assert (Hadd : ∀ a b n, 0 <= n → 0 <= b < 2 ^ n → Z.lor (Z.shiftl a n) b = a * 2 ^ n + b).
  { intros a b n Hn Hb. rewrite <- Z.shiftl_mul_pow2 by done.
    rewrite <- Z.add_lor_land. replace (Z.land _ _) with 0; [lia|]. symmetry.
    apply Z.bits_inj'. intros k Hk. rewrite Z.land_spec, Z.bits_0.
    destruct (decide (k < n)); [by rewrite Z.shiftl_spec_low by done|].
    rewrite <- (Z.mod_small b (2 ^ n)) by done. rewrite Z.mod_pow2_bits_high by lia.
    apply andb_false_r. }
  rewrite (Hadd d2 d3 6), (Hadd d1 _ 12), (Hadd d0 _ 18) by lia. lia.
Qed.

Lemma byte_at v k : 0 <= k → byte (Z.land (Z.shiftr v k) 255) = byte (v / 2 ^ k mod 256).
Proof.
  intros Hk. change 255 with (Z.ones 8). rewrite Z.land_ones, Z.shiftr_div_pow2 by lia. done.
Qed.

(** Digits that encode three bytes decode to them, and so do those of two and of one,
    whose unused bits are zero. *)
Lemma quantum_3 a b c :
  quantum [code a / 4; code a mod 4 * 16 + code b / 16; code b mod 16 * 4 + code c / 64;
           code c mod 64] = [a; b; c].
Proof.
  pose proof (code_bounds a). pose proof (code_bounds b). pose proof (code_bounds c).
  unfold quantum. cbn [nth length Nat.sub take].
  rewrite quantum_val by (Z.to_euclidean_division_equations; lia).
  rewrite !byte_at by lia. rewrite <- (Z.shiftr_0_r (_ + code c mod 64)) at 3.
  rewrite byte_at by lia. set (v := _ + code c mod 64).
  assert (Hv : v = code a * 2 ^ 16 + code b * 2 ^ 8 + code c)
    by (unfold v; Z.to_euclidean_division_equations; lia).
  f_equal; [|f_equal; [|f_equal]].
  - etrans; [|apply (byte_code a)]. f_equal. rewrite Hv. clear Hv v. Z.to_euclidean_division_equations; lia.
  - etrans; [|apply (byte_code b)]. f_equal. rewrite Hv. clear Hv v. Z.to_euclidean_division_equations; lia.
  - etrans; [|apply (byte_code c)]. f_equal. rewrite Hv. clear Hv v. Z.to_euclidean_division_equations; lia.
Qed.

Lemma quantum_2 a b :
  quantum [code a / 4; code a mod 4 * 16 + code b / 16; code b mod 16 * 4] = [a; b].
Proof.
  pose proof (quantum_3 a b (byte 0)) as Hq. rewrite code_byte in Hq by lia.
  change (0 / 64) with 0 in Hq. change (0 mod 64) with 0 in Hq. rewrite Z.add_0_r in Hq.
  unfold quantum in *. cbn [nth length Nat.sub take] in *. congruence.
Qed.

Lemma quantum_1 a : quantum [code a / 4; code a mod 4 * 16] = [a].
Proof.
  pose proof (quantum_2 a (byte 0)) as Hq. rewrite code_byte in Hq by lia.
  change (0 / 16) with 0 in Hq. change (0 mod 16 * 4) with 0 in Hq. rewrite Z.add_0_r in Hq.
  unfold quantum in *. cbn [nth length Nat.sub take] in *. congruence.
Qed.

Ltac decode_digits :=
  repeat (rewrite decode_digit;
          [|Z.to_euclidean_division_equations; lia|cbn; lia]; cbn [app]).

(** What is decoded after the digits of one or two bytes. *)
Lemma decode_padding dbuf si :
  decode_from true dbuf si [pad_char] =
  match padding_ok (length dbuf) (si + 1) [] with
  | Some err => Err err
  | None => Ok (quantum dbuf)
  end.
Proof. reflexivity. Qed.

Lemma decode_encode_from padded n src si :
  (length src <= n)%nat → decode_from padded [] si (encode padded src) = Ok src.
Proof.
  revert src si. induction n as [|n IH]; intros src si Hn.
  { destruct src; [done|cbn in Hn; lia]. }
  destruct src as [|a [|b [|c src]]]; [done| | |];
    pose proof (code_bounds a); try (pose proof (code_bounds b)); try (pose proof (code_bounds c));
    unfold encode; fold encode; cbn [chars fmap list_fmap app].
  - decode_digits. destruct padded; cbn [app].
    + cbn -[quantum]. by rewrite quantum_1.
    + cbn -[quantum]. by rewrite quantum_1.
  - decode_digits. destruct padded; cbn [app].
    + cbn -[quantum]. by rewrite quantum_2.
    + cbn -[quantum]. by rewrite quantum_2.
  - do 3 (rewrite decode_digit;
      [|Z.to_euclidean_division_equations; lia|cbn; lia]; cbn [app]).
    rewrite decode_last_digit; [|Z.to_euclidean_division_equations; lia|done]. cbn [app].
    rewrite IH by (cbn in Hn; lia). by rewrite quantum_3.
Qed.

Lemma decode_encode padded src : decode_from padded [] 0 (encode padded src) = Ok src.
Proof. by eapply decode_encode_from. Qed.

(** The encoding of a text ends in a padding byte, or needs none. *)
Lemma encode_raw_no_pad src : pad_char ∉ encode false src.
Proof.
  assert (Hc : ∀ d, 0 <= d < 64 → pad_char ≠ char_of d).
  { intros d Hd Heq. pose proof (digit_of_char d Hd) as Hn. by rewrite <- Heq in Hn. }
  assert (Hn : ∀ n src, (length src <= n)%nat → pad_char ∉ encode false src);
    [|by eapply Hn].
  clear src. induction n as [|n IH]; intros src Hn.
  { destruct src; [apply not_elem_of_nil|cbn in Hn; lia]. }
  destruct src as [|a [|b [|c src]]]; [apply not_elem_of_nil| | |];
    pose proof (code_bounds a); try (pose proof (code_bounds b)); try (pose proof (code_bounds c));
    unfold encode; fold encode; cbn [chars fmap list_fmap app]; rewrite ?not_elem_of_cons;
    split_and?; try apply not_elem_of_nil;
    try (apply Hc; Z.to_euclidean_division_equations; lia).
  apply IH. cbn in Hn. lia.
Qed.

(** ** The text of an encoding *)

Definition b64_chars : bytes := pad_char :: alphabet.

Lemma char_of_alphabet d : char_of d ∈ b64_chars.
Proof.
  unfold char_of. right. destruct (decide (Z.to_nat d < length alphabet)%nat).
  - by apply list_elem_of_In, nth_In.
  - rewrite nth_overflow by lia. apply list_elem_of_In. cbn. by left.
Qed.

Lemma encode_chars padded src : Forall (λ c, c ∈ b64_chars) (encode padded src).
Proof.
  assert (Hc : ∀ ds, Forall (λ c, c ∈ b64_chars) (chars ds)).
  { intros ds. apply Forall_fmap, Forall_true. intros d. apply char_of_alphabet. }
  assert (Hp : pad_char ∈ b64_chars) by (by left).
  assert (Hn : ∀ n src, (length src <= n)%nat → Forall (λ c, c ∈ b64_chars) (encode padded src));
    [|by eapply Hn].
  clear src. induction n as [|n IH]; intros src Hn.
  { destruct src; [constructor|cbn in Hn; lia]. }
  destruct src as [|a [|b [|c src]]]; [constructor| | |]; unfold encode; fold encode;
    apply Forall_app; (split; [apply Hc|]); [destruct padded; by repeat constructor..|].
  apply IH. cbn in Hn. lia.
Qed.

(** Without padding at its end, a padded encoding is the unpadded one. *)
Lemma encode_padded_raw src :
  encode true src = encode false src ∨ ∃ l, encode true src = l ++ [pad_char].
Proof.
  assert (Hn : ∀ n src, (length src <= n)%nat →
    encode true src = encode false src ∨ ∃ l, encode true src = l ++ [pad_char]);
    [|by eapply Hn].
  clear src. induction n as [|n IH]; intros src Hn.
  { destruct src; [by left|cbn in Hn; lia]. }
  destruct src as [|a [|b [|c src]]]; [by left| | |]; unfold encode; fold encode.
  - right. eexists (_ ++ [pad_char]). by rewrite <- app_assoc.
  - right. by eexists.
  - destruct (IH src ltac:(cbn in Hn; lia)) as [->|[l ->]]; [by left|].
    right. eexists. by rewrite app_assoc.
Qed.

Lemma trim_start_id patterns c l :
  (∀ p, p ∈ patterns → p ≠ [] ∧ ∀ a, head p = Some a → a ≠ c) →
  trim_start_skip 0 patterns (c :: l) = c :: l.
Proof.
  intros Hp. cbn. destruct (List.find _ _) as [p|] eqn:Hf; [|done].
  apply List.find_some in Hf as [Hin Hf]. apply list_elem_of_In in Hin.
  destruct (Hp p Hin) as [Hne Hh]. destruct p as [|a p]; [done|].
  apply has_prefix_iff in Hf. apply prefix_cons_inv_1 in Hf. by destruct (Hh a).
Qed.

(** The characters of an encoding are at no end of a white space. *)
Lemma b64_not_space ps c :
  forallb (λ p, match p with [] => false | a :: _ => bool_decide (a ∉ b64_chars) end) ps = true →
  c ∈ b64_chars → ∀ p, p ∈ ps → p ≠ [] ∧ ∀ a, head p = Some a → a ≠ c.
Proof.
  intros Hf Hc p Hp. rewrite forallb_True_iff in Hf. specialize (Hf p Hp).
  destruct p as [|a p]; [done|]. apply bool_decide_eq_true in Hf. split; [done|].
  intros a' [= <-] ->. done.
Qed.

Lemma trim_space_b64 l : Forall (λ c, c ∈ b64_chars) l → trim_space l = l.
Proof.
  assert (Ht : ∀ ps l, forallb (λ p, match p with [] => false
      | a :: _ => bool_decide (a ∉ b64_chars) end) ps = true →
    Forall (λ c, c ∈ b64_chars) l → trim_start_skip 0 ps l = l).
  { intros ps [|c l'] Hps Hl; [done|]. apply trim_start_id.
    apply b64_not_space; [done|]. by apply Forall_cons in Hl as [??]. }
  intros Hl. unfold trim_space. rewrite (Ht white_space l); [|vm_compute; reflexivity|done].
  rewrite Ht; [apply rev_involutive|vm_compute; reflexivity|].
  apply Forall_rev. done.
Qed.
