(* ===== verification/ApiTypes.v ===== *)
(** The API objects of apis/v1alpha1: the specification the user writes, the
    per-node state the agent keeps, their status strings and conditions.

    A Go string type with named constants ([EBPFProgType], [LinkStatus], ...)
    is a [string] with the same constants, because a value read from the API
    server need not be one of them. A pointer is an [option]. Go structs that
    differ only in their element type share one parameterised record, and each
    Go name is a definition of it. *)

From S2P Require Import Prelude.
From stdpp Require Import options.

(** ** metav1: the fields of third-party types the operator reads or writes *)

Record OwnerReference := mkOwnerReference {
  or_Kind : string;
  or_Name : string;
  or_UID : string;
  or_Controller : option bool;
}.

Record ObjectMeta := mkObjectMeta {
  om_Name : string;
  om_Namespace : string;
  om_UID : string;
  om_ResourceVersion : string;
  om_DeletionTimestamp : option Z;
  om_Labels : gmap string string;
  om_Annotations : gmap string string;
  om_OwnerReferences : list OwnerReference;
  om_Finalizers : list string;
}.

Definition emptyObjectMeta : ObjectMeta := mkObjectMeta "" "" "" "" None ∅ ∅ [] [].

Definition set_Finalizers (f : list string) (m : ObjectMeta) : ObjectMeta :=
  mkObjectMeta (om_Name m) (om_Namespace m) (om_UID m) (om_ResourceVersion m)
    (om_DeletionTimestamp m) (om_Labels m) (om_Annotations m) (om_OwnerReferences m) f.

Definition set_OwnerReferences (o : list OwnerReference) (m : ObjectMeta) : ObjectMeta :=
  mkObjectMeta (om_Name m) (om_Namespace m) (om_UID m) (om_ResourceVersion m)
    (om_DeletionTimestamp m) (om_Labels m) (om_Annotations m) o (om_Finalizers m).

Record LabelSelectorRequirement := mkLabelSelectorRequirement {
  lsr_Key : string;
  lsr_Operator : string;
  lsr_Values : list string;
}.

Record LabelSelector := mkLabelSelector {
  MatchLabels : gmap string string;
  MatchExpressions : list LabelSelectorRequirement;
}.

(** [LastTransitionTime] is [None] for the zero time. *)
Record Condition := mkCondition {
  cond_Type : string;
  cond_Status : string;
  cond_ObservedGeneration : Z;
  cond_LastTransitionTime : option Z;
  cond_Reason : string;
  cond_Message : string;
}.

Definition zeroCondition : Condition := mkCondition "" "" 0 None "" "".
Definition ConditionTrue : string := "True".

(** ** shared_types.go: selectors *)

Definition DefaultAttachPriority : Z := 1000.

Record InterfaceDiscovery := mkInterfaceDiscovery {
  InterfaceAutoDiscovery : option bool;
  ExcludeInterfaces : list string;
  AllowedInterfaces : list string;
}.

Record InterfaceSelector := mkInterfaceSelector {
  InterfacesDiscoveryConfig : option InterfaceDiscovery;
  Interfaces : list string;
  PrimaryNodeInterface : option bool;
}.

Record ClContainerSelector := mkClContainerSelector {
  ccs_Namespace : string;
  ccs_Pods : LabelSelector;
  ccs_ContainerNames : list string;
}.

Record ContainerSelector := mkContainerSelector {
  cs_Pods : LabelSelector;
  cs_ContainerNames : list string;
}.

Record ClNetworkNamespaceSelector := mkClNetworkNamespaceSelector {
  cnn_Namespace : string;
  cnn_Pods : LabelSelector;
}.

Record NetworkNamespaceSelector := mkNetworkNamespaceSelector {
  nn_Pods : LabelSelector;
}.

(** ** shared_types.go: bytecode *)

Definition PullPolicy : Type := string.
Definition PullAlways : PullPolicy := "Always".
Definition PullNever : PullPolicy := "Never".
Definition PullIfNotPresent : PullPolicy := "IfNotPresent".

Record ImagePullSecretSelector := mkImagePullSecretSelector {
  ips_Name : string;
  ips_Namespace : string;
}.

Record ByteCodeImage := mkByteCodeImage {
  Url : string;
  ImagePullPolicy : PullPolicy;
  ImagePullSecret : option ImagePullSecretSelector;
}.

Record ByteCodeSelector := mkByteCodeSelector {
  Image : option ByteCodeImage;
  Path : option string;
}.

(** Global data is a map to byte strings; a byte string is a list of bytes as
    integers. *)
Record BpfAppCommon := mkBpfAppCommon {
  NodeSelector : LabelSelector;
  GlobalData : gmap string (list Z);
  ByteCode : ByteCodeSelector;
  MapOwnerSelector : option LabelSelector;
}.

Record BpfAppStatus := mkBpfAppStatus {
  appst_Conditions : slice Condition;
}.

(** ** shared_types.go: statuses *)

Definition AppLoadStatus : Type := string.
Definition AppLoadNotLoaded : AppLoadStatus := "NotLoaded".
Definition AppLoadSuccess : AppLoadStatus := "LoadSuccess".
Definition AppLoadError : AppLoadStatus := "LoadError".
Definition AppUnLoadSuccess : AppLoadStatus := "UnloadSuccess".
Definition AppUnloadError : AppLoadStatus := "UnloadError".
Definition NotSelected : AppLoadStatus := "NotSelected".
Definition ProgListChangedError : AppLoadStatus := "ProgramListChangedError".

Definition ProgramLinkStatus : Type := string.
Definition ProgAttachPending : ProgramLinkStatus := "Pending".
Definition ProgAttachSuccess : ProgramLinkStatus := "Success".
Definition ProgAttachError : ProgramLinkStatus := "Error".
Definition UpdateAttachInfoError : ProgramLinkStatus := "UpdateAttachInfoError".

Definition LinkStatus : Type := string.
Definition ApAttachAttached : LinkStatus := "Attached".
Definition ApAttachNotAttached : LinkStatus := "NotAttached".
Definition ApAttachError : LinkStatus := "AttachError".
Definition ApDetachError : LinkStatus := "DetachError".

Record AttachInfoStateCommon := mkAttachInfoStateCommon {
  ai_ShouldAttach : bool;
  ai_UUID : string;
  ai_LinkId : option Z;
  ai_LinkStatus : LinkStatus;
}.

Record BpfProgramStateCommon := mkBpfProgramStateCommon {
  ps_Name : string;
  ps_ProgramLinkStatus : ProgramLinkStatus;
  ps_ProgramId : option Z;
}.

(** ** shared_types.go: conditions *)

Definition BpfApplicationConditionType : Type := string.
Definition BpfAppCondPending : BpfApplicationConditionType := "Pending".
Definition BpfAppCondSuccess : BpfApplicationConditionType := "Success".
Definition BpfAppCondError : BpfApplicationConditionType := "Error".
Definition BpfAppCondDeleteError : BpfApplicationConditionType := "DeleteError".

Definition message_or (message dflt : string) : string :=
  if decide (String.length message = 0%nat) then dflt else message.

Definition BpfApplicationConditionType_Condition
    (b : BpfApplicationConditionType) (message : string) : Condition :=
  if decide (b = BpfAppCondPending) then
    mkCondition BpfAppCondPending ConditionTrue 0 None "Pending"
      (message_or message "Waiting for Bpf Application Object to be reconciled on all nodes")
  else if decide (b = BpfAppCondError) then
    mkCondition BpfAppCondError ConditionTrue 0 None "Error"
      (message_or message "An error has occurred on one or more nodes")
  else if decide (b = BpfAppCondSuccess) then
    mkCondition BpfAppCondSuccess ConditionTrue 0 None "Success"
      (message_or message "BPF application configuration successfully applied on all nodes")
  else if decide (b = BpfAppCondDeleteError) then
    mkCondition BpfAppCondDeleteError ConditionTrue 0 None "DeleteError"
      (message_or message "Deletion failed on one or more nodes")
  else zeroCondition.

Definition BpfApplicationStateConditionType : Type := string.
Definition BpfAppStateCondPending : BpfApplicationStateConditionType := "Pending".
Definition BpfAppStateCondSuccess : BpfApplicationStateConditionType := "Success".
Definition BpfAppStateCondError : BpfApplicationStateConditionType := "Error".
Definition BpfAppStateCondProgramListChangedError : BpfApplicationStateConditionType :=
  "ProgramListChangedError".
Definition BpfAppStateCondUnloadError : BpfApplicationStateConditionType := "UnloadError".
Definition BpfAppStateCondUnloaded : BpfApplicationStateConditionType := "Unloaded".

(** The switch has no case for [BpfAppStateCondProgramListChangedError]: it
    falls through to the zero condition. *)
Definition BpfApplicationStateConditionType_Condition
    (b : BpfApplicationStateConditionType) : Condition :=
  if decide (b = BpfAppStateCondPending) then
    mkCondition BpfAppStateCondPending ConditionTrue 0 None "Pending" "Not yet complete"
  else if decide (b = BpfAppStateCondSuccess) then
    mkCondition BpfAppStateCondSuccess ConditionTrue 0 None "Success"
      "The BPF application has been successfully loaded and attached"
  else if decide (b = BpfAppStateCondError) then
    mkCondition BpfAppStateCondError ConditionTrue 0 None "Error" "An error has occurred"
  else if decide (b = BpfAppStateCondUnloadError) then
    mkCondition BpfAppStateCondUnloadError ConditionTrue 0 None "Unload Error"
      "Unload failed for one or more programs"
  else if decide (b = BpfAppStateCondUnloaded) then
    mkCondition BpfAppStateCondUnloaded ConditionTrue 0 None "Unloaded"
      "The application has been successfully unloaded"
  else zeroCondition.

(** ** Program types and directions *)

Definition EBPFProgType : Type := string.
Definition ProgTypeXDP : EBPFProgType := "XDP".
Definition ProgTypeTC : EBPFProgType := "TC".
Definition ProgTypeTCX : EBPFProgType := "TCX".
Definition ProgTypeFentry : EBPFProgType := "FEntry".
Definition ProgTypeFexit : EBPFProgType := "FExit".
Definition ProgTypeKprobe : EBPFProgType := "KProbe".
Definition ProgTypeKretprobe : EBPFProgType := "KRetProbe".
Definition ProgTypeUprobe : EBPFProgType := "UProbe".
Definition ProgTypeUretprobe : EBPFProgType := "URetProbe".
Definition ProgTypeTracepoint : EBPFProgType := "TracePoint".

Definition TCDirectionType : Type := string.
Definition TCIngress : TCDirectionType := "Ingress".
Definition TCEgress : TCDirectionType := "Egress".

Definition TcProceedOnValue : Type := string.
Definition XdpProceedOnValue : Type := string.

(** ** Attach points as the user writes them *)

Record ClXdpAttachInfo := mkClXdpAttachInfo {
  clxdp_InterfaceSelector : InterfaceSelector;
  clxdp_NetworkNamespaces : option ClNetworkNamespaceSelector;
  clxdp_Priority : option Z;
  clxdp_ProceedOn : slice XdpProceedOnValue;
}.

Record XdpAttachInfo := mkXdpAttachInfo {
  nsxdp_InterfaceSelector : InterfaceSelector;
  nsxdp_NetworkNamespaces : NetworkNamespaceSelector;
  nsxdp_Priority : option Z;
  nsxdp_ProceedOn : slice XdpProceedOnValue;
}.

Record ClTcAttachInfo := mkClTcAttachInfo {
  cltc_InterfaceSelector : InterfaceSelector;
  cltc_NetworkNamespaces : option ClNetworkNamespaceSelector;
  cltc_Direction : TCDirectionType;
  cltc_Priority : option Z;
  cltc_ProceedOn : slice TcProceedOnValue;
}.

Record TcAttachInfo := mkTcAttachInfo {
  nstc_InterfaceSelector : InterfaceSelector;
  nstc_NetworkNamespaces : NetworkNamespaceSelector;
  nstc_Direction : TCDirectionType;
  nstc_Priority : option Z;
  nstc_ProceedOn : slice TcProceedOnValue;
}.

Record ClTcxAttachInfo := mkClTcxAttachInfo {
  cltcx_InterfaceSelector : InterfaceSelector;
  cltcx_NetworkNamespaces : option ClNetworkNamespaceSelector;
  cltcx_Direction : TCDirectionType;
  cltcx_Priority : option Z;
}.

Record TcxAttachInfo := mkTcxAttachInfo {
  nstcx_InterfaceSelector : InterfaceSelector;
  nstcx_NetworkNamespaces : NetworkNamespaceSelector;
  nstcx_Direction : TCDirectionType;
  nstcx_Priority : option Z;
}.

Definition AttachTypeAttach : Type := string.
Definition Attach : AttachTypeAttach := "Attach".

Record ClFentryAttachInfo := mkClFentryAttachInfo { clfentry_Mode : AttachTypeAttach }.
Record ClFexitAttachInfo := mkClFexitAttachInfo { clfexit_Mode : AttachTypeAttach }.

Record ClKprobeAttachInfo := mkClKprobeAttachInfo {
  clkprobe_Function : string;
  clkprobe_Offset : Z;
}.

Record ClKretprobeAttachInfo := mkClKretprobeAttachInfo { clkretprobe_Function : string }.

Record ClUprobeAttachInfo := mkClUprobeAttachInfo {
  cluprobe_Function : string;
  cluprobe_Offset : Z;
  cluprobe_Target : string;
  cluprobe_Pid : option Z;
  cluprobe_Containers : option ClContainerSelector;
}.

Record UprobeAttachInfo := mkUprobeAttachInfo {
  nsuprobe_Function : string;
  nsuprobe_Offset : Z;
  nsuprobe_Target : string;
  nsuprobe_Pid : option Z;
  nsuprobe_Containers : ContainerSelector;
}.

Record ClTracepointAttachInfo := mkClTracepointAttachInfo { cltracepoint_Name : string }.

(** ** Links as the node state records them *)

Record ClXdpAttachInfoState := mkClXdpAttachInfoState {
  xdp_common : AttachInfoStateCommon;
  xdp_InterfaceName : string;
  xdp_NetnsPath : string;
  xdp_Priority : Z;
  xdp_ProceedOn : slice XdpProceedOnValue;
}.
Definition XdpAttachInfoState : Type := ClXdpAttachInfoState.

Record ClTcAttachInfoState := mkClTcAttachInfoState {
  tc_common : AttachInfoStateCommon;
  tc_InterfaceName : string;
  tc_NetnsPath : string;
  tc_Direction : TCDirectionType;
  tc_Priority : Z;
  tc_ProceedOn : slice TcProceedOnValue;
}.
Definition TcAttachInfoState : Type := ClTcAttachInfoState.

Record ClTcxAttachInfoState := mkClTcxAttachInfoState {
  tcx_common : AttachInfoStateCommon;
  tcx_InterfaceName : string;
  tcx_NetnsPath : string;
  tcx_Direction : TCDirectionType;
  tcx_Priority : Z;
}.
Definition TcxAttachInfoState : Type := ClTcxAttachInfoState.

Record ClFentryAttachInfoState := mkClFentryAttachInfoState {
  fentry_common : AttachInfoStateCommon;
}.
Record ClFexitAttachInfoState := mkClFexitAttachInfoState {
  fexit_common : AttachInfoStateCommon;
}.

Record ClKprobeAttachInfoState := mkClKprobeAttachInfoState {
  kprobe_common : AttachInfoStateCommon;
  kprobe_Function : string;
  kprobe_Offset : Z;
}.

Record ClKretprobeAttachInfoState := mkClKretprobeAttachInfoState {
  kretprobe_common : AttachInfoStateCommon;
  kretprobe_Function : string;
}.

Record ClUprobeAttachInfoState := mkClUprobeAttachInfoState {
  cluprobe_common : AttachInfoStateCommon;
  cluprobes_Function : string;
  cluprobes_Offset : Z;
  cluprobes_Target : string;
  cluprobes_Pid : option Z;
  cluprobes_ContainerPid : option Z;
}.

Record UprobeAttachInfoState := mkUprobeAttachInfoState {
  nsuprobe_common : AttachInfoStateCommon;
  nsuprobes_Function : string;
  nsuprobes_Offset : Z;
  nsuprobes_Target : string;
  nsuprobes_Pid : option Z;
  nsuprobes_ContainerPid : Z;
}.

Record ClTracepointAttachInfoState := mkClTracepointAttachInfoState {
  tracepoint_common : AttachInfoStateCommon;
  tracepoint_Name : string;
}.

(** ** Program information: a list of links, with the attach function for
    fentry and fexit *)

Record WithLinks (L : Type) := mkWithLinks { Links : slice L }.
Arguments mkWithLinks {_} _.
Arguments Links {_} _.

Record WithFunction (L : Type) := mkWithFunction { Function : string; FnLinks : slice L }.
Arguments mkWithFunction {_} _ _.
Arguments Function {_} _.
Arguments FnLinks {_} _.

Definition ClXdpProgramInfo : Type := WithLinks ClXdpAttachInfo.
Definition ClTcProgramInfo : Type := WithLinks ClTcAttachInfo.
Definition ClTcxProgramInfo : Type := WithLinks ClTcxAttachInfo.
Definition ClFentryProgramInfo : Type := WithFunction ClFentryAttachInfo.
Definition ClFexitProgramInfo : Type := WithFunction ClFexitAttachInfo.
Definition ClKprobeProgramInfo : Type := WithLinks ClKprobeAttachInfo.
Definition ClKretprobeProgramInfo : Type := WithLinks ClKretprobeAttachInfo.
Definition ClUprobeProgramInfo : Type := WithLinks ClUprobeAttachInfo.
Definition ClTracepointProgramInfo : Type := WithLinks ClTracepointAttachInfo.
Definition XdpProgramInfo : Type := WithLinks XdpAttachInfo.
Definition TcProgramInfo : Type := WithLinks TcAttachInfo.
Definition TcxProgramInfo : Type := WithLinks TcxAttachInfo.
Definition UprobeProgramInfo : Type := WithLinks UprobeAttachInfo.

Definition ClXdpProgramInfoState : Type := WithLinks ClXdpAttachInfoState.
Definition ClTcProgramInfoState : Type := WithLinks ClTcAttachInfoState.
Definition ClTcxProgramInfoState : Type := WithLinks ClTcxAttachInfoState.
Definition ClFentryProgramInfoState : Type := WithFunction ClFentryAttachInfoState.
Definition ClFexitProgramInfoState : Type := WithFunction ClFexitAttachInfoState.
Definition ClKprobeProgramInfoState : Type := WithLinks ClKprobeAttachInfoState.
Definition ClKretprobeProgramInfoState : Type := WithLinks ClKretprobeAttachInfoState.
Definition ClUprobeProgramInfoState : Type := WithLinks ClUprobeAttachInfoState.
Definition ClTracepointProgramInfoState : Type := WithLinks ClTracepointAttachInfoState.
Definition XdpProgramInfoState : Type := WithLinks XdpAttachInfoState.
Definition TcProgramInfoState : Type := WithLinks TcAttachInfoState.
Definition TcxProgramInfoState : Type := WithLinks TcxAttachInfoState.
Definition UprobeProgramInfoState : Type := WithLinks UprobeAttachInfoState.

(** ** Programs of an application, and their node state *)

Record ClBpfApplicationProgram := mkClBpfApplicationProgram {
  clp_Name : string;
  clp_Type : EBPFProgType;
  clp_XDP : option ClXdpProgramInfo;
  clp_TC : option ClTcProgramInfo;
  clp_TCX : option ClTcxProgramInfo;
  clp_FEntry : option ClFentryProgramInfo;
  clp_FExit : option ClFexitProgramInfo;
  clp_KProbe : option ClKprobeProgramInfo;
  clp_KRetProbe : option ClKretprobeProgramInfo;
  clp_UProbe : option ClUprobeProgramInfo;
  clp_URetProbe : option ClUprobeProgramInfo;
  clp_TracePoint : option ClTracepointProgramInfo;
}.

Record BpfApplicationProgram := mkBpfApplicationProgram {
  nsp_Name : string;
  nsp_Type : EBPFProgType;
  nsp_XDP : option XdpProgramInfo;
  nsp_TC : option TcProgramInfo;
  nsp_TCX : option TcxProgramInfo;
  nsp_UProbe : option UprobeProgramInfo;
  nsp_URetProbe : option UprobeProgramInfo;
}.

Record ClBpfApplicationProgramState := mkClBpfApplicationProgramState {
  clps_common : BpfProgramStateCommon;
  clps_Type : EBPFProgType;
  clps_XDP : option ClXdpProgramInfoState;
  clps_TC : option ClTcProgramInfoState;
  clps_TCX : option ClTcxProgramInfoState;
  clps_FEntry : option ClFentryProgramInfoState;
  clps_FExit : option ClFexitProgramInfoState;
  clps_KProbe : option ClKprobeProgramInfoState;
  clps_KRetProbe : option ClKretprobeProgramInfoState;
  clps_UProbe : option ClUprobeProgramInfoState;
  clps_URetProbe : option ClUprobeProgramInfoState;
  clps_TracePoint : option ClTracepointProgramInfoState;
}.

Record BpfApplicationProgramState := mkBpfApplicationProgramState {
  nsps_common : BpfProgramStateCommon;
  nsps_Type : EBPFProgType;
  nsps_XDP : option XdpProgramInfoState;
  nsps_TC : option TcProgramInfoState;
  nsps_TCX : option TcxProgramInfoState;
  nsps_UProbe : option UprobeProgramInfoState;
  nsps_URetProbe : option UprobeProgramInfoState;
}.

(** ** Applications and their per-node states, over the program type [P] and
    the program state type [PS] *)

Record Application (P : Type) := mkApplication {
  app_meta : ObjectMeta;
  app_common : BpfAppCommon;
  app_Programs : slice P;
  app_Status : BpfAppStatus;
}.
Arguments mkApplication {_} _ _ _ _.
Arguments app_meta {_} _.
Arguments app_common {_} _.
Arguments app_Programs {_} _.
Arguments app_Status {_} _.

Definition ClusterBpfApplication : Type := Application ClBpfApplicationProgram.
Definition BpfApplication : Type := Application BpfApplicationProgram.

Record AppStateStatus (PS : Type) := mkAppStateStatus {
  st_UpdateCount : Z;
  st_Node : string;
  st_AppLoadStatus : AppLoadStatus;
  st_Programs : slice PS;
  st_Conditions : slice Condition;
}.
Arguments mkAppStateStatus {_} _ _ _ _ _.
Arguments st_UpdateCount {_} _.
Arguments st_Node {_} _.
Arguments st_AppLoadStatus {_} _.
Arguments st_Programs {_} _.
Arguments st_Conditions {_} _.

Definition ClBpfApplicationStateStatus : Type := AppStateStatus ClBpfApplicationProgramState.
Definition BpfApplicationStateStatus : Type := AppStateStatus BpfApplicationProgramState.

Record AppState (PS : Type) := mkAppState {
  as_meta : ObjectMeta;
  as_Status : AppStateStatus PS;
}.
Arguments mkAppState {_} _ _.
Arguments as_meta {_} _.
Arguments as_Status {_} _.

Definition ClusterBpfApplicationState : Type := AppState ClBpfApplicationProgramState.
Definition BpfApplicationState : Type := AppState BpfApplicationProgramState.

Definition AppState_GetName {PS} (an : AppState PS) : string := om_Name (as_meta an).
Definition AppState_GetLabels {PS} (an : AppState PS) : gmap string string :=
  om_Labels (as_meta an).
Definition AppState_GetConditions {PS} (an : AppState PS) : slice Condition :=
  st_Conditions (as_Status an).

(** ** Decidable equality, for [reflect.DeepEqual] *)

#[export] Instance OwnerReference_eq_dec : EqDecision OwnerReference.
Proof. solve_decision. Defined.
#[export] Instance Condition_eq_dec : EqDecision Condition.
Proof. solve_decision. Defined.
#[export] Instance AttachInfoStateCommon_eq_dec : EqDecision AttachInfoStateCommon.
Proof. solve_decision. Defined.
#[export] Instance BpfProgramStateCommon_eq_dec : EqDecision BpfProgramStateCommon.
Proof. solve_decision. Defined.
#[export] Instance ClXdpAttachInfoState_eq_dec : EqDecision ClXdpAttachInfoState.
Proof. solve_decision. Defined.
#[export] Instance ClTcAttachInfoState_eq_dec : EqDecision ClTcAttachInfoState.
Proof. solve_decision. Defined.
#[export] Instance ClTcxAttachInfoState_eq_dec : EqDecision ClTcxAttachInfoState.
Proof. solve_decision. Defined.
#[export] Instance ClFentryAttachInfoState_eq_dec : EqDecision ClFentryAttachInfoState.
Proof. solve_decision. Defined.
#[export] Instance ClFexitAttachInfoState_eq_dec : EqDecision ClFexitAttachInfoState.
Proof. solve_decision. Defined.
#[export] Instance ClKprobeAttachInfoState_eq_dec : EqDecision ClKprobeAttachInfoState.
Proof. solve_decision. Defined.
#[export] Instance ClKretprobeAttachInfoState_eq_dec : EqDecision ClKretprobeAttachInfoState.
Proof. solve_decision. Defined.
#[export] Instance ClUprobeAttachInfoState_eq_dec : EqDecision ClUprobeAttachInfoState.
Proof. solve_decision. Defined.
#[export] Instance UprobeAttachInfoState_eq_dec : EqDecision UprobeAttachInfoState.
Proof. solve_decision. Defined.
#[export] Instance ClTracepointAttachInfoState_eq_dec : EqDecision ClTracepointAttachInfoState.
Proof. solve_decision. Defined.
#[export] Instance WithLinks_eq_dec `{EqDecision L} : EqDecision (WithLinks L).
Proof. solve_decision. Defined.
#[export] Instance WithFunction_eq_dec `{EqDecision L} : EqDecision (WithFunction L).
Proof. solve_decision. Defined.
#[export] Instance ClBpfApplicationProgramState_eq_dec :
  EqDecision ClBpfApplicationProgramState.
Proof.
  unfold EqDecision, ClXdpProgramInfoState, ClTcProgramInfoState, ClTcxProgramInfoState,
    ClFentryProgramInfoState, ClFexitProgramInfoState, ClKprobeProgramInfoState,
    ClKretprobeProgramInfoState, ClUprobeProgramInfoState, ClTracepointProgramInfoState in *.
  solve_decision.
Defined.
#[export] Instance BpfApplicationProgramState_eq_dec : EqDecision BpfApplicationProgramState.
Proof. solve_decision. Defined.
#[export] Instance AppStateStatus_eq_dec `{EqDecision PS} : EqDecision (AppStateStatus PS).
Proof. solve_decision. Defined.
