(* ===== verification/Constants.v ===== *)
(** internal/constants.go and pkg/helpers/helpers.go: label keys, finalizers,
    the kernel program types with their names, and the helpers that read
    conditions and priorities. *)

From S2P Require Import Prelude ApiTypes.
From stdpp Require Import options.

(** ** internal/constants.go: names *)

Definition K8sHostLabel : string := "kubernetes.io/hostname".
Definition DiscoveredLabel : string := "bpfman.io/discoveredProgram".
Definition UuidMetadataKey : string := "bpfman.io/uuid".
Definition ProgramNameKey : string := "bpfman.io/ProgramName".
Definition BpfAppStateOwner : string := "bpfman.io/ownedByProgram".
Definition NetNsPath : string := "/run/netns".
Definition ApplicationString : string := "application".

Definition BpfmanOperatorFinalizer : string := "bpfman.io.operator/finalizer".
Definition BpfmanConfigFinalizer : string := "bpfman.io/config-finalizer".
Definition ClBpfApplicationControllerFinalizer : string :=
  "bpfman.io.clbpfapplicationcontroller/finalizer".
Definition NsBpfApplicationControllerFinalizer : string :=
  "bpfman.io.nsbpfapplicationcontroller/finalizer".

(** ** internal/constants.go: [ProgramType], an int32 enumeration *)
Module Internal.
Definition ProgramType : Type := Z.

(** The constants in [iota] order, with the name [String] gives each. *)
Definition names : list string :=
  ["unspec"; "socket_filter"; "kprobe"; "tc"; "sched_act"; "tracepoint"; "xdp";
   "perf_event"; "cgroup_skb"; "cgroup_sock"; "lwt_in"; "lwt_out"; "lwt_xmit";
   "sock_ops"; "sk_skb"; "cgroup_device"; "sk_msg"; "raw_tracepoint";
   "cgroup_sock_addr"; "lwt_seg6local"; "lirc_mode2"; "sk_reuseport";
   "flow_dissector"; "cgroup_sysctl"; "raw_tracepoint_writable"; "cgroup_sockopt";
   "tracing"; "struct_ops"; "ext"; "lsm"; "sk_lookup"; "syscall"].

Definition Kprobe : ProgramType := 2.
Definition Tc : ProgramType := 3.
Definition Tracepoint : ProgramType := 5.
Definition Xdp : ProgramType := 6.
Definition Tracing : ProgramType := 26.
Definition AllPrograms : ProgramType := 32.

Definition Uint32 (p : ProgramType) : Z := to_uint32 p.

Definition FromString (p : string) : result ProgramType :=
  if decide (p = "tc") then Ok Tc
  else if decide (p = "xdp") then Ok Xdp
  else if decide (p = "tracepoint") then Ok Tracepoint
  else if decide (p = "kprobe") then Ok Kprobe
  else if decide (p = "uprobe") then Ok Kprobe
  else if decide (p = "fentry") then Ok Tracing
  else if decide (p = "fexit") then Ok Tracing
  else Err ("unknown program type: " +:+ p).

Definition String (p : ProgramType) : string :=
  if decide (0 ≤ p < 32) then default "INVALID_PROG_TYPE" (names !! Z.to_nat p)
  else "INVALID_PROG_TYPE".
End Internal.

Definition DefaultPath : string := "/run/bpfman-sock/bpfman.sock".

Definition ReconcileResult : Type := Z.
Definition Unchanged : ReconcileResult := 0.
Definition Updated : ReconcileResult := 1.
Definition Requeue : ReconcileResult := 2.

Definition ReconcileResult_String (r : ReconcileResult) : string :=
  if decide (r = Unchanged) then "Unchanged"
  else if decide (r = Updated) then "Updated"
  else if decide (r = Requeue) then "Requeue"
  else "INVALID RECONCILE RESULT (" +:+ pretty r +:+ ")".

(** ** pkg/helpers/helpers.go *)
Module Helpers.
Definition ProgramType : Type := Z.
Definition Kprobe : ProgramType := 2.
Definition Tc : ProgramType := 3.
Definition Tracepoint : ProgramType := 5.
Definition Xdp : ProgramType := 6.
Definition Tracing : ProgramType := 26.

Definition FromString (p : string) : result ProgramType :=
  if decide (p = "kprobe") then Ok Kprobe
  else if decide (p = "tc") then Ok Tc
  else if decide (p = "xdp") then Ok Xdp
  else if decide (p = "tracepoint") then Ok Tracepoint
  else if decide (p = "tracing") then Ok Tracing
  else Err ("unknown program type: " +:+ p).

Definition String (p : ProgramType) : string :=
  if decide (p = Kprobe) then "kprobe"
  else if decide (p = Tc) then "tc"
  else if decide (p = Xdp) then "xdp"
  else if decide (p = Tracepoint) then "tracepoint"
  else if decide (p = Tracing) then "tracing"
  else "".

Definition TcProgramDirection_String (t : Z) : string :=
  if decide (t = 1) then "ingress" else if decide (t = 2) then "egress" else "".
End Helpers.

Definition IsBpfAppStateConditionFailure (conditions : slice Condition) : bool :=
  match elems conditions with
  | [] => true
  | c :: _ =>
      bool_decide (cond_Type c = BpfAppStateCondError)
      || bool_decide (cond_Type c = BpfAppStateCondProgramListChangedError)
      || bool_decide (cond_Type c = BpfAppStateCondUnloadError)
  end.

Definition IsBpfAppStateConditionPending (conditions : slice Condition) : bool :=
  match elems conditions with
  | [] => true
  | c :: _ => bool_decide (cond_Type c = BpfAppCondPending)
  end.

(** [GetPriority] *)
Definition GetPriority (priority : option Z) : Z :=
  match priority with None => DefaultAttachPriority | Some p => p end.

(** ** Theorems *)

Lemma Internal_names_NoDup : NoDup Internal.names.
Proof. apply (bool_decide_unpack _). by vm_compute. Qed.

Lemma Internal_String_lookup p :
  0 ≤ p < 32 → Internal.names !! Z.to_nat p = Some (Internal.String p).
Proof.
  intros Hp. unfold Internal.String. rewrite decide_True by done.
  destruct (lookup_lt_is_Some_2 Internal.names (Z.to_nat p)) as [s Hs]; [simpl; lia|].
  by rewrite Hs.
Qed.

(** The 32 kernel program types have 32 distinct names, none of
    them the name of an invalid one, so a printed name identifies its type. *)
Theorem Internal_String_injective (p q : Z) :
  0 ≤ p < 32 → Internal.String p = Internal.String q → p = q.
Proof.
  intros Hp Heq. pose proof (Internal_String_lookup p Hp) as Hl.
  destruct (decide (0 ≤ q < 32)) as [Hq|Hq].
  - pose proof (Internal_String_lookup q Hq) as Hl'. rewrite <- Heq in Hl'.
    pose proof (NoDup_lookup _ _ _ _ Internal_names_NoDup Hl Hl'). lia.
  - rewrite Heq in Hl. unfold Internal.String in Hl.
    rewrite (decide_False (P := 0 ≤ q < 32)) in Hl by done.
    apply list_elem_of_lookup_2 in Hl. revert Hl.
    apply (bool_decide_unpack _). by vm_compute.
Qed.

(** The helpers' FromString succeeds exactly on the names that String gives to
    its five program types, with the type that has the name. *)
Theorem Helpers_FromString_String (s : string) (p : Z) :
  Helpers.FromString s = Ok p ↔
  s = Helpers.String p ∧ p ∈ [Helpers.Kprobe; Helpers.Tc; Helpers.Xdp; Helpers.Tracepoint;
                               Helpers.Tracing].
Proof.
  split.
  - unfold Helpers.FromString. intros H.
    repeat case_decide; simplify_eq/=; (split; [reflexivity|set_solver]).
  - intros [-> Hp]. rewrite !elem_of_cons, elem_of_nil in Hp.
    by destruct Hp as [->|[->|[->|[->|[->|[]]]]]].
Qed.
