(* ===== verification/Bpfman.v ===== *)
(** The bpfman daemon seen from the agent: the gobpfman messages, the gRPC
    client as an interface with the laws its documented behaviour gives, a
    simulated daemon that satisfies the laws, and the wrappers of
    controllers/bpfman-agent/internal/bpfman_core.go. *)

From S2P Require Import Prelude ApiTypes Constants.
From stdpp Require Import options.

(** ** Messages (third-party types, the fields the agent uses) *)

Inductive BpfmanProgramType :=
  | BpfmanProgramType_XDP | BpfmanProgramType_TC | BpfmanProgramType_TCX
  | BpfmanProgramType_FENTRY | BpfmanProgramType_FEXIT | BpfmanProgramType_KPROBE
  | BpfmanProgramType_UPROBE | BpfmanProgramType_TRACEPOINT.

Inductive ProgSpecificInfo :=
  | FentryLoadInfo (FnName : string)
  | FexitLoadInfo (FnName : string).

Record LoadInfo := mkLoadInfo {
  li_Name : string;
  li_ProgramType : BpfmanProgramType;
  li_Info : option ProgSpecificInfo;
}.

Inductive BytecodeLocation :=
  | BytecodeLocation_Image (url : string) (policy : Z) (username password : string)
  | BytecodeLocation_File (file : string).

Record LoadRequest := mkLoadRequest {
  lr_Bytecode : BytecodeLocation;
  lr_Metadata : gmap string string;
  lr_GlobalData : gmap string (list Z);
  lr_Uuid : option string;
  lr_MapOwnerId : option Z;
  lr_Info : list LoadInfo;
}.

Record ProgramInfo := mkProgramInfo {
  pi_Name : string;
  pi_Links : list Z;
  pi_Metadata : gmap string string;
}.

Record KernelProgramInfo := mkKernelProgramInfo {
  ki_Id : Z;
  ki_Name : string;
  ki_ProgramType : Z;
  ki_LoadedAt : string;
  ki_Tag : string;
  ki_GplCompatible : bool;
  ki_MapIds : list Z;
  ki_BtfId : Z;
  ki_BytesXlated : Z;
  ki_Jited : bool;
  ki_BytesJited : Z;
  ki_BytesMemlock : Z;
  ki_VerifiedInsns : Z;
}.

(** [LoadResponseInfo], [GetResponse] and [ListResponse_ListResult] have the
    same two fields. *)
Record ProgramResponse := mkProgramResponse {
  pr_Info : option ProgramInfo;
  pr_KernelInfo : option KernelProgramInfo;
}.

Record XDPAttachInfo := mkXDPAttachInfo {
  xai_Priority : Z; xai_Iface : string; xai_ProceedOn : slice Z;
  xai_Netns : option string; xai_Metadata : gmap string string;
}.
Record TCAttachInfo := mkTCAttachInfo {
  tai_Priority : Z; tai_Iface : string; tai_Direction : string; tai_ProceedOn : slice Z;
  tai_Netns : option string; tai_Metadata : gmap string string;
}.
Record TCXAttachInfo := mkTCXAttachInfo {
  txai_Priority : Z; txai_Iface : string; txai_Direction : string;
  txai_Netns : option string; txai_Metadata : gmap string string;
}.
Record TracepointAttachInfo := mkTracepointAttachInfo {
  tpai_Tracepoint : string; tpai_Metadata : gmap string string;
}.
Record KprobeAttachInfo := mkKprobeAttachInfo {
  kai_FnName : string; kai_Offset : Z; kai_Metadata : gmap string string;
}.
Record UprobeAttachInfo := mkUprobeAttachInfo {
  uai_FnName : option string; uai_Offset : Z; uai_Target : string; uai_Pid : option Z;
  uai_ContainerPid : option Z; uai_Metadata : gmap string string;
}.
Record FentryAttachInfo := mkFentryAttachInfo { feai_Metadata : gmap string string }.
Record FexitAttachInfo := mkFexitAttachInfo { fxai_Metadata : gmap string string }.

Inductive AttachInfo :=
  | AttachInfo_XdpAttachInfo (i : XDPAttachInfo)
  | AttachInfo_TcAttachInfo (i : TCAttachInfo)
  | AttachInfo_TcxAttachInfo (i : TCXAttachInfo)
  | AttachInfo_TracepointAttachInfo (i : TracepointAttachInfo)
  | AttachInfo_KprobeAttachInfo (i : KprobeAttachInfo)
  | AttachInfo_UprobeAttachInfo (i : UprobeAttachInfo)
  | AttachInfo_FentryAttachInfo (i : FentryAttachInfo)
  | AttachInfo_FexitAttachInfo (i : FexitAttachInfo).

Record AttachRequest := mkAttachRequest {
  ar_Id : Z;
  ar_Attach : AttachInfo;
}.

Record ListRequest := mkListRequest {
  lreq_ProgramType : option Z;
  lreq_BpfmanProgramsOnly : option bool;
  lreq_MatchMetadata : gmap string string;
}.

(** ** The client interface *)

(** [W] is the state of everything outside the agent. A call that fails at the
    gRPC level returns the error; every call may change the outside state. *)
Class BpfmanClient (W : Type) := {
  bpfman_Load : LoadRequest → W → result (list ProgramResponse) * W;
  bpfman_Unload : Z → W → option error * W;
  bpfman_Attach : AttachRequest → W → result Z * W;
  bpfman_Detach : Z → W → option error * W;
  bpfman_Get : Z → W → result ProgramResponse * W;
  bpfman_List : ListRequest → W → result (list ProgramResponse) * W;
}.

(** What a response says of the daemon: [loaded w] maps the id of each loaded
    program to the ids of its links. A failed call changes nothing the agent
    can observe through [loaded]. *)
Class BpfmanLaws (W : Type) `{!BpfmanClient W} := {
  loaded : W → gmap Z (gset Z);
  law_Get_state id w : loaded (bpfman_Get id w).2 = loaded w;
  law_Get_Ok id w r :
    (bpfman_Get id w).1 = Ok r →
    ∃ info, pr_Info r = Some info ∧ loaded w !! id = Some (list_to_set (pi_Links info));
  law_Get_Err id w e : (bpfman_Get id w).1 = Err e → loaded w !! id = None;
  law_Attach_Ok rq w l :
    (bpfman_Attach rq w).1 = Ok l →
    ∃ ls, loaded w !! ar_Id rq = Some ls ∧
      (∀ id ls', loaded w !! id = Some ls' → l ∉ ls') ∧
      loaded (bpfman_Attach rq w).2 = <[ar_Id rq := {[l]} ∪ ls]> (loaded w);
  law_Attach_Err rq w e :
    (bpfman_Attach rq w).1 = Err e → loaded (bpfman_Attach rq w).2 = loaded w;
  law_Detach_Ok l w :
    (bpfman_Detach l w).1 = None →
    loaded (bpfman_Detach l w).2 = (λ ls, ls ∖ {[l]}) <$> loaded w;
  law_Detach_Err l w e :
    (bpfman_Detach l w).1 = Some e → loaded (bpfman_Detach l w).2 = loaded w;
  law_Unload_Ok id w :
    (bpfman_Unload id w).1 = None → loaded (bpfman_Unload id w).2 = delete id (loaded w);
  law_Unload_Err id w e :
    (bpfman_Unload id w).1 = Some e → loaded (bpfman_Unload id w).2 = loaded w;
}.

(** A daemon that carries out the requests it can: attaching to a loaded
    program and detaching an existing link succeed. *)
Class BpfmanReliable (W : Type) `{BpfmanLaws W} := {
  law_Attach_succeeds rq w :
    is_Some (loaded w !! ar_Id rq) → is_ok (bpfman_Attach rq w).1 = true;
  law_Detach_succeeds id ls l w :
    loaded w !! id = Some ls → l ∈ ls → (bpfman_Detach l w).1 = None;
}.

(** ** A simulated daemon *)

Record Sim := mkSim {
  sim_programs : gmap Z ProgramInfo;
  sim_next : nat;
}.

(** Link ids are allocated above every id ever used, which [sim_next] counts
    from 1000 as the test double in internal/test-utils does. *)
Definition sim_fresh (s : Sim) : Z :=
  1 + foldr Z.max (1000 + Z.of_nat (sim_next s))
        (concat (pi_Links <$> (map_to_list (sim_programs s)).*2)).

(** So are the ids of programs. *)
Definition sim_id (s : Sim) : Z :=
  1 + foldr Z.max (1000 + Z.of_nat (sim_next s)) (map_to_list (sim_programs s)).*1.

Definition sim_kernel (id : Z) (name : string) : KernelProgramInfo :=
  mkKernelProgramInfo id name 0 "" "" true [] 0 0 true 0 0 0.

Fixpoint sim_load (infos : list LoadInfo) (s : Sim) : list ProgramResponse * Sim :=
  match infos with
  | [] => ([], s)
  | i :: infos' =>
      let id := sim_id s in
      let info := mkProgramInfo (li_Name i) [] ∅ in
      let '(rs, s') :=
        sim_load infos' (mkSim (<[id := info]> (sim_programs s)) (S (sim_next s))) in
      (mkProgramResponse (Some info) (Some (sim_kernel id (li_Name i))) :: rs, s')
  end.

#[export] Instance Sim_client : BpfmanClient Sim := {|
  bpfman_Load rq s := let '(rs, s') := sim_load (lr_Info rq) s in (Ok rs, s');
  bpfman_Unload id s :=
    (None, mkSim (delete id (sim_programs s)) (sim_next s));
  bpfman_Attach rq s :=
    match sim_programs s !! ar_Id rq with
    | None => (Err "requested program does not exist", s)
    | Some info =>
        let l := sim_fresh s in
        (Ok l, mkSim (<[ar_Id rq := mkProgramInfo (pi_Name info) (pi_Links info ++ [l])
                          (pi_Metadata info)]> (sim_programs s)) (sim_next s))
    end;
  bpfman_Detach l s :=
    (None, mkSim ((λ info, mkProgramInfo (pi_Name info)
                     (filter (λ l', l' ≠ l) (pi_Links info)) (pi_Metadata info))
                    <$> sim_programs s) (sim_next s));
  bpfman_Get id s :=
    match sim_programs s !! id with
    | None => (Err "requested program does not exist", s)
    | Some info =>
        (Ok (mkProgramResponse (Some info) (Some (sim_kernel id (pi_Name info)))), s)
    end;
  bpfman_List _ s :=
    (Ok ((λ '(id, info), mkProgramResponse (Some info)
            (Some (sim_kernel id (pi_Name info)))) <$> map_to_list (sim_programs s)), s);
|}.

Lemma foldr_max_ge b l x : x ∈ l → x ≤ foldr Z.max b l.
Proof. induction 1; simpl; lia. Qed.

Lemma sim_fresh_not_linked s id info :
  sim_programs s !! id = Some info → sim_fresh s ∉ pi_Links info.
Proof.
  intros Hid Hin.
  assert (sim_fresh s ∈ concat (pi_Links <$> (map_to_list (sim_programs s)).*2)) as Hc.
  { rewrite list_elem_of_In, in_concat. exists (pi_Links info).
    split; [|by apply list_elem_of_In]. apply list_elem_of_In.
    apply list_elem_of_fmap. exists info. split; [done|].
    apply list_elem_of_fmap. exists (id, info). split; [done|].
    by apply elem_of_map_to_list. }
  apply (foldr_max_ge (1000 + Z.of_nat (sim_next s))) in Hc. unfold sim_fresh in Hc. lia.
Qed.

Lemma sim_id_free s : sim_programs s !! sim_id s = None.
Proof.
  destruct (sim_programs s !! sim_id s) as [info|] eqn:Hid; [exfalso|done].
  assert (sim_id s ∈ (map_to_list (sim_programs s)).*1) as Hc.
  { apply list_elem_of_fmap. exists (sim_id s, info). split; [done|]. by apply elem_of_map_to_list. }
  apply (foldr_max_ge (1000 + Z.of_nat (sim_next s))) in Hc. unfold sim_id in Hc at 1. lia.
Qed.

Definition sim_loaded (s : Sim) : gmap Z (gset Z) :=
  (λ info, list_to_set (pi_Links info)) <$> sim_programs s.

#[export] Program Instance Sim_laws : BpfmanLaws Sim := {| loaded := sim_loaded |}.
Next Obligation. intros id w. simpl. by destruct (sim_programs w !! id). Qed.
Next Obligation.
  intros id w r H. simpl in H. unfold sim_loaded. rewrite lookup_fmap.
  destruct (sim_programs w !! id) as [info|] eqn:E; simpl in *; [|done].
  injection H as <-. by exists info.
Qed.
Next Obligation.
  intros id w e H. simpl in H. unfold sim_loaded. rewrite lookup_fmap.
  by destruct (sim_programs w !! id).
Qed.
Next Obligation.
  intros rq w l H. simpl in *. unfold sim_loaded. rewrite lookup_fmap.
  destruct (sim_programs w !! ar_Id rq) as [info|] eqn:E; simpl in *; [|done].
  injection H as <-. eexists. split; [done|]. split.
  - intros id ls'. rewrite lookup_fmap. intros (info' & Hi & ->)%fmap_Some.
    apply sim_fresh_not_linked in Hi. set_solver.
  - rewrite fmap_insert. f_equal. simpl. set_solver.
Qed.
Next Obligation.
  intros rq w e H. simpl in *. by destruct (sim_programs w !! ar_Id rq).
Qed.
Next Obligation.
  intros l w _. unfold sim_loaded. simpl. rewrite <- !map_fmap_compose.
  apply map_fmap_ext. intros i info _. simpl. apply set_eq. intros x.
  rewrite elem_of_list_to_set, list_elem_of_filter, elem_of_difference,
    elem_of_list_to_set, elem_of_singleton. naive_solver.
Qed.
Next Obligation. done. Qed.
Next Obligation. intros id w _. unfold sim_loaded. simpl. by rewrite fmap_delete. Qed.
Next Obligation. done. Qed.

#[export] Instance Sim_reliable : BpfmanReliable Sim.
Proof.
  split.
  - intros rq w [ls H]. simpl in *. unfold sim_loaded in H. rewrite lookup_fmap in H.
    by destruct (sim_programs w !! ar_Id rq).
  - done.
Qed.

(** ** bpfman_core.go *)

Definition imagePullPolicyConversion (policy : PullPolicy) : Z :=
  if decide (policy = PullAlways) then 0
  else if decide (policy = PullIfNotPresent) then 1
  else if decide (policy = PullNever) then 2
  else 1.

(** [fmt.Sprint] of a bool and of a slice of numbers. *)
Definition sprint_bool (b : bool) : string := if b then "true" else "false".
Definition sprint_slice (l : list Z) : string := "[" +:+ String.concat " " (pretty <$> l) +:+ "]".

Definition Build_kernel_info_annotations (p : ProgramResponse) : option (gmap string string) :=
  match pr_KernelInfo p with
  | Some kernelInfo =>
      Some (list_to_map
        [("Kernel-ID", pretty (ki_Id kernelInfo));
         ("Name", ki_Name kernelInfo);
         ("Type", Internal.String (ki_ProgramType kernelInfo));
         ("Loaded-At", ki_LoadedAt kernelInfo);
         ("Tag", ki_Tag kernelInfo);
         ("GPL-Compatible", sprint_bool (ki_GplCompatible kernelInfo));
         ("Map-IDs", sprint_slice (ki_MapIds kernelInfo));
         ("BTF-ID", pretty (ki_BtfId kernelInfo));
         ("Size-Translated-Bytes", pretty (ki_BytesXlated kernelInfo));
         ("JITed", sprint_bool (ki_Jited kernelInfo));
         ("Size-JITed-Bytes", pretty (ki_BytesJited kernelInfo));
         ("Kernel-Allocated-Memory-Bytes", pretty (ki_BytesMemlock kernelInfo));
         ("Verified-Instruction-Count", pretty (ki_VerifiedInsns kernelInfo))])
  | None => None
  end.

Section wrappers.
Context {W : Type} `{!BpfmanClient W}.

Definition LoadBpfmanProgram (loadRequest : LoadRequest) : GoM W (result (list ProgramResponse)) :=
  res ← lift (bpfman_Load loadRequest);
  mret (match res with
        | Ok programs => Ok programs
        | Err e => Err ("failed to load bpfProgram via bpfman: " +:+ e)
        end).

Definition UnloadBpfmanProgram (id : Z) : GoM W (option error) :=
  err ← lift (bpfman_Unload id);
  mret ((λ e, "failed to unload bpfProgram via bpfman: " +:+ e) <$> err).

Definition AttachBpfmanProgram (attachRequest : AttachRequest) : GoM W (result Z) :=
  res ← lift (bpfman_Attach attachRequest);
  mret (match res with
        | Ok linkId => Ok linkId
        | Err e => Err ("failed to attach bpfProgram via bpfman: " +:+ e)
        end).

Definition DetachBpfmanProgram (id : Z) : GoM W (option error) :=
  err ← lift (bpfman_Detach id);
  mret ((λ e, "failed to unload bpfProgram via bpfman: " +:+ e) <$> err).

Definition GetBpfmanProgramById (id : Z) : GoM W (result ProgramResponse) :=
  lift (bpfman_Get id).

(** The loop of [ListBpfmanPrograms]: results without info are skipped, one
    without a uuid fails the whole call, a repeated uuid keeps the last. *)
Fixpoint index_by_uuid (results : list ProgramResponse)
    (out : gmap string ProgramResponse) : result (gmap string ProgramResponse) :=
  match results with
  | [] => Ok out
  | r :: results' =>
      match pr_Info r with
      | None => index_by_uuid results' out
      | Some info =>
          match pi_Metadata info !! UuidMetadataKey with
          | Some uuid => index_by_uuid results' (<[uuid := r]> out)
          | None => Err "unable to get uuid from program metadata"
          end
      end
  end.

Definition list_request (programType : Internal.ProgramType) : ListRequest :=
  mkListRequest
    (if decide (programType ≠ Internal.AllPrograms)
     then Some (Internal.Uint32 programType) else None)
    (Some true) ∅.

Definition ListBpfmanPrograms (programType : Internal.ProgramType)
    : GoM W (result (gmap string ProgramResponse)) :=
  listResponse ← lift (bpfman_List (list_request programType));
  mret (match listResponse with
        | Err e => Err e
        | Ok results => index_by_uuid results ∅
        end).

Definition ListBpfmanAttachments (programType : Internal.ProgramType)
    : GoM W (result (gmap string ProgramResponse)) :=
  listResponse ← lift (bpfman_List (list_request programType));
  mret (match listResponse with
        | Err e => Err e
        | Ok results => index_by_uuid results ∅
        end).

Definition GetBpfmanProgram (uuid : string) : GoM W (result ProgramResponse) :=
  listResponse ← lift (bpfman_List (mkListRequest None None {[UuidMetadataKey := uuid]}));
  mret (match listResponse with
        | Err e => Err e
        | Ok [] => Err ("unable to find program for uuid: " +:+ uuid +:+ " ")
        | Ok [r] => Ok r
        | Ok rs => Err ("multiple programs found for uuid: " +:+ uuid +:+ " instances: "
                          +:+ pretty (length rs))
        end).

Definition ListAllPrograms : GoM W (result (list ProgramResponse)) :=
  lift (bpfman_List (mkListRequest None None ∅)).

(** [GetBpfProgramId]: the kernel id of the first program of that name. *)
Fixpoint GetBpfProgramId (name : string) (programs : list ProgramResponse)
    : GoM W (result Z) :=
  match programs with
  | [] => mret (Err ("program with name " +:+ name +:+ " not found"))
  | program :: programs' =>
      info ← deref (pr_Info program);
      if decide (pi_Name info = name) then
        kernelInfo ← deref (pr_KernelInfo program);
        mret (Ok (ki_Id kernelInfo))
      else GetBpfProgramId name programs'
  end.

(** controllers/bpfman-agent/common.go *)
Definition doesLinkExist (programId linkId : Z) : GoM W bool :=
  program ← GetBpfmanProgramById programId;
  match program with
  | Err _ => mret false
  | Ok p =>
      info ← deref (pr_Info p);
      mret (bool_decide (linkId ∈ pi_Links info))
  end.
End wrappers.

(** ** What the wrappers do under the laws *)
Section wrapper_specs.
Context {W : Type} `{BpfmanLaws W}.

(** Link [l] is attached to the loaded program [pid]. *)
Definition linked (w : W) (pid l : Z) : bool :=
  match loaded w !! pid with Some ls => bool_decide (l ∈ ls) | None => false end.

Lemma linked_true w pid l :
  linked w pid l = true ↔ ∃ ls, loaded w !! pid = Some ls ∧ l ∈ ls.
Proof.
  unfold linked. destruct (loaded w !! pid) as [ls|]; [|naive_solver].
  rewrite bool_decide_eq_true. naive_solver.
Qed.

Lemma linked_loaded w w' : loaded w' = loaded w → linked w' = linked w.
Proof. intros Hl. unfold linked. by rewrite Hl. Qed.

(** The query a reconciler makes answers [linked] and changes nothing. *)
Lemma wp_doesLinkExist pid l (Q : bool → W → Prop) w :
  (∀ w', loaded w' = loaded w → Q (linked w pid l) w') →
  wp (doesLinkExist pid l) Q w.
Proof.
  intros HQ. unfold doesLinkExist, GetBpfmanProgramById. wp_step. wp_step.
  destruct (bpfman_Get pid w).1 as [r|e] eqn:E.
  - destruct (law_Get_Ok _ _ _ E) as (info & Hi & Hl). rewrite Hi. wp_steps.
    replace (bool_decide (l ∈ pi_Links info)) with (linked w pid l);
      [apply HQ, law_Get_state|].
    unfold linked. rewrite Hl. apply bool_decide_ext. by rewrite elem_of_list_to_set.
  - wp_steps. replace false with (linked w pid l); [apply HQ, law_Get_state|].
    unfold linked. by rewrite (law_Get_Err _ _ _ E).
Qed.
End wrapper_specs.

Section list_specs.
(** [index_by_uuid] succeeds exactly when every listed program that carries
    an info has a uuid, and then maps each uuid to the last such program. *)
Theorem index_by_uuid_ok results out :
  is_ok (index_by_uuid results out) = true ↔
  ∀ r info, r ∈ results → pr_Info r = Some info →
    is_Some (pi_Metadata info !! UuidMetadataKey).
Proof.
  revert out. induction results as [|r results IH]; intros out; simpl.
  - split; [|done]. intros _ r info Hr. by apply elem_of_nil in Hr.
  - destruct (pr_Info r) as [info|] eqn:Hi.
    + destruct (pi_Metadata info !! UuidMetadataKey) eqn:Hm.
      * rewrite IH. split.
        -- intros HA r' info' [->|Hr]%elem_of_cons Hi'; [|by eauto].
           rewrite Hi in Hi'. injection Hi' as <-. by rewrite Hm.
        -- intros HA r' info' Hr. apply HA. by right.
      * split; [done|]. intros HA. specialize (HA r info ltac:(left) Hi).
        rewrite Hm in HA. by destruct HA.
    + rewrite IH. split.
      * intros HA r' info' [->|Hr]%elem_of_cons Hi'; [congruence|by eauto].
      * intros HA r' info' Hr. apply HA. by right.
Qed.
End list_specs.
