(* ===== verification/Selectors.v ===== *)
(** Where to attach: interface selection and discovery, the primary node
    interface, network namespaces and containers
    (controllers/bpfman-agent/common.go, containers.go, internal/iface.go). *)

From Stdlib Require Import Ascii.
From S2P Require Import Prelude ApiTypes Constants.
From stdpp Require Import options.

(** ** Interfaces to the host, as the agent's code names them *)

Record ContainerInfo := mkContainerInfo {
  podName : string;
  containerName : string;
  pid : Z;
}.

Class ContainerGetter (W : Type) := {
  GetContainers : string → LabelSelector → option (list string) → W →
                  result (option (list ContainerInfo)) * W;
}.

Class NetNsCache (W : Type) := {
  GetNetNsId : string → W → option Z * W;
  NetNs_Reset : W → unit * W;
}.

(** [uuid.New().String()] *)
Class UUIDSource (W : Type) := { uuid_New : W → string * W }.

(** [os.Stat]: the inode when the file exists and its [Sys()] is a [Stat_t],
    [Ok None] when it is not a [Stat_t]. *)
Class HostFS (W : Type) := { os_Stat : string → W → result (option Z) * W }.

(** [regexp.Compile]; a compiled expression is its [MatchString]. *)
Class Regexp := { regexp_Compile : string → result (string → bool) }.

(** An interface of the watcher; [Name] and [NSName] are what the agent reads, all
    fields make up the key of the map. *)
Record Interface := mkInterface {
  if_Name : string;
  if_Index : Z;
  if_NSName : string;
  if_MAC : list Z;
  if_NetNS : Z;
}.
#[export] Instance Interface_eq_dec : EqDecision Interface.
Proof. solve_decision. Defined.

(** The [sync.Map] of discovered interfaces, in the order [Range] visits it. *)
Class InterfaceMap (W : Type) := { Interfaces_Range : W → list (Interface * bool) * W }.

(** ** Network namespace ids *)

(** The cache and the host below it. *)
Record ReconcilerNetNsCache (W : Type) := mkReconcilerNetNsCache {
  rnnc_cache : gmap string Z;
  rnnc_host : W;
}.
Arguments mkReconcilerNetNsCache {_} _ _.
Arguments rnnc_cache {_} _.
Arguments rnnc_host {_} _.

Definition host_netns : string := "/host/proc/1/ns/net".

Definition netns_path (path : string) : string :=
  if decide (path = "") then host_netns else path.

Section netns.
Context {W : Type} `{!HostFS W}.

Definition ReconcilerNetNsCache_GetNetNsId (path0 : string)
    (rnnc : ReconcilerNetNsCache W) : option Z * ReconcilerNetNsCache W :=
  let path := netns_path path0 in
  match rnnc_cache rnnc !! path with
  | Some id => (Some id, rnnc)
  | None =>
      let '(info, w) := os_Stat path (rnnc_host rnnc) in
      match info with
      | Err _ => (None, mkReconcilerNetNsCache (rnnc_cache rnnc) w)
      | Ok None => (None, mkReconcilerNetNsCache (rnnc_cache rnnc) w)
      | Ok (Some ino) =>
          (Some ino, mkReconcilerNetNsCache (<[path := ino]> (rnnc_cache rnnc)) w)
      end
  end.

Definition ReconcilerNetNsCache_Reset (rnnc : ReconcilerNetNsCache W)
    : unit * ReconcilerNetNsCache W :=
  (tt, mkReconcilerNetNsCache ∅ (rnnc_host rnnc)).

#[export] Instance ReconcilerNetNsCache_impl : NetNsCache (ReconcilerNetNsCache W) := {|
  GetNetNsId := ReconcilerNetNsCache_GetNetNsId;
  NetNs_Reset := ReconcilerNetNsCache_Reset;
|}.
End netns.

(** ** Interface discovery *)

Definition isInterfacesDiscoveryEnabled (interfaceSelector : InterfaceSelector) : bool :=
  match InterfacesDiscoveryConfig interfaceSelector with
  | Some c => match InterfaceAutoDiscovery c with Some b => b | None => false end
  | None => false
  end.

(** [InterfacesDiscoveryConfig] is dereferenced, which the callers only do
    under [isInterfacesDiscoveryEnabled]. *)
Definition interfaceInExcludeList (config : InterfaceDiscovery) (intf : string) : bool :=
  existsb (λ i, bool_decide (i = intf)) (ExcludeInterfaces config).

Fixpoint drop_spaces (l : list ascii) : list ascii :=
  match l with
  | c :: l' => if decide (c = " "%char) then drop_spaces l' else l
  | [] => []
  end.

(** [strings.Trim(s, " ")] *)
Definition trim_spaces (s : string) : string :=
  String.string_of_list_ascii (rev (drop_spaces (rev (drop_spaces (String.list_ascii_of_string s))))).

Definition newline : ascii := "010"%char.

(** The submatch of the pattern for slash-delimited entries: the text between
    the two outer slashes, which holds no newline. *)
Definition slash_body (s : string) : option string :=
  match String.list_ascii_of_string s with
  | c :: rest =>
      match rev rest with
      | c' :: mid =>
          if decide (c = "/"%char ∧ c' = "/"%char ∧ newline ∉ mid)
          then Some (String.string_of_list_ascii (rev mid)) else None
      | [] => None
      end
  | [] => None
  end.

Section discovery.
Context `{!Regexp}.

(** The loop of [setupAllowedInterfacesLists]: an expression that does not
    compile ends it, with the lists built so far. *)
Fixpoint allowed_lists (definitions : list string)
    (allowedRegexpes : list (string → bool)) (allowedMatches : list string)
    : list (string → bool) * list string :=
  match definitions with
  | [] => (allowedRegexpes, allowedMatches)
  | definition0 :: definitions' =>
      let definition := trim_spaces definition0 in
      match slash_body definition with
      | Some body =>
          match regexp_Compile body with
          | Err _ => (allowedRegexpes, allowedMatches)
          | Ok re => allowed_lists definitions' (allowedRegexpes ++ [re]) allowedMatches
          end
      | None => allowed_lists definitions' allowedRegexpes (allowedMatches ++ [definition])
      end
  end.

Definition setupAllowedInterfacesLists (config : InterfaceDiscovery)
    : list (string → bool) * list string :=
  allowed_lists (AllowedInterfaces config) [] [].

Definition interfaceInAllowedList (intf : string)
    (allowedRegexpes : list (string → bool)) (allowedMatches : list string) : bool :=
  if decide (length allowedRegexpes = 0%nat ∧ length allowedMatches = 0%nat) then true
  else existsb (λ re, re intf) allowedRegexpes
       || existsb (λ n, bool_decide (n = intf)) allowedMatches.

Record discoveredInterface := mkDiscoveredInterface {
  interfaceName : string;
  netNSPath : string;
}.

#[export] Instance discoveredInterface_eq_dec : EqDecision discoveredInterface.
Proof using Type. solve_decision. Defined.

Definition interface_netns (intf : Interface) : string :=
  if decide (if_NSName intf ≠ "") then NetNsPath +:+ "/" +:+ if_NSName intf else "".

(** The loop body of [Range]; [seenInterface] always holds the interfaces
    appended so far, so the result list stands for both. *)
Definition discover_step (config : InterfaceDiscovery)
    (allowedRegexpes : list (string → bool)) (allowedMatches : list string)
    (discoveredInterfaces : list discoveredInterface) (entry : Interface * bool)
    : list discoveredInterface :=
  let '(intf, value) := entry in
  if value : bool then
    if negb (interfaceInExcludeList config (if_Name intf))
       && interfaceInAllowedList (if_Name intf) allowedRegexpes allowedMatches
    then
      let d := mkDiscoveredInterface (if_Name intf) (interface_netns intf) in
      if decide (d ∈ discoveredInterfaces) then discoveredInterfaces
      else discoveredInterfaces ++ [d]
    else discoveredInterfaces
  else discoveredInterfaces.

Definition getDiscoveredInterfaces (config : InterfaceDiscovery)
    (discoveredInterfacesMap : list (Interface * bool)) : list discoveredInterface :=
  let '(allowedRegexpes, allowedMatches) := setupAllowedInterfacesLists config in
  foldl (discover_step config allowedRegexpes allowedMatches) [] discoveredInterfacesMap.
End discovery.

(** ** Interfaces named by the selector *)

Record Node := mkNode {
  node_meta : ObjectMeta;
  node_Addresses : list (string * string);
}.

Definition NodeInternalIP : string := "InternalIP".

(** An address of a host interface: [*net.IPAddr] with its printed form,
    [*net.IPNet] with the bytes of its IP, or another type. *)
Inductive NetAddr :=
  | IPAddr (printed : string)
  | IPNet (ip : list Z)
  | OtherAddr.

(** [net.Interfaces()] with each interface's [Addrs()], and [net.ParseIP]. *)
Class HostNet (W : Type) := {
  net_Interfaces : W → result (list (string * result (list NetAddr))) * W;
  net_ParseIP : string → option (list Z);
}.

Definition v4InV6Prefix : list Z := replicate 10 0 ++ [255; 255].

(** [IP.Equal], where a nil IP equals only an empty one. *)
Definition IP_Equal (ip x : list Z) : bool :=
  if decide (length ip = length x) then bool_decide (ip = x)
  else if decide (length ip = 4%nat ∧ length x = 16%nat) then
    bool_decide (take 12 x = v4InV6Prefix) && bool_decide (ip = drop 12 x)
  else if decide (length ip = 16%nat ∧ length x = 4%nat) then
    bool_decide (take 12 ip = v4InV6Prefix) && bool_decide (drop 12 ip = x)
  else false.

Section interfaces.
Context {W : Type} `{!HostNet W}.

Definition address_matches (address : string) (a : NetAddr) : bool :=
  match a with
  | IPAddr printed => bool_decide (address = printed)
  | IPNet ip => IP_Equal ip (default [] (net_ParseIP address))
  | OtherAddr => false
  end.

(** The loops over the host's interfaces and their addresses. *)
Fixpoint interface_of_address (address : string)
    (ifaces : list (string * result (list NetAddr))) : option string :=
  match ifaces with
  | [] => None
  | (_, Err _) :: ifaces' => interface_of_address address ifaces'
  | (name, Ok addrs) :: ifaces' =>
      if existsb (address_matches address) addrs then Some name
      else interface_of_address address ifaces'
  end.

Fixpoint primary_interface (addresses : list (string * string))
    (ifaces : list (string * result (list NetAddr))) : result string :=
  match addresses with
  | [] => Err "unable to find Node Interface"
  | (type, address) :: addresses' =>
      if decide (type = NodeInternalIP) then
        match interface_of_address address ifaces with
        | Some name => Ok name
        | None => primary_interface addresses' ifaces
        end
      else primary_interface addresses' ifaces
  end.

Definition GetPrimaryNodeInterface (ourNode : Node) : GoM W (result string) :=
  ifaces ← lift net_Interfaces;
  mret (match ifaces with
        | Err e => Err ("failed to read node interfaces: " +:+ e)
        | Ok ifaces => primary_interface (node_Addresses ourNode) ifaces
        end).

Definition getInterfaces (interfaceSelector : InterfaceSelector) (ourNode : Node)
    : GoM W (result (list string)) :=
  if decide (0 < length (Interfaces interfaceSelector))%nat then
    mret (Ok (Interfaces interfaceSelector))
  else
    match PrimaryNodeInterface interfaceSelector with
    | Some _ =>
        nodeIface ← GetPrimaryNodeInterface ourNode;
        mret (match nodeIface with Err e => Err e | Ok i => Ok [i] end)
    | None => mret (Err "no interfaces selected")
    end.
End interfaces.

(** ** Containers and directions *)

(** The loop of [GetOneContainerPerPod]; the map of seen pods. *)
Fixpoint one_per_pod (uniquePods : gset string) (containers : list ContainerInfo)
    : list ContainerInfo :=
  match containers with
  | [] => []
  | container :: containers' =>
      if decide (podName container ∈ uniquePods) then one_per_pod uniquePods containers'
      else container :: one_per_pod ({[podName container]} ∪ uniquePods) containers'
  end.

Definition GetOneContainerPerPod (containers : list ContainerInfo) : list ContainerInfo :=
  one_per_pod ∅ containers.

Definition directionToStr (direction : TCDirectionType) : string :=
  if decide (direction = TCIngress) then "ingress"
  else if decide (direction = TCEgress) then "egress"
  else "".

Definition netnsPathFromPID (pid : Z) : string := "/host/proc/" +:+ pretty pid +:+ "/ns/net".

(** ** Theorems: discovery *)

Section discovery_specs.
Context `{!Regexp}.

(** An entry of the map that the selector admits. *)
Definition admits (config : InterfaceDiscovery) (entry : Interface * bool) : bool :=
  let '(allowedRegexpes, allowedMatches) := setupAllowedInterfacesLists config in
  entry.2 && negb (interfaceInExcludeList config (if_Name entry.1))
  && interfaceInAllowedList (if_Name entry.1) allowedRegexpes allowedMatches.

Lemma discover_foldl config res ms entries acc :
  NoDup acc →
  let out := foldl (discover_step config res ms) acc entries in
  NoDup out ∧
  ∀ d, d ∈ out ↔ d ∈ acc ∨ ∃ e, e ∈ entries ∧
    (e.2 && negb (interfaceInExcludeList config (if_Name e.1))
     && interfaceInAllowedList (if_Name e.1) res ms) = true ∧
    d = mkDiscoveredInterface (if_Name e.1) (interface_netns e.1).
Proof.
  revert acc. induction entries as [|[intf v] entries IH]; intros acc Hacc; simpl.
  { split; [done|]. intros d. split; [by left|]. intros [?|(e & He & _)]; [done|].
    by apply elem_of_nil in He. }
  destruct v; simpl; last first.
  { destruct (IH acc Hacc) as [? Hin]. split; [done|]. intros d. rewrite Hin.
    setoid_rewrite elem_of_cons. naive_solver. }
  destruct (_ && _) eqn:Hadm; simpl; last first.
  { destruct (IH acc Hacc) as [? Hin]. split; [done|]. intros d. rewrite Hin.
    setoid_rewrite elem_of_cons.
    split; [naive_solver|]. intros [?|(e & [->|?] & Ha & ->)]; [naive_solver| |naive_solver].
    simpl in Ha. congruence. }
  case_decide as Hd.
  - destruct (IH acc Hacc) as [? Hin]. split; [done|]. intros d. rewrite Hin.
    setoid_rewrite elem_of_cons. naive_solver.
  - destruct (IH (acc ++ [mkDiscoveredInterface (if_Name intf) (interface_netns intf)]))
      as [? Hin]; [apply NoDup_app; set_solver by eauto using NoDup_singleton|].
    split; [done|]. intros d. rewrite Hin, elem_of_app, list_elem_of_singleton.
    setoid_rewrite elem_of_cons. naive_solver.
Qed.

Lemma discovered_iff config entries :
  NoDup (getDiscoveredInterfaces config entries) ∧
  ∀ d, d ∈ getDiscoveredInterfaces config entries ↔
    ∃ e, e ∈ entries ∧ admits config e = true ∧
      d = mkDiscoveredInterface (if_Name e.1) (interface_netns e.1).
Proof.
  unfold getDiscoveredInterfaces, admits.
  destruct (setupAllowedInterfacesLists config) as [res ms].
  destruct (discover_foldl config res ms entries [] ltac:(constructor)) as [? Hin].
  split; [done|]. intros d. rewrite Hin. split; [|naive_solver].
  intros [Hn|?]; [by apply elem_of_nil in Hn|done].
Qed.

(** Interface discovery returns each admitted (name, namespace path) pair
    once and nothing else, whatever order the concurrent map is visited in. *)
Theorem getDiscoveredInterfaces_spec config entries :
  NoDup (getDiscoveredInterfaces config entries) ∧
  ∀ d, d ∈ getDiscoveredInterfaces config entries ↔
    ∃ e, e ∈ entries ∧ admits config e = true ∧
      d = mkDiscoveredInterface (if_Name e.1) (interface_netns e.1).
Proof. apply discovered_iff. Qed.

(** C40: an allowed-interfaces list whose first entry is a regular expression
    that does not compile allows every interface: the entries after it are
    ignored and the empty lists mean "no restriction". *)
Theorem invalid_first_regexp_allows_all config definition body e rest intf :
  AllowedInterfaces config = definition :: rest →
  slash_body (trim_spaces definition) = Some body →
  regexp_Compile body = Err e →
  let '(res, ms) := setupAllowedInterfacesLists config in
  interfaceInAllowedList intf res ms = true.
Proof.
  intros Ha Hb He. unfold setupAllowedInterfacesLists. rewrite Ha. simpl.
  rewrite Hb, He. done.
Qed.
End discovery_specs.

(** ** Theorems: containers *)

Lemma one_per_pod_spec seen containers :
  NoDup (podName <$> one_per_pod seen containers) ∧
  ∀ c, c ∈ one_per_pod seen containers ↔
    ∃ i, containers !! i = Some c ∧ podName c ∉ seen ∧
      ∀ j c', (j < i)%nat → containers !! j = Some c' → podName c' ≠ podName c.
Proof.
  revert seen. induction containers as [|c0 containers IH]; intros seen; simpl.
  { split; [constructor|]. intros c. rewrite elem_of_nil.
    split; [done|]. intros (i & Hi & _). by rewrite lookup_nil in Hi. }
  case_decide as Hc0.
  - destruct (IH seen) as [Hnd Hin]. split; [done|]. intros c. rewrite Hin. split.
    + intros (i & Hi & Hc & Hmin). exists (S i). split; [done|]. split; [done|].
      intros [|j] c' Hj Hc'; simpl in Hc'.
      * injection Hc' as <-. intros Heq. by rewrite Heq in Hc0.
      * eapply Hmin; [|done]. lia.
    + intros ([|i] & Hi & Hc & Hmin); simpl in Hi.
      * injection Hi as <-. contradiction.
      * exists i. split; [done|]. split; [done|].
        intros j c' Hj Hc'. apply (Hmin (S j)); [lia|done].
  - destruct (IH ({[podName c0]} ∪ seen)) as [Hnd Hin]. split.
    + rewrite fmap_cons. constructor; [|done]. intros (c & Hc & Hc')%list_elem_of_fmap.
      apply Hin in Hc' as (i & _ & Hs & _). rewrite Hc in Hs.
      apply Hs, elem_of_union_l, elem_of_singleton. done.
    + intros c. rewrite elem_of_cons, Hin. split.
      * intros [->|(i & Hi & Hc & Hmin)].
        -- exists 0%nat. split; [done|]. split; [done|]. intros; lia.
        -- apply not_elem_of_union in Hc as [Hne Hc]. rewrite elem_of_singleton in Hne.
           exists (S i). split; [done|]. split; [done|].
           intros [|j] c' Hj Hc'; simpl in Hc'; [congruence|]. eapply Hmin; [|done]. lia.
      * intros ([|i] & Hi & Hc & Hmin); simpl in Hi; [left; congruence|]. right.
        exists i. split; [done|]. split.
        -- apply not_elem_of_union. split; [|done]. rewrite elem_of_singleton.
           intros Heq. apply (Hmin 0%nat c0); [lia|done|done].
        -- intros j c' Hj Hc'. apply (Hmin (S j)); [lia|done].
Qed.

(** Network-namespace selection keeps exactly one container of each pod,
    the first one listed. *)
Theorem GetOneContainerPerPod_spec containers :
  NoDup (podName <$> GetOneContainerPerPod containers) ∧
  ∀ c, c ∈ GetOneContainerPerPod containers ↔
    ∃ i, containers !! i = Some c ∧
      ∀ j c', (j < i)%nat → containers !! j = Some c' → podName c' ≠ podName c.
Proof.
  destruct (one_per_pod_spec ∅ containers) as [? Hin]. split; [done|].
  intros c. unfold GetOneContainerPerPod. rewrite Hin. split.
  - intros (i & Hi & _ & Hm). by exists i.
  - intros (i & Hi & Hm). exists i. split; [done|]. split; [apply not_elem_of_empty|done].
Qed.

(** ** Theorems: network namespace ids *)

Section netns_specs.
Context {W : Type} `{!HostFS W}.

(** Once the namespace id of a path has been read, the cache answers every
    later question about that path with the same id and without asking the
    host again, until it is reset; the empty path is the host's own. *)
Theorem GetNetNsId_stable path (s : ReconcilerNetNsCache W) id s' :
  GetNetNsId path s = (Some id, s') →
  GetNetNsId path s' = (Some id, s') ∧
  (∀ path' id', rnnc_cache s !! path' = Some id' → rnnc_cache s' !! path' = Some id') ∧
  (path = "" → GetNetNsId host_netns s' = (Some id, s')).
Proof.
  intros H. simpl in H. unfold ReconcilerNetNsCache_GetNetNsId in H.
  assert (rnnc_cache s' !! netns_path path = Some id ∧
    ∀ path' id', rnnc_cache s !! path' = Some id' → rnnc_cache s' !! path' = Some id')
    as [Hc Hsub].
  { destruct (rnnc_cache s !! netns_path path) as [id0|] eqn:E.
    { injection H as -> <-. auto. }
    destruct (os_Stat _ _) as [[[ino|]|e] w] eqn:Ew; [|done|done].
    injection H as -> <-. simpl. split; [by rewrite lookup_insert_eq|].
    intros path' id' Hp. rewrite lookup_insert_ne; [done|congruence]. }
  split; [|split; [done|]].
  - simpl. unfold ReconcilerNetNsCache_GetNetNsId. by rewrite Hc.
  - intros ->. simpl. unfold ReconcilerNetNsCache_GetNetNsId.
    change (netns_path host_netns) with (netns_path ""). by rewrite Hc.
Qed.
End netns_specs.
