(* ===== verification/Crictl.v ===== *)
(** The CRI client (src/pkg/crictl): the search for the runtime's socket, the
    listing of pods and containers, the inspection of a container, and the process
    ids of a pod's containers; and the commands of cmd/bpfman-crictl. Contexts and
    their timeouts are left out: a call that times out is a call with an error. *)

From Stdlib Require Import Ascii.
From S2P Require Import Prelude.
From stdpp Require Import options.

(** ** types.go *)

Record ContainerPIDInfo := mkContainerPIDInfo {
  pi_PodName : string;
  pi_ContainerName : string;
  pi_ContainerID : string;
  pi_PID : Z;
  pi_Namespace : string;
}.

Record PodMetadata := mkPodMetadata {
  pm_Name : string;
  pm_UID : string;
  pm_Namespace : string;
  pm_Attempt : Z;
}.

Record PodInfo := mkPodInfo {
  pod_ID : string;
  pod_Metadata : PodMetadata;
  pod_State : string;
  pod_CreatedAt : Z;
  pod_Labels : gmap string string;
}.

Record ContainerMetadata := mkContainerMetadata {
  ctm_Name : string;
  ctm_Attempt : Z;
}.

Record CRIContainerInfo := mkCRIContainerInfo {
  ci_ID : string;
  ci_PodID : string;
  ci_Metadata : ContainerMetadata;
  ci_Image : string;
  ci_ImageRef : string;
  ci_State : string;
  ci_CreatedAt : Z;
  ci_Labels : gmap string string;
}.

Record ContainerMount := mkContainerMount {
  mt_ContainerPath : string;
  mt_HostPath : string;
  mt_Readonly : bool;
}.

Record ContainerStatus := mkContainerStatus {
  cs_ID : string;
  cs_Metadata : ContainerMetadata;
  cs_State : string;
  cs_CreatedAt : Z;
  cs_StartedAt : Z;
  cs_FinishedAt : Z;
  cs_ExitCode : Z;
  cs_Image : string;
  cs_ImageRef : string;
  cs_Reason : string;
  cs_Message : string;
  cs_Labels : gmap string string;
  cs_Annotations : gmap string string;
  cs_Mounts : list ContainerMount;
  cs_LogPath : string;
}.

(** A value of type [interface{}] as it occurs in the info maps. A float64 is an
    integer mantissa and a binary exponent. *)
Inductive iface :=
  | IString (s : string)
  | IInt64 (v : Z)
  | IFloat64 (mantissa exponent : Z)
  | IInt (v : Z)
  | IInt32 (v : Z)
  | IOther (type_name text : string).

Record InspectResponse := mkInspectResponse {
  ir_Status : ContainerStatus;
  ir_Info : gmap string iface;
}.

(** ** The runtime service (k8s.io/cri-api) *)

(** The messages of the service; their sub-messages are pointers. The states are
    given by the text of their [String()]. *)
Record PodSandbox := mkPodSandbox {
  sb_Id : string;
  sb_Metadata : option PodMetadata;
  sb_State : string;
  sb_CreatedAt : Z;
  sb_Labels : gmap string string;
}.

Record RtContainer := mkRtContainer {
  rc_Id : string;
  rc_PodSandboxId : string;
  rc_Metadata : option ContainerMetadata;
  rc_Image : option string;
  rc_ImageRef : string;
  rc_State : string;
  rc_CreatedAt : Z;
  rc_Labels : gmap string string;
}.

Record RtContainerStatus := mkRtContainerStatus {
  rs_Id : string;
  rs_Metadata : option ContainerMetadata;
  rs_State : string;
  rs_CreatedAt : Z;
  rs_StartedAt : Z;
  rs_FinishedAt : Z;
  rs_ExitCode : Z;
  rs_Image : option string;
  rs_ImageRef : string;
  rs_Reason : string;
  rs_Message : string;
  rs_Labels : gmap string string;
  rs_Annotations : gmap string string;
  rs_Mounts : list ContainerMount;
  rs_LogPath : string;
}.

(** gRPC connections to a CRI runtime, the file system and the environment. A
    connection is named by a number. *)
Class CRI (W : Type) := {
  cri_Getenv : string → W → string * W;
  cri_StatSocket : string → W → result bool * W;
  grpc_NewClient : string → W → result nat * W;
  conn_Close : nat → W → option error * W;
  cri_Version : nat → W → option error * W;
  cri_ListPodSandbox : nat → W → result (list PodSandbox) * W;
  cri_ListContainers : nat → string → W → result (list RtContainer) * W;
  cri_ContainerStatus : nat → string → W →
    result (option RtContainerStatus * gmap string string) * W;
}.

(** encoding/json: the object in a document, and the text that [%v] prints for it. *)
Class JSONLib := {
  json_Unmarshal : string → result (gmap string iface);
  json_text : gmap string iface → string;
}.

(** [defer c] around [m]: [c] runs when [m] returns and when it panics. *)
Definition deferred {W A} (c : W → option error * W) (m : GoM W A) : GoM W A :=
  λ w, let '(o, w') := m w in (o, (c w').2).

(** [for _, x := range xs { ys = append(ys, f(x)) }] for an [f] that may panic. *)
Fixpoint mapM_go {W A B} (f : A → GoM W B) (xs : list A) : GoM W (list B) :=
  match xs with
  | [] => mret []
  | x :: xs' => y ← f x; ys ← mapM_go f xs'; mret (y :: ys)
  end.

(** ** container.go *)

Definition findPodByNameWithNamespace (pods : list PodInfo) (podName : string)
    : option PodInfo :=
  i ← find_index (λ pod, bool_decide (pm_Name (pod_Metadata pod) = podName)) pods;
  pods !! i.

Definition name_found (containerNames : list string) (container : CRIContainerInfo) : bool :=
  existsb (λ name, bool_decide (name = ctm_Name (ci_Metadata container))) containerNames.

Definition filterContainersByNames (containers : list CRIContainerInfo)
    (containerNames : list string) : list CRIContainerInfo :=
  if decide (length containerNames = 0%nat) then containers
  else List.filter (name_found containerNames) containers.

(** What the platform that Go compiles for makes of a float64 that is beyond int32: the
    language leaves it open, the compiled program has some int32. *)
Class GoPlatform := {
  float64_overflow : Z → Z → Z;
  float64_overflow_int32 m e : - 2 ^ 31 <= float64_overflow m e < 2 ^ 31;
}.

(** The integer part of a float64, towards zero. *)
Definition float64_trunc (mantissa exponent : Z) : Z :=
  if exponent <? 0 then Z.quot mantissa (2 ^ (- exponent)) else mantissa * 2 ^ exponent.

Section pids.
Context `{go : GoPlatform}.

(** [int32(v)] of a float64. *)
Definition float64_to_int32 (mantissa exponent : Z) : Z :=
  let z := float64_trunc mantissa exponent in
  if decide (- 2 ^ 31 <= z < 2 ^ 31) then z else float64_overflow mantissa exponent.

Definition convertPIDValue (pidValue : iface) : result Z :=
  match pidValue with
  | IInt64 v => Ok (to_int32 v)
  | IFloat64 m e => Ok (float64_to_int32 m e)
  | IInt v => Ok (to_int32 v)
  | IInt32 v => Ok v
  | IString s => Err ("unexpected PID type string: " +:+ s)
  | IOther t s => Err ("unexpected PID type " +:+ t +:+ ": " +:+ s)
  end.

Definition extractPIDFromInspectInfo (info : gmap string iface) : result Z :=
  match info !! "pid" with
  | Some pidValue => convertPIDValue pidValue
  | None => Err "PID not found in inspect info"
  end.

Definition buildContainerPIDInfo (podName namespace : string) (container : CRIContainerInfo)
    (pid : Z) : ContainerPIDInfo :=
  mkContainerPIDInfo podName (ctm_Name (ci_Metadata container)) (ci_ID container) pid namespace.

Fixpoint pid_infos (podName namespace : string) (containers : list CRIContainerInfo)
    (inspectResults : gmap string (gmap string iface)) : result (list ContainerPIDInfo) :=
  match containers with
  | [] => Ok []
  | container :: containers' =>
      match inspectResults !! ci_ID container with
      | None => Err ("inspect info not found for container " +:+ ci_ID container)
      | Some inspectInfo =>
          match extractPIDFromInspectInfo inspectInfo with
          | Err err => Err ("container " +:+ ci_ID container +:+ ": " +:+ err)
          | Ok pid =>
              match pid_infos podName namespace containers' inspectResults with
              | Err err => Err err
              | Ok result => Ok (buildContainerPIDInfo podName namespace container pid :: result)
              end
          end
      end
  end.

Definition processContainerInfoFromPod (podName : string) (containerNames : list string)
    (pods : list PodInfo) (containers : list CRIContainerInfo)
    (inspectResults : gmap string (gmap string iface)) : result (list ContainerPIDInfo) :=
  match findPodByNameWithNamespace pods podName with
  | None => Err ("pod " +:+ podName +:+ " not found")
  | Some pod =>
      let podContainers :=
        List.filter (λ container, bool_decide (ci_PodID container = pod_ID pod)) containers in
      let filteredContainers := filterContainersByNames podContainers containerNames in
      pid_infos podName (pm_Namespace (pod_Metadata pod)) filteredContainers inspectResults
  end.
End pids.

(** ** types.go: processInfoField *)

(** strings.Trim of double quotes. *)
Definition quote : ascii := "034".

Fixpoint drop_quotes (l : list ascii) : list ascii :=
  match l with
  | [] => []
  | c :: l' => if decide (c = quote) then drop_quotes l' else l
  end.

Definition trim_quotes (s : string) : string :=
  String.string_of_list_ascii (rev (drop_quotes (rev (drop_quotes (String.list_ascii_of_string s))))).

Section crictl.
Context {W : Type} `{!CRI W} `{!JSONLib, go : GoPlatform}.

(** What becomes of one entry. *)
Definition process_value (value : iface) : iface :=
  match value with
  | IString strValue =>
      if String.prefix "{" strValue then
        match json_Unmarshal strValue with
        | Ok genericVal => IOther "map[string]interface {}" (json_text genericVal)
        | Err _ => IString (trim_quotes strValue)
        end
      else IString (trim_quotes strValue)
  | _ => value
  end.

Definition processInfoField (info : gmap string iface) : gmap string iface :=
  match info !! "info" with
  | Some (IString strValue) =>
      if String.prefix "{" strValue then
        match json_Unmarshal strValue with
        | Ok parsedInfo => parsedInfo
        | Err _ => process_value <$> info
        end
      else process_value <$> info
  | _ => process_value <$> info
  end.

(** ** discovery.go *)

Definition socket_path (endpoint : string) : string :=
  if String.prefix "unix://" endpoint then String.substring 7 (String.length endpoint) endpoint
  else endpoint.

Definition testConnection (endpoint : string) : GoM W bool :=
  info ← lift (cri_StatSocket (socket_path endpoint));
  match info with
  | Err _ => mret false
  | Ok false => mret false
  | Ok true =>
      conn ← lift (grpc_NewClient endpoint);
      match conn with
      | Err _ => mret false
      | Ok conn =>
          deferred (conn_Close conn)
            (err ← lift (cri_Version conn);
             mret (match err with None => true | Some _ => false end))
      end
  end.

Definition endpoints : list string :=
  ["unix:///run/containerd/containerd.sock"; "unix:///run/crio/crio.sock";
   "unix:///var/run/cri-dockerd.sock"; "unix:///var/run/containerd/containerd.sock";
   "unix:///var/run/crio/crio.sock"; "unix:///var/run/dockershim.sock"].

Fixpoint first_endpoint (es : list string) : GoM W (option string) :=
  match es with
  | [] => mret None
  | endpoint :: es' =>
      ok ← testConnection endpoint;
      if (ok : bool) then mret (Some endpoint) else first_endpoint es'
  end.

Definition findCRISocket : GoM W (result string) :=
  endpoint ← lift (cri_Getenv "CONTAINER_RUNTIME_ENDPOINT");
  if decide (endpoint ≠ "") then mret (Ok endpoint)
  else
    found ← first_endpoint endpoints;
    mret (match found with
          | Some endpoint => Ok endpoint
          | None => Err ("no CRI socket found at any of the expected locations: ["
                         +:+ String.concat " " endpoints +:+ "]")
          end).

(** ** client.go: a [Client] is its connection *)

Definition NewClient : GoM W (result nat) :=
  socket ← findCRISocket;
  match socket with
  | Err err => mret (Err ("finding CRI socket: " +:+ err))
  | Ok socket =>
      conn ← lift (grpc_NewClient socket);
      match conn with
      | Err err => mret (Err ("connecting to CRI runtime at " +:+ socket +:+ ": " +:+ err))
      | Ok conn =>
          err ← lift (cri_Version conn);
          match err with
          | Some err =>
              _ ← lift (conn_Close conn);
              mret (Err ("testing connection to CRI runtime at " +:+ socket +:+ ": " +:+ err))
          | None => mret (Ok conn)
          end
      end
  end.

(** One round of the loop of listPods: nothing for a pod with another name. *)
Definition pod_info (nameFilter : string) (pod : PodSandbox) : GoM W (option PodInfo) :=
  metadata ← deref (sb_Metadata pod);
  if decide (nameFilter ≠ "" ∧ pm_Name metadata ≠ nameFilter) then mret None
  else mret (Some (mkPodInfo (sb_Id pod) metadata (sb_State pod) (sb_CreatedAt pod)
                     (sb_Labels pod))).

Definition listPods (c : nat) (nameFilter : string) : GoM W (result (list PodInfo)) :=
  resp ← lift (cri_ListPodSandbox c);
  match resp with
  | Err err => mret (Err ("listing pod sandboxes: " +:+ err))
  | Ok items =>
      pods ← mapM_go (pod_info nameFilter) items;
      mret (Ok (omap id pods))
  end.

Definition container_info (container : RtContainer) : GoM W CRIContainerInfo :=
  metadata ← deref (rc_Metadata container);
  image ← deref (rc_Image container);
  mret (mkCRIContainerInfo (rc_Id container) (rc_PodSandboxId container) metadata image
          (rc_ImageRef container) (rc_State container) (rc_CreatedAt container)
          (rc_Labels container)).

Definition listContainers (c : nat) (podID : string) : GoM W (result (list CRIContainerInfo)) :=
  resp ← lift (cri_ListContainers c podID);
  match resp with
  | Err err => mret (Err ("listing containers: " +:+ err))
  | Ok items => containers ← mapM_go container_info items; mret (Ok containers)
  end.

Definition inspectContainer (c : nat) (containerID : string) : GoM W (result InspectResponse) :=
  resp ← lift (cri_ContainerStatus c containerID);
  match resp with
  | Err err => mret (Err ("getting container status for " +:+ containerID +:+ ": " +:+ err))
  | Ok (status, info) =>
      status ← deref status;
      metadata ← deref (rs_Metadata status);
      image ← deref (rs_Image status);
      let containerStatus :=
        mkContainerStatus (rs_Id status) metadata (rs_State status) (rs_CreatedAt status)
          (rs_StartedAt status) (rs_FinishedAt status) (rs_ExitCode status) image
          (rs_ImageRef status) (rs_Reason status) (rs_Message status) (rs_Labels status)
          (rs_Annotations status) (rs_Mounts status) (rs_LogPath status) in
      mret (Ok (mkInspectResponse containerStatus (processInfoField (IString <$> info))))
  end.

(** The loop over the containers of GetContainerInfoFromPod. *)
Fixpoint inspect_all (c : nat) (containers : list CRIContainerInfo)
    (inspectResults : gmap string (gmap string iface))
    : GoM W (result (gmap string (gmap string iface))) :=
  match containers with
  | [] => mret (Ok inspectResults)
  | container :: containers' =>
      inspectResp ← inspectContainer c (ci_ID container);
      match inspectResp with
      | Err err => mret (Err ("inspecting container " +:+ ci_ID container +:+ ": " +:+ err))
      | Ok resp => inspect_all c containers' (<[ci_ID container := ir_Info resp]> inspectResults)
      end
  end.

Definition GetContainerInfoFromPod (c : nat) (podName : string) (containerNames : list string)
    : GoM W (result (list ContainerPIDInfo)) :=
  podsResp ← listPods c podName;
  match podsResp with
  | Err err => mret (Err ("listing pods: " +:+ err))
  | Ok pods =>
      containersResp ← listContainers c "";
      match containersResp with
      | Err err => mret (Err ("listing containers: " +:+ err))
      | Ok containers =>
          inspectResults ← inspect_all c containers ∅;
          match inspectResults with
          | Err err => mret (Err err)
          | Ok inspectResults =>
              mret (processContainerInfoFromPod podName containerNames pods containers
                      inspectResults)
          end
      end
  end.

(** ** api.go *)

Definition GetContainerPIDsFromPod (podName : string) (containerNames : list string)
    : GoM W (result (list ContainerPIDInfo)) :=
  client ← NewClient;
  match client with
  | Err err => mret (Err err)
  | Ok client =>
      deferred (conn_Close client) (GetContainerInfoFromPod client podName containerNames)
  end.
End crictl.
