(* ===== verification/Containers.v ===== *)
(** The containers of the node that a program is attached in
    (controllers/bpfman-agent/containers.go): the pods of the node from the API
    server, and the process ids of their containers from the CRI client. This is the
    [ContainerGetter] of the agent. Also the commands of cmd/bpfman-crictl, which
    print what the CRI client answers. *)

From Stdlib Require Import Ascii.
From S2P Require Import Prelude ApiTypes Selectors Crictl.
From stdpp Require Import options.

(** ** containers.go *)

(** The pods of a namespace ([""]: of all), by field and label selector, with
    their names; and metav1.FormatLabelSelector. *)
Class PodAPI (W : Type) := {
  Pods_List : string → string → string → W → result (list string) * W;
  FormatLabelSelector : LabelSelector → string;
}.

Section containers.
Context {W : Type} `{!CRI W, !JSONLib, go : GoPlatform, !PodAPI W}.

Definition getPodsForNode (nodeName selectorNamespace : string) (selectorPods : LabelSelector)
    : GoM W (result (list string)) :=
  let selectorString := FormatLabelSelector selectorPods in
  if decide (selectorString = "<error>") then
    mret (Err ("error parsing selector: " +:+ selectorString))
  else
    let labelSelector := if decide (selectorString ≠ "<none>") then selectorString else "" in
    podList ← lift (Pods_List selectorNamespace ("spec.nodeName=" +:+ nodeName) labelSelector);
    mret (match podList with
          | Err err => Err ("error getting pod list: " +:+ err)
          | Ok podList => Ok podList
          end).

Definition getContainerInfoFromPod (podName : string) (containerNames : option (list string))
    : GoM W (result (list ContainerInfo)) :=
  let nameSlice := default [] containerNames in
  pidInfos ← GetContainerPIDsFromPod podName nameSlice;
  mret (match pidInfos with
        | Err err => Err err
        | Ok pidInfos =>
            Ok ((λ info, mkContainerInfo (pi_PodName info) (pi_ContainerName info) (pi_PID info))
                <$> pidInfos)
        end).

(** The loop over the pods. *)
Fixpoint getContainerInfo (podList : list string) (containerNames : option (list string))
    : GoM W (result (list ContainerInfo)) :=
  match podList with
  | [] => mret (Ok [])
  | pod :: podList' =>
      containerInfos ← getContainerInfoFromPod pod containerNames;
      match containerInfos with
      | Err err => mret (Err ("failed to get container info for pod " +:+ pod +:+ ": " +:+ err))
      | Ok containerInfos =>
          rest ← getContainerInfo podList' containerNames;
          mret (match rest with
                | Err err => Err err
                | Ok rest => Ok (containerInfos ++ rest)
                end)
      end
  end.

Definition RealContainerGetter_GetContainers (nodeName selectorNamespace : string)
    (selectorPods : LabelSelector) (selectorContainerNames : option (list string))
    : GoM W (result (option (list ContainerInfo))) :=
  podList ← getPodsForNode nodeName selectorNamespace selectorPods;
  match podList with
  | Err err => mret (Err ("failed to get pod list: " +:+ err))
  | Ok podList =>
      containerList ← getContainerInfo podList selectorContainerNames;
      mret (match containerList with
            | Err err => Err ("failed to get container info: " +:+ err)
            | Ok containerList => Ok (Some containerList)
            end)
  end.

(** As the [ContainerGetter] of the agent. The interface has no panics; a panic of
    the CRI client is shown as an error, and ContainerSpecs proves that there is none
    when the runtime fills in the metadata. *)
Definition RealContainerGetter (nodeName : string) : ContainerGetter W := {|
  GetContainers selectorNamespace selectorPods selectorContainerNames w :=
    match RealContainerGetter_GetContainers nodeName selectorNamespace selectorPods
            selectorContainerNames w with
    | (Ret r, w') => (r, w')
    | (Panic why, w') => (Err why, w')
    end
|}.
End containers.

(** ** cmd/bpfman-crictl *)

(** json.MarshalIndent of the three answers. *)
Class MarshalLib := {
  marshal_pods : list PodInfo → result string;
  marshal_containers : list CRIContainerInfo → result string;
  marshal_inspect : InspectResponse → result string;
}.

(** The loop over the arguments of the first two commands: the value of [option],
    and whether the output is JSON. *)
Fixpoint parse_args (option : string) (args : list string) (value : string) (outputJSON : bool)
    : string * bool :=
  match args with
  | [] => (value, outputJSON)
  | arg :: args' =>
      if decide (arg = option) then
        match args' with
        | v :: args'' => parse_args option args'' v outputJSON
        | [] => (value, outputJSON)
        end
      else if decide (arg = "-o") then
        match args' with
        | v :: args'' =>
            if decide (v = "json") then parse_args option args'' value true
            else parse_args option args' value outputJSON
        | [] => (value, outputJSON)
        end
      else parse_args option args' value outputJSON
  end.

Section commands.
Context {W : Type} `{!CRI W, !JSONLib, !MarshalLib}.

Definition marshaled (r : result string) : result string :=
  match r with Ok output => Ok output | Err err => Err ("marshaling JSON: " +:+ err) end.

Definition handlePodsCommand (client : nat) (args : list string) : GoM W (result string) :=
  let '(nameFilter, outputJSON) := parse_args "--name" args "" false in
  if negb outputJSON then mret (Err "only JSON output is supported")
  else
    resp ← listPods client nameFilter;
    mret (match resp with
          | Err err => Err ("listing pods: " +:+ err)
          | Ok pods => marshaled (marshal_pods pods)
          end).

Definition handlePsCommand (client : nat) (args : list string) : GoM W (result string) :=
  let '(podID, outputJSON) := parse_args "--pod" args "" false in
  if negb outputJSON then mret (Err "only JSON output is supported")
  else
    resp ← listContainers client podID;
    mret (match resp with
          | Err err => Err ("listing containers: " +:+ err)
          | Ok containers => marshaled (marshal_containers containers)
          end).

Definition index_out_of_range : string :=
  "runtime error: index out of range [0] with length 0".

(** The loop over the arguments of inspect; [args\[i\]\[0\]] of an empty argument
    panics. *)
Fixpoint parse_inspect (args : list string) (containerID : string) (outputJSON : bool)
    : GoM W (string * bool) :=
  match args with
  | [] => mret (containerID, outputJSON)
  | arg :: args' =>
      if decide (arg = "-o") then
        match args' with
        | v :: args'' =>
            if decide (v = "json") then parse_inspect args'' containerID true
            else parse_inspect args' containerID outputJSON
        | [] => mret (containerID, outputJSON)
        end
      else
        match arg with
        | EmptyString => panic index_out_of_range
        | String.String c _ =>
            if decide (c ≠ "-"%char) then parse_inspect args' arg outputJSON
            else parse_inspect args' containerID outputJSON
        end
  end.

Definition handleInspectCommand (client : nat) (args : list string) : GoM W (result string) :=
  parsed ← parse_inspect args "" false;
  let '(containerID, outputJSON) := parsed in
  if negb outputJSON then mret (Err "only JSON output is supported")
  else if decide (containerID = "") then mret (Err "container ID is required")
  else
    resp ← inspectContainer client containerID;
    mret (match resp with
          | Err err => Err ("inspecting container: " +:+ err)
          | Ok resp => marshaled (marshal_inspect resp)
          end).

Definition usage : string := "Usage: bpfman-crictl [--version] <command> [args...]
Commands:
  pods --name <name> -o json     List pods
  ps --pod <pod-id> -o json      List containers
  inspect -o json <container-id> Inspect container
".

(** [main] after the flags: the exit code and what is printed. *)
Definition crictl_main (args : list string) : GoM W (Z * string) :=
  match args with
  | [] => mret (1, usage)
  | command :: args =>
      client ← NewClient;
      match client with
      | Err err => mret (1, "Error creating CRI client: " +:+ err)
      | Ok client =>
          output ←
            (if decide (command = "pods") then (o ← handlePodsCommand client args; mret (Some o))
             else if decide (command = "ps") then (o ← handlePsCommand client args; mret (Some o))
             else if decide (command = "inspect") then (o ← handleInspectCommand client args; mret (Some o))
             else mret None);
          match output with
          | None => mret (1, "Unknown command: " +:+ command)
          | Some (Err err) => mret (1, "Error: " +:+ err)
          | Some (Ok output) => _ ← lift (conn_Close client); mret (0, output)
          end
      end
  end.
End commands.
