(* ===== verification/ContainerSpecs.v ===== *)
(** What the container lookup answers: the containers of the pod and no others, with
    process ids that are 32-bit integers; that it closes its connections and touches
    nothing else, so that it can stand for the agent's [ContainerGetter]; and the
    lookups that fail or mislead. *)

From Stdlib Require Import Ascii.
From S2P Require Import Prelude ApiTypes Selectors Crictl Containers.
From stdpp Require Import options.
#[local] Set Default Proof Using "Type*".

(** ** The containers of a pod *)

(** The containers of the sandbox [id], of those names if any are given, in order. *)
Definition selected_containers (id : string) (names : list string)
    (containers : list CRIContainerInfo) : list CRIContainerInfo :=
  List.filter (λ c, bool_decide (ci_PodID c = id)
                    && (bool_decide (names = []) || name_found names c)) containers.

Lemma filter_filter {A} (f g : A → bool) l :
  List.filter g (List.filter f l) = List.filter (λ x, f x && g x) l.
Proof.
  induction l as [|x l IH]; cbn; [done|]. destruct (f x); cbn; [destruct (g x); by rewrite IH|done].
Qed.

Lemma filter_true {A} (f : A → bool) l : (∀ x, f x = true) → List.filter f l = l.
Proof. intros Hf. induction l as [|x l IH]; cbn; [done|]. by rewrite Hf, IH. Qed.

Lemma filter_ext_bool {A} (f g : A → bool) l :
  (∀ x, f x = g x) → List.filter f l = List.filter g l.
Proof. intros Hf. induction l as [|x l IH]; cbn; [done|]. by rewrite Hf, IH. Qed.

Lemma filterContainersByNames_selected id names containers :
  filterContainersByNames
    (List.filter (λ c, bool_decide (ci_PodID c = id)) containers) names =
  selected_containers id names containers.
Proof.
  unfold filterContainersByNames, selected_containers. destruct names as [|n names]; cbn.
  - apply filter_ext_bool. intros x. by rewrite andb_true_r.
  - apply filter_filter.
Qed.

Section pids.
Context `{go : GoPlatform}.

(** The answer for one container. *)
Definition answers (podName namespace : string) (inspectResults : gmap string (gmap string iface))
    (c : CRIContainerInfo) (i : ContainerPIDInfo) : Prop :=
  pi_PodName i = podName ∧ pi_Namespace i = namespace ∧ pi_ContainerID i = ci_ID c ∧
  pi_ContainerName i = ctm_Name (ci_Metadata c) ∧
  ∃ info, inspectResults !! ci_ID c = Some info ∧ extractPIDFromInspectInfo info = Ok (pi_PID i).

Lemma pid_infos_iff podName namespace cs insp res :
  pid_infos podName namespace cs insp = Ok res ↔
  Forall2 (answers podName namespace insp) cs res.
Proof.
  revert res. induction cs as [|c cs IH]; intros res; cbn.
  { split; [by intros [= <-]|]. by inversion 1. }
  split.
  - destruct (insp !! ci_ID c) as [info|] eqn:Hi; [|done].
    destruct (extractPIDFromInspectInfo info) as [pid|] eqn:Hp; [|done].
    destruct (pid_infos podName namespace cs insp) as [rest|] eqn:Hr; [|done].
    intros [= <-]. constructor; [|by apply IH].
    unfold answers. cbn. by eauto 10.
  - intros H. apply Forall2_cons_inv_l in H
      as ([n1 n2 n3 n4 n5] & rest & (H1 & H2 & H3 & H4 & info & Hi & Hp) & Hrest & ->).
    rewrite Hi, Hp. apply IH in Hrest. rewrite Hrest. cbn in *.
    unfold buildContainerPIDInfo. congruence.
Qed.

Lemma findPod_iff pods podName pod :
  findPodByNameWithNamespace pods podName = Some pod ↔
  ∃ i, pods !! i = Some pod ∧ pm_Name (pod_Metadata pod) = podName ∧
       ∀ j p, (j < i)%nat → pods !! j = Some p → pm_Name (pod_Metadata p) ≠ podName.
Proof.
  unfold findPodByNameWithNamespace. split.
  - destruct (find_index _ pods) as [i|] eqn:Hi; [|done]. cbn. intros Hp.
    apply find_index_Some in Hi as (a & Ha & Hfa & Hmin). rewrite Ha in Hp.
    injection Hp as ->. exists i. apply bool_decide_eq_true in Hfa. split_and!; [done|done|].
    intros j p Hj Hp. exact (bool_decide_eq_false_1 _ (Hmin _ _ Hj Hp)).
  - intros (i & Hi & Hn & Hmin). destruct (find_index _ pods) as [k|] eqn:Hk; cbn.
    + apply find_index_Some in Hk as (a & Ha & Hfa & Hmin'). apply bool_decide_eq_true in Hfa.
      destruct (decide (i < k)%nat) as [Hlt|Hge].
      { specialize (Hmin' _ _ Hlt Hi). apply bool_decide_eq_false in Hmin'. done. }
      destruct (decide (k < i)%nat) as [Hlt|?]; [by destruct (Hmin _ _ Hlt Ha)|].
      by replace k with i by lia.
    + apply find_index_None with (a := pod) in Hk; [|by eapply list_elem_of_lookup_2].
      by apply bool_decide_eq_false in Hk.
Qed.

(** C25: the process ids reported for a pod are exactly those of the containers of the
    first sandbox of that name whose container name was asked for (all of them if
    none was), one for each, in the runtime's order; there is no answer when the pod
    is unknown or when one of these containers has no process id. *)
Theorem processContainerInfoFromPod_iff podName names pods containers insp res :
  processContainerInfoFromPod podName names pods containers insp = Ok res ↔
  ∃ i pod, pods !! i = Some pod ∧ pm_Name (pod_Metadata pod) = podName ∧
    (∀ j p, (j < i)%nat → pods !! j = Some p → pm_Name (pod_Metadata p) ≠ podName) ∧
    Forall2 (answers podName (pm_Namespace (pod_Metadata pod)) insp)
      (selected_containers (pod_ID pod) names containers) res.
Proof.
  unfold processContainerInfoFromPod.
  destruct (findPodByNameWithNamespace pods podName) as [pod|] eqn:Hf.
  - rewrite filterContainersByNames_selected, pid_infos_iff. apply findPod_iff in Hf as Hf'.
    split; [intros H; destruct Hf' as (i & H1 & H2 & H3); by eauto 10|].
    intros (i & pod' & H1 & H2 & H3 & H4).
    assert (Some pod = Some pod') as [= ->]; [|done].
    rewrite <- Hf. apply findPod_iff. by eauto.
  - split; [done|]. intros (i & pod & H1 & H2 & H3 & _).
    assert (findPodByNameWithNamespace pods podName = Some pod); [|congruence].
    apply findPod_iff. by eauto.
Qed.

(** ** Process ids as 32-bit integers *)

(** The values of [interface{}] hold what their type can. *)
Definition wf_iface (v : iface) : Prop :=
  match v with
  | IInt64 v | IInt v => - 2 ^ 63 <= v < 2 ^ 63
  | IInt32 v => - 2 ^ 31 <= v < 2 ^ 31
  | _ => True
  end.

(** The integer part of a number. *)
Definition integer_part (v : iface) : option Z :=
  match v with
  | IInt64 v | IInt v | IInt32 v => Some v
  | IFloat64 m e => Some (float64_trunc m e)
  | IString _ | IOther _ _ => None
  end.

Lemma to_int32_bounds z : - 2 ^ 31 <= to_int32 z < 2 ^ 31.
Proof.
  unfold to_int32, wrap_signed. pose proof (Z.mod_pos_bound z (2 ^ 32) ltac:(lia)).
  destruct (Z.ltb_spec (z mod 2 ^ 32) (2 ^ (32 - 1))); cbn in *; lia.
Qed.

Lemma to_int32_exact z : - 2 ^ 31 <= z < 2 ^ 31 → to_int32 z = z.
Proof.
  intros Hz. unfold to_int32, wrap_signed. change (32 - 1) with 31.
  destruct (decide (0 <= z)).
  - rewrite Z.mod_small by lia. destruct (Z.ltb_spec z (2 ^ 31)); lia.
  - rewrite <- (Z.mod_unique_pos z (2 ^ 32) (-1) (z + 2 ^ 32)) by lia.
    destruct (Z.ltb_spec (z + 2 ^ 32) (2 ^ 31)); lia.
Qed.

Lemma to_int32_mod z : to_int32 z mod 2 ^ 32 = z mod 2 ^ 32.
Proof.
  unfold to_int32, wrap_signed. pose proof (Z.mod_pos_bound z (2 ^ 32) ltac:(lia)).
  destruct (Z.ltb_spec (z mod 2 ^ 32) (2 ^ (32 - 1))); [by rewrite Z.mod_mod by lia|].
  replace (z mod 2 ^ 32 - 2 ^ 32) with (z mod 2 ^ 32 + -1 * 2 ^ 32) by lia.
  rewrite Z.mod_add, Z.mod_mod by lia. done.
Qed.

End pids.

(** ** Connections, and what the lookup leaves alone *)

Section footprint.
Context {W X : Type} (f : W → X).

(** However it ends, [m] leaves [f] of the state as it is. *)
Definition leaves {A} (m : GoM W A) : Prop := ∀ w, f (m w).2 = f w.

Lemma leaves_ret {A} (a : A) : leaves (mret a).
Proof using Type. done. Qed.
Lemma leaves_panic {A} why : leaves (panic why : GoM W A).
Proof using Type. done. Qed.
Lemma leaves_deref {A} (p : option A) : leaves (deref p : GoM W A).
Proof using Type. by destruct p. Qed.
Lemma leaves_lift {A} (g : W → A * W) : (∀ w, f (g w).2 = f w) → leaves (lift g).
Proof using Type. intros Hg w. rewrite run_lift. apply Hg. Qed.
Lemma leaves_bind {A B} (m : GoM W A) (k : A → GoM W B) :
  leaves m → (∀ a, leaves (k a)) → leaves (m ≫= k).
Proof using Type.
  intros Hm Hk w. specialize (Hm w). unfold mbind, GoM_bind.
  destruct (m w) as [[a|why] w']; cbn in *; [rewrite Hk|]; done.
Qed.
Lemma leaves_mapM {A B} (g : A → GoM W B) xs : (∀ x, leaves (g x)) → leaves (mapM_go g xs).
Proof using Type.
  intros Hg. induction xs as [|x xs IH]; cbn; [apply leaves_ret|].
  apply leaves_bind; [apply Hg|]. intros y. apply leaves_bind; [apply IH|].
  intros ys. apply leaves_ret.
Qed.
End footprint.

Create HintDb leaves discriminated.
#[export] Hint Resolve leaves_ret leaves_panic leaves_deref leaves_mapM : leaves.
(** Everything but the opening and the closing of connections leaves [f] alone. *)
Class CRIFrame {W X : Type} `{!CRI W} (f : W → X) : Prop := {
  frame_getenv v w : f (cri_Getenv v w).2 = f w;
  frame_stat p w : f (cri_StatSocket p w).2 = f w;
  frame_version c w : f (cri_Version c w).2 = f w;
  frame_pods c w : f (cri_ListPodSandbox c w).2 = f w;
  frame_containers c p w : f (cri_ListContainers c p w).2 = f w;
  frame_status c i w : f (cri_ContainerStatus c i w).2 = f w;
}.
Ltac leaves_tac :=
  repeat (first
    [ progress intros
    | match goal with
      | |- leaves _ (mbind _ _) => apply leaves_bind
      | |- leaves _ (lift _) => apply leaves_lift
      | |- leaves _ (match ?x with _ => _ end) => destruct x
      | |- _ (snd (cri_Getenv _ _)) = _ => apply frame_getenv
      | |- _ (snd (cri_StatSocket _ _)) = _ => apply frame_stat
      | |- _ (snd (cri_Version _ _)) = _ => apply frame_version
      | |- _ (snd (cri_ListPodSandbox _ _)) = _ => apply frame_pods
      | |- _ (snd (cri_ListContainers _ _ _)) = _ => apply frame_containers
      | |- _ (snd (cri_ContainerStatus _ _ _)) = _ => apply frame_status
      end
    | solve [eauto with leaves] ]).


Section calls.
Context {W X : Type} `{!CRI W, !JSONLib, go : GoPlatform} (f : W → X) `{!CRIFrame f}.

Lemma listPods_leaves c n : leaves f (listPods c n).
Proof. unfold listPods, pod_info. leaves_tac. apply leaves_mapM. leaves_tac. Qed.

Lemma listContainers_leaves c p : leaves f (listContainers c p).
Proof. unfold listContainers, container_info. leaves_tac. apply leaves_mapM. leaves_tac. Qed.

Lemma inspectContainer_leaves c i : leaves f (inspectContainer c i).
Proof. unfold inspectContainer. leaves_tac. Qed.
#[local] Hint Resolve listPods_leaves listContainers_leaves inspectContainer_leaves : leaves.

Lemma inspect_all_leaves c cs acc : leaves f (inspect_all c cs acc).
Proof.
  revert acc. induction cs as [|x cs IH]; intros acc; cbn; leaves_tac.
Qed.
#[local] Hint Resolve inspect_all_leaves : leaves.

Lemma GetContainerInfoFromPod_leaves c p ns : leaves f (GetContainerInfoFromPod c p ns).
Proof. unfold GetContainerInfoFromPod. leaves_tac. Qed.
End calls.

(** The open connections. *)
Class CRIConns (W : Type) `{!CRI W} := {
  conns : W → gset nat;
  conns_frame :: CRIFrame conns;
  conns_open e (w w' : W) c :
    grpc_NewClient e w = (Ok c, w') → c ∉ conns w ∧ conns w' = {[c]} ∪ conns w;
  conns_failed e (w w' : W) err : grpc_NewClient e w = (Err err, w') → conns w' = conns w;
  conns_close c (w : W) : conns (conn_Close c w).2 = conns w ∖ {[c]};
}.

Section conns.
Context {W : Type} `{!CRI W, !JSONLib, go : GoPlatform, !CRIConns W}.
Implicit Types w : W.

Lemma deferred_closes {A} c (m : GoM W A) w (s : gset nat) :
  leaves conns m → c ∉ s → conns w = {[c]} ∪ s → conns (deferred (conn_Close c) m w).2 = s.
Proof.
  intros Hm Hc Hw. unfold deferred. specialize (Hm w). destruct (m w) as [o w'].
  cbn in *. rewrite conns_close, Hm, Hw. set_solver.
Qed.

Lemma testConnection_closes e : leaves conns (testConnection e).
Proof.
  unfold testConnection. apply leaves_bind; [leaves_tac|]. intros [[|]|]; try apply leaves_ret.
  intros w. erewrite run_bind by apply run_lift.
  destruct (grpc_NewClient e w) as [[c|err] w'] eqn:Hc; cbn [fst snd].
  - apply conns_open in Hc as [Hn Hw]. apply deferred_closes; [leaves_tac|done|done].
  - by eapply conns_failed.
Qed.

Lemma first_endpoint_closes es : leaves conns (first_endpoint es).
Proof.
  induction es as [|e es IH]; cbn; [apply leaves_ret|].
  apply leaves_bind; [apply testConnection_closes|]. intros [|]; [apply leaves_ret|apply IH].
Qed.

Lemma findCRISocket_closes : leaves conns findCRISocket.
Proof.
  unfold findCRISocket. apply leaves_bind; [leaves_tac|]. intros e. case_decide; [leaves_tac|].
  apply leaves_bind; [apply first_endpoint_closes|]. leaves_tac.
Qed.

(** A client is one open connection more; without a client there is none. *)
Lemma NewClient_opens w :
  match NewClient w with
  | (Ret (Ok c), w') => c ∉ conns w ∧ conns w' = {[c]} ∪ conns w
  | (_, w') => conns w' = conns w
  end.
Proof.
  unfold NewClient, mbind, GoM_bind. pose proof (findCRISocket_closes w) as Hs.
  destruct (findCRISocket w) as [[[e|err]|why] w1]; cbn in *; [|done..].
  rewrite run_lift. destruct (grpc_NewClient e w1) as [[c|err] w2] eqn:Hc; cbn.
  - apply conns_open in Hc as [Hn Hw2]. rewrite run_lift.
    pose proof (frame_version c w2) as Hv.
    destruct (cri_Version c w2) as [[err|] w3]; cbn [fst snd] in *.
    + rewrite run_lift. cbn. rewrite conns_close, Hv, Hw2, <- Hs. clear -Hn. set_solver.
    + cbn. rewrite <- Hs, Hv. done.
  - rewrite <- Hs. by eapply conns_failed.
Qed.

(** The container lookup closes every connection it opens, those of the search
    for the socket and the one it works with, however it ends: with an answer, with an
    error at any point, or with a panic. *)
Theorem GetContainerPIDsFromPod_closes podName names w :
  conns (GetContainerPIDsFromPod podName names w).2 = conns w.
Proof.
  unfold GetContainerPIDsFromPod, mbind, GoM_bind. pose proof (NewClient_opens w) as Hc.
  destruct (NewClient w) as [[[c|err]|why] w1]; cbn in *; [|done..].
  destruct Hc as [Hn Hw1]. apply deferred_closes; [|done|done].
  apply GetContainerInfoFromPod_leaves, _.
Qed.
End conns.

(** ** As the agent's [ContainerGetter] *)

Section getter.
Context {W X : Type} `{!CRI W, !JSONLib, go : GoPlatform, !PodAPI W} (f : W → X) `{!CRIFrame f}.
Context (f_open : ∀ e w, f (grpc_NewClient e w).2 = f w).
Context (f_close : ∀ c w, f (conn_Close c w).2 = f w).
Context (f_pods : ∀ n s l w, f (Pods_List n s l w).2 = f w).
#[local] Hint Resolve f_open f_close f_pods : leaves.

Lemma deferred_leaves {A} c (m : GoM W A) : leaves f m → leaves f (deferred (conn_Close c) m).
Proof.
  intros Hm w. unfold deferred. specialize (Hm w). destruct (m w). cbn in *. by rewrite f_close.
Qed.
#[local] Hint Resolve deferred_leaves : leaves.

Lemma first_endpoint_leaves es : leaves f (first_endpoint es).
Proof.
  induction es as [|e es IH]; cbn; [apply leaves_ret|]. unfold testConnection.
  apply leaves_bind; [|intros [|]; [apply leaves_ret|apply IH]].
  leaves_tac. apply deferred_leaves. leaves_tac.
Qed.
#[local] Hint Resolve first_endpoint_leaves : leaves.

Lemma NewClient_leaves : leaves f NewClient.
Proof. unfold NewClient, findCRISocket. leaves_tac. Qed.
#[local] Hint Resolve NewClient_leaves : leaves.

Lemma getContainerInfo_leaves pods names : leaves f (getContainerInfo pods names).
Proof.
  induction pods as [|p pods IH]; cbn; [apply leaves_ret|].
  unfold getContainerInfoFromPod, GetContainerPIDsFromPod. leaves_tac.
  apply deferred_leaves, GetContainerInfoFromPod_leaves, _.
Qed.

(** The frame law that the link reconcilers ask of a [ContainerGetter]. *)
Lemma RealContainerGetter_frame nodeName ns sel names w :
  f (GetContainers (ContainerGetter := RealContainerGetter nodeName) ns sel names w).2 = f w.
Proof.
  assert (Hl : leaves f (RealContainerGetter_GetContainers nodeName ns sel names)).
  { unfold RealContainerGetter_GetContainers, getPodsForNode. leaves_tac.
    apply getContainerInfo_leaves. }
  specialize (Hl w). cbn. by destruct (RealContainerGetter_GetContainers _ _ _ _ w) as [[]].
Qed.
End getter.

(** A runtime that fills in the messages, as the CRI asks of it. *)
Class CRIFilled (W : Type) `{!CRI W} : Prop := {
  filled_pods c (w : W) items :
    (cri_ListPodSandbox c w).1 = Ok items → ∀ p, p ∈ items → is_Some (sb_Metadata p);
  filled_containers c p (w : W) items :
    (cri_ListContainers c p w).1 = Ok items →
    ∀ x, x ∈ items → is_Some (rc_Metadata x) ∧ is_Some (rc_Image x);
  filled_status c i (w : W) s info :
    (cri_ContainerStatus c i w).1 = Ok (s, info) →
    ∃ st, s = Some st ∧ is_Some (rs_Metadata st) ∧ is_Some (rs_Image st);
}.

Section no_panic.
Context {W : Type} `{!CRI W, !JSONLib, go : GoPlatform, !PodAPI W, !CRIFilled W}.
Implicit Types w : W.

(** [m] returns. *)
Definition returns {A} (m : GoM W A) : Prop := ∀ w, wp m (λ _ _, True) w.

Lemma returns_ret {A} (a : A) : returns (mret a).
Proof using Type. by intros w. Qed.
Lemma returns_lift {A} (g : W → A * W) : returns (lift g).
Proof using Type. intros w. by apply wpg_lift. Qed.
Lemma returns_bind {A B} (m : GoM W A) (k : A → GoM W B) :
  returns m → (∀ a, returns (k a)) → returns (m ≫= k).
Proof using Type.
  intros Hm Hk w. apply wpg_bind. eapply wpg_mono; [apply Hm|]. intros a w' _. apply Hk.
Qed.
Lemma returns_deref_bind {A B} (p : option A) a (k : A → GoM W B) :
  p = Some a → returns (k a) → returns (deref p ≫= k).
Proof using Type. intros -> Hk. exact Hk. Qed.
Lemma returns_lift_bind {A B} (g : W → A * W) (k : A → GoM W B) :
  (∀ w, returns (k (g w).1)) → returns (lift g ≫= k).
Proof using Type. intros Hk w. apply wpg_bind, wpg_lift, Hk. Qed.
Lemma returns_deferred {A} c (m : GoM W A) : returns m → returns (deferred c m).
Proof using Type.
  intros Hm w. specialize (Hm w). unfold wpg, deferred in *. by destruct (m w) as [[]].
Qed.
Lemma returns_mapM {A B} (g : A → GoM W B) xs :
  (∀ x, x ∈ xs → returns (g x)) → returns (mapM_go g xs).
Proof using Type.
  induction xs as [|x xs IH]; intros Hg; cbn; [apply returns_ret|].
  apply returns_bind; [apply Hg; by left|]. intros y.
  apply returns_bind; [apply IH; intros z Hz; apply Hg; by right|]. intros ys. apply returns_ret.
Qed.

Ltac returns_tac :=
  repeat (first
    [ apply returns_ret | apply returns_lift | apply returns_deferred
    | assumption
    | progress intros
    | match goal with
      | |- returns (mbind _ _) => apply returns_bind
      | |- returns (match ?x with _ => _ end) => destruct x
      end ]).

Lemma listPods_returns c n : returns (listPods c n).
Proof.
  unfold listPods. apply returns_lift_bind. intros w.
  destruct (cri_ListPodSandbox c w).1 as [items|e] eqn:Hi; [|apply returns_ret].
  apply returns_bind; [|intros ps; apply returns_ret]. apply returns_mapM. intros p Hp.
  destruct (filled_pods _ _ _ Hi p Hp) as [m Hm]. unfold pod_info. rewrite Hm. returns_tac.
Qed.

Lemma listContainers_returns c p : returns (listContainers c p).
Proof.
  unfold listContainers. apply returns_lift_bind. intros w.
  destruct (cri_ListContainers c p w).1 as [items|e] eqn:Hi; [|apply returns_ret].
  apply returns_bind; [|intros ps; apply returns_ret]. apply returns_mapM. intros x Hx.
  destruct (filled_containers _ _ _ _ Hi x Hx) as [[m Hm] [i Him]].
  unfold container_info. rewrite Hm, Him. returns_tac.
Qed.

Lemma inspectContainer_returns c i : returns (inspectContainer c i).
Proof.
  unfold inspectContainer. apply returns_lift_bind. intros w.
  destruct (cri_ContainerStatus c i w).1 as [[s info]|e] eqn:Hi; [|apply returns_ret].
  destruct (filled_status _ _ _ _ _ Hi) as (st & -> & [m Hm] & [im Him]).
  apply (returns_deref_bind _ st); [done|]. apply (returns_deref_bind _ m); [done|].
  apply (returns_deref_bind _ im); [done|]. apply returns_ret.
Qed.

Lemma inspect_all_returns c cs acc : returns (inspect_all c cs acc).
Proof.
  revert acc. induction cs as [|x cs IH]; intros acc; cbn; [apply returns_ret|].
  apply returns_bind; [apply inspectContainer_returns|]. intros [r|e]; [apply IH|apply returns_ret].
Qed.

Lemma NewClient_returns : returns NewClient.
Proof using Type.
  assert (Hf : ∀ es, returns (first_endpoint es)).
  { induction es as [|e es IH]; cbn; [apply returns_ret|]. unfold testConnection. returns_tac. }
  unfold NewClient, findCRISocket. returns_tac. apply Hf.
Qed.

Lemma GetContainerPIDsFromPod_returns p ns : returns (GetContainerPIDsFromPod p ns).
Proof.
  unfold GetContainerPIDsFromPod, GetContainerInfoFromPod.
  apply returns_bind; [apply NewClient_returns|]. intros [c|e]; [|apply returns_ret].
  apply returns_deferred, returns_bind; [apply listPods_returns|].
  intros [ps|e]; [|apply returns_ret]. apply returns_bind; [apply listContainers_returns|].
  intros [cs|e]; [|apply returns_ret]. apply returns_bind; [apply inspect_all_returns|].
  intros [r|e]; apply returns_ret.
Qed.

(** The lookup of the agent does not panic, so the [ContainerGetter] instance shows
    no panic as an error. *)
Lemma GetContainers_returns nodeName ns sel names :
  returns (RealContainerGetter_GetContainers nodeName ns sel names).
Proof.
  assert (Hg : ∀ pods, returns (getContainerInfo pods names)).
  { induction pods as [|p pods IH]; cbn; [apply returns_ret|].
    unfold getContainerInfoFromPod. returns_tac. apply GetContainerPIDsFromPod_returns. }
  unfold RealContainerGetter_GetContainers, getPodsForNode. returns_tac. apply Hg.
Qed.
End no_panic.

(** ** Lookups that fail *)

Section failures.
Context {W : Type} `{!CRI W, !JSONLib, go : GoPlatform}.
Implicit Types w : W.

Lemma inspectContainer_fails c id w r w' :
  (∀ w, ∃ e, (cri_ContainerStatus c id w).1 = Err e) →
  inspectContainer c id w ≠ (Ret (Ok r), w').
Proof using Type.
  intros He. unfold inspectContainer. erewrite run_bind by apply run_lift.
  destruct (He w) as [e ->]. by intros [=].
Qed.

Lemma inspect_all_fails c cs acc id w r w' :
  (∀ w, ∃ e, (cri_ContainerStatus c id w).1 = Err e) → (∃ x, x ∈ cs ∧ ci_ID x = id) →
  inspect_all c cs acc w ≠ (Ret (Ok r), w').
Proof using Type.
  intros He. revert acc w. induction cs as [|y cs IH]; intros acc w (x & Hx & Hid); cbn.
  { by apply elem_of_nil in Hx. }
  intros (a & w1 & Ha & Hr)%run_bind_inv. destruct a as [a|e]; [|done].
  apply elem_of_cons in Hx as [<-|Hx].
  - rewrite Hid in Ha. by apply inspectContainer_fails in Ha.
  - revert Hr. apply IH. by exists x.
Qed.

Lemma mapM_container_info items w cs w' x :
  mapM_go container_info items w = (Ret cs, w') → x ∈ items → ∃ y, y ∈ cs ∧ ci_ID y = rc_Id x.
Proof using Type.
  revert w cs w'. induction items as [|z items IH]; intros w cs w' Hm Hx; cbn in Hm.
  { by apply elem_of_nil in Hx. }
  apply run_bind_inv in Hm as (y & w1 & Hy & Hm). apply run_bind_inv in Hm as (ys & w2 & Hys & Hm).
  injection Hm as <- <-. apply elem_of_cons in Hx as [<-|Hx].
  - exists y. split; [by left|]. unfold container_info in Hy.
    destruct (rc_Metadata x), (rc_Image x); cbn in Hy; try done. by injection Hy as <-.
  - destruct (IH _ _ _ Hys Hx) as (y' & Hin & Hid). exists y'. split; [by right|done].
Qed.

(** The lookup inspects every container of the node, so it fails for every pod
    as long as the status of any one container, of whatever pod, cannot be read. *)
Theorem unrelated_inspect_failure c podName names id :
  (∀ w, ∃ items x, (cri_ListContainers c "" w).1 = Ok items ∧ x ∈ items ∧ rc_Id x = id) →
  (∀ w, ∃ e, (cri_ContainerStatus c id w).1 = Err e) →
  ∀ w l w', GetContainerInfoFromPod c podName names w ≠ (Ret (Ok l), w').
Proof.
  intros Hl He w l w' Hr. unfold GetContainerInfoFromPod in Hr.
  apply run_bind_inv in Hr as ([ps|e] & w1 & _ & Hr); [|done].
  apply run_bind_inv in Hr as ([cs|e] & w2 & Hcs & Hr); [|done].
  apply run_bind_inv in Hr as ([r|e] & w3 & Hins & Hr); [|done].
  unfold listContainers in Hcs. apply run_bind_inv in Hcs as (res & w4 & Hres & Hcs).
  rewrite run_lift in Hres. injection Hres as <- <-.
  destruct (Hl w1) as (items & x & Hi & Hx & Hid). rewrite Hi in Hcs.
  apply run_bind_inv in Hcs as (cs' & w5 & Hm & Hcs). injection Hcs as <- <-.
  destruct (mapM_container_info _ _ _ _ _ Hm Hx) as (y & Hy & Hyid).
  eapply inspect_all_fails; [exact He| |exact Hins]. exists y. by rewrite Hyid.
Qed.
End failures.

(** An empty argument of the inspect command ends it with a panic. *)
Lemma inspect_empty_argument `{!CRI W, !JSONLib, !MarshalLib} client args (w : W) :
  handleInspectCommand client ("" :: args) w = (Panic index_out_of_range, w).
Proof. done. Qed.
