(* ===== verification/ContainerWitnesses.v ===== *)
(** A simulated container runtime, with two pods of one name in two namespaces: the
    laws that ContainerSpecs asks of a runtime hold of it, the theorems are applied to
    it, and the lookup by name is seen to take one pod for the other. *)

From Stdlib Require Import Ascii.
From S2P Require Import Prelude ApiTypes Selectors Crictl Containers ContainerSpecs.
From stdpp Require Import options.

(** ** The runtime *)

(** The open connections with their endpoints, and the agent's own part of the state. *)
Record Node := mkNode {
  nd_conns : gmap nat string;
  nd_agent : Z;
}.

Definition set_conns (f : gmap nat string → gmap nat string) (w : Node) : Node :=
  mkNode (f (nd_conns w)) (nd_agent w).

Definition sandbox (id name namespace : string) : PodSandbox :=
  mkPodSandbox id (Some (mkPodMetadata name ("uid-" +:+ id) namespace 0)) "SANDBOX_READY" 10 ∅.

Definition running (id pod name : string) : RtContainer :=
  mkRtContainer id pod (Some (mkContainerMetadata name 0)) (Some "img") "img@1"
    "CONTAINER_RUNNING" 20 ∅.

Definition sim_sandboxes : list PodSandbox :=
  [sandbox "s1" "web" "blue"; sandbox "s2" "web" "green"; sandbox "s3" "db" "green"].

Definition sim_containers : list RtContainer :=
  [running "c1" "s1" "nginx"; running "c2" "s2" "nginx"; running "c3" "s2" "sidecar";
   running "c4" "s3" "postgres"].

Definition quoted (s : string) : string := String quote s +:+ String quote "".

Definition pid_document (digits : string) : string :=
  "{" +:+ quoted "pid" +:+ ":" +:+ digits +:+ "}".

Definition sim_pid (id : string) : string :=
  if decide (id = "c1") then "101" else if decide (id = "c2") then "102"
  else if decide (id = "c3") then "103" else "104".

Definition sim_status (id : string) : RtContainerStatus :=
  mkRtContainerStatus id (Some (mkContainerMetadata "n" 0)) "CONTAINER_RUNNING" 20 21 0 0
    (Some "img") "img@1" "" "" ∅ ∅ [] "/log".

(** containerd left its socket behind, CRI-O answers; the status of the containers
    [broken] cannot be read. *)
#[export] Instance sim_cri (broken : list string) : CRI Node := {|
  cri_Getenv _ w := ("", w);
  cri_StatSocket p w :=
    (if decide (p ∈ ["/run/containerd/containerd.sock"; "/run/crio/crio.sock"]) then Ok true
     else Err "no such file or directory", w);
  grpc_NewClient e w :=
    let c := fresh (dom (nd_conns w)) in (Ok c, set_conns <[c := e]> w);
  conn_Close c w := (None, set_conns (delete c) w);
  cri_Version c w :=
    (if decide (nd_conns w !! c = Some "unix:///run/crio/crio.sock") then None
     else Some "connection refused", w);
  cri_ListPodSandbox _ w := (Ok sim_sandboxes, w);
  cri_ListContainers _ _ w := (Ok sim_containers, w);
  cri_ContainerStatus _ id w :=
    (if decide (id ∈ broken) then Err "context deadline exceeded"
     else Ok (Some (sim_status id), {[ "info" := pid_document (sim_pid id) ]}), w);
|}.

(** The documents of [pid_document]. *)
Fixpoint digits_value (acc : Z) (s : string) : option Z :=
  match s with
  | String.String c s' =>
      if decide (c = "}"%char) then Some acc
      else digits_value (10 * acc + Z.of_nat (nat_of_ascii c) - 48) s'
  | EmptyString => None
  end.

#[export] Instance sim_json : JSONLib := {|
  json_Unmarshal s :=
    let start := "{" +:+ quoted "pid" +:+ ":" in
    if String.prefix start s then
      match digits_value 0 (String.substring (String.length start) (String.length s) s) with
      | Some v => Ok {[ "pid" := IFloat64 v 0 ]}
      | None => Err "unexpected end of JSON input"
      end
    else Err "invalid character";
  json_text _ := "map[]";
|}.

(** The pods of the API server, by namespace. *)
#[export] Instance sim_pods : PodAPI Node := {|
  Pods_List namespace _ _ w :=
    (Ok (if decide (namespace = "blue") then ["web"]
         else if decide (namespace = "green") then ["web"; "db"] else ["web"; "web"; "db"]), w);
  FormatLabelSelector _ := "<none>";
|}.

(** Two platforms: amd64 has one value for all that does not fit, arm64 the nearest. *)
#[export] Program Instance amd64 : GoPlatform := {| float64_overflow _ _ := - 2 ^ 31 |}.
Next Obligation. lia. Qed.
Program Definition arm64 : GoPlatform :=
  {| float64_overflow m _ := if 0 <? m then 2 ^ 31 - 1 else - 2 ^ 31 |}.
Next Obligation. intros m e. cbv beta. destruct (0 <? m); lia. Qed.

#[export] Instance sim_marshal : MarshalLib := {|
  marshal_pods _ := Ok "[]";
  marshal_containers _ := Ok "[]";
  marshal_inspect _ := Ok "{}";
|}.

(** ** Its laws *)

Section laws.
Context (broken : list string).
#[local] Existing Instance sim_cri.

#[export] Instance sim_agent_frame : CRIFrame (CRI0 := sim_cri broken) nd_agent.
Proof. by constructor. Qed.

#[export] Instance sim_conns_frame : CRIFrame (CRI0 := sim_cri broken) (λ w, dom (nd_conns w)).
Proof. by constructor. Qed.

#[export] Program Instance sim_conns : CRIConns Node (CRI0 := sim_cri broken) := {|
  conns w := dom (nd_conns w);
|}.
Next Obligation. intros e w w' c [= <- <-]. cbn. split; [apply is_fresh|set_solver]. Qed.
Next Obligation. done. Qed.
Next Obligation. intros c w. cbn. set_solver. Qed.

#[export] Instance sim_filled : CRIFilled Node (CRI0 := sim_cri broken).
Proof.
  constructor.
  - intros c w items [= <-] p Hp. cbn in Hp.
    repeat (apply elem_of_cons in Hp as [->|Hp]; [by eexists|]). by apply elem_of_nil in Hp.
  - intros c q w items [= <-] x Hx. cbn in Hx.
    repeat (apply elem_of_cons in Hx as [->|Hx]; [by split; eexists|]). by apply elem_of_nil in Hx.
  - intros c i w s info. cbn. destruct (decide (i ∈ broken)); [done|].
    intros [= <- <-]. eexists. split; [done|]. by split; eexists.
Qed.
End laws.

Definition node0 : Node := mkNode ∅ 7.

(** ** The theorems, applied *)

Definition reported (pod container : string) (pid : Z) : ContainerInfo :=
  mkContainerInfo pod container pid.

(** The containers that the agent is told of for all the pods of a namespace. *)
Definition sim_lookup (namespace : string) : result (option (list ContainerInfo)) :=
  (GetContainers (ContainerGetter := RealContainerGetter (CRI0 := sim_cri []) "n1")
     namespace (mkLabelSelector ∅ []) None node0).1.

Lemma sim_lookup_blue : sim_lookup "blue" = Ok (Some [reported "web" "nginx" 101]).
Proof. vm_compute. reflexivity. Qed.

(** A pod is looked up by its name alone: for the pods of the namespace green the
    lookup reports the nginx of the pod of the same name in blue. *)
Theorem same_name_confused :
  sim_lookup "green" = Ok (Some [reported "web" "nginx" 101; reported "db" "postgres" 104]).
Proof. vm_compute. reflexivity. Qed.

(** The runtime's port is opened and closed for the failed and for the working
    socket, with an answer and with an error. *)
Lemma GetContainerPIDsFromPod_closes_witness :
  conns (CRIConns := sim_conns ["c4"])
    (GetContainerPIDsFromPod (CRI0 := sim_cri ["c4"]) "web" ["nginx"] node0).2 = ∅ ∧
  ∃ err, (GetContainerPIDsFromPod (CRI0 := sim_cri ["c4"]) "web" ["nginx"] node0).1 = Ret (Err err).
Proof.
  split.
  - rewrite (GetContainerPIDsFromPod_closes (CRI0 := sim_cri ["c4"])
               (CRIConns0 := sim_conns ["c4"])). by vm_compute.
  - eexists. vm_compute. reflexivity.
Defined.

(** The database's container cannot be inspected, and the lookup of the web server
    fails. *)
Lemma unrelated_inspect_failure_witness : ∀ w l w',
  GetContainerInfoFromPod (CRI0 := sim_cri ["c4"]) 0 "web" ["nginx"] w ≠ (Ret (Ok l), w').
Proof.
  apply (unrelated_inspect_failure (CRI0 := sim_cri ["c4"]) 0 "web" ["nginx"] "c4").
  - intros w. exists sim_containers, (running "c4" "s3" "postgres"). split_and!; [done| |done].
    cbn. set_solver.
  - intros w. by eexists.
Defined.

