(* ===== verification/Links.v ===== *)
(** The reconciliation of one program's links: reconcileBpfLink and
    reconcileProgram of controllers/bpfman-agent/common.go, and the methods
    that the thirteen program reconcilers (cl_*_program.go, ns_*_program.go)
    write out once per program kind with the same text: updateLinks,
    processLinks, updateProgramAttachStatus, removeLinks and the accessors.

    A reconciler holds pointers into the application state; here an operation
    takes the state and returns it. [ProgRec] is the reconciler with the state
    of its program, [At] a reconciler whose [currentLink] points at a link.
    What differs between the kinds is the record [Kind]. *)

From S2P Require Import Prelude ApiTypes Constants Bpfman Selectors.
From stdpp Require Import options.

(** ** The outside of the agent *)

(** Everything the link reconcilers call: one state [W], one class per
    collaborator. *)
Class AgentEnv (W : Type) := {
  #[global] env_bpfman :: BpfmanClient W;
  #[global] env_netns :: NetNsCache W;
  #[global] env_uuid :: UUIDSource W;
  #[global] env_interfaces :: InterfaceMap W;
  #[global] env_hostnet :: HostNet W;
  #[global] env_containers :: ContainerGetter W;
  #[global] env_regexp :: Regexp;
}.

(** ** Reconcilers *)

(** The fields of [ReconcilerCommon] that are data. *)
Record ReconcilerCommon := mkReconcilerCommon {
  rc_NodeName : string;
  rc_finalizer : string;
  rc_ourNode : Node;
}.

(** [ClProgramReconcilerCommon] and [NsProgramReconcilerCommon] (which adds the
    namespace) over the program type [P] and its state type [S]. *)
Record ProgRec (P S : Type) := mkProgRec {
  rec_common : ReconcilerCommon;
  rec_namespace : string;
  currentProgram : P;
  currentProgramState : S;
}.
Arguments mkProgRec {_ _} _ _ _ _.
Arguments rec_common {_ _} _.
Arguments rec_namespace {_ _} _.
Arguments currentProgram {_ _} _.
Arguments currentProgramState {_ _} _.

Definition with_state {P S} (r : ProgRec P S) (s : S) : ProgRec P S :=
  mkProgRec (rec_common r) (rec_namespace r) (currentProgram r) s.

(** A reconciler with [currentLink] set. *)
Record At (P S L : Type) := mkAt {
  at_rec : ProgRec P S;
  currentLink : L;
}.
Arguments mkAt {_ _ _} _ _.
Arguments at_rec {_ _ _} _.
Arguments currentLink {_ _ _} _.

(** The embedded [AttachInfoStateCommon] of a link and
    [BpfProgramStateCommon] of a program state. *)
Class LinkState (L : Type) := {
  link_common : L → AttachInfoStateCommon;
  set_link_common : AttachInfoStateCommon → L → L;
}.

Class LinkStateLaws (L : Type) `{!LinkState L} := {
  link_common_set c l : link_common (set_link_common c l) = c;
  set_link_set c c' l : set_link_common c (set_link_common c' l) = set_link_common c l;
  set_link_get l : set_link_common (link_common l) l = l;
}.

Class ProgramState (S : Type) := {
  prog_common : S → BpfProgramStateCommon;
  set_prog_common : BpfProgramStateCommon → S → S;
}.

Class ProgramStateLaws (S : Type) `{!ProgramState S} := {
  prog_common_set c s : prog_common (set_prog_common c s) = c;
  set_prog_set c c' s : set_prog_common c (set_prog_common c' s) = set_prog_common c s;
  set_prog_get s : set_prog_common (prog_common s) s = s;
}.

Definition with_ShouldAttach (b : bool) (c : AttachInfoStateCommon) : AttachInfoStateCommon :=
  mkAttachInfoStateCommon b (ai_UUID c) (ai_LinkId c) (ai_LinkStatus c).
Definition with_LinkId (id : option Z) (c : AttachInfoStateCommon) : AttachInfoStateCommon :=
  mkAttachInfoStateCommon (ai_ShouldAttach c) (ai_UUID c) id (ai_LinkStatus c).
Definition with_LinkStatus (st : LinkStatus) (c : AttachInfoStateCommon) : AttachInfoStateCommon :=
  mkAttachInfoStateCommon (ai_ShouldAttach c) (ai_UUID c) (ai_LinkId c) st.
Definition with_ProgramLinkStatus (st : ProgramLinkStatus) (c : BpfProgramStateCommon)
    : BpfProgramStateCommon :=
  mkBpfProgramStateCommon (ps_Name c) st (ps_ProgramId c).
Definition with_ProgramId (id : option Z) (c : BpfProgramStateCommon) : BpfProgramStateCommon :=
  mkBpfProgramStateCommon (ps_Name c) (ps_ProgramLinkStatus c) id.

(** ** The [ProgramReconciler] interface *)

(** The methods [reconcileBpfLink] calls, over the positioned reconciler [T]. *)
Record LinkMethods (W T : Type) := mkLinkMethods {
  getAttachRequest : T → GoM W AttachRequest;
  getProgId : T → option Z;
  shouldAttach : T → bool;
  isAttached : T → GoM W bool;
  getUUID : T → string;
  setLinkId : option Z → T → T;
  getLinkId : T → option Z;
  setProgramLinkStatus : ProgramLinkStatus → T → T;
  getProgramLinkStatus : T → ProgramLinkStatus;
  setCurrentLinkStatus : LinkStatus → T → T;
  getCurrentLinkStatus : T → LinkStatus;
}.
Arguments getAttachRequest {_ _} _ _.
Arguments getProgId {_ _} _ _.
Arguments shouldAttach {_ _} _ _.
Arguments isAttached {_ _} _ _.
Arguments getUUID {_ _} _ _.
Arguments setLinkId {_ _} _ _ _.
Arguments getLinkId {_ _} _ _.
Arguments setProgramLinkStatus {_ _} _ _ _.
Arguments getProgramLinkStatus {_ _} _ _.
Arguments setCurrentLinkStatus {_ _} _ _ _.
Arguments getCurrentLinkStatus {_ _} _ _.

Section reconcileBpfLink.
Context {W T : Type} `{!BpfmanClient W} (M : LinkMethods W T).

(** common.go: reconcileBpfLink. Returns the remove flag, the error (always
    nil) and the reconciler with its current link updated. *)
Definition reconcileBpfLink (rec : T) : GoM W (bool * option error * T) :=
  isAttached ← isAttached M rec;
  let shouldAttach := shouldAttach M rec in
  rec ← (if shouldAttach then
           if isAttached : bool then mret (setCurrentLinkStatus M ApAttachAttached rec)
           else
             attachRequest ← getAttachRequest M rec;
             linkId ← AttachBpfmanProgram attachRequest;
             match linkId with
             | Err _ => mret (setCurrentLinkStatus M ApAttachError rec)
             | Ok linkId =>
                 mret (setCurrentLinkStatus M ApAttachAttached
                         (setLinkId M (Some linkId) rec))
             end
         else
           if isAttached : bool then
             linkId ← deref (getLinkId M rec);
             err ← DetachBpfmanProgram linkId;
             match err with
             | Some _ => mret (setCurrentLinkStatus M ApDetachError rec)
             | None =>
                 mret (setCurrentLinkStatus M ApAttachNotAttached (setLinkId M None rec))
             end
           else mret (setCurrentLinkStatus M ApAttachNotAttached rec));
  let remove := negb shouldAttach
                && bool_decide (getCurrentLinkStatus M rec = ApAttachNotAttached) in
  mret (remove, None, rec).
End reconcileBpfLink.

(** common.go: isAttachSuccess *)
Definition isAttachSuccess (shouldAttach : bool) (status : LinkStatus) : bool :=
  if shouldAttach && bool_decide (status = ApAttachAttached) then true
  else if negb shouldAttach && bool_decide (status = ApAttachNotAttached) then true
  else false.

(** ** What a program kind supplies *)

Record Kind (W P S A L : Type) := mkKind {
  k_progType : Internal.ProgramType;
  k_bpfmanProgType : BpfmanProgramType;
  k_getAttachRequest : At P S L → GoM W AttachRequest;
  k_getProgramLoadInfo : ProgRec P S → GoM W LoadInfo;
  (** The kind's [Links] field in the program state: [None] when its struct is
      a nil pointer, which the methods dereference. *)
  k_stateLinks : S → option (slice L);
  k_setStateLinks : slice L → S → S;
  (** The kind's links in the program spec; no link when a pointer is nil. *)
  k_appLinks : P → list A;
  k_getExpectedLinks : ProgRec P S → A → GoM W (result (list L));
  k_findLink : L → list L → GoM W (result (option nat));
}.
Arguments k_progType {_ _ _ _ _} _.
Arguments k_bpfmanProgType {_ _ _ _ _} _.
Arguments k_getAttachRequest {_ _ _ _ _} _ _.
Arguments k_getProgramLoadInfo {_ _ _ _ _} _ _.
Arguments k_stateLinks {_ _ _ _ _} _ _.
Arguments k_setStateLinks {_ _ _ _ _} _ _ _.
Arguments k_appLinks {_ _ _ _ _} _ _.
Arguments k_getExpectedLinks {_ _ _ _ _} _ _ _.
Arguments k_findLink {_ _ _ _ _} _ _ _.

(** ** The methods every kind has with the same text *)

Section methods.
Context {W P S A L : Type} `{!BpfmanClient W} `{!LinkState L} `{!ProgramState S}.

Definition update_link (f : AttachInfoStateCommon → AttachInfoStateCommon) (l : L) : L :=
  set_link_common (f (link_common l)) l.

Definition update_current (f : AttachInfoStateCommon → AttachInfoStateCommon) (r : At P S L)
    : At P S L :=
  mkAt (at_rec r) (update_link f (currentLink r)).

Definition update_prog (f : BpfProgramStateCommon → BpfProgramStateCommon) (r : ProgRec P S)
    : ProgRec P S :=
  with_state r (set_prog_common (f (prog_common (currentProgramState r)))
                  (currentProgramState r)).

Definition programId (r : ProgRec P S) : option Z :=
  ps_ProgramId (prog_common (currentProgramState r)).

Definition At_isAttached (r : At P S L) : GoM W bool :=
  match programId (at_rec r), ai_LinkId (link_common (currentLink r)) with
  | Some programId, Some linkId => doesLinkExist programId linkId
  | _, _ => mret false
  end.

(** The accessors [getProgId] to [getCurrentLinkStatus] of a reconciler. *)
Definition methods (getAttachRequest : At P S L → GoM W AttachRequest)
    : LinkMethods W (At P S L) := {|
  Links.getAttachRequest := getAttachRequest;
  getProgId r := programId (at_rec r);
  shouldAttach r := ai_ShouldAttach (link_common (currentLink r));
  isAttached := At_isAttached;
  getUUID r := ai_UUID (link_common (currentLink r));
  setLinkId id := update_current (with_LinkId id);
  getLinkId r := ai_LinkId (link_common (currentLink r));
  setProgramLinkStatus status r :=
    mkAt (update_prog (with_ProgramLinkStatus status) (at_rec r)) (currentLink r);
  getProgramLinkStatus r :=
    ps_ProgramLinkStatus (prog_common (currentProgramState (at_rec r)));
  setCurrentLinkStatus status := update_current (with_LinkStatus status);
  getCurrentLinkStatus r := ai_LinkStatus (link_common (currentLink r));
|}.

(** ** updateLinks *)

(** Setting [ShouldAttach] of the link at an index to true. *)
Definition mark_link (index : nat) (links : list L) : list L :=
  alter (update_link (with_ShouldAttach true)) index links.

Variable k : Kind W P S A L.

(** The loop over the expected links of one attach point. A link whose
    lookup fails is logged and skipped. *)
Fixpoint merge_links (expectedLinks : list L) (links : list L) : GoM W (list L) :=
  match expectedLinks with
  | [] => mret links
  | link :: expectedLinks' =>
      index ← k_findLink k link links;
      match index with
      | Err _ => merge_links expectedLinks' links
      | Ok (Some index) => merge_links expectedLinks' (mark_link index links)
      | Ok None => merge_links expectedLinks' (links ++ [link])
      end
  end.

(** The loop over the attach points of the program. *)
Fixpoint updateLinks_loop (r : ProgRec P S) (appLinks : list A) (links : list L)
    : GoM W (option error * list L) :=
  match appLinks with
  | [] => mret (None, links)
  | attachInfo :: appLinks' =>
      expectedLinks ← k_getExpectedLinks k r attachInfo;
      match expectedLinks with
      | Err err => mret (Some ("failed to get node links: " +:+ err), links)
      | Ok expectedLinks =>
          links ← merge_links expectedLinks links;
          updateLinks_loop r appLinks' links
      end
  end.

Definition updateLinks (r : ProgRec P S) (isBeingDeleted : bool)
    : GoM W (option error * ProgRec P S) :=
  links ← deref (k_stateLinks k (currentProgramState r));
  let cleared := update_link (with_ShouldAttach false) <$> elems links in
  let store links' :=
    with_state r (k_setStateLinks k (to_slice links links') (currentProgramState r)) in
  if isBeingDeleted then mret (None, store cleared)
  else
    '(err, links') ← updateLinks_loop r (k_appLinks k (currentProgram r)) cleared;
    mret (err, store links').

(** ** processLinks *)

Fixpoint processLinks_loop (i : nat) (links : list L) (r : ProgRec P S)
    (linksToRemove : gset nat) (lastReconcileLinkError : option error)
    : GoM W (list L * ProgRec P S * gset nat * option error) :=
  match links with
  | [] => mret ([], r, linksToRemove, lastReconcileLinkError)
  | link :: links' =>
      '(remove, err, a) ←
        reconcileBpfLink (methods (k_getAttachRequest k)) (mkAt r link);
      '(rest, r', linksToRemove', lastError') ←
        processLinks_loop (1 + i) links' (at_rec a)
          (if remove : bool then {[i]} ∪ linksToRemove else linksToRemove)
          (match err with Some e => Some e | None => lastReconcileLinkError end);
      mret (currentLink a :: rest, r', linksToRemove', lastError')
  end.

(** removeLinks: the loop with the index of its first link. *)
Fixpoint removeLinks_loop (i : nat) (links : list L) (linksToRemove : gset nat)
    (remainingLinks : slice L) : slice L :=
  match links with
  | [] => remainingLinks
  | a :: links' =>
      removeLinks_loop (1 + i) links' linksToRemove
        (if decide (i ∈ linksToRemove) then remainingLinks
         else go_append remainingLinks a)
  end.

Definition removeLinks (links : slice L) (linksToRemove : gset nat) : slice L :=
  removeLinks_loop 0 (elems links) linksToRemove None.

Definition link_success (link : L) : bool :=
  isAttachSuccess (ai_ShouldAttach (link_common link)) (ai_LinkStatus (link_common link)).

Definition updateProgramAttachStatus (r : ProgRec P S) : GoM W (ProgRec P S) :=
  links ← deref (k_stateLinks k (currentProgramState r));
  mret (update_prog (with_ProgramLinkStatus
          (if forallb link_success (elems links) then ProgAttachSuccess else ProgAttachError))
          r).

Definition processLinks (r : ProgRec P S) : GoM W (option error * ProgRec P S) :=
  links ← deref (k_stateLinks k (currentProgramState r));
  '(links', r', linksToRemove, lastReconcileLinkError) ←
    processLinks_loop 0 (elems links) r ∅ None;
  let links' := to_slice links links' in
  let links' :=
    if decide (0 < size linksToRemove)%nat then removeLinks links' linksToRemove
    else links' in
  r' ← updateProgramAttachStatus
         (with_state r' (k_setStateLinks k links' (currentProgramState r')));
  mret (lastReconcileLinkError, r').

(** common.go: reconcileProgram *)
Definition reconcileProgram (r : ProgRec P S) (isBeingDeleted : bool)
    : GoM W (option error * ProgRec P S) :=
  '(err, r') ← updateLinks r isBeingDeleted;
  match err with
  | Some e =>
      mret (Some e, update_prog (with_ProgramLinkStatus UpdateAttachInfoError) r')
  | None => processLinks r'
  end.
End methods.
