(* ===== verification/LinkSpecs.v ===== *)
(** What link reconciliation does: the life of one link as a step relation on
    the daemon's link table, the refinement of reconcileBpfLink and processLinks
    by it, and its consequences: recorded state is truthful, a reliable daemon
    is driven to the desired links, links of others are left alone. *)

From S2P Require Import Prelude ApiTypes Constants Bpfman Selectors Links.
From stdpp Require Import options.
#[local] Set Default Proof Using "Type*".

(** ** Laws a kind satisfies *)

(** [k_owns s]: the kind's links of [s] are a field of [s], not the temporary
    slice that getAppStateLinks returns for a state of another type. *)
Class KindLaws {W P S A L} `{!LinkState L} `{!ProgramState S} (k : Kind W P S A L) := {
  k_owns : S → bool;
  law_get_set links s :
    k_owns s = true → is_Some (k_stateLinks k s) →
    k_stateLinks k (k_setStateLinks k links s) = Some links;
  law_set_get links s : k_stateLinks k s = Some links → k_setStateLinks k links s = s;
  law_owns_set links s : k_owns (k_setStateLinks k links s) = k_owns s;
  law_prog_set links s : prog_common (k_setStateLinks k links s) = prog_common s;
  law_get_prog c s : k_stateLinks k (set_prog_common c s) = k_stateLinks k s;
  law_owns_prog c s : k_owns (set_prog_common c s) = k_owns s;
  law_request pid (a : At P S L) :
    programId (at_rec a) = Some pid →
    ∃ rq, ar_Id rq = pid ∧ ∀ w, k_getAttachRequest k a w = (Ret rq, w);
  law_request_nil (a : At P S L) w :
    programId (at_rec a) = None → k_getAttachRequest k a w = (Panic nil_dereference, w);
}.

(** ** The life of one link *)

Section link_step.
Context {L : Type} `{!LinkState L, !LinkStateLaws L}.

Definition sa (l : L) : bool := ai_ShouldAttach (link_common l).
Definition lid (l : L) : option Z := ai_LinkId (link_common l).
Definition lst (l : L) : LinkStatus := ai_LinkStatus (link_common l).

Definition set_lid (id : option Z) : L → L := update_link (with_LinkId id).
Definition set_lst (st : LinkStatus) : L → L := update_link (with_LinkStatus st).

(** The daemon's table [m] has link [id] of program [pid]. *)
Definition tlinked (m : gmap Z (gset Z)) (pid id : Z) : bool :=
  match m !! pid with Some ls => bool_decide (id ∈ ls) | None => false end.

Definition attached (m : gmap Z (gset Z)) (pid : Z) (l : L) : bool :=
  match lid l with Some id => tlinked m pid id | None => false end.

(** [link_step F stale pid m l m' l']: reconciling link [l] of program [pid]
    takes the daemon's table from [m] to [m'] and the link to [l']. [F] says
    that the daemon may refuse a request it could carry out; ids in [stale]
    are never given to a new link. *)
Inductive link_step (F : Prop) (stale : gset Z) (pid : Z) (m : gmap Z (gset Z)) (l : L) :
    gmap Z (gset Z) → L → Prop :=
  | step_in_place :
      sa l = true → attached m pid l = true →
      link_step F stale pid m l m (set_lst ApAttachAttached l)
  | step_attach ls id :
      sa l = true → attached m pid l = false → m !! pid = Some ls →
      (∀ p ls', m !! p = Some ls' → id ∉ ls') → id ∉ stale →
      link_step F stale pid m l (<[pid := {[id]} ∪ ls]> m)
        (set_lst ApAttachAttached (set_lid (Some id) l))
  | step_attach_fails :
      sa l = true → attached m pid l = false → F ∨ m !! pid = None →
      link_step F stale pid m l m (set_lst ApAttachError l)
  | step_detach id :
      sa l = false → attached m pid l = true → lid l = Some id →
      link_step F stale pid m l ((λ ls, ls ∖ {[id]}) <$> m)
        (set_lst ApAttachNotAttached (set_lid None l))
  | step_detach_fails :
      sa l = false → attached m pid l = true → F →
      link_step F stale pid m l m (set_lst ApDetachError l)
  | step_absent :
      sa l = false → attached m pid l = false →
      link_step F stale pid m l m (set_lst ApAttachNotAttached l).

(** The links of a program, in order. *)
Inductive link_steps (F : Prop) (stale : gset Z) (pid : Z) :
    gmap Z (gset Z) → list L → gmap Z (gset Z) → list L → Prop :=
  | steps_nil m : link_steps F stale pid m [] m []
  | steps_cons m l m1 l' ls m2 ls' :
      link_step F stale pid m l m1 l' →
      link_steps F stale pid m1 ls m2 ls' →
      link_steps F stale pid m (l :: ls) m2 (l' :: ls').

(** The links [processLinks] drops from the list. *)
Definition removable (l : L) : bool :=
  negb (sa l) && bool_decide (lst l = ApAttachNotAttached).

(** Where a link stands once it has been reconciled. *)
Definition settled (F : Prop) (m : gmap Z (gset Z)) (pid : Z) (l : L) : Prop :=
  match sa l, attached m pid l with
  | true, true => lst l = ApAttachAttached
  | true, false => lst l = ApAttachError ∧ (F ∨ m !! pid = None)
  | false, true => lst l = ApDetachError ∧ F
  | false, false => lst l = ApAttachNotAttached
  end.

Definition link_ids (ls : list L) : list Z := omap lid ls.

(** Recorded link ids are distinct, and each names a link of the program or
    is one of the [stale] ids. *)
Definition recorded (stale : gset Z) (m : gmap Z (gset Z)) (pid : Z) (ls : list L) : Prop :=
  NoDup (link_ids ls) ∧
  ∀ id, id ∈ link_ids ls → tlinked m pid id = true ∨ id ∈ stale.

(** The link without what reconciling may change. *)
Definition point (l : L) : L := set_lid None (set_lst "" l).

Lemma common_update f (l : L) : link_common (update_link f l) = f (link_common l).
Proof. apply link_common_set. Qed.
Lemma sa_set_lid id l : sa (set_lid id l) = sa l.
Proof. unfold sa, set_lid. by rewrite common_update. Qed.
Lemma sa_set_lst st l : sa (set_lst st l) = sa l.
Proof. unfold sa, set_lst. by rewrite common_update. Qed.
Lemma lid_set_lid id l : lid (set_lid id l) = id.
Proof. unfold lid, set_lid. by rewrite common_update. Qed.
Lemma lid_set_lst st l : lid (set_lst st l) = lid l.
Proof. unfold lid, set_lst. by rewrite common_update. Qed.
Lemma lst_set_lst st l : lst (set_lst st l) = st.
Proof. unfold lst, set_lst. by rewrite common_update. Qed.
Lemma lst_set_lid id l : lst (set_lid id l) = lst l.
Proof. unfold lst, set_lid. by rewrite common_update. Qed.
Lemma attached_set_lst m pid st l : attached m pid (set_lst st l) = attached m pid l.
Proof. unfold attached. by rewrite lid_set_lst. Qed.
Lemma update_update f g (l : L) :
  update_link f (update_link g l) = update_link (λ c, f (g c)) l.
Proof.
  unfold update_link. by rewrite link_common_set, set_link_set.
Qed.
Lemma point_set_lst st l : point (set_lst st l) = point l.
Proof.
  unfold point, set_lst, set_lid. by rewrite !update_update.
Qed.
Lemma point_set_lid id l : point (set_lid id l) = point l.
Proof.
  unfold point, set_lst, set_lid. by rewrite !update_update.
Qed.
End link_step.

(** Reads a link through the setters. *)
Ltac links :=
  rewrite ?sa_set_lst, ?sa_set_lid, ?lid_set_lst, ?lid_set_lid, ?lst_set_lst, ?lst_set_lid,
    ?attached_set_lst, ?point_set_lst, ?point_set_lid in *.

Lemma tlinked_true (m : gmap Z (gset Z)) p id :
  tlinked m p id = true ↔ ∃ ks, m !! p = Some ks ∧ id ∈ ks.
Proof.
  unfold tlinked. destruct (m !! p) as [ls|]; [|naive_solver].
  rewrite bool_decide_eq_true. naive_solver.
Qed.

Lemma tlinked_insert (m : gmap Z (gset Z)) p (ks : gset Z) q id :
  tlinked (<[p := ks]> m) q id = if decide (p = q) then bool_decide (id ∈ ks) else tlinked m q id.
Proof. unfold tlinked. rewrite lookup_insert. by destruct (decide (p = q)). Qed.

Lemma tlinked_detach (m : gmap Z (gset Z)) id q i :
  tlinked ((λ ks, ks ∖ {[id]}) <$> m) q i = negb (bool_decide (i = id)) && tlinked m q i.
Proof.
  unfold tlinked. rewrite lookup_fmap. destruct (m !! q) as [ls|]; simpl.
  - destruct (bool_decide_reflect (i = id)); simpl.
    + apply bool_decide_eq_false. set_solver.
    + apply bool_decide_ext. set_solver.
  - by rewrite andb_false_r.
Qed.

(** ** What one step preserves *)

Section link_step_facts.
Context {L : Type} `{!LinkState L, !LinkStateLaws L} (F : Prop) (stale : gset Z) (pid : Z).
Implicit Types (m : gmap Z (gset Z)) (l : L) (ls : list L).

Lemma step_point m l m' l' : link_step F stale pid m l m' l' → point l' = point l.
Proof. by destruct 1; links. Qed.

Lemma step_sa m l m' l' : link_step F stale pid m l m' l' → sa l' = sa l.
Proof. by destruct 1; links. Qed.

(** A step settles its link. *)
Lemma step_settled m l m' l' :
  link_step F stale pid m l m' l' → settled F m' pid l'.
Proof.
  destruct 1 as [Hs Ha|ls id Hs Ha Hm Hf Hst|Hs Ha Hm|id Hs Ha Hid|Hs Ha HF|Hs Ha];
    unfold settled; links; rewrite Hs; try rewrite Ha; auto.
  - unfold attached. links. rewrite tlinked_insert, decide_True by done.
    by rewrite bool_decide_eq_true_2 by set_solver.
  - unfold attached. by links.
Qed.

(** A step concerns only the ids of its link before and after. *)
Lemma step_frame m l m' l' p id :
  link_step F stale pid m l m' l' → lid l ≠ Some id → lid l' ≠ Some id →
  tlinked m' p id = tlinked m p id.
Proof.
  destruct 1 as [Hs Ha|ls id' Hs Ha Hm Hf Hst|Hs Ha Hm|id' Hs Ha Hid|Hs Ha HF|Hs Ha];
    links; intros Hl Hl'; auto.
  - rewrite tlinked_insert. destruct (decide (pid = p)) as [<-|]; [|done].
    unfold tlinked. rewrite Hm. apply bool_decide_ext. set_solver.
  - rewrite tlinked_detach. rewrite bool_decide_eq_false_2; [done|congruence].
Qed.

Lemma step_loaded m l m' l' p :
  link_step F stale pid m l m' l' → m' !! p = None ↔ m !! p = None.
Proof.
  destruct 1 as [Hs Ha|ls id Hs Ha Hm Hf Hst|Hs Ha Hm|id Hs Ha Hid|Hs Ha HF|Hs Ha]; auto.
  - destruct (decide (pid = p)) as [<-|Hp].
    + by rewrite lookup_insert_eq, Hm.
    + by rewrite lookup_insert_ne.
  - rewrite lookup_fmap. by destruct (m !! p).
Qed.

(** A new id was in no program and is not a stale one. *)
Lemma step_new_id m l m' l' id :
  link_step F stale pid m l m' l' → lid l' = Some id →
  lid l = Some id ∨
  (sa l = true ∧ id ∉ stale ∧ (∀ p, tlinked m p id = false) ∧ tlinked m' pid id = true).
Proof.
  destruct 1 as [Hs Ha|ls id' Hs Ha Hm Hf Hst|Hs Ha Hm|id' Hs Ha Hid|Hs Ha HF|Hs Ha];
    links; intros Hl; auto; [|done]. injection Hl as ->. right.
  split; [done|]. split; [done|]. split.
  - intros p. apply not_true_is_false. intros (ls' & Hp & Hi)%tlinked_true. by eapply Hf.
  - rewrite tlinked_insert, decide_True by done. apply bool_decide_eq_true. set_solver.
Qed.

#[global] Instance recorded_Permutation m :
  Proper ((≡ₚ@{L}) ==> iff) (recorded stale m pid).
Proof.
  intros ls ls' Hp. assert (link_ids ls ≡ₚ link_ids ls') as Hids by (unfold link_ids; by rewrite Hp).
  unfold recorded. rewrite Hids. by setoid_rewrite Hids.
Qed.

Lemma link_ids_elem ls l id : l ∈ ls → lid l = Some id → id ∈ link_ids ls.
Proof. intros Hl Hid. apply list_elem_of_omap. exists l. split; done. Qed.

Lemma link_ids_cons l ls : link_ids (l :: ls) = option_list (lid l) ++ link_ids ls.
Proof. unfold link_ids. simpl. by destruct (lid l). Qed.

Lemma recorded_cons_ne m l ls id :
  recorded stale m pid (l :: ls) → id ∈ link_ids ls → lid l ≠ Some id.
Proof.
  intros [Hnd _] Hid Hl. rewrite link_ids_cons, Hl in Hnd. simpl in Hnd.
  by apply NoDup_cons in Hnd as [? _].
Qed.

(** The ids of the other links keep their meaning, and the records stay in
    order. *)
Lemma step_others m l m' l' ls id :
  link_step F stale pid m l m' l' → recorded stale m pid (l :: ls) →
  id ∈ link_ids ls → lid l' ≠ Some id ∧ ∀ p, tlinked m' p id = tlinked m p id.
Proof.
  intros Hstep Hrec Hid. pose proof (recorded_cons_ne _ _ _ _ Hrec Hid) as Hne.
  assert (lid l' ≠ Some id) as Hne'.
  { intros Hl'. destruct (step_new_id _ _ _ _ _ Hstep Hl') as [?|(_ & Hst & Hf & _)]; [done|].
    destruct Hrec as [_ Hrec]. destruct (Hrec id) as [Ht|Ht]; [|by rewrite Hf in Ht|done].
    rewrite link_ids_cons. by apply elem_of_app; right. }
  split; [done|]. intros p. by eapply step_frame.
Qed.

Lemma step_recorded m l m' l' ls :
  link_step F stale pid m l m' l' → recorded stale m pid (l :: ls) →
  recorded stale m' pid (l' :: ls).
Proof.
  intros Hstep Hrec. pose proof Hrec as [Hnd Hin]. rewrite link_ids_cons in Hnd, Hin.
  apply NoDup_app in Hnd as (_ & Hd & Hnd).
  pose proof (λ id Hid, step_others _ _ _ _ ls id Hstep Hrec Hid) as Hoth.
  split.
  - rewrite link_ids_cons. destruct (lid l') as [id'|] eqn:Hl'; simpl; [|done].
    apply NoDup_cons. split; [|done]. intros Hid. by apply Hoth in Hid as [? _].
  - intros id. rewrite link_ids_cons, elem_of_app. intros [Hid|Hid].
    + destruct (lid l') as [id'|] eqn:Hl'; simpl in Hid;
        [apply list_elem_of_singleton in Hid as ->|by apply elem_of_nil in Hid].
      destruct (step_new_id _ _ _ _ _ Hstep Hl') as [Hl|(_ & _ & _ & Ht)]; [|by left].
      destruct (Hin id') as [Ht|Ht]; [rewrite Hl; set_solver| |by right].
      destruct Hstep; links; auto; [|done].
      left. injection Hl' as ->. rewrite tlinked_insert, decide_True by done.
      apply bool_decide_eq_true. set_solver.
    + destruct (Hoth id Hid) as [_ Heq]. rewrite Heq. apply Hin. set_solver.
Qed.

Lemma step_other_attached m l m' l' ls x :
  link_step F stale pid m l m' l' → recorded stale m pid (l :: ls) → x ∈ ls →
  attached m' pid x = attached m pid x.
Proof.
  intros Hstep Hrec Hx. unfold attached. destruct (lid x) as [id|] eqn:Hid; [|done].
  eapply step_others; [done|done|]. by eapply link_ids_elem.
Qed.

Lemma step_other_settled m l m' l' ls x :
  link_step F stale pid m l m' l' → recorded stale m pid (l :: ls) → x ∈ ls →
  settled F m pid x → settled F m' pid x.
Proof.
  intros Hstep Hrec Hx. unfold settled. rewrite (step_other_attached _ _ _ _ _ _ Hstep Hrec Hx).
  pose proof (step_loaded _ _ _ _ pid Hstep). destruct (sa x), (attached m pid x); tauto.
Qed.
End link_step_facts.

(** ** What a pass over the links preserves *)

Section link_steps_facts.
Context {L : Type} `{!LinkState L, !LinkStateLaws L} (F : Prop) (stale : gset Z) (pid : Z).
Implicit Types (m : gmap Z (gset Z)) (l : L) (ls : list L).

Lemma steps_points m ls m' ls' :
  link_steps F stale pid m ls m' ls' → point <$> ls' = point <$> ls ∧ sa <$> ls' = sa <$> ls.
Proof.
  induction 1 as [|m l m1 l' ls m2 ls' Hstep _ [IHp IHs]]; [done|]. rewrite !fmap_cons.
  by rewrite (step_point _ _ _ _ _ _ _ Hstep), (step_sa _ _ _ _ _ _ _ Hstep), IHp, IHs.
Qed.

Lemma steps_frame m ls m' ls' p id :
  link_steps F stale pid m ls m' ls' → id ∉ link_ids ls → id ∉ link_ids ls' →
  tlinked m' p id = tlinked m p id.
Proof.
  induction 1 as [|m l m1 l' ls m2 ls' Hstep _ IH]; [done|].
  rewrite !link_ids_cons, !not_elem_of_app. intros [Hl Hls] [Hl' Hls'].
  rewrite IH by done. eapply step_frame; [done| |].
  - intros Heq. rewrite Heq in Hl. set_solver.
  - intros Heq. rewrite Heq in Hl'. set_solver.
Qed.

Lemma steps_loaded m ls m' ls' p :
  link_steps F stale pid m ls m' ls' → m' !! p = None ↔ m !! p = None.
Proof.
  induction 1 as [|m l m1 l' ls m2 ls' Hstep _ IH]; [done|].
  rewrite IH. by eapply step_loaded.
Qed.

Lemma steps_invariant m ls m' ls' :
  link_steps F stale pid m ls m' ls' → ∀ before,
  recorded stale m pid (before ++ ls) → Forall (settled F m pid) before →
  recorded stale m' pid (before ++ ls') ∧ Forall (settled F m' pid) (before ++ ls').
Proof.
  induction 1 as [|m l m1 l' ls m2 ls' Hstep _ IH]; intros before Hrec Hset.
  { split; [done|]. by rewrite app_nil_r. }
  assert (recorded stale m pid (l :: before ++ ls)) as Hrec'
    by (by rewrite Permutation_middle).
  destruct (IH (before ++ [l'])) as [Hr Hs].
  - rewrite <- app_assoc. simpl. rewrite <- Permutation_middle.
    by eapply step_recorded.
  - apply Forall_app. split; [|by constructor; [eapply step_settled|constructor]].
    apply Forall_forall. intros x Hx. rewrite Forall_forall in Hset.
    eapply step_other_settled; [done|done|set_solver|by apply Hset].
  - by rewrite <- app_assoc in Hr, Hs.
Qed.

(** A link id the daemon gains belongs to this program and is recorded. *)
Lemma step_gained m l m' l' p id :
  link_step F stale pid m l m' l' → tlinked m p id = false → tlinked m' p id = true →
  p = pid ∧ lid l' = Some id.
Proof.
  destruct 1 as [Hs Ha|ks id' Hs Ha Hm Hf Hst|Hs Ha Hm|id' Hs Ha Hid|Hs Ha HF|Hs Ha];
    intros Hm0 Hm1; try congruence.
  - rewrite tlinked_insert in Hm1. destruct (decide (pid = p)) as [<-|]; [|congruence].
    split; [done|]. links. apply bool_decide_eq_true in Hm1.
    unfold tlinked in Hm0. rewrite Hm in Hm0. apply bool_decide_eq_false in Hm0.
    apply elem_of_union in Hm1 as [Hm1|Hm1]; [|done]. apply elem_of_singleton in Hm1. congruence.
  - rewrite tlinked_detach, Hm0, andb_false_r in Hm1. done.
Qed.

Lemma steps_gained m ls m' ls' p id :
  link_steps F stale pid m ls m' ls' → tlinked m p id = false → tlinked m' p id = true →
  p = pid ∧ id ∈ link_ids ls'.
Proof.
  induction 1 as [|m l m1 l' ls m2 ls' Hstep _ IH]; [congruence|].
  intros Hm Hm2. rewrite link_ids_cons. destruct (tlinked m1 p id) eqn:Hm1.
  - destruct (step_gained _ _ _ _ _ _ Hstep Hm Hm1) as [-> ->]. split; [done|]. simpl. by left.
  - destruct (IH eq_refl Hm2) as [-> Hid]. split; [done|]. by apply elem_of_app; right.
Qed.

(** An id the records lose is no longer linked. *)
Lemma step_gone m l m' l' id :
  link_step F stale pid m l m' l' → lid l = Some id → lid l' ≠ Some id →
  tlinked m' pid id = false.
Proof.
  destruct 1 as [Hs Ha|ks id' Hs Ha Hm Hf Hst|Hs Ha Hm|id' Hs Ha Hid|Hs Ha HF|Hs Ha];
    links; intros Hl Hl'; try congruence.
  - rewrite tlinked_insert, decide_True by done. apply bool_decide_eq_false.
    unfold attached in Ha. rewrite Hl in Ha. unfold tlinked in Ha. rewrite Hm in Ha.
    apply bool_decide_eq_false in Ha. rewrite elem_of_union, elem_of_singleton.
    intros [->|?]; done.
  - rewrite tlinked_detach. rewrite bool_decide_eq_true_2; [done|congruence].
Qed.

Lemma steps_gone m ls m' ls' id :
  link_steps F stale pid m ls m' ls' → id ∈ link_ids ls → id ∉ link_ids ls' →
  tlinked m' pid id = false.
Proof.
  induction 1 as [|m l m1 l' ls m2 ls' Hstep Hsteps IH]; intros Hin Hnin.
  { by apply elem_of_nil in Hin. }
  rewrite link_ids_cons in Hin, Hnin. apply not_elem_of_app in Hnin as [Hl' Hls'].
  apply elem_of_app in Hin as [Hl|Hls]; [|auto].
  destruct (lid l) as [id'|] eqn:El; simpl in Hl; [|by apply elem_of_nil in Hl].
  apply list_elem_of_singleton in Hl as ->.
  apply not_true_is_false. intros Hm2.
  assert (tlinked m1 pid id' = false) as Hm1.
  { eapply step_gone; [done|done|]. intros El'. rewrite El' in Hl'. simpl in Hl'.
    by apply Hl'; left. }
  by destruct (steps_gained _ _ _ _ _ _ Hsteps Hm1 Hm2).
Qed.

(** A newly recorded id was linked nowhere and is not a stale one. *)
Lemma steps_new_ids m ls m' ls' id :
  link_steps F stale pid m ls m' ls' → id ∈ link_ids ls' → id ∉ link_ids ls →
  id ∉ stale ∧ ∀ p, tlinked m p id = false.
Proof.
  induction 1 as [|m l m1 l' ls m2 ls' Hstep Hsteps IH]; intros Hin Hnin.
  { by apply elem_of_nil in Hin. }
  rewrite link_ids_cons in Hin, Hnin. apply not_elem_of_app in Hnin as [Hl Hls].
  assert (lid l ≠ Some id) as Hl1 by (intros El; rewrite El in Hl; by apply Hl; left).
  destruct (decide (lid l' = Some id)) as [El'|Hl'].
  - destruct (step_new_id _ _ _ _ _ _ _ _ Hstep El') as [?|(_ & ? & ? & _)]; done.
  - apply elem_of_app in Hin as [Hin|Hin].
    { destruct (lid l') as [id'|]; simpl in Hin; [|by apply elem_of_nil in Hin].
      apply list_elem_of_singleton in Hin. congruence. }
    destruct (IH Hin Hls) as [Hst Hf]. split; [done|]. intros p.
    by rewrite <- (step_frame _ _ _ _ _ _ _ p id Hstep Hl1 Hl').
Qed.
End link_steps_facts.

(** ** The links that are removed *)

Section removal.
Context {L : Type} `{!LinkState L}.
Implicit Types ls : list L.

(** The [linksToRemove] map after the loop. *)
Fixpoint marks (i : nat) ls (acc : gset nat) : gset nat :=
  match ls with
  | [] => acc
  | l :: ls' => marks (1 + i) ls' (if removable l then {[i]} ∪ acc else acc)
  end.

Lemma elem_of_marks i ls acc j :
  j ∈ marks i ls acc ↔
  j ∈ acc ∨ ∃ n l, ls !! n = Some l ∧ j = (i + n)%nat ∧ removable l = true.
Proof.
  revert i acc. induction ls as [|l ls IH]; intros i acc; simpl.
  { split; [by left|]. intros [?|(n & l & Hn & _)]; [done|]. by rewrite lookup_nil in Hn. }
  rewrite IH. split.
  - intros [Hj|(n & x & Hn & -> & Hx)]; [|right; exists (S n), x; repeat split; auto; lia].
    destruct (removable l) eqn:Hl; [|by left].
    apply elem_of_union in Hj as [Hj|Hj]; [|by left]. apply elem_of_singleton in Hj as ->.
    right. exists 0%nat, l. repeat split; auto; lia.
  - intros [Hj|([|n] & x & Hn & -> & Hx)].
    + left. destruct (removable l); [by apply elem_of_union_r|done].
    + simpl in Hn. injection Hn as ->. left. rewrite Hx. rewrite Nat.add_0_r.
      apply elem_of_union_l, elem_of_singleton. done.
    + simpl in Hn. right. exists n, x. repeat split; auto; lia.
Qed.

Lemma removeLinks_loop_filter i ls R rem :
  (∀ n l, ls !! n = Some l → (i + n)%nat ∈ R ↔ removable l = true) →
  elems (removeLinks_loop i ls R rem) = elems rem ++ filter (λ l, removable l = false) ls.
Proof.
  revert i rem. induction ls as [|l ls IH]; intros i rem HR; simpl; [by rewrite app_nil_r|].
  pose proof (HR 0%nat l eq_refl) as Hl. rewrite Nat.add_0_r in Hl.
  rewrite IH by (intros n x Hn; rewrite <- (HR (S n) x Hn); f_equiv; lia).
  rewrite filter_cons. destruct (removable l) eqn:Hr.
  - rewrite !decide_True by tauto. by rewrite decide_False by done.
  - rewrite decide_False by (rewrite Hl; done). rewrite decide_True by done.
    unfold go_append. simpl. by rewrite <- app_assoc.
Qed.

Lemma filter_all ls : (∀ l, l ∈ ls → removable l = false) →
  filter (λ l, removable l = false) ls = ls.
Proof.
  induction ls as [|l ls IH]; intros H; [done|].
  rewrite filter_cons_True by (apply H; left). f_equal. apply IH.
  intros x Hx. apply H. by right.
Qed.

Lemma remove_marked sl ls :
  elems sl = ls →
  elems (if decide (0 < size (marks 0 ls ∅))%nat then removeLinks sl (marks 0 ls ∅) else sl)
  = filter (λ l, removable l = false) ls.
Proof.
  intros <-. destruct (decide _) as [Hs|Hs].
  - unfold removeLinks. rewrite removeLinks_loop_filter; [done|].
    intros n l Hn. rewrite elem_of_marks. split.
    + intros [Hn'|(n' & l' & Hn' & Heq & Hr)]; [by apply elem_of_empty in Hn'|].
      simpl in Heq. subst n'. rewrite Hn in Hn'. by injection Hn' as ->.
    + intros Hr. right. by exists n, l.
  - symmetry. apply filter_all. intros l [n Hn]%list_elem_of_lookup.
    apply not_true_is_false. intros Hr. apply Hs.
    assert (n ∈ marks 0 (elems sl) ∅) as Hin
      by (apply elem_of_marks; right; by exists n, l).
    destruct (decide (size (marks 0 (elems sl) ∅) = 0%nat)) as [H0|H0]; [|lia].
    apply size_empty_inv in H0. set_solver.
Qed.

Lemma marks_none ls : (∀ l, l ∈ ls → removable l = false) → marks 0 ls ∅ = ∅.
Proof.
  intros Hall. apply set_eq. intros j. rewrite elem_of_marks. split; [|set_solver].
  intros [?|(n & l & Hn & _ & Hr)]; [done|]. rewrite Hall in Hr; [done|].
  by apply list_elem_of_lookup_2 in Hn.
Qed.
End removal.

(** ** Refinement: the code takes the steps *)

Section refinement.
Context {W P S A L : Type} `{!AgentEnv W, !BpfmanLaws W}
  `{!LinkState L, !LinkStateLaws L, !ProgramState S, !ProgramStateLaws S}
  (k : Kind W P S A L) `{!KindLaws k}.
Context (F : Prop) (stale : gset Z) (pid : Z).

(** What is assumed of the daemon beyond its laws: ids in [stale] are not
    given to new links, and unless [F] it serves what it can. *)
Definition daemon_ok : Prop :=
  (∀ rq (w : W) l, (bpfman_Attach rq w).1 = Ok l → l ∉ stale) ∧ (F ∨ BpfmanReliable W).

Lemma programId_update_prog st (r : ProgRec P S) :
  programId (update_prog (with_ProgramLinkStatus st) r) = programId r.
Proof. unfold programId, update_prog. simpl. by rewrite prog_common_set. Qed.

Lemma wp_At_isAttached (r : ProgRec P S) (l : L) (Q : bool → W → Prop) w :
  programId r = Some pid →
  (∀ w', loaded w' = loaded w → Q (attached (loaded w) pid l) w') →
  wp (At_isAttached (mkAt r l)) Q w.
Proof.
  intros Hp HQ. unfold At_isAttached. simpl. rewrite Hp. unfold attached, lid in HQ.
  destruct (ai_LinkId (link_common l)) as [id|].
  - by apply wp_doesLinkExist.
  - by apply wpg_ret, HQ.
Qed.

Lemma wp_attach rq w (Q : result Z → W → Prop) :
  (∀ l ks w', loaded w !! ar_Id rq = Some ks → (∀ p ks', loaded w !! p = Some ks' → l ∉ ks') →
     loaded w' = <[ar_Id rq := {[l]} ∪ ks]> (loaded w) →
     (daemon_ok → l ∉ stale) → Q (Ok l) w') →
  (∀ e w', loaded w' = loaded w → (daemon_ok → F ∨ loaded w !! ar_Id rq = None) →
     Q (Err e) w') →
  wp (AttachBpfmanProgram rq) Q w.
Proof.
  intros HOk HErr. unfold AttachBpfmanProgram. wp_steps.
  destruct (bpfman_Attach rq w).1 as [l|e] eqn:E.
  - destruct (law_Attach_Ok _ _ _ E) as (ks & Hks & Hf & Hw).
    apply (HOk l ks); [done|done|done|]. intros [Hst _]. exact (Hst rq w l E).
  - apply HErr; [by eapply law_Attach_Err|]. intros [_ [?|Hrel]]; [by left|].
    destruct (loaded w !! ar_Id rq) as [ks|] eqn:Hks; [|by right].
    pose proof (law_Attach_succeeds rq w ltac:(by eexists)) as Hok. by rewrite E in Hok.
Qed.

Lemma wp_detach id w (Q : option error → W → Prop) :
  tlinked (loaded w) pid id = true →
  (∀ w', loaded w' = (λ ks, ks ∖ {[id]}) <$> loaded w → Q None w') →
  (∀ e w', loaded w' = loaded w → (daemon_ok → F) → Q (Some e) w') →
  wp (DetachBpfmanProgram id) Q w.
Proof.
  intros (ks & Hks & Hid)%tlinked_true HOk HErr. unfold DetachBpfmanProgram. wp_steps.
  destruct (bpfman_Detach id w).1 as [e|] eqn:E; simpl.
  - apply HErr; [by eapply law_Detach_Err|]. intros [_ [?|Hrel]]; [done|].
    by rewrite (law_Detach_succeeds pid ks id w Hks Hid) in E.
  - apply HOk. by apply law_Detach_Ok.
Qed.

Lemma removable_set_lst st (l : L) :
  removable (set_lst st l) = negb (sa l) && bool_decide (st = ApAttachNotAttached).
Proof using LinkStateLaws0. unfold removable. by links. Qed.

(** [reconcileBpfLink] takes one step of the link's life, changes nothing else
    of the reconciler, returns no error, and flags the link for removal
    exactly when it should not be attached and no longer is. *)
Lemma wp_reconcileBpfLink (r : ProgRec P S) (l : L) Q w :
  daemon_ok → programId r = Some pid →
  (∀ l' w', link_step F stale pid (loaded w) l (loaded w') l' →
     Q (removable l', None, mkAt r l') w') →
  wp (reconcileBpfLink (methods (k_getAttachRequest k)) (mkAt r l)) Q w.
Proof.
  intros Hd Hp HQ. unfold reconcileBpfLink. wp_step.
  apply (wp_At_isAttached r l _ w Hp). intros w1 Hw1. cbn zeta. wp_step.
  cbn [shouldAttach methods currentLink]. fold (sa l). rewrite <- Hw1 in HQ |- *.
  assert (∀ st l1 w', sa l1 = sa l →
    link_step F stale pid (loaded w1) l (loaded w') (set_lst st l1) →
    Q (negb (sa l) && bool_decide (lst (set_lst st l1) = ApAttachNotAttached),
       None, mkAt r (set_lst st l1)) w') as Hfin.
  { intros st l1 w' Hs1 Hstep. apply HQ in Hstep. rewrite removable_set_lst, Hs1 in Hstep.
    by rewrite lst_set_lst. }
  destruct (sa l) eqn:Hs, (attached (loaded w1) pid l) eqn:Ha.
  - apply wpg_ret, wpg_ret. apply (Hfin ApAttachAttached l w1 Hs). by constructor.
  - destruct (law_request pid (mkAt r l) Hp) as (rq & Hrq & Hreq).
    wp_step. cbn [getAttachRequest methods]. apply (run_wp _ _ _ _ _ (Hreq w1)). wp_step.
    apply wp_attach.
    + intros id ks w' Hks Hf Hw' Hst. apply wpg_ret, wpg_ret. rewrite Hrq in Hks, Hw'.
      apply (Hfin ApAttachAttached (set_lid (Some id) l) w'); [by links|].
      rewrite Hw'. constructor; auto.
    + intros e w' Hw' HF. apply wpg_ret, wpg_ret. rewrite Hrq in HF.
      apply (Hfin ApAttachError l w' Hs). rewrite Hw'. constructor; auto.
  - assert (∃ id, lid l = Some id ∧ tlinked (loaded w1) pid id = true) as (id & Hid & Ht).
    { unfold attached in Ha. destruct (lid l) as [id|]; [by exists id|done]. }
    wp_step. cbn [getLinkId methods currentLink]. fold (lid l).
    eapply wpg_deref; [done|]. wp_step. apply (wp_detach id w1 _ Ht).
    + intros w' Hw'. apply wpg_ret, wpg_ret.
      apply (Hfin ApAttachNotAttached (set_lid None l) w'); [by links|].
      rewrite Hw'. constructor; auto.
    + intros e w' Hw' HF. apply wpg_ret, wpg_ret.
      apply (Hfin ApDetachError l w' Hs). rewrite Hw'. constructor; auto.
  - apply wpg_ret, wpg_ret. apply (Hfin ApAttachNotAttached l w1 Hs). by constructor.
Qed.

Lemma wp_processLinks_loop (r : ProgRec P S) Q ls : ∀ i acc last w,
  daemon_ok → programId r = Some pid →
  (∀ ls' w', link_steps F stale pid (loaded w) ls (loaded w') ls' →
     Q (ls', r, marks i ls' acc, last) w') →
  wp (processLinks_loop k i ls r acc last) Q w.
Proof.
  revert Q. induction ls as [|l ls IH]; intros Q i acc last w Hd Hp HQ; simpl.
  { apply wpg_ret. apply (HQ []). constructor. }
  wp_step. apply wp_reconcileBpfLink; [done|done|]. intros l' w1 Hstep. cbn [at_rec].
  wp_step. apply IH; [done|done|]. intros ls' w2 Hsteps. apply wpg_ret.
  apply (HQ (l' :: ls')). by econstructor.
Qed.

Definition success (ls : list L) : ProgramLinkStatus :=
  if forallb link_success ls then ProgAttachSuccess else ProgAttachError.

(** The result of [processLinks] once the links have gone to [ls']. *)
Definition processed (r : ProgRec P S) (sl' : slice L) : ProgRec P S :=
  update_prog (with_ProgramLinkStatus (success (elems sl')))
    (with_state r (k_setStateLinks k sl' (currentProgramState r))).

Lemma wp_processLinks (r : ProgRec P S) sl Q w :
  daemon_ok → programId r = Some pid →
  k_owns (currentProgramState r) = true → k_stateLinks k (currentProgramState r) = Some sl →
  (∀ ls' sl' w', link_steps F stale pid (loaded w) (elems sl) (loaded w') ls' →
     elems sl' = filter (λ l, removable l = false) ls' →
     k_stateLinks k (currentProgramState (processed r sl')) = Some sl' →
     ((∀ l, l ∈ ls' → removable l = false) → sl' = to_slice sl ls') →
     Q (None, processed r sl') w') →
  wp (processLinks k r) Q w.
Proof.
  intros Hd Hp Ho Hsl HQ. unfold processLinks. rewrite Hsl. wp_step.
  eapply wpg_deref; [done|]. wp_step. apply wp_processLinks_loop; [done|done|].
  intros ls' w' Hsteps. cbn zeta. set (sl' := if decide _ then _ else _).
  assert (elems sl' = filter (λ l, removable l = false) ls') as Hsl'
    by (apply remove_marked, elems_to_slice).
  assert (k_stateLinks k (k_setStateLinks k sl' (currentProgramState r)) = Some sl') as Hget
    by (apply law_get_set; [done|by rewrite Hsl]).
  wp_step. unfold updateProgramAttachStatus. wp_step. cbn [currentProgramState with_state].
  rewrite Hget. eapply wpg_deref; [done|]. apply wpg_ret. apply wpg_ret.
  apply (HQ ls' sl'); [done|done| |].
  - unfold processed, update_prog. simpl. by rewrite law_get_prog.
  - intros Hall. unfold sl'. by rewrite marks_none.
Qed.
End refinement.
