(* ===== verification/LinkTheorems.v ===== *)
(** The contract of processLinks for every program kind: what the recorded
    state, the program status and the daemon are after a pass, for any daemon
    that keeps the laws and for one that also serves every request it can. *)

From S2P Require Import Prelude ApiTypes Constants Bpfman Selectors Links LinkSpecs.
From stdpp Require Import options.
#[local] Set Default Proof Using "Type*".

Section processLinks.
Context {W P S A L : Type} `{!AgentEnv W, !BpfmanLaws W}
  `{!LinkState L, !LinkStateLaws L, !ProgramState S, !ProgramStateLaws S}
  (k : Kind W P S A L) `{!KindLaws k}.
Implicit Types (r : ProgRec P S) (w : W) (stale : gset Z) (pid id : Z).

Definition programStatus r : ProgramLinkStatus :=
  ps_ProgramLinkStatus (prog_common (currentProgramState r)).

Definition linksOf r : option (slice L) := k_stateLinks k (currentProgramState r).

Lemma programStatus_processed r sl : programStatus (processed k r sl) = success (elems sl).
Proof using ProgramStateLaws0. unfold programStatus, processed, update_prog. simpl. by rewrite prog_common_set. Qed.

Lemma link_success_settled F m pid (l : L) :
  settled F m pid l → removable l = false →
  link_success l = true ↔ sa l = true ∧ attached m pid l = true.
Proof.
  unfold link_success, removable, settled. fold (sa l) (lst l).
  destruct (sa l), (attached m pid l); simpl.
  - intros -> _. split; [done|]. intros _. by vm_compute.
  - intros [-> _] _. split; [by vm_compute|]. by intros [_ ?].
  - intros [-> _] _. split; [by vm_compute|]. by intros [? _].
  - intros -> H. by vm_compute in H.
Qed.

Lemma success_iff F m pid (ls : list L) :
  Forall (settled F m pid) ls → (∀ l, l ∈ ls → removable l = false) →
  success ls = ProgAttachSuccess ↔
  ∀ l, l ∈ ls → sa l = true ∧ attached m pid l = true.
Proof.
  intros Hset Hrm. unfold success. rewrite Forall_forall in Hset.
  assert (forallb link_success ls = true ↔ ∀ l, l ∈ ls → sa l = true ∧ attached m pid l = true)
    as Hiff.
  { rewrite forallb_True_iff. split; intros Hl l Hin.
    - by eapply link_success_settled; eauto.
    - by eapply link_success_settled; eauto. }
  rewrite <- Hiff. by destruct (forallb link_success ls).
Qed.

Lemma elem_of_kept (ls : list L) l :
  l ∈ filter (λ l, removable l = false) ls ↔ removable l = false ∧ l ∈ ls.
Proof using Type. by rewrite list_elem_of_filter. Qed.

Lemma kept_sublist (ls ls' : list L) :
  point <$> ls' = point <$> ls →
  sublist (point <$> filter (λ l, removable l = false) ls') (point <$> ls).
Proof using Type. intros <-. apply fmap_sublist, sublist_filter. Qed.

Lemma recorded_filter stale m pid (ls : list L) :
  recorded stale m pid ls → recorded stale m pid (filter (λ l, removable l = false) ls).
Proof.
  intros [Hnd Hin]. assert (sublist (link_ids (filter (λ l, removable l = false) ls))
    (link_ids ls)) as Hsub.
  { induction ls as [|l ls IH]; [done|]. rewrite filter_cons, link_ids_cons.
    rewrite link_ids_cons in Hnd. apply NoDup_app in Hnd as (_ & _ & Hnd).
    assert (sublist (link_ids (filter (λ l, removable l = false) ls)) (link_ids ls)) as IH'.
    { apply IH; [done|]. intros id Hid. apply Hin. rewrite link_ids_cons. set_solver. }
    destruct (decide _); [rewrite link_ids_cons; by apply sublist_app|].
    by apply sublist_inserts_l. }
  split; [by eapply sublist_NoDup|]. intros id Hid. apply Hin.
  by eapply elem_of_sublist.
Qed.

Lemma processLinks_run F stale pid r sl w :
  daemon_ok F stale → programId r = Some pid →
  k_owns (currentProgramState r) = true → linksOf r = Some sl →
  ∃ ls' sl' w',
    processLinks k r w = (Ret (None, processed k r sl'), w') ∧
    link_steps F stale pid (loaded w) (elems sl) (loaded w') ls' ∧
    elems sl' = filter (λ l, removable l = false) ls' ∧
    linksOf (processed k r sl') = Some sl' ∧
    ((∀ l, l ∈ ls' → removable l = false) → sl' = to_slice sl ls').
Proof.
  intros Hd Hp Ho Hsl.
  destruct (wp_run (processLinks k r) (λ '(err, r') w', ∃ ls' sl', err = None ∧
    r' = processed k r sl' ∧ link_steps F stale pid (loaded w) (elems sl) (loaded w') ls' ∧
    elems sl' = filter (λ l, removable l = false) ls' ∧
    linksOf (processed k r sl') = Some sl' ∧
    ((∀ l, l ∈ ls' → removable l = false) → sl' = to_slice sl ls')) w)
    as ([err r'] & w' & Hrun & ls' & sl' & -> & -> & H).
  { eapply (wp_processLinks k F stale pid); [done|done|done|done|]. intros ls' sl' w' ? ? ? ?.
    by exists ls', sl'. }
  by exists ls', sl', w'.
Qed.

Lemma kept_point (ls ls' : list L) l :
  point <$> ls' = point <$> ls → sa <$> ls' = sa <$> ls → l ∈ ls → sa l = true →
  point l ∈ point <$> filter (λ l, removable l = false) ls'.
Proof using Type.
  intros Hp Hs [i Hi]%list_elem_of_lookup Hsa.
  assert (∃ l', ls' !! i = Some l' ∧ point l' = point l ∧ sa l' = true) as (l' & Hi' & Hpl & Hsl).
  { assert ((point <$> ls') !! i = Some (point l)) as H1
      by (by rewrite Hp, list_lookup_fmap, Hi).
    assert ((sa <$> ls') !! i = Some true) as H2
      by (by rewrite Hs, list_lookup_fmap, Hi; simpl; rewrite Hsa).
    rewrite list_lookup_fmap in H1. rewrite list_lookup_fmap in H2. destruct (ls' !! i) as [l'|]; [|done].
    exists l'. by injection H1; injection H2. }
  rewrite <- Hpl. apply list_elem_of_fmap_2. apply elem_of_kept. split.
  - unfold removable. by rewrite Hsl.
  - by apply list_elem_of_lookup_2 in Hi'.
Qed.


Lemma link_ids_filter (ls : list L) id :
  id ∈ link_ids (filter (λ l, removable l = false) ls) ↔
  ∃ l, l ∈ ls ∧ removable l = false ∧ lid l = Some id.
Proof using Type.
  unfold link_ids. rewrite list_elem_of_omap. split.
  - intros (l & [Hr Hl]%elem_of_kept & Hid). by exists l.
  - intros (l & Hl & Hr & Hid). exists l. by rewrite elem_of_kept.
Qed.

(** Under [settled], an id that is recorded and linked is in a kept link. *)
Lemma kept_id F m pid (ls : list L) id :
  Forall (settled F m pid) ls → id ∈ link_ids ls → tlinked m pid id = true →
  id ∈ link_ids (filter (λ l, removable l = false) ls).
Proof.
  intros Hset (l & Hl & Hid)%list_elem_of_omap Ht. apply link_ids_filter. exists l.
  split; [done|]. split; [|done]. rewrite Forall_forall in Hset. specialize (Hset l Hl).
  unfold settled, attached in Hset. rewrite Hid, Ht in Hset. unfold removable.
  destruct (sa l); [done|]. destruct Hset as [-> _]. by vm_compute.
Qed.

(** C7: a pass never touches a link it has no record of: such a link of any
    program is linked afterwards if it was before, or if it is a new link of
    this program that the pass recorded. *)
Theorem processLinks_leaves_others F stale pid r sl w r' sl' w' p id :
  daemon_ok F stale → programId r = Some pid →
  k_owns (currentProgramState r) = true → linksOf r = Some sl →
  recorded stale (loaded w) pid (elems sl) →
  processLinks k r w = (Ret (None, r'), w') → linksOf r' = Some sl' →
  id ∉ link_ids (elems sl) →
  tlinked (loaded w') p id = true ↔
  tlinked (loaded w) p id = true ∨ (p = pid ∧ id ∈ link_ids (elems sl')).
Proof.
  intros Hd Hp Ho Hsl Hrec Hrun Hget Hid.
  destruct (processLinks_run F stale pid r sl w Hd Hp Ho Hsl)
    as (ls' & sl'' & w'' & Hrun' & Hsteps & Hsl' & Hget' & _).
  rewrite Hrun in Hrun'. injection Hrun' as -> <-. rewrite Hget in Hget'.
  injection Hget' as <-. rewrite Hsl'.
  destruct (steps_invariant _ _ _ _ _ _ _ Hsteps [] Hrec (Forall_nil_2 _)) as [Hrec' Hset'].
  simpl in Hrec', Hset'. destruct (decide (id ∈ link_ids ls')) as [Hin|Hnin].
  - destruct (steps_new_ids _ _ _ _ _ _ _ _ Hsteps Hin Hid) as [Hst Hf].
    assert (tlinked (loaded w') pid id = true) as Ht by (destruct Hrec' as [_ Hr]; by destruct (Hr id Hin)).
    rewrite Hf. split; [|by intros [|[-> _]]]. intros Ht'. right.
    destruct (steps_gained _ _ _ _ _ _ _ _ _ Hsteps (Hf p) Ht') as [-> _].
    split; [done|]. by eapply kept_id.
  - rewrite (steps_frame _ _ _ _ _ _ _ p id Hsteps Hid Hnin). split; [by left|].
    intros [?|[_ (l & Hl & _ & Hl')%link_ids_filter]]; [done|].
    destruct Hnin. by eapply link_ids_elem.
Qed.

(** With a daemon that serves what it can, no link is left in error. *)
Lemma settled_reliable m pid (l : L) :
  settled False m pid l → m !! pid ≠ None →
  (sa l = true ∧ attached m pid l = true ∧ lst l = ApAttachAttached ∧ removable l = false) ∨
  (sa l = false ∧ removable l = true).
Proof.
  unfold settled, removable. intros Hl Hm.
  destruct (sa l), (attached m pid l); simpl; [auto| | |].
  - by destruct Hl as [_ [?|?]].
  - by destruct Hl.
  - right. split; [done|]. rewrite Hl. by vm_compute.
Qed.

Lemma filter_points m pid (ls ls' : list L) :
  Forall (settled False m pid) ls' → m !! pid ≠ None →
  point <$> ls' = point <$> ls → sa <$> ls' = sa <$> ls →
  point <$> filter (λ l, removable l = false) ls' = point <$> filter (λ l, sa l = true) ls.
Proof.
  intros Hset Hm. revert ls. induction Hset as [|l' ls' Hl' _ IH]; intros [|l ls] Hp Hs; try done.
  rewrite !fmap_cons in Hp. rewrite !fmap_cons in Hs. injection Hp as Hpl Hp. injection Hs as Hsl Hs.
  rewrite !filter_cons. rewrite <- Hsl.
  destruct (settled_reliable _ _ _ Hl' Hm) as [(-> & _ & _ & ->)|[-> ->]].
  - rewrite !decide_True by done. rewrite !fmap_cons. by rewrite Hpl, (IH ls).
  - rewrite !decide_False by done. by apply IH.
Qed.

(** The program's links after a pass are those of the kept links and those
    that were never recorded. *)
Lemma kept_links F stale pid m (ls : list L) m' ls' id :
  link_steps F stale pid m ls m' ls' → Forall (settled F m' pid) ls' →
  (∀ l, l ∈ filter (λ l, removable l = false) ls' → attached m' pid l = true) →
  tlinked m' pid id = true ↔
    id ∈ link_ids (filter (λ l, removable l = false) ls') ∨
    (tlinked m pid id = true ∧ id ∉ link_ids ls).
Proof.
  intros Hsteps Hset Hatt. split.
  - intros Ht. destruct (decide (id ∈ link_ids ls')) as [Hin|Hnin].
    { left. by eapply kept_id. }
    right. assert (id ∉ link_ids ls) as Hnin0.
    { intros Hin. pose proof (steps_gone _ _ _ _ _ _ _ _ Hsteps Hin Hnin). congruence. }
    split; [|done]. by rewrite <- (steps_frame _ _ _ _ _ _ _ pid id Hsteps Hnin0 Hnin).
  - intros [Hin|[Ht Hnin]].
    + apply list_elem_of_omap in Hin as (l & Hl & Hid). specialize (Hatt l Hl).
      unfold attached in Hatt. by rewrite Hid in Hatt.
    + destruct (decide (id ∈ link_ids ls')) as [Hin'|Hnin'].
      * destruct (steps_new_ids _ _ _ _ _ _ _ _ Hsteps Hin' Hnin) as [_ Hf].
        by rewrite Hf in Ht.
      * by rewrite (steps_frame _ _ _ _ _ _ _ pid id Hsteps Hnin Hnin').
Qed.

Lemma processLinks_reaches stale pid r sl w :
  daemon_ok False stale → programId r = Some pid → is_Some (loaded w !! pid) →
  k_owns (currentProgramState r) = true → linksOf r = Some sl →
  recorded stale (loaded w) pid (elems sl) →
  ∃ r' w' sl',
    processLinks k r w = (Ret (None, r'), w') ∧ linksOf r' = Some sl' ∧
    point <$> elems sl' = point <$> filter (λ l, sa l = true) (elems sl) ∧
    Forall (λ l, sa l = true ∧ lst l = ApAttachAttached ∧
                 attached (loaded w') pid l = true) (elems sl') ∧
    programStatus r' = ProgAttachSuccess ∧
    (∀ id, tlinked (loaded w') pid id = true ↔
       id ∈ link_ids (elems sl') ∨
       (tlinked (loaded w) pid id = true ∧ id ∉ link_ids (elems sl))).
Proof.
  intros Hd Hp Hl Ho Hsl Hrec.
  destruct (processLinks_run False stale pid r sl w Hd Hp Ho Hsl)
    as (ls' & sl' & w' & Hrun & Hsteps & Hsl' & Hget & _).
  destruct (steps_invariant _ _ _ _ _ _ _ Hsteps [] Hrec (Forall_nil_2 _)) as [Hrec' Hset'].
  destruct (steps_points _ _ _ _ _ _ _ Hsteps) as [Hpt Hsa]. simpl in Hrec', Hset'.
  assert (loaded w' !! pid ≠ None) as Hl''
    by (rewrite (steps_loaded _ _ _ _ _ _ _ pid Hsteps); by destruct Hl as [? ->]).
  assert (Forall (λ l, sa l = true ∧ lst l = ApAttachAttached ∧
                 attached (loaded w') pid l = true) (elems sl')) as Hall.
  { rewrite Hsl'. apply Forall_forall. intros l [Hr Hl0]%elem_of_kept.
    rewrite Forall_forall in Hset'. specialize (Hset' l Hl0).
    destruct (settled_reliable _ _ _ Hset' Hl'') as [(? & ? & ? & _)|[_ ?]]; [done|congruence]. }
  eexists _, w', sl'. split; [exact Hrun|]. split; [done|].
  split; [rewrite Hsl'; by eapply filter_points|]. split; [done|].
  rewrite Forall_forall in Hall. split.
  - rewrite programStatus_processed. apply (success_iff False (loaded w') pid).
    + rewrite Hsl'. apply Forall_forall. intros l [_ Hl0]%elem_of_kept.
      rewrite Forall_forall in Hset'. auto.
    + intros l Hl0. rewrite Hsl' in Hl0. by apply elem_of_kept in Hl0 as [? _].
    + intros l Hl0. by destruct (Hall l Hl0) as (? & _ & ?).
  - intros id. rewrite Hsl'. eapply kept_links; [exact Hsteps|done|].
    intros l Hl0. rewrite <- Hsl' in Hl0. by destruct (Hall l Hl0) as (_ & _ & ?).
Qed.

(** C5: with a daemon that serves what it can, a pass over a loaded program
    reaches the desired state: the remaining links are exactly those that
    should be attached, in order and unchanged but for id and status, each is
    attached and says so, the program status is Success, and the program's
    links in the daemon are those recorded and those the agent never
    recorded. *)
Theorem processLinks_converges stale pid r sl w :
  daemon_ok False stale → programId r = Some pid → is_Some (loaded w !! pid) →
  k_owns (currentProgramState r) = true → linksOf r = Some sl →
  recorded stale (loaded w) pid (elems sl) →
  ∃ r' w' sl',
    processLinks k r w = (Ret (None, r'), w') ∧ linksOf r' = Some sl' ∧
    point <$> elems sl' = point <$> filter (λ l, sa l = true) (elems sl) ∧
    Forall (λ l, sa l = true ∧ lst l = ApAttachAttached ∧
                 attached (loaded w') pid l = true) (elems sl') ∧
    programStatus r' = ProgAttachSuccess ∧
    (∀ id, tlinked (loaded w') pid id = true ↔
       id ∈ link_ids (elems sl') ∨
       (tlinked (loaded w) pid id = true ∧ id ∉ link_ids (elems sl))).
Proof. apply processLinks_reaches. Qed.

(** *** The steady state *)

Lemma steps_steady F stale pid m (ls : list L) m' ls' :
  link_steps F stale pid m ls m' ls' →
  Forall (λ l, sa l = true ∧ lst l = ApAttachAttached ∧ attached m pid l = true) ls →
  m' = m ∧ ls' = ls.
Proof.
  induction 1 as [|m l m1 l' ls m2 ls' Hstep _ IH]; [done|].
  intros [(Hs & Hst & Ha) Hls]%Forall_cons.
  assert (m1 = m ∧ l' = l) as [-> ->].
  { destruct Hstep; try congruence. split; [done|]. unfold set_lst, update_link.
    replace (with_LinkStatus ApAttachAttached (link_common l)) with (link_common l);
      [apply set_link_get|]. unfold with_LinkStatus. rewrite <- Hst. unfold lst.
    by destruct (link_common l). }
  by destruct (IH Hls) as [-> ->].
Qed.

Lemma processed_steady r sl :
  linksOf r = Some sl → programStatus r = success (elems sl) → processed k r sl = r.
Proof.
  intros Hsl Hst. unfold processed, update_prog. simpl. rewrite law_set_get by done.
  unfold programStatus in Hst. rewrite <- Hst. destruct r as [c n p s]; simpl.
  unfold with_state. simpl. f_equal.
  replace (with_ProgramLinkStatus _ _) with (prog_common s); [apply set_prog_get|].
  by destruct (prog_common s).
Qed.

(** Reconciling the links of a program that is already as desired changes
    nothing: not the recorded state, so that no status update follows, and
    nothing in the daemon. *)
Theorem processLinks_steady pid r sl w :
  programId r = Some pid →
  k_owns (currentProgramState r) = true → linksOf r = Some sl →
  Forall (λ l, sa l = true ∧ lst l = ApAttachAttached ∧ attached (loaded w) pid l = true)
    (elems sl) →
  programStatus r = ProgAttachSuccess →
  ∃ w', processLinks k r w = (Ret (None, r), w') ∧ loaded w' = loaded w.
Proof.
  intros Hp Ho Hsl Hall Hst.
  assert (daemon_ok (W := W) True ∅) as Hd by (split; [set_solver|by left]).
  destruct (processLinks_run True ∅ pid r sl w Hd Hp Ho Hsl)
    as (ls' & sl' & w' & Hrun & Hsteps & _ & _ & Hslice).
  destruct (steps_steady _ _ _ _ _ _ _ Hsteps Hall) as [Hw ->].
  rewrite Forall_forall in Hall.
  assert (sl' = sl) as ->.
  { rewrite Hslice; [by destruct sl as [[|]|]|]. intros l Hl.
    destruct (Hall l Hl) as (Hs & _). unfold removable. by rewrite Hs. }
  exists w'. split; [|done]. rewrite Hrun. rewrite processed_steady; [done|done|].
  rewrite Hst. unfold success.
  replace (forallb link_success (elems sl)) with true; [done|]. symmetry.
  apply forallb_True_iff. intros l Hl. destruct (Hall l Hl) as (Hs & Hls & _).
  unfold link_success. fold (sa l) (lst l). rewrite Hs, Hls. by vm_compute.
Qed.

(** *** A program that is not loaded *)

Lemma reconcileBpfLink_unloaded r (l : L) w :
  programId r = None →
  reconcileBpfLink (methods (k_getAttachRequest k)) (mkAt r l) w =
  if sa l then (Panic nil_dereference, w)
  else (Ret (true, None, mkAt r (set_lst ApAttachNotAttached l)), w).
Proof.
  intros Hp. unfold reconcileBpfLink.
  assert (isAttached (methods (k_getAttachRequest k)) (mkAt r l) w = (Ret false, w)) as Hat
    by (simpl; unfold At_isAttached; simpl; by rewrite Hp).
  rewrite (run_bind _ _ _ _ _ Hat). cbn zeta. cbn [shouldAttach methods currentLink].
  fold (sa l). destruct (sa l) eqn:Hs.
  - apply run_bind_panic, run_bind_panic. by apply law_request_nil.
  - rewrite (run_bind _ _ _ _ _ (run_ret _ _)).
    change ((Ret (negb false && bool_decide (lst (set_lst ApAttachNotAttached l) =
      ApAttachNotAttached), None : option error, mkAt r (set_lst ApAttachNotAttached l)), w) =
      (Ret (true, None, mkAt r (set_lst ApAttachNotAttached l)), w)). by links.
Qed.

Lemma processLinks_loop_unloaded r ls : ∀ i acc last w,
  programId r = None →
  processLinks_loop k i ls r acc last w =
  if existsb sa ls then (Panic nil_dereference, w)
  else (Ret (set_lst ApAttachNotAttached <$> ls, r,
             marks i (set_lst ApAttachNotAttached <$> ls) acc, last), w).
Proof.
  induction ls as [|l ls IH]; intros i acc last w Hp; [done|]. simpl.
  pose proof (reconcileBpfLink_unloaded r l w Hp) as Hl. destruct (sa l) eqn:Hs; simpl.
  - by apply run_bind_panic.
  - rewrite (run_bind _ _ _ _ _ Hl). cbn [at_rec].
    pose proof (IH (1 + i)%nat ({[i]} ∪ acc) last w Hp) as Hr.
    unfold removable. links. rewrite Hs. simpl. destruct (existsb sa ls).
    + by apply run_bind_panic.
    + by rewrite (run_bind _ _ _ _ _ Hr).
Qed.

(** A pass over a program that has no id (it was never loaded, or was
    unloaded because the node is no longer selected) panics on the nil id if
    any link should be attached, and otherwise drops every link without a
    call to the daemon. *)
Theorem processLinks_unloaded r sl w :
  programId r = None →
  k_owns (currentProgramState r) = true → linksOf r = Some sl →
  if existsb sa (elems sl) then processLinks k r w = (Panic nil_dereference, w)
  else ∃ r' sl', processLinks k r w = (Ret (None, r'), w) ∧ linksOf r' = Some sl' ∧
    elems sl' = [] ∧ programStatus r' = ProgAttachSuccess.
Proof.
  intros Hp Ho Hsl. unfold processLinks. unfold linksOf in Hsl. rewrite Hsl. simpl.
  rewrite (run_bind _ _ _ _ _ (run_ret sl w)).
  pose proof (processLinks_loop_unloaded r (elems sl) 0 ∅ None w Hp) as Hloop.
  destruct (existsb sa (elems sl)) eqn:He; [by apply run_bind_panic|].
  rewrite (run_bind _ _ _ _ _ Hloop). cbn zeta. set (ls := set_lst _ <$> elems sl).
  set (sl' := if decide _ then _ else _).
  assert (elems sl' = []) as Hnil.
  { unfold sl'. rewrite (remove_marked _ ls) by apply elems_to_slice.
    apply elem_of_nil_inv. intros l [Hr Hl]%elem_of_kept. unfold ls in Hl.
    apply list_elem_of_fmap in Hl as (l0 & -> & Hl0). unfold removable in Hr.
    rewrite sa_set_lst, lst_set_lst in Hr.
    assert (sa l0 = true) as Hs by (by destruct (sa l0)).
    assert (existsb sa (elems sl) = true); [|congruence].
    apply existsb_exists. exists l0. split; [by apply list_elem_of_In|done]. }
  assert (k_stateLinks k (k_setStateLinks k sl' (currentProgramState r)) = Some sl') as Hget
    by (apply law_get_set; [done|by rewrite Hsl]).
  unfold updateProgramAttachStatus. cbn [currentProgramState with_state]. rewrite Hget.
  exists (processed k r sl'), sl'. split; [done|]. split; [|split; [done|]].
  - unfold linksOf, processed, update_prog. simpl. by rewrite law_get_prog.
  - rewrite programStatus_processed, Hnil. done.
Qed.
End processLinks.
