(* ===== verification/LinkFaults.v ===== *)
(** processLinks against a daemon of which little is known: its calls may fail for any
    reason, one that fails may have had its effect or not, and a Get may fail for a
    program that is loaded. What is recorded stays true all the same. *)

From S2P Require Import Prelude ApiTypes Constants Bpfman Selectors Links LinkSpecs LinkTheorems.
From stdpp Require Import options.
#[local] Set Default Proof Using "Type*".

(** The daemon's links [table] and the ids of links it has ever given out; it gives out
    none twice. A failed Attach may have made links, a failed Detach removed its link.
    [honest] says that a Get fails only for a program that is not loaded. *)
Class FaultyDaemon (W : Type) `{!BpfmanClient W} (honest : Prop) := {
  table : W → gmap Z (gset Z);
  issued : W → gset Z;
  fd_issued w p id : tlinked (table w) p id = true → id ∈ issued w;
  fd_Get id w :
    table (bpfman_Get id w).2 = table w ∧ issued (bpfman_Get id w).2 = issued w;
  fd_Get_Ok id w r :
    (bpfman_Get id w).1 = Ok r →
    ∃ info, pr_Info r = Some info ∧ table w !! id = Some (list_to_set (pi_Links info));
  fd_Get_Err id w e : honest → (bpfman_Get id w).1 = Err e → table w !! id = None;
  fd_Attach rq w :
    issued w ⊆ issued (bpfman_Attach rq w).2 ∧
    (∀ p id, tlinked (table w) p id = true → tlinked (table (bpfman_Attach rq w).2) p id = true) ∧
    (∀ p id, tlinked (table (bpfman_Attach rq w).2) p id = true →
       tlinked (table w) p id = true ∨ (p = ar_Id rq ∧ id ∉ issued w));
  fd_Attach_Ok rq w l :
    (bpfman_Attach rq w).1 = Ok l →
    l ∉ issued w ∧ tlinked (table (bpfman_Attach rq w).2) (ar_Id rq) l = true;
  fd_Detach l w :
    issued w ⊆ issued (bpfman_Detach l w).2 ∧
    (∀ p id, tlinked (table (bpfman_Detach l w).2) p id = true → tlinked (table w) p id = true) ∧
    (∀ p id, id ≠ l → tlinked (table w) p id = true →
       tlinked (table (bpfman_Detach l w).2) p id = true);
  fd_Detach_Ok l w :
    (bpfman_Detach l w).1 = None → ∀ p, tlinked (table (bpfman_Detach l w).2) p l = false;
}.

(** ** One link, and the links of a program *)

Section faults.
Context {L : Type} `{!LinkState L, !LinkStateLaws L} (honest : Prop) (pid : Z).
Implicit Types (m : gmap Z (gset Z)) (I : gset Z) (l : L) (ls : list L).

(** What the status of a link says: Attached, that the daemon has it; an error, that the
    last attempt to attach or to detach it failed, the link not being there in the first
    case, if Get is honest. *)
Definition truthful m l : Prop :=
  if sa l then
    (lst l = ApAttachAttached ∧ attached m pid l = true) ∨
    (lst l = ApAttachError ∧ (honest → attached m pid l = false))
  else lst l = ApDetachError ∨ lst l = ApAttachNotAttached.

Record fault_step m I l m' I' l' : Prop := {
  fs_point : point l' = point l;
  fs_sa : sa l' = sa l;
  fs_issued : I ⊆ I';
  fs_lid id : lid l' = Some id → lid l = Some id ∨ (id ∉ I ∧ id ∈ I');
  fs_truthful : (∀ id, lid l = Some id → id ∈ I) → truthful m' l';
  fs_frame p id : lid l ≠ Some id → tlinked m p id = true → tlinked m' p id = true;
  fs_gain p id : tlinked m' p id = true → tlinked m p id = true ∨ (p = pid ∧ id ∉ I);
  fs_gone id : honest → id ∈ I → lid l = Some id → (lid l' ≠ Some id ∨ removable l' = true) →
    tlinked m' pid id = false;
}.

Inductive fault_steps : gmap Z (gset Z) → gset Z → list L →
    gmap Z (gset Z) → gset Z → list L → Prop :=
  | faults_nil m I : fault_steps m I [] m I []
  | faults_cons m I l m1 I1 l' ls m2 I2 ls' :
      fault_step m I l m1 I1 l' → fault_steps m1 I1 ls m2 I2 ls' →
      fault_steps m I (l :: ls) m2 I2 (l' :: ls').

Lemma faults_points m I ls m' I' ls' :
  fault_steps m I ls m' I' ls' →
  point <$> ls' = point <$> ls ∧ sa <$> ls' = sa <$> ls ∧ I ⊆ I'.
Proof.
  induction 1 as [|m I l m1 I1 l' ls m2 I2 ls' Hs _ (IHp & IHs & IHi)]; [done|].
  rewrite !fmap_cons, IHp, IHs, (fs_point _ _ _ _ _ _ Hs), (fs_sa _ _ _ _ _ _ Hs).
  pose proof (fs_issued _ _ _ _ _ _ Hs). split_and!; [done..|set_solver].
Qed.

Lemma faults_frame m I ls m' I' ls' p id :
  fault_steps m I ls m' I' ls' → id ∉ link_ids ls → tlinked m p id = true →
  tlinked m' p id = true.
Proof.
  induction 1 as [|m I l m1 I1 l' ls m2 I2 ls' Hs _ IH]; [done|].
  rewrite link_ids_cons, not_elem_of_app. intros [Hl Hls] Ht. apply IH; [done|].
  eapply fs_frame; [exact Hs| |done]. intros Heq. rewrite Heq in Hl. set_solver.
Qed.

Lemma faults_gain m I ls m' I' ls' p id :
  fault_steps m I ls m' I' ls' → tlinked m' p id = true →
  tlinked m p id = true ∨ (p = pid ∧ id ∉ I).
Proof.
  induction 1 as [|m I l m1 I1 l' ls m2 I2 ls' Hs _ IH]; [by left|]. intros Ht.
  pose proof (fs_issued _ _ _ _ _ _ Hs) as Hi.
  destruct (IH Ht) as [H1|[-> Hn]]; [by eapply fs_gain|]. right. set_solver.
Qed.

(** An id that was given out before and is recorded for none of the links keeps its meaning. *)
Lemma faults_same m I ls m' I' ls' p id :
  fault_steps m I ls m' I' ls' → id ∈ I → id ∉ link_ids ls → tlinked m' p id = tlinked m p id.
Proof.
  intros Hs Hi Hn. apply eq_iff_eq_true. split.
  - intros Ht. by destruct (faults_gain _ _ _ _ _ _ _ _ Hs Ht) as [|[_ ?]].
  - by apply (faults_frame _ _ _ _ _ _ _ _ Hs).
Qed.

Lemma faults_ids m I ls m' I' ls' :
  fault_steps m I ls m' I' ls' → NoDup (link_ids ls) → list_to_set (link_ids ls) ⊆ I →
  NoDup (link_ids ls') ∧ list_to_set (link_ids ls') ⊆ I' ∧
  ∀ id, id ∈ link_ids ls' → id ∈ link_ids ls ∨ id ∉ I.
Proof.
  induction 1 as [|m I l m1 I1 l' ls m2 I2 ls' Hs Hss IH]; [by auto|].
  rewrite !link_ids_cons, list_to_set_app_L. intros (Hnl & Hd & Hnd)%NoDup_app HI.
  pose proof (fs_issued _ _ _ _ _ _ Hs) as HI1.
  destruct IH as (Hnd' & HI2 & Hin); [done|set_solver|].
  destruct (faults_points _ _ _ _ _ _ Hss) as (_ & _ & HI12).
  assert (Hl' : ∀ id, id ∈ option_list (lid l') → id ∈ option_list (lid l) ∨ (id ∉ I ∧ id ∈ I1)).
  { intros id. destruct (lid l') as [id'|] eqn:El'; cbn; [|by intros ?%elem_of_nil].
    intros ->%list_elem_of_singleton. destruct (fs_lid _ _ _ _ _ _ Hs id' El') as [->|?]; [|by right].
    left. by apply list_elem_of_singleton. }
  split_and!.
  - apply NoDup_app. split; [by destruct (lid l'); [apply NoDup_singleton|constructor]|].
    split; [|done]. intros id Hid Hid'. destruct (Hin id Hid') as [Hls|Hn], (Hl' id Hid) as [Hl|[Hn1 Hi1]].
    + by eapply Hd.
    + set_solver.
    + set_solver.
    + set_solver.
  - rewrite list_to_set_app_L. intros id. rewrite elem_of_union, !elem_of_list_to_set. intros [Hid|Hid].
    + destruct (Hl' id Hid) as [?|[_ ?]]; [|set_solver]. set_solver.
    + apply HI2. by apply elem_of_list_to_set.
  - intros id [Hid|Hid]%elem_of_app; rewrite elem_of_app.
    + destruct (Hl' id Hid) as [?|[? _]]; auto.
    + destruct (Hin id Hid); [auto|set_solver].
Qed.

Lemma faults_truthful m I ls m' I' ls' :
  fault_steps m I ls m' I' ls' → NoDup (link_ids ls) → list_to_set (link_ids ls) ⊆ I →
  Forall (truthful m') ls'.
Proof.
  induction 1 as [|m I l m1 I1 l' ls m2 I2 ls' Hs Hss IH]; [by constructor|].
  rewrite link_ids_cons, list_to_set_app_L. intros (_ & Hd & Hnd)%NoDup_app HI.
  pose proof (fs_issued _ _ _ _ _ _ Hs) as HI1.
  constructor; [|apply IH; [done|set_solver]].
  assert (Hsame : attached m2 pid l' = attached m1 pid l').
  { unfold attached. destruct (lid l') as [id|] eqn:El'; [|done].
    destruct (fs_lid _ _ _ _ _ _ Hs id El') as [El|[Hn Hi]].
    - eapply faults_same; [exact Hss| |].
      + apply HI1, HI, elem_of_union_l. rewrite El. cbn. set_solver.
      + apply Hd. rewrite El. cbn. by left.
    - eapply faults_same; [exact Hss|done|]. intros Hin. apply Hn, HI, elem_of_union_r.
      by apply elem_of_list_to_set. }
  assert (Ht : truthful m1 l').
  { apply (fs_truthful _ _ _ _ _ _ Hs). intros id El. apply HI, elem_of_union_l.
    rewrite El. cbn. set_solver. }
  unfold truthful in *. by rewrite Hsame.
Qed.

Lemma faults_gone m I ls m' I' ls' id :
  fault_steps m I ls m' I' ls' → honest → NoDup (link_ids ls) → list_to_set (link_ids ls) ⊆ I →
  id ∈ link_ids ls → id ∉ link_ids (filter (λ l, removable l = false) ls') →
  tlinked m' pid id = false.
Proof.
  intros Hs Hh. induction Hs as [|m I l m1 I1 l' ls m2 I2 ls' Hs Hss IH].
  { intros _ _ Hid. by apply elem_of_nil in Hid. }
  rewrite link_ids_cons, list_to_set_app_L. intros (_ & Hd & Hnd)%NoDup_app HI Hid Hnin.
  pose proof (fs_issued _ _ _ _ _ _ Hs) as HI1. apply elem_of_app in Hid as [Hid|Hid].
  - destruct (lid l) as [id'|] eqn:El; cbn in Hid; [|by apply elem_of_nil in Hid].
    apply list_elem_of_singleton in Hid as ->.
    assert (Hi : id' ∈ I) by (apply HI, elem_of_union_l; cbn; set_solver).
    assert (Hn : id' ∉ link_ids ls) by (apply Hd; cbn; by left).
    rewrite (faults_same _ _ _ _ _ _ pid id' Hss); [|by apply HI1|done].
    apply (fs_gone _ _ _ _ _ _ Hs); [done..|].
    rewrite filter_cons in Hnin. destruct (decide (removable l' = false)) as [Hr|Hr].
    + left. intros El'. apply Hnin. rewrite link_ids_cons, El'. by left.
    + right. by destruct (removable l').
  - apply IH; [done|set_solver|done|]. intros Hin. apply Hnin. rewrite filter_cons.
    destruct (decide _); [|done]. rewrite link_ids_cons. by apply elem_of_app; right.
Qed.
End faults.

(** ** The code takes these steps *)

Section refinement.
Context {W P S A L : Type} (honest : Prop) `{!AgentEnv W, !FaultyDaemon W honest}
  `{!LinkState L, !LinkStateLaws L, !ProgramState S, !ProgramStateLaws S}
  (k : Kind W P S A L) `{!KindLaws k} (pid : Z).
Implicit Types (r : ProgRec P S) (w : W).

Lemma wp_isAttached_faults r (l : L) (Q : bool → W → Prop) w :
  programId r = Some pid →
  (∀ b w', table w' = table w → issued w' = issued w →
     (b = true → attached (table w) pid l = true) →
     (honest → b = false → attached (table w) pid l = false) → Q b w') →
  wp (At_isAttached (mkAt r l)) Q w.
Proof.
  intros Hp HQ. unfold At_isAttached. cbn [at_rec currentLink]. rewrite Hp.
  unfold attached, lid in HQ. destruct (ai_LinkId (link_common l)) as [id|]; [|by apply wpg_ret, HQ].
  unfold doesLinkExist, GetBpfmanProgramById. wp_step. wp_step.
  destruct (fd_Get pid w) as [Ht Hi]. destruct (bpfman_Get pid w).1 as [p|e] eqn:E.
  - destruct (fd_Get_Ok _ _ _ E) as (info & Hinfo & Hm). wp_step.
    eapply wpg_deref; [done|]. apply wpg_ret, HQ; [done..| |].
    + intros Hb%bool_decide_eq_true. unfold tlinked. rewrite Hm.
      by apply bool_decide_eq_true, elem_of_list_to_set.
    + intros _ Hb%bool_decide_eq_false. unfold tlinked. rewrite Hm.
      by apply bool_decide_eq_false; rewrite elem_of_list_to_set.
  - apply wpg_ret, HQ; [done..|]. intros Hh _. unfold tlinked. by rewrite (fd_Get_Err _ _ _ Hh E).
Qed.

Lemma wp_reconcileBpfLink_faults r (l : L) Q w :
  programId r = Some pid →
  (∀ l' w', fault_step honest pid (table w) (issued w) l (table w') (issued w') l' →
     Q (removable l', None, mkAt r l') w') →
  wp (reconcileBpfLink (methods (k_getAttachRequest k)) (mkAt r l)) Q w.
Proof.
  intros Hp HQ. unfold reconcileBpfLink. wp_step. apply (wp_isAttached_faults r l _ w Hp).
  intros b w1 Ht1 Hi1 Htrue Hfalse. cbn zeta. wp_step.
  cbn [shouldAttach methods currentLink]. fold (sa l). rewrite <- Ht1 in Htrue, Hfalse, HQ.
  rewrite <- Hi1 in HQ.
  assert (Hfin : ∀ st l1 w', sa l1 = sa l →
    fault_step honest pid (table w1) (issued w1) l (table w') (issued w') (set_lst st l1) →
    Q (negb (sa l) && bool_decide (lst (set_lst st l1) = ApAttachNotAttached),
       None, mkAt r (set_lst st l1)) w').
  { intros st l1 w' Hs1 Hstep. apply HQ in Hstep. rewrite removable_set_lst, Hs1 in Hstep.
    by rewrite lst_set_lst. }
  destruct (sa l) eqn:Hs, b.
  - apply wpg_ret, wpg_ret. apply (Hfin ApAttachAttached l w1 Hs).
    split; links; auto; try by left.
    + intros _. unfold truthful. links. rewrite Hs. left. by auto.
    + intros id _ _ -> [Hn|Hr]; [done|]. unfold removable in Hr. links. by rewrite Hs in Hr.
  - destruct (law_request pid (mkAt r l) Hp) as (rq & Hrq & Hreq).
    wp_step. cbn [getAttachRequest methods]. apply (run_wp _ _ _ _ _ (Hreq w1)).
    wp_step. unfold AttachBpfmanProgram. wp_step. wp_step. wp_step.
    destruct (fd_Attach rq w1) as (Hi & Hkeep & Hgain). rewrite Hrq in Hgain.
    destruct (bpfman_Attach rq w1).1 as [id|e] eqn:E; apply wpg_ret, wpg_ret.
    + destruct (fd_Attach_Ok _ _ _ E) as [Hn Ht]. rewrite Hrq in Ht.
      apply (Hfin ApAttachAttached (set_lid (Some id) l)); [by links|].
      split; links; auto.
      * intros id' [= <-]. right. split; [done|]. by eapply fd_issued.
      * intros _. unfold truthful, attached. links. rewrite Hs. by left.
      * intros id' Hh Hi' Hl _. apply not_true_is_false. intros Ht'.
        destruct (Hgain _ _ Ht') as [H1|[_ Hn']]; [|done].
        specialize (Hfalse Hh eq_refl). unfold attached in Hfalse. by rewrite Hl, H1 in Hfalse.
    + apply (Hfin ApAttachError l); [done|].
      assert (Hatt : honest → ∀ id, id ∈ issued w1 → lid l = Some id →
        tlinked (table (bpfman_Attach rq w1).2) pid id = false).
      { intros Hh id Hid Hl. apply not_true_is_false. intros Ht'.
        destruct (Hgain _ _ Ht') as [H1|[_ Hn']]; [|done].
        specialize (Hfalse Hh eq_refl). unfold attached in Hfalse. by rewrite Hl, H1 in Hfalse. }
      split; links; auto.
      intros HI. unfold truthful, attached. links. rewrite Hs. right. split; [done|]. intros Hh.
      destruct (lid l) as [id|] eqn:Hl; [|done]. by apply Hatt; [|apply HI|].
  - assert (∃ id, lid l = Some id ∧ tlinked (table w1) pid id = true) as (id & Hid & Ht).
    { specialize (Htrue eq_refl). unfold attached in Htrue. destruct (lid l) as [id|]; [by exists id|done]. }
    wp_step. cbn [getLinkId methods currentLink]. fold (lid l). eapply wpg_deref; [done|].
    wp_step. unfold DetachBpfmanProgram. wp_step. wp_step. wp_step.
    destruct (fd_Detach id w1) as (Hi & Hless & Hkeep).
    destruct (bpfman_Detach id w1).1 as [e|] eqn:E; apply wpg_ret, wpg_ret.
    + apply (Hfin ApDetachError l); [done|]. split; links; auto.
      * intros _. unfold truthful. links. rewrite Hs. by left.
      * intros p id' Hne. apply Hkeep. congruence.
      * intros id' _ _ Hl [Hn|Hr]; [done|]. unfold removable in Hr. links.
        by rewrite Hs in Hr; vm_compute in Hr.
    + apply (Hfin ApAttachNotAttached (set_lid None l)); [by links|]. split; links; auto.
      * by intros ?.
      * intros _. unfold truthful. links. rewrite Hs. by right.
      * intros p id' Hne. apply Hkeep. congruence.
      * intros id' _ _ Hl _. assert (id' = id) as -> by congruence. by apply fd_Detach_Ok.
  - apply wpg_ret, wpg_ret. apply (Hfin ApAttachNotAttached l); [done|]. split; links; auto.
    + intros _. unfold truthful. links. rewrite Hs. by right.
    + intros id Hh _ Hl _. specialize (Hfalse Hh eq_refl). unfold attached in Hfalse.
      by rewrite Hl in Hfalse.
Qed.

Lemma wp_processLinks_loop_faults r Q ls : ∀ i acc last w,
  programId r = Some pid →
  (∀ ls' w', fault_steps honest pid (table w) (issued w) ls (table w') (issued w') ls' →
     Q (ls', r, marks i ls' acc, last) w') →
  wp (processLinks_loop k i ls r acc last) Q w.
Proof.
  revert Q. induction ls as [|l ls IH]; intros Q i acc last w Hp HQ; cbn [processLinks_loop].
  { apply wpg_ret. apply (HQ []). constructor. }
  wp_step. apply wp_reconcileBpfLink_faults; [done|]. intros l' w1 Hstep. cbn [at_rec].
  wp_step. apply IH; [done|]. intros ls' w2 Hsteps. apply wpg_ret.
  apply (HQ (l' :: ls')). by econstructor.
Qed.

Lemma processLinks_run_faults r sl w :
  programId r = Some pid → k_owns (currentProgramState r) = true → linksOf k r = Some sl →
  ∃ ls' sl' w',
    processLinks k r w = (Ret (None, processed k r sl'), w') ∧
    fault_steps honest pid (table w) (issued w) (elems sl) (table w') (issued w') ls' ∧
    elems sl' = filter (λ l, removable l = false) ls' ∧
    linksOf k (processed k r sl') = Some sl'.
Proof.
  intros Hp Ho Hsl.
  destruct (wp_run (processLinks k r) (λ '(err, r') w', ∃ ls' sl', err = None ∧
    r' = processed k r sl' ∧
    fault_steps honest pid (table w) (issued w) (elems sl) (table w') (issued w') ls' ∧
    elems sl' = filter (λ l, removable l = false) ls' ∧
    linksOf k (processed k r sl') = Some sl') w)
    as ([err r'] & w' & Hrun & ls' & sl' & -> & -> & H); [|by exists ls', sl', w'].
  unfold processLinks. unfold linksOf in Hsl. rewrite Hsl. wp_step.
  eapply wpg_deref; [done|]. wp_step. apply wp_processLinks_loop_faults; [done|].
  intros ls' w' Hsteps. cbn zeta. set (sl' := if decide _ then _ else _).
  assert (Hsl' : elems sl' = filter (λ l, removable l = false) ls')
    by (apply remove_marked, elems_to_slice).
  assert (Hget : k_stateLinks k (k_setStateLinks k sl' (currentProgramState r)) = Some sl')
    by (apply law_get_set; [done|by rewrite Hsl]).
  wp_step. unfold updateProgramAttachStatus. wp_step. cbn [currentProgramState with_state].
  rewrite Hget. eapply wpg_deref; [done|]. apply wpg_ret, wpg_ret. exists ls', sl'.
  split_and!; [done..|]. unfold linksOf, processed, update_prog. cbn. by rewrite law_get_prog.
Qed.
End refinement.
