(* ===== verification/LinkUpdate.v ===== *)
(** The contract of updateLinks and reconcileProgram for every program kind.
    A kind identifies links by a key (interface, priority, network namespace,
    function, ...); updateLinks merges the expected links into the recorded ones
    so that the links to attach are those with an expected key. *)

From S2P Require Import Prelude ApiTypes Constants Bpfman Selectors Links LinkSpecs.
From S2P Require Import LinkTheorems.
From stdpp Require Import options.
#[local] Set Default Proof Using "Type*".

(** ** What a kind promises about its keys and expected links *)

(** A link as [getExpectedLinks] makes it. *)
Definition new_link {L} `{!LinkState L} (l : L) : Prop :=
  sa l = true ∧ lid l = None ∧ lst l = ApAttachNotAttached.

(** [Inv] is what the lookups preserve of the outside (what the host's
    namespaces and the daemon's links are); [key l] is [None] when the identity
    of [l] cannot be established; [expects] says which links getExpectedLinks returns,
    or, of [None], that it fails. *)
Class UpdateSpec {W P S A L K} `{!LinkState L} `{!EqDecision K} (k : Kind W P S A L)
    (Inv : W → Prop) (key : L → option K) (expects : ProgRec P S → A → option (list L) → Prop) := {
  us_key f l : key (update_link f l) = key l;
  us_find l links w :
    Inv w → wp (k_findLink k l links) (λ res w', Inv w' ∧
      match key l with
      | None => ∃ e, res = Err e
      | Some _ => res = Ok (find_index (λ a, bool_decide (key a = key l)) links)
      end) w;
  us_expect r a w :
    Inv w → wp (k_getExpectedLinks k r a) (λ res w', Inv w' ∧
      match res with
      | Ok ls => expects r a (Some ls) ∧ Forall new_link ls
      | Err _ => expects r a None
      end) w;
}.

(** ** Lists of links *)

Section link_lists.
Context {L : Type} `{!LinkState L, !LinkStateLaws L}.

Definition cleared (ls : list L) : list L := update_link (with_ShouldAttach false) <$> ls.

Lemma lookup_mark i (ls : list L) j :
  mark_link i ls !! j =
  if decide (i = j) then update_link (with_ShouldAttach true) <$> ls !! j else ls !! j.
Proof.
  unfold mark_link. destruct (decide (i = j)) as [<-|Hne].
  - by rewrite list_lookup_alter_eq.
  - by rewrite list_lookup_alter_ne.
Qed.

Lemma cleared_mark i (ls : list L) : cleared (mark_link i ls) = cleared ls.
Proof.
  unfold cleared, mark_link. revert i. induction ls as [|l ls IH]; intros [|i]; simpl; try done.
  - by rewrite update_update.
  - f_equal. apply IH.
Qed.

Lemma cleared_app (ls ls' : list L) : cleared (ls ++ ls') = cleared ls ++ cleared ls'.
Proof. apply fmap_app. Qed.

Lemma link_ids_cleared (ls : list L) : link_ids (cleared ls) = link_ids ls.
Proof.
  unfold link_ids, cleared. induction ls as [|l ls IH]; [done|]. simpl.
  unfold lid at 1. rewrite common_update. simpl. fold (lid l).
  destruct (lid l); [f_equal|]; apply IH.
Qed.

Lemma link_ids_None (added : list L) :
  Forall (λ e, lid e = None) added → link_ids added = [].
Proof. induction 1 as [|x added Hx _ IH]; [done|]. by rewrite link_ids_cons, Hx. Qed.
End link_lists.

(** ** Merging, as a function *)

Section merge.
Context {L K : Type} `{!LinkState L, !LinkStateLaws L} `{!EqDecision K} (key : L → option K).
Hypothesis key_update : ∀ f l, key (update_link f l) = key l.

Definition merge1 (ls : list L) (l : L) : list L :=
  match key l with
  | None => ls
  | Some _ =>
      match find_index (λ a, bool_decide (key a = key l)) ls with
      | Some i => mark_link i ls
      | None => ls ++ [l]
      end
  end.

Definition merge (ls exps : list L) : list L := foldl merge1 ls exps.

(** Links marked so far are those whose key is in [T], at least one for each,
    and no two links share a key. *)
Definition merged (T : list K) (ls : list L) : Prop :=
  NoDup (omap key ls) ∧
  (∀ l, l ∈ ls → sa l = true ↔ ∃ kk, key l = Some kk ∧ kk ∈ T) ∧
  (∀ kk, kk ∈ T → kk ∈ omap key ls).

Lemma omap_key_mark i (ls : list L) : omap key (mark_link i ls) = omap key ls.
Proof using key_update.
  unfold mark_link. revert i. induction ls as [|l ls IH]; intros [|i]; simpl; try done.
  - by rewrite key_update.
  - destruct (key l); [f_equal|]; apply IH.
Qed.

Lemma NoDup_key_inj (ls : list L) i j l l' kk :
  NoDup (omap key ls) → ls !! i = Some l → ls !! j = Some l' →
  key l = Some kk → key l' = Some kk → i = j.
Proof.
  revert i j. induction ls as [|x ls IH]; intros i j Hnd Hi Hj Hl Hl'.
  { by rewrite lookup_nil in Hi. }
  assert (∀ n y, ls !! n = Some y → key y = Some kk → kk ∈ omap key ls) as Hin.
  { intros n y Hn Hy. apply list_elem_of_omap. exists y. split; [|done].
    by apply list_elem_of_lookup_2 in Hn. }
  simpl in Hnd. destruct i as [|i], j as [|j]; simpl in Hi, Hj.
  - done.
  - injection Hi as ->. rewrite Hl in Hnd. apply NoDup_cons in Hnd as [Hnin _].
    destruct Hnin. by eapply Hin.
  - injection Hj as ->. rewrite Hl' in Hnd. apply NoDup_cons in Hnd as [Hnin _].
    destruct Hnin. by eapply Hin.
  - f_equal. eapply IH; eauto. destruct (key x); [by apply NoDup_cons in Hnd as [_ ?]|done].
Qed.

Lemma merge1_merged T (ls : list L) e :
  merged T ls → sa e = true → merged (T ++ option_list (key e)) (merge1 ls e).
Proof using Type* key_update.
  intros (Hnd & Hsa & HT) He. unfold merge1. destruct (key e) as [kk|] eqn:Hke; simpl;
    [|by rewrite app_nil_r].
  destruct (find_index _ ls) as [i|] eqn:Hf.
  - apply find_index_Some in Hf as (a & Hi & Ha & _). apply bool_decide_eq_true in Ha.
    split; [by rewrite omap_key_mark|]. split.
    + intros l [j Hj]%list_elem_of_lookup. rewrite lookup_mark in Hj.
      destruct (decide (i = j)) as [<-|Hne].
      * rewrite Hi in Hj. injection Hj as <-. rewrite key_update. unfold sa.
        rewrite common_update. simpl. split; [|done]. intros _. exists kk. split; [done|].
        apply elem_of_app. right. by left.
      * rewrite Hsa by (by apply list_elem_of_lookup_2 in Hj). split.
        -- intros (k' & Hk & HkT). exists k'. split; [done|]. apply elem_of_app. by left.
        -- intros (k' & Hk & HkT). exists k'. split; [done|].
           apply elem_of_app in HkT as [?|HkT]; [done|].
           apply list_elem_of_singleton in HkT as ->.
           destruct Hne. by eapply NoDup_key_inj.
    + intros k'. rewrite omap_key_mark. intros [Hk|Hk]%elem_of_app; [by apply HT|].
      apply list_elem_of_singleton in Hk as ->. apply list_elem_of_omap. exists a.
      split; [by apply list_elem_of_lookup_2 in Hi|done].
  - rewrite find_index_None in Hf.
    assert (kk ∉ omap key ls) as Hnew.
    { intros (a & Ha & Hka)%list_elem_of_omap. specialize (Hf a Ha).
      apply bool_decide_eq_false in Hf. congruence. }
    split; [|split].
    + rewrite omap_app. simpl. rewrite Hke. apply NoDup_app. split; [done|].
      split; [|apply NoDup_singleton]. intros x Hx ->%list_elem_of_singleton. done.
    + intros l [Hl| ->%list_elem_of_singleton]%elem_of_app.
      * rewrite Hsa by done. split.
        -- intros (k' & Hk & HkT). exists k'. split; [done|]. apply elem_of_app. by left.
        -- intros (k' & Hk & HkT). exists k'. split; [done|].
           apply elem_of_app in HkT as [?|HkT]; [done|].
           apply list_elem_of_singleton in HkT as ->. destruct Hnew.
           apply list_elem_of_omap. by exists l.
      * split; [|done]. intros _. exists kk. split; [done|]. apply elem_of_app. right. by left.
    + intros k' Hk'. rewrite omap_app. simpl. rewrite Hke. apply elem_of_app.
      apply elem_of_app in Hk' as [Hk|Hk]; [left; by apply HT|right; done].
Qed.

Lemma merge_merged T (ls : list L) exps :
  merged T ls → Forall (λ e, sa e = true) exps →
  merged (T ++ omap key exps) (merge ls exps).
Proof using Type* key_update.
  intros Hm Hexps. revert T ls Hm. induction Hexps as [|e exps He _ IH]; intros T ls Hm.
  { simpl. by rewrite app_nil_r. }
  assert (omap key (e :: exps) = option_list (key e) ++ omap key exps) as ->
    by (simpl; by destruct (key e)).
  rewrite app_assoc. apply (IH _ (merge1 ls e)). by apply merge1_merged.
Qed.

Lemma merged_cleared (ls : list L) : NoDup (omap key ls) → merged [] (cleared ls).
Proof using Type* key_update.
  intros Hnd. assert (omap key (cleared ls) = omap key ls) as Hk.
  { unfold cleared. induction ls as [|l ls IH]; [done|]. simpl. rewrite key_update.
    simpl in Hnd. destruct (key l); [|by apply IH].
    apply NoDup_cons in Hnd as [_ Hnd]. f_equal. by apply IH. }
  split; [by rewrite Hk|]. split; [|intros kk Hkk; by apply elem_of_nil in Hkk].
  intros l (l0 & -> & _)%list_elem_of_fmap. unfold sa. rewrite common_update. simpl.
  split; [done|]. intros (kk & _ & Hkk). by apply elem_of_nil in Hkk.
Qed.

(** Merging keeps the recorded links in place, changing only their flag, and
    appends expected links. *)
Lemma merge_extends (ls exps : list L) :
  ∃ added, cleared (merge ls exps) = cleared ls ++ cleared added ∧ sublist added exps.
Proof.
  revert ls. induction exps as [|e exps IH]; intros ls; simpl.
  { exists []. split; [by rewrite app_nil_r|constructor]. }
  destruct (IH (merge1 ls e)) as (added & Heq & Hsub). rewrite Heq. unfold merge1.
  destruct (key e); [|exists added; split; [done|by constructor]].
  destruct (find_index _ ls).
  - exists added. split; [by rewrite cleared_mark|by constructor].
  - exists (e :: added). rewrite cleared_app, <- app_assoc. split; [done|by constructor].
Qed.

End merge.

(** ** updateLinks and reconcileProgram *)

Section update.
Context {W P S A L K : Type} `{!AgentEnv W, !BpfmanLaws W}
  `{!LinkState L, !LinkStateLaws L, !ProgramState S, !ProgramStateLaws S, !EqDecision K}
  (k : Kind W P S A L) `{!KindLaws k}
  (Inv : W → Prop) (key : L → option K) (expects : ProgRec P S → A → option (list L) → Prop)
  `{!UpdateSpec k Inv key expects}.
Implicit Types (r : ProgRec P S) (w : W) (ls : list L).

(** The attach points of the program expand to the links of [groups]; or one of them
    cannot be expanded. *)
Definition expanded r (groups : list (list L)) : Prop :=
  Forall2 (λ a g, expects r a (Some g)) (k_appLinks k (currentProgram r)) groups.
Definition unexpandable r : Prop :=
  Exists (λ a, expects r a None) (k_appLinks k (currentProgram r)).

Lemma wp_merge_links exps : ∀ ls Q w,
  Inv w → (∀ w', Inv w' → Q (merge key ls exps) w') → wp (merge_links k exps ls) Q w.
Proof.
  induction exps as [|e exps IH]; intros ls Q w Hw HQ; simpl; [by apply wpg_ret, HQ|].
  wp_step. eapply wpg_mono; [by apply us_find|]. intros res w' [Hw' Hres].
  assert (∀ w'', Inv w'' → Q (merge key (merge1 key ls e) exps) w'') as HQ' by exact HQ.
  unfold merge1 in HQ'. destruct (key e) as [kk|].
  - subst res. destruct (find_index _ ls); by apply IH.
  - destruct Hres as [err ->]. by apply IH.
Qed.

Lemma wp_updateLinks_loop r apps : ∀ ls Q w,
  Inv w →
  (∀ err groups w', Inv w' → Forall new_link (concat groups) →
     match err with
     | None => Forall2 (λ a g, expects r a (Some g)) apps groups
     | Some _ => Exists (λ a, expects r a None) apps
     end →
     Q (err, merge key ls (concat groups)) w') →
  wp (updateLinks_loop k r apps ls) Q w.
Proof.
  induction apps as [|a apps IH]; intros ls Q w Hw HQ; simpl.
  { apply wpg_ret. by apply (HQ None []). }
  wp_step. eapply wpg_mono; [by apply us_expect|]. intros res w' [Hw' Hres].
  destruct res as [exps|e]; [|by apply wpg_ret, (HQ _ []); [..|left]].
  destruct Hres as [Hexp Hnew]. wp_step. apply wp_merge_links; [done|].
  intros w'' Hw''. apply IH; [done|]. intros err groups w3 Hw3 Hg Hall.
  assert (merge key (merge key ls exps) (concat groups) = merge key ls (concat (exps :: groups)))
    as -> by (unfold merge; simpl; by rewrite foldl_app).
  apply HQ; [done|simpl; by apply Forall_app|]. destruct err; [by right|by constructor].
Qed.

Definition with_links r (sl : slice L) : ProgRec P S :=
  with_state r (k_setStateLinks k sl (currentProgramState r)).

Lemma wp_updateLinks r sl Q w :
  Inv w → linksOf k r = Some sl →
  (∀ err groups w', Inv w' → Forall new_link (concat groups) →
     match err with None => expanded r groups | Some _ => unexpandable r end →
     Q (err, with_links r (to_slice sl (merge key (cleared (elems sl)) (concat groups)))) w') →
  wp (updateLinks k r false) Q w.
Proof.
  intros Hw Hsl HQ. unfold updateLinks. unfold linksOf in Hsl. rewrite Hsl. wp_step.
  eapply wpg_deref; [done|]. cbn zeta. wp_step. apply wp_updateLinks_loop; [done|].
  intros err groups w' Hw' Hg Hall. apply wpg_ret. by apply HQ.
Qed.

Lemma programId_with_links r sl : programId (with_links r sl) = programId r.
Proof. unfold programId, with_links. simpl. by rewrite law_prog_set. Qed.

Lemma links_with_links r sl sl' :
  k_owns (currentProgramState r) = true → linksOf k r = Some sl' →
  linksOf k (with_links r sl) = Some sl.
Proof. intros Ho Hsl. unfold linksOf. simpl. apply law_get_set; [done|by eexists]. Qed.

Lemma new_link_lid exps : Forall (new_link (L := L)) exps → Forall (λ e, lid e = None) exps.
Proof. intros H. eapply Forall_impl; [exact H|]. by intros l (_ & ? & _). Qed.

Lemma new_link_sa exps : Forall (new_link (L := L)) exps → Forall (λ e, sa e = true) exps.
Proof. intros H. eapply Forall_impl; [exact H|]. by intros l (? & _). Qed.

Lemma merged_expected sl groups :
  NoDup (omap key (elems sl)) → Forall new_link (concat groups) →
  merged key (omap key (concat groups)) (merge key (cleared (elems sl)) (concat groups)).
Proof.
  intros Hnd Hnew. apply (merge_merged key us_key []).
  - by apply merged_cleared; [apply us_key|].
  - by apply new_link_sa.
Qed.

Lemma updateLinks_merge r sl w :
  Inv w → k_owns (currentProgramState r) = true → linksOf k r = Some sl →
  NoDup (omap key (elems sl)) →
  ∃ err r' w' sl' groups added,
    updateLinks k r false w = (Ret (err, r'), w') ∧ Inv w' ∧
    linksOf k r' = Some sl' ∧ programId r' = programId r ∧
    k_owns (currentProgramState r') = true ∧
    cleared (elems sl') = cleared (elems sl) ++ cleared added ∧
    sublist added (concat groups) ∧ Forall new_link (concat groups) ∧
    NoDup (omap key (elems sl')) ∧
    (∀ l, l ∈ elems sl' →
       sa l = true ↔ ∃ kk, key l = Some kk ∧ kk ∈ omap key (concat groups)) ∧
    (∀ kk, kk ∈ omap key (concat groups) → kk ∈ omap key (elems sl')) ∧
    match err with None => expanded r groups | Some _ => unexpandable r end.
Proof.
  intros Hw Ho Hsl Hnd.
  destruct (wp_run (updateLinks k r false) (λ '(err, r') w', ∃ groups, Inv w' ∧
    r' = with_links r (to_slice sl (merge key (cleared (elems sl)) (concat groups))) ∧
    Forall new_link (concat groups) ∧
    match err with None => expanded r groups | Some _ => unexpandable r end) w)
    as ([err r'] & w' & Hrun & groups & Hw' & -> & Hnew & Hall).
  { eapply wp_updateLinks; [done|done|]. intros err groups w' ? ? ?. by exists groups. }
  destruct (merged_expected sl groups Hnd Hnew) as (Hnd' & Hsa & HT).
  destruct (merge_extends key us_key (cleared (elems sl)) (concat groups)) as (added & Hadd & Hsub).
  exists err, (with_links r (to_slice sl (merge key (cleared (elems sl)) (concat groups)))), w',
    (to_slice sl (merge key (cleared (elems sl)) (concat groups))), groups, added.
  rewrite elems_to_slice. split; [done|]. split; [done|].
  split; [by eapply links_with_links|]. split; [apply programId_with_links|].
  split; [simpl; by rewrite law_owns_set|]. split; [|done]. rewrite Hadd. f_equal.
  unfold cleared. rewrite <- list_fmap_compose. apply list_fmap_ext. intros i l _.
  simpl. by rewrite update_update.
Qed.

(** C8: updateLinks returns (it never panics on a state that has the
    program's links); if every attach point could be expanded, the links it
    leaves marked are exactly those with the key of an expected link, one for
    each key, the recorded links keep their place, id and status, and what it
    adds are expected links; an error is returned only if one could not. *)
Theorem updateLinks_merges r sl w :
  Inv w → k_owns (currentProgramState r) = true → linksOf k r = Some sl →
  NoDup (omap key (elems sl)) →
  ∃ err r' w' sl' groups added,
    updateLinks k r false w = (Ret (err, r'), w') ∧ Inv w' ∧
    linksOf k r' = Some sl' ∧ programId r' = programId r ∧
    k_owns (currentProgramState r') = true ∧
    cleared (elems sl') = cleared (elems sl) ++ cleared added ∧
    sublist added (concat groups) ∧ Forall new_link (concat groups) ∧
    NoDup (omap key (elems sl')) ∧
    (∀ l, l ∈ elems sl' →
       sa l = true ↔ ∃ kk, key l = Some kk ∧ kk ∈ omap key (concat groups)) ∧
    (∀ kk, kk ∈ omap key (concat groups) → kk ∈ omap key (elems sl')) ∧
    match err with None => expanded r groups | Some _ => unexpandable r end.
Proof. apply updateLinks_merge. Qed.

Lemma link_ids_extends ls ls' added exps :
  cleared ls' = cleared ls ++ cleared added → sublist added exps →
  Forall new_link exps → link_ids ls' = link_ids ls.
Proof.
  intros Heq Hsub Hnew. rewrite <- (link_ids_cleared ls'), Heq.
  unfold link_ids. rewrite omap_app. fold (link_ids (cleared ls)) (link_ids (cleared added)).
  rewrite !link_ids_cleared, (link_ids_None added); [by rewrite app_nil_r|].
  apply new_link_lid.
  apply Forall_forall. intros x Hx. rewrite Forall_forall in Hnew.
  by apply Hnew; eapply elem_of_sublist.
Qed.

Lemma key_point l : key (point l) = key l.
Proof. unfold point, set_lid, set_lst. by rewrite !us_key. Qed.

Lemma key_points ls ls' : point <$> ls = point <$> ls' → key <$> ls = key <$> ls'.
Proof.
  intros Hp. assert (∀ xs : list L, key <$> xs = key <$> (point <$> xs)) as Hk.
  { intros xs. rewrite <- list_fmap_compose. apply list_fmap_ext.
    intros i x _. simpl. by rewrite key_point. }
  by rewrite (Hk ls), Hp, <- Hk.
Qed.

Lemma NoDup_keys_filter (f : L → bool) ls :
  NoDup (omap key ls) → (∀ l, l ∈ ls → f l = true → is_Some (key l)) →
  NoDup (key <$> filter (λ l, f l = true) ls).
Proof.
  induction ls as [|l ls IH]; intros Hnd Hk; [constructor|].
  assert (NoDup (omap key ls)) as Hnd'.
  { simpl in Hnd. destruct (key l); [by apply NoDup_cons in Hnd as [_ ?]|done]. }
  assert (NoDup (key <$> filter (λ l, f l = true) ls)) as Hrest
    by (apply IH; [done|]; intros x Hx; apply Hk; by right).
  rewrite filter_cons. destruct (decide (f l = true)) as [Hf|_]; [|done].
  rewrite fmap_cons. apply NoDup_cons. split; [|done].
  intros (x & Hx & [_ Hin]%list_elem_of_filter)%list_elem_of_fmap.
  destruct (Hk l ltac:(left) Hf) as [kk Hkk]. simpl in Hnd. rewrite Hkk in Hnd.
  apply NoDup_cons in Hnd as [Hnin _]. apply Hnin, list_elem_of_omap. exists x.
  split; [done|congruence].
Qed.

(** The reconcile of one program against a daemon that serves what it can
    reaches the specification: if an attach point cannot be expanded, nothing is attached
    or detached and the status of the program says so; if all can, the program ends with
    one attached link for each expected key and no other. *)
Definition reaches_spec : Prop := ∀ stale pid r sl w,
  daemon_ok False stale → Inv w → (∀ w1, Inv w1 → loaded w1 = loaded w) →
  programId r = Some pid → is_Some (loaded w !! pid) →
  k_owns (currentProgramState r) = true → linksOf k r = Some sl →
  recorded stale (loaded w) pid (elems sl) → NoDup (omap key (elems sl)) →
  ∃ err r' w', reconcileProgram k r false w = (Ret (err, r'), w') ∧
    match err with
    | Some _ => unexpandable r ∧ loaded w' = loaded w ∧ programStatus r' = UpdateAttachInfoError
    | None => ∃ groups sl', expanded r groups ∧
        linksOf k r' = Some sl' ∧ NoDup (key <$> elems sl') ∧
        (∀ kk, Some kk ∈ key <$> elems sl' ↔ kk ∈ omap key (concat groups)) ∧
        Forall (λ l, is_Some (key l) ∧ sa l = true ∧ lst l = ApAttachAttached ∧
                     attached (loaded w') pid l = true) (elems sl') ∧
        programStatus r' = ProgAttachSuccess
    end.

Lemma kind_reaches_spec : reaches_spec.
Proof.
  intros stale pid r sl w Hd Hw HInv Hp Hl Ho Hsl Hrec Hnd.
  destruct (updateLinks_merge r sl w Hw Ho Hsl Hnd) as (err & r1 & w1 & sl1 & groups & added &
    Hrun & Hw1 & Hsl1 & Hp1 & Ho1 & Hcl & Hsub & Hnew & Hnd1 & Hsa & HT & Hexp).
  assert (loaded w1 = loaded w) as Hlw by auto.
  unfold reconcileProgram. rewrite (run_bind _ _ _ _ _ Hrun). destruct err as [e|].
  { eexists _, _, w1. split; [reflexivity|]. split; [done|]. split; [done|].
    unfold programStatus, update_prog. simpl. by rewrite prog_common_set. }
  destruct (processLinks_reaches k stale pid r1 sl1 w1)
    as (r' & w' & sl' & Hrun' & Hsl' & Hpt & Hall & Hst & _);
    [done|by rewrite Hp1|by rewrite Hlw|done|done| |].
  { unfold recorded. erewrite link_ids_extends by done. by rewrite Hlw. }
  exists None, r', w'. split; [done|]. exists groups, sl'.
  apply key_points in Hpt.
  assert (∀ l, l ∈ elems sl1 → sa l = true → is_Some (key l)) as Hsome.
  { intros l Hin (kk & Hk & _)%Hsa; [by eexists|done]. }
  split; [exact Hexp|]. split; [done|].
  split; [rewrite Hpt; by apply NoDup_keys_filter|].
  split; [|split; [|done]].
  - intros kk. rewrite Hpt, list_elem_of_fmap. split.
    + intros (l & Hk & [Hs Hin]%list_elem_of_filter).
      apply Hsa in Hs as (k' & Hk' & HkT); [|done]. congruence.
    + intros HkT. pose proof (HT kk HkT) as (l & Hin & Hk)%list_elem_of_omap.
      exists l. split; [done|]. apply list_elem_of_filter. split; [|done].
      apply Hsa; [done|]. by exists kk.
  - rewrite Forall_forall in Hall. apply Forall_forall. intros l Hin.
    split; [|by apply Hall].
    assert (key l ∈ key <$> elems sl') as Hk by by apply list_elem_of_fmap_2.
    rewrite Hpt in Hk. apply list_elem_of_fmap in Hk as (x & -> & [Hs Hx]%list_elem_of_filter).
    by apply Hsome.
Qed.

(** The reconcile of one program against a daemon that serves what it
    can reaches the specification: unless an attach point cannot be expanded
    (then nothing is attached or detached and the program status says
    UpdateAttachInfoError), the program ends with one link for each expected
    key and no other, every one attached, and status Success. *)
Theorem reconcileProgram_converges stale pid r sl w :
  daemon_ok False stale → Inv w → (∀ w1, Inv w1 → loaded w1 = loaded w) →
  programId r = Some pid → is_Some (loaded w !! pid) →
  k_owns (currentProgramState r) = true → linksOf k r = Some sl →
  recorded stale (loaded w) pid (elems sl) → NoDup (omap key (elems sl)) →
  ∃ err r' w', reconcileProgram k r false w = (Ret (err, r'), w') ∧
    match err with
    | Some _ => unexpandable r ∧ loaded w' = loaded w ∧ programStatus r' = UpdateAttachInfoError
    | None => ∃ groups sl', expanded r groups ∧
        linksOf k r' = Some sl' ∧ NoDup (key <$> elems sl') ∧
        (∀ kk, Some kk ∈ key <$> elems sl' ↔ kk ∈ omap key (concat groups)) ∧
        Forall (λ l, is_Some (key l) ∧ sa l = true ∧ lst l = ApAttachAttached ∧
                     attached (loaded w') pid l = true) (elems sl') ∧
        programStatus r' = ProgAttachSuccess
    end.
Proof. apply kind_reaches_spec. Qed.
End update.
