(* ===== verification/Kinds.v ===== *)
(** What the program reconcilers share: the embedded state of each link and
    program state type, the setters of the program state, and the parts that
    the network kinds (XDP, TC, TCX) have with the same text: the lookup of a
    link by its fields and network namespace, and the expansion of an attach
    point into interfaces and namespaces. *)

From S2P Require Import Prelude ApiTypes Constants Bpfman Selectors Links.
From stdpp Require Import options.

(** ** The embedded common state of each link type *)

#[export] Instance ClXdpLink : LinkState ClXdpAttachInfoState := {|
  link_common := xdp_common;
  set_link_common c l := mkClXdpAttachInfoState c (xdp_InterfaceName l) (xdp_NetnsPath l)
                           (xdp_Priority l) (xdp_ProceedOn l) |}.
#[export] Instance ClTcLink : LinkState ClTcAttachInfoState := {|
  link_common := tc_common;
  set_link_common c l := mkClTcAttachInfoState c (tc_InterfaceName l) (tc_NetnsPath l)
                           (tc_Direction l) (tc_Priority l) (tc_ProceedOn l) |}.
#[export] Instance ClTcxLink : LinkState ClTcxAttachInfoState := {|
  link_common := tcx_common;
  set_link_common c l := mkClTcxAttachInfoState c (tcx_InterfaceName l) (tcx_NetnsPath l)
                           (tcx_Direction l) (tcx_Priority l) |}.
#[export] Instance ClFentryLink : LinkState ClFentryAttachInfoState := {|
  link_common := fentry_common;
  set_link_common c _ := mkClFentryAttachInfoState c |}.
#[export] Instance ClFexitLink : LinkState ClFexitAttachInfoState := {|
  link_common := fexit_common;
  set_link_common c _ := mkClFexitAttachInfoState c |}.
#[export] Instance ClKprobeLink : LinkState ClKprobeAttachInfoState := {|
  link_common := kprobe_common;
  set_link_common c l := mkClKprobeAttachInfoState c (kprobe_Function l) (kprobe_Offset l) |}.
#[export] Instance ClKretprobeLink : LinkState ClKretprobeAttachInfoState := {|
  link_common := kretprobe_common;
  set_link_common c l := mkClKretprobeAttachInfoState c (kretprobe_Function l) |}.
#[export] Instance ClUprobeLink : LinkState ClUprobeAttachInfoState := {|
  link_common := cluprobe_common;
  set_link_common c l := mkClUprobeAttachInfoState c (cluprobes_Function l)
    (cluprobes_Offset l) (cluprobes_Target l) (cluprobes_Pid l) (cluprobes_ContainerPid l) |}.
#[export] Instance UprobeLink : LinkState UprobeAttachInfoState := {|
  link_common := nsuprobe_common;
  set_link_common c l := mkUprobeAttachInfoState c (nsuprobes_Function l)
    (nsuprobes_Offset l) (nsuprobes_Target l) (nsuprobes_Pid l) (nsuprobes_ContainerPid l) |}.
#[export] Instance ClTracepointLink : LinkState ClTracepointAttachInfoState := {|
  link_common := tracepoint_common;
  set_link_common c l := mkClTracepointAttachInfoState c (tracepoint_Name l) |}.

Ltac link_laws := split; [intros ? []; reflexivity|intros ? ? []; reflexivity|intros []; reflexivity].

#[export] Instance ClXdpLink_laws : LinkStateLaws ClXdpAttachInfoState.
Proof. link_laws. Qed.
#[export] Instance ClTcLink_laws : LinkStateLaws ClTcAttachInfoState.
Proof. link_laws. Qed.
#[export] Instance ClTcxLink_laws : LinkStateLaws ClTcxAttachInfoState.
Proof. link_laws. Qed.
#[export] Instance ClFentryLink_laws : LinkStateLaws ClFentryAttachInfoState.
Proof. link_laws. Qed.
#[export] Instance ClFexitLink_laws : LinkStateLaws ClFexitAttachInfoState.
Proof. link_laws. Qed.
#[export] Instance ClKprobeLink_laws : LinkStateLaws ClKprobeAttachInfoState.
Proof. link_laws. Qed.
#[export] Instance ClKretprobeLink_laws : LinkStateLaws ClKretprobeAttachInfoState.
Proof. link_laws. Qed.
#[export] Instance ClUprobeLink_laws : LinkStateLaws ClUprobeAttachInfoState.
Proof. link_laws. Qed.
#[export] Instance UprobeLink_laws : LinkStateLaws UprobeAttachInfoState.
Proof. link_laws. Qed.
#[export] Instance ClTracepointLink_laws : LinkStateLaws ClTracepointAttachInfoState.
Proof. link_laws. Qed.

(** ** Program states *)

Definition set_clps_common (c : BpfProgramStateCommon) (s : ClBpfApplicationProgramState)
    : ClBpfApplicationProgramState :=
  mkClBpfApplicationProgramState c (clps_Type s) (clps_XDP s) (clps_TC s) (clps_TCX s)
    (clps_FEntry s) (clps_FExit s) (clps_KProbe s) (clps_KRetProbe s) (clps_UProbe s)
    (clps_URetProbe s) (clps_TracePoint s).

Definition set_nsps_common (c : BpfProgramStateCommon) (s : BpfApplicationProgramState)
    : BpfApplicationProgramState :=
  mkBpfApplicationProgramState c (nsps_Type s) (nsps_XDP s) (nsps_TC s) (nsps_TCX s)
    (nsps_UProbe s) (nsps_URetProbe s).

#[export] Instance ClProgramState : ProgramState ClBpfApplicationProgramState := {|
  prog_common := clps_common; set_prog_common := set_clps_common |}.
#[export] Instance NsProgramState : ProgramState BpfApplicationProgramState := {|
  prog_common := nsps_common; set_prog_common := set_nsps_common |}.

#[export] Instance ClProgramState_laws : ProgramStateLaws ClBpfApplicationProgramState.
Proof. link_laws. Qed.
#[export] Instance NsProgramState_laws : ProgramStateLaws BpfApplicationProgramState.
Proof. link_laws. Qed.

(** Assignment to the [Links] field behind a pointer field of the state; the
    callers have dereferenced the pointer before. *)
Definition set_links {L} (links : slice L) (p : option (WithLinks L)) : option (WithLinks L) :=
  (λ _, mkWithLinks links) <$> p.
Definition set_fn_links {L} (links : slice L) (p : option (WithFunction L))
    : option (WithFunction L) :=
  (λ i, mkWithFunction (Function i) links) <$> p.

Section cl_setters.
Implicit Types s : ClBpfApplicationProgramState.
Definition set_clps_XDP links s :=
  mkClBpfApplicationProgramState (clps_common s) (clps_Type s) (set_links links (clps_XDP s))
    (clps_TC s) (clps_TCX s) (clps_FEntry s) (clps_FExit s) (clps_KProbe s)
    (clps_KRetProbe s) (clps_UProbe s) (clps_URetProbe s) (clps_TracePoint s).
Definition set_clps_TC links s :=
  mkClBpfApplicationProgramState (clps_common s) (clps_Type s) (clps_XDP s)
    (set_links links (clps_TC s)) (clps_TCX s) (clps_FEntry s) (clps_FExit s) (clps_KProbe s)
    (clps_KRetProbe s) (clps_UProbe s) (clps_URetProbe s) (clps_TracePoint s).
Definition set_clps_TCX links s :=
  mkClBpfApplicationProgramState (clps_common s) (clps_Type s) (clps_XDP s) (clps_TC s)
    (set_links links (clps_TCX s)) (clps_FEntry s) (clps_FExit s) (clps_KProbe s)
    (clps_KRetProbe s) (clps_UProbe s) (clps_URetProbe s) (clps_TracePoint s).
Definition set_clps_FEntry links s :=
  mkClBpfApplicationProgramState (clps_common s) (clps_Type s) (clps_XDP s) (clps_TC s)
    (clps_TCX s) (set_fn_links links (clps_FEntry s)) (clps_FExit s) (clps_KProbe s)
    (clps_KRetProbe s) (clps_UProbe s) (clps_URetProbe s) (clps_TracePoint s).
Definition set_clps_FExit links s :=
  mkClBpfApplicationProgramState (clps_common s) (clps_Type s) (clps_XDP s) (clps_TC s)
    (clps_TCX s) (clps_FEntry s) (set_fn_links links (clps_FExit s)) (clps_KProbe s)
    (clps_KRetProbe s) (clps_UProbe s) (clps_URetProbe s) (clps_TracePoint s).
Definition set_clps_KProbe links s :=
  mkClBpfApplicationProgramState (clps_common s) (clps_Type s) (clps_XDP s) (clps_TC s)
    (clps_TCX s) (clps_FEntry s) (clps_FExit s) (set_links links (clps_KProbe s))
    (clps_KRetProbe s) (clps_UProbe s) (clps_URetProbe s) (clps_TracePoint s).
Definition set_clps_KRetProbe links s :=
  mkClBpfApplicationProgramState (clps_common s) (clps_Type s) (clps_XDP s) (clps_TC s)
    (clps_TCX s) (clps_FEntry s) (clps_FExit s) (clps_KProbe s)
    (set_links links (clps_KRetProbe s)) (clps_UProbe s) (clps_URetProbe s) (clps_TracePoint s).
Definition set_clps_UProbe links s :=
  mkClBpfApplicationProgramState (clps_common s) (clps_Type s) (clps_XDP s) (clps_TC s)
    (clps_TCX s) (clps_FEntry s) (clps_FExit s) (clps_KProbe s) (clps_KRetProbe s)
    (set_links links (clps_UProbe s)) (clps_URetProbe s) (clps_TracePoint s).
Definition set_clps_URetProbe links s :=
  mkClBpfApplicationProgramState (clps_common s) (clps_Type s) (clps_XDP s) (clps_TC s)
    (clps_TCX s) (clps_FEntry s) (clps_FExit s) (clps_KProbe s) (clps_KRetProbe s)
    (clps_UProbe s) (set_links links (clps_URetProbe s)) (clps_TracePoint s).
Definition set_clps_TracePoint links s :=
  mkClBpfApplicationProgramState (clps_common s) (clps_Type s) (clps_XDP s) (clps_TC s)
    (clps_TCX s) (clps_FEntry s) (clps_FExit s) (clps_KProbe s) (clps_KRetProbe s)
    (clps_UProbe s) (clps_URetProbe s) (set_links links (clps_TracePoint s)).
End cl_setters.

Section ns_setters.
Implicit Types s : BpfApplicationProgramState.
Definition set_nsps_XDP links s :=
  mkBpfApplicationProgramState (nsps_common s) (nsps_Type s) (set_links links (nsps_XDP s))
    (nsps_TC s) (nsps_TCX s) (nsps_UProbe s) (nsps_URetProbe s).
Definition set_nsps_TC links s :=
  mkBpfApplicationProgramState (nsps_common s) (nsps_Type s) (nsps_XDP s)
    (set_links links (nsps_TC s)) (nsps_TCX s) (nsps_UProbe s) (nsps_URetProbe s).
Definition set_nsps_TCX links s :=
  mkBpfApplicationProgramState (nsps_common s) (nsps_Type s) (nsps_XDP s) (nsps_TC s)
    (set_links links (nsps_TCX s)) (nsps_UProbe s) (nsps_URetProbe s).
Definition set_nsps_UProbe links s :=
  mkBpfApplicationProgramState (nsps_common s) (nsps_Type s) (nsps_XDP s) (nsps_TC s)
    (nsps_TCX s) (set_links links (nsps_UProbe s)) (nsps_URetProbe s).
Definition set_nsps_URetProbe links s :=
  mkBpfApplicationProgramState (nsps_common s) (nsps_Type s) (nsps_XDP s) (nsps_TC s)
    (nsps_TCX s) (nsps_UProbe s) (set_links links (nsps_URetProbe s)).
End ns_setters.

(** The links of a spec field: none when the pointer or its slice is nil. *)
Definition spec_links {A} (p : option (WithLinks A)) : list A :=
  match p with Some i => elems (Links i) | None => [] end.
Definition spec_fn_links {A} (p : option (WithFunction A)) : list A :=
  match p with Some i => elems (FnLinks i) | None => [] end.

(** The common state of a link that getExpectedLinks creates. *)
Definition newCommon (uuid : string) : AttachInfoStateCommon :=
  mkAttachInfoStateCommon true uuid None ApAttachNotAttached.

Definition uuid_metadata (uuid : string) : gmap string string := {[UuidMetadataKey := uuid]}.

(** ** The network kinds *)

(** Return codes that may be passed on, as bpfman's integers; other values are
    skipped. *)
Definition xdpProceedOnToInt1 (p : XdpProceedOnValue) : option Z :=
  if decide (p = "Aborted") then Some 0
  else if decide (p = "Drop") then Some 1
  else if decide (p = "Pass") then Some 2
  else if decide (p = "TX") then Some 3
  else if decide (p = "ReDirect") then Some 4
  else if decide (p = "DispatcherReturn") then Some 31
  else None.

Definition tcProceedOnToInt1 (p : TcProceedOnValue) : option Z :=
  if decide (p = "Unspec") then Some (-1)
  else if decide (p = "OK") then Some 0
  else if decide (p = "ReClassify") then Some 1
  else if decide (p = "Shot") then Some 2
  else if decide (p = "Pipe") then Some 3
  else if decide (p = "Stolen") then Some 4
  else if decide (p = "Queued") then Some 5
  else if decide (p = "Repeat") then Some 6
  else if decide (p = "ReDirect") then Some 7
  else if decide (p = "Trap") then Some 8
  else if decide (p = "DispatcherReturn") then Some 30
  else None.

Definition append_known {A} (f : A → option Z) (out : slice Z) (p : A) : slice Z :=
  match f p with Some i => go_append out i | None => out end.

Definition xdpProceedOnToInt (proceedOn : slice XdpProceedOnValue) : slice Z :=
  foldl (append_known xdpProceedOnToInt1) None (elems proceedOn).

Definition tcProceedOnToInt (proceedOn : slice TcProceedOnValue) : slice Z :=
  foldl (append_known tcProceedOnToInt1) None (elems proceedOn).

(** [Netns] of a cluster reconciler's attach request: nil for the host's. *)
Definition netnsPtr (path : string) : option string :=
  if decide (path = "") then None else Some path.

Definition print_netns (path : string) : string := if decide (path = "") then "host" else path.

Section network.
Context {W L : Type} `{!AgentEnv W}.

(** The loop of findLink: the namespace id of a recorded link is asked for
    only when its other fields match. *)
Fixpoint net_search (path : L → string) (same_fields : L → L → bool) (link : L)
    (newNetnsId : Z) (i : nat) (links : list L) : GoM W (option nat) :=
  match links with
  | [] => mret None
  | a :: links' =>
      if same_fields a link then
        netnsId ← lift (GetNetNsId (path a));
        if decide (netnsId = Some newNetnsId) then mret (Some i)
        else net_search path same_fields link newNetnsId (1 + i) links'
      else net_search path same_fields link newNetnsId (1 + i) links'
  end.

Definition net_findLink (path : L → string) (same_fields : L → L → bool) (link : L)
    (links : list L) : GoM W (result (option nat)) :=
  newNetnsId ← lift (GetNetNsId (path link));
  match newNetnsId with
  | None => mret (Err ("failed to get netnsId for path " +:+ path link))
  | Some newNetnsId =>
      index ← net_search path same_fields link newNetnsId 0 links;
      mret (Ok index)
  end.

(** The nested loop over containers and interfaces: the points to attach to. *)
Definition container_points (containers : list ContainerInfo) (interfaces : list string)
    : list (string * string) :=
  container ← GetOneContainerPerPod containers;
  (λ iface, (iface, netnsPathFromPID (pid container))) <$> interfaces.

Definition create_links (createLinkEntry : string → string → GoM W L)
    (points : list (string * string)) : GoM W (list L) :=
  mapM (λ '(iface, path), createLinkEntry iface path) points.

(** getExpectedLinks of the cluster XDP, TC and TCX reconcilers. *)
Definition cl_net_getExpectedLinks (createLinkEntry : string → string → GoM W L)
    (interfaceSelector : InterfaceSelector)
    (networkNamespaces : option ClNetworkNamespaceSelector) (ourNode : Node)
    : GoM W (result (list L)) :=
  if isInterfacesDiscoveryEnabled interfaceSelector then
    config ← deref (InterfacesDiscoveryConfig interfaceSelector);
    entries ← lift Interfaces_Range;
    nodeLinks ← create_links createLinkEntry
      ((λ d, (interfaceName d, netNSPath d)) <$> getDiscoveredInterfaces config entries);
    mret (Ok nodeLinks)
  else
    interfaces ← getInterfaces interfaceSelector ourNode;
    match interfaces with
    | Err err => mret (Err ("failed to get interfaces for XdpProgram: " +:+ err))
    | Ok interfaces =>
        match networkNamespaces with
        | Some nn =>
            containerInfo ← lift (GetContainers (cnn_Namespace nn) (cnn_Pods nn) None);
            match containerInfo with
            | Err err => mret (Err ("failed to get container pids: " +:+ err))
            | Ok None => mret (Ok [])
            | Ok (Some containerInfo) =>
                nodeLinks ← create_links createLinkEntry
                  (container_points containerInfo interfaces);
                mret (Ok nodeLinks)
            end
        | None =>
            nodeLinks ← create_links createLinkEntry ((λ iface, (iface, "")) <$> interfaces);
            mret (Ok nodeLinks)
        end
    end.

(** getExpectedLinks of the namespaced XDP, TC and TCX reconcilers, which
    differ in the program name of an error text. *)
Definition ns_net_getExpectedLinks (what : string)
    (createLinkEntry : string → string → GoM W L)
    (interfaceSelector : InterfaceSelector) (networkNamespaces : NetworkNamespaceSelector)
    (namespace : string) (ourNode : Node) : GoM W (result (list L)) :=
  interfaces ← getInterfaces interfaceSelector ourNode;
  match interfaces with
  | Err err => mret (Err ("failed to get interfaces for " +:+ what +:+ ": " +:+ err))
  | Ok interfaces =>
      containerInfo ← lift (GetContainers namespace (nn_Pods networkNamespaces) None);
      match containerInfo with
      | Err err => mret (Err ("failed to get container pids: " +:+ err))
      | Ok None => mret (Ok [])
      | Ok (Some containerInfo) =>
          nodeLinks ← create_links createLinkEntry
            (container_points containerInfo interfaces);
          mret (Ok nodeLinks)
      end
  end.
End network.

(** The lookup of the kinds whose links are identified by their fields. *)
Definition find_same {W L} (same : L → L → bool) (link : L) (links : list L)
    : GoM W (result (option nat)) :=
  mret (Ok (find_index (λ a, same a link) links)).
