(* ===== verification/ClKinds.v ===== *)
(** The cluster-scoped program reconcilers of controllers/bpfman-agent, one
    Module per file cl_<kind>_program.go: what a request to bpfman holds, how a link
    is recognised, and which links an attach point of the spec expands to. The
    methods with the same text for every kind are those of Links. *)

From S2P Require Import Prelude ApiTypes Constants Bpfman Selectors Links Kinds.
From stdpp Require Import options.

Abbreviation ClRec := (ProgRec ClBpfApplicationProgram ClBpfApplicationProgramState).
Abbreviation ClAt := (At ClBpfApplicationProgram ClBpfApplicationProgramState).

(** ** cl_xdp_program.go *)
Module ClXdp.
Section reconciler.
Context {W : Type} `{!AgentEnv W}.

Definition getProgType (_ : ClRec) : Internal.ProgramType := Internal.Xdp.
Definition getBpfmanProgType (_ : ClRec) : BpfmanProgramType := BpfmanProgramType_XDP.
Definition getProgName (r : ClRec) : string := clp_Name (currentProgram r).

Definition getAttachRequest (r : ClAt ClXdpAttachInfoState) : GoM W AttachRequest :=
  let link := currentLink r in
  let attachInfo :=
    mkXDPAttachInfo (xdp_Priority link) (xdp_InterfaceName link)
      (xdpProceedOnToInt (xdp_ProceedOn link))
      (netnsPtr (xdp_NetnsPath link)) (uuid_metadata (ai_UUID (xdp_common link))) in
  programId ← deref (programId (at_rec r));
  mret (mkAttachRequest programId (AttachInfo_XdpAttachInfo attachInfo)).

Definition stateLinks (s : ClBpfApplicationProgramState) : option (slice ClXdpAttachInfoState) :=
  Links <$> clps_XDP s.
Definition appLinks (p : ClBpfApplicationProgram) : list ClXdpAttachInfo := spec_links (clp_XDP p).

Definition printAttachInfo (attachInfoState : ClXdpAttachInfoState) : string :=
  "interfaceName: " +:+ xdp_InterfaceName attachInfoState +:+
  ", netnsPath: " +:+ print_netns (xdp_NetnsPath attachInfoState) +:+
  ", priority: " +:+ pretty (xdp_Priority attachInfoState).

Definition same_fields (a attachInfoState : ClXdpAttachInfoState) : bool :=
  bool_decide (xdp_InterfaceName a = xdp_InterfaceName attachInfoState)
  && bool_decide (xdp_Priority a = xdp_Priority attachInfoState)
  && deep_equal (xdp_ProceedOn a) (xdp_ProceedOn attachInfoState).

Definition findLink (attachInfoState : ClXdpAttachInfoState) (links : list ClXdpAttachInfoState)
    : GoM W (result (option nat)) :=
  net_findLink xdp_NetnsPath same_fields attachInfoState links.

Definition createLinkEntry (attachInfo : ClXdpAttachInfo) (interfaceName netnsPath : string)
    : GoM W ClXdpAttachInfoState :=
  uuid ← lift uuid_New;
  mret (mkClXdpAttachInfoState (newCommon uuid) interfaceName netnsPath
          (GetPriority (clxdp_Priority attachInfo)) (clxdp_ProceedOn attachInfo)).

Definition getExpectedLinks (r : ClRec) (attachInfo : ClXdpAttachInfo)
    : GoM W (result (list ClXdpAttachInfoState)) :=
  cl_net_getExpectedLinks (createLinkEntry attachInfo)
    (clxdp_InterfaceSelector attachInfo) (clxdp_NetworkNamespaces attachInfo)
    (rc_ourNode (rec_common r)).

Definition getProgramLoadInfo (r : ClRec) : GoM W LoadInfo :=
  mret (mkLoadInfo (getProgName r) (getBpfmanProgType r) None).

Definition kind : Kind W ClBpfApplicationProgram ClBpfApplicationProgramState
    ClXdpAttachInfo ClXdpAttachInfoState := {|
  k_progType := Internal.Xdp;
  k_bpfmanProgType := BpfmanProgramType_XDP;
  k_getAttachRequest := getAttachRequest;
  k_getProgramLoadInfo := getProgramLoadInfo;
  k_stateLinks := stateLinks;
  k_setStateLinks := set_clps_XDP;
  k_appLinks := appLinks;
  k_getExpectedLinks := getExpectedLinks;
  k_findLink := findLink;
|}.

Definition accessors : LinkMethods W (ClAt ClXdpAttachInfoState) := methods getAttachRequest.
Definition updateLinks (r : ClRec) (isBeingDeleted : bool) : GoM W (option error * ClRec) :=
  Links.updateLinks kind r isBeingDeleted.
Definition processLinks (r : ClRec) : GoM W (option error * ClRec) :=
  Links.processLinks kind r.
Definition updateProgramAttachStatus (r : ClRec) : GoM W ClRec :=
  Links.updateProgramAttachStatus kind r.
Definition removeLinks (links : slice ClXdpAttachInfoState) (linksToRemove : gset nat)
    : slice ClXdpAttachInfoState :=
  Links.removeLinks links linksToRemove.
End reconciler.
End ClXdp.

(** ** cl_tc_program.go *)
Module ClTc.
Section reconciler.
Context {W : Type} `{!AgentEnv W}.

Definition getProgType (_ : ClRec) : Internal.ProgramType := Internal.Tc.
Definition getBpfmanProgType (_ : ClRec) : BpfmanProgramType := BpfmanProgramType_TC.
Definition getProgName (r : ClRec) : string := clp_Name (currentProgram r).

Definition getAttachRequest (r : ClAt ClTcAttachInfoState) : GoM W AttachRequest :=
  let link := currentLink r in
  let attachInfo :=
    mkTCAttachInfo (tc_Priority link) (tc_InterfaceName link)
      (directionToStr (tc_Direction link))
      (tcProceedOnToInt (tc_ProceedOn link))
      (netnsPtr (tc_NetnsPath link)) (uuid_metadata (ai_UUID (tc_common link))) in
  programId ← deref (programId (at_rec r));
  mret (mkAttachRequest programId (AttachInfo_TcAttachInfo attachInfo)).

Definition stateLinks (s : ClBpfApplicationProgramState) : option (slice ClTcAttachInfoState) :=
  Links <$> clps_TC s.
Definition appLinks (p : ClBpfApplicationProgram) : list ClTcAttachInfo := spec_links (clp_TC p).

Definition printAttachInfo (attachInfoState : ClTcAttachInfoState) : string :=
  "interfaceName: " +:+ tc_InterfaceName attachInfoState +:+
  ", netnsPath: " +:+ print_netns (tc_NetnsPath attachInfoState) +:+
  ", direction: " +:+ tc_Direction attachInfoState +:+
  ", priority: " +:+ pretty (tc_Priority attachInfoState).

Definition same_fields (a attachInfoState : ClTcAttachInfoState) : bool :=
  bool_decide (tc_InterfaceName a = tc_InterfaceName attachInfoState)
  && bool_decide (tc_Direction a = tc_Direction attachInfoState)
  && bool_decide (tc_Priority a = tc_Priority attachInfoState)
  && deep_equal (tc_ProceedOn a) (tc_ProceedOn attachInfoState).

Definition findLink (attachInfoState : ClTcAttachInfoState) (links : list ClTcAttachInfoState)
    : GoM W (result (option nat)) :=
  net_findLink tc_NetnsPath same_fields attachInfoState links.

Definition createLinkEntry (attachInfo : ClTcAttachInfo) (interfaceName netnsPath : string)
    : GoM W ClTcAttachInfoState :=
  uuid ← lift uuid_New;
  mret (mkClTcAttachInfoState (newCommon uuid) interfaceName netnsPath
          (cltc_Direction attachInfo)
          (GetPriority (cltc_Priority attachInfo)) (cltc_ProceedOn attachInfo)).

Definition getExpectedLinks (r : ClRec) (attachInfo : ClTcAttachInfo)
    : GoM W (result (list ClTcAttachInfoState)) :=
  cl_net_getExpectedLinks (createLinkEntry attachInfo)
    (cltc_InterfaceSelector attachInfo) (cltc_NetworkNamespaces attachInfo)
    (rc_ourNode (rec_common r)).

Definition getProgramLoadInfo (r : ClRec) : GoM W LoadInfo :=
  mret (mkLoadInfo (getProgName r) (getBpfmanProgType r) None).

Definition kind : Kind W ClBpfApplicationProgram ClBpfApplicationProgramState
    ClTcAttachInfo ClTcAttachInfoState := {|
  k_progType := Internal.Tc;
  k_bpfmanProgType := BpfmanProgramType_TC;
  k_getAttachRequest := getAttachRequest;
  k_getProgramLoadInfo := getProgramLoadInfo;
  k_stateLinks := stateLinks;
  k_setStateLinks := set_clps_TC;
  k_appLinks := appLinks;
  k_getExpectedLinks := getExpectedLinks;
  k_findLink := findLink;
|}.

Definition accessors : LinkMethods W (ClAt ClTcAttachInfoState) := methods getAttachRequest.
Definition updateLinks (r : ClRec) (isBeingDeleted : bool) : GoM W (option error * ClRec) :=
  Links.updateLinks kind r isBeingDeleted.
Definition processLinks (r : ClRec) : GoM W (option error * ClRec) :=
  Links.processLinks kind r.
Definition updateProgramAttachStatus (r : ClRec) : GoM W ClRec :=
  Links.updateProgramAttachStatus kind r.
Definition removeLinks (links : slice ClTcAttachInfoState) (linksToRemove : gset nat)
    : slice ClTcAttachInfoState :=
  Links.removeLinks links linksToRemove.
End reconciler.
End ClTc.

(** ** cl_tcx_program.go *)
Module ClTcx.
Section reconciler.
Context {W : Type} `{!AgentEnv W}.

Definition getProgType (_ : ClRec) : Internal.ProgramType := Internal.Tc.
Definition getBpfmanProgType (_ : ClRec) : BpfmanProgramType := BpfmanProgramType_TCX.
Definition getProgName (r : ClRec) : string := clp_Name (currentProgram r).

Definition getAttachRequest (r : ClAt ClTcxAttachInfoState) : GoM W AttachRequest :=
  let link := currentLink r in
  let attachInfo :=
    mkTCXAttachInfo (tcx_Priority link) (tcx_InterfaceName link)
      (directionToStr (tcx_Direction link))
      (netnsPtr (tcx_NetnsPath link)) (uuid_metadata (ai_UUID (tcx_common link))) in
  programId ← deref (programId (at_rec r));
  mret (mkAttachRequest programId (AttachInfo_TcxAttachInfo attachInfo)).

Definition stateLinks (s : ClBpfApplicationProgramState) : option (slice ClTcxAttachInfoState) :=
  Links <$> clps_TCX s.
Definition appLinks (p : ClBpfApplicationProgram) : list ClTcxAttachInfo := spec_links (clp_TCX p).

Definition printAttachInfo (attachInfoState : ClTcxAttachInfoState) : string :=
  "interfaceName: " +:+ tcx_InterfaceName attachInfoState +:+
  ", netnsPath: " +:+ print_netns (tcx_NetnsPath attachInfoState) +:+
  ", direction: " +:+ tcx_Direction attachInfoState +:+
  ", priority: " +:+ pretty (tcx_Priority attachInfoState).

Definition same_fields (a attachInfoState : ClTcxAttachInfoState) : bool :=
  bool_decide (tcx_InterfaceName a = tcx_InterfaceName attachInfoState)
  && bool_decide (tcx_Direction a = tcx_Direction attachInfoState)
  && bool_decide (tcx_Priority a = tcx_Priority attachInfoState).

Definition findLink (attachInfoState : ClTcxAttachInfoState) (links : list ClTcxAttachInfoState)
    : GoM W (result (option nat)) :=
  net_findLink tcx_NetnsPath same_fields attachInfoState links.

Definition createLinkEntry (attachInfo : ClTcxAttachInfo) (interfaceName netnsPath : string)
    : GoM W ClTcxAttachInfoState :=
  uuid ← lift uuid_New;
  mret (mkClTcxAttachInfoState (newCommon uuid) interfaceName netnsPath
          (cltcx_Direction attachInfo)
          (GetPriority (cltcx_Priority attachInfo))).

Definition getExpectedLinks (r : ClRec) (attachInfo : ClTcxAttachInfo)
    : GoM W (result (list ClTcxAttachInfoState)) :=
  cl_net_getExpectedLinks (createLinkEntry attachInfo)
    (cltcx_InterfaceSelector attachInfo) (cltcx_NetworkNamespaces attachInfo)
    (rc_ourNode (rec_common r)).

Definition getProgramLoadInfo (r : ClRec) : GoM W LoadInfo :=
  mret (mkLoadInfo (getProgName r) (getBpfmanProgType r) None).

Definition kind : Kind W ClBpfApplicationProgram ClBpfApplicationProgramState
    ClTcxAttachInfo ClTcxAttachInfoState := {|
  k_progType := Internal.Tc;
  k_bpfmanProgType := BpfmanProgramType_TCX;
  k_getAttachRequest := getAttachRequest;
  k_getProgramLoadInfo := getProgramLoadInfo;
  k_stateLinks := stateLinks;
  k_setStateLinks := set_clps_TCX;
  k_appLinks := appLinks;
  k_getExpectedLinks := getExpectedLinks;
  k_findLink := findLink;
|}.

Definition accessors : LinkMethods W (ClAt ClTcxAttachInfoState) := methods getAttachRequest.
Definition updateLinks (r : ClRec) (isBeingDeleted : bool) : GoM W (option error * ClRec) :=
  Links.updateLinks kind r isBeingDeleted.
Definition processLinks (r : ClRec) : GoM W (option error * ClRec) :=
  Links.processLinks kind r.
Definition updateProgramAttachStatus (r : ClRec) : GoM W ClRec :=
  Links.updateProgramAttachStatus kind r.
Definition removeLinks (links : slice ClTcxAttachInfoState) (linksToRemove : gset nat)
    : slice ClTcxAttachInfoState :=
  Links.removeLinks links linksToRemove.
End reconciler.
End ClTcx.

(** ** cl_fentry_program.go *)
Module ClFentry.
Section reconciler.
Context {W : Type} `{!AgentEnv W}.

Definition getProgType (_ : ClRec) : Internal.ProgramType := Internal.Tracing.
Definition getBpfmanProgType (_ : ClRec) : BpfmanProgramType := BpfmanProgramType_FENTRY.
Definition getProgName (r : ClRec) : string := clp_Name (currentProgram r).

Definition getAttachRequest (r : ClAt ClFentryAttachInfoState) : GoM W AttachRequest :=
  programId ← deref (programId (at_rec r));
  mret (mkAttachRequest programId (AttachInfo_FentryAttachInfo
          (mkFentryAttachInfo (uuid_metadata (ai_UUID (fentry_common (currentLink r))))))).

Definition stateLinks (s : ClBpfApplicationProgramState) : option (slice ClFentryAttachInfoState) :=
  FnLinks <$> clps_FEntry s.
Definition appLinks (p : ClBpfApplicationProgram) : list ClFentryAttachInfo := spec_fn_links (clp_FEntry p).

(** Any recorded link is the link: the attach function is the program's. *)
Definition findLink (_ : ClFentryAttachInfoState) (links : list ClFentryAttachInfoState)
    : GoM W (result (option nat)) :=
  mret (Ok (match links with [] => None | _ :: _ => Some 0%nat end)).

Definition getExpectedLinks (_ : ClRec) (_ : ClFentryAttachInfo)
    : GoM W (result (list ClFentryAttachInfoState)) :=
  uuid ← lift uuid_New;
  mret (Ok [mkClFentryAttachInfoState (newCommon uuid)]).

Definition getProgramLoadInfo (r : ClRec) : GoM W LoadInfo :=
  info ← deref (clp_FEntry (currentProgram r));
  mret (mkLoadInfo (getProgName r) (getBpfmanProgType r)
          (Some (FentryLoadInfo (Function info)))).

Definition kind : Kind W ClBpfApplicationProgram ClBpfApplicationProgramState
    ClFentryAttachInfo ClFentryAttachInfoState := {|
  k_progType := Internal.Tracing;
  k_bpfmanProgType := BpfmanProgramType_FENTRY;
  k_getAttachRequest := getAttachRequest;
  k_getProgramLoadInfo := getProgramLoadInfo;
  k_stateLinks := stateLinks;
  k_setStateLinks := set_clps_FEntry;
  k_appLinks := appLinks;
  k_getExpectedLinks := getExpectedLinks;
  k_findLink := findLink;
|}.

Definition accessors : LinkMethods W (ClAt ClFentryAttachInfoState) := methods getAttachRequest.
Definition updateLinks (r : ClRec) (isBeingDeleted : bool) : GoM W (option error * ClRec) :=
  Links.updateLinks kind r isBeingDeleted.
Definition processLinks (r : ClRec) : GoM W (option error * ClRec) :=
  Links.processLinks kind r.
Definition updateProgramAttachStatus (r : ClRec) : GoM W ClRec :=
  Links.updateProgramAttachStatus kind r.
Definition removeLinks (links : slice ClFentryAttachInfoState) (linksToRemove : gset nat)
    : slice ClFentryAttachInfoState :=
  Links.removeLinks links linksToRemove.
End reconciler.
End ClFentry.

(** ** cl_fexit_program.go *)
Module ClFexit.
Section reconciler.
Context {W : Type} `{!AgentEnv W}.

Definition getProgType (_ : ClRec) : Internal.ProgramType := Internal.Tracing.
Definition getBpfmanProgType (_ : ClRec) : BpfmanProgramType := BpfmanProgramType_FEXIT.
Definition getProgName (r : ClRec) : string := clp_Name (currentProgram r).

Definition getAttachRequest (r : ClAt ClFexitAttachInfoState) : GoM W AttachRequest :=
  programId ← deref (programId (at_rec r));
  mret (mkAttachRequest programId (AttachInfo_FexitAttachInfo
          (mkFexitAttachInfo (uuid_metadata (ai_UUID (fexit_common (currentLink r))))))).

Definition stateLinks (s : ClBpfApplicationProgramState) : option (slice ClFexitAttachInfoState) :=
  FnLinks <$> clps_FExit s.
Definition appLinks (p : ClBpfApplicationProgram) : list ClFexitAttachInfo := spec_fn_links (clp_FExit p).

(** Any recorded link is the link: the attach function is the program's. *)
Definition findLink (_ : ClFexitAttachInfoState) (links : list ClFexitAttachInfoState)
    : GoM W (result (option nat)) :=
  mret (Ok (match links with [] => None | _ :: _ => Some 0%nat end)).

Definition getExpectedLinks (_ : ClRec) (_ : ClFexitAttachInfo)
    : GoM W (result (list ClFexitAttachInfoState)) :=
  uuid ← lift uuid_New;
  mret (Ok [mkClFexitAttachInfoState (newCommon uuid)]).

Definition getProgramLoadInfo (r : ClRec) : GoM W LoadInfo :=
  info ← deref (clp_FExit (currentProgram r));
  mret (mkLoadInfo (getProgName r) (getBpfmanProgType r)
          (Some (FexitLoadInfo (Function info)))).

Definition kind : Kind W ClBpfApplicationProgram ClBpfApplicationProgramState
    ClFexitAttachInfo ClFexitAttachInfoState := {|
  k_progType := Internal.Tracing;
  k_bpfmanProgType := BpfmanProgramType_FEXIT;
  k_getAttachRequest := getAttachRequest;
  k_getProgramLoadInfo := getProgramLoadInfo;
  k_stateLinks := stateLinks;
  k_setStateLinks := set_clps_FExit;
  k_appLinks := appLinks;
  k_getExpectedLinks := getExpectedLinks;
  k_findLink := findLink;
|}.

Definition accessors : LinkMethods W (ClAt ClFexitAttachInfoState) := methods getAttachRequest.
Definition updateLinks (r : ClRec) (isBeingDeleted : bool) : GoM W (option error * ClRec) :=
  Links.updateLinks kind r isBeingDeleted.
Definition processLinks (r : ClRec) : GoM W (option error * ClRec) :=
  Links.processLinks kind r.
Definition updateProgramAttachStatus (r : ClRec) : GoM W ClRec :=
  Links.updateProgramAttachStatus kind r.
Definition removeLinks (links : slice ClFexitAttachInfoState) (linksToRemove : gset nat)
    : slice ClFexitAttachInfoState :=
  Links.removeLinks links linksToRemove.
End reconciler.
End ClFexit.

(** ** cl_kprobe_program.go *)
Module ClKprobe.
Section reconciler.
Context {W : Type} `{!AgentEnv W}.

Definition getProgType (_ : ClRec) : Internal.ProgramType := Internal.Kprobe.
Definition getBpfmanProgType (_ : ClRec) : BpfmanProgramType := BpfmanProgramType_KPROBE.
Definition getProgName (r : ClRec) : string := clp_Name (currentProgram r).

Definition getAttachRequest (r : ClAt ClKprobeAttachInfoState) : GoM W AttachRequest :=
  programId ← deref (programId (at_rec r));
  mret (mkAttachRequest programId (AttachInfo_KprobeAttachInfo
          (mkKprobeAttachInfo (kprobe_Function (currentLink r)) (to_uint64 (kprobe_Offset (currentLink r)))
             (uuid_metadata (ai_UUID (kprobe_common (currentLink r))))))).

Definition getAppStateLinks (s : ClBpfApplicationProgramState) : option (slice ClKprobeAttachInfoState) :=
  if decide (clps_Type s = ProgTypeKprobe) then Links <$> clps_KProbe s
  else Some (Some []).

(** Writing through the pointer [getAppStateLinks] returns: lost when it is
    the temporary slice. *)
Definition setAppStateLinks (links : slice ClKprobeAttachInfoState) (s : ClBpfApplicationProgramState)
    : ClBpfApplicationProgramState :=
  if decide (clps_Type s = ProgTypeKprobe) then set_clps_KProbe links s else s.

Definition getAppLinks (p : ClBpfApplicationProgram) : list ClKprobeAttachInfo :=
  if decide (clp_Type p = ProgTypeKprobe) then spec_links (clp_KProbe p) else [].

Definition same_link (a attachInfoState : ClKprobeAttachInfoState) : bool :=
  bool_decide (kprobe_Function a = kprobe_Function attachInfoState)
  && bool_decide (kprobe_Offset a = kprobe_Offset attachInfoState).

Definition findLink (attachInfoState : ClKprobeAttachInfoState) (links : list ClKprobeAttachInfoState)
    : GoM W (result (option nat)) :=
  find_same same_link attachInfoState links.

Definition getExpectedLinks (_ : ClRec) (attachInfo : ClKprobeAttachInfo)
    : GoM W (result (list ClKprobeAttachInfoState)) :=
  uuid ← lift uuid_New;
  mret (Ok [mkClKprobeAttachInfoState (newCommon uuid) (clkprobe_Function attachInfo)
              (clkprobe_Offset attachInfo)]).

Definition getProgramLoadInfo (r : ClRec) : GoM W LoadInfo :=
  mret (mkLoadInfo (getProgName r) (getBpfmanProgType r) None).

Definition kind : Kind W ClBpfApplicationProgram ClBpfApplicationProgramState
    ClKprobeAttachInfo ClKprobeAttachInfoState := {|
  k_progType := Internal.Kprobe;
  k_bpfmanProgType := BpfmanProgramType_KPROBE;
  k_getAttachRequest := getAttachRequest;
  k_getProgramLoadInfo := getProgramLoadInfo;
  k_stateLinks := getAppStateLinks;
  k_setStateLinks := setAppStateLinks;
  k_appLinks := getAppLinks;
  k_getExpectedLinks := getExpectedLinks;
  k_findLink := findLink;
|}.

Definition accessors : LinkMethods W (ClAt ClKprobeAttachInfoState) := methods getAttachRequest.
Definition updateLinks (r : ClRec) (isBeingDeleted : bool) : GoM W (option error * ClRec) :=
  Links.updateLinks kind r isBeingDeleted.
Definition processLinks (r : ClRec) : GoM W (option error * ClRec) :=
  Links.processLinks kind r.
Definition updateProgramAttachStatus (r : ClRec) : GoM W ClRec :=
  Links.updateProgramAttachStatus kind r.
Definition removeLinks (links : slice ClKprobeAttachInfoState) (linksToRemove : gset nat)
    : slice ClKprobeAttachInfoState :=
  Links.removeLinks links linksToRemove.
End reconciler.
End ClKprobe.

(** ** cl_kretprobe_program.go *)
Module ClKretprobe.
Section reconciler.
Context {W : Type} `{!AgentEnv W}.

Definition getProgType (_ : ClRec) : Internal.ProgramType := Internal.Kprobe.
Definition getBpfmanProgType (_ : ClRec) : BpfmanProgramType := BpfmanProgramType_KPROBE.
Definition getProgName (r : ClRec) : string := clp_Name (currentProgram r).

Definition getAttachRequest (r : ClAt ClKretprobeAttachInfoState) : GoM W AttachRequest :=
  programId ← deref (programId (at_rec r));
  mret (mkAttachRequest programId (AttachInfo_KprobeAttachInfo
          (mkKprobeAttachInfo (kretprobe_Function (currentLink r)) 0
             (uuid_metadata (ai_UUID (kretprobe_common (currentLink r))))))).

Definition getAppStateLinks (s : ClBpfApplicationProgramState) : option (slice ClKretprobeAttachInfoState) :=
  if decide (clps_Type s = ProgTypeKretprobe) then Links <$> clps_KRetProbe s
  else Some (Some []).

(** Writing through the pointer [getAppStateLinks] returns: lost when it is
    the temporary slice. *)
Definition setAppStateLinks (links : slice ClKretprobeAttachInfoState) (s : ClBpfApplicationProgramState)
    : ClBpfApplicationProgramState :=
  if decide (clps_Type s = ProgTypeKretprobe) then set_clps_KRetProbe links s else s.

Definition getAppLinks (p : ClBpfApplicationProgram) : list ClKretprobeAttachInfo :=
  if decide (clp_Type p = ProgTypeKretprobe) then spec_links (clp_KRetProbe p) else [].

Definition same_link (a attachInfoState : ClKretprobeAttachInfoState) : bool :=
  bool_decide (kretprobe_Function a = kretprobe_Function attachInfoState).

Definition findLink (attachInfoState : ClKretprobeAttachInfoState) (links : list ClKretprobeAttachInfoState)
    : GoM W (result (option nat)) :=
  find_same same_link attachInfoState links.

Definition getExpectedLinks (_ : ClRec) (attachInfo : ClKretprobeAttachInfo)
    : GoM W (result (list ClKretprobeAttachInfoState)) :=
  uuid ← lift uuid_New;
  mret (Ok [mkClKretprobeAttachInfoState (newCommon uuid) (clkretprobe_Function attachInfo)]).

Definition getProgramLoadInfo (r : ClRec) : GoM W LoadInfo :=
  mret (mkLoadInfo (getProgName r) (getBpfmanProgType r) None).

Definition kind : Kind W ClBpfApplicationProgram ClBpfApplicationProgramState
    ClKretprobeAttachInfo ClKretprobeAttachInfoState := {|
  k_progType := Internal.Kprobe;
  k_bpfmanProgType := BpfmanProgramType_KPROBE;
  k_getAttachRequest := getAttachRequest;
  k_getProgramLoadInfo := getProgramLoadInfo;
  k_stateLinks := getAppStateLinks;
  k_setStateLinks := setAppStateLinks;
  k_appLinks := getAppLinks;
  k_getExpectedLinks := getExpectedLinks;
  k_findLink := findLink;
|}.

Definition accessors : LinkMethods W (ClAt ClKretprobeAttachInfoState) := methods getAttachRequest.
Definition updateLinks (r : ClRec) (isBeingDeleted : bool) : GoM W (option error * ClRec) :=
  Links.updateLinks kind r isBeingDeleted.
Definition processLinks (r : ClRec) : GoM W (option error * ClRec) :=
  Links.processLinks kind r.
Definition updateProgramAttachStatus (r : ClRec) : GoM W ClRec :=
  Links.updateProgramAttachStatus kind r.
Definition removeLinks (links : slice ClKretprobeAttachInfoState) (linksToRemove : gset nat)
    : slice ClKretprobeAttachInfoState :=
  Links.removeLinks links linksToRemove.
End reconciler.
End ClKretprobe.

(** ** cl_uprobe_program.go *)
Module ClUprobe.
Section reconciler.
Context {W : Type} `{!AgentEnv W}.

Definition getProgType (_ : ClRec) : Internal.ProgramType := Internal.Kprobe.
Definition getBpfmanProgType (_ : ClRec) : BpfmanProgramType := BpfmanProgramType_UPROBE.
Definition getProgName (r : ClRec) : string := clp_Name (currentProgram r).

Definition getAttachRequest (r : ClAt ClUprobeAttachInfoState) : GoM W AttachRequest :=
  let link := currentLink r in
  let attachInfo :=
    mkUprobeAttachInfo (Some (cluprobes_Function link)) (to_uint64 (cluprobes_Offset link))
      (cluprobes_Target link) (cluprobes_Pid link) (to_int32 <$> cluprobes_ContainerPid link)
      (uuid_metadata (ai_UUID (cluprobe_common link))) in
  programId ← deref (programId (at_rec r));
  mret (mkAttachRequest programId (AttachInfo_UprobeAttachInfo attachInfo)).

Definition getAppStateLinks (s : ClBpfApplicationProgramState) : option (slice ClUprobeAttachInfoState) :=
  if decide (clps_Type s = ProgTypeUprobe) then Links <$> clps_UProbe s
  else if decide (clps_Type s = ProgTypeUretprobe) then Links <$> clps_URetProbe s
  else Some (Some []).

(** Writing through the pointer [getAppStateLinks] returns: lost when it is
    the temporary slice. *)
Definition setAppStateLinks (links : slice ClUprobeAttachInfoState) (s : ClBpfApplicationProgramState)
    : ClBpfApplicationProgramState :=
  if decide (clps_Type s = ProgTypeUprobe) then set_clps_UProbe links s
  else if decide (clps_Type s = ProgTypeUretprobe) then set_clps_URetProbe links s
  else s.

Definition getAppLinks (p : ClBpfApplicationProgram) : list ClUprobeAttachInfo :=
  if decide (clp_Type p = ProgTypeUprobe) then spec_links (clp_UProbe p)
  else if decide (clp_Type p = ProgTypeUretprobe) then spec_links (clp_URetProbe p)
  else [].

Definition same_link (a attachInfoState : ClUprobeAttachInfoState) : bool :=
  bool_decide (cluprobes_Function a = cluprobes_Function attachInfoState)
  && bool_decide (cluprobes_Offset a = cluprobes_Offset attachInfoState)
  && bool_decide (cluprobes_Target a = cluprobes_Target attachInfoState)
  && deep_equal (cluprobes_Pid a) (cluprobes_Pid attachInfoState)
  && deep_equal (cluprobes_ContainerPid a) (cluprobes_ContainerPid attachInfoState).

Definition findLink (attachInfoState : ClUprobeAttachInfoState) (links : list ClUprobeAttachInfoState)
    : GoM W (result (option nat)) :=
  find_same same_link attachInfoState links.

Definition createContainerLink (attachInfo : ClUprobeAttachInfo) (container : ContainerInfo)
    : GoM W ClUprobeAttachInfoState :=
  uuid ← lift uuid_New;
  mret (mkClUprobeAttachInfoState (newCommon uuid) (cluprobe_Function attachInfo)
          (cluprobe_Offset attachInfo) (cluprobe_Target attachInfo) (cluprobe_Pid attachInfo) (Some (pid container))).

Definition getExpectedLinks (_ : ClRec) (attachInfo : ClUprobeAttachInfo)
    : GoM W (result (list ClUprobeAttachInfoState)) :=
  match cluprobe_Containers attachInfo with
  | Some containers =>
      containerInfo ← lift (GetContainers (ccs_Namespace containers) (ccs_Pods containers) (Some (ccs_ContainerNames containers)));
      match containerInfo with
      | Err err => mret (Err ("failed to get container pids: " +:+ err))
      | Ok None => mret (Ok [])
      | Ok (Some containerInfo) =>
          nodeLinks ← mapM (createContainerLink attachInfo) containerInfo;
          mret (Ok nodeLinks)
      end
  | None =>
      uuid ← lift uuid_New;
      mret (Ok [mkClUprobeAttachInfoState (newCommon uuid) (cluprobe_Function attachInfo)
          (cluprobe_Offset attachInfo) (cluprobe_Target attachInfo) (cluprobe_Pid attachInfo) None])
  end.

Definition getProgramLoadInfo (r : ClRec) : GoM W LoadInfo :=
  mret (mkLoadInfo (getProgName r) (getBpfmanProgType r) None).

Definition kind : Kind W ClBpfApplicationProgram ClBpfApplicationProgramState
    ClUprobeAttachInfo ClUprobeAttachInfoState := {|
  k_progType := Internal.Kprobe;
  k_bpfmanProgType := BpfmanProgramType_UPROBE;
  k_getAttachRequest := getAttachRequest;
  k_getProgramLoadInfo := getProgramLoadInfo;
  k_stateLinks := getAppStateLinks;
  k_setStateLinks := setAppStateLinks;
  k_appLinks := getAppLinks;
  k_getExpectedLinks := getExpectedLinks;
  k_findLink := findLink;
|}.

Definition accessors : LinkMethods W (ClAt ClUprobeAttachInfoState) := methods getAttachRequest.
Definition updateLinks (r : ClRec) (isBeingDeleted : bool) : GoM W (option error * ClRec) :=
  Links.updateLinks kind r isBeingDeleted.
Definition processLinks (r : ClRec) : GoM W (option error * ClRec) :=
  Links.processLinks kind r.
Definition updateProgramAttachStatus (r : ClRec) : GoM W ClRec :=
  Links.updateProgramAttachStatus kind r.
Definition removeLinks (links : slice ClUprobeAttachInfoState) (linksToRemove : gset nat)
    : slice ClUprobeAttachInfoState :=
  Links.removeLinks links linksToRemove.
End reconciler.
End ClUprobe.

(** ** cl_tracepoint_program.go *)
Module ClTracepoint.
Section reconciler.
Context {W : Type} `{!AgentEnv W}.

Definition getProgType (_ : ClRec) : Internal.ProgramType := Internal.Tracepoint.
Definition getBpfmanProgType (_ : ClRec) : BpfmanProgramType := BpfmanProgramType_TRACEPOINT.
Definition getProgName (r : ClRec) : string := clp_Name (currentProgram r).

Definition getAttachRequest (r : ClAt ClTracepointAttachInfoState) : GoM W AttachRequest :=
  programId ← deref (programId (at_rec r));
  mret (mkAttachRequest programId (AttachInfo_TracepointAttachInfo
          (mkTracepointAttachInfo (tracepoint_Name (currentLink r))
             (uuid_metadata (ai_UUID (tracepoint_common (currentLink r))))))).

Definition stateLinks (s : ClBpfApplicationProgramState) : option (slice ClTracepointAttachInfoState) :=
  Links <$> clps_TracePoint s.
Definition appLinks (p : ClBpfApplicationProgram) : list ClTracepointAttachInfo := spec_links (clp_TracePoint p).

Definition same_link (a attachInfoState : ClTracepointAttachInfoState) : bool :=
  bool_decide (tracepoint_Name a = tracepoint_Name attachInfoState).

Definition findLink (attachInfoState : ClTracepointAttachInfoState) (links : list ClTracepointAttachInfoState)
    : GoM W (result (option nat)) :=
  find_same same_link attachInfoState links.

Definition getExpectedLinks (_ : ClRec) (attachInfo : ClTracepointAttachInfo)
    : GoM W (result (list ClTracepointAttachInfoState)) :=
  uuid ← lift uuid_New;
  mret (Ok [mkClTracepointAttachInfoState (newCommon uuid) (cltracepoint_Name attachInfo)]).

Definition getProgramLoadInfo (r : ClRec) : GoM W LoadInfo :=
  mret (mkLoadInfo (getProgName r) (getBpfmanProgType r) None).

Definition kind : Kind W ClBpfApplicationProgram ClBpfApplicationProgramState
    ClTracepointAttachInfo ClTracepointAttachInfoState := {|
  k_progType := Internal.Tracepoint;
  k_bpfmanProgType := BpfmanProgramType_TRACEPOINT;
  k_getAttachRequest := getAttachRequest;
  k_getProgramLoadInfo := getProgramLoadInfo;
  k_stateLinks := stateLinks;
  k_setStateLinks := set_clps_TracePoint;
  k_appLinks := appLinks;
  k_getExpectedLinks := getExpectedLinks;
  k_findLink := findLink;
|}.

Definition accessors : LinkMethods W (ClAt ClTracepointAttachInfoState) := methods getAttachRequest.
Definition updateLinks (r : ClRec) (isBeingDeleted : bool) : GoM W (option error * ClRec) :=
  Links.updateLinks kind r isBeingDeleted.
Definition processLinks (r : ClRec) : GoM W (option error * ClRec) :=
  Links.processLinks kind r.
Definition updateProgramAttachStatus (r : ClRec) : GoM W ClRec :=
  Links.updateProgramAttachStatus kind r.
Definition removeLinks (links : slice ClTracepointAttachInfoState) (linksToRemove : gset nat)
    : slice ClTracepointAttachInfoState :=
  Links.removeLinks links linksToRemove.
End reconciler.
End ClTracepoint.
