(* ===== verification/NsKinds.v ===== *)
(** The namespaced program reconcilers of controllers/bpfman-agent, one
    Module per file ns_<kind>_program.go: what a request to bpfman holds, how a link
    is recognised, and which links an attach point of the spec expands to. The
    methods with the same text for every kind are those of Links. *)

From S2P Require Import Prelude ApiTypes Constants Bpfman Selectors Links Kinds.
From stdpp Require Import options.

Abbreviation NsRec := (ProgRec BpfApplicationProgram BpfApplicationProgramState).
Abbreviation NsAt := (At BpfApplicationProgram BpfApplicationProgramState).

(** ** ns_xdp_program.go *)
Module NsXdp.
Section reconciler.
Context {W : Type} `{!AgentEnv W}.

Definition getProgType (_ : NsRec) : Internal.ProgramType := Internal.Xdp.
Definition getBpfmanProgType (_ : NsRec) : BpfmanProgramType := BpfmanProgramType_XDP.
Definition getProgName (r : NsRec) : string := nsp_Name (currentProgram r).
Definition getNamespace (r : NsRec) : string := rec_namespace r.

Definition getAttachRequest (r : NsAt XdpAttachInfoState) : GoM W AttachRequest :=
  let link := currentLink r in
  let attachInfo :=
    mkXDPAttachInfo (xdp_Priority link) (xdp_InterfaceName link)
      (xdpProceedOnToInt (xdp_ProceedOn link))
      (Some (xdp_NetnsPath link)) (uuid_metadata (ai_UUID (xdp_common link))) in
  programId ← deref (programId (at_rec r));
  mret (mkAttachRequest programId (AttachInfo_XdpAttachInfo attachInfo)).

Definition stateLinks (s : BpfApplicationProgramState) : option (slice XdpAttachInfoState) :=
  Links <$> nsps_XDP s.
Definition appLinks (p : BpfApplicationProgram) : list XdpAttachInfo := spec_links (nsp_XDP p).

Definition printAttachInfo (attachInfoState : XdpAttachInfoState) : string :=
  "interfaceName: " +:+ xdp_InterfaceName attachInfoState +:+
  ", netnsPath: " +:+ print_netns (xdp_NetnsPath attachInfoState) +:+
  ", priority: " +:+ pretty (xdp_Priority attachInfoState).

Definition same_fields (a attachInfoState : XdpAttachInfoState) : bool :=
  bool_decide (xdp_InterfaceName a = xdp_InterfaceName attachInfoState)
  && bool_decide (xdp_Priority a = xdp_Priority attachInfoState)
  && deep_equal (xdp_ProceedOn a) (xdp_ProceedOn attachInfoState).

Definition findLink (attachInfoState : XdpAttachInfoState) (links : list XdpAttachInfoState)
    : GoM W (result (option nat)) :=
  net_findLink xdp_NetnsPath same_fields attachInfoState links.

Definition createLinkEntry (attachInfo : XdpAttachInfo) (interfaceName netnsPath : string)
    : GoM W XdpAttachInfoState :=
  uuid ← lift uuid_New;
  mret (mkClXdpAttachInfoState (newCommon uuid) interfaceName netnsPath
          (GetPriority (nsxdp_Priority attachInfo)) (nsxdp_ProceedOn attachInfo)).

Definition getExpectedLinks (r : NsRec) (attachInfo : XdpAttachInfo)
    : GoM W (result (list XdpAttachInfoState)) :=
  ns_net_getExpectedLinks "XdpNsProgram" (createLinkEntry attachInfo)
    (nsxdp_InterfaceSelector attachInfo) (nsxdp_NetworkNamespaces attachInfo)
    (getNamespace r) (rc_ourNode (rec_common r)).

Definition getProgramLoadInfo (r : NsRec) : GoM W LoadInfo :=
  mret (mkLoadInfo (getProgName r) (getBpfmanProgType r) None).

Definition kind : Kind W BpfApplicationProgram BpfApplicationProgramState
    XdpAttachInfo XdpAttachInfoState := {|
  k_progType := Internal.Xdp;
  k_bpfmanProgType := BpfmanProgramType_XDP;
  k_getAttachRequest := getAttachRequest;
  k_getProgramLoadInfo := getProgramLoadInfo;
  k_stateLinks := stateLinks;
  k_setStateLinks := set_nsps_XDP;
  k_appLinks := appLinks;
  k_getExpectedLinks := getExpectedLinks;
  k_findLink := findLink;
|}.

Definition accessors : LinkMethods W (NsAt XdpAttachInfoState) := methods getAttachRequest.
Definition updateLinks (r : NsRec) (isBeingDeleted : bool) : GoM W (option error * NsRec) :=
  Links.updateLinks kind r isBeingDeleted.
Definition processLinks (r : NsRec) : GoM W (option error * NsRec) :=
  Links.processLinks kind r.
Definition updateProgramAttachStatus (r : NsRec) : GoM W NsRec :=
  Links.updateProgramAttachStatus kind r.
Definition removeLinks (links : slice XdpAttachInfoState) (linksToRemove : gset nat)
    : slice XdpAttachInfoState :=
  Links.removeLinks links linksToRemove.
End reconciler.
End NsXdp.

(** ** ns_tc_program.go *)
Module NsTc.
Section reconciler.
Context {W : Type} `{!AgentEnv W}.

Definition getProgType (_ : NsRec) : Internal.ProgramType := Internal.Tc.
Definition getBpfmanProgType (_ : NsRec) : BpfmanProgramType := BpfmanProgramType_TC.
Definition getProgName (r : NsRec) : string := nsp_Name (currentProgram r).
Definition getNamespace (r : NsRec) : string := rec_namespace r.

Definition getAttachRequest (r : NsAt TcAttachInfoState) : GoM W AttachRequest :=
  let link := currentLink r in
  let attachInfo :=
    mkTCAttachInfo (tc_Priority link) (tc_InterfaceName link)
      (directionToStr (tc_Direction link))
      (tcProceedOnToInt (tc_ProceedOn link))
      (Some (tc_NetnsPath link)) (uuid_metadata (ai_UUID (tc_common link))) in
  programId ← deref (programId (at_rec r));
  mret (mkAttachRequest programId (AttachInfo_TcAttachInfo attachInfo)).

Definition stateLinks (s : BpfApplicationProgramState) : option (slice TcAttachInfoState) :=
  Links <$> nsps_TC s.
Definition appLinks (p : BpfApplicationProgram) : list TcAttachInfo := spec_links (nsp_TC p).

Definition printAttachInfo (attachInfoState : TcAttachInfoState) : string :=
  "interfaceName: " +:+ tc_InterfaceName attachInfoState +:+
  ", netnsPath: " +:+ print_netns (tc_NetnsPath attachInfoState) +:+
  ", direction: " +:+ tc_Direction attachInfoState +:+
  ", priority: " +:+ pretty (tc_Priority attachInfoState).

Definition same_fields (a attachInfoState : TcAttachInfoState) : bool :=
  bool_decide (tc_InterfaceName a = tc_InterfaceName attachInfoState)
  && bool_decide (tc_Direction a = tc_Direction attachInfoState)
  && bool_decide (tc_Priority a = tc_Priority attachInfoState)
  && deep_equal (tc_ProceedOn a) (tc_ProceedOn attachInfoState).

Definition findLink (attachInfoState : TcAttachInfoState) (links : list TcAttachInfoState)
    : GoM W (result (option nat)) :=
  net_findLink tc_NetnsPath same_fields attachInfoState links.

Definition createLinkEntry (attachInfo : TcAttachInfo) (interfaceName netnsPath : string)
    : GoM W TcAttachInfoState :=
  uuid ← lift uuid_New;
  mret (mkClTcAttachInfoState (newCommon uuid) interfaceName netnsPath
          (nstc_Direction attachInfo)
          (GetPriority (nstc_Priority attachInfo)) (nstc_ProceedOn attachInfo)).

Definition getExpectedLinks (r : NsRec) (attachInfo : TcAttachInfo)
    : GoM W (result (list TcAttachInfoState)) :=
  ns_net_getExpectedLinks "TcProgram" (createLinkEntry attachInfo)
    (nstc_InterfaceSelector attachInfo) (nstc_NetworkNamespaces attachInfo)
    (getNamespace r) (rc_ourNode (rec_common r)).

Definition getProgramLoadInfo (r : NsRec) : GoM W LoadInfo :=
  mret (mkLoadInfo (getProgName r) (getBpfmanProgType r) None).

Definition kind : Kind W BpfApplicationProgram BpfApplicationProgramState
    TcAttachInfo TcAttachInfoState := {|
  k_progType := Internal.Tc;
  k_bpfmanProgType := BpfmanProgramType_TC;
  k_getAttachRequest := getAttachRequest;
  k_getProgramLoadInfo := getProgramLoadInfo;
  k_stateLinks := stateLinks;
  k_setStateLinks := set_nsps_TC;
  k_appLinks := appLinks;
  k_getExpectedLinks := getExpectedLinks;
  k_findLink := findLink;
|}.

Definition accessors : LinkMethods W (NsAt TcAttachInfoState) := methods getAttachRequest.
Definition updateLinks (r : NsRec) (isBeingDeleted : bool) : GoM W (option error * NsRec) :=
  Links.updateLinks kind r isBeingDeleted.
Definition processLinks (r : NsRec) : GoM W (option error * NsRec) :=
  Links.processLinks kind r.
Definition updateProgramAttachStatus (r : NsRec) : GoM W NsRec :=
  Links.updateProgramAttachStatus kind r.
Definition removeLinks (links : slice TcAttachInfoState) (linksToRemove : gset nat)
    : slice TcAttachInfoState :=
  Links.removeLinks links linksToRemove.
End reconciler.
End NsTc.

(** ** ns_tcx_program.go *)
Module NsTcx.
Section reconciler.
Context {W : Type} `{!AgentEnv W}.

Definition getProgType (_ : NsRec) : Internal.ProgramType := Internal.Tc.
Definition getBpfmanProgType (_ : NsRec) : BpfmanProgramType := BpfmanProgramType_TCX.
Definition getProgName (r : NsRec) : string := nsp_Name (currentProgram r).
Definition getNamespace (r : NsRec) : string := rec_namespace r.

Definition getAttachRequest (r : NsAt TcxAttachInfoState) : GoM W AttachRequest :=
  let link := currentLink r in
  let attachInfo :=
    mkTCXAttachInfo (tcx_Priority link) (tcx_InterfaceName link)
      (directionToStr (tcx_Direction link))
      (Some (tcx_NetnsPath link)) (uuid_metadata (ai_UUID (tcx_common link))) in
  programId ← deref (programId (at_rec r));
  mret (mkAttachRequest programId (AttachInfo_TcxAttachInfo attachInfo)).

Definition stateLinks (s : BpfApplicationProgramState) : option (slice TcxAttachInfoState) :=
  Links <$> nsps_TCX s.
Definition appLinks (p : BpfApplicationProgram) : list TcxAttachInfo := spec_links (nsp_TCX p).

Definition printAttachInfo (attachInfoState : TcxAttachInfoState) : string :=
  "interfaceName: " +:+ tcx_InterfaceName attachInfoState +:+
  ", netnsPath: " +:+ print_netns (tcx_NetnsPath attachInfoState) +:+
  ", direction: " +:+ tcx_Direction attachInfoState +:+
  ", priority: " +:+ pretty (tcx_Priority attachInfoState).

Definition same_fields (a attachInfoState : TcxAttachInfoState) : bool :=
  bool_decide (tcx_InterfaceName a = tcx_InterfaceName attachInfoState)
  && bool_decide (tcx_Direction a = tcx_Direction attachInfoState)
  && bool_decide (tcx_Priority a = tcx_Priority attachInfoState).

Definition findLink (attachInfoState : TcxAttachInfoState) (links : list TcxAttachInfoState)
    : GoM W (result (option nat)) :=
  net_findLink tcx_NetnsPath same_fields attachInfoState links.

Definition createLinkEntry (attachInfo : TcxAttachInfo) (interfaceName netnsPath : string)
    : GoM W TcxAttachInfoState :=
  uuid ← lift uuid_New;
  mret (mkClTcxAttachInfoState (newCommon uuid) interfaceName netnsPath
          (nstcx_Direction attachInfo)
          (GetPriority (nstcx_Priority attachInfo))).

Definition getExpectedLinks (r : NsRec) (attachInfo : TcxAttachInfo)
    : GoM W (result (list TcxAttachInfoState)) :=
  ns_net_getExpectedLinks "TcxNsProgram" (createLinkEntry attachInfo)
    (nstcx_InterfaceSelector attachInfo) (nstcx_NetworkNamespaces attachInfo)
    (getNamespace r) (rc_ourNode (rec_common r)).

Definition getProgramLoadInfo (r : NsRec) : GoM W LoadInfo :=
  mret (mkLoadInfo (getProgName r) (getBpfmanProgType r) None).

Definition kind : Kind W BpfApplicationProgram BpfApplicationProgramState
    TcxAttachInfo TcxAttachInfoState := {|
  k_progType := Internal.Tc;
  k_bpfmanProgType := BpfmanProgramType_TCX;
  k_getAttachRequest := getAttachRequest;
  k_getProgramLoadInfo := getProgramLoadInfo;
  k_stateLinks := stateLinks;
  k_setStateLinks := set_nsps_TCX;
  k_appLinks := appLinks;
  k_getExpectedLinks := getExpectedLinks;
  k_findLink := findLink;
|}.

Definition accessors : LinkMethods W (NsAt TcxAttachInfoState) := methods getAttachRequest.
Definition updateLinks (r : NsRec) (isBeingDeleted : bool) : GoM W (option error * NsRec) :=
  Links.updateLinks kind r isBeingDeleted.
Definition processLinks (r : NsRec) : GoM W (option error * NsRec) :=
  Links.processLinks kind r.
Definition updateProgramAttachStatus (r : NsRec) : GoM W NsRec :=
  Links.updateProgramAttachStatus kind r.
Definition removeLinks (links : slice TcxAttachInfoState) (linksToRemove : gset nat)
    : slice TcxAttachInfoState :=
  Links.removeLinks links linksToRemove.
End reconciler.
End NsTcx.

(** ** ns_uprobe_program.go *)
Module NsUprobe.
Section reconciler.
Context {W : Type} `{!AgentEnv W}.

Definition getProgType (_ : NsRec) : Internal.ProgramType := Internal.Kprobe.
Definition getBpfmanProgType (_ : NsRec) : BpfmanProgramType := BpfmanProgramType_UPROBE.
Definition getProgName (r : NsRec) : string := nsp_Name (currentProgram r).

Definition getAttachRequest (r : NsAt UprobeAttachInfoState) : GoM W AttachRequest :=
  let link := currentLink r in
  let attachInfo :=
    mkUprobeAttachInfo (Some (nsuprobes_Function link)) (to_uint64 (nsuprobes_Offset link))
      (nsuprobes_Target link) (nsuprobes_Pid link) (Some (to_int32 (nsuprobes_ContainerPid link)))
      (uuid_metadata (ai_UUID (nsuprobe_common link))) in
  programId ← deref (programId (at_rec r));
  mret (mkAttachRequest programId (AttachInfo_UprobeAttachInfo attachInfo)).

Definition getAppStateLinks (s : BpfApplicationProgramState) : option (slice UprobeAttachInfoState) :=
  if decide (nsps_Type s = ProgTypeUprobe) then Links <$> nsps_UProbe s
  else if decide (nsps_Type s = ProgTypeUretprobe) then Links <$> nsps_URetProbe s
  else Some (Some []).

(** Writing through the pointer [getAppStateLinks] returns: lost when it is
    the temporary slice. *)
Definition setAppStateLinks (links : slice UprobeAttachInfoState) (s : BpfApplicationProgramState)
    : BpfApplicationProgramState :=
  if decide (nsps_Type s = ProgTypeUprobe) then set_nsps_UProbe links s
  else if decide (nsps_Type s = ProgTypeUretprobe) then set_nsps_URetProbe links s
  else s.

Definition getAppLinks (p : BpfApplicationProgram) : list ApiTypes.UprobeAttachInfo :=
  if decide (nsp_Type p = ProgTypeUprobe) then spec_links (nsp_UProbe p)
  else if decide (nsp_Type p = ProgTypeUretprobe) then spec_links (nsp_URetProbe p)
  else [].

Definition same_link (a attachInfoState : UprobeAttachInfoState) : bool :=
  bool_decide (nsuprobes_Function a = nsuprobes_Function attachInfoState)
  && bool_decide (nsuprobes_Offset a = nsuprobes_Offset attachInfoState)
  && bool_decide (nsuprobes_Target a = nsuprobes_Target attachInfoState)
  && deep_equal (nsuprobes_Pid a) (nsuprobes_Pid attachInfoState)
  && bool_decide (nsuprobes_ContainerPid a = nsuprobes_ContainerPid attachInfoState).

Definition findLink (attachInfoState : UprobeAttachInfoState) (links : list UprobeAttachInfoState)
    : GoM W (result (option nat)) :=
  find_same same_link attachInfoState links.

Definition createContainerLink (attachInfo : ApiTypes.UprobeAttachInfo) (container : ContainerInfo)
    : GoM W UprobeAttachInfoState :=
  uuid ← lift uuid_New;
  mret (mkUprobeAttachInfoState (newCommon uuid) (nsuprobe_Function attachInfo)
          (nsuprobe_Offset attachInfo) (nsuprobe_Target attachInfo) (nsuprobe_Pid attachInfo) (pid container)).

Definition getExpectedLinks (r : NsRec) (attachInfo : ApiTypes.UprobeAttachInfo)
    : GoM W (result (list UprobeAttachInfoState)) :=
  let containers := nsuprobe_Containers attachInfo in
  containerInfo ← lift (GetContainers (rec_namespace r) (cs_Pods containers) (Some (cs_ContainerNames containers)));
  match containerInfo with
  | Err err => mret (Err ("failed to get container pids: " +:+ err))
  | Ok None => mret (Ok [])
  | Ok (Some containerInfo) =>
      nodeLinks ← mapM (createContainerLink attachInfo) containerInfo;
      mret (Ok nodeLinks)
  end.

Definition getProgramLoadInfo (r : NsRec) : GoM W LoadInfo :=
  mret (mkLoadInfo (getProgName r) (getBpfmanProgType r) None).

Definition kind : Kind W BpfApplicationProgram BpfApplicationProgramState
    ApiTypes.UprobeAttachInfo UprobeAttachInfoState := {|
  k_progType := Internal.Kprobe;
  k_bpfmanProgType := BpfmanProgramType_UPROBE;
  k_getAttachRequest := getAttachRequest;
  k_getProgramLoadInfo := getProgramLoadInfo;
  k_stateLinks := getAppStateLinks;
  k_setStateLinks := setAppStateLinks;
  k_appLinks := getAppLinks;
  k_getExpectedLinks := getExpectedLinks;
  k_findLink := findLink;
|}.

Definition accessors : LinkMethods W (NsAt UprobeAttachInfoState) := methods getAttachRequest.
Definition updateLinks (r : NsRec) (isBeingDeleted : bool) : GoM W (option error * NsRec) :=
  Links.updateLinks kind r isBeingDeleted.
Definition processLinks (r : NsRec) : GoM W (option error * NsRec) :=
  Links.processLinks kind r.
Definition updateProgramAttachStatus (r : NsRec) : GoM W NsRec :=
  Links.updateProgramAttachStatus kind r.
Definition removeLinks (links : slice UprobeAttachInfoState) (linksToRemove : gset nat)
    : slice UprobeAttachInfoState :=
  Links.removeLinks links linksToRemove.
End reconciler.
End NsUprobe.
