(* ===== verification/KindSpecs.v ===== *)
(** The thirteen kinds keep the laws the link reconciliation theorems assume
    ([KindLaws]); what a host promises about its namespaces ([HostLaws]), and what
    the lookups of interfaces, containers and links of a network kind do on such a
    host. *)

From S2P Require Import Prelude ApiTypes Constants Bpfman Selectors Links LinkSpecs.
From S2P Require Import LinkTheorems LinkUpdate Kinds ClKinds NsKinds.
From stdpp Require Import options.
#[local] Set Default Proof Using "Type*".

(** ** The laws of the accessors *)

Create HintDb kinds.
#[export] Hint Unfold ClXdp.stateLinks ClTc.stateLinks ClTcx.stateLinks ClFentry.stateLinks
  ClFexit.stateLinks ClTracepoint.stateLinks ClKprobe.getAppStateLinks ClKprobe.setAppStateLinks
  ClKretprobe.getAppStateLinks ClKretprobe.setAppStateLinks
  ClUprobe.getAppStateLinks ClUprobe.setAppStateLinks
  NsXdp.stateLinks NsTc.stateLinks NsTcx.stateLinks NsUprobe.getAppStateLinks
  NsUprobe.setAppStateLinks set_links set_fn_links set_clps_XDP set_clps_TC set_clps_TCX
  set_clps_FEntry set_clps_FExit set_clps_KProbe set_clps_KRetProbe set_clps_UProbe
  set_clps_URetProbe set_clps_TracePoint set_nsps_XDP set_nsps_TC set_nsps_TCX set_nsps_UProbe
  set_nsps_URetProbe set_clps_common set_nsps_common : kinds.
#[export] Hint Unfold ClXdp.getAttachRequest ClTc.getAttachRequest ClTcx.getAttachRequest
  ClFentry.getAttachRequest ClFexit.getAttachRequest ClTracepoint.getAttachRequest
  ClKprobe.getAttachRequest ClKretprobe.getAttachRequest ClUprobe.getAttachRequest
  NsXdp.getAttachRequest NsTc.getAttachRequest NsTcx.getAttachRequest
  NsUprobe.getAttachRequest : kinds.

(** The laws of a kind whose links are a field of every state ([owns] is true)
    or of the states of some types. *)
Ltac state_law :=
  intros; cbn in *; autounfold with kinds in *; cbn in *;
  repeat match goal with
    | s : ClBpfApplicationProgramState |- _ => destruct s; cbn in *
    | s : BpfApplicationProgramState |- _ => destruct s; cbn in *
    | H : is_Some _ |- _ => destruct H
    end;
  repeat case_decide; simplify_eq/=; try done;
  repeat match goal with
    | _ : context [_ <$> ?p] |- _ => is_var p; destruct p as [[]|]; simplify_eq/=
    end; try done.
Ltac request_law :=
  intros; cbn in *; autounfold with kinds;
  match goal with
  | Hp : programId _ = Some _ |- _ =>
      eexists; split; [|intros w; rewrite Hp; reflexivity]; reflexivity
  | Hp : programId _ = None |- _ => rewrite Hp; reflexivity
  end.
Ltac kind_laws owns :=
  unshelve econstructor; [exact owns|..]; [state_law|state_law|state_law|state_law|state_law|
    state_law|request_law|request_law].

Section kind_laws.
Context {W : Type} `{!AgentEnv W}.

#[export] Instance ClXdp_laws : KindLaws (ClXdp.kind (W := W)).
Proof. kind_laws (λ _ : ClBpfApplicationProgramState, true). Defined.
#[export] Instance ClTc_laws : KindLaws (ClTc.kind (W := W)).
Proof. kind_laws (λ _ : ClBpfApplicationProgramState, true). Defined.
#[export] Instance ClTcx_laws : KindLaws (ClTcx.kind (W := W)).
Proof. kind_laws (λ _ : ClBpfApplicationProgramState, true). Defined.
#[export] Instance ClFentry_laws : KindLaws (ClFentry.kind (W := W)).
Proof. kind_laws (λ _ : ClBpfApplicationProgramState, true). Defined.
#[export] Instance ClFexit_laws : KindLaws (ClFexit.kind (W := W)).
Proof. kind_laws (λ _ : ClBpfApplicationProgramState, true). Defined.
#[export] Instance ClTracepoint_laws : KindLaws (ClTracepoint.kind (W := W)).
Proof. kind_laws (λ _ : ClBpfApplicationProgramState, true). Defined.
#[export] Instance ClKprobe_laws : KindLaws (ClKprobe.kind (W := W)).
Proof. kind_laws (λ s, bool_decide (clps_Type s = ProgTypeKprobe)). Defined.
#[export] Instance ClKretprobe_laws : KindLaws (ClKretprobe.kind (W := W)).
Proof. kind_laws (λ s, bool_decide (clps_Type s = ProgTypeKretprobe)). Defined.
#[export] Instance ClUprobe_laws : KindLaws (ClUprobe.kind (W := W)).
Proof.
  kind_laws (λ s, bool_decide (clps_Type s = ProgTypeUprobe)
                  || bool_decide (clps_Type s = ProgTypeUretprobe)).
Defined.
#[export] Instance NsXdp_laws : KindLaws (NsXdp.kind (W := W)).
Proof. kind_laws (λ _ : BpfApplicationProgramState, true). Defined.
#[export] Instance NsTc_laws : KindLaws (NsTc.kind (W := W)).
Proof. kind_laws (λ _ : BpfApplicationProgramState, true). Defined.
#[export] Instance NsTcx_laws : KindLaws (NsTcx.kind (W := W)).
Proof. kind_laws (λ _ : BpfApplicationProgramState, true). Defined.
#[export] Instance NsUprobe_laws : KindLaws (NsUprobe.kind (W := W)).
Proof.
  kind_laws (λ s, bool_decide (nsps_Type s = ProgTypeUprobe)
                  || bool_decide (nsps_Type s = ProgTypeUretprobe)).
Defined.
End kind_laws.

(** ** The host during one pass *)

(** What a host answers: the id of the namespace of each path, its interfaces with
    their addresses, the interfaces the watcher has found, and the containers that a
    namespace, a selector of pods and a list of names select. *)
Record HostView := mkHostView {
  hv_netns : string → option Z;
  hv_ifaces : result (list (string * result (list NetAddr)));
  hv_discovered : list (Interface * bool);
  hv_containers : string → LabelSelector → option (list string) →
                  result (option (list ContainerInfo));
}.

(** The answers are those of the host's view, the map of the watcher in any order, and
    no question changes the view or the daemon's links. *)
Class HostLaws (W : Type) `{!AgentEnv W, !BpfmanLaws W} := {
  host_view : W → HostView;
  law_netns path w : (GetNetNsId path w).1 = hv_netns (host_view w) path;
  law_ifaces w : (net_Interfaces w).1 = hv_ifaces (host_view w);
  law_range w e : e ∈ (Interfaces_Range w).1 ↔ e ∈ hv_discovered (host_view w);
  law_containers ns sel names w :
    (GetContainers ns sel names w).1 = hv_containers (host_view w) ns sel names;
  law_netns_frame path w :
    host_view (GetNetNsId path w).2 = host_view w ∧ loaded (GetNetNsId path w).2 = loaded w;
  law_uuid_frame w :
    host_view (uuid_New w).2 = host_view w ∧ loaded (uuid_New w).2 = loaded w;
  law_range_frame w :
    host_view (Interfaces_Range w).2 = host_view w ∧ loaded (Interfaces_Range w).2 = loaded w;
  law_ifaces_frame w :
    host_view (net_Interfaces w).2 = host_view w ∧ loaded (net_Interfaces w).2 = loaded w;
  law_containers_frame ns sel names w :
    host_view (GetContainers ns sel names w).2 = host_view w ∧
    loaded (GetContainers ns sel names w).2 = loaded w;
}.

(** ** What an attach point stands for on a host *)

Section points.
Context {W : Type} `{!HostNet W, !Regexp} (v : HostView).

(** The interfaces that have an internal address of the node, in the order of the
    addresses. *)
Definition interfaces_with (addresses : list (string * string))
    (ifaces : list (string * result (list NetAddr))) : list string :=
  address ← filter (λ a, a.1 = NodeInternalIP) addresses;
  iface ← ifaces;
  match iface.2 with
  | Ok addrs => if existsb (address_matches address.2) addrs then [iface.1] else []
  | Err _ => []
  end.

(** The interfaces of a selector that does not discover them: those it lists, or the
    first that has an internal address of the node; [None] if there are none. *)
Definition wanted_interfaces (sel : InterfaceSelector) (node : Node) : option (list string) :=
  if decide (Interfaces sel ≠ []) then Some (Interfaces sel)
  else match PrimaryNodeInterface sel, hv_ifaces v with
       | Some _, Ok ifaces => (λ i, [i]) <$> head (interfaces_with (node_Addresses node) ifaces)
       | _, _ => None
       end.

Definition discovers (sel : InterfaceSelector) (config : InterfaceDiscovery) : Prop :=
  InterfacesDiscoveryConfig sel = Some config ∧ InterfaceAutoDiscovery config = Some true.

(** The first of the containers of a pod, which stands for its network namespace. *)
Definition pod_container (containers : option (list ContainerInfo)) (c : ContainerInfo) : Prop :=
  ∃ i, default [] containers !! i = Some c ∧
    ∀ j c', (j < i)%nat → default [] containers !! j = Some c' → podName c' ≠ podName c.

(** Attach points of a cluster-scoped program: an interface and the path of a network
    namespace, the empty one for the host's. *)
Inductive cl_point (sel : InterfaceSelector) (nns : option ClNetworkNamespaceSelector)
    (node : Node) : string * string → Prop :=
  | cl_discovered config intf :
      discovers sel config → (intf, true) ∈ hv_discovered v →
      admits config (intf, true) = true →
      cl_point sel nns node
        (if_Name intf, if decide (if_NSName intf = "") then "" else NetNsPath +:+ "/" +:+ if_NSName intf)
  | cl_in_pod ifaces iface nn containers c :
      (∀ config, ¬ discovers sel config) → wanted_interfaces sel node = Some ifaces →
      iface ∈ ifaces → nns = Some nn →
      hv_containers v (cnn_Namespace nn) (cnn_Pods nn) None = Ok containers →
      pod_container containers c →
      cl_point sel nns node (iface, "/host/proc/" +:+ pretty (pid c) +:+ "/ns/net")
  | cl_on_host ifaces iface :
      (∀ config, ¬ discovers sel config) → wanted_interfaces sel node = Some ifaces →
      iface ∈ ifaces → nns = None →
      cl_point sel nns node (iface, "").

(** They cannot be determined. *)
Definition cl_unknown (sel : InterfaceSelector) (nns : option ClNetworkNamespaceSelector)
    (node : Node) : Prop :=
  (∀ config, ¬ discovers sel config) ∧
  (wanted_interfaces sel node = None ∨
   ∃ nn e, nns = Some nn ∧ hv_containers v (cnn_Namespace nn) (cnn_Pods nn) None = Err e).

(** Those of a namespaced program, always in pods of the namespace [ns]; a selector that
    asks for discovery is not listened to. *)
Inductive ns_point (sel : InterfaceSelector) (nns : NetworkNamespaceSelector) (ns : string)
    (node : Node) : string * string → Prop :=
  | ns_in_pod ifaces iface containers c :
      wanted_interfaces sel node = Some ifaces → iface ∈ ifaces →
      hv_containers v ns (nn_Pods nns) None = Ok containers → pod_container containers c →
      ns_point sel nns ns node (iface, "/host/proc/" +:+ pretty (pid c) +:+ "/ns/net").

Definition ns_unknown (sel : InterfaceSelector) (nns : NetworkNamespaceSelector) (ns : string)
    (node : Node) : Prop :=
  wanted_interfaces sel node = None ∨ ∃ e, hv_containers v ns (nn_Pods nns) None = Err e.

(** An expansion [res] has the links that [entry] relates to the points in [point], or
    there is none, if they cannot be determined. *)
Definition expansion {Pt L} (point : Pt → Prop) (unknown : Prop) (entry : Pt → L → Prop)
    (res : option (list L)) : Prop :=
  match res with
  | Some ls => ¬ unknown ∧ ∃ points, (∀ pt, pt ∈ points ↔ point pt) ∧ Forall2 entry points ls
  | None => unknown
  end.

Definition one_link {L} (make : string → L) (res : option (list L)) : Prop :=
  ∃ uuid, res = Some [make uuid].

(** The containers that are selected. *)
Definition container_expansion {L} (ns : string) (pods : LabelSelector) (names : list string)
    : (ContainerInfo → L → Prop) → option (list L) → Prop :=
  expansion (λ c, ∃ cs, hv_containers v ns pods (Some names) = Ok cs ∧ c ∈ default [] cs)
    (∃ e, hv_containers v ns pods (Some names) = Err e).

Lemma interface_of_address_head address ifaces :
  interface_of_address address ifaces =
  head (iface ← ifaces;
        match iface.2 with
        | Ok addrs => if existsb (address_matches address) addrs then [iface.1] else []
        | Err _ => []
        end).
Proof.
  induction ifaces as [|[name [addrs|e]] ifaces IH]; cbn; [done| |done].
  by destruct (existsb _ addrs).
Qed.

Lemma primary_interface_head addresses ifaces :
  match primary_interface addresses ifaces with Ok i => Some i | Err _ => None end =
  head (interfaces_with addresses ifaces).
Proof.
  induction addresses as [|[type address] addresses IH]; [done|]. cbn [primary_interface].
  unfold interfaces_with in *. rewrite filter_cons. cbn [fst].
  destruct (decide (type = NodeInternalIP)) as [_|_]; [|exact IH].
  rewrite interface_of_address_head, bind_cons. cbn [snd].
  destruct (ifaces ≫= _) as [|i l]; cbn [app head]; [exact IH|done].
Qed.

Lemma discovers_enabled sel :
  if isInterfacesDiscoveryEnabled sel then ∃ config, discovers sel config
  else ∀ config, ¬ discovers sel config.
Proof.
  unfold isInterfacesDiscoveryEnabled, discovers.
  destruct (InterfacesDiscoveryConfig sel) as [c|]; [|naive_solver].
  destruct (InterfaceAutoDiscovery c) as [[]|] eqn:Hc; naive_solver.
Qed.

Lemma elem_of_container_points containers ifaces iface path :
  (iface, path) ∈ container_points containers ifaces ↔
  iface ∈ ifaces ∧ ∃ c, pod_container (Some containers) c ∧
    path = "/host/proc/" +:+ pretty (pid c) +:+ "/ns/net".
Proof.
  unfold container_points. rewrite list_elem_of_bind.
  setoid_rewrite list_elem_of_fmap. unfold pod_container. cbn.
  setoid_rewrite (proj2 (GetOneContainerPerPod_spec containers)). unfold netnsPathFromPID.
  naive_solver.
Qed.
End points.

Lemma wp_mapM {W A B} (f : A → GoM W B) (Inv : W → Prop) (R : A → B → Prop) l :
  (∀ a w, Inv w → wp (f a) (λ b w', Inv w' ∧ R a b) w) →
  ∀ w, Inv w → wp (mapM f l) (λ bs w', Inv w' ∧ Forall2 R l bs) w.
Proof.
  intros Hf. induction l as [|a l IH]; intros w Hw; simpl.
  { apply wpg_ret. by split. }
  wp_step. eapply wpg_mono; [by apply Hf|]. intros b w1 [Hw1 HR].
  wp_step. eapply wpg_mono; [by apply IH|]. intros bs w2 [Hw2 HRs].
  apply wpg_ret. split; [done|]. by constructor.
Qed.

Section host.
Context {W L : Type} `{!AgentEnv W, !BpfmanLaws W, !HostLaws W}
  (v : HostView) (m : gmap Z (gset Z)).

(** What a pass keeps of the outside. *)
Definition outside (w : W) : Prop := host_view w = v ∧ loaded w = m.

Lemma wp_uuid w (Q : string → W → Prop) :
  outside w → (∀ u w', outside w' → Q u w') → wp (lift uuid_New) Q w.
Proof.
  intros [Hv Hm] HQ. apply wpg_lift, HQ. destruct (law_uuid_frame w).
  split; congruence.
Qed.

Lemma wp_containers ns sel names w (Q : _ → W → Prop) :
  outside w → (∀ w', outside w' → Q (hv_containers v ns sel names) w') →
  wp (lift (GetContainers ns sel names)) Q w.
Proof.
  intros [Hv Hm] HQ. apply wpg_lift. rewrite law_containers, Hv. apply HQ.
  destruct (law_containers_frame ns sel names w). split; congruence.
Qed.

Lemma wp_netns path w (Q : option Z → W → Prop) :
  outside w → (∀ w', outside w' → Q (hv_netns v path) w') → wp (lift (GetNetNsId path)) Q w.
Proof.
  intros [Hv Hm] HQ. apply wpg_lift. rewrite law_netns, Hv. apply HQ.
  destruct (law_netns_frame path w). split; congruence.
Qed.

Lemma wp_getInterfaces sel node w :
  outside w → wp (getInterfaces sel node)
    (λ res w', outside w' ∧
       match res with Ok i => Some i | Err _ => None end = wanted_interfaces v sel node) w.
Proof.
  intros Hw. unfold getInterfaces, wanted_interfaces.
  destruct (decide (0 < length (Interfaces sel))%nat) as [Hlen|Hlen].
  { apply wpg_ret. split; [done|]. rewrite decide_True; [done|]. by destruct (Interfaces sel); [cbn in Hlen; lia|]. }
  rewrite (decide_False (P := Interfaces sel ≠ [])) by (destruct (Interfaces sel); [naive_solver|cbn in Hlen; lia]).
  destruct (PrimaryNodeInterface sel); [|by apply wpg_ret].
  unfold GetPrimaryNodeInterface. wp_step. wp_step. wp_step. apply wpg_ret, wpg_ret.
  destruct Hw as [Hv Hm]. split.
  - destruct (law_ifaces_frame w) as [H1 H2]. split; congruence.
  - rewrite law_ifaces, Hv. destruct (hv_ifaces v) as [ifs|]; [|done].
    rewrite <- primary_interface_head. by destruct (primary_interface _ ifs).
Qed.

Context (create : string → string → GoM W L) (entry : string * string → L → Prop).
Hypothesis wp_create : ∀ i p w, outside w →
  wp (create i p) (λ l w', outside w' ∧ entry (i, p) l) w.

Lemma wp_create_links points w :
  outside w → wp (create_links create points)
    (λ ls w', outside w' ∧ Forall2 entry points ls) w.
Proof using wp_create.
  intros Hw. unfold create_links. apply (wp_mapM _ outside entry); [|done].
  intros [i p] w' Hw'. by apply wp_create.
Qed.

(** The links of the points of which it is shown that they are those of [point]. *)
Lemma wp_create_expansion (point : string * string → Prop) (unknown : Prop) points w :
  outside w → ¬ unknown → (∀ pt, pt ∈ points ↔ point pt) →
  wp (nodeLinks ← create_links create points; mret (Ok nodeLinks) : GoM W (result (list L)))
    (λ res w', outside w' ∧
       expansion point unknown entry (match res with Ok ls => Some ls | Err _ => None end)) w.
Proof using Type* wp_create.
  intros Hw Hun Hpts. wp_step. eapply wpg_mono; [by apply wp_create_links|].
  intros ls w' [Hw' Hls]. apply wpg_ret. split; [done|]. split; [done|]. by exists points.
Qed.

Lemma wp_cl_net_getExpectedLinks sel nns node w :
  outside w → wp (cl_net_getExpectedLinks create sel nns node)
    (λ res w', outside w' ∧ expansion (cl_point v sel nns node) (cl_unknown v sel nns node) entry
       (match res with Ok ls => Some ls | Err _ => None end)) w.
Proof using Type* wp_create.
  intros Hw. unfold cl_net_getExpectedLinks. pose proof (discovers_enabled sel) as Hen.
  destruct (isInterfacesDiscoveryEnabled sel).
  - destruct Hen as [config Hc]. wp_step. eapply wpg_deref; [apply Hc|]. wp_step. wp_step.
    apply wp_create_expansion.
    { destruct Hw as [Hv Hm]. destruct (law_range_frame w) as [H1 H2]. split; congruence. }
    { intros [Hno _]. by apply (Hno config). }
    intros [i p]. rewrite list_elem_of_fmap.
    setoid_rewrite (proj2 (getDiscoveredInterfaces_spec config _)). setoid_rewrite law_range.
    rewrite (proj1 Hw). split.
    + intros (d & [= -> ->] & [intf b] & He & Ha & ->). cbn in Ha |- *.
      assert (b = true) as -> by (unfold admits in Ha; by destruct (setupAllowedInterfacesLists _), b).
      unfold interface_netns.
      replace (if decide (if_NSName intf ≠ "") then NetNsPath +:+ "/" +:+ if_NSName intf else "")
        with (if decide (if_NSName intf = "") then "" else NetNsPath +:+ "/" +:+ if_NSName intf)
        by by repeat case_decide.
      by apply (cl_discovered v sel nns node config).
    + inversion 1 as [config' intf Hc' Hin Ha Heq|? ? ? ? ? Hno|? ? Hno]; [|by destruct (Hno config)..].
      assert (config' = config) as -> by (destruct Hc, Hc'; congruence).
      exists (mkDiscoveredInterface (if_Name intf) (interface_netns intf)). split.
      * cbn. f_equal. unfold interface_netns. by repeat case_decide.
      * by exists (intf, true).
  - wp_step. eapply wpg_mono; [by apply wp_getInterfaces|]. intros [ifaces|e] w1 [Hw1 Hsel].
    2: { apply wpg_ret. split; [done|]. split; [done|by left]. }
    destruct nns as [nn|].
    + wp_step. apply wp_containers; [done|].
      destruct (hv_containers v (cnn_Namespace nn) (cnn_Pods nn) None) as [cs|e] eqn:Hcs; intros w2 Hw2.
      2: { apply wpg_ret. split; [done|]. split; [done|]. right. by eexists _, e. }
      assert (Hun : ¬ cl_unknown v sel (Some nn) node).
      { intros (_ & [Hn|(nn' & e & [= <-] & He)]); congruence. }
      assert (Hpts : ∀ i p, i ∈ ifaces ∧ (∃ c, pod_container cs c ∧
        p = "/host/proc/" +:+ pretty (pid c) +:+ "/ns/net") ↔ cl_point v sel (Some nn) node (i, p)).
      { intros i p. split.
        - intros (Hi & c & Hc & ->). by eapply cl_in_pod.
        - inversion 1 as [? ? Hd|ifs ? nn' cs' c _ Hifs Hi [= <-] Hcs' Hc|]; [by edestruct Hen| |done].
          assert (ifs = ifaces) as -> by congruence. assert (cs' = cs) as -> by congruence. eauto. }
      destruct cs as [cs|].
      * apply wp_create_expansion; [done..|]. intros [i p]. by rewrite elem_of_container_points, Hpts.
      * apply wpg_ret. split; [done|]. split; [done|]. exists []. split; [|constructor].
        intros [i p]. rewrite <- Hpts. split; [by intros ?%elem_of_nil|].
        intros (_ & c & (n & Hn & _) & _). by cbn in Hn; rewrite lookup_nil in Hn.
    + apply wp_create_expansion; [done| |].
      { intros (_ & [Hn|(nn' & e & [=] & _)]); congruence. }
      intros [i p]. rewrite list_elem_of_fmap. split.
      * intros (i' & [= -> ->] & Hi). by eapply cl_on_host.
      * inversion 1 as [? ? Hd| |ifs ? _ Hifs Hi]; [by edestruct Hen|done|].
        assert (ifs = ifaces) as -> by congruence. eauto.
Qed.

Lemma wp_ns_net_getExpectedLinks what sel nns ns node w :
  outside w → wp (ns_net_getExpectedLinks what create sel nns ns node)
    (λ res w', outside w' ∧
       expansion (ns_point v sel nns ns node) (ns_unknown v sel nns ns node) entry
         (match res with Ok ls => Some ls | Err _ => None end)) w.
Proof using Type* wp_create.
  intros Hw. unfold ns_net_getExpectedLinks.
  wp_step. eapply wpg_mono; [by apply wp_getInterfaces|]. intros [ifaces|e] w1 [Hw1 Hsel].
  2: { apply wpg_ret. split; [done|]. by left. }
  wp_step. apply wp_containers; [done|].
  destruct (hv_containers v ns (nn_Pods nns) None) as [cs|e] eqn:Hcs; intros w2 Hw2.
  2: { apply wpg_ret. split; [done|]. right. by eexists. }
  assert (Hun : ¬ ns_unknown v sel nns ns node).
  { intros [Hn|(e & He)]; congruence. }
  assert (Hpts : ∀ i p, i ∈ ifaces ∧ (∃ c, pod_container cs c ∧
    p = "/host/proc/" +:+ pretty (pid c) +:+ "/ns/net") ↔ ns_point v sel nns ns node (i, p)).
  { intros i p. split.
    - intros (Hi & c & Hc & ->). by eapply ns_in_pod.
    - inversion 1 as [ifs ? cs' c Hifs Hi Hcs' Hc].
      assert (ifs = ifaces) as -> by congruence. assert (cs' = cs) as -> by congruence. eauto. }
  destruct cs as [cs|].
  - apply wp_create_expansion; [done..|]. intros [i p]. by rewrite elem_of_container_points, Hpts.
  - apply wpg_ret. split; [done|]. split; [done|]. exists []. split; [|constructor].
    intros [i p]. rewrite <- Hpts. split; [by intros ?%elem_of_nil|].
    intros (_ & c & (n & Hn & _) & _). by cbn in Hn; rewrite lookup_nil in Hn.
Qed.
End host.

(** ** Finding a link by fields and namespace *)

Section net_find.
Context {W L F : Type} `{!AgentEnv W, !BpfmanLaws W, !HostLaws W, !EqDecision F}
  (v : HostView) (m : gmap Z (gset Z))
  (path : L → string) (fields : L → F) (same_fields : L → L → bool).
Hypothesis same_fields_spec : ∀ a l, same_fields a l = bool_decide (fields a = fields l).

(** The identity of a network link: its fields and its namespace, when the
    namespace can be read. *)
Definition net_key (l : L) : option (F * Z) := (λ n, (fields l, n)) <$> hv_netns v (path l).

Lemma wp_net_search l n links : ∀ i w (Q : option nat → W → Prop),
  hv_netns v (path l) = Some n → outside v m w →
  (∀ w', outside v m w' →
     Q (Nat.add i <$> find_index (λ a, bool_decide (net_key a = net_key l)) links) w') →
  wp (net_search path same_fields l n i links) Q w.
Proof using Type* same_fields_spec.
  induction links as [|a links IH]; intros i w Q Hn Hw HQ; simpl; [by apply wpg_ret, HQ|].
  assert (∀ w', outside v m w' → bool_decide (net_key a = net_key l) = false →
    wp (net_search path same_fields l n (S i) links) Q w') as Hnext.
  { intros w' Hw' Hb. apply IH; [done|done|]. intros w'' Hw''. specialize (HQ w'' Hw'').
    simpl in HQ. rewrite Hb in HQ. 
    destruct (find_index _ links) as [j|]; simpl in HQ |- *; [|done].
    by rewrite Nat.add_succ_r in HQ. }
  rewrite same_fields_spec. unfold net_key in Hnext, HQ. simpl in HQ. rewrite Hn in Hnext, HQ.
  destruct (bool_decide_reflect (fields a = fields l)) as [Hf|Hf].
  - wp_step. apply (wp_netns v m); [done|]. intros w' Hw'.
    destruct (decide (hv_netns v (path a) = Some n)) as [Ha|Ha].
    + apply wpg_ret. specialize (HQ w' Hw'). rewrite Ha in HQ. simpl in HQ.
      rewrite Hf, bool_decide_eq_true_2 in HQ by done. simpl in HQ. by rewrite Nat.add_0_r in HQ.
    + apply Hnext; [done|]. apply bool_decide_eq_false.
      destruct (hv_netns v (path a)); simpl; congruence.
  - apply Hnext; [done|]. apply bool_decide_eq_false.
    destruct (hv_netns v (path a)); simpl; congruence.
Qed.

Lemma wp_net_findLink l links w :
  outside v m w →
  wp (net_findLink path same_fields l links) (λ res w', outside v m w' ∧
    match net_key l with
    | None => ∃ e, res = Err e
    | Some _ => res = Ok (find_index (λ a, bool_decide (net_key a = net_key l)) links)
    end) w.
Proof using Type* same_fields_spec.
  intros Hw. unfold net_findLink. wp_step. apply (wp_netns v m); [done|]. intros w' Hw'.
  unfold net_key at 1. destruct (hv_netns v (path l)) as [n|] eqn:Hn; simpl.
  - wp_step. apply wp_net_search; [done|done|]. intros w'' Hw''. apply wpg_ret.
    split; [done|]. f_equal. by destruct (find_index _ links).
  - apply wpg_ret. split; [done|]. by eexists.
Qed.
End net_find.
