(* ===== verification/KindUpdates.v ===== *)
(** [UpdateSpec] for the thirteen kinds: the key by which each recognises a
    link, and the links each attach point of the spec expands to. *)

From S2P Require Import Prelude ApiTypes Constants Bpfman Selectors Links LinkSpecs.
From S2P Require Import LinkTheorems LinkUpdate Kinds ClKinds NsKinds KindSpecs.
From stdpp Require Import options.
#[local] Set Default Proof Using "Type*".

(** The field comparison of findLink is equality of the fields. *)
Ltac same_fields_law :=
  intros [] []; cbn; unfold deep_equal; rewrite <- ?bool_decide_and;
  apply bool_decide_ext; cbn; split; [intros; destruct_and?; congruence|intros; simplify_eq; tauto].

Ltac new_links :=
  apply Forall_forall; intros ? Hin;
  match goal with
  | Hls : Forall2 _ _ ?ls, Hin : _ ∈ ?ls |- _ =>
      apply list_elem_of_lookup in Hin as [? Hin];
      destruct (Forall2_lookup_r _ _ _ _ _ Hls Hin) as (? & _ & ? & ->); done
  end.

(** A one-field lookup is the search for the key. *)
Lemma wp_find_same {W L K} `{!EqDecision K} (same : L → L → bool) (key : L → K)
    (Inv : W → Prop) l links w :
  (∀ a b, same a b = bool_decide (key a = key b)) → Inv w →
  wp (find_same same l links) (λ res w', Inv w' ∧
    res = Ok (find_index (λ a, bool_decide (Some (key a) = Some (key l))) links)) w.
Proof.
  intros Hs Hw. apply wpg_ret. split; [done|].
  assert (∀ ls, find_index (λ a, same a l) ls =
    find_index (λ a, bool_decide (Some (key a) = Some (key l))) ls) as Hf; [|by rewrite Hf].
  induction ls as [|x ls IH]; simpl; [done|]. rewrite Hs, IH.
  assert (bool_decide (Some (key x) = Some (key l)) = bool_decide (key x = key l)) as ->
    by (apply bool_decide_ext; split; congruence). done.
Qed.

Section updates.
Context {W : Type} `{!AgentEnv W, !BpfmanLaws W, !HostLaws W}
  (v : HostView) (m : gmap Z (gset Z)).

Definition ClXdp_fields (l : ClXdpAttachInfoState) : string * Z * slice string :=
  (xdp_InterfaceName l, xdp_Priority l, xdp_ProceedOn l).
Definition ClXdp_entry (a : ClXdpAttachInfo) (pt : string * string) (l : ClXdpAttachInfoState) : Prop :=
  ∃ uuid, l = mkClXdpAttachInfoState (newCommon uuid) pt.1 pt.2
    (GetPriority (clxdp_Priority a)) (clxdp_ProceedOn a).
Definition ClXdp_expects (r : ClRec) (a : ClXdpAttachInfo) : option (list _) → Prop :=
  expansion (cl_point v (clxdp_InterfaceSelector a) (clxdp_NetworkNamespaces a) (rc_ourNode (rec_common r)))
    (cl_unknown v (clxdp_InterfaceSelector a) (clxdp_NetworkNamespaces a) (rc_ourNode (rec_common r))) (ClXdp_entry a).

#[export] Instance ClXdp_update :
  UpdateSpec (ClXdp.kind (W := W)) (outside v m) (net_key v xdp_NetnsPath ClXdp_fields)
    ClXdp_expects.
Proof.
  split.
  - intros f []; done.
  - intros l links w Hw. apply wp_net_findLink; [|done].
    unfold ClXdp.same_fields, ClXdp_fields. same_fields_law.
  - intros r a w Hw. eapply wpg_mono; [apply (wp_cl_net_getExpectedLinks v m _ (ClXdp_entry a)); [|done]|].
    + intros i p w' Hw'. unfold ClXdp.createLinkEntry. wp_step. eapply wp_uuid; [done|].
      intros u w'' Hw''. apply wpg_ret. split; [done|]. by exists u.
    + intros [ls|e] w' [Hw' Hres]; [|done]. split; [done|]. split; [exact Hres|].
      destruct Hres as (_ & points & _ & Hall). new_links.
Qed.

Definition ClTc_fields (l : ClTcAttachInfoState) : string * TCDirectionType * Z * slice string :=
  (tc_InterfaceName l, tc_Direction l, tc_Priority l, tc_ProceedOn l).
Definition ClTc_entry (a : ClTcAttachInfo) (pt : string * string) (l : ClTcAttachInfoState) : Prop :=
  ∃ uuid, l = mkClTcAttachInfoState (newCommon uuid) pt.1 pt.2 (cltc_Direction a)
    (GetPriority (cltc_Priority a)) (cltc_ProceedOn a).
Definition ClTc_expects (r : ClRec) (a : ClTcAttachInfo) : option (list _) → Prop :=
  expansion (cl_point v (cltc_InterfaceSelector a) (cltc_NetworkNamespaces a) (rc_ourNode (rec_common r)))
    (cl_unknown v (cltc_InterfaceSelector a) (cltc_NetworkNamespaces a) (rc_ourNode (rec_common r))) (ClTc_entry a).

#[export] Instance ClTc_update :
  UpdateSpec (ClTc.kind (W := W)) (outside v m) (net_key v tc_NetnsPath ClTc_fields)
    ClTc_expects.
Proof.
  split.
  - intros f []; done.
  - intros l links w Hw. apply wp_net_findLink; [|done].
    unfold ClTc.same_fields, ClTc_fields. same_fields_law.
  - intros r a w Hw. eapply wpg_mono; [apply (wp_cl_net_getExpectedLinks v m _ (ClTc_entry a)); [|done]|].
    + intros i p w' Hw'. unfold ClTc.createLinkEntry. wp_step. eapply wp_uuid; [done|].
      intros u w'' Hw''. apply wpg_ret. split; [done|]. by exists u.
    + intros [ls|e] w' [Hw' Hres]; [|done]. split; [done|]. split; [exact Hres|].
      destruct Hres as (_ & points & _ & Hall). new_links.
Qed.

Definition ClTcx_fields (l : ClTcxAttachInfoState) : string * TCDirectionType * Z :=
  (tcx_InterfaceName l, tcx_Direction l, tcx_Priority l).
Definition ClTcx_entry (a : ClTcxAttachInfo) (pt : string * string) (l : ClTcxAttachInfoState) : Prop :=
  ∃ uuid, l = mkClTcxAttachInfoState (newCommon uuid) pt.1 pt.2 (cltcx_Direction a)
    (GetPriority (cltcx_Priority a)).
Definition ClTcx_expects (r : ClRec) (a : ClTcxAttachInfo) : option (list _) → Prop :=
  expansion (cl_point v (cltcx_InterfaceSelector a) (cltcx_NetworkNamespaces a) (rc_ourNode (rec_common r)))
    (cl_unknown v (cltcx_InterfaceSelector a) (cltcx_NetworkNamespaces a) (rc_ourNode (rec_common r))) (ClTcx_entry a).

#[export] Instance ClTcx_update :
  UpdateSpec (ClTcx.kind (W := W)) (outside v m) (net_key v tcx_NetnsPath ClTcx_fields)
    ClTcx_expects.
Proof.
  split.
  - intros f []; done.
  - intros l links w Hw. apply wp_net_findLink; [|done].
    unfold ClTcx.same_fields, ClTcx_fields. same_fields_law.
  - intros r a w Hw. eapply wpg_mono; [apply (wp_cl_net_getExpectedLinks v m _ (ClTcx_entry a)); [|done]|].
    + intros i p w' Hw'. unfold ClTcx.createLinkEntry. wp_step. eapply wp_uuid; [done|].
      intros u w'' Hw''. apply wpg_ret. split; [done|]. by exists u.
    + intros [ls|e] w' [Hw' Hres]; [|done]. split; [done|]. split; [exact Hres|].
      destruct Hres as (_ & points & _ & Hall). new_links.
Qed.

Definition NsXdp_fields (l : XdpAttachInfoState) : string * Z * slice string :=
  (xdp_InterfaceName l, xdp_Priority l, xdp_ProceedOn l).
Definition NsXdp_entry (a : XdpAttachInfo) (pt : string * string) (l : XdpAttachInfoState) : Prop :=
  ∃ uuid, l = mkClXdpAttachInfoState (newCommon uuid) pt.1 pt.2
    (GetPriority (nsxdp_Priority a)) (nsxdp_ProceedOn a).
Definition NsXdp_expects (r : NsRec) (a : XdpAttachInfo) : option (list _) → Prop :=
  expansion (ns_point v (nsxdp_InterfaceSelector a) (nsxdp_NetworkNamespaces a) (rec_namespace r) (rc_ourNode (rec_common r)))
    (ns_unknown v (nsxdp_InterfaceSelector a) (nsxdp_NetworkNamespaces a) (rec_namespace r) (rc_ourNode (rec_common r)))
    (NsXdp_entry a).

#[export] Instance NsXdp_update :
  UpdateSpec (NsXdp.kind (W := W)) (outside v m) (net_key v xdp_NetnsPath NsXdp_fields)
    NsXdp_expects.
Proof.
  split.
  - intros f []; done.
  - intros l links w Hw. apply wp_net_findLink; [|done].
    unfold NsXdp.same_fields, NsXdp_fields. same_fields_law.
  - intros r a w Hw. eapply wpg_mono; [apply (wp_ns_net_getExpectedLinks v m _ (NsXdp_entry a)); [|done]|].
    + intros i p w' Hw'. unfold NsXdp.createLinkEntry. wp_step. eapply wp_uuid; [done|].
      intros u w'' Hw''. apply wpg_ret. split; [done|]. by exists u.
    + intros [ls|e] w' [Hw' Hres]; [|done]. split; [done|]. split; [exact Hres|].
      destruct Hres as (_ & points & _ & Hall). new_links.
Qed.

Definition NsTc_fields (l : TcAttachInfoState) : string * TCDirectionType * Z * slice string :=
  (tc_InterfaceName l, tc_Direction l, tc_Priority l, tc_ProceedOn l).
Definition NsTc_entry (a : TcAttachInfo) (pt : string * string) (l : TcAttachInfoState) : Prop :=
  ∃ uuid, l = mkClTcAttachInfoState (newCommon uuid) pt.1 pt.2 (nstc_Direction a)
    (GetPriority (nstc_Priority a)) (nstc_ProceedOn a).
Definition NsTc_expects (r : NsRec) (a : TcAttachInfo) : option (list _) → Prop :=
  expansion (ns_point v (nstc_InterfaceSelector a) (nstc_NetworkNamespaces a) (rec_namespace r) (rc_ourNode (rec_common r)))
    (ns_unknown v (nstc_InterfaceSelector a) (nstc_NetworkNamespaces a) (rec_namespace r) (rc_ourNode (rec_common r)))
    (NsTc_entry a).

#[export] Instance NsTc_update :
  UpdateSpec (NsTc.kind (W := W)) (outside v m) (net_key v tc_NetnsPath NsTc_fields)
    NsTc_expects.
Proof.
  split.
  - intros f []; done.
  - intros l links w Hw. apply wp_net_findLink; [|done].
    unfold NsTc.same_fields, NsTc_fields. same_fields_law.
  - intros r a w Hw. eapply wpg_mono; [apply (wp_ns_net_getExpectedLinks v m _ (NsTc_entry a)); [|done]|].
    + intros i p w' Hw'. unfold NsTc.createLinkEntry. wp_step. eapply wp_uuid; [done|].
      intros u w'' Hw''. apply wpg_ret. split; [done|]. by exists u.
    + intros [ls|e] w' [Hw' Hres]; [|done]. split; [done|]. split; [exact Hres|].
      destruct Hres as (_ & points & _ & Hall). new_links.
Qed.

Definition NsTcx_fields (l : TcxAttachInfoState) : string * TCDirectionType * Z :=
  (tcx_InterfaceName l, tcx_Direction l, tcx_Priority l).
Definition NsTcx_entry (a : TcxAttachInfo) (pt : string * string) (l : TcxAttachInfoState) : Prop :=
  ∃ uuid, l = mkClTcxAttachInfoState (newCommon uuid) pt.1 pt.2 (nstcx_Direction a)
    (GetPriority (nstcx_Priority a)).
Definition NsTcx_expects (r : NsRec) (a : TcxAttachInfo) : option (list _) → Prop :=
  expansion (ns_point v (nstcx_InterfaceSelector a) (nstcx_NetworkNamespaces a) (rec_namespace r) (rc_ourNode (rec_common r)))
    (ns_unknown v (nstcx_InterfaceSelector a) (nstcx_NetworkNamespaces a) (rec_namespace r) (rc_ourNode (rec_common r)))
    (NsTcx_entry a).

#[export] Instance NsTcx_update :
  UpdateSpec (NsTcx.kind (W := W)) (outside v m) (net_key v tcx_NetnsPath NsTcx_fields)
    NsTcx_expects.
Proof.
  split.
  - intros f []; done.
  - intros l links w Hw. apply wp_net_findLink; [|done].
    unfold NsTcx.same_fields, NsTcx_fields. same_fields_law.
  - intros r a w Hw. eapply wpg_mono; [apply (wp_ns_net_getExpectedLinks v m _ (NsTcx_entry a)); [|done]|].
    + intros i p w' Hw'. unfold NsTcx.createLinkEntry. wp_step. eapply wp_uuid; [done|].
      intros u w'' Hw''. apply wpg_ret. split; [done|]. by exists u.
    + intros [ls|e] w' [Hw' Hres]; [|done]. split; [done|]. split; [exact Hres|].
      destruct Hres as (_ & points & _ & Hall). new_links.
Qed.

Definition ClFentry_key (l : ClFentryAttachInfoState) : option (unit) := Some tt.
Definition ClFentry_expects (_ : ClRec) (a : ClFentryAttachInfo)
    : option (list ClFentryAttachInfoState) → Prop :=
  one_link (λ uuid, mkClFentryAttachInfoState (newCommon uuid)).

#[export] Instance ClFentry_update :
  UpdateSpec (ClFentry.kind (W := W)) (outside v m) ClFentry_key ClFentry_expects.
Proof.
  split.
  - intros f []; done.
  - intros l links w Hw. apply (wpg_ret False). split; [done|].
    destruct links; reflexivity.
  - intros r a w Hw. cbn. unfold ClFentry.getExpectedLinks. wp_step.
    eapply wp_uuid; [done|]. intros u w' Hw'. apply wpg_ret. split; [done|].
    split; [by exists u|]. by repeat constructor.
Qed.

Definition ClFexit_key (l : ClFexitAttachInfoState) : option (unit) := Some tt.
Definition ClFexit_expects (_ : ClRec) (a : ClFexitAttachInfo)
    : option (list ClFexitAttachInfoState) → Prop :=
  one_link (λ uuid, mkClFexitAttachInfoState (newCommon uuid)).

#[export] Instance ClFexit_update :
  UpdateSpec (ClFexit.kind (W := W)) (outside v m) ClFexit_key ClFexit_expects.
Proof.
  split.
  - intros f []; done.
  - intros l links w Hw. apply (wpg_ret False). split; [done|].
    destruct links; reflexivity.
  - intros r a w Hw. cbn. unfold ClFexit.getExpectedLinks. wp_step.
    eapply wp_uuid; [done|]. intros u w' Hw'. apply wpg_ret. split; [done|].
    split; [by exists u|]. by repeat constructor.
Qed.

Definition ClKprobe_key (l : ClKprobeAttachInfoState) : option (string * Z) := Some (kprobe_Function l, kprobe_Offset l).
Definition ClKprobe_expects (_ : ClRec) (a : ClKprobeAttachInfo)
    : option (list ClKprobeAttachInfoState) → Prop :=
  one_link (λ uuid, mkClKprobeAttachInfoState (newCommon uuid) (clkprobe_Function a) (clkprobe_Offset a)).

#[export] Instance ClKprobe_update :
  UpdateSpec (ClKprobe.kind (W := W)) (outside v m) ClKprobe_key ClKprobe_expects.
Proof.
  split.
  - intros f []; done.
  - intros l links w Hw. cbn. apply (wp_find_same _ (λ l, (kprobe_Function l, kprobe_Offset l))); [|done].
    unfold ClKprobe.same_link. same_fields_law.
  - intros r a w Hw. cbn. unfold ClKprobe.getExpectedLinks. wp_step.
    eapply wp_uuid; [done|]. intros u w' Hw'. apply wpg_ret. split; [done|].
    split; [by exists u|]. by repeat constructor.
Qed.

Definition ClKretprobe_key (l : ClKretprobeAttachInfoState) : option (string) := Some (kretprobe_Function l).
Definition ClKretprobe_expects (_ : ClRec) (a : ClKretprobeAttachInfo)
    : option (list ClKretprobeAttachInfoState) → Prop :=
  one_link (λ uuid, mkClKretprobeAttachInfoState (newCommon uuid) (clkretprobe_Function a)).

#[export] Instance ClKretprobe_update :
  UpdateSpec (ClKretprobe.kind (W := W)) (outside v m) ClKretprobe_key ClKretprobe_expects.
Proof.
  split.
  - intros f []; done.
  - intros l links w Hw. cbn. apply (wp_find_same _ (λ l, kretprobe_Function l)); [|done].
    unfold ClKretprobe.same_link. same_fields_law.
  - intros r a w Hw. cbn. unfold ClKretprobe.getExpectedLinks. wp_step.
    eapply wp_uuid; [done|]. intros u w' Hw'. apply wpg_ret. split; [done|].
    split; [by exists u|]. by repeat constructor.
Qed.

Definition ClTracepoint_key (l : ClTracepointAttachInfoState) : option (string) := Some (tracepoint_Name l).
Definition ClTracepoint_expects (_ : ClRec) (a : ClTracepointAttachInfo)
    : option (list ClTracepointAttachInfoState) → Prop :=
  one_link (λ uuid, mkClTracepointAttachInfoState (newCommon uuid) (cltracepoint_Name a)).

#[export] Instance ClTracepoint_update :
  UpdateSpec (ClTracepoint.kind (W := W)) (outside v m) ClTracepoint_key ClTracepoint_expects.
Proof.
  split.
  - intros f []; done.
  - intros l links w Hw. cbn. apply (wp_find_same _ (λ l, tracepoint_Name l)); [|done].
    unfold ClTracepoint.same_link. same_fields_law.
  - intros r a w Hw. cbn. unfold ClTracepoint.getExpectedLinks. wp_step.
    eapply wp_uuid; [done|]. intros u w' Hw'. apply wpg_ret. split; [done|].
    split; [by exists u|]. by repeat constructor.
Qed.

Definition ClUprobe_key (l : ClUprobeAttachInfoState) : option (string * Z * string * option Z * option Z) :=
  Some (cluprobes_Function l, cluprobes_Offset l, cluprobes_Target l,
  cluprobes_Pid l, cluprobes_ContainerPid l).
Definition ClUprobe_entry (a : ClUprobeAttachInfo) (cpid : option Z) (l : ClUprobeAttachInfoState) : Prop :=
  ∃ uuid, l = mkClUprobeAttachInfoState (newCommon uuid) (cluprobe_Function a) (cluprobe_Offset a)
    (cluprobe_Target a) (cluprobe_Pid a) cpid.
Definition ClUprobe_expects (_ : ClRec) (a : ClUprobeAttachInfo) : option (list _) → Prop :=
  match cluprobe_Containers a with
  | None => one_link (λ uuid, mkClUprobeAttachInfoState (newCommon uuid) (cluprobe_Function a)
      (cluprobe_Offset a) (cluprobe_Target a) (cluprobe_Pid a) None)
  | Some c => container_expansion v (ccs_Namespace c) (ccs_Pods c) (ccs_ContainerNames c)
      (λ c, ClUprobe_entry a (Some (pid c)))
  end.

(** The text that the two uprobe kinds share. *)
Lemma wp_container_links {L} (create : ContainerInfo → GoM W L) (entry : ContainerInfo → L → Prop)
    ns pods names w :
  (∀ c w, outside v m w → wp (create c) (λ l w', outside v m w' ∧ entry c l) w) →
  outside v m w →
  wp (containerInfo ← lift (GetContainers ns pods (Some names));
      match containerInfo with
      | Err err => mret (Err ("failed to get container pids: " +:+ err))
      | Ok None => mret (Ok [])
      | Ok (Some containerInfo) => nodeLinks ← mapM create containerInfo; mret (Ok nodeLinks)
      end)
    (λ res w', outside v m w' ∧
       container_expansion v ns pods names entry
         (match res with Ok ls => Some ls | Err _ => None end)) w.
Proof.
  intros Hc Hw. wp_step. apply (wp_containers v m); [done|]. unfold container_expansion.
  destruct (hv_containers v ns pods (Some names)) as [[cs|]|e] eqn:Hcs; intros w' Hw'.
  - wp_step. eapply wpg_mono; [by apply (wp_mapM _ (outside v m) entry)|].
    intros ls w2 [Hw2 Hls]. apply wpg_ret. split; [done|]. split; [by intros [? ?]|].
    exists cs. split; [|done]. intros c. split; [by intros Hin; exists (Some cs)|by intros (? & [= <-] & ?)].
  - apply wpg_ret. split; [done|]. split; [by intros [? ?]|]. exists []. split; [|constructor].
    intros c. split; [by intros ?%elem_of_nil|by intros (? & [= <-] & ?)].
  - apply wpg_ret. split; [done|]. by exists e.
Qed.

#[export] Instance ClUprobe_update :
  UpdateSpec (ClUprobe.kind (W := W)) (outside v m) ClUprobe_key ClUprobe_expects.
Proof.
  split.
  - intros f []; done.
  - intros l links w Hw. cbn. apply (wp_find_same _ (λ l, (cluprobes_Function l, cluprobes_Offset l, cluprobes_Target l,
  cluprobes_Pid l, cluprobes_ContainerPid l))); [|done].
    unfold ClUprobe.same_link. same_fields_law.
  - intros r a w Hw. cbn. unfold ClUprobe.getExpectedLinks, ClUprobe_expects.
    destruct (cluprobe_Containers a) as [c|].
    + eapply wpg_mono; [apply (wp_container_links _ (λ c, ClUprobe_entry a (Some (pid c)))); [|done]|].
      * intros c' w' Hw'. unfold ClUprobe.createContainerLink. wp_step. eapply wp_uuid; [done|].
        intros u w'' Hw''. apply wpg_ret. split; [done|]. by exists u.
      * intros [ls|e] w' [Hw' Hres]; [|done]. split; [done|]. split; [exact Hres|].
        destruct Hres as (_ & points & _ & Hall). new_links.
    + wp_step. eapply wp_uuid; [done|]. intros u w' Hw'. apply wpg_ret. split; [done|].
      split; [by exists u|]. by repeat constructor.
Qed.

Definition NsUprobe_key (l : UprobeAttachInfoState) : option (string * Z * string * option Z * Z) :=
  Some (nsuprobes_Function l, nsuprobes_Offset l, nsuprobes_Target l,
  nsuprobes_Pid l, nsuprobes_ContainerPid l).
Definition NsUprobe_entry (a : ApiTypes.UprobeAttachInfo) (c : ContainerInfo) (l : UprobeAttachInfoState) : Prop :=
  ∃ uuid, l = mkUprobeAttachInfoState (newCommon uuid) (nsuprobe_Function a) (nsuprobe_Offset a)
    (nsuprobe_Target a) (nsuprobe_Pid a) (pid c).
Definition NsUprobe_expects (r : NsRec) (a : ApiTypes.UprobeAttachInfo) : option (list _) → Prop :=
  container_expansion v (rec_namespace r) (cs_Pods (nsuprobe_Containers a))
    (cs_ContainerNames (nsuprobe_Containers a)) (NsUprobe_entry a).

#[export] Instance NsUprobe_update :
  UpdateSpec (NsUprobe.kind (W := W)) (outside v m) NsUprobe_key NsUprobe_expects.
Proof.
  split.
  - intros f []; done.
  - intros l links w Hw. cbn. apply (wp_find_same _ (λ l, (nsuprobes_Function l, nsuprobes_Offset l, nsuprobes_Target l,
  nsuprobes_Pid l, nsuprobes_ContainerPid l))); [|done].
    unfold NsUprobe.same_link. same_fields_law.
  - intros r a w Hw. eapply wpg_mono; [apply (wp_container_links _ (NsUprobe_entry a)); [|done]|].
    + intros c' w' Hw'. unfold NsUprobe.createContainerLink. wp_step. eapply wp_uuid; [done|].
      intros u w'' Hw''. apply wpg_ret. split; [done|]. by exists u.
    + intros [ls|e] w' [Hw' Hres]; [|done]. split; [done|]. split; [exact Hres|].
      destruct Hres as (_ & points & _ & Hall). new_links.
Qed.
End updates.
