(* ===== verification/KindTheorems.v ===== *)
(** The contract of reconcileProgram for each program kind of both scopes: the
    generic theorem at the thirteen kinds, with the key each recognises a link by
    and the links each attach point of the spec expands to. *)

From S2P Require Import Prelude ApiTypes Constants Bpfman Selectors Links LinkSpecs.
From S2P Require Import LinkTheorems LinkUpdate Kinds ClKinds NsKinds KindSpecs KindUpdates.
From stdpp Require Import options.
#[local] Set Default Proof Using "Type*".

Section kinds.
Context {W : Type} `{!AgentEnv W, !BpfmanLaws W, !HostLaws W}
  (v : HostView) (m : gmap Z (gset Z)).

(** C3: every cluster-scoped kind reaches its specification: on a host that answers as
    the view [v] says and a daemon that serves what it can, a reconcile of a loaded
    program ends with exactly one attached link for each key that the spec's attach
    points stand for, and with no other link. For XDP, TC and TCX a point is each
    discovered interface that the selector admits; or each listed interface, or the
    primary one of the node, in the host's namespace or in that of each pod that the
    selector of pods finds in its namespace ([cl_point]); for a uprobe it is each selected
    container, or the node; for the other kinds the function, offset or tracepoint. If
    the interfaces or containers of an attach point cannot be determined ([cl_unknown]),
    and only then, nothing is attached or detached and the status says so. *)
Theorem cl_kinds_reach_spec :
  reaches_spec (W := W) ClXdp.kind (outside v m) (net_key v xdp_NetnsPath ClXdp_fields) (ClXdp_expects v) ∧
  reaches_spec (W := W) ClTc.kind (outside v m) (net_key v tc_NetnsPath ClTc_fields) (ClTc_expects v) ∧
  reaches_spec (W := W) ClTcx.kind (outside v m) (net_key v tcx_NetnsPath ClTcx_fields) (ClTcx_expects v) ∧
  reaches_spec (W := W) ClFentry.kind (outside v m) ClFentry_key ClFentry_expects ∧
  reaches_spec (W := W) ClFexit.kind (outside v m) ClFexit_key ClFexit_expects ∧
  reaches_spec (W := W) ClKprobe.kind (outside v m) ClKprobe_key ClKprobe_expects ∧
  reaches_spec (W := W) ClKretprobe.kind (outside v m) ClKretprobe_key ClKretprobe_expects ∧
  reaches_spec (W := W) ClUprobe.kind (outside v m) ClUprobe_key (ClUprobe_expects v) ∧
  reaches_spec (W := W) ClTracepoint.kind (outside v m) ClTracepoint_key ClTracepoint_expects.
Proof. repeat apply conj; refine (kind_reaches_spec _ _ _ _). Qed.

(** C4: so does every namespace-scoped kind, whose attach points are always in pods, or,
    for a uprobe, in containers, of the namespace that the program's reconciler was made
    with ([ns_point]). *)
Theorem ns_kinds_reach_spec :
  reaches_spec (W := W) NsXdp.kind (outside v m) (net_key v xdp_NetnsPath NsXdp_fields) (NsXdp_expects v) ∧
  reaches_spec (W := W) NsTc.kind (outside v m) (net_key v tc_NetnsPath NsTc_fields) (NsTc_expects v) ∧
  reaches_spec (W := W) NsTcx.kind (outside v m) (net_key v tcx_NetnsPath NsTcx_fields) (NsTcx_expects v) ∧
  reaches_spec (W := W) NsUprobe.kind (outside v m) NsUprobe_key (NsUprobe_expects v).
Proof. repeat apply conj; refine (kind_reaches_spec _ _ _ _). Qed.
End kinds.
