(* ===== verification/Application.v ===== *)
(** The application reconcilers of the agent: reconcileLoad,
    updateBpfAppStateCondition, isNodeSelected and removeFinalizer of
    controllers/bpfman-agent/common.go against the [ApplicationReconciler]
    interface, and the methods that cl_application_program.go and
    ns_application_program.go write with the same text. What differs between
    the two is the record [AppKind]. *)

From Stdlib Require Import Ascii.
From S2P Require Import Prelude ApiTypes Constants Bpfman Selectors Links.
From stdpp Require Import options.

(** ** The outside: API server, clock, libraries *)

(** [labelSelectorAsSelector] is metav1.LabelSelectorAsSelector, a selector being
    its [Matches]; [nodeLabelSet] is ConvertSelectorToLabelsMap after
    FormatLabels. *)
Class LabelLib := {
  labelSelectorAsSelector : LabelSelector → result (gmap string string → bool);
  nodeLabelSet : gmap string string → result (gmap string string);
}.

(** The image reference library, and the credentials of a pull secret by
    registry domain. *)
Class BytecodeLib (W : Type) := {
  reference_Domain : string → result string;
  ParseAuth : string → string → W → result (option (gmap string (string * string))) * W;
}.

(** The API server's objects of one scope, the clock, and the ticks of a poll
    ([false] once the poll's deadline has passed or its context has ended).
    Create and updates return the object as the server has it. *)
Class ApplicationAPI (W P PS : Type) := {
  api_GetNode : string → W → result Node * W;
  api_ListApps : W → result (list (Application P)) * W;
  api_ListStates : option string → gmap string string → W → result (list (AppState PS)) * W;
  api_Create : AppState PS → W → result (AppState PS) * W;
  api_Update : AppState PS → W → result (AppState PS) * W;
  api_StatusUpdate : AppState PS → W → result (AppState PS) * W;
  api_SetControllerReference : Application P → AppState PS → result (AppState PS);
  time_Now : W → Z * W;
  poll_tick : W → bool * W;
}.

(** ** Small pieces *)

(** meta.SetStatusCondition of the vendored apimachinery. *)
Definition FindStatusCondition (conditions : list Condition) (type : string) : option nat :=
  find_index (λ c, bool_decide (cond_Type c = type)) conditions.

Definition merge_condition (now : Z) (old new : Condition) : Condition :=
  mkCondition (cond_Type old) (cond_Status new) (cond_ObservedGeneration new)
    (if decide (cond_Status old = cond_Status new) then cond_LastTransitionTime old
     else match cond_LastTransitionTime new with Some t => Some t | None => Some now end)
    (cond_Reason new) (cond_Message new).

Definition SetStatusCondition (now : Z) (conditions : slice Condition) (newCondition : Condition)
    : slice Condition :=
  match FindStatusCondition (elems conditions) (cond_Type newCondition) with
  | None =>
      go_append conditions
        (match cond_LastTransitionTime newCondition with
         | Some _ => newCondition
         | None => mkCondition (cond_Type newCondition) (cond_Status newCondition)
                     (cond_ObservedGeneration newCondition) (Some now)
                     (cond_Reason newCondition) (cond_Message newCondition)
         end)
  | Some i => Some (alter (λ old, merge_condition now old newCondition) i (elems conditions))
  end.

(** controllerutil.RemoveFinalizer *)
Definition RemoveFinalizer (finalizer : string) (o : ObjectMeta) : bool * ObjectMeta :=
  let f := filter (λ x, x ≠ finalizer) (om_Finalizers o) in
  (bool_decide (length (om_Finalizers o) ≠ length f), set_Finalizers f o).

Definition isNodeSelected `{!LabelLib} (selector : LabelSelector)
    (nodeLabels : gmap string string) : result bool :=
  match labelSelectorAsSelector selector with
  | Err err => Err ("failed to parse nodeSelector: " +:+ err)
  | Ok selectorTool =>
      match nodeLabelSet nodeLabels with
      | Err err => Err ("failed to parse node labels : " +:+ err)
      | Ok nodeLabelSet => Ok (selectorTool nodeLabelSet)
      end
  end.

(** bpfman_core.go: GetBytecode *)
Definition GetBytecode {W} `{!BytecodeLib W} (b : ByteCodeSelector)
    : GoM W (result BytecodeLocation) :=
  match Image b with
  | Some bytecodeImage =>
      match reference_Domain (Url bytecodeImage) with
      | Err err => mret (Err err)
      | Ok domain =>
          let location username password :=
            Ok (BytecodeLocation_Image (Url bytecodeImage)
                  (imagePullPolicyConversion (ImagePullPolicy bytecodeImage)) username password) in
          match ImagePullSecret bytecodeImage with
          | None => mret (location "" "")
          | Some secret =>
              creds ← lift (ParseAuth (ips_Name secret) (ips_Namespace secret));
              match creds with
              | Err err => mret (Err err)
              | Ok None => 
                  mret (Err ("no registry credentials found in secret: &{" +:+ ips_Name secret
                             +:+ " " +:+ ips_Namespace secret +:+ "}"))
              | Ok (Some creds) =>
                  let domain :=
                    if decide (domain = "docker.io" ∨ domain = "")
                    then "https://index.docker.io/v1/" else domain in
                  let '(username, password) := default ("", "") (creds !! domain) in
                  mret (location username password)
              end
          end
      end
  | None =>
      path ← deref (Path b);
      mret (Ok (BytecodeLocation_File path))
  end.

(** [%#v] of a string with no character that needs an escape. *)
Definition go_quote (s : string) : string :=
  String.String "034"%char s +:+ String.String "034"%char EmptyString.

(** generateUniqueName *)
Definition generateUniqueName {W} `{!UUIDSource W} (baseName : string) : GoM W string :=
  uuid ← lift uuid_New;
  mret (baseName +:+ "-" +:+ String.substring 0 8 uuid).

(** ** common.go: the [ApplicationReconciler] interface and what uses it *)

Record ApplicationReconciler (W T : Type) := mkApplicationReconciler {
  getNode : T → Node;
  getNodeSelector : T → LabelSelector;
  getAppStateConditions : T → slice Condition;
  clearAppStateConditions : T → T;
  setAppStateConditions : Condition → T → GoM W T;
  isBeingDeleted : T → bool;
  setAppLoadStatus : AppLoadStatus → T → T;
  validateProgramList : T → GoM W (option error);
  load : T → GoM W (option error * T);
  isLoaded : T → GoM W bool;
  unload : T → GoM W T;
}.
Arguments getNode {_ _} _ _.
Arguments getNodeSelector {_ _} _ _.
Arguments getAppStateConditions {_ _} _ _.
Arguments clearAppStateConditions {_ _} _ _.
Arguments setAppStateConditions {_ _} _ _ _.
Arguments isBeingDeleted {_ _} _ _.
Arguments setAppLoadStatus {_ _} _ _ _.
Arguments validateProgramList {_ _} _ _.
Arguments load {_ _} _ _.
Arguments isLoaded {_ _} _ _.
Arguments unload {_ _} _ _.

Section common.
Context {W T : Type} `{!LabelLib} (M : ApplicationReconciler W T).

Definition reconcileLoad (rec : T) : GoM W (option error * T) :=
  match isNodeSelected (getNodeSelector M rec) (om_Labels (node_meta (getNode M rec))) with
  | Err err => mret (Some ("check if node is selected failed: " +:+ err), rec)
  | Ok selected =>
      if negb selected then
        rec ← unload M rec;
        mret (None, setAppLoadStatus M NotSelected rec)
      else if isBeingDeleted M rec then
        rec ← unload M rec;
        mret (None, setAppLoadStatus M AppUnLoadSuccess rec)
      else
        err ← validateProgramList M rec;
        match err with
        | Some err => mret (Some err, setAppLoadStatus M ProgListChangedError rec)
        | None =>
            loaded ← isLoaded M rec;
            if loaded : bool then mret (None, setAppLoadStatus M AppLoadSuccess rec)
            else
              '(err, rec) ← load M rec;
              match err with
              | Some err =>
                  mret (Some ("failed to load program: " +:+ err),
                        setAppLoadStatus M AppLoadError rec)
              | None => mret (None, setAppLoadStatus M AppLoadSuccess rec)
              end
        end
  end.

(** The returned flag says whether the conditions were replaced. *)
Definition updateBpfAppStateCondition (condition : BpfApplicationStateConditionType) (rec : T)
    : GoM W (bool * T) :=
  let set rec :=
    rec ← setAppStateConditions M (BpfApplicationStateConditionType_Condition condition) rec;
    mret (true, rec) in
  match elems (getAppStateConditions M rec) with
  | [] => set rec
  | [c] =>
      if decide (cond_Type c = condition) then mret (false, rec)
      else set (clearAppStateConditions M rec)
  | _ => set (clearAppStateConditions M rec)
  end.
End common.

(** ** What the two application reconcilers differ in *)

(** A [ProgramReconciler] value: the methods the application reconciler calls. *)
Record ProgramReconciler (W P PS : Type) := mkProgramReconciler {
  pr_reconcileProgram : ProgRec P PS → bool → GoM W (option error * ProgRec P PS);
  pr_getProgramLoadInfo : ProgRec P PS → GoM W LoadInfo;
}.
Arguments mkProgramReconciler {_ _ _} _ _.
Arguments pr_reconcileProgram {_ _ _} _ _ _.
Arguments pr_getProgramLoadInfo {_ _ _} _ _.

Definition of_kind {W P PS A L} `{!BpfmanClient W, !LinkState L, !ProgramState PS}
    (k : Kind W P PS A L) : ProgramReconciler W P PS :=
  mkProgramReconciler (reconcileProgram k) (k_getProgramLoadInfo k).

Record AppKind (W P PS : Type) := mkAppKind {
  ak_finalizer : string;
  (** The text of the error when the applications cannot be listed. *)
  ak_listError : string;
  ak_progName : P → string;
  (** The namespace of an application's states; [None] for cluster scope. *)
  ak_namespace : Application P → option string;
  ak_getProgState : P → list PS → GoM W (result nat);
  ak_getProgramReconciler : P → PS → result (ProgramReconciler W P PS);
  (** The switch of initializeNodeProgramList on the program's type. *)
  ak_newProgState : P → GoM W (result PS);
  ak_deleteLinks : PS → GoM W PS;
}.
Arguments ak_finalizer {_ _ _} _.
Arguments ak_listError {_ _ _} _.
Arguments ak_progName {_ _ _} _ _.
Arguments ak_namespace {_ _ _} _ _.
Arguments ak_getProgState {_ _ _} _ _ _.
Arguments ak_getProgramReconciler {_ _ _} _ _ _.
Arguments ak_newProgState {_ _ _} _ _.
Arguments ak_deleteLinks {_ _ _} _ _.

(** The reconciler with [currentApp] and [currentAppState] set. *)
Record AppRec (P PS : Type) := mkAppRec {
  app_rc : ReconcilerCommon;
  currentApp : Application P;
  currentAppState : AppState PS;
}.
Arguments mkAppRec {_ _} _ _ _.
Arguments app_rc {_ _} _.
Arguments currentApp {_ _} _.
Arguments currentAppState {_ _} _.

Section status_setters.
Context {P PS : Type}.

Definition with_status (f : AppStateStatus PS → AppStateStatus PS) (r : AppRec P PS)
    : AppRec P PS :=
  mkAppRec (app_rc r) (currentApp r)
    (mkAppState (as_meta (currentAppState r)) (f (as_Status (currentAppState r)))).

Definition with_appState (an : AppState PS) (r : AppRec P PS) : AppRec P PS :=
  mkAppRec (app_rc r) (currentApp r) an.

Definition set_UpdateCount (n : Z) (s : AppStateStatus PS) : AppStateStatus PS :=
  mkAppStateStatus n (st_Node s) (st_AppLoadStatus s) (st_Programs s) (st_Conditions s).
Definition set_AppLoadStatus (l : AppLoadStatus) (s : AppStateStatus PS) : AppStateStatus PS :=
  mkAppStateStatus (st_UpdateCount s) (st_Node s) l (st_Programs s) (st_Conditions s).
Definition set_Programs (ps : slice PS) (s : AppStateStatus PS) : AppStateStatus PS :=
  mkAppStateStatus (st_UpdateCount s) (st_Node s) (st_AppLoadStatus s) ps (st_Conditions s).
Definition set_Conditions (cs : slice Condition) (s : AppStateStatus PS) : AppStateStatus PS :=
  mkAppStateStatus (st_UpdateCount s) (st_Node s) (st_AppLoadStatus s) (st_Programs s) cs.

Definition status (r : AppRec P PS) : AppStateStatus PS := as_Status (currentAppState r).
Definition programs (r : AppRec P PS) : list PS := elems (st_Programs (status r)).

(** Assignment to the elements of the program slice. *)
Definition set_programs (ps : list PS) (r : AppRec P PS) : AppRec P PS :=
  with_status (set_Programs (to_slice (st_Programs (status r)) ps)) r.
End status_setters.

Definition retryDurationAgent : Z := 1.
Definition updateRetryInterval_ms : Z := 100.
Definition updateTimeout_ms : Z := 120000.

(** A poll tries at once and then every interval until its timeout. *)
Definition maxPollAttempts : nat :=
  Z.to_nat (updateTimeout_ms / updateRetryInterval_ms) + 1.

(** wait.PollUntilContextTimeout with the attempt counter of its callback. *)
Fixpoint poll {W P PS A} `{!ApplicationAPI W P PS} (attempts : nat) (i : Z)
    (condition : GoM W (option A)) : GoM W (option A * Z) :=
  match attempts with
  | O => mret (None, i)
  | S attempts' =>
      res ← condition;
      match res with
      | Some a => mret (Some a, i + 1)
      | None =>
          tick ← lift poll_tick;
          if tick : bool then poll attempts' (i + 1) condition else mret (None, i + 1)
      end
  end.

(** ** The methods both application reconcilers have with the same text *)

Section application.
Context {W P PS : Type} `{!AgentEnv W, !LabelLib, !BytecodeLib W, !ApplicationAPI W P PS,
  !ProgramState PS, !EqDecision PS} (ak : AppKind W P PS).
Implicit Types r : AppRec P PS.

Definition app_isBeingDeleted (app : Application P) : bool :=
  match om_DeletionTimestamp (app_meta app) with Some _ => true | None => false end.

Definition app_setAppStateConditions (condition : Condition) r : GoM W (AppRec P PS) :=
  now ← lift time_Now;
  mret (with_status (set_Conditions (SetStatusCondition now None condition)) r).

(** validateProgramList: the map of names is the set of its keys. Go visits
    what is left of it in no fixed order; here it is that of [elements]. *)
Fixpoint added_programs (spec : list P) (appStateProgMap : gset string) (added : string)
    : string * gset string :=
  match spec with
  | [] => (added, appStateProgMap)
  | program :: spec' =>
      let name := ak_progName ak program in
      if decide (name ∈ appStateProgMap) then
        added_programs spec' (appStateProgMap ∖ {[name]}) added
      else added_programs spec' appStateProgMap (added +:+ name +:+ " ")
  end.

Definition app_validateProgramList r : GoM W (option error) :=
  let appStateProgMap : gset string :=
    list_to_set ((λ ps, ps_Name (prog_common ps)) <$> programs r) in
  let '(addedPrograms, rest) :=
    added_programs (elems (app_Programs (currentApp r))) appStateProgMap "" in
  mret (if decide (addedPrograms ≠ "") then
          Some ("programs have been added: " +:+ addedPrograms)
        else if decide (0 < size rest)%nat then
          Some ("programs have been removed: "
                  +:+ foldl (λ removed name, removed +:+ name +:+ " ") "" (elements rest))
        else None).

(** isLoaded: every program has an id the daemon knows; all are asked. *)
Fixpoint isLoaded_loop (ps : list PS) (allProgramsLoaded : bool) : GoM W bool :=
  match ps with
  | [] => mret allProgramsLoaded
  | program :: ps' =>
      match ps_ProgramId (prog_common program) with
      | None => isLoaded_loop ps' false
      | Some id =>
          res ← GetBpfmanProgramById id;
          match res with
          | Err _ => isLoaded_loop ps' false
          | Ok _ => isLoaded_loop ps' allProgramsLoaded
          end
      end
  end.

Definition app_isLoaded r : GoM W bool := isLoaded_loop (programs r) true.

Definition progRec r (prog : P) (progState : PS) : ProgRec P PS :=
  mkProgRec (app_rc r) "" prog progState.

Fixpoint loadInfos r (spec : list P) (loadInfo : list LoadInfo)
    : GoM W (result (list LoadInfo)) :=
  match spec with
  | [] => mret (Ok loadInfo)
  | program :: spec' =>
      i ← ak_getProgState ak program (programs r);
      match i with
      | Err err => mret (Err ("failed to get program state: " +:+ err))
      | Ok i =>
          progState ← deref (programs r !! i);
          match ak_getProgramReconciler ak program progState with
          | Err err => mret (Err ("failed to get program reconciler: " +:+ err))
          | Ok progRecon =>
              info ← pr_getProgramLoadInfo progRecon (progRec r program progState);
              loadInfos r spec' (loadInfo ++ [info])
          end
      end
  end.

Definition app_getLoadRequest r : GoM W (result LoadRequest) :=
  bytecode ← GetBytecode (ByteCode (app_common (currentApp r)));
  match bytecode with
  | Err err => mret (Err ("failed to process bytecode selector: " +:+ err))
  | Ok bytecode =>
      infos ← loadInfos r (elems (app_Programs (currentApp r))) [];
      mret (match infos with
            | Err err => Err err
            | Ok loadInfo =>
                Ok (mkLoadRequest bytecode
                      (<[UuidMetadataKey := om_UID (as_meta (currentAppState r))]>
                         {[ProgramNameKey := om_Name (app_meta (currentApp r))]})
                      (GlobalData (app_common (currentApp r))) (Some "") None loadInfo)
            end)
  end.

(** The loop of load that stores the program ids. *)
Fixpoint assign_ids (ps : list PS) (response : list ProgramResponse)
    : GoM W (option error * list PS) :=
  match ps with
  | [] => mret (None, [])
  | program :: ps' =>
      id ← GetBpfProgramId (ps_Name (prog_common program)) response;
      match id with
      | Err err => mret (Some ("failed to get program id: " +:+ err), program :: ps')
      | Ok id =>
          '(err, rest) ← assign_ids ps' response;
          mret (err, set_prog_common (with_ProgramId (Some id) (prog_common program)) program
                       :: rest)
      end
  end.

Definition app_load r : GoM W (option error * AppRec P PS) :=
  loadRequest ← app_getLoadRequest r;
  match loadRequest with
  | Err err => mret (Some ("failed to get LoadRequest: " +:+ err), r)
  | Ok loadRequest =>
      loadResponse ← lift (bpfman_Load loadRequest);
      match loadResponse with
      | Err err => mret (Some ("failed to load eBPF Program: " +:+ err), r)
      | Ok response =>
          '(err, ps) ← assign_ids (programs r) response;
          mret (err, set_programs ps r)
      end
  end.

(** unload: an unload that fails is logged and the id forgotten all the same. *)
Definition unload_program (program : PS) : GoM W PS :=
  program ←
    match ps_ProgramId (prog_common program) with
    | Some id =>
        _ ← UnloadBpfmanProgram id;
        ak_deleteLinks ak
          (set_prog_common (with_ProgramId None (prog_common program)) program)
    | None => mret program
    end;
  mret (set_prog_common (with_ProgramLinkStatus ProgAttachSuccess (prog_common program))
          program).

Definition app_unload r : GoM W (AppRec P PS) :=
  ps ← mapM unload_program (programs r);
  mret (set_programs ps r).

Definition app_methods : ApplicationReconciler W (AppRec P PS) := {|
  getNode r := rc_ourNode (app_rc r);
  getNodeSelector r := NodeSelector (app_common (currentApp r));
  getAppStateConditions r := st_Conditions (status r);
  clearAppStateConditions := with_status (set_Conditions None);
  setAppStateConditions := app_setAppStateConditions;
  isBeingDeleted r := app_isBeingDeleted (currentApp r);
  setAppLoadStatus st := with_status (set_AppLoadStatus st);
  validateProgramList := app_validateProgramList;
  load := app_load;
  isLoaded := app_isLoaded;
  unload := app_unload;
|}.

(** ** The state object *)

Definition getBpfAppState (rc : ReconcilerCommon) (app : Application P)
    : GoM W (result (option (AppState PS))) :=
  items ← lift (api_ListStates (ak_namespace ak app)
                  (<[BpfAppStateOwner := om_Name (app_meta app)]>
                     {[K8sHostLabel := rc_NodeName rc]}));
  mret (match items with
        | Err err => Err err
        | Ok [] => Ok None
        | Ok [an] => Ok (Some an)
        | Ok ans => Err ("more than one BpfApplicationState found ("
                           +:+ pretty (length ans) +:+ ")")
        end).

Definition getCurrentState r : GoM W (result (option (AppState PS))) :=
  getBpfAppState (app_rc r) (currentApp r).

Definition waitForBpfAppStateSpecUpdate r : GoM W (option error * AppRec P PS) :=
  '(found, i) ← poll maxPollAttempts 0
    (res ← getCurrentState r;
     mret (match res with Ok (Some an) => Some an | _ => None end));
  mret (match found with
        | Some an => (None, with_appState an r)
        | None => (Some ("failed to get updated BpfApplicationState spec.  Attempts: "
                           +:+ pretty i), r)
        end).

Definition waitForBpfAppStateStatusUpdate r : GoM W (option error * AppRec P PS) :=
  '(found, i) ← poll maxPollAttempts 0
    (res ← getCurrentState r;
     mret (match res with
           | Ok (Some an) =>
               if st_UpdateCount (status r) <=? st_UpdateCount (as_Status an)
               then Some an else None
           | _ => None
           end));
  mret (match found with
        | Some an => (None, with_appState an r)
        | None => (Some ("failed to get updated BpfApplicationState status.  Attempts: "
                           +:+ pretty i), r)
        end).

Definition updateBpfAppStateStatus (originalAppState : option (AppState PS)) r
    : GoM W (bool * option error * AppRec P PS) :=
  let unchanged :=
    match originalAppState with
    | None => false
    | Some original => deep_equal (as_Status original) (status r)
    end in
  if unchanged then mret (false, None, r)
  else
    let r := with_status (λ s, set_UpdateCount (to_int64 (st_UpdateCount s + 1)) s) r in
    res ← lift (api_StatusUpdate (currentAppState r));
    match res with
    | Err err => mret (true, Some err, r)
    | Ok an =>
        '(err, r) ← waitForBpfAppStateStatusUpdate (with_appState an r);
        mret (true, err, r)
    end.

Definition createInitialBpfAppState r : GoM W (option error * AppRec P PS) :=
  res ← lift (api_Create (currentAppState r));
  match res with
  | Err err => mret (Some err, r)
  | Ok an => waitForBpfAppStateSpecUpdate (with_appState an r)
  end.

Definition emptyStatus : AppStateStatus PS := mkAppStateStatus 0 "" "" None None.

Definition initBpfAppState (rc : ReconcilerCommon) (app : Application P)
    : GoM W (result (AppRec P PS)) :=
  name ← generateUniqueName (om_Name (app_meta app));
  let an :=
    mkAppState
      (mkObjectMeta name (default "" (ak_namespace ak app)) "" "" None
         (<[BpfAppStateOwner := om_Name (app_meta app)]> {[K8sHostLabel := rc_NodeName rc]})
         ∅ [] [rc_finalizer rc])
      emptyStatus in
  mret (match api_SetControllerReference app an with
        | Err err => Err ("failed to set bpfAppState object owner reference: " +:+ err)
        | Ok an => Ok (mkAppRec rc app an)
        end).

(** initializeNodeProgramList, with the list built so far. *)
Fixpoint init_programs (spec : list P) (ps : list PS) : GoM W (option error * list PS) :=
  match spec with
  | [] => mret (None, ps)
  | prog :: spec' =>
      dup ← ak_getProgState ak prog ps;
      match dup with
      | Ok _ =>
          mret (Some ("duplicate bpf function detected. bpfFunctionName: "
                        +:+ ak_progName ak prog), ps)
      | Err _ =>
          progState ← ak_newProgState ak prog;
          match progState with
          | Err err => mret (Some err, ps)
          | Ok progState => init_programs spec' (ps ++ [progState])
          end
      end
  end.

Definition initializeNodeProgramList r : GoM W (option error * AppRec P PS) :=
  if decide (length (programs r) ≠ 0%nat) then
    mret (Some "BpfApplicationState programs list has already been initialized", r)
  else
    '(err, ps) ← init_programs (elems (app_Programs (currentApp r))) [];
    mret (err, set_programs ps r).

Definition initBpfAppStateStatus r : GoM W (option error * AppRec P PS) :=
  let r := with_status (λ _, mkAppStateStatus 0 (rc_NodeName (app_rc r)) AppLoadNotLoaded
                               (Some []) (Some [])) r in
  '(err, r) ← initializeNodeProgramList r;
  match err with
  | Some err =>
      mret (Some ("failed to initialize BpfApplicationState program list. Name: "
                    +:+ om_Name (app_meta (currentApp r)) +:+ ", Error: " +:+ err), r)
  | None =>
      '(_, r) ← updateBpfAppStateCondition app_methods BpfAppStateCondPending r;
      mret (None, r)
  end.

(** The result of a Reconcile is the [RequeueAfter] in seconds, or an error. *)
Definition createBpfAppState (rc : ReconcilerCommon) (app : Application P)
    : GoM W (result Z) :=
  r ← initBpfAppState rc app;
  match r with
  | Err _ => mret (Ok retryDurationAgent)
  | Ok r =>
      '(err, r) ← createInitialBpfAppState r;
      match err with
      | Some _ => mret (Ok retryDurationAgent)
      | None =>
          '(err, r) ← initBpfAppStateStatus r;
          match err with
          | Some _ => mret (Ok retryDurationAgent)
          | None =>
              '(_, err, r) ← updateBpfAppStateStatus None r;
              mret (match err with Some _ => Ok retryDurationAgent | None => Ok 0 end)
          end
      end
  end.
End application.

(** ** Reconcile *)

Section Reconcile.
Context {W P PS : Type} `{!AgentEnv W, !LabelLib, !BytecodeLib W, !ApplicationAPI W P PS,
  !ProgramState PS, !EqDecision PS} (ak : AppKind W P PS).
Implicit Types r : AppRec P PS.

Definition checkProgramStatus r : BpfApplicationStateConditionType :=
  if decide (st_AppLoadStatus (status r) = AppLoadError) then BpfAppStateCondUnloadError
  else if decide (st_AppLoadStatus (status r) = AppUnLoadSuccess) then BpfAppStateCondUnloaded
  else if forallb (λ ps, bool_decide (ps_ProgramLinkStatus (prog_common ps) = ProgAttachSuccess))
            (programs r)
  then BpfAppStateCondSuccess else BpfAppStateCondError.

(** The loop over the programs of the spec; the status is the condition to
    set unless it stays Success. *)
Fixpoint reconcile_programs (spec : list P) r
    (bpfApplicationStatus : BpfApplicationStateConditionType)
    : GoM W (BpfApplicationStateConditionType * AppRec P PS) :=
  match spec with
  | [] => mret (bpfApplicationStatus, r)
  | prog :: spec' =>
      i ← ak_getProgState ak prog (programs r);
      match i with
      | Err _ => reconcile_programs spec' r BpfAppStateCondProgramListChangedError
      | Ok i =>
          progState ← deref (programs r !! i);
          match ak_getProgramReconciler ak prog progState with
          | Err _ => reconcile_programs spec' r BpfAppStateCondError
          | Ok rec =>
              '(_, rec') ← pr_reconcileProgram rec (progRec r prog progState)
                             (app_isBeingDeleted (currentApp r));
              reconcile_programs spec'
                (set_programs (<[i := currentProgramState rec']> (programs r)) r)
                bpfApplicationStatus
          end
      end
  end.

(** common.go: removeFinalizer *)
Definition removeFinalizer (finalizer : string) r : GoM W bool :=
  let '(changed, m) := RemoveFinalizer finalizer (as_meta (currentAppState r)) in
  if changed then
    _ ← lift (api_Update (mkAppState m (status r)));
    mret true
  else mret false.

(** What one application does to the loop over all of them: [Some res] ends
    the Reconcile with [res], [None] goes on to the next. *)
Definition reconcile_existing r : GoM W (option (result Z)) :=
  let bpfAppStateOriginal := currentAppState r in
  '(err, r) ← reconcileLoad (app_methods ak) r;
  match err with
  | Some _ =>
      '(_, r) ← updateBpfAppStateCondition (app_methods ak) BpfAppStateCondError r;
      '(statusChanged, err, r) ← updateBpfAppStateStatus ak None r;
      mret (match err with
            | Some _ => Some (Ok retryDurationAgent)
            | None => if statusChanged : bool then Some (Ok 0) else None
            end)
  | None =>
      '(bpfApplicationStatus, r) ←
        if app_isBeingDeleted (currentApp r) then mret (BpfAppStateCondSuccess, r)
        else reconcile_programs (elems (app_Programs (currentApp r))) r BpfAppStateCondSuccess;
      let bpfApplicationStatus :=
        if decide (bpfApplicationStatus = BpfAppStateCondSuccess) then checkProgramStatus r
        else bpfApplicationStatus in
      '(_, r) ← updateBpfAppStateCondition (app_methods ak) bpfApplicationStatus r;
      '(statusChanged, err, r) ← updateBpfAppStateStatus ak (Some bpfAppStateOriginal) r;
      match err with
      | Some _ => mret (Some (Ok retryDurationAgent))
      | None =>
          if statusChanged : bool then mret (Some (Ok 0))
          else if app_isBeingDeleted (currentApp r)
                  && negb (IsBpfAppStateConditionFailure (st_Conditions (status r)))
          then
            removed ← removeFinalizer (rc_finalizer (app_rc r)) r;
            mret (if removed : bool then Some (Ok 0) else None)
          else mret None
      end
  end.

Definition reconcile_app (rc : ReconcilerCommon) (app : Application P)
    : GoM W (option (result Z)) :=
  appState ← getBpfAppState ak rc app;
  match appState with
  | Err err => mret (Some (Err err))
  | Ok None =>
      if app_isBeingDeleted app then mret None
      else res ← createBpfAppState ak rc app; mret (Some res)
  | Ok (Some appState) => reconcile_existing (mkAppRec rc app appState)
  end.

Fixpoint reconcile_apps (rc : ReconcilerCommon) (apps : list (Application P))
    : GoM W (result Z) :=
  match apps with
  | [] => mret (Ok 0)
  | app :: apps' =>
      res ← reconcile_app rc app;
      match res with
      | Some res => mret res
      | None => reconcile_apps rc apps'
      end
  end.

Definition Reconcile (NodeName req : string) : GoM W (result Z) :=
  _ ← lift NetNs_Reset;
  node ← lift (api_GetNode NodeName);
  match node with
  | Err err =>
      mret (Err ("failed getting bpfman-agent node " +:+ req +:+ " : " +:+ err))
  | Ok ourNode =>
      apps ← lift (api_ListApps (PS := PS));
      match apps with
      | Err err => mret (Err (ak_listError ak +:+ " " +:+ req +:+ " : " +:+ err))
      | Ok apps => reconcile_apps (mkReconcilerCommon NodeName (ak_finalizer ak) ourNode) apps
      end
  end.
End Reconcile.
