(* ===== verification/Apps.v ===== *)
(** The application reconcilers of both scopes: what
    cl_application_program.go and ns_application_program.go have of their own (the
    lookup of a program's state, the choice of a program reconciler, the initial
    state of a program, the deletion of its links) and the methods of Application
    at each scope. *)

From S2P Require Import Prelude ApiTypes Constants Bpfman Selectors Links Kinds ClKinds NsKinds.
From S2P Require Import Application.
From stdpp Require Import options.

(** ** cl_application_program.go *)
Module ClApp.
Section reconciler.
Context {W : Type} `{!AgentEnv W, !LabelLib, !BytecodeLib W,
  !ApplicationAPI W ClBpfApplicationProgram ClBpfApplicationProgramState}.

(** Whether the entry for [progState] is returned: the name and type match
    and, for fentry and fexit, the attach function too. *)
Definition matches (prog : ClBpfApplicationProgram) (progState : ClBpfApplicationProgramState)
    : GoM W bool :=
  if decide (clps_Type progState = clp_Type prog ∧
             ps_Name (clps_common progState) = clp_Name prog) then
    if decide (clp_Type prog = ProgTypeFentry) then
      st ← deref (clps_FEntry progState);
      sp ← deref (clp_FEntry prog);
      mret (bool_decide (Function st = Function sp))
    else if decide (clp_Type prog = ProgTypeFexit) then
      st ← deref (clps_FExit progState);
      sp ← deref (clp_FExit prog);
      mret (bool_decide (Function st = Function sp))
    else mret true
  else mret false.

Fixpoint getProgState_from (i : nat) (prog : ClBpfApplicationProgram)
    (programs : list ClBpfApplicationProgramState) : GoM W (result nat) :=
  match programs with
  | [] => mret (Err "BpfApplicationProgramState not found")
  | progState :: programs' =>
      found ← matches prog progState;
      if found : bool then mret (Ok i) else getProgState_from (1 + i) prog programs'
  end.

(** The index of the entry the Go method returns a pointer to. *)
Definition getProgState (prog : ClBpfApplicationProgram)
    (programs : list ClBpfApplicationProgramState) : GoM W (result nat) :=
  getProgState_from 0 prog programs.

Definition getProgramReconciler (prog : ClBpfApplicationProgram) (_ : ClBpfApplicationProgramState)
    : result (ProgramReconciler W ClBpfApplicationProgram ClBpfApplicationProgramState) :=
  if decide (clp_Type prog = ProgTypeFentry) then Ok (of_kind ClFentry.kind)
  else if decide (clp_Type prog = ProgTypeFexit) then Ok (of_kind ClFexit.kind)
  else if decide (clp_Type prog = ProgTypeKprobe) then Ok (of_kind ClKprobe.kind)
  else if decide (clp_Type prog = ProgTypeKretprobe) then Ok (of_kind ClKretprobe.kind)
  else if decide (clp_Type prog = ProgTypeUprobe) then Ok (of_kind ClUprobe.kind)
  else if decide (clp_Type prog = ProgTypeUretprobe) then Ok (of_kind ClUprobe.kind)
  else if decide (clp_Type prog = ProgTypeTracepoint) then Ok (of_kind ClTracepoint.kind)
  else if decide (clp_Type prog = ProgTypeTC) then Ok (of_kind ClTc.kind)
  else if decide (clp_Type prog = ProgTypeTCX) then Ok (of_kind ClTcx.kind)
  else if decide (clp_Type prog = ProgTypeXDP) then Ok (of_kind ClXdp.kind)
  else Err "unsupported bpf program type".

Definition newProgState (prog : ClBpfApplicationProgram) : GoM W (result ClBpfApplicationProgramState) :=
  let common := mkBpfProgramStateCommon (clp_Name prog) ProgAttachPending None in
  if decide (clp_Type prog = ProgTypeFentry) then 
    info ← deref (clp_FEntry prog);
    mret (Ok (mkClBpfApplicationProgramState common (clp_Type prog)
              None None None (Some (mkWithFunction (Function info) (Some []))) None None None None None None))
  else if decide (clp_Type prog = ProgTypeFexit) then 
    info ← deref (clp_FExit prog);
    mret (Ok (mkClBpfApplicationProgramState common (clp_Type prog)
              None None None None (Some (mkWithFunction (Function info) (Some []))) None None None None None))
  else if decide (clp_Type prog = ProgTypeKprobe) then 
    mret (Ok (mkClBpfApplicationProgramState common (clp_Type prog)
              None None None None None (Some (mkWithLinks (Some []))) None None None None))
  else if decide (clp_Type prog = ProgTypeKretprobe) then 
    mret (Ok (mkClBpfApplicationProgramState common (clp_Type prog)
              None None None None None None (Some (mkWithLinks (Some []))) None None None))
  else if decide (clp_Type prog = ProgTypeUprobe) then 
    mret (Ok (mkClBpfApplicationProgramState common (clp_Type prog)
              None None None None None None None (Some (mkWithLinks (Some []))) None None))
  else if decide (clp_Type prog = ProgTypeUretprobe) then 
    mret (Ok (mkClBpfApplicationProgramState common (clp_Type prog)
              None None None None None None None None (Some (mkWithLinks (Some []))) None))
  else if decide (clp_Type prog = ProgTypeTracepoint) then 
    mret (Ok (mkClBpfApplicationProgramState common (clp_Type prog)
              None None None None None None None None None (Some (mkWithLinks (Some [])))))
  else if decide (clp_Type prog = ProgTypeTC) then 
    mret (Ok (mkClBpfApplicationProgramState common (clp_Type prog)
              None (Some (mkWithLinks (Some []))) None None None None None None None None))
  else if decide (clp_Type prog = ProgTypeTCX) then 
    mret (Ok (mkClBpfApplicationProgramState common (clp_Type prog)
              None None (Some (mkWithLinks (Some []))) None None None None None None None))
  else if decide (clp_Type prog = ProgTypeXDP) then 
    mret (Ok (mkClBpfApplicationProgramState common (clp_Type prog)
              (Some (mkWithLinks (Some []))) None None None None None None None None None))
  else mret (Err ("unexpected EBPFProgType: " +:+ go_quote (clp_Type prog))).

Definition deleteLinks (program : ClBpfApplicationProgramState) : GoM W ClBpfApplicationProgramState :=
  if decide (clps_Type program = ProgTypeFentry) then 
    _ ← deref (clps_FEntry program); mret (set_clps_FEntry (Some []) program)
  else if decide (clps_Type program = ProgTypeFexit) then 
    _ ← deref (clps_FExit program); mret (set_clps_FExit (Some []) program)
  else if decide (clps_Type program = ProgTypeKprobe) then 
    _ ← deref (clps_KProbe program); mret (set_clps_KProbe (Some []) program)
  else if decide (clps_Type program = ProgTypeKretprobe) then 
    _ ← deref (clps_KRetProbe program); mret (set_clps_KRetProbe (Some []) program)
  else if decide (clps_Type program = ProgTypeUprobe) then 
    _ ← deref (clps_UProbe program); mret (set_clps_UProbe (Some []) program)
  else if decide (clps_Type program = ProgTypeUretprobe) then 
    _ ← deref (clps_URetProbe program); mret (set_clps_URetProbe (Some []) program)
  else if decide (clps_Type program = ProgTypeTracepoint) then 
    _ ← deref (clps_TracePoint program); mret (set_clps_TracePoint (Some []) program)
  else if decide (clps_Type program = ProgTypeTC) then 
    _ ← deref (clps_TC program); mret (set_clps_TC (Some []) program)
  else if decide (clps_Type program = ProgTypeTCX) then 
    _ ← deref (clps_TCX program); mret (set_clps_TCX (Some []) program)
  else if decide (clps_Type program = ProgTypeXDP) then 
    _ ← deref (clps_XDP program); mret (set_clps_XDP (Some []) program)
  else mret program.

Definition app_kind : AppKind W ClBpfApplicationProgram ClBpfApplicationProgramState := {|
  ak_finalizer := ClBpfApplicationControllerFinalizer;
  ak_listError := "failed getting BpfApplicationPrograms for full reconcile";
  ak_progName := clp_Name;
  ak_namespace app := None;
  ak_getProgState := getProgState;
  ak_getProgramReconciler := getProgramReconciler;
  ak_newProgState := newProgState;
  ak_deleteLinks := deleteLinks;
|}.

(** The methods with the shared text, for this scope. *)
Abbreviation R := (AppRec ClBpfApplicationProgram ClBpfApplicationProgramState).
Abbreviation St := (AppState ClBpfApplicationProgramState).
Abbreviation App := (Application ClBpfApplicationProgram).

Definition isBeingDeleted (app : App) : bool := app_isBeingDeleted app.
Definition interface_methods : ApplicationReconciler W R := app_methods app_kind.
Definition setAppStateConditions (c : Condition) (r : R) : GoM W R :=
  app_setAppStateConditions c r.
Definition validateProgramList (r : R) : GoM W (option error) :=
  app_validateProgramList app_kind r.
Definition isLoaded (r : R) : GoM W bool := app_isLoaded r.
Definition getLoadRequest (r : R) : GoM W (result LoadRequest) := app_getLoadRequest app_kind r.
Definition load (r : R) : GoM W (option error * R) := app_load app_kind r.
Definition unload (r : R) : GoM W R := app_unload app_kind r.
Definition checkProgramStatus (r : R) : BpfApplicationStateConditionType :=
  Application.checkProgramStatus r.
Definition getBpfAppState (rc : ReconcilerCommon) (app : App) : GoM W (result (option St)) :=
  Application.getBpfAppState app_kind rc app.
Definition waitForBpfAppStateSpecUpdate (r : R) : GoM W (option error * R) :=
  Application.waitForBpfAppStateSpecUpdate app_kind r.
Definition waitForBpfAppStateStatusUpdate (r : R) : GoM W (option error * R) :=
  Application.waitForBpfAppStateStatusUpdate app_kind r.
Definition updateBpfAppStateStatus (original : option St) (r : R)
    : GoM W (bool * option error * R) :=
  Application.updateBpfAppStateStatus app_kind original r.
Definition createInitialBpfAppState (r : R) : GoM W (option error * R) :=
  Application.createInitialBpfAppState app_kind r.
Definition initBpfAppState (rc : ReconcilerCommon) (app : App) : GoM W (result R) :=
  Application.initBpfAppState app_kind rc app.
Definition initializeNodeProgramList (r : R) : GoM W (option error * R) :=
  Application.initializeNodeProgramList app_kind r.
Definition initBpfAppStateStatus (r : R) : GoM W (option error * R) :=
  Application.initBpfAppStateStatus app_kind r.
Definition createBpfAppState (rc : ReconcilerCommon) (app : App) : GoM W (result Z) :=
  Application.createBpfAppState app_kind rc app.
Definition Reconcile (NodeName req : string) : GoM W (result Z) :=
  Application.Reconcile app_kind NodeName req.
End reconciler.
End ClApp.

(** ** ns_application_program.go *)
Module NsApp.
Section reconciler.
Context {W : Type} `{!AgentEnv W, !LabelLib, !BytecodeLib W,
  !ApplicationAPI W BpfApplicationProgram BpfApplicationProgramState}.

Definition matches (prog : BpfApplicationProgram) (progState : BpfApplicationProgramState)
    : GoM W bool :=
  mret (bool_decide (nsps_Type progState = nsp_Type prog ∧
                     ps_Name (nsps_common progState) = nsp_Name prog)).

Fixpoint getProgState_from (i : nat) (prog : BpfApplicationProgram)
    (programs : list BpfApplicationProgramState) : GoM W (result nat) :=
  match programs with
  | [] => mret (Err "BpfNsApplicationProgramState not found")
  | progState :: programs' =>
      found ← matches prog progState;
      if found : bool then mret (Ok i) else getProgState_from (1 + i) prog programs'
  end.

(** The index of the entry the Go method returns a pointer to. *)
Definition getProgState (prog : BpfApplicationProgram)
    (programs : list BpfApplicationProgramState) : GoM W (result nat) :=
  getProgState_from 0 prog programs.

Definition getProgramReconciler (prog : BpfApplicationProgram) (_ : BpfApplicationProgramState)
    : result (ProgramReconciler W BpfApplicationProgram BpfApplicationProgramState) :=
  if decide (nsp_Type prog = ProgTypeUprobe) then Ok (of_kind NsUprobe.kind)
  else if decide (nsp_Type prog = ProgTypeUretprobe) then Ok (of_kind NsUprobe.kind)
  else if decide (nsp_Type prog = ProgTypeTC) then Ok (of_kind NsTc.kind)
  else if decide (nsp_Type prog = ProgTypeTCX) then Ok (of_kind NsTcx.kind)
  else if decide (nsp_Type prog = ProgTypeXDP) then Ok (of_kind NsXdp.kind)
  else Err "unsupported bpf program type".

Definition newProgState (prog : BpfApplicationProgram) : GoM W (result BpfApplicationProgramState) :=
  let common := mkBpfProgramStateCommon (nsp_Name prog) ProgAttachPending None in
  if decide (nsp_Type prog = ProgTypeUprobe) then 
    mret (Ok (mkBpfApplicationProgramState common (nsp_Type prog)
              None None None (Some (mkWithLinks (Some []))) None))
  else if decide (nsp_Type prog = ProgTypeUretprobe) then 
    mret (Ok (mkBpfApplicationProgramState common (nsp_Type prog)
              None None None None (Some (mkWithLinks (Some [])))))
  else if decide (nsp_Type prog = ProgTypeTC) then 
    mret (Ok (mkBpfApplicationProgramState common (nsp_Type prog)
              None (Some (mkWithLinks (Some []))) None None None))
  else if decide (nsp_Type prog = ProgTypeTCX) then 
    mret (Ok (mkBpfApplicationProgramState common (nsp_Type prog)
              None None (Some (mkWithLinks (Some []))) None None))
  else if decide (nsp_Type prog = ProgTypeXDP) then 
    mret (Ok (mkBpfApplicationProgramState common (nsp_Type prog)
              (Some (mkWithLinks (Some []))) None None None None))
  else panic ("unexpected EBPFProgType: " +:+ go_quote (nsp_Type prog)).

Definition deleteLinks (program : BpfApplicationProgramState) : GoM W BpfApplicationProgramState :=
  if decide (nsps_Type program = ProgTypeUprobe) then 
    _ ← deref (nsps_UProbe program); mret (set_nsps_UProbe (Some []) program)
  else if decide (nsps_Type program = ProgTypeUretprobe) then 
    _ ← deref (nsps_URetProbe program); mret (set_nsps_URetProbe (Some []) program)
  else if decide (nsps_Type program = ProgTypeTC) then 
    _ ← deref (nsps_TC program); mret (set_nsps_TC (Some []) program)
  else if decide (nsps_Type program = ProgTypeTCX) then 
    _ ← deref (nsps_TCX program); mret (set_nsps_TCX (Some []) program)
  else if decide (nsps_Type program = ProgTypeXDP) then 
    _ ← deref (nsps_XDP program); mret (set_nsps_XDP (Some []) program)
  else mret program.

Definition app_kind : AppKind W BpfApplicationProgram BpfApplicationProgramState := {|
  ak_finalizer := NsBpfApplicationControllerFinalizer;
  ak_listError := "failed getting BpfNsApplicationPrograms for full reconcile";
  ak_progName := nsp_Name;
  ak_namespace app := Some (om_Namespace (app_meta app));
  ak_getProgState := getProgState;
  ak_getProgramReconciler := getProgramReconciler;
  ak_newProgState := newProgState;
  ak_deleteLinks := deleteLinks;
|}.

(** The methods with the shared text, for this scope. *)
Abbreviation R := (AppRec BpfApplicationProgram BpfApplicationProgramState).
Abbreviation St := (AppState BpfApplicationProgramState).
Abbreviation App := (Application BpfApplicationProgram).

Definition isBeingDeleted (app : App) : bool := app_isBeingDeleted app.
Definition interface_methods : ApplicationReconciler W R := app_methods app_kind.
Definition setAppStateConditions (c : Condition) (r : R) : GoM W R :=
  app_setAppStateConditions c r.
Definition validateProgramList (r : R) : GoM W (option error) :=
  app_validateProgramList app_kind r.
Definition isLoaded (r : R) : GoM W bool := app_isLoaded r.
Definition getLoadRequest (r : R) : GoM W (result LoadRequest) := app_getLoadRequest app_kind r.
Definition load (r : R) : GoM W (option error * R) := app_load app_kind r.
Definition unload (r : R) : GoM W R := app_unload app_kind r.
Definition checkProgramStatus (r : R) : BpfApplicationStateConditionType :=
  Application.checkProgramStatus r.
Definition getBpfAppState (rc : ReconcilerCommon) (app : App) : GoM W (result (option St)) :=
  Application.getBpfAppState app_kind rc app.
Definition waitForBpfAppStateSpecUpdate (r : R) : GoM W (option error * R) :=
  Application.waitForBpfAppStateSpecUpdate app_kind r.
Definition waitForBpfAppStateStatusUpdate (r : R) : GoM W (option error * R) :=
  Application.waitForBpfAppStateStatusUpdate app_kind r.
Definition updateBpfAppStateStatus (original : option St) (r : R)
    : GoM W (bool * option error * R) :=
  Application.updateBpfAppStateStatus app_kind original r.
Definition createInitialBpfAppState (r : R) : GoM W (option error * R) :=
  Application.createInitialBpfAppState app_kind r.
Definition initBpfAppState (rc : ReconcilerCommon) (app : App) : GoM W (result R) :=
  Application.initBpfAppState app_kind rc app.
Definition initializeNodeProgramList (r : R) : GoM W (option error * R) :=
  Application.initializeNodeProgramList app_kind r.
Definition initBpfAppStateStatus (r : R) : GoM W (option error * R) :=
  Application.initBpfAppStateStatus app_kind r.
Definition createBpfAppState (rc : ReconcilerCommon) (app : App) : GoM W (result Z) :=
  Application.createBpfAppState app_kind rc app.
Definition Reconcile (NodeName req : string) : GoM W (result Z) :=
  Application.Reconcile app_kind NodeName req.
End reconciler.
End NsApp.
