(* ===== verification/AppSpecs.v ===== *)
(** What the application reconciler's operations do, for both scopes: the
    program list check, the load check, the unload, the conditions, the status
    update and its poll, and how one application ends the loop over all. *)

From S2P Require Import Prelude ApiTypes Constants Bpfman Selectors Links LinkSpecs Kinds.
From S2P Require Import ClKinds NsKinds Application Apps.
From stdpp Require Import options.
#[local] Set Default Proof Using "Type*".

(** ** Conditions *)

Section conditions.
Context {W P PS : Type} `{!AgentEnv W, !LabelLib, !BytecodeLib W, !ApplicationAPI W P PS,
  !ProgramState PS, !EqDecision PS} (ak : AppKind W P PS).
Implicit Types (r : AppRec P PS) (w : W).

Lemma run_setAppStateConditions c r w :
  app_setAppStateConditions c r w =
  (Ret (with_status (set_Conditions (SetStatusCondition (time_Now w).1 None c)) r),
   (time_Now w).2).
Proof. unfold app_setAppStateConditions, mbind, GoM_bind, lift. by destruct (time_Now w). Qed.

Lemma SetStatusCondition_fresh now c :
  ∃ c', SetStatusCondition now None c = Some [c'] ∧ cond_Type c' = cond_Type c ∧
    cond_Reason c' = cond_Reason c ∧ cond_Message c' = cond_Message c.
Proof.
  unfold SetStatusCondition, go_append. simpl.
  destruct (cond_LastTransitionTime c); eexists; by repeat split.
Qed.

(** The condition types that have a text of their own. *)
Definition has_text (t : BpfApplicationStateConditionType) : bool :=
  bool_decide (t ∈ [BpfAppStateCondPending; BpfAppStateCondSuccess; BpfAppStateCondError;
                    BpfAppStateCondUnloadError; BpfAppStateCondUnloaded]).

Lemma has_text_Type t :
  has_text t = true → cond_Type (BpfApplicationStateConditionType_Condition t) = t.
Proof.
  unfold has_text. rewrite bool_decide_eq_true, !elem_of_cons, elem_of_nil.
  by intros [->|[->|[->|[->|[->|[]]]]]].
Qed.

Lemma updateBpfAppStateCondition_sets t r w :
  has_text t = true →
  ∃ b r' w' c, updateBpfAppStateCondition (app_methods ak) t r w = (Ret (b, r'), w') ∧
    st_Conditions (status r') = Some [c] ∧ cond_Type c = t ∧
    r' = with_status (set_Conditions (Some [c])) r ∧
    (b = false ↔ ∃ c', st_Conditions (status r) = Some [c'] ∧ cond_Type c' = t).
Proof.
  intros Ht. pose proof (has_text_Type t Ht) as HT.
  destruct (SetStatusCondition_fresh (time_Now w).1
    (BpfApplicationStateConditionType_Condition t)) as (c & Hc & Hty & _).
  rewrite HT in Hty.
  assert (∀ r0, app_setAppStateConditions (BpfApplicationStateConditionType_Condition t) r0 w =
    (Ret (with_status (set_Conditions (Some [c])) r0), (time_Now w).2)) as Hset
    by (intros r0; by rewrite run_setAppStateConditions, Hc).
  unfold updateBpfAppStateCondition. cbn [getAppStateConditions setAppStateConditions clearAppStateConditions app_methods].
  cbv zeta beta.
  destruct (elems (st_Conditions (status r))) as [|c0 [|c1 cs]] eqn:Hel.
  - exists true, (with_status (set_Conditions (Some [c])) r), (time_Now w).2, c.
    split; [by rewrite (run_bind _ _ _ _ _ (Hset r))|]. repeat split; try done.
    intros (c' & Hs & _). by rewrite Hs in Hel.
  - assert (st_Conditions (status r) = Some [c0]) as Hs
      by (destruct (st_Conditions (status r)); simpl in Hel; congruence).
    destruct (decide (cond_Type c0 = t)) as [Hc0|Hc0].
    + exists false, r, w, c0. split; [done|]. split; [done|]. split; [done|].
      split; [|split; [by exists c0|done]].
      unfold with_status, set_Conditions. rewrite <- Hs.
      destruct r as [rc app [m []]]. done.
    + eexists true, _, (time_Now w).2, c.
      split; [by rewrite (run_bind _ _ _ _ _ (Hset _))|]. repeat split; try done.
      intros (c' & Hs' & Hc'). rewrite Hs in Hs'. by injection Hs' as ->.
  - eexists true, _, (time_Now w).2, c.
    split; [by rewrite (run_bind _ _ _ _ _ (Hset _))|]. repeat split; try done.
    intros (c' & Hs & _). by rewrite Hs in Hel.
Qed.

(** After updateBpfAppStateCondition with any type that has a text the
    state has exactly one condition and it is of that type, nothing else of
    the application changed, and the answer says whether the list was
    replaced. *)
Theorem updateBpfAppStateCondition_spec t r w :
  has_text t = true →
  ∃ b r' w' c, updateBpfAppStateCondition (app_methods ak) t r w = (Ret (b, r'), w') ∧
    st_Conditions (status r') = Some [c] ∧ cond_Type c = t ∧
    r' = with_status (set_Conditions (Some [c])) r ∧
    (b = false ↔ ∃ c', st_Conditions (status r) = Some [c'] ∧ cond_Type c' = t).
Proof. apply updateBpfAppStateCondition_sets. Qed.

(** C39: the condition for a changed program list has no text: it is recorded
    with an empty type, which the operator reads as neither failed nor pending:
    the node counts as successful. *)
Theorem ProgramListChangedError_not_a_failure r w :
  (∀ c, st_Conditions (status r) = Some [c] →
     cond_Type c ≠ BpfAppStateCondProgramListChangedError) →
  ∃ r' w', updateBpfAppStateCondition (app_methods ak)
      BpfAppStateCondProgramListChangedError r w = (Ret (true, r'), w') ∧
    cond_Type <$> elems (st_Conditions (status r')) = [""] ∧
    IsBpfAppStateConditionFailure (st_Conditions (status r')) = false ∧
    IsBpfAppStateConditionPending (st_Conditions (status r')) = false.
Proof.
  intros Hne.
  destruct (SetStatusCondition_fresh (time_Now w).1
    (BpfApplicationStateConditionType_Condition BpfAppStateCondProgramListChangedError))
    as (c & Hc & Hty & _). change (cond_Type c = "") in Hty.
  assert (∀ r0, app_setAppStateConditions (BpfApplicationStateConditionType_Condition
      BpfAppStateCondProgramListChangedError) r0 w =
    (Ret (with_status (set_Conditions (Some [c])) r0), (time_Now w).2)) as Hset
    by (intros r0; by rewrite run_setAppStateConditions, Hc).
  assert (cond_Type <$> elems (Some [c]) = [""] ∧
    IsBpfAppStateConditionFailure (Some [c]) = false ∧
    IsBpfAppStateConditionPending (Some [c]) = false) as Hres.
  { unfold IsBpfAppStateConditionFailure, IsBpfAppStateConditionPending. simpl.
    rewrite Hty. by vm_compute. }
  unfold updateBpfAppStateCondition.
  cbn [getAppStateConditions setAppStateConditions clearAppStateConditions app_methods].
  cbv zeta beta.
  destruct (elems (st_Conditions (status r))) as [|c0 [|c1 cs]] eqn:Hel;
    [|rewrite decide_False|];
    try (eexists _, (time_Now w).2;
      split; [by rewrite (run_bind _ _ _ _ _ (Hset _))|exact Hres]).
  apply Hne. destruct (st_Conditions (status r)); simpl in Hel; congruence.
Qed.
End conditions.

(** ** The program list *)

Section program_list.
Context {W P PS : Type} `{!AgentEnv W, !BpfmanLaws W, !LabelLib, !BytecodeLib W,
  !ApplicationAPI W P PS, !ProgramState PS, !ProgramStateLaws PS, !EqDecision PS}
  (ak : AppKind W P PS).
Implicit Types (r : AppRec P PS) (w : W) (ps : list PS).

Definition specNames r : list string :=
  ak_progName ak <$> elems (app_Programs (currentApp r)).
Definition stateNames r : list string :=
  (λ s, ps_Name (prog_common s)) <$> programs r.

Lemma append_space_ne (a b : string) : a +:+ b +:+ " " ≠ "".
Proof. destruct a, b; done. Qed.

Lemma added_programs_ne spec m added :
  added ≠ "" → (added_programs ak spec m added).1 ≠ "".
Proof.
  revert m added. induction spec as [|p spec IH]; intros m added Ha; simpl; [done|].
  destruct (decide _); apply IH; [done|apply append_space_ne].
Qed.

Lemma added_programs_spec spec m :
  (added_programs ak spec m "").1 = "" ↔
  NoDup (ak_progName ak <$> spec) ∧ ∀ n, n ∈ ak_progName ak <$> spec → n ∈ m.
Proof.
  revert m. induction spec as [|p spec IH]; intros m; simpl.
  { split; [|done]. intros _. split; [constructor|]. intros n Hn. by apply elem_of_nil in Hn. }
  destruct (decide (ak_progName ak p ∈ m)) as [Hp|Hp].
  - rewrite IH. split.
    + intros [Hnd Hin]. split.
      * apply NoDup_cons. split; [|done]. intros Hdup. apply Hin in Hdup. set_solver.
      * intros n [->|Hn]%elem_of_cons; [done|]. apply Hin in Hn. set_solver.
    + intros [[Hnin Hnd]%NoDup_cons Hin]. split; [done|]. intros n Hn.
      apply elem_of_difference. split; [by apply Hin, elem_of_cons; right|].
      rewrite elem_of_singleton. by intros ->.
  - split.
    + intros He. exfalso. by apply (added_programs_ne spec m _ (append_space_ne "" _)) in He.
    + intros [_ Hin]. destruct Hp. apply Hin. by left.
Qed.

Lemma added_programs_rest spec m :
  (added_programs ak spec m "").1 = "" →
  (added_programs ak spec m "").2 = m ∖ list_to_set (ak_progName ak <$> spec).
Proof.
  revert m. induction spec as [|p spec IH]; intros m; simpl.
  { intros _. set_solver. }
  destruct (decide (ak_progName ak p ∈ m)) as [Hp|Hp].
  - intros He. rewrite IH by done. set_solver.
  - intros He. exfalso. by apply (added_programs_ne spec m _ (append_space_ne "" _)) in He.
Qed.

Lemma validateProgramList_passes r w :
  app_validateProgramList ak r w = (Ret None, w) ↔
  NoDup (specNames r) ∧ ∀ n, n ∈ specNames r ↔ n ∈ stateNames r.
Proof.
  unfold app_validateProgramList. cbv zeta. fold (stateNames r).
  pose proof (added_programs_spec (elems (app_Programs (currentApp r)))
    (list_to_set (stateNames r))) as Hspec.
  pose proof (added_programs_rest (elems (app_Programs (currentApp r)))
    (list_to_set (stateNames r))) as Hrest.
  fold (specNames r) in Hspec, Hrest.
  destruct (added_programs ak _ _ "") as [added rest]. simpl in Hspec, Hrest.
  setoid_rewrite elem_of_list_to_set in Hspec.
  destruct (decide (added ≠ "")) as [Ha|Ha].
  - split; [done|]. intros [Hnd Hin]. destruct Ha. apply Hspec. split; [done|].
    intros n. apply Hin.
  - assert (added = "") as He by (destruct (decide (added = "")); [done|by destruct Ha]).
    destruct Hspec as [Hspec _]. specialize (Hspec He) as [Hnd Hsub]. specialize (Hrest He).
    destruct (decide (0 < size rest)%nat) as [Hs|Hs].
    + split; [done|]. intros [_ Hin]. exfalso.
      assert (rest = ∅) as Hz; [|rewrite Hz, size_empty in Hs; lia].
      rewrite Hrest. apply set_eq. intros n. rewrite elem_of_difference, !elem_of_list_to_set.
      rewrite Hin. set_solver.
    + split; [|done]. intros _. split; [done|]. intros n. split; [apply Hsub|]. intros Hn.
      assert (rest = ∅) as Hz by (apply leibniz_equiv, size_empty_inv; lia).
      rewrite Hz in Hrest. apply dec_stable. intros Hnin.
      assert (n ∈ (∅ : gset string)) as Hbad; [|by apply elem_of_empty in Hbad].
      rewrite Hrest. apply elem_of_difference. by rewrite !elem_of_list_to_set.
Qed.

(** C30: the program list check passes exactly when no name is repeated in the
    spec and the spec names the programs the node state was created for. *)
Theorem validateProgramList_iff r w :
  app_validateProgramList ak r w = (Ret None, w) ↔
  NoDup (specNames r) ∧ ∀ n, n ∈ specNames r ↔ n ∈ stateNames r.
Proof. apply validateProgramList_passes. Qed.

(** ** The load check *)

Definition program_loaded (m : gmap Z (gset Z)) (s : PS) : bool :=
  match ps_ProgramId (prog_common s) with
  | Some id => bool_decide (is_Some (m !! id))
  | None => false
  end.

Lemma wp_isLoaded_loop ps b w (Q : bool → W → Prop) :
  (∀ w', loaded w' = loaded w → Q (b && forallb (program_loaded (loaded w)) ps) w') →
  wp (isLoaded_loop ps b) Q w.
Proof.
  revert b w. induction ps as [|s ps IH]; intros b w HQ; simpl.
  { apply wpg_ret. specialize (HQ w eq_refl). by rewrite andb_true_r in HQ. }
  simpl in HQ. unfold program_loaded at 1 in HQ.
  destruct (ps_ProgramId (prog_common s)) as [id|].
  - wp_step. unfold GetBpfmanProgramById. apply wpg_lift.
    pose proof (law_Get_state id w) as Hst.
    destruct (bpfman_Get id w).1 as [res|e] eqn:E.
    + destruct (law_Get_Ok _ _ _ E) as (info & _ & Hl).
      rewrite bool_decide_eq_true_2 in HQ by (rewrite Hl; by eexists). simpl in HQ.
      apply IH. rewrite Hst. intros w' Hw'. by apply HQ.
    + pose proof (law_Get_Err _ _ _ E) as Hl.
      rewrite bool_decide_eq_false_2 in HQ by (rewrite Hl; by intros [? ?]). simpl in HQ.
      apply IH. rewrite Hst. intros w' Hw'. rewrite andb_false_r in HQ. by apply HQ.
  - apply IH. intros w' Hw'. rewrite andb_false_r in HQ. by apply HQ.
Qed.

(** An application counts as loaded exactly when every program of its
    state has an id that the daemon has loaded; asking changes nothing. *)
Theorem isLoaded_iff r w :
  ∃ b w', app_isLoaded r w = (Ret b, w') ∧ loaded w' = loaded w ∧
    (b = true ↔ ∀ s, s ∈ programs r →
       ∃ id, ps_ProgramId (prog_common s) = Some id ∧ is_Some (loaded w !! id)).
Proof.
  destruct (wp_run (app_isLoaded r) (λ b w', loaded w' = loaded w ∧
    b = forallb (program_loaded (loaded w)) (programs r)) w) as (b & w' & Hrun & Hw & ->).
  { apply wp_isLoaded_loop. by intros w' Hw'. }
  eexists _, w'. split; [done|]. split; [done|]. rewrite forallb_True_iff.
  split; intros Hall s Hs; specialize (Hall s Hs); unfold program_loaded in *.
  - destruct (ps_ProgramId (prog_common s)) as [id|]; [|done].
    exists id. split; [done|]. by apply bool_decide_eq_true in Hall.
  - destruct Hall as (id & -> & Hl). by apply bool_decide_eq_true.
Qed.
End program_list.

(** ** What each scope promises of its program states *)

(** [ak_shaped s]: the struct that the type of [s] names is not nil, or the
    type is unknown. [ak_linkless s]: it has no links. *)
Class AppKindLaws {W P PS} `{!ProgramState PS} (ak : AppKind W P PS) := {
  ak_shaped : PS → bool;
  ak_linkless : PS → bool;
  law_shaped_common c s : ak_shaped (set_prog_common c s) = ak_shaped s;
  law_linkless_common c s : ak_linkless (set_prog_common c s) = ak_linkless s;
  law_deleteLinks s :
    ak_shaped s = true →
    ∃ s', (∀ w, ak_deleteLinks ak s w = (Ret s', w)) ∧ prog_common s' = prog_common s ∧
      ak_shaped s' = true ∧ ak_linkless s' = true;
  law_newProgState prog w s w' :
    ak_newProgState ak prog w = (Ret (Ok s), w') →
    prog_common s = mkBpfProgramStateCommon (ak_progName ak prog) ProgAttachPending None ∧
    ak_shaped s = true ∧ ak_linkless s = true;
}.

Section unload.
Context {W P PS : Type} `{!AgentEnv W, !BpfmanLaws W, !LabelLib, !BytecodeLib W,
  !ApplicationAPI W P PS, !ProgramState PS, !ProgramStateLaws PS, !EqDecision PS}
  (ak : AppKind W P PS) `{!AppKindLaws ak}.
Implicit Types (r : AppRec P PS) (w : W) (s : PS).

Definition progId s : option Z := ps_ProgramId (prog_common s).

(** One program after unload. *)
Definition unloaded s s' : Prop :=
  prog_common s' = mkBpfProgramStateCommon (ps_Name (prog_common s)) ProgAttachSuccess None ∧
  ak_shaped s' = true ∧ (is_Some (progId s) → ak_linkless s' = true).

(** The daemon loses programs only. *)
Definition shrinks (m m' : gmap Z (gset Z)) : Prop :=
  ∀ id, m' !! id = m !! id ∨ m' !! id = None.

Lemma Unload_shrinks id w : shrinks (loaded w) (loaded (bpfman_Unload id w).2).
Proof.
  intros i. destruct (bpfman_Unload id w).1 as [e|] eqn:E.
  - left. by rewrite (law_Unload_Err _ _ _ E).
  - rewrite (law_Unload_Ok _ _ E). destruct (decide (id = i)) as [->|Hi].
    + right. by rewrite lookup_delete_eq.
    + left. by rewrite lookup_delete_ne.
Qed.

Lemma wp_unload_program s w (Q : PS → W → Prop) :
  ak_shaped s = true →
  (∀ s' w', unloaded s s' → shrinks (loaded w) (loaded w') →
     (∀ id, progId s = Some id → (bpfman_Unload id w).1 = None → loaded w' !! id = None) →
     Q s' w') →
  wp (unload_program ak s) Q w.
Proof.
  intros Hs HQ. unfold unload_program. wp_step. unfold progId in HQ.
  destruct (ps_ProgramId (prog_common s)) as [id|] eqn:Hid.
  - wp_step. unfold UnloadBpfmanProgram. wp_step. apply wpg_lift, wpg_ret.
    destruct (law_deleteLinks
      (set_prog_common (with_ProgramId None (prog_common s)) s)) as (s' & Hrun & Hc & Hsh & Hl);
      [by rewrite law_shaped_common|].
    eapply run_wp; [apply Hrun|]. apply wpg_ret. apply HQ.
    + split; [|split].
      * rewrite prog_common_set, Hc, prog_common_set. done.
      * by rewrite law_shaped_common.
      * intros _. by rewrite law_linkless_common.
    + apply Unload_shrinks.
    + intros id' [= <-] Hok. rewrite (law_Unload_Ok _ _ Hok). by rewrite lookup_delete_eq.
  - apply wpg_ret, wpg_ret, HQ.
    + split; [|split].
      * rewrite prog_common_set. unfold with_ProgramLinkStatus. by rewrite Hid.
      * by rewrite law_shaped_common.
      * unfold progId. rewrite Hid. by intros [? ?].
    + intros id. by left.
    + done.
Qed.

Lemma shrinks_None m m' id : shrinks m m' → m !! id = None → m' !! id = None.
Proof. intros Hs Hm. destruct (Hs id) as [->|?]; done. Qed.

Lemma wp_unload_all (serves : Prop) ss w (Q : list PS → W → Prop) :
  (serves → ∀ id (w0 : W), (bpfman_Unload id w0).1 = None) →
  Forall (λ s, ak_shaped s = true) ss →
  (∀ ss' w', Forall2 unloaded ss ss' → shrinks (loaded w) (loaded w') →
     (serves → ∀ s id, s ∈ ss → progId s = Some id → loaded w' !! id = None) → Q ss' w') →
  wp (mapM (unload_program ak) ss) Q w.
Proof.
  intros Hserves Hsh. revert w Q. induction Hsh as [|s ss Hs _ IH]; intros w Q HQ; simpl.
  { apply wpg_ret, HQ; [constructor|intros id; by left|].
    intros _ s id Hs. by apply elem_of_nil in Hs. }
  wp_step. apply wp_unload_program; [done|]. intros s' w1 Hs' Hsh1 Hgone. wp_step.
  apply IH. intros ss' w2 Hss' Hsh2 Hgone2. apply wpg_ret, HQ; [by constructor| |].
  - intros id. destruct (Hsh2 id) as [H2|H2]; [rewrite H2; apply Hsh1|by right].
  - intros Hv x id [->|Hx]%elem_of_cons Hid; [|by eapply Hgone2].
    eapply shrinks_None; [done|]. apply Hgone; [done|]. by apply Hserves.
Qed.

Lemma programs_set_programs ss r :
  programs (set_programs ss r) = ss.
Proof using Type. unfold programs, set_programs. simpl. apply elems_to_slice. Qed.

Lemma unload_correct (serves : Prop) r w :
  (serves → ∀ id (w0 : W), (bpfman_Unload id w0).1 = None) →
  Forall (λ s, ak_shaped s = true) (programs r) →
  ∃ r' w', app_unload ak r w = (Ret r', w') ∧
    currentApp r' = currentApp r ∧
    Forall2 unloaded (programs r) (programs r') ∧
    shrinks (loaded w) (loaded w') ∧
    (serves → ∀ s id, s ∈ programs r → progId s = Some id → loaded w' !! id = None).
Proof.
  intros Hserves Hsh.
  destruct (wp_run (app_unload ak r) (λ r' w', currentApp r' = currentApp r ∧
    Forall2 unloaded (programs r) (programs r') ∧ shrinks (loaded w) (loaded w') ∧
    (serves → ∀ s id, s ∈ programs r → progId s = Some id → loaded w' !! id = None)) w)
    as (r' & w' & Hrun & H'); [|by exists r', w'].
  unfold app_unload. wp_step. apply (wp_unload_all serves); [done|done|].
  intros ss' w' Hss Hshr Hgone. apply wpg_ret. rewrite programs_set_programs. by split.
Qed.

(** Unload forgets every program id, drops the links of every program
    that had one and marks all programs successful, whatever the daemon
    answers; when the daemon serves every unload none of the programs is
    loaded afterwards, and no other program is ever loaded by it. *)
Theorem unload_spec (serves : Prop) r w :
  (serves → ∀ id (w0 : W), (bpfman_Unload id w0).1 = None) →
  Forall (λ s, ak_shaped s = true) (programs r) →
  ∃ r' w', app_unload ak r w = (Ret r', w') ∧
    currentApp r' = currentApp r ∧
    Forall2 unloaded (programs r) (programs r') ∧
    shrinks (loaded w) (loaded w') ∧
    (serves → ∀ s id, s ∈ programs r → progId s = Some id → loaded w' !! id = None).
Proof. apply unload_correct. Qed.
End unload.

(** ** The laws of both scopes *)

Definition null {A} (p : option A) : bool := match p with None => true | Some _ => false end.
Definition no_links {L} (p : option (WithLinks L)) : bool :=
  match p with Some i => bool_decide (length (elems (Links i)) = 0%nat) | None => true end.
Definition no_fn_links {L} (p : option (WithFunction L)) : bool :=
  match p with Some i => bool_decide (length (elems (FnLinks i)) = 0%nat) | None => true end.

(** The part of a state that its type names, through [f] for each field. *)
Definition cl_field {A} (dflt : A) (s : ClBpfApplicationProgramState)
    (xdp tc tcx fentry fexit kprobe kretprobe uprobe uretprobe tracepoint : A) : A :=
  if decide (clps_Type s = ProgTypeFentry) then fentry
  else if decide (clps_Type s = ProgTypeFexit) then fexit
  else if decide (clps_Type s = ProgTypeKprobe) then kprobe
  else if decide (clps_Type s = ProgTypeKretprobe) then kretprobe
  else if decide (clps_Type s = ProgTypeUprobe) then uprobe
  else if decide (clps_Type s = ProgTypeUretprobe) then uretprobe
  else if decide (clps_Type s = ProgTypeTracepoint) then tracepoint
  else if decide (clps_Type s = ProgTypeTC) then tc
  else if decide (clps_Type s = ProgTypeTCX) then tcx
  else if decide (clps_Type s = ProgTypeXDP) then xdp
  else dflt.

Definition cl_shaped (s : ClBpfApplicationProgramState) : bool :=
  cl_field true s (negb (null (clps_XDP s))) (negb (null (clps_TC s))) (negb (null (clps_TCX s)))
    (negb (null (clps_FEntry s))) (negb (null (clps_FExit s))) (negb (null (clps_KProbe s)))
    (negb (null (clps_KRetProbe s))) (negb (null (clps_UProbe s)))
    (negb (null (clps_URetProbe s))) (negb (null (clps_TracePoint s))).

Definition cl_linkless (s : ClBpfApplicationProgramState) : bool :=
  cl_field true s (no_links (clps_XDP s)) (no_links (clps_TC s)) (no_links (clps_TCX s))
    (no_fn_links (clps_FEntry s)) (no_fn_links (clps_FExit s)) (no_links (clps_KProbe s))
    (no_links (clps_KRetProbe s)) (no_links (clps_UProbe s)) (no_links (clps_URetProbe s))
    (no_links (clps_TracePoint s)).

Definition ns_field {A} (dflt : A) (s : BpfApplicationProgramState)
    (xdp tc tcx uprobe uretprobe : A) : A :=
  if decide (nsps_Type s = ProgTypeUprobe) then uprobe
  else if decide (nsps_Type s = ProgTypeUretprobe) then uretprobe
  else if decide (nsps_Type s = ProgTypeTC) then tc
  else if decide (nsps_Type s = ProgTypeTCX) then tcx
  else if decide (nsps_Type s = ProgTypeXDP) then xdp
  else dflt.

Definition ns_shaped (s : BpfApplicationProgramState) : bool :=
  ns_field true s (negb (null (nsps_XDP s))) (negb (null (nsps_TC s))) (negb (null (nsps_TCX s)))
    (negb (null (nsps_UProbe s))) (negb (null (nsps_URetProbe s))).

Definition ns_linkless (s : BpfApplicationProgramState) : bool :=
  ns_field true s (no_links (nsps_XDP s)) (no_links (nsps_TC s)) (no_links (nsps_TCX s))
    (no_links (nsps_UProbe s)) (no_links (nsps_URetProbe s)).

Ltac delete_links_law :=
  match goal with
  | H : negb (null ?p) = true |- _ =>
      destruct p as [[]|]; [|discriminate H]; eexists; split; [intros w; reflexivity|];
      split; [reflexivity|]
  end.

(** Evaluates the switches on a type that is a constant. *)
Ltac eval_type := repeat (rewrite decide_False by done); repeat (rewrite decide_True by done).

(** The state [ak_newProgState] returned in [H]. *)
Ltac new_state_law H :=
  match type of H with
  | context [deref ?p] => destruct p as [[]|]; [|discriminate H]
  | _ => idtac
  end;
  injection H as <- _.

Section scope_laws.
Context {W : Type} `{!AgentEnv W, !LabelLib, !BytecodeLib W,
  !ApplicationAPI W ClBpfApplicationProgram ClBpfApplicationProgramState,
  !ApplicationAPI W BpfApplicationProgram BpfApplicationProgramState}.

Lemma cl_deleteLinks s :
  cl_shaped s = true →
  ∃ s', (∀ w : W, ClApp.deleteLinks s w = (Ret s', w)) ∧ prog_common s' = prog_common s ∧
    cl_shaped s' = true ∧ cl_linkless s' = true.
Proof using Type.
  destruct s as [c t x tc tcx fe fx kp kr up ur tp]. unfold cl_shaped, cl_field. cbn.
  unfold ClApp.deleteLinks, cl_linkless, cl_shaped, cl_field. cbn.
  repeat (case_decide; [subst; intros Hs; delete_links_law; cbn;
    eval_type; done|]).
  intros _. eexists. split; [done|]. cbn. repeat (rewrite decide_False by done). done.
Qed.

Lemma ns_deleteLinks s :
  ns_shaped s = true →
  ∃ s', (∀ w : W, NsApp.deleteLinks s w = (Ret s', w)) ∧ prog_common s' = prog_common s ∧
    ns_shaped s' = true ∧ ns_linkless s' = true.
Proof using Type.
  destruct s as [c t x tc tcx up ur]. unfold ns_shaped, ns_field. cbn.
  unfold NsApp.deleteLinks, ns_linkless, ns_shaped, ns_field. cbn.
  repeat (case_decide; [subst; intros Hs; delete_links_law; cbn;
    eval_type; done|]).
  intros _. eexists. split; [done|]. cbn. repeat (rewrite decide_False by done). done.
Qed.

Lemma cl_newProgState prog (w : W) s w' :
  ClApp.newProgState prog w = (Ret (Ok s), w') →
  prog_common s = mkBpfProgramStateCommon (clp_Name prog) ProgAttachPending None ∧
  cl_shaped s = true ∧ cl_linkless s = true.
Proof using Type.
  unfold ClApp.newProgState.
  repeat (case_decide; [match goal with Ht : clp_Type prog = _ |- _ => rewrite Ht end;
    intros Hret; new_state_law Hret; unfold cl_linkless, cl_shaped, cl_field; cbn; eval_type; done|]).
  intros Hret. discriminate Hret.
Qed.

Lemma ns_newProgState prog (w : W) s w' :
  NsApp.newProgState prog w = (Ret (Ok s), w') →
  prog_common s = mkBpfProgramStateCommon (nsp_Name prog) ProgAttachPending None ∧
  ns_shaped s = true ∧ ns_linkless s = true.
Proof using Type.
  unfold NsApp.newProgState.
  repeat (case_decide; [match goal with Ht : nsp_Type prog = _ |- _ => rewrite Ht end;
    intros Hret; new_state_law Hret; unfold ns_linkless, ns_shaped, ns_field; cbn; eval_type; done|]).
  intros Hret. discriminate Hret.
Qed.

#[export] Instance ClApp_laws : AppKindLaws (W := W) ClApp.app_kind.
Proof using Type.
  refine (Build_AppKindLaws W _ _ _ ClApp.app_kind cl_shaped cl_linkless _ _ _ _).
  - by intros c [].
  - by intros c [].
  - apply cl_deleteLinks.
  - apply cl_newProgState.
Defined.

#[export] Instance NsApp_laws : AppKindLaws (W := W) NsApp.app_kind.
Proof using Type.
  refine (Build_AppKindLaws W _ _ _ NsApp.app_kind ns_shaped ns_linkless _ _ _ _).
  - by intros c [].
  - by intros c [].
  - apply ns_deleteLinks.
  - apply ns_newProgState.
Defined.
End scope_laws.
