(* ===== verification/AppLoop.v ===== *)
(** How one application ends the loop over all of them: the poll and the status
    update, the load and the check that follows it, the initial program list,
    and the outcome of a Reconcile of one application. *)

From S2P Require Import Prelude ApiTypes Constants Bpfman Selectors Links LinkSpecs Kinds.
From S2P Require Import ClKinds NsKinds Application Apps AppSpecs.
From stdpp Require Import options.
#[local] Set Default Proof Using "Type*".

(** ** The poll *)

(** What an API server promises of the clock a poll is bound to: [elapsed] are
    the milliseconds since the poll started, a tick that lets the poll go on
    comes an interval later and before the timeout. *)
Class PollLaws (W P PS : Type) `{!ApplicationAPI W P PS} := {
  elapsed : W → Z;
  law_tick w : (poll_tick w).1 = true →
    elapsed w + updateRetryInterval_ms ≤ elapsed (poll_tick w).2 ≤ updateTimeout_ms;
}.

Section poll.
Context {W P PS A : Type} `{!ApplicationAPI W P PS}.
Implicit Types (w : W) (cond : GoM W (option A)).

(** A condition that always returns makes the poll return: with what the
    condition found in the last attempt, and after at most [n] attempts. *)
Lemma wp_poll n cond i w (found : A → W → Prop) (Q : option A * Z → W → Prop) :
  (∀ w0, wp cond (λ o w1, ∀ a, o = Some a → found a w1) w0) →
  (∀ o j w', i ≤ j ≤ i + Z.of_nat n → (∀ a, o = Some a → found a w') → Q (o, j) w') →
  wp (poll n i cond) Q w.
Proof.
  intros Hcond. revert i w. induction n as [|n IH]; intros i w HQ; cbn [poll].
  { apply wpg_ret. apply HQ; [lia|done]. }
  wp_step. eapply wpg_mono; [apply Hcond|]. intros [a|] w1 Hf.
  - apply wpg_ret, HQ; [lia|done].
  - wp_step. wp_step. destruct (poll_tick w1).1.
    + apply IH. intros o j w' Hj. apply HQ. lia.
    + apply wpg_ret, HQ; [lia|done].
Qed.

(** The attempts that the timeout allows from [w]. *)
Definition attempts_left `{!PollLaws W P PS} w : nat :=
  Z.to_nat ((updateTimeout_ms - elapsed w) / updateRetryInterval_ms) + 1.

(** More fuel than the timeout allows attempts changes nothing. *)
Lemma poll_fuel `{!PollLaws W P PS} n m cond i w :
  (∀ w0 o w1, cond w0 = (Ret o, w1) → elapsed w0 ≤ elapsed w1) →
  (attempts_left w ≤ n)%nat → (attempts_left w ≤ m)%nat →
  poll n i cond w = poll m i cond w.
Proof.
  intros Hcond. revert m i w. induction n as [|n IH]; intros m i w Hn Hm;
    [unfold attempts_left in Hn; lia|].
  destruct m as [|m]; [unfold attempts_left in Hm; lia|].
  cbn [poll]. unfold mbind, GoM_bind.
  destruct (cond w) as [[[a|]|why] w1] eqn:Hc; try done.
  unfold lift. destruct (poll_tick w1) as [[] w2] eqn:Ht; [|done].
  pose proof (law_tick w1) as Hl. rewrite Ht in Hl. specialize (Hl eq_refl). simpl in Hl.
  pose proof (Hcond _ _ _ Hc).
  unfold updateRetryInterval_ms in Hl.
  assert (S (attempts_left w2) ≤ attempts_left w)%nat.
  { unfold attempts_left, updateRetryInterval_ms, updateTimeout_ms in *.
    assert ((120000 - elapsed w2) / 100 + 1 ≤ (120000 - elapsed w) / 100).
    { replace ((120000 - elapsed w2) / 100 + 1) with ((120000 - elapsed w2 + 1 * 100) / 100)
        by (rewrite Z.div_add; lia).
      apply Z.div_le_mono; lia. }
    assert (0 ≤ (120000 - elapsed w2) / 100) by (apply Z.div_pos; lia). lia. }
  apply IH; lia.
Qed.
End poll.

Section status_update.
Context {W P PS : Type} `{!AgentEnv W, !LabelLib, !BytecodeLib W, !ApplicationAPI W P PS,
  !ProgramState PS, !EqDecision PS} (ak : AppKind W P PS).
Implicit Types (r : AppRec P PS) (w : W).

Lemma wp_getBpfAppState rc app w (Q : result (option (AppState PS)) → W → Prop) :
  (∀ res w', Q res w') → wp (getBpfAppState ak rc app) Q w.
Proof. intros HQ. unfold getBpfAppState. wp_step. wp_step. apply wpg_ret. apply HQ. Qed.

Lemma getBpfAppState_total rc app w :
  ∃ res w', getBpfAppState ak rc app w = (Ret res, w').
Proof.
  destruct (wp_run (getBpfAppState ak rc app) (λ _ _, True) w) as (res & w' & H' & _);
    [by apply wp_getBpfAppState|by eauto].
Qed.

(** The wait ends with the state the server had, once its update count has
    reached the one that was written. *)
Lemma wp_waitForStatus r w (Q : option error * AppRec P PS → W → Prop) :
  (∀ an w', st_UpdateCount (status r) ≤ st_UpdateCount (as_Status an) →
     Q (None, with_appState an r) w') →
  (∀ e w', Q (Some e, r) w') →
  wp (waitForBpfAppStateStatusUpdate ak r) Q w.
Proof.
  intros Hfound Hgone. unfold waitForBpfAppStateStatusUpdate. wp_step.
  eapply (wp_poll _ _ _ _
    (λ an _, st_UpdateCount (status r) ≤ st_UpdateCount (as_Status an))).
  - intros w0. wp_step. apply wp_getBpfAppState. intros res w1. apply wpg_ret.
    intros an Han. destruct res as [[an'|]|]; try discriminate Han.
    destruct (Z.leb_spec (st_UpdateCount (status r)) (st_UpdateCount (as_Status an')));
      [|discriminate Han]. by injection Han as <-.
  - intros [an|] j w' _ Hf; apply wpg_ret; [by apply Hfound, Hf|apply Hgone].
Qed.

Definition bump r : AppRec P PS :=
  with_status (λ s, set_UpdateCount (to_int64 (st_UpdateCount s + 1)) s) r.

Lemma updateBpfAppStateStatus_total original r w :
  ∃ changed err r' w',
    updateBpfAppStateStatus ak original r w = (Ret (changed, err, r'), w') ∧
    (changed = false ↔ ∃ o, original = Some o ∧ as_Status o = status r) ∧
    (changed = false → err = None ∧ r' = r ∧ w' = w) ∧
    currentApp r' = currentApp r ∧
    (changed = true → err = None →
      ∃ an, (api_StatusUpdate (currentAppState (bump r)) w).1 = Ok an ∧
        st_UpdateCount (as_Status an) ≤ st_UpdateCount (status r')).
Proof.
  set (same := match original with
               | None => false
               | Some o => deep_equal (as_Status o) (status r)
               end).
  assert (same = true ↔ ∃ o, original = Some o ∧ as_Status o = status r) as Hsame.
  { unfold same, deep_equal. destruct original as [o|].
    - rewrite bool_decide_eq_true. naive_solver.
    - naive_solver. }
  unfold updateBpfAppStateStatus. fold same. fold (bump r).
  destruct same.
  - exists false, None, r, w. split; [done|]. split; [by rewrite <- Hsame|]. by repeat split.
  - assert (∀ b : bool, b = true → b = false ↔ ∃ o, original = Some o ∧ as_Status o = status r)
      as Hb by (intros b ->; rewrite <- Hsame; done).
    destruct (wp_run (res ← lift (api_StatusUpdate (currentAppState (bump r)));
        match res with
        | Err err => mret (true, Some err, bump r)
        | Ok an => '(err, r) ← waitForBpfAppStateStatusUpdate ak (with_appState an (bump r));
                   mret (true, err, r)
        end)
      (λ x _, let '(changed, err, r') := x in changed = true ∧ currentApp r' = currentApp r ∧
         (err = None → ∃ an, (api_StatusUpdate (currentAppState (bump r)) w).1 = Ok an ∧
            st_UpdateCount (as_Status an) ≤ st_UpdateCount (status r'))) w)
      as ([[c err] r'] & w' & Hrun & -> & Happ & Herr).
    + wp_step. wp_step. destruct (api_StatusUpdate _ w).1 as [an|e]; [|by apply wpg_ret].
      wp_step. apply wp_waitForStatus.
      * intros an' w' Hle. apply wpg_ret. split; [done|]. split; [done|].
        intros _. exists an. split; [done|]. exact Hle.
      * intros e w'. by apply wpg_ret.
    + exists true, err, r', w'. split; [exact Hrun|]. split; [by apply Hb|]. split; [done|].
      split; [done|]. by intros _.
Qed.

(** The status update writes nothing exactly when the status is deeply
    equal to the original; otherwise it writes the status with the update
    count incremented at 64 bits, and when it ends without an error the
    reconciler holds a state whose count is at least the one the server
    answered with. It always returns. *)
Theorem updateBpfAppStateStatus_spec original r w :
  ∃ changed err r' w',
    updateBpfAppStateStatus ak original r w = (Ret (changed, err, r'), w') ∧
    (changed = false ↔ ∃ o, original = Some o ∧ as_Status o = status r) ∧
    (changed = false → err = None ∧ r' = r ∧ w' = w) ∧
    currentApp r' = currentApp r ∧
    (changed = true → err = None →
      ∃ an, (api_StatusUpdate (currentAppState (bump r)) w).1 = Ok an ∧
        st_UpdateCount (as_Status an) ≤ st_UpdateCount (status r')).
Proof. apply updateBpfAppStateStatus_total. Qed.
End status_update.

Section poll_fuel.
Context {W P PS A : Type} `{!ApplicationAPI W P PS, !PollLaws W P PS}.

End poll_fuel.

(** ** Load *)

(** What a successful load says: the answer has a program for each one of the
    request, in order, and each is loaded; no program is lost. *)
Class BpfmanLoadLaws (W : Type) `{BpfmanLaws W} := {
  law_Load_Ok rq w rs : (bpfman_Load rq w).1 = Ok rs →
    Forall2 (λ i r, ∃ info k, pr_Info r = Some info ∧ pr_KernelInfo r = Some k ∧
      pi_Name info = li_Name i ∧ is_Some (loaded (bpfman_Load rq w).2 !! ki_Id k)) (lr_Info rq) rs;
  law_Load_keeps rq w id : is_Some (loaded w !! id) → is_Some (loaded (bpfman_Load rq w).2 !! id);
}.

Section load.
Context {W P PS : Type} `{!AgentEnv W, !BpfmanLaws W, !BpfmanLoadLaws W, !LabelLib,
  !BytecodeLib W, !ApplicationAPI W P PS, !ProgramState PS, !ProgramStateLaws PS,
  !EqDecision PS} (ak : AppKind W P PS).
Implicit Types (r : AppRec P PS) (w : W).

(** Every answered program is complete and loaded in [m]. *)
Definition answers (m : gmap Z (gset Z)) (rs : list ProgramResponse) : Prop :=
  ∀ x, x ∈ rs → ∃ info k, pr_Info x = Some info ∧ pr_KernelInfo x = Some k ∧
    is_Some (m !! ki_Id k).

Lemma run_GetBpfProgramId name m rs w :
  answers m rs →
  ∃ res, GetBpfProgramId name rs w = (Ret res, w) ∧
    ∀ id, res = Ok id → is_Some (m !! id).
Proof.
  induction rs as [|x rs IH]; intros Ha; cbn [GetBpfProgramId].
  { eexists. split; [done|]. done. }
  destruct (Ha x ltac:(left)) as (info & k & Hi & Hk & Hl). rewrite Hi.
  cbn [deref]. unfold mbind, GoM_bind, mret, GoM_ret.
  destruct (decide (pi_Name info = name)).
  - rewrite Hk. cbn. eexists. split; [done|]. by intros id [= <-].
  - apply IH. intros y Hy. apply Ha. by right.
Qed.

(** A program whose id is in [m], everything else of it as in [s]. *)
Definition given_id (m : gmap Z (gset Z)) (s s' : PS) : Prop :=
  ∃ id, is_Some (m !! id) ∧ s' = set_prog_common (with_ProgramId (Some id) (prog_common s)) s.

Lemma run_assign_ids m ps rs w :
  answers m rs →
  ∃ err ps', assign_ids ps rs w = (Ret (err, ps'), w) ∧
    (err = None → Forall2 (given_id m) ps ps').
Proof.
  intros Ha. induction ps as [|s ps IH]; cbn [assign_ids].
  { exists None, []. split; [done|]. constructor. }
  destruct (run_GetBpfProgramId (ps_Name (prog_common s)) m rs w Ha) as (res & Hrun & Hres).
  rewrite (run_bind _ _ _ _ _ Hrun). destruct res as [id|e].
  - destruct IH as (err & ps' & Hrest & Hps). rewrite (run_bind _ _ _ _ _ Hrest).
    eexists _, _. split; [done|]. intros He. constructor; [|by apply Hps].
    exists id. split; [by apply Hres|done].
  - eexists _, _. by split.
Qed.

Lemma given_ids_loaded m ps ps' :
  Forall2 (given_id m) ps ps' → forallb (program_loaded m) ps' = true.
Proof.
  induction 1 as [|s s' ps ps' (id & Hid & ->) _ IH]; simpl; [done|].
  rewrite IH, andb_true_r. unfold program_loaded. rewrite prog_common_set. simpl.
  by apply bool_decide_eq_true_2.
Qed.

(** A load that reports no error gave every program of the state an id
    that the daemon has loaded and changed nothing else of the application,
    so that the load check that follows it answers yes. *)
Theorem load_then_isLoaded r w r' w' :
  app_load ak r w = (Ret (None, r'), w') →
  currentApp r' = currentApp r ∧ Forall2 (given_id (loaded w')) (programs r) (programs r') ∧
  ∃ w'', app_isLoaded r' w' = (Ret true, w'') ∧ loaded w'' = loaded w'.
Proof.
  intros Hload. unfold app_load in Hload.
  apply run_bind_inv in Hload as (rq & w1 & _ & Hload). destruct rq as [rq|e]; [|done].
  apply run_bind_inv in Hload as (rs & w2 & Hl & Hload).
  rewrite run_lift in Hl. injection Hl as Hrs <-. destruct rs as [rs|e]; [|done].
  assert (answers (loaded (bpfman_Load rq w1).2) rs) as Ha.
  { pose proof (law_Load_Ok _ _ _ Hrs) as Hall. intros x Hx.
    apply list_elem_of_lookup in Hx as (i & Hi).
    destruct (Forall2_lookup_r _ _ _ _ _ Hall Hi) as (li & _ & info & k & ? & ? & _ & ?).
    by exists info, k. }
  destruct (run_assign_ids _ (programs r) rs (bpfman_Load rq w1).2 Ha)
    as (err & ps' & Hrun & Hps).
  rewrite (run_bind _ _ _ _ _ Hrun) in Hload. injection Hload as -> <- <-.
  specialize (Hps eq_refl). rewrite programs_set_programs. split; [done|]. split; [done|].
  destruct (wp_run (app_isLoaded (set_programs ps' r)) (λ b w'', b = true ∧
      loaded w'' = loaded (bpfman_Load rq w1).2) (bpfman_Load rq w1).2)
    as (b & w'' & Hrun' & -> & Hw); [|by exists w''].
  unfold app_isLoaded. rewrite programs_set_programs.
  apply (wp_isLoaded_loop ak). intros w'' Hw. 
  rewrite (given_ids_loaded _ _ _ Hps). by split.
Qed.
End load.

(** ** The initial program list *)

Section initial.
Context {W P PS : Type} `{!AgentEnv W, !LabelLib, !BytecodeLib W,
  !ApplicationAPI W P PS, !ProgramState PS, !ProgramStateLaws PS, !EqDecision PS}
  (ak : AppKind W P PS) `{!AppKindLaws ak}.
Implicit Types (r : AppRec P PS) (w : W).

(** The state of a program that has just been created. *)
Definition initial (prog : P) (s : PS) : Prop :=
  prog_common s = mkBpfProgramStateCommon (ak_progName ak prog) ProgAttachPending None ∧
  ak_shaped s = true ∧ ak_linkless s = true.

Lemma init_programs_ok spec ps w ps' w' :
  init_programs ak spec ps w = (Ret (None, ps'), w') →
  ∃ new, ps' = ps ++ new ∧ Forall2 initial spec new.
Proof.
  revert ps w. induction spec as [|prog spec IH]; intros ps w Hrun; cbn [init_programs] in Hrun.
  { injection Hrun as <- _. exists []. by rewrite app_nil_r. }
  apply run_bind_inv in Hrun as (dup & w1 & _ & Hrun). destruct dup as [i|e]; [done|].
  apply run_bind_inv in Hrun as (res & w2 & Hnew & Hrun). destruct res as [s|e']; [|done].
  apply IH in Hrun as (new & -> & Hnews). exists (s :: new). rewrite <- app_assoc.
  split; [done|]. constructor; [|done]. by eapply law_newProgState.
Qed.

(** A program list that is initialised without an error has one entry for
    each program of the spec, in its order, with its name, pending, without
    an id, with the struct of its type present and without links. *)
Theorem initializeNodeProgramList_ok r w r' w' :
  initializeNodeProgramList ak r w = (Ret (None, r'), w') →
  programs r = [] ∧ currentApp r' = currentApp r ∧
  Forall2 initial (elems (app_Programs (currentApp r))) (programs r').
Proof.
  unfold initializeNodeProgramList. case_decide as Hps; [done|]. intros Hrun.
  apply run_bind_inv in Hrun as ([err ps] & w1 & Hinit & Hret).
  injection Hret as -> <- <-. apply init_programs_ok in Hinit as (new & -> & Hnew).
  split; [|split; [done|]].
  - by destruct (programs r).
  - by rewrite programs_set_programs.
Qed.
End initial.

(** ** One application in the loop over all *)

Section loop.
Context {W P PS : Type} `{!AgentEnv W, !LabelLib, !BytecodeLib W, !ApplicationAPI W P PS,
  !ProgramState PS, !EqDecision PS} (ak : AppKind W P PS).
Implicit Types (r : AppRec P PS) (w : W).

Lemma updateBpfAppStateCondition_total t r w :
  ∃ b r' w', updateBpfAppStateCondition (app_methods ak) t r w = (Ret (b, r'), w') ∧
    currentApp r' = currentApp r.
Proof.
  unfold updateBpfAppStateCondition.
  cbn [getAppStateConditions setAppStateConditions clearAppStateConditions app_methods].
  cbv zeta beta.
  destruct (elems _) as [|c [|]]; [|case_decide; [by eexists _, _, _|]|];
    (eexists _, _, _; split; [erewrite run_bind by apply (run_setAppStateConditions ak);
       reflexivity|done]).
Qed.

Lemma load_failure r w e r1 w1 :
  reconcileLoad (app_methods ak) r w = (Ret (Some e, r1), w1) →
  ∃ res w', reconcile_existing ak r w = (Ret (Some res), w') ∧
    (res = Ok 0 ∨ res = Ok retryDurationAgent).
Proof.
  intros Hload. unfold reconcile_existing. rewrite (run_bind _ _ _ _ _ Hload).
  destruct (updateBpfAppStateCondition_total BpfAppStateCondError r1 w1)
    as (b & r2 & w2 & Hcond & _).
  rewrite (run_bind _ _ _ _ _ Hcond).
  destruct (updateBpfAppStateStatus_total ak None r2 w2) as (changed & err & r3 & w3 & Hup & Hch & _).
  rewrite (run_bind _ _ _ _ _ Hup).
  assert (changed = true) as ->.
  { destruct changed; [done|]. destruct Hch as [Hch _]. by destruct (Hch eq_refl) as (? & ? & _). }
  destruct err; eexists _, w3; (split; [done|]); [by right|by left].
Qed.

(** C32: an application whose load fails always ends the Reconcile, because
    its status is written in every case: the applications after it in the
    list are not reached, whatever they are, and the result is no error but
    at most a retry. *)
Theorem load_failure_ends_loop rc app (st : AppState PS) apps w w0 e r1 w1 :
  getBpfAppState ak rc app w = (Ret (Ok (Some st)), w0) →
  reconcileLoad (app_methods ak) (mkAppRec rc app st) w0 = (Ret (Some e, r1), w1) →
  ∃ res w', reconcile_apps ak rc (app :: apps) w = (Ret res, w') ∧
    reconcile_apps ak rc [app] w = (Ret res, w') ∧
    (res = Ok 0 ∨ res = Ok retryDurationAgent).
Proof.
  intros Hget Hload. destruct (load_failure _ _ _ _ _ Hload) as (res & w' & Hrun & Hres).
  assert (reconcile_app ak rc app w = (Ret (Some res), w')) as Happ.
  { unfold reconcile_app. by rewrite (run_bind _ _ _ _ _ Hget). }
  exists res, w'. cbn [reconcile_apps]. rewrite !(run_bind _ _ _ _ _ Happ). by split.
Qed.

End loop.

(** ** Deletion *)

Section deletion.
Context {W P PS : Type} `{!AgentEnv W, !BpfmanLaws W, !LabelLib, !BytecodeLib W,
  !ApplicationAPI W P PS, !ProgramState PS, !ProgramStateLaws PS, !EqDecision PS}
  (ak : AppKind W P PS) `{!AppKindLaws ak}.
Implicit Types (r : AppRec P PS) (w : W).

Definition forgotten (s : PS) : Prop :=
  ps_ProgramId (prog_common s) = None ∧
  ps_ProgramLinkStatus (prog_common s) = ProgAttachSuccess.

(** The state of an application that the node has let go of. *)
Definition released r : Prop :=
  st_AppLoadStatus (status r) = AppUnLoadSuccess ∧
  (∃ c, st_Conditions (status r) = Some [c] ∧ cond_Type c = BpfAppStateCondUnloaded) ∧
  Forall forgotten (programs r).

Lemma run_reconcileLoad_deleted r w :
  isNodeSelected (NodeSelector (app_common (currentApp r)))
    (om_Labels (node_meta (rc_ourNode (app_rc r)))) = Ok true →
  app_isBeingDeleted (currentApp r) = true →
  reconcileLoad (app_methods ak) r w =
    (r1 ← app_unload ak r; mret (None, with_status (set_AppLoadStatus AppUnLoadSuccess) r1)) w.
Proof.
  intros Hsel Hdel. unfold reconcileLoad.
  cbn [getNode getNodeSelector isBeingDeleted setAppLoadStatus unload app_methods].
  rewrite Hsel. cbn [negb]. by rewrite Hdel.
Qed.

Lemma unload_forgotten s w : forgotten s → unload_program ak s w = (Ret s, w).
Proof.
  intros [Hid Hst]. unfold unload_program. rewrite Hid.
  unfold mbind, GoM_bind, mret, GoM_ret. do 2 f_equal.
  unfold with_ProgramLinkStatus. rewrite <- Hst.
  transitivity (set_prog_common (prog_common s) s); [|apply set_prog_get].
  f_equal. by destruct (prog_common s).
Qed.

Lemma unload_all_forgotten ss w :
  Forall forgotten ss → mapM (unload_program ak) ss w = (Ret ss, w).
Proof.
  induction 1 as [|s ss Hs _ IH]; simpl; [done|].
  rewrite (run_bind _ _ _ _ _ (unload_forgotten s w Hs)). by rewrite (run_bind _ _ _ _ _ IH).
Qed.

Lemma set_programs_id r : set_programs (programs r) r = r.
Proof using Type.
  destruct r as [rc app [m [uc nd al ps cs]]]. unfold set_programs, programs, status, with_status.
  cbn. unfold set_Programs. cbn. by destruct ps as [[]|].
Qed.

(** The node runs the application that is being deleted. *)
Definition deleting r : Prop :=
  isNodeSelected (NodeSelector (app_common (currentApp r)))
    (om_Labels (node_meta (rc_ourNode (app_rc r)))) = Ok true ∧
  app_isBeingDeleted (currentApp r) = true.

(** The state is settled: an unload and the condition change nothing. *)
Lemma run_released r w :
  deleting r → released r → reconcileLoad (app_methods ak) r w = (Ret (None, r), w) ∧
  updateBpfAppStateCondition (app_methods ak) BpfAppStateCondUnloaded r w = (Ret (false, r), w).
Proof.
  intros [Hsel Hdel] (Hload & (c & Hc & Hty) & Hall). split.
  - rewrite run_reconcileLoad_deleted by done.
    assert (app_unload ak r w = (Ret r, w)) as Hun.
    { unfold app_unload. rewrite (run_bind _ _ _ _ _ (unload_all_forgotten _ w Hall)).
      by rewrite set_programs_id. }
    rewrite (run_bind _ _ _ _ _ Hun). unfold mret, GoM_ret. do 3 f_equal.
    destruct r as [rc app [m []]]. unfold status in Hload. cbn in Hload. by subst.
  - unfold updateBpfAppStateCondition. cbn [getAppStateConditions app_methods].
    rewrite Hc. cbn. by rewrite decide_True.
Qed.

Lemma status_released r : released r → checkProgramStatus r = BpfAppStateCondUnloaded.
Proof using Type.
  intros (Hload & _). unfold checkProgramStatus. rewrite Hload.
  by rewrite decide_False, decide_True.
Qed.

(** C10: once an application that is being deleted has its programs unloaded
    and that is recorded in its state, the next Reconcile writes no status
    but takes the agent's finalizer, and no other, off the state object. *)
Theorem deleted_app_released r w :
  deleting r → released r → rc_finalizer (app_rc r) ∈ om_Finalizers (as_meta (currentAppState r)) →
  ∃ m, reconcile_existing ak r w = (Ret (Some (Ok 0)), (api_Update (mkAppState m (status r)) w).2) ∧
    (∀ f, f ∈ om_Finalizers m ↔
       f ∈ om_Finalizers (as_meta (currentAppState r)) ∧ f ≠ rc_finalizer (app_rc r)) ∧
    m = set_Finalizers (om_Finalizers m) (as_meta (currentAppState r)).
Proof.
  intros Hdel Hrel Hfin. destruct (run_released r w Hdel Hrel) as [Hload Hcond].
  set (m := set_Finalizers (filter (λ x, x ≠ rc_finalizer (app_rc r))
              (om_Finalizers (as_meta (currentAppState r)))) (as_meta (currentAppState r))).
  exists m. split; [|split].
  - unfold reconcile_existing. rewrite (run_bind _ _ _ _ _ Hload).
    destruct Hdel as [_ Hd]. rewrite Hd.
    rewrite (run_bind _ _ _ _ _ (run_ret _ _)). rewrite decide_True by done.
    rewrite (status_released r Hrel), (run_bind _ _ _ _ _ Hcond).
    assert (updateBpfAppStateStatus ak (Some (currentAppState r)) r w =
      (Ret (false, None, r), w)) as Hup.
    { unfold updateBpfAppStateStatus, deep_equal. by rewrite bool_decide_eq_true_2. }
    rewrite (run_bind _ _ _ _ _ Hup), Hd.
    assert (IsBpfAppStateConditionFailure (st_Conditions (status r)) = false) as ->.
    { destruct Hrel as (_ & (c & -> & Hty) & _). unfold IsBpfAppStateConditionFailure.
      simpl. by rewrite Hty. }
    cbn [andb negb]. unfold removeFinalizer, RemoveFinalizer. fold m.
    rewrite bool_decide_eq_true_2.
    + unfold mbind, GoM_bind. rewrite run_lift. done.
    + apply not_eq_sym, Nat.lt_neq. eapply length_filter_lt; [exact Hfin|].
      intros Hx. by destruct Hx.
  - intros f. unfold m. cbn. rewrite list_elem_of_filter. naive_solver.
  - done.
Qed.

Lemma unloaded_forgotten ss ss' : Forall2 (unloaded ak) ss ss' → Forall forgotten ss'.
Proof.
  induction 1 as [|s s' ss ss' (Hc & _) _ IH]; constructor; [|done].
  unfold forgotten. by rewrite Hc.
Qed.

(** C9: the first Reconcile of an application that is being deleted unloads
    its programs and hands a released state with the same programs to the status
    update; when that writes, the Reconcile ends there, with a retry if the
    write failed. *)
Theorem deletion_pass r w :
  deleting r → Forall (λ s, ak_shaped s = true) (programs r) →
  ∃ r2 w2 changed err r3 w3,
    released r2 ∧ Forall2 (unloaded ak) (programs r) (programs r2) ∧
    updateBpfAppStateStatus ak (Some (currentAppState r)) r2 w2 = (Ret (changed, err, r3), w3) ∧
    (changed = false ↔ status r = status r2) ∧
    (changed = true → reconcile_existing ak r w =
       (Ret (Some (Ok (match err with Some _ => retryDurationAgent | None => 0 end))), w3)).
Proof.
  intros Hdel Hsh.
  destruct (unload_correct ak False r w (False_ind _) Hsh)
    as (r1 & w1 & Hun & Happ & Hps & _).
  set (rl := with_status (set_AppLoadStatus AppUnLoadSuccess) r1).
  assert (reconcileLoad (app_methods ak) r w = (Ret (None, rl), w1)) as Hload.
  { destruct Hdel. rewrite run_reconcileLoad_deleted by done.
    by rewrite (run_bind _ _ _ _ _ Hun). }
  destruct (updateBpfAppStateCondition_sets ak BpfAppStateCondUnloaded rl w1 eq_refl)
    as (b & r2 & w2 & c & Hcond & Hcs & Hty & Hr2 & _).
  destruct (updateBpfAppStateStatus_total ak (Some (currentAppState r)) r2 w2)
    as (changed & err & r3 & w3 & Hup & Hch & _).
  exists r2, w2, changed, err, r3, w3.
  assert (programs r2 = programs r1 ∧ currentApp r2 = currentApp r) as [Hpr Hcur]
    by (by rewrite Hr2).
  split; [|split; [by rewrite Hpr|split; [done|split]]].
  - split; [by rewrite Hr2|]. split; [by exists c|]. rewrite Hpr. by eapply unloaded_forgotten.
  - rewrite Hch. split; [by intros (o & [= <-] & Ho)|]. intros Ho. by eexists.
  - intros ->. unfold reconcile_existing. rewrite (run_bind _ _ _ _ _ Hload).
    destruct Hdel as [_ Hd]. change (currentApp rl) with (currentApp r1). rewrite Happ, Hd.
    rewrite (run_bind _ _ _ _ _ (run_ret _ _)). rewrite decide_True by done.
    assert (checkProgramStatus rl = BpfAppStateCondUnloaded) as ->
      by (unfold checkProgramStatus; cbn; by rewrite decide_False, decide_True).
    rewrite (run_bind _ _ _ _ _ Hcond), (run_bind _ _ _ _ _ Hup). by destruct err.
Qed.
End deletion.
