(* ===== verification/Keeps.v ===== *)
(** Invariants of the outside state that hold between any two calls: [keeps I m Q] says
    that [m] preserves [I], also when it panics, and returns only values of [Q]. The
    calls of the agent's environment and of a program reconciler in this form. *)

From S2P Require Import Prelude ApiTypes Constants Bpfman Selectors Links Kinds ClKinds NsKinds.
From stdpp Require Import options.
#[local] Set Default Proof Using "Type*".

(** ** The triple *)

Section keeps.
Context {W : Type} (I : W → Prop).

Definition keeps {A} (m : GoM W A) (Q : A → Prop) : Prop :=
  ∀ w, I w → I (m w).2 ∧ match (m w).1 with Ret a => Q a | Panic _ => True end.

Abbreviation any := (λ _, True).

Lemma keeps_ret {A} (a : A) (Q : A → Prop) : Q a → keeps (mret a) Q.
Proof using Type. intros Ha w Hw. done. Qed.

Lemma keeps_panic {A} why (Q : A → Prop) : keeps (panic why) Q.
Proof using Type. intros w Hw. done. Qed.

Lemma keeps_bind {A B} (m : GoM W A) (f : A → GoM W B) (P : A → Prop) (Q : B → Prop) :
  keeps m P → (∀ a, P a → keeps (f a) Q) → keeps (m ≫= f) Q.
Proof using Type.
  intros Hm Hf w Hw. destruct (Hm w Hw) as [Hw' Ha]. unfold mbind, GoM_bind.
  destruct (m w) as [[a|why] w']; cbn in *; [by apply Hf|done].
Qed.

Lemma keeps_any {A} (m : GoM W A) (Q : A → Prop) : keeps m Q → keeps m any.
Proof using Type. intros Hm w Hw. destruct (Hm w Hw). split; [done|]. by destruct (m w).1. Qed.

Lemma keeps_mono {A} (m : GoM W A) (P Q : A → Prop) :
  keeps m P → (∀ a, P a → Q a) → keeps m Q.
Proof using Type.
  intros Hm HPQ w Hw. destruct (Hm w Hw) as [? Ha]. split; [done|].
  destruct (m w).1; [by apply HPQ|done].
Qed.

(** A call whose value does not matter. *)
Lemma keeps_then {A B} (m : GoM W A) (f : A → GoM W B) (Q : B → Prop) :
  keeps m any → (∀ a, keeps (f a) Q) → keeps (m ≫= f) Q.
Proof using Type. intros Hm Hf. eapply keeps_bind; [exact Hm|]. auto. Qed.

Lemma keeps_deref {A} (p : option A) (Q : A → Prop) : (∀ a, p = Some a → Q a) → keeps (deref p) Q.
Proof using Type. intros Hp w Hw. by destruct p; cbn; auto. Qed.

Lemma keeps_deref_eq {A} (p : option A) : keeps (deref p) (λ a, p = Some a).
Proof using Type. by apply keeps_deref. Qed.

Lemma keeps_lift {A} (g : W → A * W) (Q : A → Prop) :
  (∀ w, I w → I (g w).2 ∧ Q (g w).1) → keeps (lift g) Q.
Proof using Type. intros Hg w Hw. rewrite run_lift. by apply Hg. Qed.

Lemma keeps_mapM {A B} (f : A → GoM W B) xs (P : A → Prop) (Q : A → B → Prop) :
  (∀ x, P x → keeps (f x) (Q x)) → Forall P xs → keeps (mapM f xs) (Forall2 Q xs).
Proof using Type.
  intros Hf. induction xs as [|x xs IH]; intros HP; cbn; [by apply keeps_ret|].
  apply Forall_cons in HP as [Hx HP]. eapply keeps_bind; [by apply Hf|]. intros y Hy.
  eapply keeps_bind; [by apply IH|]. intros ys Hys. apply keeps_ret. by constructor.
Qed.

Lemma keeps_mapM_any {A B} (f : A → GoM W B) xs :
  (∀ x, keeps (f x) any) → keeps (mapM f xs) any.
Proof using Type.
  intros Hf. eapply keeps_any, (keeps_mapM _ _ any (λ _ _, True)); [|by apply Forall_true].
  intros x _. apply Hf.
Qed.

(** The value that a run returned, among those of [Q]. *)
Lemma keeps_inv {A} (m : GoM W A) Q w : keeps m Q → I w → I (m w).2.
Proof using Type. intros Hm Hw. by apply Hm. Qed.

Lemma keeps_wlp {A} (m : GoM W A) (Q : A → Prop) w :
  keeps m Q → I w → wlp m (λ a w', I w' ∧ Q a) w.
Proof using Type.
  intros Hm Hw. destruct (Hm w Hw) as [Hw' Ha]. unfold wpg.
  by destruct (m w) as [[a|why] w'].
Qed.
End keeps.

Create HintDb keeps discriminated.
#[export] Hint Resolve keeps_panic keeps_mapM_any : keeps.

(** Goes through a method whose calls' values do not matter. *)
Ltac keeps_tac :=
  repeat (first
    [ progress intros
    | solve [eauto with keeps]
    | match goal with
      | |- keeps _ (mret _) _ => apply keeps_ret
      | |- keeps _ (deref _) (λ _, True) => apply keeps_deref
      | |- keeps _ (mbind _ _) _ => apply keeps_then
      | |- keeps _ (match ?x with _ => _ end) _ => destruct x
      | |- True => exact Logic.I
      end ]).

(** ** The environment *)

(** What the reconcile of a program calls does not disturb [I]. *)
Class LinksUndisturbed {W : Type} `{!AgentEnv W} (I : W → Prop) : Prop := {
  u_Attach rq w : I w → I (bpfman_Attach rq w).2;
  u_Detach id w : I w → I (bpfman_Detach id w).2;
  u_Get id w : I w → I (bpfman_Get id w).2;
  u_NetNs path w : I w → I (GetNetNsId path w).2;
  u_Reset w : I w → I (NetNs_Reset w).2;
  u_uuid w : I w → I (uuid_New w).2;
  u_Range w : I w → I (Interfaces_Range w).2;
  u_Interfaces w : I w → I (net_Interfaces w).2;
  u_Containers ns sel names w : I w → I (GetContainers ns sel names w).2;
}.

(** Nothing that the agent calls, the API server apart, disturbs [I]. *)
Class Undisturbed {W : Type} `{!AgentEnv W} (I : W → Prop) : Prop := {
  undisturbed_links :: LinksUndisturbed I;
  u_Load rq w : I w → I (bpfman_Load rq w).2;
  u_Unload id w : I w → I (bpfman_Unload id w).2;
}.

Section env.
Context {W : Type} `{!AgentEnv W} (I : W → Prop).
Abbreviation any := (λ _, True).

Lemma keeps_call {A} (g : W → A * W) : (∀ w, I w → I (g w).2) → keeps I (lift g) any.
Proof using Type. intros Hg. apply keeps_lift. auto. Qed.
End env.

Ltac keeps_calls :=
  match goal with
  | |- keeps _ (lift _) (λ _, True) =>
      apply keeps_call; intros;
      first [by apply u_Load|by apply u_Unload|by apply u_Attach|by apply u_Detach|by apply u_Get
            |by apply u_NetNs|by apply u_Reset|by apply u_uuid|by apply u_Range
            |by apply u_Interfaces|by apply u_Containers]
  end.
#[export] Hint Extern 1 (keeps _ (lift _) (λ _, True)) => keeps_calls : keeps.

Section wrappers.
Context {W : Type} `{!AgentEnv W} (I : W → Prop) `{!LinksUndisturbed I}.
Abbreviation any := (λ _, True).

Lemma keeps_Attach rq : keeps I (AttachBpfmanProgram rq) any.
Proof. unfold AttachBpfmanProgram. keeps_tac. Qed.
Lemma keeps_Detach id : keeps I (DetachBpfmanProgram id) any.
Proof. unfold DetachBpfmanProgram. keeps_tac. Qed.
Lemma keeps_doesLinkExist p l : keeps I (doesLinkExist p l) any.
Proof. unfold doesLinkExist, GetBpfmanProgramById. keeps_tac. Qed.
Lemma keeps_GetBpfProgramId name ps : keeps I (GetBpfProgramId name ps) any.
Proof using Type. induction ps as [|p ps IH]; cbn; keeps_tac. Qed.
Lemma keeps_getInterfaces sel node : keeps I (getInterfaces sel node) any.
Proof. unfold getInterfaces, GetPrimaryNodeInterface. keeps_tac. Qed.
Lemma keeps_create_links {L} (f : string → string → GoM W L) pts :
  (∀ i p, keeps I (f i p) any) → keeps I (create_links f pts) any.
Proof using Type. intros Hf. apply keeps_mapM_any. intros [i p]. apply Hf. Qed.
Lemma keeps_net_findLink {L} (path : L → string) same link links :
  keeps I (net_findLink path same link links) any.
Proof.
  assert (Hs : ∀ id i, keeps I (net_search path same link id i links) any).
  { intros id. induction links as [|a links IH]; intros i; cbn; keeps_tac. }
  unfold net_findLink. keeps_tac.
Qed.
End wrappers.

Lemma keeps_Unload {W} `{!AgentEnv W} (I : W → Prop) `{!Undisturbed I} id :
  keeps I (UnloadBpfmanProgram id) (λ _, True).
Proof. unfold UnloadBpfmanProgram. keeps_tac. Qed.
#[export] Hint Resolve keeps_Unload keeps_Attach keeps_Detach keeps_doesLinkExist
  keeps_GetBpfProgramId keeps_getInterfaces keeps_create_links keeps_net_findLink : keeps.

(** ** The reconcile of one program *)

Section program.
Context {W P S A L : Type} `{!AgentEnv W, !LinkState L, !ProgramState S} (I : W → Prop)
  `{!LinksUndisturbed I}.
Implicit Types r : ProgRec P S.

(** What a kind calls keeps [I]. *)
Record KindKeeps (k : Kind W P S A L) : Prop := {
  keeps_request a : keeps I (k_getAttachRequest k a) (λ _, True);
  keeps_expected r a : keeps I (k_getExpectedLinks k r a) (λ _, True);
  keeps_find l ls : keeps I (k_findLink k l ls) (λ _, True);
  keeps_info r : keeps I (k_getProgramLoadInfo k r) (λ _, True);
}.

Context (k : Kind W P S A L) (Hk : KindKeeps k) (Q : S → Prop).

(** [Q] does not depend on the links of the kind or on the link status. *)
Context (Q_status : ∀ st s, Q s → Q (set_prog_common (with_ProgramLinkStatus st (prog_common s)) s)).
Context (Q_links : ∀ links s, Q s → Q (k_setStateLinks k links s)).

Lemma keeps_merge_links expected links : keeps I (merge_links k expected links) (λ _, True).
Proof.
  revert links. induction expected as [|l expected IH]; intros links; cbn; [by apply keeps_ret|].
  apply keeps_then; [by apply keeps_find|]. intros [[i|]|e]; apply IH.
Qed.

Lemma keeps_updateLinks_loop r app links : keeps I (updateLinks_loop k r app links) (λ _, True).
Proof.
  revert links. induction app as [|a app IH]; intros links; cbn; [by apply keeps_ret|].
  apply keeps_then; [by apply keeps_expected|]. intros [ls|e]; [|by apply keeps_ret].
  apply keeps_then; [apply keeps_merge_links|]. intros ls'. apply IH.
Qed.

Lemma keeps_updateLinks r del :
  Q (currentProgramState r) →
  keeps I (updateLinks k r del) (λ res, Q (currentProgramState res.2)).
Proof.
  intros Hq. unfold updateLinks. apply keeps_then; [by apply keeps_deref|]. intros links.
  destruct del; [apply keeps_ret, Q_links, Hq|].
  apply keeps_then; [apply keeps_updateLinks_loop|]. intros [err ls]. apply keeps_ret, Q_links, Hq.
Qed.

Lemma keeps_reconcileBpfLink (a : At P S L) :
  keeps I (reconcileBpfLink (methods (k_getAttachRequest k)) a) (λ res, at_rec res.2 = at_rec a).
Proof.
  unfold reconcileBpfLink. apply keeps_then.
  { cbn. unfold At_isAttached. destruct (programId (at_rec a)); [|by apply keeps_ret].
    destruct (ai_LinkId _); [by apply keeps_doesLinkExist|by apply keeps_ret]. }
  intros att. apply (keeps_bind _ _ _ (λ b, at_rec b = at_rec a)).
  - cbn. destruct (ai_ShouldAttach _), att; try (by apply keeps_ret).
    + apply keeps_then; [by apply keeps_request|]. intros rq.
      apply keeps_then; [by apply keeps_Attach|]. intros [id|e]; by apply keeps_ret.
    + apply keeps_then; [by apply keeps_deref|]. intros id.
      apply keeps_then; [by apply keeps_Detach|]. intros [e|]; by apply keeps_ret.
  - intros b Hb. by apply keeps_ret.
Qed.

Lemma keeps_processLinks_loop i links r rm err :
  keeps I (processLinks_loop k i links r rm err) (λ res, res.1.1.2 = r).
Proof.
  revert i rm err. induction links as [|l links IH]; intros i rm err; cbn; [by apply keeps_ret|].
  eapply keeps_bind; [apply keeps_reconcileBpfLink|]. intros [[remove e] a] Ha. cbn in Ha.
  eapply keeps_bind; [rewrite Ha; apply IH|]. intros [[[rest r'] rm'] e'] Hr. by apply keeps_ret.
Qed.

Lemma keeps_processLinks r :
  Q (currentProgramState r) →
  keeps I (processLinks k r) (λ res, Q (currentProgramState res.2)).
Proof.
  intros Hq. unfold processLinks. apply keeps_then; [by apply keeps_deref|]. intros links.
  eapply keeps_bind; [apply keeps_processLinks_loop|]. intros [[[ls r'] rm] e] Hr. cbn in Hr. subst r'.
  apply (keeps_bind _ _ _ (λ r', Q (currentProgramState r'))).
  - unfold updateProgramAttachStatus. apply keeps_then; [by apply keeps_deref|]. intros ls'.
    apply keeps_ret. by apply Q_status, Q_links.
  - intros r' Hr'. by apply keeps_ret.
Qed.

(** The reconcile of a program changes its state in the kind's links and in the link
    status, and in nothing else. *)
Lemma keeps_reconcileProgram r del :
  Q (currentProgramState r) →
  keeps I (reconcileProgram k r del) (λ res, Q (currentProgramState res.2)).
Proof.
  intros Hq. unfold reconcileProgram. eapply keeps_bind; [by apply keeps_updateLinks|].
  intros [[e|] r'] Hr'; [|by apply keeps_processLinks]. by apply keeps_ret, Q_status.
Qed.
End program.
Arguments KindKeeps {_ _ _ _ _} _ _.

(** ** The thirteen kinds *)

Section kinds.
Context {W : Type} `{!AgentEnv W} (I : W → Prop) `{!LinksUndisturbed I}.

Lemma keeps_find_same {L} (same : L → L → bool) l ls :
  keeps I (find_same same l ls) (λ _, True).
Proof using Type. by apply keeps_ret. Qed.

Lemma keeps_cl_net {L} (f : string → string → GoM W L) sel nns node :
  (∀ i p, keeps I (f i p) (λ _, True)) →
  keeps I (cl_net_getExpectedLinks f sel nns node) (λ _, True).
Proof. intros Hf. unfold cl_net_getExpectedLinks. keeps_tac. Qed.

Lemma keeps_ns_net {L} what (f : string → string → GoM W L) sel nns ns node :
  (∀ i p, keeps I (f i p) (λ _, True)) →
  keeps I (ns_net_getExpectedLinks what f sel nns ns node) (λ _, True).
Proof. intros Hf. unfold ns_net_getExpectedLinks. keeps_tac. Qed.
End kinds.
#[export] Hint Resolve keeps_find_same keeps_cl_net keeps_ns_net : keeps.

(** Also through the loops over links. *)
Ltac kind_tac :=
  repeat (first
    [ apply keeps_cl_net | apply keeps_ns_net | apply keeps_mapM_any | progress keeps_tac ]).

Section kind_instances.
Context {W : Type} `{!AgentEnv W} (I : W → Prop) `{!LinksUndisturbed I}.

Lemma ClXdp_keeps : KindKeeps I (ClXdp.kind (W := W)).
Proof.
  split; intros; cbn; unfold ClXdp.getAttachRequest, ClXdp.getExpectedLinks, ClXdp.findLink,
    ClXdp.getProgramLoadInfo, ClXdp.createLinkEntry; kind_tac.
Qed.
Lemma ClTc_keeps : KindKeeps I (ClTc.kind (W := W)).
Proof.
  split; intros; cbn; unfold ClTc.getAttachRequest, ClTc.getExpectedLinks, ClTc.findLink,
    ClTc.getProgramLoadInfo, ClTc.createLinkEntry; kind_tac.
Qed.
Lemma ClTcx_keeps : KindKeeps I (ClTcx.kind (W := W)).
Proof.
  split; intros; cbn; unfold ClTcx.getAttachRequest, ClTcx.getExpectedLinks, ClTcx.findLink,
    ClTcx.getProgramLoadInfo, ClTcx.createLinkEntry; kind_tac.
Qed.
Lemma ClFentry_keeps : KindKeeps I (ClFentry.kind (W := W)).
Proof.
  split; intros; cbn; unfold ClFentry.getAttachRequest, ClFentry.getExpectedLinks, ClFentry.findLink,
    ClFentry.getProgramLoadInfo; kind_tac.
Qed.
Lemma ClFexit_keeps : KindKeeps I (ClFexit.kind (W := W)).
Proof.
  split; intros; cbn; unfold ClFexit.getAttachRequest, ClFexit.getExpectedLinks, ClFexit.findLink,
    ClFexit.getProgramLoadInfo; kind_tac.
Qed.
Lemma ClKprobe_keeps : KindKeeps I (ClKprobe.kind (W := W)).
Proof.
  split; intros; cbn; unfold ClKprobe.getAttachRequest, ClKprobe.getExpectedLinks, ClKprobe.findLink,
    ClKprobe.getProgramLoadInfo; kind_tac.
Qed.
Lemma ClKretprobe_keeps : KindKeeps I (ClKretprobe.kind (W := W)).
Proof.
  split; intros; cbn; unfold ClKretprobe.getAttachRequest, ClKretprobe.getExpectedLinks, ClKretprobe.findLink,
    ClKretprobe.getProgramLoadInfo; kind_tac.
Qed.
Lemma ClUprobe_keeps : KindKeeps I (ClUprobe.kind (W := W)).
Proof.
  split; intros; cbn; unfold ClUprobe.getAttachRequest, ClUprobe.getExpectedLinks, ClUprobe.findLink,
    ClUprobe.getProgramLoadInfo, ClUprobe.createContainerLink; kind_tac.
Qed.
Lemma ClTracepoint_keeps : KindKeeps I (ClTracepoint.kind (W := W)).
Proof.
  split; intros; cbn; unfold ClTracepoint.getAttachRequest, ClTracepoint.getExpectedLinks, ClTracepoint.findLink,
    ClTracepoint.getProgramLoadInfo; kind_tac.
Qed.
Lemma NsXdp_keeps : KindKeeps I (NsXdp.kind (W := W)).
Proof.
  split; intros; cbn; unfold NsXdp.getAttachRequest, NsXdp.getExpectedLinks, NsXdp.findLink,
    NsXdp.getProgramLoadInfo, NsXdp.createLinkEntry; kind_tac.
Qed.
Lemma NsTc_keeps : KindKeeps I (NsTc.kind (W := W)).
Proof.
  split; intros; cbn; unfold NsTc.getAttachRequest, NsTc.getExpectedLinks, NsTc.findLink,
    NsTc.getProgramLoadInfo, NsTc.createLinkEntry; kind_tac.
Qed.
Lemma NsTcx_keeps : KindKeeps I (NsTcx.kind (W := W)).
Proof.
  split; intros; cbn; unfold NsTcx.getAttachRequest, NsTcx.getExpectedLinks, NsTcx.findLink,
    NsTcx.getProgramLoadInfo, NsTcx.createLinkEntry; kind_tac.
Qed.
Lemma NsUprobe_keeps : KindKeeps I (NsUprobe.kind (W := W)).
Proof.
  split; intros; cbn; unfold NsUprobe.getAttachRequest, NsUprobe.getExpectedLinks, NsUprobe.findLink,
    NsUprobe.getProgramLoadInfo, NsUprobe.createContainerLink; kind_tac.
Qed.
End kind_instances.
