(* ===== verification/Typing.v ===== *)
(** Every state object that the agent writes is well-formed: each program entry has the
    struct that its type names, no two entries stand for the same program, and an object
    that records a loaded program, or whose application is not being deleted, carries
    the agent's finalizer. The agent's Reconcile is shown to preserve this on the API
    server's objects, at both scopes, whatever the daemon and the server answer, and
    also when it panics. *)

From S2P Require Import Prelude ApiTypes Constants Bpfman Selectors Links Kinds ClKinds NsKinds.
From S2P Require Import Application Apps AppSpecs Keeps.
From stdpp Require Import options.
#[local] Set Default Proof Using "Type*".

(** ** Well-formed states *)

(** What identifies a program of an application: its type and name, and for fentry and
    fexit the function. *)
Definition key : Type := string * string * string.

(** What a scope says of its programs. *)
Class TypedScope {W P PS} `{!AgentEnv W, !ProgramState PS} (ak : AppKind W P PS)
    `{!AppKindLaws ak} := {
  state_key : PS → key;
  prog_key : P → key;
  (** The namespace of a state object, the empty one at cluster scope. *)
  state_ns : ObjectMeta → string;
  state_ns_listed app m :
    (∀ ns, ak_namespace ak app = Some ns → om_Namespace m = ns) →
    state_ns m = default "" (ak_namespace ak app);
  state_ns_eq m m' : om_Namespace m = om_Namespace m' → state_ns m = state_ns m';
  key_common c s : ps_Name c = ps_Name (prog_common s) → state_key (set_prog_common c s) = state_key s;
  key_deleteLinks s s' w w' : ak_deleteLinks ak s w = (Ret s', w') → state_key s' = state_key s;
  key_newProgState prog s w w' :
    ak_newProgState ak prog w = (Ret (Ok s), w') → state_key s = prog_key prog;
  keeps_newProgState (I : W → Prop) prog : keeps I (ak_newProgState ak prog) (λ _, True);
  keeps_deleteLinks (I : W → Prop) s : keeps I (ak_deleteLinks ak s) (λ _, True);
  keeps_getProgState (I : W → Prop) prog ps :
    keeps I (ak_getProgState ak prog ps)
      (λ r, match r with Err _ => prog_key prog ∉ state_key <$> ps | Ok _ => True end);
  keeps_prog (I : W → Prop) `{!LinksUndisturbed I} prog s rec pr del :
    ak_getProgramReconciler ak prog s = Ok rec →
    keeps I (pr_getProgramLoadInfo rec pr) (λ _, True) ∧
    keeps I (pr_reconcileProgram rec pr del)
      (λ res, ak_shaped (currentProgramState res.2) = ak_shaped (currentProgramState pr) ∧
              state_key (currentProgramState res.2) = state_key (currentProgramState pr) ∧
              progId (currentProgramState res.2) = progId (currentProgramState pr));
}.

Section well_formed.
Context {W P PS : Type} `{!AgentEnv W, !ProgramState PS} (ak : AppKind W P PS)
  `{!AppKindLaws ak, !TypedScope ak}.

(** The application that a state object is of, by namespace and name. *)
Definition owner : Type := string * string.
Definition state_owner (an : AppState PS) : owner :=
  (state_ns (as_meta an), default "" (om_Labels (as_meta an) !! BpfAppStateOwner)).
Definition app_owner (app : Application P) : owner :=
  (default "" (ak_namespace ak app), om_Name (app_meta app)).

Definition guarded (an : AppState PS) : Prop :=
  ak_finalizer ak ∈ om_Finalizers (as_meta an).

(** A loaded program is recorded. *)
Definition records (ps : list PS) : Prop := ∃ s, s ∈ ps ∧ is_Some (progId s).

Definition typed_programs (ps : list PS) : Prop :=
  Forall (λ s, ak_shaped s = true) ps ∧ NoDup (state_key <$> ps).

(** [live] says which applications are not being deleted. *)
Definition well_formed (live : owner → bool) (an : AppState PS) : Prop :=
  typed_programs (elems (st_Programs (as_Status an))) ∧
  (records (elems (st_Programs (as_Status an))) ∨ live (state_owner an) = true → guarded an).

(** The same programs, up to what may change: links, ids and statuses. *)
Definition same_shape (s s' : PS) : Prop :=
  ak_shaped s' = ak_shaped s ∧ state_key s' = state_key s.

Lemma typed_same_shape ps ps' :
  Forall2 same_shape ps ps' → typed_programs ps → typed_programs ps'.
Proof.
  intros HF [Hs Hk]. split.
  - clear Hk. induction HF as [|s s' ps ps' [Hs' _] _ IH]; [constructor|].
    apply Forall_cons in Hs as [??]. constructor; [by rewrite Hs'|by apply IH].
  - replace (state_key <$> ps') with (state_key <$> ps); [done|]. clear Hs Hk.
    induction HF as [|s s' ps ps' [_ Hk'] _ IH]; [done|]. cbn. by rewrite Hk', IH.
Qed.

Lemma same_shape_refl s : same_shape s s.
Proof using Type. done. Qed.

Lemma same_shape_common c s :
  ps_Name c = ps_Name (prog_common s) → same_shape s (set_prog_common c s).
Proof. intros Hn. split; [apply law_shaped_common|by apply key_common]. Qed.

Lemma typed_insert ps i s s' :
  ps !! i = Some s → same_shape s s' → typed_programs ps → typed_programs (<[i := s']> ps).
Proof.
  intros Hi Hs. apply typed_same_shape.
  rewrite <- (list_insert_id ps i s Hi) at 1. apply Forall2_insert; [|done].
  apply Forall2_same_length_lookup_2; [done|]. intros j a b Ha Hb. rewrite Ha in Hb.
  by injection Hb as ->.
Qed.
End well_formed.

(** ** Calls that only read *)

(** Neither the reconcile of a program nor a read of the node, the clock, a pull secret
    or the pause of a poll disturbs [I]. *)
Class ReadsUndisturbed {W P PS} `{!AgentEnv W, !BytecodeLib W, !ApplicationAPI W P PS}
    (I : W → Prop) : Prop := {
  reads_links :: LinksUndisturbed I;
  reads_ParseAuth n ns w : I w → I (ParseAuth n ns w).2;
  reads_GetNode n w : I w → I (api_GetNode (P := P) (PS := PS) n w).2;
  reads_Now w : I w → I (time_Now (P := P) (PS := PS) w).2;
  reads_tick w : I w → I (poll_tick (P := P) (PS := PS) w).2;
}.
Arguments ReadsUndisturbed {_} _ _ {_ _ _} _.

Section reads.
Context {W P PS : Type} `{!AgentEnv W, !LabelLib, !BytecodeLib W, !ApplicationAPI W P PS,
  !ProgramState PS, !EqDecision PS} (ak : AppKind W P PS) `{!AppKindLaws ak, !TypedScope ak}
  (I : W → Prop) `{!ReadsUndisturbed P PS I}.
Implicit Types r : AppRec P PS.
Abbreviation any := (λ _, True).

(** An assignment to the status that leaves the programs alone. *)
Definition stable (J : AppRec P PS → Prop) : Prop :=
  ∀ f r, (∀ s, st_Programs (f s) = st_Programs s) → J r → J (with_status f r).

Lemma keeps_setConditions (J : AppRec P PS → Prop) c r :
  stable J → J r → keeps I (app_setAppStateConditions (P := P) c r) J.
Proof using ReadsUndisturbed0.
  intros HJ Hr. unfold app_setAppStateConditions. apply keeps_then.
  - apply keeps_call, reads_Now.
  - intros t. apply keeps_ret. by apply HJ.
Qed.

Lemma keeps_updateCondition (J : AppRec P PS → Prop) t r :
  stable J → J r →
  keeps I (updateBpfAppStateCondition (app_methods ak) t r) (λ res, J res.2).
Proof using ReadsUndisturbed0.
  intros HJ Hr. unfold updateBpfAppStateCondition.
  assert (Hset : ∀ r, J r → keeps I
    (r ← setAppStateConditions (app_methods ak) (BpfApplicationStateConditionType_Condition t) r;
     mret (true, r)) (λ res, J res.2)).
  { intros r' Hr'. eapply keeps_bind; [by apply (keeps_setConditions J)|].
    intros r2 H2. by apply keeps_ret. }
  destruct (elems _) as [|c [|c' cs]]; [by apply Hset| |].
  - destruct (decide _); [by apply keeps_ret|]. apply Hset. by apply HJ.
  - apply Hset. by apply HJ.
Qed.

Lemma keeps_GetBytecode b : keeps I (GetBytecode b) any.
Proof using ReadsUndisturbed0.
  unfold GetBytecode. keeps_tac. apply keeps_call, reads_ParseAuth.
Qed.

Lemma keeps_loadInfos r spec infos : keeps I (loadInfos ak r spec infos) any.
Proof.
  revert infos. induction spec as [|prog spec IH]; intros infos; cbn; [by apply keeps_ret|].
  apply keeps_then; [eapply keeps_any, keeps_getProgState|]. intros [i|e]; [|by apply keeps_ret].
  apply keeps_then; [by apply keeps_deref|]. intros s.
  destruct (ak_getProgramReconciler ak prog s) as [rec|e] eqn:Hrec; [|by apply keeps_ret].
  apply keeps_then; [|intros info; apply IH].
  eapply (keeps_prog I prog s rec (progRec r prog s) false Hrec).
Qed.

Lemma keeps_isLoaded r : keeps I (app_isLoaded r) any.
Proof using ReadsUndisturbed0.
  unfold app_isLoaded. generalize true. induction (programs r) as [|s ps IH]; intros b; cbn;
    [by apply keeps_ret|]. unfold GetBpfmanProgramById.
  destruct (ps_ProgramId _); [|apply IH]. apply keeps_then; [by eauto with keeps|].
  intros [x|e]; apply IH.
Qed.

Lemma keeps_validate r : keeps I (app_validateProgramList ak r) any.
Proof using Type.
  unfold app_validateProgramList. destruct (added_programs _ _ _ _). by apply keeps_ret.
Qed.

(** What a poll returns is what one of its attempts returned. *)
Lemma keeps_poll {A} n i (cond : GoM W (option A)) (Q : A → Prop) :
  keeps I cond (λ res, ∀ a, res = Some a → Q a) →
  keeps I (poll n i cond) (λ res, ∀ a, res.1 = Some a → Q a).
Proof using ReadsUndisturbed0.
  intros Hc. revert i. induction n as [|n IH]; intros i; cbn; [by apply keeps_ret|].
  eapply keeps_bind; [exact Hc|]. intros [a|] Ha.
  - apply keeps_ret. intros a' [= <-]. by apply Ha.
  - apply keeps_then; [apply keeps_call, (reads_tick (P := P) (PS := PS))|]. intros [|]; [apply IH|by apply keeps_ret].
Qed.
End reads.

(** The API server keeps [I] when it is given well-formed objects, and answers with
    such objects; its other calls and the pull secrets keep [I]. A list has the labels
    and the namespace that it was asked for, an answer to a write is the same object,
    and an owner reference changes nothing else. An Update of the metadata is given the
    status that was read, so it may be taken to write the whole object. *)
Class TypedStore {W P PS} `{!AgentEnv W, !ProgramState PS, !BytecodeLib W, !ApplicationAPI W P PS}
    (ak : AppKind W P PS) `{!AppKindLaws ak, !TypedScope ak} (live : owner → bool)
    (I : W → Prop) : Prop := {
  store_undisturbed :: Undisturbed I;
  store_reads :: ReadsUndisturbed P PS I;
  store_ListApps w :
    I w → I (api_ListApps w).2 ∧
          ∀ apps, (api_ListApps w).1 = Ok apps →
            Forall (λ app, app_isBeingDeleted app = negb (live (app_owner ak app))) apps;
  store_ListStates ns l w :
    I w → I (api_ListStates ns l w).2 ∧
          ∀ ans, (api_ListStates ns l w).1 = Ok ans →
            Forall (λ an, well_formed ak live an ∧ l ⊆ om_Labels (as_meta an) ∧
                          ∀ n, ns = Some n → om_Namespace (as_meta an) = n) ans;
  store_Create an w :
    I w → well_formed ak live an →
    I (api_Create an w).2 ∧
    ∀ an', (api_Create an w).1 = Ok an' →
      well_formed ak live an' ∧ state_owner ak an' = state_owner ak an;
  store_Update an w : I w → well_formed ak live an → I (api_Update an w).2;
  store_StatusUpdate an w :
    I w → well_formed ak live an →
    I (api_StatusUpdate an w).2 ∧
    ∀ an', (api_StatusUpdate an w).1 = Ok an' →
      well_formed ak live an' ∧ state_owner ak an' = state_owner ak an;
  store_owner app an an' :
    api_SetControllerReference app an = Ok an' →
    as_Status an' = as_Status an ∧
    om_Namespace (as_meta an') = om_Namespace (as_meta an) ∧
    om_Labels (as_meta an') = om_Labels (as_meta an) ∧
    om_Finalizers (as_meta an') = om_Finalizers (as_meta an);
}.

(** ** The methods of the application reconciler *)

Section methods.
Context {W P PS : Type} `{!AgentEnv W, !LabelLib, !BytecodeLib W, !ApplicationAPI W P PS,
  !ProgramState PS, !ProgramStateLaws PS, !EqDecision PS} (ak : AppKind W P PS)
  `{!AppKindLaws ak, !TypedScope ak} (live : owner → bool) (I : W → Prop)
  `{!TypedStore ak live I}.
Implicit Types r : AppRec P PS.
Abbreviation any := (λ _, True).
Abbreviation deleting r := (app_isBeingDeleted (currentApp r)).

(** The reconciler's object may be written, and is of its application. *)
Definition good r : Prop :=
  well_formed ak live (currentAppState r) ∧
  state_owner ak (currentAppState r) = app_owner ak (currentApp r) ∧
  deleting r = negb (live (app_owner ak (currentApp r))) ∧
  rc_finalizer (app_rc r) = ak_finalizer ak.

(** Nothing that is recorded is loaded, if the application is being deleted. *)
Definition idle r : Prop := deleting r = true → ¬ records (programs r).

Lemma good_typed r : good r → typed_programs ak (programs r).
Proof using Type. intros [[Ht _] _]. exact Ht. Qed.

Lemma good_stable : stable good.
Proof using Type.
  intros f r Hf (Hw & Ho & Hd & Hfin). split_and!; [|exact Ho|exact Hd|exact Hfin].
  unfold well_formed in *. cbn. rewrite Hf. exact Hw.
Qed.

Lemma idle_stable : stable idle.
Proof using Type. intros f r Hf. unfold idle, programs, status. cbn. by rewrite Hf. Qed.

Lemma good_set_programs r ps :
  good r → typed_programs ak ps → (records ps → deleting r = false ∨ records (programs r)) →
  good (set_programs ps r).
Proof using Type.
  intros ([Ht Hg] & Ho & Hd & Hfin) Hps Hr. split_and!; [|exact Ho|exact Hd|exact Hfin].
  unfold well_formed. change (elems (st_Programs (as_Status (currentAppState ?r'))))
    with (programs r'). rewrite programs_set_programs. split; [done|].
  intros [Hrec|Hl]; apply Hg; [|by right]. destruct (Hr Hrec) as [Hdel|Hrec']; [right|by left].
  rewrite Hdel in Hd. change (live (state_owner ak (currentAppState r)) = true). rewrite Ho.
  symmetry. by apply negb_sym in Hd.
Qed.

Lemma good_set_live r ps :
  good r → deleting r = false → typed_programs ak ps → good (set_programs ps r).
Proof using Type. intros Hr Hd Hps. apply good_set_programs; auto. Qed.

Lemma good_set_unloaded r ps :
  good r → ¬ records ps → typed_programs ak ps →
  good (set_programs ps r) ∧ idle (set_programs ps r).
Proof using Type.
  intros Hr Hn Hps. split; [by apply good_set_programs|]. intros _. by rewrite programs_set_programs.
Qed.

Lemma good_with_appState r an :
  good r → well_formed ak live an → state_owner ak an = app_owner ak (currentApp r) →
  good (with_appState an r).
Proof using Type. intros (_ & _ & Hd & Hfin) Hw Ho. by split_and!. Qed.

(** *** Loading and unloading *)

Lemma keeps_assign_ids ps resp :
  keeps I (assign_ids ps resp) (λ res, Forall2 (same_shape ak) ps res.2).
Proof.
  assert (Hrefl : ∀ l, Forall2 (same_shape ak) l l).
  { intros l. induction l; constructor; [apply same_shape_refl|done]. }
  induction ps as [|s ps IH]; cbn; [by apply keeps_ret|].
  apply keeps_then; [apply keeps_GetBpfProgramId|]. intros [id|e]; [|apply keeps_ret, Hrefl].
  eapply keeps_bind; [exact IH|]. intros [err rest] Hrest. apply keeps_ret.
  constructor; [|exact Hrest]. by apply same_shape_common.
Qed.

Lemma keeps_load r :
  good r → deleting r = false →
  keeps I (app_load ak r) (λ res, good res.2 ∧ currentApp res.2 = currentApp r).
Proof.
  intros Hr Hd. unfold app_load, app_getLoadRequest. apply keeps_then.
  { apply keeps_then; [apply (keeps_GetBytecode (P := P) (PS := PS)); apply _|].
    intros [b|e]; [|by apply keeps_ret].
    apply keeps_then; [by apply (keeps_loadInfos ak I)|]. intros infos. by apply keeps_ret. }
  intros [rq|e]; [|by apply keeps_ret]. apply keeps_then; [by eauto with keeps|].
  intros [resp|e]; [|by apply keeps_ret]. eapply keeps_bind; [apply keeps_assign_ids|].
  intros [err ps] Hps. apply keeps_ret. split; [|done]. apply good_set_live; [done..|].
  eapply typed_same_shape; [exact Hps|by apply good_typed].
Qed.

Lemma keeps_unload_program s :
  ak_shaped s = true →
  keeps I (unload_program ak s) (λ s', same_shape ak s s' ∧ progId s' = None).
Proof.
  intros Hs. unfold unload_program.
  apply (keeps_bind _ _ _ (λ s', same_shape ak s s' ∧ progId s' = None ∧
                                 ps_Name (prog_common s') = ps_Name (prog_common s))).
  - destruct (ps_ProgramId (prog_common s)) as [id|] eqn:Hid; [|by apply keeps_ret].
    apply keeps_then; [apply keeps_Unload; apply _|]. intros _.
    set (s1 := set_prog_common (with_ProgramId None (prog_common s)) s).
    assert (Hs1 : same_shape ak s s1) by by apply same_shape_common.
    destruct (law_deleteLinks s1) as (s' & Hrun & Hc & Hsh & _); [by rewrite (proj1 Hs1)|].
    intros w Hw. rewrite Hrun. cbn. split; [done|]. split_and!.
    + split; [by rewrite Hsh|]. rewrite (key_deleteLinks s1 s' w w) by apply Hrun. apply Hs1.
    + unfold progId. rewrite Hc. unfold s1. by rewrite prog_common_set.
    + rewrite Hc. unfold s1. by rewrite prog_common_set.
  - intros s' [[Hsh Hk] [Hid Hn]]. apply keeps_ret.
    destruct (same_shape_common ak (with_ProgramLinkStatus ProgAttachSuccess (prog_common s')) s')
      as [H1 H2]; [done|]. split; [split; congruence|]. unfold progId. by rewrite prog_common_set.
Qed.

Lemma keeps_unload r :
  good r → keeps I (app_unload ak r) (λ r', good r' ∧ idle r').
Proof.
  intros Hr. unfold app_unload. pose proof (good_typed r Hr) as Ht.
  eapply keeps_bind; [apply (keeps_mapM _ _ _ (λ s, ak_shaped s = true)
                               (λ s s', same_shape ak s s' ∧ progId s' = None))|].
  - intros s Hs. by apply keeps_unload_program.
  - apply Ht.
  - intros ps Hps. apply keeps_ret, good_set_unloaded; [done| |].
    + intros (s & Hs & Hid). apply list_elem_of_lookup in Hs as [i Hi].
      destruct (Forall2_lookup_r _ _ _ _ _ Hps Hi) as (s0 & _ & _ & Hn). rewrite Hn in Hid.
      by destruct Hid.
    + eapply typed_same_shape; [|exact Ht]. eapply Forall2_impl; [exact Hps|]. by intros ?? [].
Qed.

Lemma keeps_reconcileLoad r :
  good r →
  keeps I (reconcileLoad (app_methods ak) r) (λ res, good res.2 ∧ (res.1 = None → idle res.2)).
Proof.
  intros Hr.
  assert (Hst : ∀ st r, good r → good (setAppLoadStatus (app_methods ak) st r)).
  { intros st r' Hr'. by apply good_stable. }
  assert (Hid : ∀ st r, idle r → idle (setAppLoadStatus (app_methods ak) st r)).
  { intros st r' Hr'. by apply idle_stable. }
  assert (Hun : ∀ st, keeps I (r' ← app_unload ak r;
                 mret (None (A := error), setAppLoadStatus (app_methods ak) st r'))
                 (λ res, good res.2 ∧ (res.1 = None → idle res.2))).
  { intros st. eapply keeps_bind; [by apply keeps_unload|]. intros r' [Hg Hi].
    apply keeps_ret. split; [by apply Hst|]. intros _. by apply Hid. }
  unfold reconcileLoad. destruct (isNodeSelected _ _) as [sel|e]; [|by apply keeps_ret].
  destruct (negb sel); [apply Hun|].
  destruct (isBeingDeleted _ r) eqn:Hd; [apply Hun|]. cbn in Hd.
  assert (Hlive : ∀ r', currentApp r' = currentApp r → idle r').
  { intros r' Hr' Hdel. rewrite Hr', Hd in Hdel. done. }
  apply keeps_then; [apply keeps_validate|].
  intros [e|]; [apply keeps_ret; by split; [apply Hst|]|].
  apply keeps_then; [apply keeps_isLoaded; apply _|].
  intros [|]; [apply keeps_ret; split; [by apply Hst|by intros _; apply Hid, Hlive]|].
  eapply keeps_bind; [by apply keeps_load|].
  intros [[e|] r'] [Hr' Happ]; apply keeps_ret; (split; [by apply Hst|]); [done|].
  intros _. by apply Hid, Hlive.
Qed.
(** *** The state object *)

(** A well-formed object of the application. *)
Definition state_of (app : Application P) (an : AppState PS) : Prop :=
  well_formed ak live an ∧ state_owner ak an = app_owner ak app.

Lemma keeps_getBpfAppState rc app :
  keeps I (getBpfAppState ak rc app) (λ res, ∀ an, res = Ok (Some an) → state_of app an).
Proof.
  unfold getBpfAppState.
  eapply (keeps_bind _ _ _ (λ res, ∀ ans, res = Ok ans → Forall (state_of app) ans)).
  - apply keeps_lift. intros w Hw. destruct (store_ListStates (ak_namespace ak app)
      (<[BpfAppStateOwner:=om_Name (app_meta app)]> {[K8sHostLabel := rc_NodeName rc]}) w Hw)
      as [Hw' Hans]. split; [exact Hw'|]. intros ans Hok. eapply Forall_impl; [by apply Hans|].
    intros an (Hwf & Hl & Hns). split; [exact Hwf|]. unfold state_owner, app_owner. f_equal.
    + apply state_ns_listed. intros ns Hn. by apply Hns.
    + erewrite lookup_weaken; [reflexivity| |exact Hl]. apply lookup_insert_eq.
  - intros [[|an [|an' ans]]|e] Hans; apply keeps_ret; try done.
    intros an' [= <-]. specialize (Hans _ eq_refl). by apply Forall_cons in Hans as [??].
Qed.

Lemma keeps_wait_spec r :
  good r →
  keeps I (waitForBpfAppStateSpecUpdate ak r) (λ res, good res.2 ∧ currentApp res.2 = currentApp r).
Proof.
  intros Hr. unfold waitForBpfAppStateSpecUpdate.
  eapply (keeps_bind _ _ _ (λ res, ∀ an, res.1 = Some an → state_of (currentApp r) an)).
  - apply keeps_poll; [apply _|]. eapply keeps_bind; [apply keeps_getBpfAppState|].
    intros [[an|]|e] Han; apply keeps_ret; try done. intros an' [= <-]. by apply Han.
  - intros [[an|] i] Han; apply keeps_ret; [|done]. split; [|done].
    destruct (Han an eq_refl). by apply good_with_appState.
Qed.

Lemma keeps_wait_status r :
  good r → keeps I (waitForBpfAppStateStatusUpdate ak r) (λ res, good res.2).
Proof.
  intros Hr. unfold waitForBpfAppStateStatusUpdate.
  eapply (keeps_bind _ _ _ (λ res, ∀ an, res.1 = Some an → state_of (currentApp r) an)).
  - apply keeps_poll; [apply _|]. eapply keeps_bind; [apply keeps_getBpfAppState|].
    intros [[an|]|e] Han; apply keeps_ret; try done. destruct (_ <=? _); [|done].
    intros an' [= <-]. by apply Han.
  - intros [[an|] i] Han; apply keeps_ret; [|done]. destruct (Han an eq_refl).
    by apply good_with_appState.
Qed.

Lemma keeps_updateStatus original r :
  good r →
  keeps I (updateBpfAppStateStatus ak original r)
    (λ res, good res.2 ∧ (res.1.1 = false → res.2 = r)).
Proof.
  intros Hr. unfold updateBpfAppStateStatus. destruct (match original with Some _ => _ | None => _ end);
    [by apply keeps_ret|].
  set (r1 := with_status (λ s, set_UpdateCount (to_int64 (st_UpdateCount s + 1)) s) r).
  assert (Hr1 : good r1) by by apply good_stable.
  eapply (keeps_bind _ _ _ (λ res, ∀ an, res = Ok an → state_of (currentApp r) an)).
  - apply keeps_lift. intros w Hw. destruct (store_StatusUpdate (currentAppState r1) w Hw)
      as [Hw' Hans]; [apply Hr1|]. split; [exact Hw'|]. intros an Hok.
    destruct (Hans an Hok) as [Hwf Ho]. split; [exact Hwf|]. rewrite Ho. apply Hr1.
  - intros [an|e] Han; [|by apply keeps_ret]. destruct (Han an eq_refl).
    eapply keeps_bind; [by apply keeps_wait_status, good_with_appState|].
    intros [err r'] Hr'. by apply keeps_ret.
Qed.

Lemma keeps_createInitial r :
  good r →
  keeps I (createInitialBpfAppState ak r) (λ res, good res.2 ∧ currentApp res.2 = currentApp r).
Proof.
  intros Hr. unfold createInitialBpfAppState.
  eapply (keeps_bind _ _ _ (λ res, ∀ an, res = Ok an → state_of (currentApp r) an)).
  - apply keeps_lift. intros w Hw. destruct (store_Create (currentAppState r) w Hw)
      as [Hw' Hans]; [apply Hr|]. split; [exact Hw'|]. intros an Hok.
    destruct (Hans an Hok) as [Hwf Ho]. split; [exact Hwf|]. rewrite Ho. apply Hr.
  - intros [an|e] Han; [|by apply keeps_ret]. destruct (Han an eq_refl).
    by apply (keeps_wait_spec (with_appState an r)), good_with_appState.
Qed.

Lemma keeps_init_programs spec ps :
  typed_programs ak ps → keeps I (init_programs ak spec ps) (λ res, typed_programs ak res.2).
Proof.
  revert ps. induction spec as [|prog spec IH]; intros ps Hps; cbn; [by apply keeps_ret|].
  eapply keeps_bind; [apply keeps_getProgState|]. intros [i|e] Hnew; [by apply keeps_ret|].
  apply (keeps_bind _ _ _ (λ res, ∀ s, res = Ok s → typed_programs ak (ps ++ [s]))).
  - intros w Hw. destruct (keeps_newProgState I prog w Hw) as [Hw' _]. split; [done|].
    destruct (ak_newProgState ak prog w) as [[[s|e']|why] w'] eqn:Hrun; cbn; try done.
    intros s' [= <-]. pose proof (law_newProgState _ _ _ _ Hrun) as (_ & Hs & _).
    pose proof (key_newProgState _ _ _ _ Hrun) as Hk. destruct Hps as [Hsh Hnd]. split.
    + apply Forall_app. split; [done|]. by constructor.
    + rewrite fmap_app. apply NoDup_app. split_and!; [done| |apply NoDup_singleton].
      intros k Hk' ?%list_elem_of_singleton. subst k. rewrite Hk in Hk'. done.
  - intros [s|e'] Hs; [|by apply keeps_ret]. by apply IH, Hs.
Qed.

Lemma keeps_initializeList r :
  good r → deleting r = false →
  keeps I (initializeNodeProgramList ak r) (λ res, good res.2).
Proof.
  intros Hr Hd. unfold initializeNodeProgramList. destruct (decide _); [by apply keeps_ret|].
  eapply keeps_bind; [apply keeps_init_programs; split; constructor|].
  intros [err ps] Hps. apply keeps_ret. by apply good_set_live.
Qed.

Lemma keeps_initStatus r :
  good r → deleting r = false → keeps I (initBpfAppStateStatus ak r) (λ res, good res.2).
Proof.
  intros Hr Hd. unfold initBpfAppStateStatus.
  set (r0 := with_status _ r). assert (good r0) as Hr0.
  { destruct Hr as ([Ht Hg] & Ho & Hdel & Hfin). split_and!; [|exact Ho|exact Hdel|exact Hfin].
    split; [by split; constructor|]. intros [(s & Hs & _)|Hl]; [by apply elem_of_nil in Hs|].
    apply Hg. by right. }
  eapply keeps_bind; [by apply keeps_initializeList|].
  intros [[e|] r'] Hr'; [by apply keeps_ret|].
  eapply keeps_bind; [apply (keeps_updateCondition ak I good);
                      first [apply _|apply good_stable|assumption]|].
  intros [b r2] Hr2. by apply keeps_ret.
Qed.

(** A state object that is created carries the finalizer from the start. *)
Lemma keeps_create rc app :
  app_isBeingDeleted app = false → app_isBeingDeleted app = negb (live (app_owner ak app)) →
  rc_finalizer rc = ak_finalizer ak → keeps I (createBpfAppState ak rc app) any.
Proof.
  intros Hd Hl Hfin. unfold createBpfAppState, initBpfAppState, generateUniqueName.
  apply (keeps_bind _ _ _ (λ res, ∀ r, res = Ok r → good r ∧ deleting r = false)).
  { apply keeps_then; [by keeps_tac|]. intros name. apply keeps_ret.
    destruct (api_SetControllerReference _ _) as [an|e] eqn:Hown; [|done].
    intros r [= <-]. apply store_owner in Hown as (Hst & Hns & Hlab & Hf).
    cbn in Hst, Hlab, Hf.
    split; [|done]. split_and!; cbn; [|unfold state_owner, app_owner; f_equal|exact Hl|exact Hfin].
    - split; rewrite Hst; [by split; constructor|]. intros _. unfold guarded. rewrite Hf, Hfin. left.
    - rewrite (state_ns_eq _ _ Hns). apply state_ns_listed.
      intros ns Hn. cbn. by rewrite Hn.
    - rewrite Hlab, lookup_insert_eq. done. }
  intros [r|e] Hr; [|by apply keeps_ret]. destruct (Hr r eq_refl) as [Hg Hdr].
  eapply keeps_bind; [by apply keeps_createInitial|].
  intros [[e|] r1] [Hr1 Happ]; [by apply keeps_ret|]. cbn in Hr1, Happ.
  eapply keeps_bind; [apply keeps_initStatus; [exact Hr1|by rewrite Happ]|].
  intros [[e|] r2] Hr2; [by apply keeps_ret|].
  eapply keeps_bind; [by apply keeps_updateStatus|]. intros [[b [e|]] r3] _; by apply keeps_ret.
Qed.

(** *** Reconcile *)

Lemma keeps_reconcile_programs spec r st :
  good r → deleting r = false →
  keeps I (reconcile_programs ak spec r st)
    (λ res, good res.2 ∧ currentApp res.2 = currentApp r).
Proof.
  revert r st. induction spec as [|prog spec IH]; intros r st Hr Hd; cbn; [by apply keeps_ret|].
  apply keeps_then; [eapply keeps_any, keeps_getProgState|]. intros [i|e]; [|by apply IH].
  eapply keeps_bind; [apply keeps_deref_eq|].
  intros s Hs. destruct (ak_getProgramReconciler ak prog s) as [rec|e] eqn:Hrec; [|by apply IH].
  eapply keeps_bind; [apply (keeps_prog I prog s rec (progRec r prog s) _ Hrec)|].
  intros [err rec'] (Hsh & Hk & _). apply (IH (set_programs _ r)); [|done]. apply good_set_live; [done..|].
  eapply (typed_insert ak _ _ _ _ Hs); [by split|by apply good_typed].
Qed.

(** The agent's finalizer goes only when the application is being deleted and no
    program is recorded. *)
Lemma keeps_removeFinalizer r :
  good r → idle r → deleting r = true →
  keeps I (removeFinalizer (W := W) (rc_finalizer (app_rc r)) r) any.
Proof.
  intros ([Ht Hg] & Ho & Hd & _) Hi Hdel. unfold removeFinalizer, RemoveFinalizer.
  destruct (bool_decide _); [|by apply keeps_ret].
  apply keeps_then; [|intros x; by apply keeps_ret].
  apply keeps_call. intros w Hw. apply store_Update; [done|]. split; [exact Ht|].
  intros [Hrec|Hl]; [by apply Hi in Hdel|].
  unfold state_owner in Hl. cbn in Hl.
  rewrite (state_ns_eq _ (as_meta (currentAppState r))) in Hl by done.
  fold (state_owner ak (currentAppState r)) in Hl. rewrite Ho in Hl. rewrite Hl, Hdel in Hd. done.
Qed.

Lemma keeps_existing r : good r → keeps I (reconcile_existing ak r) any.
Proof.
  intros Hr. unfold reconcile_existing. eapply keeps_bind; [by apply keeps_reconcileLoad|].
  intros [[e|] r1] [Hr1 Hi1]; cbn in Hr1, Hi1.
  - eapply keeps_bind; [apply (keeps_updateCondition ak I good);
                      first [apply _|apply good_stable|assumption]|].
    intros [b r2] Hr2. eapply keeps_bind; [by apply keeps_updateStatus|].
    intros [[ch [err|]] r3] _; [by apply keeps_ret|]. destruct ch; by apply keeps_ret.
  - specialize (Hi1 eq_refl). set (J r := good r ∧ idle r).
    assert (HJ : stable J).
    { intros f r' Hf [??]. split; [by apply good_stable|by apply idle_stable]. }
    apply (keeps_bind _ _ _ (λ res, J res.2)).
    { destruct (app_isBeingDeleted _) eqn:Hd; [by apply keeps_ret|].
      eapply keeps_mono; [by apply keeps_reconcile_programs|]. intros res [Hg Happ].
      split; [done|]. unfold idle. rewrite Happ, Hd. done. }
    intros [st r2] Hr2. eapply keeps_bind; [apply (keeps_updateCondition ak I J); first [apply _|assumption]|].
    intros [b r3] [Hr3 Hi3]. eapply keeps_bind; [by apply keeps_updateStatus|].
    intros [[ch [err|]] r4] [Hr4 Heq]; [by apply keeps_ret|]. destruct ch; [by apply keeps_ret|].
    cbn in Heq. rewrite (Heq eq_refl). destruct (deleting r3) eqn:Hd; [|by apply keeps_ret]. cbn.
    destruct (negb _); [|by apply keeps_ret].
    apply keeps_then; [by apply keeps_removeFinalizer|]. intros [|]; by apply keeps_ret.
Qed.

Lemma keeps_apps rc apps :
  rc_finalizer rc = ak_finalizer ak →
  Forall (λ app, app_isBeingDeleted app = negb (live (app_owner ak app))) apps →
  keeps I (reconcile_apps ak rc apps) any.
Proof.
  intros Hfin Happs. induction Happs as [|app apps Happ _ IH]; cbn; [by apply keeps_ret|].
  apply keeps_then; [|intros [res|]; [by apply keeps_ret|apply IH]].
  unfold reconcile_app. eapply keeps_bind; [apply keeps_getBpfAppState|].
  intros [[an|]|e] Han; [|destruct (app_isBeingDeleted app) eqn:Hd|]; try by apply keeps_ret.
  - destruct (Han an eq_refl). apply keeps_existing. by split_and!.
  - apply keeps_then; [apply keeps_create; [done|by rewrite Hd|done]|].
    intros res. by apply keeps_ret.
Qed.

Lemma keeps_Reconcile NodeName req : keeps I (Reconcile ak NodeName req) any.
Proof.
  unfold Reconcile.
  apply keeps_then; [by keeps_tac|]. intros _.
  apply keeps_then; [apply keeps_call, reads_GetNode|]. intros [node|e]; [|by apply keeps_ret].
  eapply (keeps_bind _ _ _ (λ res, ∀ apps, res = Ok apps → Forall (λ app,
    app_isBeingDeleted app = negb (live (app_owner ak app))) apps)).
  - apply keeps_lift. apply store_ListApps.
  - intros [apps|e] Happs; [|by apply keeps_ret]. apply keeps_apps; [done|]. by apply Happs.
Qed.

(** C13: the agent's Reconcile keeps the state objects well-formed: if in every state
    object that the API server has each program entry has the struct its type names, no
    two entries stand for the same program, and the object carries the agent's finalizer
    when it records a loaded program or when its application is not being deleted, then
    so it is afterwards, at every point where the Reconcile can end, by a return or by a
    panic, and whatever the daemon and the server answer. *)
Theorem Reconcile_well_formed NodeName req w : I w → I (Reconcile ak NodeName req w).2.
Proof. intros Hw. by apply (keeps_Reconcile NodeName req w). Qed.
End methods.

(** ** The two scopes *)

Definition fn_name {L} (i : option (WithFunction L)) : string :=
  match i with Some i => Function i | None => "" end.

Definition cl_fn (t fentry fexit : string) : string :=
  if decide (t = ProgTypeFentry) then fentry else if decide (t = ProgTypeFexit) then fexit else "".

Definition cl_state_key (s : ClBpfApplicationProgramState) : key :=
  (clps_Type s, ps_Name (clps_common s),
   cl_fn (clps_Type s) (fn_name (clps_FEntry s)) (fn_name (clps_FExit s))).

Definition cl_prog_key (p : ClBpfApplicationProgram) : key :=
  (clp_Type p, clp_Name p, cl_fn (clp_Type p) (fn_name (clp_FEntry p)) (fn_name (clp_FExit p))).

Definition ns_state_key (s : BpfApplicationProgramState) : key :=
  (nsps_Type s, ps_Name (nsps_common s), "").

Definition ns_prog_key (p : BpfApplicationProgram) : key := (nsp_Type p, nsp_Name p, "").

(** Assignment to the links of a kind keeps the key, the shape and the common part. *)
Definition keeps_shape {PS L} `{!ProgramState PS} (shaped : PS → bool) (k : PS → key) (set : slice L → PS → PS) : Prop :=
  ∀ links s, shaped (set links s) = shaped s ∧ k (set links s) = k s ∧
             prog_common (set links s) = prog_common s.

Ltac shape_tac :=
  intros links []; unfold cl_shaped, ns_shaped, cl_field, ns_field, cl_state_key, ns_state_key;
  unfold set_clps_XDP, set_clps_TC, set_clps_TCX, set_clps_FEntry, set_clps_FExit, set_clps_KProbe,
    set_clps_KRetProbe, set_clps_UProbe, set_clps_URetProbe, set_clps_TracePoint, set_nsps_XDP,
    set_nsps_TC, set_nsps_TCX, set_nsps_UProbe, set_nsps_URetProbe;
  cbn [clps_common clps_Type clps_XDP clps_TC clps_TCX clps_FEntry clps_FExit clps_KProbe
       clps_KRetProbe clps_UProbe clps_URetProbe clps_TracePoint nsps_common nsps_Type nsps_XDP
       nsps_TC nsps_TCX nsps_UProbe nsps_URetProbe];
  repeat match goal with
         | |- context [set_links _ ?p] => is_var p; destruct p
         | |- context [set_fn_links _ ?p] => is_var p; destruct p
         end; split_and!; reflexivity.

Lemma cl_setters_shape :
  keeps_shape cl_shaped cl_state_key set_clps_XDP ∧ keeps_shape cl_shaped cl_state_key set_clps_TC ∧
  keeps_shape cl_shaped cl_state_key set_clps_TCX ∧ keeps_shape cl_shaped cl_state_key set_clps_FEntry ∧
  keeps_shape cl_shaped cl_state_key set_clps_FExit ∧ keeps_shape cl_shaped cl_state_key set_clps_KProbe ∧
  keeps_shape cl_shaped cl_state_key set_clps_KRetProbe ∧ keeps_shape cl_shaped cl_state_key set_clps_UProbe ∧
  keeps_shape cl_shaped cl_state_key set_clps_URetProbe ∧ keeps_shape cl_shaped cl_state_key set_clps_TracePoint.
Proof. split_and!; shape_tac. Qed.

Lemma ns_setters_shape :
  keeps_shape ns_shaped ns_state_key set_nsps_XDP ∧ keeps_shape ns_shaped ns_state_key set_nsps_TC ∧
  keeps_shape ns_shaped ns_state_key set_nsps_TCX ∧ keeps_shape ns_shaped ns_state_key set_nsps_UProbe ∧
  keeps_shape ns_shaped ns_state_key set_nsps_URetProbe.
Proof. split_and!; shape_tac. Qed.

(** The reconciler of a kind whose setter keeps the shape. *)
Lemma keeps_of_kind {W P PS A L} `{!AgentEnv W, !LinkState L, !ProgramState PS, !ProgramStateLaws PS}
    (k : Kind W P PS A L) (shaped : PS → bool) (sk : PS → key) (I : W → Prop) `{!LinksUndisturbed I}
    (pr : ProgRec P PS) del :
  KindKeeps I k → keeps_shape shaped sk (k_setStateLinks k) →
  (∀ c s, shaped (set_prog_common c s) = shaped s) →
  (∀ c s, ps_Name c = ps_Name (prog_common s) → sk (set_prog_common c s) = sk s) →
  keeps I (pr_getProgramLoadInfo (of_kind k) pr) (λ _, True) ∧
  keeps I (pr_reconcileProgram (of_kind k) pr del)
    (λ res, shaped (currentProgramState res.2) = shaped (currentProgramState pr) ∧
            sk (currentProgramState res.2) = sk (currentProgramState pr) ∧
            progId (currentProgramState res.2) = progId (currentProgramState pr)).
Proof.
  intros Hk Hset Hsh Hkey. split; [apply keeps_info, Hk|]. cbn.
  apply (keeps_reconcileProgram I k Hk
    (λ s, shaped s = shaped (currentProgramState pr) ∧ sk s = sk (currentProgramState pr) ∧
          progId s = progId (currentProgramState pr))).
  - intros st s (H1 & H2 & H3). unfold progId. rewrite Hsh, Hkey, prog_common_set by done.
    by split_and!.
  - intros links s (H1 & H2 & H3). destruct (Hset links s) as (-> & -> & Hc). unfold progId.
    by rewrite Hc.
  - done.
Qed.

Lemma set_by_type_shape :
  keeps_shape cl_shaped cl_state_key ClKprobe.setAppStateLinks ∧
  keeps_shape cl_shaped cl_state_key ClKretprobe.setAppStateLinks ∧
  keeps_shape cl_shaped cl_state_key ClUprobe.setAppStateLinks ∧
  keeps_shape ns_shaped ns_state_key NsUprobe.setAppStateLinks.
Proof.
  destruct cl_setters_shape as (_ & _ & _ & _ & _ & Hk & Hkr & Hu & Hur & _).
  destruct ns_setters_shape as (_ & _ & _ & Hnu & Hnur).
  split_and!; intros links s;
    unfold ClKprobe.setAppStateLinks, ClKretprobe.setAppStateLinks, ClUprobe.setAppStateLinks,
      NsUprobe.setAppStateLinks; repeat (destruct (decide _)); auto.
Qed.

(** The lookup of a program in the list of states finds every state with its key. *)
Lemma keeps_search {W P PS} (I : W → Prop) (matches : P → PS → GoM W bool)
    (from : nat → P → list PS → GoM W (result nat)) (prog : P) (pk : key) (sk : PS → key) :
  (∀ i ps, from i prog ps =
     match ps with
     | [] => from i prog []
     | s :: ps' => found ← matches prog s; if (found : bool) then mret (Ok i) else from (1 + i)%nat prog ps'
     end) →
  (∀ i, keeps I (from i prog []) (λ _, True)) →
  (∀ s, keeps I (matches prog s) (λ b, b = false → sk s ≠ pk)) →
  ∀ i ps, keeps I (from i prog ps) (λ r, match r with Err _ => pk ∉ sk <$> ps | Ok _ => True end).
Proof.
  intros Hfrom Hnil Hm i ps. revert i. induction ps as [|s ps IH]; intros i.
  - eapply keeps_mono; [apply Hnil|]. intros [j|e] _; [done|]. apply not_elem_of_nil.
  - rewrite Hfrom. eapply keeps_bind; [apply Hm|]. intros [|] Hb; [by apply keeps_ret|].
    eapply keeps_mono; [apply IH|]. intros [j|e] Hr; [done|]. cbn.
    apply not_elem_of_cons. split; [|done]. intros ->. by apply Hb.
Qed.

Section scopes.
Context {W : Type} `{!AgentEnv W, !LabelLib, !BytecodeLib W,
  !ApplicationAPI W ClBpfApplicationProgram ClBpfApplicationProgramState,
  !ApplicationAPI W BpfApplicationProgram BpfApplicationProgramState}.

Lemma cl_matches_key (I : W → Prop) prog s :
  keeps I (ClApp.matches prog s) (λ b, b = false → cl_state_key s ≠ cl_prog_key prog).
Proof using Type.
  unfold ClApp.matches. destruct (decide _) as [[Ht Hn]|Hne].
  - destruct (decide _) as [Hf|Hf]; [|destruct (decide _) as [Hx|Hx]; [|by apply keeps_ret]].
    all: eapply keeps_bind; [apply keeps_deref_eq|]; intros st Hst.
    all: eapply keeps_bind; [apply keeps_deref_eq|]; intros sp Hsp; apply keeps_ret.
    all: intros Hb%bool_decide_eq_false [= _ _ Hk]; apply Hb; revert Hk; unfold cl_fn;
      rewrite Ht; repeat first [rewrite decide_True by done|rewrite decide_False by done];
      rewrite Hst, Hsp; done.
  - apply keeps_ret. intros _ [= Ht Hn _]. by apply Hne.
Qed.

#[export] Instance ClApp_typed : TypedScope (W := W) ClApp.app_kind.
Proof using Type.
  refine (Build_TypedScope W _ _ _ _ ClApp.app_kind _ cl_state_key cl_prog_key (λ _, "")
            _ _ _ _ _ _ _ _ _).
  - done.
  - done.
  - intros c [] Hn. cbn in Hn. unfold cl_state_key. cbn. by rewrite Hn.
  - intros [] s' w w'. unfold ak_deleteLinks, ClApp.app_kind, ClApp.deleteLinks. cbn.
    repeat (case_decide; [subst; match goal with |- context [deref ?p] => destruct p as [[]|] end;
      [intros [= <- _]; unfold cl_state_key, cl_fn; cbn; done|done]|]).
    by intros [= <- _].
  - intros prog s w w'. cbn. unfold ClApp.newProgState.
    repeat (case_decide as Ht; [
      try (match goal with |- context [deref ?p] => destruct p as [?|] eqn:Hp; [|done] end);
      intros [= <- _]; unfold cl_state_key, cl_prog_key; cbn;
      rewrite ?Ht, ?Hp; done|clear Ht]).
    by intros [=].
  - intros I prog. cbn. unfold ClApp.newProgState. keeps_tac.
  - intros I s. cbn. unfold ClApp.deleteLinks. keeps_tac.
  - intros I prog ps. cbn. unfold ClApp.getProgState.
    apply (keeps_search I ClApp.matches ClApp.getProgState_from prog).
    + by intros i [|].
    + intros i. by apply keeps_ret.
    + intros s. apply cl_matches_key.
  - intros I HI prog s rec pr del. cbn. unfold ClApp.getProgramReconciler.
    destruct cl_setters_shape as (?&?&?&?&?&?&?&?&?&?).
    destruct set_by_type_shape as (?&?&?&?).
    repeat (case_decide; [intros [= <-]; apply (keeps_of_kind _ cl_shaped cl_state_key);
      [exact HI|eauto using ClXdp_keeps, ClTc_keeps, ClTcx_keeps, ClFentry_keeps, ClFexit_keeps,
         ClKprobe_keeps, ClKretprobe_keeps, ClUprobe_keeps, ClTracepoint_keeps
      |done|by intros c []|intros c [] Hn; cbn in Hn; unfold cl_state_key; cbn; by rewrite Hn]|]).
    by intros [=].
Defined.

#[export] Instance NsApp_typed : TypedScope (W := W) NsApp.app_kind.
Proof using Type.
  refine (Build_TypedScope W _ _ _ _ NsApp.app_kind _ ns_state_key ns_prog_key om_Namespace
            _ _ _ _ _ _ _ _ _).
  - intros app m Hm. by apply Hm.
  - done.
  - intros c [] Hn. cbn in Hn. unfold ns_state_key. cbn. by rewrite Hn.
  - intros [] s' w w'. unfold ak_deleteLinks, NsApp.app_kind, NsApp.deleteLinks. cbn.
    repeat (case_decide; [subst; match goal with |- context [deref ?p] => destruct p as [[]|] end;
      [by intros [= <- _]|done]|]).
    by intros [= <- _].
  - intros prog s w w'. cbn. unfold NsApp.newProgState.
    repeat (case_decide as Ht; [
      intros [= <- _]; unfold ns_state_key, ns_prog_key; cbn; rewrite ?Ht; done|clear Ht]).
    by intros [=].
  - intros I prog. cbn. unfold NsApp.newProgState. keeps_tac.
  - intros I s. cbn. unfold NsApp.deleteLinks. keeps_tac.
  - intros I prog ps. cbn. unfold NsApp.getProgState.
    apply (keeps_search I NsApp.matches NsApp.getProgState_from prog).
    + by intros i [|].
    + intros i. by apply keeps_ret.
    + intros s. apply keeps_ret. intros Hb%bool_decide_eq_false [= Ht Hn]. by apply Hb.
  - intros I HI prog s rec pr del. cbn. unfold NsApp.getProgramReconciler.
    destruct ns_setters_shape as (?&?&?&?&?). destruct set_by_type_shape as (?&?&?&?).
    repeat (case_decide; [intros [= <-]; apply (keeps_of_kind _ ns_shaped ns_state_key);
      [exact HI|eauto using NsXdp_keeps, NsTc_keeps, NsTcx_keeps, NsUprobe_keeps
      |done|by intros c []|intros c [] Hn; cbn in Hn; unfold ns_state_key; cbn; by rewrite Hn]|]).
    by intros [=].
Defined.
End scopes.
