(* ===== verification/Ledger.v ===== *)
(** The agent's books: which programs of the daemon are recorded in which state object.
    [ledger] says that the daemon has the programs of others and those that the state
    objects record, each recorded once, and that an object records all of its programs or
    none. A Reconcile of the agent that does not ask for a retry keeps the books. *)

From S2P Require Import Prelude ApiTypes Constants Bpfman Selectors Links Kinds ClKinds NsKinds.
From S2P Require Import KindSpecs Application Apps AppSpecs Keeps Typing.
From stdpp Require Import options.
#[local] Set Default Proof Using "Type*".

(** ** Ledgers *)

(** The recorded ids of one state object, in order. *)
Definition idset (ids : list (option Z)) : gset Z := list_to_set (omap (λ x, x) ids).

Definition whole (ids : list (option Z)) : Prop :=
  Forall is_Some ids ∨ Forall (λ x, x = None) ids.

(** [F] are the programs of others, [D] those of the daemon, [L] the records. *)
Record ledger (F D : gset Z) (L : list (list (option Z))) : Prop := mkLedger {
  ledger_dom x : x ∈ D ↔ x ∈ F ∨ ∃ i ids, L !! i = Some ids ∧ x ∈ idset ids;
  ledger_apart i j a b x : L !! i = Some a → L !! j = Some b → x ∈ idset a → x ∈ idset b → i = j;
  ledger_foreign i ids x : L !! i = Some ids → x ∈ idset ids → x ∉ F;
  ledger_whole : Forall whole L;
}.

Lemma elem_of_idset x ids : x ∈ idset ids ↔ Some x ∈ ids.
Proof.
  unfold idset. rewrite elem_of_list_to_set, list_elem_of_omap. naive_solver.
Qed.

Lemma idset_none ids : Forall (λ x, x = None) ids → idset ids = ∅.
Proof.
  intros Hn. apply set_eq. intros x. rewrite elem_of_idset. split; [|set_solver].
  rewrite Forall_forall in Hn. intros Hx. by apply Hn in Hx.
Qed.

Lemma ledger_swap F D D' L i a b :
  L !! i = Some a → (∀ x, x ∈ D' ↔ (x ∈ D ∧ x ∉ idset a) ∨ x ∈ idset b) →
  (∀ x, x ∈ idset b → x ∈ D → x ∈ idset a) → whole b →
  ledger F D L → ledger F D' (<[i := b]> L).
Proof.
  intros Hi HD' Hb Hw HL. destruct HL as [Hdom Hap Hfor Hwh].
  assert (Hlk : ∀ j c, <[i := b]> L !! j = Some c ↔ (i = j ∧ c = b) ∨ (i ≠ j ∧ L !! j = Some c)).
  { intros j c. rewrite list_lookup_insert_Some. apply lookup_lt_Some in Hi. naive_solver. }
  split.
  - intros x. rewrite HD'. split.
    + intros [[Hx Hna]|Hx]; [|right; exists i, b; by rewrite Hlk; naive_solver].
      apply Hdom in Hx as [Hx|(j & c & Hj & Hx)]; [by left|]. right. exists j, c.
      rewrite Hlk. split; [|done]. right. split; [|done]. intros ->. congruence.
    + intros [Hx|(j & c & [[-> ->]|[Hne Hj]]%Hlk & Hx)]; [|by right|].
      * left. split; [apply Hdom; by left|]. intros Ha. by apply (Hfor i a x Hi Ha).
      * left. split; [apply Hdom; naive_solver|]. intros Ha. by apply Hne, (Hap i j a c x).
  - intros j k c d x [[-> ->]|[Hne Hj]]%Hlk [[-> ->]|[Hne' Hk]]%Hlk Hc Hd; [done|..].
    + apply (Hap j k a d x); [done..| |done]. apply Hb; [done|]. apply Hdom. naive_solver.
    + apply (Hap j k c a x); [done..|]. apply Hb; [done|]. apply Hdom. naive_solver.
    + by apply (Hap j k c d x).
  - intros j c x [[-> ->]|[Hne Hj]]%Hlk Hc; [|by apply (Hfor j c)].
    intros HF. apply (Hfor j a x Hi); [|done]. apply Hb; [done|]. apply Hdom. by left.
  - by apply Forall_insert.
Qed.

(** An object that records nothing is added or removed. *)
Lemma ledger_snoc F D L ids :
  Forall (λ x, x = None) ids → ledger F D L → ledger F D (L ++ [ids]).
Proof.
  intros Hn [Hdom Hap Hfor Hwh]. pose proof (idset_none _ Hn) as Hz.
  assert (Hlk : ∀ j c x, (L ++ [ids]) !! j = Some c → x ∈ idset c → L !! j = Some c).
  { intros j c x [Hj|[_ [_ Hj]%list_lookup_singleton_Some]]%lookup_app_Some Hx; [done|].
    subst. rewrite Hz in Hx. set_solver. }
  split.
  - intros x. rewrite Hdom. split; intros [Hx|(j & c & Hj & Hx)]; [by left| |by left|].
    + right. exists j, c. split; [by apply lookup_app_l_Some|done].
    + right. exists j, c. split; [by eapply Hlk|done].
  - intros j k c d x Hj Hk Hc Hd. apply (Hap j k c d x); eauto.
  - intros j c x Hj Hc. apply (Hfor j c); eauto.
  - apply Forall_app. split; [done|]. constructor; [by right|done].
Qed.

Lemma ledger_delete F D L i ids :
  L !! i = Some ids → Forall (λ x, x = None) ids → ledger F D L → ledger F D (delete i L).
Proof.
  intros Hi Hn [Hdom Hap Hfor Hwh]. pose proof (idset_none _ Hn) as Hz.
  set (at_ j := if decide (j < i)%nat then j else S j).
  assert (Hlk : ∀ j, delete i L !! j = L !! at_ j).
  { intros j. unfold at_. destruct (decide (j < i)%nat).
    - by apply list_lookup_delete_lt.
    - apply list_lookup_delete_ge. lia. }
  assert (Hinj : ∀ j k, at_ j = at_ k → j = k).
  { intros j k. unfold at_. repeat destruct (decide _); lia. }
  split.
  - intros x. rewrite Hdom. split; intros [Hx|(j & c & Hj & Hx)]; [by left| |by left|].
    + right. assert (j ≠ i) by (intros ->; rewrite Hi in Hj; injection Hj as <-; set_solver).
      exists (if decide (j < i)%nat then j else pred j), c. split; [|done]. rewrite Hlk.
      unfold at_. rewrite <- Hj. f_equal. repeat destruct (decide _); lia.
    + right. rewrite Hlk in Hj. eauto.
  - intros j k c d x Hj Hk Hc Hd. rewrite Hlk in Hj, Hk. apply Hinj. by eapply Hap.
  - intros j c x Hj. rewrite Hlk in Hj. by eapply Hfor.
  - by apply Forall_delete.
Qed.

(** ** What is relied on *)

(** The programs of a load response. *)
Definition kernel_ids (rs : list ProgramResponse) : list Z :=
  omap (λ r, ki_Id <$> pr_KernelInfo r) rs.

(** A load is all or nothing: it answers with the programs of the request, in order, which
    are loaded under ids that were free, and nothing else is. An unload fails only for a
    program that is not loaded. *)
Class LedgerDaemon (W : Type) `{BpfmanLaws W} : Prop := {
  ld_Load_Ok rq w rs : (bpfman_Load rq w).1 = Ok rs →
    Forall2 (λ i r, ∃ info k, pr_Info r = Some info ∧ pr_KernelInfo r = Some k ∧
      pi_Name info = li_Name i) (lr_Info rq) rs ∧
    (∀ x, x ∈ dom (loaded (bpfman_Load rq w).2) ↔ x ∈ dom (loaded w) ∨ x ∈ kernel_ids rs) ∧
    ∀ x, x ∈ kernel_ids rs → x ∉ dom (loaded w);
  ld_Load_Err rq w e : (bpfman_Load rq w).1 = Err e →
    dom (loaded (bpfman_Load rq w).2) = dom (loaded w);
  ld_Unload_Err id w e : (bpfman_Unload id w).1 = Some e → id ∉ dom (loaded w);
}.

Section store.
Context {PS : Type}.

Definition obj_key (an : AppState PS) : string * string :=
  (om_Namespace (as_meta an), om_Name (as_meta an)).
Definition state_programs (an : AppState PS) : list PS := elems (st_Programs (as_Status an)).

(** A list for these labels in this namespace shows the object. *)
Definition listed (ns : option string) (l : gmap string string) (an : AppState PS) : Prop :=
  l ⊆ om_Labels (as_meta an) ∧
  om_Namespace (as_meta an) = default (om_Namespace (as_meta an)) ns.

#[export] Instance listed_dec ns l an : Decision (listed ns l an).
Proof. unfold listed. apply _. Defined.

(** The same object, with its identity. *)
Definition same_object (an an' : AppState PS) : Prop :=
  obj_key an' = obj_key an ∧ om_Labels (as_meta an') = om_Labels (as_meta an).

(** [S'] is [S] with the object of [an]'s name replaced by one that [R] allows. *)
Definition replaces (an : AppState PS) (R : AppState PS → AppState PS → Prop)
    (S S' : list (AppState PS)) : Prop :=
  ∃ i old new, S !! i = Some old ∧ obj_key old = obj_key an ∧ obj_key new = obj_key old ∧
               R old new ∧ S' = <[i := new]> S.
End store.

(** The API server as one that is read and written directly, [states] being its state
    objects: a list shows the objects as they are, a write of the status changes it, one
    of the metadata may take the object away when its last finalizer goes, and a write
    that fails does nothing. Nothing else touches the objects, and nothing but loads and
    unloads the set of loaded programs. *)
Class LedgerStore {W P PS} `{!AgentEnv W, !BpfmanLaws W, !BytecodeLib W,
    !ApplicationAPI W P PS} := {
  states : W → list (AppState PS);
  frozen (D : gset Z) (S : list (AppState PS)) (w : W) : Prop :=
    dom (loaded w) = D ∧ states w = S;
  ls_Load rq w : states (bpfman_Load rq w).2 = states w;
  ls_Unload id w : states (bpfman_Unload id w).2 = states w;
  ls_reads D S :: ReadsUndisturbed P PS (frozen D S);
  ls_ListApps D S w : frozen D S w → frozen D S (api_ListApps w).2;
  ls_ListStates D S ns l w :
    frozen D S w → frozen D S (api_ListStates ns l w).2 ∧
    ∀ ans, (api_ListStates ns l w).1 = Ok ans → ans = filter (listed ns l) S;
  ls_Create D S an w :
    frozen D S w →
    match (api_Create an w).1 with
    | Err _ => frozen D S (api_Create an w).2
    | Ok new => frozen D (S ++ [new]) (api_Create an w).2 ∧ same_object an new ∧
                obj_key new ∉ obj_key <$> S ∧
                (state_programs new = state_programs an ∨ state_programs new = [])
    end;
  ls_StatusUpdate D S an w :
    frozen D S w →
    match (api_StatusUpdate an w).1 with
    | Err _ => frozen D S (api_StatusUpdate an w).2
    | Ok new => ∃ S', frozen D S' (api_StatusUpdate an w).2 ∧
        replaces an (λ _ x, x = new ∧ state_programs new = state_programs an) S S'
    end;
  ls_Update D S an w :
    frozen D S w →
    ∃ S', frozen D S' (api_Update an w).2 ∧
      (S' = S ∨
       replaces an (λ old new, as_Status new = as_Status an ∨ as_Status new = as_Status old) S S' ∨
       ∃ i old, S !! i = Some old ∧ obj_key old = obj_key an ∧ S' = delete i S);
  ls_owner app an an' :
    api_SetControllerReference app an = Ok an' → same_object an an' ∧ as_Status an' = as_Status an;
}.
Arguments LedgerStore _ _ _ {_ _ _ _}.

(** What a scope says of the names and the common part of its programs. *)
Class LedgerScope {W P PS} `{!AgentEnv W, !ProgramState PS} (ak : AppKind W P PS) : Prop := {
  lk_info prog s rec pr w i w' :
    ak_getProgramReconciler ak prog s = Ok rec → currentProgram pr = prog →
    pr_getProgramLoadInfo rec pr w = (Ret i, w') → li_Name i = ak_progName ak prog;
  lk_deleteLinks s s' w w' :
    ak_deleteLinks ak s w = (Ret s', w') → prog_common s' = prog_common s ∧ w' = w;
}.

(** ** The methods of the application reconciler *)

Section methods.
Context {W P PS : Type} `{!AgentEnv W, !BpfmanLaws W, !LedgerDaemon W, !LabelLib,
  !BytecodeLib W, !ApplicationAPI W P PS, !ProgramState PS, !ProgramStateLaws PS, !EqDecision PS}
  (ak : AppKind W P PS) `{!AppKindLaws ak, !TypedScope ak, !LedgerScope ak}
  `{!LedgerStore W P PS} (F : gset Z).
Implicit Types (r : AppRec P PS) (w : W) (S : list (AppState PS)).
Abbreviation any := (λ _, True).

Definition prog_ids (ps : list PS) : list (option Z) := progId <$> ps.
Definition records_of S : list (list (option Z)) := (λ an, prog_ids (state_programs an)) <$> S.

(** Objects have different names and their records are a ledger of the daemon's
    programs. *)
Definition books w : Prop :=
  NoDup (obj_key <$> states w) ∧ ledger F (dom (loaded w)) (records_of (states w)).

(** During the reconcile of the object at [i] among the objects [S]: with what the
    reconciler has of it in place of what is stored, the books are in order. *)
Definition pending S i (ids : list (option Z)) w : Prop :=
  states w = S ∧ ledger F (dom (loaded w)) (<[i := ids]> (records_of S)).

(** The reconciler's object is the one at [i]. *)
Definition reconciles_at S i r : Prop :=
  NoDup (obj_key <$> S) ∧ ∃ old, S !! i = Some old ∧ obj_key old = obj_key (currentAppState r).

Definition r_ids r : list (option Z) := prog_ids (programs r).

Lemma books_frozen D S w : frozen D S w → books w ↔ NoDup (obj_key <$> S) ∧ ledger F D (records_of S).
Proof using Type. intros [<- <-]. done. Qed.

#[export] Instance pending_reads S i ids : ReadsUndisturbed P PS (pending S i ids).
Proof using LedgerStore0.
  assert (Hto : ∀ w w', (∀ D, frozen D S w → frozen D S w') →
    pending S i ids w → pending S i ids w').
  { intros w w' Hf [HS HL]. destruct (Hf (dom (loaded w))) as [HD' HS']; [done|].
    split; [exact HS'|]. by rewrite HD'. }
  split; [split|..]; intros; (eapply Hto; [|eassumption]); intros.
  1: by apply u_Attach. 1: by apply u_Detach. 1: by apply u_Get. 1: by apply u_NetNs.
  1: by apply u_Reset. 1: by apply u_uuid. 1: by apply u_Range. 1: by apply u_Interfaces.
  1: by apply u_Containers. 1: by apply reads_ParseAuth. 1: by apply reads_GetNode.
  1: by apply reads_Now. by apply reads_tick.
Qed.

Lemma pending_start S i an w :
  books w → states w = S → S !! i = Some an → pending S i (prog_ids (state_programs an)) w.
Proof using Type.
  intros [_ HL] HS Hi. split; [done|]. rewrite HS in HL. rewrite list_insert_id; [done|].
  unfold records_of. by rewrite list_lookup_fmap, Hi.
Qed.

Lemma pending_books S i an w :
  NoDup (obj_key <$> S) → S !! i = Some an → pending S i (prog_ids (state_programs an)) w → books w.
Proof using Type.
  intros Hnd Hi [HS HL]. unfold books. rewrite HS. split; [done|].
  rewrite list_insert_id in HL; [done|]. unfold records_of. by rewrite list_lookup_fmap, Hi.
Qed.

(** A change of the reconciler's programs that the daemon has followed. *)
Lemma pending_swap S i a b w w' :
  (i < length S)%nat → states w' = states w →
  (∀ x, x ∈ dom (loaded w') ↔ (x ∈ dom (loaded w) ∧ x ∉ idset a) ∨ x ∈ idset b) →
  (∀ x, x ∈ idset b → x ∈ dom (loaded w) → x ∈ idset a) → whole b →
  pending S i a w → pending S i b w'.
Proof using Type.
  intros Hi HS HD Hb Hw [HS' HL]. split; [congruence|].
  rewrite <- (list_insert_insert_eq (records_of S) i b a).
  eapply ledger_swap; [|exact HD|exact Hb|exact Hw|exact HL].
  apply list_lookup_insert_eq. unfold records_of. by rewrite length_fmap.
Qed.

Lemma pending_whole S i ids w : (i < length S)%nat → pending S i ids w → whole ids.
Proof using Type.
  intros Hi [_ [_ _ _ Hw]]. rewrite Forall_forall in Hw. apply Hw.
  apply list_elem_of_lookup. exists i. apply list_lookup_insert_eq.
  unfold records_of. by rewrite length_fmap.
Qed.

Lemma pending_loaded S i ids w x :
  (i < length S)%nat → pending S i ids w → x ∈ idset ids → x ∈ dom (loaded w).
Proof using Type.
  intros Hi [_ [Hd _ _ _]] Hx. apply Hd. right. exists i, ids. split; [|done].
  apply list_lookup_insert_eq. unfold records_of. by rewrite length_fmap.
Qed.

(** *** Unload *)

Lemma idset_cons_Some id ids : idset (Some id :: ids) = {[id]} ∪ idset ids.
Proof using Type. done. Qed.

Lemma wlp_unload_program s w :
  wlp (unload_program ak s) (λ s' w', states w' = states w ∧ progId s' = None ∧
    ∀ x, x ∈ dom (loaded w') ↔ x ∈ dom (loaded w) ∧ x ∉ idset [progId s]) w.
Proof using LedgerDaemon0 LedgerScope0 ProgramStateLaws0.
  unfold unload_program. apply wpg_bind.
  destruct (progId s) as [id|] eqn:Hid; unfold progId in Hid; rewrite Hid.
  - apply wpg_bind. unfold UnloadBpfmanProgram. wp_step. apply wpg_lift.
    assert (Hd : ∀ x, x ∈ dom (loaded (bpfman_Unload id w).2) ↔
                 x ∈ dom (loaded w) ∧ x ∉ idset [Some id]).
    { intros x. rewrite idset_cons_Some. destruct (bpfman_Unload id w).1 as [e|] eqn:Hu.
      - rewrite (law_Unload_Err _ _ _ Hu). apply ld_Unload_Err in Hu. set_solver.
      - rewrite (law_Unload_Ok _ _ Hu), dom_delete. set_solver. }
    apply wpg_ret. unfold wpg at 1.
    destruct (ak_deleteLinks ak _ _) as [[s'|why] w'] eqn:Hdel; [|done].
    apply lk_deleteLinks in Hdel as [Hc ->]. apply wpg_ret. rewrite ls_Unload.
    unfold progId. rewrite prog_common_set. cbn. rewrite Hc, prog_common_set. by split_and!.
  - apply wpg_ret. apply wpg_ret. split; [done|]. unfold progId. rewrite prog_common_set.
    cbn. split; [done|]. intros x. set_solver.
Qed.

Lemma wlp_unload_all ps w :
  wlp (mapM (unload_program ak) ps) (λ ps' w', states w' = states w ∧
    Forall (λ x, x = None) (prog_ids ps') ∧
    ∀ x, x ∈ dom (loaded w') ↔ x ∈ dom (loaded w) ∧ x ∉ idset (prog_ids ps)) w.
Proof using LedgerDaemon0 LedgerScope0 ProgramStateLaws0.
  revert w. induction ps as [|s ps IH]; intros w; cbn [mapM].
  { apply wpg_ret. split; [done|]. split; [constructor|]. set_solver. }
  apply wpg_bind. eapply wpg_mono; [apply wlp_unload_program|]. intros s' w1 (HS1 & Hn & Hd1).
  apply wpg_bind. eapply wpg_mono; [apply IH|]. intros ps' w2 (HS2 & Hns & Hd2).
  apply wpg_ret. split; [congruence|]. split; [by constructor|]. intros x.
  rewrite Hd2, Hd1. change (prog_ids (s :: ps)) with ([progId s] ++ prog_ids ps).
  rewrite !elem_of_idset, elem_of_app. naive_solver.
Qed.

Lemma wlp_unload S i r w :
  (i < length S)%nat → pending S i (r_ids r) w →
  wlp (app_unload ak r) (λ r' w', pending S i (r_ids r') w' ∧ Forall (λ x, x = None) (r_ids r') ∧
    as_meta (currentAppState r') = as_meta (currentAppState r) ∧
    currentApp r' = currentApp r ∧ app_rc r' = app_rc r) w.
Proof using LedgerDaemon0 LedgerScope0 ProgramStateLaws0.
  intros Hi Hp. unfold app_unload. apply wpg_bind.
  eapply wpg_mono; [apply wlp_unload_all|]. intros ps' w' (HS & Hn & Hd). apply wpg_ret.
  unfold r_ids. rewrite programs_set_programs. split_and!; [|..|done|done|done].
  - eapply pending_swap; [done|exact HS|..|exact Hp].
    + intros x. rewrite (idset_none _ Hn), Hd. unfold r_ids. set_solver.
    + intros x. rewrite (idset_none _ Hn). set_solver.
    + by right.
  - done.
Qed.

(** *** Load *)

Lemma wlp_keeps {A} (I : W → Prop) (m : GoM W A) Q w :
  keeps I m Q → I w → wlp m (λ a w', I w' ∧ Q a) w.
Proof using Type. apply keeps_wlp. Qed.

Lemma wlp_loadInfos S i ids r spec infos w :
  pending S i ids w →
  wlp (loadInfos ak r spec infos) (λ res w', pending S i ids w' ∧
    ∀ l, res = Ok l → li_Name <$> l = (li_Name <$> infos) ++ (ak_progName ak <$> spec)) w.
Proof using AppKindLaws0 LedgerScope0 LedgerStore0 TypedScope0.
  revert infos w. induction spec as [|prog spec IH]; intros infos w Hp; cbn [loadInfos].
  { apply wpg_ret. split; [done|]. intros l [= <-]. by rewrite app_nil_r. }
  apply wpg_bind. eapply wpg_mono; [apply wlp_keeps; [apply keeps_getProgState|exact Hp]|].
  intros [j|e] w1 [Hp1 _]; [|by apply wpg_ret]. apply wpg_bind.
  destruct (programs r !! j) as [s|]; [|done]. apply wpg_ret.
  destruct (ak_getProgramReconciler ak prog s) as [rec|e] eqn:Hrec; [|by apply wpg_ret].
  apply wpg_bind. unfold wpg at 1.
  pose proof (proj1 (keeps_prog (pending S i ids) prog s rec (progRec r prog s) false Hrec) w1 Hp1)
    as [Hp2 _].
  destruct (pr_getProgramLoadInfo rec (progRec r prog s) w1) as [[info|why] w2] eqn:Hrun; [|done].
  eapply (lk_info prog s rec) in Hrun; [|done|done].
  eapply wpg_mono; [by apply IH|]. intros res w3 [Hp3 Hn]. split; [done|].
  intros l Hl. rewrite (Hn l Hl), fmap_app. cbn. by rewrite Hrun, <- app_assoc.
Qed.

(** The names and ids of a complete response. *)
Definition response_of (rs : list ProgramResponse) (nids : list (string * Z)) : Prop :=
  Forall2 (λ (r : ProgramResponse) (p : string * Z), ∃ info k, pr_Info r = Some info ∧ pr_KernelInfo r = Some k ∧
    pi_Name info = p.1 ∧ ki_Id k = p.2) rs nids.

Lemma response_exists (infos : list LoadInfo) (rs : list ProgramResponse) :
  Forall2 (λ i (r : ProgramResponse), ∃ info k, pr_Info r = Some info ∧ pr_KernelInfo r = Some k ∧
      pi_Name info = li_Name i) infos rs →
  ∃ nids, response_of rs nids ∧ nids.*1 = li_Name <$> infos ∧ nids.*2 = kernel_ids rs.
Proof using Type.
  induction 1 as [|i r infos rs (info & k & Hi & Hk & Hn) _ (nids & Hr & H1 & H2)].
  { exists []. by repeat constructor. }
  exists ((li_Name i, ki_Id k) :: nids). split_and!.
  - constructor; [|done]. exists info, k. by split_and!.
  - cbn. by rewrite H1.
  - unfold kernel_ids. cbn. rewrite Hk. cbn. by rewrite H2.
Qed.

Lemma run_response_id name rs nids w :
  response_of rs nids →
  ∃ res, GetBpfProgramId name rs w = (Ret res, w) ∧
    match res with Ok id => (name, id) ∈ nids | Err _ => name ∉ nids.*1 end.
Proof using Type.
  induction 1 as [|r [n id] rs nids (info & k & Hi & Hk & Hn & Hid) _ (res & Hrun & Hres)].
  { eexists. split; [done|]. apply not_elem_of_nil. }
  cbn [GetBpfProgramId]. rewrite Hi. cbn [deref]. unfold mbind, GoM_bind, mret, GoM_ret.
  cbn in Hn, Hid. destruct (decide (pi_Name info = name)) as [He|He].
  - rewrite Hk. cbn. eexists. split; [done|]. cbn. subst. left.
  - eexists. split; [exact Hrun|]. destruct res; [by right|]. cbn.
    apply not_elem_of_cons. split; [congruence|done].
Qed.

Lemma run_assign_all ps rs nids w :
  response_of rs nids → (∀ s, s ∈ ps → ps_Name (prog_common s) ∈ nids.*1) →
  ∃ ps', assign_ids ps rs w = (Ret (None, ps'), w) ∧
    Forall2 (λ s s', ∃ id, progId s' = Some id ∧ (ps_Name (prog_common s), id) ∈ nids) ps ps'.
Proof using ProgramStateLaws0.
  intros Hr. induction ps as [|s ps IH]; intros Hn; cbn [assign_ids].
  { exists []. by split. }
  destruct (run_response_id (ps_Name (prog_common s)) rs nids w Hr) as (res & Hrun & Hres).
  rewrite (run_bind _ _ _ _ _ Hrun). destruct res as [id|e].
  - destruct IH as (ps' & Hrest & Hps); [intros s' Hs'; apply Hn; by right|].
    rewrite (run_bind _ _ _ _ _ Hrest). eexists. split; [done|]. constructor; [|done].
    exists id. split; [|done]. unfold progId. by rewrite prog_common_set.
  - destruct Hres. apply Hn. left.
Qed.

Lemma nodup_fst {A B} (l : list (A * B)) n a b :
  NoDup l.*1 → (n, a) ∈ l → (n, b) ∈ l → a = b.
Proof using Type.
  induction l as [|[m c] l IH]; cbn; [by intros _ ?%elem_of_nil|].
  intros [Hm Hnd]%NoDup_cons Ha Hb.
  assert (Hout : ∀ x, (n, x) ∈ l → n ≠ m).
  { intros x Hx ->. apply Hm, list_elem_of_fmap. by exists (m, x). }
  apply elem_of_cons in Ha as [[= -> ->]|Ha], Hb as [[= Hb]|Hb]; [done|..].
  - by apply Hout in Hb.
  - by apply Hout in Ha.
  - by apply IH.
Qed.

(** Every program of the response is recorded. *)
Lemma assigned_ids ps ps' nids :
  NoDup nids.*1 → (∀ n, n ∈ nids.*1 → ∃ s, s ∈ ps ∧ ps_Name (prog_common s) = n) →
  Forall2 (λ s s', ∃ id, progId s' = Some id ∧ (ps_Name (prog_common s), id) ∈ nids) ps ps' →
  Forall is_Some (prog_ids ps') ∧ ∀ x, x ∈ idset (prog_ids ps') ↔ x ∈ nids.*2.
Proof using Type.
  intros Hnd Hall HF. split.
  - clear Hall. unfold prog_ids.
    induction HF as [|s s' ps ps' (id & Hid & _) _ IH]; constructor; [by rewrite Hid|done].
  - intros x. rewrite elem_of_idset. split.
    + intros (s' & Hx & (j & Hj)%list_elem_of_lookup)%list_elem_of_fmap.
      destruct (Forall2_lookup_r _ _ _ _ _ HF Hj) as (s & _ & id & Hid & Hin).
      rewrite Hid in Hx. injection Hx as <-. apply list_elem_of_fmap. by exists (ps_Name (prog_common s), x).
    + intros ([n id] & -> & Hin)%list_elem_of_fmap. cbn.
      destruct (Hall n) as (s & (j & Hj)%list_elem_of_lookup & Hn).
      { apply list_elem_of_fmap. by exists (n, id). }
      destruct (Forall2_lookup_l _ _ _ _ _ HF Hj) as (s' & Hj' & id' & Hid & Hin').
      rewrite Hn in Hin'. apply list_elem_of_fmap. exists s'.
      split; [|by eapply list_elem_of_lookup_2]. rewrite Hid. f_equal.
      by eapply (nodup_fst nids n).
Qed.

(** What a method leaves of the reconciler but for the programs it records. *)
Definition same_rec r r' : Prop :=
  as_meta (currentAppState r') = as_meta (currentAppState r) ∧ currentApp r' = currentApp r ∧
  app_rc r' = app_rc r.

Lemma wlp_load S i r w :
  (i < length S)%nat → pending S i (r_ids r) w → Forall (λ x, x = None) (r_ids r) →
  NoDup (specNames ak r) → (∀ n, n ∈ specNames ak r ↔ n ∈ stateNames r) →
  wlp (app_load ak r) (λ res w', pending S i (r_ids res.2) w' ∧ same_rec r res.2) w.
Proof.
  intros Hi Hp Hnone Hnd Hnames. unfold app_load, app_getLoadRequest.
  apply wpg_bind, wpg_bind.
  eapply wpg_mono; [eapply wlp_keeps; [apply (keeps_GetBytecode (P := P) (PS := PS)); apply _|exact Hp]|].
  intros [b|e] w1 [Hp1 _]; [|by apply wpg_ret, wpg_ret].
  apply wpg_bind. eapply wpg_mono; [by apply wlp_loadInfos|].
  intros [infos|e] w2 [Hp2 Hin]; apply wpg_ret; [|by apply wpg_ret].
  specialize (Hin infos eq_refl). cbn in Hin. apply wpg_bind, wpg_lift. set (rq := mkLoadRequest _ _ _ _ _ _).
  destruct (bpfman_Load rq w2).1 as [rs|e] eqn:Hload.
  - destruct (ld_Load_Ok _ _ _ Hload) as (HF & Hd & Hnew).
    destruct (response_exists _ _ HF) as (nids & Hr & H1 & H2).
    assert (Hn1 : nids.*1 = specNames ak r) by by rewrite H1.
    destruct (run_assign_all (programs r) rs nids (bpfman_Load rq w2).2 Hr) as (ps' & Hrun & Hps).
    { intros s Hs. rewrite Hn1, Hnames. apply list_elem_of_fmap. by exists s. }
    assert (Hcov : ∀ n, n ∈ nids.*1 → ∃ s, s ∈ programs r ∧ ps_Name (prog_common s) = n).
    { intros n. rewrite Hn1, Hnames. intros (s & -> & Hs)%list_elem_of_fmap. by exists s. }
    destruct (assigned_ids (programs r) ps' nids) as [Hall Hids]; [by rewrite Hn1|done|done|].
    apply wpg_bind. unfold wpg at 1. rewrite Hrun. apply wpg_ret. split; [|done].
    unfold r_ids. cbn [snd]. rewrite programs_set_programs. rewrite H2 in Hids.
    eapply pending_swap; [done|apply ls_Load|..|exact Hp2].
    + intros x. rewrite (idset_none _ Hnone), Hd, Hids. set_solver.
    + intros x Hx Hxd. rewrite Hids in Hx. by apply Hnew in Hx.
    + by left.
  - apply wpg_ret. cbn [snd]. split; [|done].
    eapply pending_swap; [done|apply ls_Load|..|exact Hp2].
    + intros x. rewrite (ld_Load_Err _ _ _ Hload), !(idset_none _ Hnone). set_solver.
    + intros x. by rewrite (idset_none _ Hnone).
    + by right.
Qed.

(** *** reconcileLoad *)

Lemma r_ids_with_status f r :
  (∀ s, st_Programs (f s) = st_Programs s) → r_ids (with_status f r) = r_ids r.
Proof using Type. intros Hf. unfold r_ids, programs, status. cbn. by rewrite Hf. Qed.

(** If the check says no, nothing is recorded. *)
Lemma wlp_isLoaded S i r w :
  (i < length S)%nat → pending S i (r_ids r) w →
  wlp (app_isLoaded r) (λ b w', pending S i (r_ids r) w' ∧
    (b = false → Forall (λ x, x = None) (r_ids r))) w.
Proof.
  intros Hi Hp. pose proof (pending_whole S i _ w Hi Hp) as Hw.
  assert (Hl : ∀ x, x ∈ idset (r_ids r) → x ∈ dom (loaded w)) by (intros x; by apply (pending_loaded S i)).
  apply wpg_mono with (λ b w', (pending S i (r_ids r) w' ∧ True) ∧
    b = forallb (program_loaded (loaded w)) (programs r)).
  - apply wpg_and; [eapply wlp_keeps; [apply keeps_isLoaded; apply _|exact Hp]|].
    unfold wpg. destruct (wp_run (app_isLoaded r) (λ b w', b = forallb (program_loaded (loaded w))
      (programs r)) w) as (b & w' & -> & Hb); [|done]. apply (wp_isLoaded_loop ak). done.
  - intros b w' [[Hp' _] ->]. split; [done|]. intros Hb. destruct Hw as [Hsome|]; [exfalso|done].
    apply not_true_iff_false in Hb. apply Hb, forallb_True_iff. intros s Hs.
    rewrite Forall_forall in Hsome. destruct (Hsome (progId s)) as [id Hid].
    { apply list_elem_of_fmap. by exists s. }
    unfold program_loaded. unfold progId in Hid. rewrite Hid. apply bool_decide_eq_true_2.
    apply elem_of_dom, Hl, elem_of_idset, list_elem_of_fmap. by exists s.
Qed.

Lemma wlp_reconcileLoad S i r w :
  (i < length S)%nat → pending S i (r_ids r) w →
  wlp (reconcileLoad (app_methods ak) r) (λ res w', pending S i (r_ids res.2) w' ∧ same_rec r res.2 ∧
    (res.1 = None → app_isBeingDeleted (currentApp r) = true → Forall (λ x, x = None) (r_ids res.2))) w.
Proof.
  intros Hi Hp. unfold reconcileLoad.
  assert (Hset : ∀ st r', r_ids (setAppLoadStatus (app_methods ak) st r') = r_ids r').
  { intros st r'. by apply r_ids_with_status. }
  assert (Hun : ∀ st, wlp (r' ← app_unload ak r;
      mret (None (A := error), setAppLoadStatus (app_methods ak) st r'))
      (λ res w', pending S i (r_ids res.2) w' ∧ same_rec r res.2 ∧
        (res.1 = None → app_isBeingDeleted (currentApp r) = true → Forall (λ x, x = None) (r_ids res.2))) w).
  { intros st. apply wpg_bind. eapply wpg_mono; [by apply wlp_unload|].
    intros r' w' (Hp' & Hn & Hsame). apply wpg_ret. cbn [fst snd]. rewrite Hset. by split_and!. }
  destruct (isNodeSelected _ _) as [sel|e]; [|by apply wpg_ret].
  destruct (negb sel); [apply Hun|].
  destruct (isBeingDeleted _ r) eqn:Hd; [apply Hun|]. cbn in Hd.
  apply wpg_bind. unfold wpg at 1. change (validateProgramList (app_methods ak) r)
    with (app_validateProgramList ak r).
  destruct (app_validateProgramList ak r w) as [[err|why] w1] eqn:Hv; [|done].
  assert (w1 = w) as ->.
  { unfold app_validateProgramList in Hv. destruct (added_programs _ _ _ _). by injection Hv. }
  destruct err as [err|].
  { apply wpg_ret. cbn [fst snd]. rewrite Hset. by split_and!. }
  apply validateProgramList_passes in Hv as [Hnd Hnames].
  apply wpg_bind. eapply wpg_mono; [by apply wlp_isLoaded|]. intros [|] w2 [Hp2 Hno].
  { apply wpg_ret. cbn [fst snd]. rewrite Hset. split_and!; [done..|]. by rewrite Hd. }
  apply wpg_bind. eapply wpg_mono.
  { apply (wlp_load S i); [exact Hi|exact Hp2|by apply Hno|exact Hnd|exact Hnames]. }
  intros [[e|] r'] w3 [Hp3 Hsame]; apply wpg_ret; cbn [fst snd]; rewrite Hset;
    (split_and!; [done..|]); by rewrite ?Hd.
Qed.

End methods.
