(* ===== verification/LedgerTheorems.v ===== *)
(** The agent's Reconcile keeps the books of Ledger: the steps after the load, and the
    theorem. *)

From S2P Require Import Prelude ApiTypes Constants Bpfman Selectors Links Kinds ClKinds NsKinds.
From S2P Require Import KindSpecs Application Apps AppSpecs Keeps Typing Ledger.
From stdpp Require Import options.
#[local] Set Default Proof Using "Type*".

Section reconcile.
Context {W P PS : Type} `{!AgentEnv W, !BpfmanLaws W, !LedgerDaemon W, !LabelLib,
  !BytecodeLib W, !ApplicationAPI W P PS, !ProgramState PS, !ProgramStateLaws PS, !EqDecision PS}
  (ak : AppKind W P PS) `{!AppKindLaws ak, !TypedScope ak, !LedgerScope ak}
  `{!LedgerStore W P PS} (F : gset Z).
Implicit Types (r : AppRec P PS) (w : W) (S : list (AppState PS)).
Abbreviation any := (λ _, True).
Abbreviation pending := (pending F).
Abbreviation books := (books F).

(** *** Steps that neither load nor write *)

Lemma same_rec_refl r : same_rec r r.
Proof using Type. done. Qed.

Lemma same_rec_trans r1 r2 r3 : same_rec r1 r2 → same_rec r2 r3 → same_rec r1 r3.
Proof using Type. unfold same_rec. intros (? & ? & ?) (? & ? & ?). split_and!; congruence. Qed.

Lemma wlp_updateCondition S i t r w :
  pending S i (r_ids r) w →
  wlp (updateBpfAppStateCondition (app_methods ak) t r)
    (λ res w', pending S i (r_ids res.2) w' ∧ r_ids res.2 = r_ids r ∧ same_rec r res.2) w.
Proof.
  intros Hp. set (J r' := r_ids r' = r_ids r ∧ same_rec r r').
  assert (HJ : stable J).
  { intros f r' Hf [Hi Hs]. split; [by rewrite r_ids_with_status|]. by eapply same_rec_trans. }
  eapply wpg_mono; [eapply wlp_keeps; [|exact Hp]|].
  - apply (keeps_updateCondition ak (pending S i (r_ids r)) J); first [apply _|exact HJ|by split].
  - intros res w' [Hp' [Hi Hs]]. by rewrite Hi.
Qed.

Lemma keeps_reconcile_ids S i ids spec r st :
  keeps (pending S i ids) (reconcile_programs ak spec r st)
    (λ res, r_ids res.2 = r_ids r ∧ same_rec r res.2).
Proof.
  revert r st. induction spec as [|prog spec IH]; intros r st; cbn; [by apply keeps_ret|].
  apply keeps_then; [eapply keeps_any, keeps_getProgState|]. intros [j|e]; [|by apply IH].
  eapply keeps_bind; [apply keeps_deref_eq|].
  intros s Hs. destruct (ak_getProgramReconciler ak prog s) as [rec|e] eqn:Hrec; [|by apply IH].
  eapply keeps_bind; [apply (keeps_prog (pending S i ids) prog s rec (progRec r prog s) _ Hrec)|].
  intros [err rec'] (_ & _ & Hid). cbn in Hid. eapply keeps_mono; [apply IH|].
  intros res [Hids Hsame]. rewrite Hids. split; [|by eapply same_rec_trans; [|exact Hsame]].
  unfold r_ids. rewrite programs_set_programs. unfold prog_ids. rewrite list_fmap_insert, Hid.
  apply list_insert_id. by rewrite list_lookup_fmap, Hs.
Qed.

Lemma frozen_now w : frozen (dom (loaded w)) (states w) w.
Proof using Type. done. Qed.

(** The state objects of an application on this node. *)
Definition objects_of (rc : ReconcilerCommon) (app : Application P) S : list (AppState PS) :=
  filter (listed (ak_namespace ak app)
    (<[BpfAppStateOwner := om_Name (app_meta app)]> {[K8sHostLabel := rc_NodeName rc]})) S.

(** What getBpfAppState says of them. *)
Definition shows (l : list (AppState PS)) (res : result (option (AppState PS))) : Prop :=
  match res with Ok (Some an) => l = [an] | Ok None => l = [] | Err _ => True end.

Lemma frozen_getBpfAppState D S rc app :
  keeps (frozen D S) (getBpfAppState ak rc app) (shows (objects_of rc app S)).
Proof using LedgerStore0.
  unfold getBpfAppState.
  eapply (keeps_bind _ _ _ (λ res, ∀ ans, res = Ok ans → ans = objects_of rc app S)).
  - apply keeps_lift. intros w Hw. apply (ls_ListStates D S _ _ w Hw).
  - intros [[|an [|]]|e] Hans; apply keeps_ret; [| |done|done]; symmetry; by apply Hans.
Qed.

Lemma frozen_poll_state {A} D S rc app n i (f : result (option (AppState PS)) → option A) :
  keeps (frozen D S) (poll n i (res ← getBpfAppState ak rc app; mret (f res)))
    (λ res, ∀ a, res.1 = Some a → ∃ x, f x = Some a ∧ shows (objects_of rc app S) x).
Proof using LedgerStore0.
  apply keeps_poll; [apply _|]. eapply keeps_bind; [apply frozen_getBpfAppState|].
  intros x Hx. apply keeps_ret. intros a Ha. eauto.
Qed.

(** *** Writes *)

Lemma unique_key S i j an an' :
  NoDup (obj_key <$> S) → S !! i = Some an → S !! j = Some an' → obj_key an = obj_key an' → i = j.
Proof using Type.
  intros Hnd Hi Hj Hk. eapply (NoDup_lookup _ _ _ (obj_key an) Hnd); rewrite list_lookup_fmap.
  - by rewrite Hi.
  - by rewrite Hj, Hk.
Qed.

Lemma nodup_replace S i old new :
  NoDup (obj_key <$> S) → S !! i = Some old → obj_key new = obj_key old →
  NoDup (obj_key <$> <[i := new]> S).
Proof using Type.
  intros Hnd Hi Hk. rewrite list_fmap_insert, Hk, list_insert_id; [done|].
  by rewrite list_lookup_fmap, Hi.
Qed.

(** The reconciler's object in place of the one that is stored. *)
Lemma books_replaced S i old new ids w w' :
  NoDup (obj_key <$> S) → S !! i = Some old → obj_key new = obj_key old →
  prog_ids (state_programs new) = ids → pending S i ids w →
  frozen (dom (loaded w)) (<[i := new]> S) w' → books w'.
Proof using Type.
  intros Hnd Hi Hk Hids [_ HL] Hf. apply (books_frozen F _ _ _ Hf).
  split; [by eapply nodup_replace|]. unfold records_of. rewrite list_fmap_insert, Hids. exact HL.
Qed.

Lemma wlp_updateStatus S i original r w :
  reconciles_at S i r → pending S i (r_ids r) w →
  wlp (updateBpfAppStateStatus ak original r) (λ res w',
    res.1.2 = None → (res.1.1 = true ∧ books w') ∨
      (res.1.1 = false ∧ res.2 = r ∧ w' = w ∧ ∃ o, original = Some o ∧ as_Status o = status r)) w.
Proof using LedgerStore0.
  intros (Hnd & old & Hi & Hold) Hp. unfold updateBpfAppStateStatus.
  destruct (match original with Some _ => _ | None => _ end) eqn:Hun.
  { apply wpg_ret. intros _. right. destruct original as [o|]; [|done].
    apply bool_decide_eq_true in Hun. split_and!; eauto. }
  clear Hun. set (r1 := with_status _ r).
  assert (Hr1 : r_ids r1 = r_ids r) by by apply r_ids_with_status.
  apply wpg_bind, wpg_lift. destruct Hp as [HS HL] eqn:Hpe. clear Hpe.
  pose proof (ls_StatusUpdate (dom (loaded w)) S (currentAppState r1) w) as Hup.
  specialize (Hup (conj eq_refl HS)).
  destruct (api_StatusUpdate (currentAppState r1) w).1 as [an|e]; [|by apply wpg_ret].
  destruct Hup as (S' & Hf & j & old' & new & Hj & Hk & Hsame & [-> Hst] & ->).
  assert (j = i) as ->.
  { eapply unique_key; [exact Hnd|exact Hj|exact Hi|]. rewrite Hk, Hold. done. }
  rewrite Hj in Hi. injection Hi as ->. unfold waitForBpfAppStateStatusUpdate.
  apply wpg_bind, wpg_bind. eapply wpg_mono; [eapply wlp_keeps; [apply frozen_poll_state|exact Hf]|].
  intros [found n] w2 [Hf2 _]. apply wpg_ret.
  assert (books w2).
  { eapply (books_replaced S i old an (r_ids r)); [done..| |split; [exact HS|exact HL]|exact Hf2].
    rewrite Hst. exact Hr1. }
  destruct found; apply wpg_ret; [|done]. intros _. by left.
Qed.

(** The last finalizer of an object that records nothing. *)
Lemma wlp_removeFinalizer S i fin r w :
  books w → states w = S → reconciles_at S i r →
  (∃ o, S !! i = Some o ∧ as_Status o = status r) → Forall (λ x, x = None) (r_ids r) →
  wlp (removeFinalizer fin r) (λ _ w', books w') w.
Proof using LedgerStore0.
  intros Hb HS (Hnd & old & Hi & Hold) (o & Ho & Hst) Hno. rewrite Hi in Ho. injection Ho as <-.
  unfold removeFinalizer, RemoveFinalizer. destruct (bool_decide _); [|by apply wpg_ret].
  apply wpg_bind, wpg_lift, wpg_ret. set (an := mkAppState _ _).
  destruct (ls_Update (dom (loaded w)) S an w) as (S' & Hf & Hcase); [by split|].
  assert (Hp : pending S i (prog_ids (state_programs old)) w) by by apply pending_start.
  assert (Hnone : Forall (λ x, x = None) (prog_ids (state_programs old))).
  { unfold state_programs. by rewrite Hst. }
  destruct Hcase as [->|[(j & old' & new & Hj & Hk & Hsame & Hnew & ->)
                        |(j & old' & Hj & Hk & ->)]].
  - apply (books_frozen F _ _ _ Hf). destruct Hb as [_ HL]. rewrite HS in HL. by split.
  - assert (j = i) as -> by (eapply unique_key; [exact Hnd|exact Hj|exact Hi|by rewrite Hk, Hold]).
    rewrite Hj in Hi. injection Hi as ->.
    eapply (books_replaced S i old new); [done..| |exact Hp|exact Hf].
    unfold state_programs. destruct Hnew as [-> | ->]; [|done]. unfold an. cbn. by rewrite Hst.
  - assert (j = i) as -> by (eapply unique_key; [exact Hnd|exact Hj|exact Hi|by rewrite Hk, Hold]).
    apply (books_frozen F _ _ _ Hf). destruct Hb as [_ HL]. rewrite HS in HL. split.
    + rewrite list_fmap_delete. eapply sublist_NoDup; [exact Hnd|apply sublist_delete].
    + assert (Hd : records_of (delete i S) = delete i (records_of S)) by apply list_fmap_delete.
      rewrite Hd. eapply ledger_delete; [|exact Hnone|exact HL].
      unfold records_of. by rewrite list_lookup_fmap, Hi.
Qed.

(** *** The first state object of an application *)

Lemma wlp_init_programs spec ps (I : W → Prop) :
  Forall (λ x, x = None) (prog_ids ps) →
  keeps I (init_programs ak spec ps) (λ res, Forall (λ x, x = None) (prog_ids res.2)).
Proof using TypedScope0.
  revert ps. induction spec as [|prog spec IH]; intros ps Hps; cbn; [by apply keeps_ret|].
  apply keeps_then; [eapply keeps_any, keeps_getProgState|]. intros [i|e]; [by apply keeps_ret|].
  apply (keeps_bind _ _ _ (λ res, ∀ s, res = Ok s → progId s = None)).
  - intros w Hw. destruct (keeps_newProgState I prog w Hw) as [Hw' _]. split; [done|].
    destruct (ak_newProgState ak prog w) as [[[s|e']|why] w'] eqn:Hrun; cbn; try done.
    intros s' [= <-]. unfold progId. by rewrite (proj1 (law_newProgState _ _ _ _ Hrun)).
  - intros [s|e'] Hs; [|by apply keeps_ret]. apply IH. unfold prog_ids. rewrite fmap_app.
    apply Forall_app. split; [done|]. constructor; [by apply Hs|done].
Qed.

Lemma wlp_initStatus S i r w :
  Forall (λ x, x = None) (r_ids r) → (i < length S)%nat → pending S i (r_ids r) w →
  wlp (initBpfAppStateStatus ak r) (λ res w',
    pending S i (r_ids res.2) w' ∧ same_rec r res.2) w.
Proof.
  intros Hnone Hi Hp. unfold initBpfAppStateStatus. set (r0 := with_status _ r).
  assert (Hswap : ∀ r', Forall (λ x, x = None) (r_ids r') →
    ∀ w', pending S i (r_ids r) w' → pending S i (r_ids r') w').
  { intros r' Hn w' Hp'. pose proof (idset_none _ Hn) as Hz. pose proof (idset_none _ Hnone) as Hz'.
    eapply pending_swap; [done|done|..|by right|exact Hp']; rewrite Hz, ?Hz'; set_solver. }
  apply wpg_bind. eapply wpg_mono; [eapply (wlp_keeps (pending S i (r_ids r)) _
    (λ res, Forall (λ x, x = None) (r_ids res.2) ∧ same_rec r res.2)); [|exact Hp]|].
  { unfold initializeNodeProgramList. change (programs r0) with (@nil PS). cbn.
    eapply keeps_bind; [by apply wlp_init_programs|]. intros [err ps] Hps. apply keeps_ret.
    split; [|done]. exact Hps. }
  intros [[e|] r1] w1 [Hp1 [Hn1 Hs1]]; cbn in Hn1, Hs1.
  { apply wpg_ret. split; [by apply (Hswap r1)|done]. }
  apply wpg_bind. eapply wpg_mono; [by apply (wlp_updateCondition S i), Hswap|].
  intros [b r2] w2 (Hp2 & Hi2 & Hs2). apply wpg_ret. split; [done|]. by eapply same_rec_trans.
Qed.

Lemma wlp_create S rc app w :
  books w → states w = S → objects_of rc app S = [] →
  wlp (createBpfAppState ak rc app) (λ res w', res ≠ Ok retryDurationAgent → books w') w.
Proof.
  intros Hb HS Hno. destruct Hb as [Hnd HL] eqn:Hbe. clear Hbe. rewrite HS in Hnd, HL.
  unfold createBpfAppState, initBpfAppState, generateUniqueName.
  apply wpg_bind, wpg_bind, wpg_bind, wpg_lift, wpg_ret, wpg_ret. set (an0 := mkAppState _ _).
  assert (Hf : frozen (dom (loaded w)) S (uuid_New w).2) by by apply u_uuid.
  destruct (api_SetControllerReference app an0) as [an|e] eqn:Hown; [|by apply wpg_ret].
  apply ls_owner in Hown as [[Hk Hl] Hst]. unfold createInitialBpfAppState.
  apply wpg_bind, wpg_bind, wpg_lift.
  pose proof (ls_Create (dom (loaded w)) S an _ Hf) as Hcr. cbn [currentAppState].
  destruct (api_Create an _).1 as [new|e]; [|by apply wpg_ret, wpg_ret].
  destruct Hcr as (Hf1 & [Hk1 Hl1] & Hfresh & Hps).
  assert (Hprogs : state_programs new = []).
  { destruct Hps as [-> | ->]; [|done]. unfold state_programs. by rewrite Hst. }
  assert (Hlisted : objects_of rc app (S ++ [new]) = [new]).
  { unfold objects_of. rewrite filter_app, filter_cons_True.
    - unfold objects_of in Hno. by rewrite Hno.
    - unfold listed. unfold obj_key in Hk, Hk1. injection Hk1 as -> _. injection Hk as -> _.
      rewrite Hl1, Hl. split; [reflexivity|]. cbn. by destruct (ak_namespace ak app). }
  unfold waitForBpfAppStateSpecUpdate. apply wpg_bind.
  eapply wpg_mono; [eapply wlp_keeps; [apply frozen_poll_state|exact Hf1]|].
  intros [[an'|] n] w2 [Hf2 Hfound]; apply wpg_ret; [|by apply wpg_ret].
  assert (an' = new) as ->.
  { destruct (Hfound an' eq_refl) as ([[x|]|] & Hx & Hs); [|done..]. injection Hx as <-.
    change (objects_of rc app (S ++ [new]) = [x]) in Hs. rewrite Hlisted in Hs. by injection Hs. }
  set (r := with_appState new _).
  assert (Hat : reconciles_at (S ++ [new]) (length S) r).
  { split.
    - rewrite fmap_app. apply NoDup_app. split_and!; [done| |apply NoDup_singleton].
      intros k Hin ->%list_elem_of_singleton. by apply Hfresh.
    - exists new. split; [by apply list_lookup_middle|done]. }
  assert (Hlen : (length S < length (S ++ [new]))%nat) by (rewrite length_app; cbn; lia).
  assert (Hr : r_ids r = []) by (unfold r_ids, programs, status; cbn; unfold state_programs in Hprogs;
    by rewrite Hprogs).
  assert (Hp : pending (S ++ [new]) (length S) (r_ids r) w2).
  { rewrite Hr. replace [] with (prog_ids (state_programs new)) by by rewrite Hprogs.
    apply pending_start; [|apply Hf2|by apply list_lookup_middle].
    apply (books_frozen F _ _ _ Hf2). split; [apply Hat|]. unfold records_of. rewrite fmap_app.
    apply ledger_snoc; [by rewrite Hprogs; constructor|exact HL]. }
  apply wpg_bind. eapply wpg_mono.
  { apply (wlp_initStatus (S ++ [new]) (length S)); [by rewrite Hr; constructor|done|done]. }
  intros [[e|] r3] w3 [Hp3 [Hs3 _]]; [by apply wpg_ret|]. cbn in Hp3, Hs3. apply wpg_bind.
  eapply wpg_mono; [apply (wlp_updateStatus (S ++ [new]) (length S))|].
  - destruct Hat as [Hnd' (old & Hold & Hkey)]. split; [done|]. exists old. split; [done|].
    rewrite Hkey. unfold obj_key. by rewrite Hs3.
  - exact Hp3.
  - intros [[b [e|]] r4] w4 Hres; apply wpg_ret; [done|]. intros _.
    destruct (Hres eq_refl) as [[_ Hb']|(_ & _ & _ & o & ? & _)]; done.
Qed.

(** *** Reconcile *)

Abbreviation outcome res := (res ≠ Some (Ok retryDurationAgent)).

Lemma wlp_existing S i r w :
  books w → states w = S → S !! i = Some (currentAppState r) →
  wlp (reconcile_existing ak r) (λ res w', outcome res → books w') w.
Proof.
  intros Hb HS Hi. pose proof Hb as [Hnd _]. rewrite HS in Hnd.
  assert (Hlen : (i < length S)%nat) by by eapply lookup_lt_Some.
  assert (Hat : ∀ r', same_rec r r' → reconciles_at S i r').
  { intros r' [Hm _]. split; [done|]. eexists. split; [exact Hi|]. unfold obj_key. by rewrite Hm. }
  assert (Hp : pending S i (r_ids r) w) by by apply pending_start.
  unfold reconcile_existing. apply wpg_bind.
  eapply wpg_mono; [by apply (wlp_reconcileLoad ak F S i)|].
  intros [err r1] w1 (Hp1 & Hs1 & Hdel1). cbn in Hp1, Hs1, Hdel1. destruct err as [e|].
  - apply wpg_bind. eapply wpg_mono; [by apply (wlp_updateCondition S i)|].
    intros [b r2] w2 (Hp2 & Hi2 & Hs2). cbn in Hp2, Hs2. apply wpg_bind.
    eapply wpg_mono; [apply (wlp_updateStatus S i); [|exact Hp2]|].
    { apply Hat. by eapply same_rec_trans. }
    intros [[ch [err|]] r3] w3 Hres; [by apply wpg_ret|].
    destruct (Hres eq_refl) as [[_ Hb']|(_ & _ & _ & o & ? & _)]; [|done].
    destruct ch; by apply wpg_ret.
  - specialize (Hdel1 eq_refl). apply wpg_bind.
    apply wpg_mono with (λ res w', pending S i (r_ids res.2) w' ∧ same_rec r res.2 ∧
      (app_isBeingDeleted (currentApp res.2) = true → Forall (λ x, x = None) (r_ids res.2))).
    { assert (Happ : currentApp r1 = currentApp r) by apply Hs1.
      rewrite Happ. destruct (app_isBeingDeleted (currentApp r)) eqn:Hdel.
      - apply wpg_ret. split_and!; [done|apply Hs1..|]. intros _. by apply Hdel1.
      - eapply wpg_mono; [eapply wlp_keeps; [apply keeps_reconcile_ids|exact Hp1]|].
        intros res w2 [Hp2 [Hids Hs2]]. rewrite Hids. split; [done|].
        split; [by eapply same_rec_trans|]. destruct Hs2 as (_ & -> & _). by rewrite Happ, Hdel. }
    intros [st r2] w2 (Hp2 & Hs2 & Hdel2). cbn in Hp2, Hs2, Hdel2. apply wpg_bind.
    eapply wpg_mono; [by apply (wlp_updateCondition S i)|].
    intros [b r3] w3 (Hp3 & Hi3 & Hs3). cbn in Hp3, Hi3, Hs3.
    assert (Hat3 : reconciles_at S i r3) by (apply Hat; by eapply same_rec_trans).
    apply wpg_bind. eapply wpg_mono; [by apply (wlp_updateStatus S i)|].
    intros [[ch [err|]] r4] w4 Hres; [by apply wpg_ret|]. specialize (Hres eq_refl).
    cbn in Hres. destruct Hres as [[-> Hb']|(-> & -> & -> & o & [= <-] & Hst)].
    + by apply wpg_ret.
    + assert (Hb3 : books w3).
      { eapply (pending_books F S i (currentAppState r)); [done..|].
        unfold state_programs. by rewrite Hst. }
      destruct (app_isBeingDeleted (currentApp r3)) eqn:Hdel; [|by apply wpg_ret]. cbn.
      destruct (negb _); [|by apply wpg_ret]. apply wpg_bind.
      eapply wpg_mono; [eapply (wlp_removeFinalizer S i); [exact Hb3|apply Hp3|exact Hat3|..]|].
      * by exists (currentAppState r).
      * rewrite Hi3. apply Hdel2. by destruct Hs3 as (_ & <- & _).
      * intros [|] w5 Hb5; by apply wpg_ret.
Qed.

Lemma wlp_app rc app w :
  books w → wlp (reconcile_app ak rc app) (λ res w', outcome res → books w') w.
Proof.
  intros Hb. unfold reconcile_app. apply wpg_bind.
  eapply wpg_mono; [eapply wlp_keeps; [apply frozen_getBpfAppState|apply (frozen_now w)]|].
  intros res w1 [Hf Hs]. assert (Hb1 : books w1) by by apply (books_frozen F _ _ _ Hf).
  destruct res as [[an|]|e]; [| |by apply wpg_ret].
  - assert (Hin : an ∈ states w).
    { assert (an ∈ objects_of rc app (states w)) as Han by (rewrite Hs; left).
      by apply list_elem_of_filter in Han as [_ ?]. }
    apply list_elem_of_lookup in Hin as [i Hi].
    by apply (wlp_existing (states w) i); [|apply Hf|].
  - destruct (app_isBeingDeleted app); [by apply wpg_ret|]. apply wpg_bind.
    eapply wpg_mono; [apply (wlp_create (states w)); [done|apply Hf|exact Hs]|].
    intros res w2 Hres. apply wpg_ret. intros Hne. apply Hres. congruence.
Qed.

Lemma wlp_apps rc apps w :
  books w → wlp (reconcile_apps ak rc apps) (λ res w', res ≠ Ok retryDurationAgent → books w') w.
Proof.
  revert w. induction apps as [|app apps IH]; intros w Hb; cbn [reconcile_apps];
    [by apply wpg_ret|]. apply wpg_bind. eapply wpg_mono; [by apply wlp_app|]. intros [res|] w1 Hres.
  - apply wpg_ret. intros Hne. apply Hres. congruence.
  - by apply IH, Hres.
Qed.

Lemma wlp_Reconcile NodeName req w :
  books w → wlp (Reconcile ak NodeName req) (λ res w', res ≠ Ok retryDurationAgent → books w') w.
Proof.
  intros Hb. assert (Hin : ∀ w1, frozen (dom (loaded w)) (states w) w1 → books w1).
  { intros w1 Hf. by apply (books_frozen F _ _ _ Hf). }
  assert (H0 : frozen (dom (loaded w)) (states w) w) by apply frozen_now.
  unfold Reconcile. apply wpg_bind, wpg_lift, wpg_bind, wpg_lift.
  assert (H1 : frozen (dom (loaded w)) (states w) (api_GetNode (P := P) (PS := PS) NodeName (NetNs_Reset w).2).2)
    by by apply reads_GetNode, u_Reset.
  destruct (api_GetNode _ _).1 as [node|e]; [|apply wpg_ret; auto].
  apply wpg_bind, wpg_lift. pose proof (ls_ListApps _ _ _ H1) as H2.
  destruct (api_ListApps _).1 as [apps|e]; [|apply wpg_ret; auto]. by apply wlp_apps, Hin.
Qed.

End reconcile.

(** ** The two scopes *)

Section scopes.
Context {W : Type} `{!AgentEnv W, !LabelLib, !BytecodeLib W,
  !ApplicationAPI W ClBpfApplicationProgram ClBpfApplicationProgramState,
  !ApplicationAPI W BpfApplicationProgram BpfApplicationProgramState}.

(** The load information of every kind is under the name of the program. *)
Ltac info_tac :=
  intros Hrec <- Hrun; repeat case_decide; try discriminate Hrec; injection Hrec as <-;
  revert Hrun; cbn; unfold ClXdp.getProgramLoadInfo, ClTc.getProgramLoadInfo,
    ClTcx.getProgramLoadInfo, ClFentry.getProgramLoadInfo, ClFexit.getProgramLoadInfo,
    ClKprobe.getProgramLoadInfo, ClKretprobe.getProgramLoadInfo, ClUprobe.getProgramLoadInfo,
    ClTracepoint.getProgramLoadInfo, NsXdp.getProgramLoadInfo, NsTc.getProgramLoadInfo,
    NsTcx.getProgramLoadInfo, NsUprobe.getProgramLoadInfo;
  repeat match goal with |- context [deref ?p] => destruct p; [cbn|done] end;
  by intros [= <- _].

Ltac delete_tac :=
  repeat (case_decide; [subst; match goal with |- context [deref ?p] => destruct p as [[]|] end;
    [by intros [= <- <-]|done]|]); by intros [= <- <-].

#[export] Instance ClApp_ledger : LedgerScope (W := W) ClApp.app_kind.
Proof using Type.
  split.
  - intros prog s rec pr w i w'. cbn. unfold ClApp.getProgramReconciler. info_tac.
  - intros [] s' w w'. unfold ak_deleteLinks, ClApp.app_kind, ClApp.deleteLinks. cbn. delete_tac.
Qed.

#[export] Instance NsApp_ledger : LedgerScope (W := W) NsApp.app_kind.
Proof using Type.
  split.
  - intros prog s rec pr w i w'. cbn. unfold NsApp.getProgramReconciler. info_tac.
  - intros [] s' w w'. unfold ak_deleteLinks, NsApp.app_kind, NsApp.deleteLinks. cbn. delete_tac.
Qed.
End scopes.
