(* ===== verification/Auth.v ===== *)
(** The credentials of an image (controllers/bpfman-agent/internal/auth.go): the docker
    config in a pull secret, decoded the way encoding/json decodes it, with the user
    and the password in its auth fields; and what GetBytecode makes of them. The
    syntax of JSON is a parameter, the decoding of a syntax tree is modelled. *)

From Stdlib Require Import Ascii.
From S2P Require Import Prelude ApiTypes Bpfman Application GoStrings Base64.
From stdpp Require Import options.

(** ** Types *)

Record ContainerConfigEntry := mkContainerConfigEntry {
  Username : string;
  Password : string;
  Email : string;
}.

Definition zeroEntry : ContainerConfigEntry := mkContainerConfigEntry "" "" "".

(** [None] is the nil map. *)
Definition ContainerConfig : Type := option (gmap string ContainerConfigEntry).

Record ContainerConfigEntryWithAuth := mkContainerConfigEntryWithAuth {
  wa_Username : string;
  wa_Password : string;
  wa_Email : string;
  wa_Auth : string;
}.

Definition zeroWithAuth : ContainerConfigEntryWithAuth :=
  mkContainerConfigEntryWithAuth "" "" "" "".

Record ContainerConfigJSON := mkContainerConfigJSON {
  Auths : ContainerConfig;
  HTTPHeaders : option (gmap string string);
}.

(** ** encoding/json *)

(** A JSON document; the members of an object in the order of the text. *)
Inductive json :=
  | JNull
  | JBool (b : bool)
  | JNumber (text : string)
  | JString (s : string)
  | JArray (l : list json)
  | JObject (members : list (string * json)).

(** The parser, the folding of names (case and some Unicode variants), and the texts of
    the errors of a value of the wrong type for a Go type, with the context that the
    decoder around adds. *)
Class JSONSyntax := {
  json_parse : string → result json;
  fold_name : string → string;
  json_type_error : json → string → error;
  add_error_context : error → error;
}.

(** The first error that the decoder has come across. *)
Definition save (saved : option error) (err : error) : option error :=
  match saved with None => Some err | Some _ => saved end.

(** A string variable that holds [old]. *)
Definition decode_string (old : string) (saved : option error) `{!JSONSyntax} (v : json)
    : string * option error :=
  match v with
  | JString s => (s, saved)
  | JNull => (old, saved)
  | _ => (old, save saved (json_type_error v "string"))
  end.

(** The field of a struct that a member is decoded to: the one of that name, or one
    whose name it is up to folding. *)
Definition field_of `{!JSONSyntax} (names : list string) (key : string) : option string :=
  if decide (key ∈ names) then Some key
  else List.find (λ n, bool_decide (fold_name n = fold_name key)) names.

Section auth.
Context `{!JSONSyntax}.

(** *** The fields of ContainerConfigEntryWithAuth *)

Definition set_with_auth (field : string) (v : string → string)
    (t : ContainerConfigEntryWithAuth) : ContainerConfigEntryWithAuth :=
  let '(mkContainerConfigEntryWithAuth u p e a) := t in
  if decide (field = "username") then mkContainerConfigEntryWithAuth (v u) p e a
  else if decide (field = "password") then mkContainerConfigEntryWithAuth u (v p) e a
  else if decide (field = "email") then mkContainerConfigEntryWithAuth u p (v e) a
  else mkContainerConfigEntryWithAuth u p e (v a).

Fixpoint decode_with_auth_members (members : list (string * json))
    (tmp : ContainerConfigEntryWithAuth) (saved : option error)
    : ContainerConfigEntryWithAuth * option error :=
  match members with
  | [] => (tmp, saved)
  | (key, v) :: members' =>
      match field_of ["username"; "password"; "email"; "auth"] key with
      | None => decode_with_auth_members members' tmp saved
      | Some f =>
          decode_with_auth_members members'
            (set_with_auth f (λ old, (decode_string old saved v).1) tmp)
            (decode_string "" saved v).2
      end
  end.

(** json.Unmarshal into a zero ContainerConfigEntryWithAuth. *)
Definition unmarshal_with_auth (data : json) : result ContainerConfigEntryWithAuth :=
  match data with
  | JNull => Ok zeroWithAuth
  | JObject members =>
      match decode_with_auth_members members zeroWithAuth None with
      | (tmp, None) => Ok tmp
      | (_, Some err) => Err err
      end
  | _ => Err (json_type_error data "internal.ContainerConfigEntryWithAuth")
  end.

(** ** auth.go *)

Definition decodeContainerConfigFieldAuth (field : string) : result (string * string) :=
  let decoded :=
    if has_suffix [pad_char] (trim_space (to_bytes field))
    then StdEncoding_DecodeString (to_bytes field)
    else RawStdEncoding_DecodeString (to_bytes field) in
  match decoded with
  | Err err => Err err
  | Ok decoded =>
      match split_n2 [":"%char] decoded with
      | [username; password] => Ok (of_bytes username, of_bytes password)
      | _ => Err "unable to parse auth field, must be formatted as base64(username:password)"
      end
  end.

(** ContainerConfigEntry.UnmarshalJSON on an entry [ident]. *)
Definition UnmarshalJSON (ident : ContainerConfigEntry) (data : json)
    : result ContainerConfigEntry :=
  match unmarshal_with_auth data with
  | Err err => Err err
  | Ok tmp =>
      if decide (String.length (wa_Auth tmp) = 0%nat) then Ok ident
      else
        match decodeContainerConfigFieldAuth (wa_Auth tmp) with
        | Err err => Err err
        | Ok (username, password) =>
            Ok (mkContainerConfigEntry username password (Email ident))
        end
  end.

(** *** The maps *)

(** The entries of an object, into the map [m]; an error of UnmarshalJSON ends it. *)
Fixpoint decode_entries (members : list (string * json))
    (m : gmap string ContainerConfigEntry) : result (gmap string ContainerConfigEntry) :=
  match members with
  | [] => Ok m
  | (key, v) :: members' =>
      match UnmarshalJSON zeroEntry v with
      | Err err => Err (add_error_context err)
      | Ok entry => decode_entries members' (<[key := entry]> m)
      end
  end.

(** A variable of type ContainerConfig that holds [old]: the error ends the decoding,
    or is saved. *)
Definition decode_config (old : ContainerConfig) (saved : option error) (v : json)
    : result (ContainerConfig * option error) :=
  match v with
  | JNull => Ok (None, saved)
  | JObject members =>
      match decode_entries members (default ∅ old) with
      | Ok m => Ok (Some m, saved)
      | Err err => Err err
      end
  | _ => Ok (old, save saved (json_type_error v "internal.ContainerConfig"))
  end.

Fixpoint decode_headers (members : list (string * json)) (m : gmap string string)
    (saved : option error) : gmap string string * option error :=
  match members with
  | [] => (m, saved)
  | (key, v) :: members' =>
      let '(s, saved) := decode_string "" saved v in decode_headers members' (<[key := s]> m) saved
  end.

Fixpoint decode_config_json (members : list (string * json)) (c : ContainerConfigJSON)
    (saved : option error) : result (ContainerConfigJSON * option error) :=
  match members with
  | [] => Ok (c, saved)
  | (key, v) :: members' =>
      match field_of ["auths"; "HttpHeaders"] key with
      | None => decode_config_json members' c saved
      | Some f =>
          if decide (f = "auths") then
            match decode_config (Auths c) saved v with
            | Err err => Err err
            | Ok (a, saved) =>
                decode_config_json members' (mkContainerConfigJSON a (HTTPHeaders c)) saved
            end
          else
            let '(h, saved) :=
              match v with
              | JNull => (None, saved)
              | JObject hs =>
                  let '(m, saved) := decode_headers hs (default ∅ (HTTPHeaders c)) saved in
                  (Some m, saved)
              | _ => (HTTPHeaders c, save saved (json_type_error v "map[string]string"))
              end in
            decode_config_json members' (mkContainerConfigJSON (Auths c) h) saved
      end
  end.

(** json.Unmarshal into a zero ContainerConfigJSON and into an empty ContainerConfig:
    the [Auths] and the map. *)
Definition unmarshal_config_json (data : string) : result ContainerConfig :=
  match json_parse data with
  | Err err => Err err
  | Ok JNull => Ok None
  | Ok (JObject members) =>
      match decode_config_json members (mkContainerConfigJSON None None) None with
      | Ok (c, None) => Ok (Auths c)
      | Ok (_, Some err) => Err err
      | Err err => Err err
      end
  | Ok v => Err (json_type_error v "internal.ContainerConfigJSON")
  end.

Definition unmarshal_config (data : string) : result ContainerConfig :=
  match json_parse data with
  | Err err => Err err
  | Ok v =>
      match decode_config (Some ∅) None v with
      | Ok (c, None) => Ok c
      | Ok (_, Some err) => Err err
      | Err err => Err err
      end
  end.

(** *** ParseAuth *)

Record Secret := mkSecret {
  sec_Type : string;
  sec_Data : gmap string string;
}.

Class SecretAPI (W : Type) := { Secret_Get : string → string → W → result Secret * W }.

Definition DockerConfigJsonKey : string := ".dockerconfigjson".
Definition DockerConfigKey : string := ".dockercfg".
Definition SecretTypeDockerConfigJson : string := "kubernetes.io/dockerconfigjson".
Definition SecretTypeDockercfg : string := "kubernetes.io/dockercfg".

(** The data of a key, if it exists and is not empty. *)
Definition non_empty (s : option string) : option string :=
  d ← s; if decide (0 < String.length d)%nat then Some d else None.

(** The credentials that [&creds] points to; the pointer is never nil. *)
Definition parse_secret (imageSecret : Secret) : result ContainerConfig :=
  let dockercfg :=
    match non_empty (sec_Data imageSecret !! DockerConfigKey) with
    | Some data =>
        if decide (sec_Type imageSecret = SecretTypeDockercfg) then unmarshal_config data
        else Ok None
    | None => Ok None
    end in
  match non_empty (sec_Data imageSecret !! DockerConfigJsonKey) with
  | Some data =>
      if decide (sec_Type imageSecret = SecretTypeDockerConfigJson) then unmarshal_config_json data
      else dockercfg
  | None => dockercfg
  end.

Definition auth_ParseAuth {W} `{!SecretAPI W} (secretName secretNamespace : string) (w : W)
    : result ContainerConfig * W :=
  match Secret_Get secretNamespace secretName w with
  | (Err err, w') => (Err ("failed image auth secret " +:+ secretName +:+ ": " +:+ err), w')
  | (Ok imageSecret, w') => (parse_secret imageSecret, w')
  end.

(** As the [ParseAuth] of GetBytecode. *)
Definition auth_BytecodeLib {W} `{!SecretAPI W} (domain : string → result string)
    : BytecodeLib W := {|
  reference_Domain := domain;
  ParseAuth name namespace w :=
    match auth_ParseAuth name namespace w with
    | (Ok creds, w') =>
        (Ok (Some ((λ e, (Username e, Password e)) <$> default ∅ creds)), w')
    | (Err err, w') => (Err err, w')
    end;
|}.
End auth.
