(* ===== verification/AuthSpecs.v ===== *)
(** The auth field of a docker config comes back from its encoding, and the user and
    the password of a registry come from the pull secret to the request that loads the
    image. *)

From Stdlib Require Import Ascii.
From S2P Require Import Prelude ApiTypes Bpfman Application GoStrings Base64 Auth.
From stdpp Require Import options.
#[local] Set Default Proof Using "Type*".

(** ** The auth field *)

Lemma split_n2_colon u p : ":"%char ∉ u → split_n2 [":"%char] (u ++ ":"%char :: p) = [u; p].
Proof.
  intros Hu. unfold split_n2. rewrite index_byte by done. f_equal.
  - by rewrite take_app_length.
  - f_equal. rewrite cons_middle, app_assoc. apply drop_app_length'. by rewrite length_app.
Qed.

Lemma decode_field_encode padded src :
  (if has_suffix [pad_char] (trim_space (encode padded src))
   then StdEncoding_DecodeString (encode padded src)
   else RawStdEncoding_DecodeString (encode padded src)) = Ok src.
Proof.
  rewrite trim_space_b64 by apply encode_chars.
  assert (Hraw : has_suffix [pad_char] (encode false src) = false).
  { apply not_true_is_false. unfold has_suffix. intros (t & Ht)%has_prefix_iff.
    apply (encode_raw_no_pad src). rewrite <- (rev_involutive (encode false src)), Ht.
    apply list_elem_of_In, in_rev. rewrite rev_involutive. by left. }
  destruct padded; [|rewrite Hraw; apply (decode_encode false)].
  destruct (encode_padded_raw src) as [->|[l Hl]].
  - rewrite Hraw. apply (decode_encode false).
  - replace (has_suffix _ _) with true; [apply (decode_encode true)|].
    symmetry. apply has_prefix_iff. rewrite Hl, rev_app_distr. by apply prefix_app_r.
Qed.

Lemma decode_auth_encoded padded username password :
  ":"%char ∉ to_bytes username →
  decodeContainerConfigFieldAuth
    (of_bytes (encode padded (to_bytes (username +:+ ":" +:+ password)))) =
  Ok (username, password).
Proof.
  intros Hu. unfold decodeContainerConfigFieldAuth.
  rewrite to_of_bytes, decode_field_encode, !to_bytes_app. cbn -[split_n2].
  rewrite split_n2_colon by done. by rewrite !of_to_bytes.
Qed.

(** The user and the password come back from the base64 encoding of
    [username:password], with padding or without, for every password and every user
    without a colon. *)
Theorem decodeContainerConfigFieldAuth_roundtrip padded username password :
  ":"%char ∉ to_bytes username →
  decodeContainerConfigFieldAuth
    (of_bytes (encode padded (to_bytes (username +:+ ":" +:+ password)))) =
  Ok (username, password).
Proof. apply decode_auth_encoded. Qed.

(** A field that is decoded is what one of the two decoders makes [username:password]
    of; the user has no colon. *)
Theorem decodeContainerConfigFieldAuth_sound field username password :
  decodeContainerConfigFieldAuth field = Ok (username, password) →
  ":"%char ∉ to_bytes username ∧
  ∃ padded, decode_from padded [] 0 (to_bytes field) =
            Ok (to_bytes (username +:+ ":" +:+ password)).
Proof.
  unfold decodeContainerConfigFieldAuth. set (b := has_suffix _ _). intros Hd.
  assert (∃ padded decoded, decode_from padded [] 0 (to_bytes field) = Ok decoded ∧
    split_n2 [":"%char] decoded = [to_bytes username; to_bytes password])
    as (padded & decoded & Hdec & Hs).
  { exists b. unfold StdEncoding_DecodeString, RawStdEncoding_DecodeString in Hd.
    replace (if b then _ else _) with (decode_from b [] 0 (to_bytes field)) in Hd by by destruct b.
    destruct (decode_from b [] 0 (to_bytes field)) as [decoded|] eqn:Hdec; [|done].
    exists decoded. split; [done|]. unfold split_n2 in *.
    destruct (index _ decoded); [|done]. injection Hd as <- <-. by rewrite !to_of_bytes. }
  unfold split_n2 in Hs. destruct (index _ decoded) as [i|] eqn:Hi; [|done].
  injection Hs as Hu Hp. apply index_Some in Hi as (Hle & (t & Ht) & Hmin). split.
  - rewrite <- Hu. intros (j & Hj)%list_elem_of_lookup. apply lookup_take_Some in Hj as [Hj Hlt].
    apply (Hmin j Hlt). exists (drop (S j) decoded). by apply drop_S.
  - exists padded. rewrite Hdec, !to_bytes_app. f_equal. rewrite <- Hu, <- Hp. cbn.
    rewrite <- (take_drop i decoded) at 1. f_equal. rewrite Nat.add_1_r. rewrite Ht. cbn. f_equal.
    assert (drop 1 (drop i decoded) = t) as <- by by rewrite Ht.
    rewrite drop_drop. f_equal. lia.
Qed.

(** ** From the secret to the credentials *)

Section auth_specs.
Context `{!JSONSyntax}.

Definition entry_of (c : string * string) : ContainerConfigEntry :=
  mkContainerConfigEntry c.1 c.2 "".

(** *** One entry *)

Definition auth_fields : list string := ["username"; "password"; "email"; "auth"].

(** A member that the decoder has no field for, or one with a text or null. *)
Definition plain_member (m : string * json) : Prop :=
  field_of auth_fields m.1 = None ∨ m.2 = JNull ∨ ∃ s, m.2 = JString s.

(** The text of a member that is decoded to the auth field. *)
Definition auth_text (m : string * json) : option string :=
  if decide (field_of auth_fields m.1 = Some "auth") then
    match m.2 with JString s => Some s | _ => None end
  else None.

(** What an entry says: the user and the password in its last auth field, the base64
    encoding, padded or not, of a text with a colon, of which the first one separates
    them; nothing if there is no auth field or an empty one, whatever other fields it
    has. *)
Definition entry_says (v : json) (c : string * string) : Prop :=
  ∃ members, v = JObject members ∧ Forall plain_member members ∧
    match default "" (last (omap auth_text members)) with
    | EmptyString => c = ("", "")
    | auth => ":"%char ∉ to_bytes c.1 ∧
        ∃ padded, auth = of_bytes (encode padded (to_bytes (c.1 +:+ ":" +:+ c.2)))
    end.

Lemma field_of_elem names key f : field_of names key = Some f → f ∈ names.
Proof.
  unfold field_of. destruct (decide _); [by intros [= <-]|].
  intros Hf. apply List.find_some in Hf as [Hin _]. by apply list_elem_of_In.
Qed.

Lemma decode_members members tmp :
  Forall plain_member members →
  ∃ tmp', decode_with_auth_members members tmp None = (tmp', None) ∧
    wa_Auth tmp' = default (wa_Auth tmp) (last (omap auth_text members)).
Proof.
  intros Hm. revert tmp. induction Hm as [|[k v] members Hkv _ IH]; intros tmp; [by exists tmp|].
  cbn [decode_with_auth_members]. fold auth_fields.
  assert (Hstep : ∀ tmp1, wa_Auth tmp1 = default (wa_Auth tmp) (auth_text (k, v)) →
    ∃ tmp', decode_with_auth_members members tmp1 None = (tmp', None) ∧
      wa_Auth tmp' = default (wa_Auth tmp) (last (omap auth_text ((k, v) :: members)))).
  { intros tmp1 H1. destruct (IH tmp1) as (tmp' & Hrun & Ha). exists tmp'. split; [done|].
    rewrite Ha, H1. cbn. destruct (auth_text (k, v)) as [a|]; [|done]. rewrite last_cons.
    by destruct (last _). }
  unfold auth_text in Hstep at 1. cbn [fst snd] in Hstep, Hkv.
  destruct (field_of auth_fields k) as [f|] eqn:Hf; [|by apply Hstep].
  destruct Hkv as [Hno|Hv]; [cbn in Hno; congruence|]. cbn [snd] in Hv.
  assert (Hd : ∀ old, (decode_string old None v).1 = match v with JString s => s | _ => old end ∧
    (decode_string old None v).2 = None) by (by destruct Hv as [->|[s ->]]).
  rewrite (proj2 (Hd "")). apply Hstep. destruct tmp as [u p e a]. unfold set_with_auth.
  apply field_of_elem in Hf as Hin. unfold auth_fields in Hin.
  repeat (apply elem_of_cons in Hin as [->|Hin]); [..|by apply elem_of_nil in Hin].
  all: cbn; rewrite ?(proj1 (Hd _)); try done. by destruct v.
Qed.

Lemma encode_nonempty padded src : src ≠ [] → String.length (of_bytes (encode padded src)) ≠ 0%nat.
Proof. by destruct src as [|a [|b [|c src]]]. Qed.

Lemma UnmarshalJSON_entry v c : entry_says v c → UnmarshalJSON zeroEntry v = Ok (entry_of c).
Proof.
  intros (members & -> & Hm & Hc). unfold UnmarshalJSON, unmarshal_with_auth.
  destruct (decode_members members zeroWithAuth Hm) as (tmp & -> & Ha). cbn [wa_Auth zeroWithAuth] in Ha.
  rewrite Ha. destruct (default "" _) as [|x auth] eqn:He; [by subst c|].
  destruct (decide _) as [Hl|_]; [done|]. destruct Hc as (Hu & padded & ->).
  by rewrite decode_auth_encoded.
Qed.

(** *** The maps *)

(** The entries of a docker config, under different registries, with what they say. *)
Definition entries_say (entries : list (string * json)) (creds : list (string * (string * string)))
    : Prop :=
  NoDup creds.*1 ∧ Forall2 (λ e rc, e.1 = rc.1 ∧ entry_says e.2 rc.2) entries creds.

Lemma decode_entries_say entries creds m :
  entries_say entries creds →
  decode_entries entries m = Ok (list_to_map (prod_map id entry_of <$> creds) ∪ m).
Proof.
  intros [Hnd Hs]. revert m.
  induction Hs as [|[r v] [r' c] entries creds [Hr Hc] _ IH]; intros m.
  { cbn. by rewrite (left_id_L ∅ (∪)). }
  cbn in Hr, Hc. subst r'. apply NoDup_cons in Hnd as [Hr Hnd].
  cbn [decode_entries]. rewrite (UnmarshalJSON_entry v c) by done.
  rewrite IH by done. f_equal. cbn. rewrite <- insert_union_l, insert_union_r; [done|].
  apply not_elem_of_list_to_map. rewrite <- list_fmap_compose. exact Hr.
Qed.

(** The credentials for a key; none if no entry is for it. *)
Definition creds_for (key : string) (creds : list (string * (string * string))) : string * string :=
  default ("", "") ((list_to_map creds : gmap string (string * string)) !! key).

Lemma decoded_lookup creds key :
  let e := default zeroEntry ((list_to_map (prod_map id entry_of <$> creds) ∪ ∅ : gmap string _) !! key) in
  (Username e, Password e) = creds_for key creds.
Proof.
  rewrite (right_id_L ∅ (∪)). unfold creds_for. induction creds as [|[r c] creds IH]; [done|].
  cbn -[lookup]. destruct (decide (r = key)) as [->|Hne].
  - rewrite !lookup_insert_eq. by destruct c.
  - by rewrite !lookup_insert_ne.
Qed.

(** The entries in a secret of either type. The document of the newer one has them in its
    member auths, among others that the decoder has no field for. *)
Definition holds_entries (s : Secret) (entries : list (string * json)) : Prop :=
  (sec_Type s = SecretTypeDockerConfigJson ∧ ∃ d before after,
     sec_Data s !! DockerConfigJsonKey = Some d ∧ d ≠ "" ∧
     json_parse d = Ok (JObject (before ++ ("auths", JObject entries) :: after)) ∧
     Forall (λ m, field_of ["auths"; "HttpHeaders"] m.1 = None) (before ++ after)) ∨
  (sec_Type s = SecretTypeDockercfg ∧ ∃ d,
     sec_Data s !! DockerConfigKey = Some d ∧ d ≠ "" ∧ json_parse d = Ok (JObject entries)).

Lemma non_empty_Some d : d ≠ "" → non_empty (Some d) = Some d.
Proof. intros Hd. unfold non_empty. cbn. destruct (decide _) as [|Hn]; [done|]. destruct d; cbn in *; [done|lia]. Qed.

Lemma decode_config_json_skip members c saved rest :
  Forall (λ m, field_of ["auths"; "HttpHeaders"] m.1 = None) members →
  decode_config_json (members ++ rest) c saved = decode_config_json rest c saved.
Proof.
  induction 1 as [|[k v] members Hk _ IH]; [done|]. cbn [app decode_config_json].
  cbn in Hk. by rewrite Hk.
Qed.

Lemma parse_secret_ok s entries creds :
  entries_say entries creds → holds_entries s entries →
  parse_secret s = Ok (Some (list_to_map (prod_map id entry_of <$> creds) ∪ ∅)).
Proof.
  intros Hu [[Ht (d & before & after & Hd & Hne & Hp & Hother)]|[Ht (d & Hd & Hne & Hp)]];
    unfold parse_secret.
  - apply Forall_app in Hother as [Hb Ha].
    rewrite Hd, non_empty_Some, decide_True by done. unfold unmarshal_config_json.
    rewrite Hp, decode_config_json_skip by done. cbn [decode_config_json]. unfold field_of at 1.
    destruct (decide ("auths" ∈ _)) as [_|Hn]; [|destruct Hn; set_solver].
    destruct (decide _) as [_|]; [|done]. cbn [decode_config Auths default].
    rewrite (decode_entries_say entries creds), <- (app_nil_r after) by done.
    by rewrite decode_config_json_skip.
  - assert (Hno : sec_Type s ≠ SecretTypeDockerConfigJson) by by rewrite Ht.
    assert (Hcfg : unmarshal_config d = Ok (Some (list_to_map (prod_map id entry_of <$> creds) ∪ ∅))).
    { unfold unmarshal_config. rewrite Hp. cbn [decode_config default].
      by rewrite (decode_entries_say entries creds). }
    destruct (non_empty (sec_Data s !! DockerConfigJsonKey)); rewrite ?(decide_False _ _ Hno);
      rewrite Hd, non_empty_Some, decide_True by done; exact Hcfg.
Qed.

(** ** From the secret to the daemon *)

Section get_bytecode.
Context {W : Type} `{!SecretAPI W} (domain : string → result string).
#[local] Instance secret_lib : BytecodeLib W := auth_BytecodeLib domain.
Implicit Types w : W.

(** The key of a registry in a docker config. *)
Definition registry_key (reg : string) : string :=
  if decide (reg = "docker.io" ∨ reg = "") then "https://index.docker.io/v1/" else reg.

Lemma GetBytecode_secret b img secret reg w creds w' :
  Image b = Some img → ImagePullSecret img = Some secret → domain (Url img) = Ok reg →
  auth_ParseAuth (ips_Name secret) (ips_Namespace secret) w = (Ok creds, w') →
  let c := default zeroEntry (default ∅ creds !! registry_key reg) in
  GetBytecode b w =
  (Ret (Ok (BytecodeLocation_Image (Url img) (imagePullPolicyConversion (ImagePullPolicy img))
              (Username c) (Password c))), w').
Proof.
  intros Hb Hs Hd Hp c. unfold GetBytecode. rewrite Hb. cbn. rewrite Hd, Hs.
  erewrite run_bind by apply run_lift. cbn. rewrite Hp. cbn.
  fold (registry_key reg). rewrite lookup_fmap. subst c.
  by destruct (default ∅ creds !! registry_key reg).
Qed.


(** A secret of another type, or without a docker config, is no error: the image is
    pulled without credentials. *)
Theorem GetBytecode_other_secret b img secret reg s w w' :
  Image b = Some img → ImagePullSecret img = Some secret → domain (Url img) = Ok reg →
  Secret_Get (ips_Namespace secret) (ips_Name secret) w = (Ok s, w') →
  sec_Type s ≠ SecretTypeDockerConfigJson → sec_Type s ≠ SecretTypeDockercfg →
  GetBytecode b w =
  (Ret (Ok (BytecodeLocation_Image (Url img) (imagePullPolicyConversion (ImagePullPolicy img))
              "" "")), w').
Proof.
  intros Hb Hs Hd Hget Ht1 Ht2.
  erewrite (GetBytecode_secret _ _ _ _ _ None); [done..|].
  unfold auth_ParseAuth. rewrite Hget. unfold parse_secret.
  by repeat (destruct (non_empty _); rewrite ?(decide_False _ _ Ht1), ?(decide_False _ _ Ht2)).
Qed.
End get_bytecode.

(** An entry with a user and a password but no auth field is decoded to empty
    credentials. *)
Theorem UnmarshalJSON_without_auth data tmp ident :
  unmarshal_with_auth data = Ok tmp → wa_Auth tmp = "" → UnmarshalJSON ident data = Ok ident.
Proof. intros Hd Ha. unfold UnmarshalJSON. by rewrite Hd, Ha. Qed.
End auth_specs.

(** ** A concrete secret *)

(** Three entries: as kubectl writes one, with the user and the password repeated; with an
    auth field only; and without one. *)
Definition joe_entries : list (string * json) :=
  [("quay.io", JObject [("username", JString "joe"); ("password", JString "a:b");
                        ("auth", JString "am9lOmE6Yg=="); ("identitytoken", JBool false)]);
   ("https://index.docker.io/v1/", JObject [("auth", JString "am9lOmM=")]);
   ("ghcr.io", JObject [("username", JString "joe"); ("password", JString "d")])].

Definition joe_creds : list (string * (string * string)) :=
  [("quay.io", ("joe", "a:b")); ("https://index.docker.io/v1/", ("joe", "c")); ("ghcr.io", ("", ""))].

(** A parser that knows one document, and names that are equal up to nothing. *)
Definition sim_syntax : JSONSyntax := {|
  json_parse d :=
    if decide (d = "joe's config") then
      Ok (JObject [("credsStore", JString "none"); ("auths", JObject joe_entries)])
    else Err "unexpected end of JSON input";
  fold_name n := n;
  json_type_error _ _ := "json: cannot unmarshal";
  add_error_context e := e;
|}.

Definition sim_secrets : SecretAPI (gmap (string * string) Secret) := {|
  Secret_Get namespace name w :=
    (match w !! (namespace, name) with Some s => Ok s | None => Err "not found" end, w);
|}.

Definition sim_domain (url : string) : result string :=
  if String.prefix "quay.io/" url then Ok "quay.io" else Ok "docker.io".

Definition joe_secret : Secret :=
  mkSecret SecretTypeDockerConfigJson {[ DockerConfigJsonKey := "joe's config" ]}.

Lemma joe_says : entries_say (H := sim_syntax) joe_entries joe_creds.
Proof.
  split; [apply (bool_decide_unpack _); vm_compute; exact I|].
  assert (Hplain : ∀ k v ms, (k, v) ∈ joe_entries → v = JObject ms →
    Forall (plain_member (H := sim_syntax)) ms).
  { intros k v ms He. repeat (apply elem_of_cons in He as [[= -> ->]|He]; [intros [= <-]; rewrite ?Forall_cons|]);
      [..|by apply not_elem_of_nil in He].
    all: split_and!; try apply Forall_nil_2;
      first [by right; right; eexists|left; vm_compute; reflexivity]. }
  unfold joe_entries, joe_creds.
  repeat (apply Forall2_cons_2; [split; [reflexivity|]|]); [..|apply Forall2_nil_2].
  all: eexists; split; [reflexivity|].
  all: split; [eapply Hplain; [|reflexivity]; unfold joe_entries; rewrite !elem_of_cons; by eauto|].
  1-2: cbn; split; [set_solver|]; exists true; vm_compute; reflexivity.
  reflexivity.
Defined.


Lemma decodeContainerConfigFieldAuth_roundtrip_witness :
  decodeContainerConfigFieldAuth (of_bytes (encode true (to_bytes "joe:a:b"))) = Ok ("joe", "a:b").
Proof.
  apply (decodeContainerConfigFieldAuth_roundtrip true "joe" "a:b").
  vm_compute. set_solver.
Defined.

Example joe_encoded : of_bytes (encode true (to_bytes "joe:a:b")) = "am9lOmE6Yg==".
Proof. vm_compute. reflexivity. Qed.
