(* ===== verification/Bpffs.v ===== *)
(** The BPF filesystem (internal/bpffs) and the init-container mode of the agent that
    mounts it (handleMountBPFFS of cmd/bpfman-agent): the parser of mountinfo, with
    the scanner's limit on lines, and the sequences of checks and mounts. *)

From Stdlib Require Import Ascii.
From S2P Require Import Prelude GoStrings.
From stdpp Require Import options.

Definition DefaultMountPoint : string := "/sys/fs/bpf".
Definition DefaultMountInfoPath : string := "/proc/self/mountinfo".
Definition defaultScanMaxLineLen : Z := 1024 * 1024.

(** ** bufio.Scanner over lines *)

Definition line_feed : ascii := byte 10.
Definition carriage_return : ascii := byte 13.

(** The line that ends at the next line feed, and what follows it. *)
Fixpoint split_line (l : bytes) : bytes * option bytes :=
  match l with
  | [] => ([], None)
  | c :: l' =>
      if decide (c = line_feed) then ([], Some l')
      else let '(line, rest) := split_line l' in (c :: line, rest)
  end.

(** ScanLines drops one carriage return at the end of a line. *)
Definition drop_cr (line : bytes) : bytes :=
  match rev line with
  | c :: r => if decide (c = carriage_return) then rev r else line
  | [] => line
  end.

Definition ErrTooLong : error := "bufio.Scanner: token too long".

(** The lines of a file up to the first that does not fit into the scanner's buffer
    with its line feed, and the scanner's error: that, or the error [read_err] at
    which reading stopped. [fuel] bounds the lines. *)
Fixpoint scan_lines (fuel : nat) (data : bytes) (read_err : option error)
    : list bytes * option error :=
  match fuel with
  | O => ([], read_err)
  | S fuel' =>
      let '(line, rest) := split_line data in
      match rest with
      | None =>
          if decide (data = []) then ([], read_err)
          else if decide (Z.of_nat (length line) < defaultScanMaxLineLen)
          then ([drop_cr line], read_err)
          else ([], Some ErrTooLong)
      | Some data' =>
          if decide (Z.of_nat (length line) < defaultScanMaxLineLen) then
            let '(lines, err) := scan_lines fuel' data' read_err in (drop_cr line :: lines, err)
          else ([], Some ErrTooLong)
      end
  end.

Definition scan (data : bytes) (read_err : option error) : list bytes * option error :=
  scan_lines (S (length data)) data read_err.

(** ** bpffs.go *)

Definition separator : bytes := to_bytes " - ".

(** One round of the loop: whether the line is a bpffs at the mount point. *)
Definition line_matches (mountPoint : string) (line : bytes) : bool :=
  match index separator line with
  | None => false
  | Some sepIdx =>
      let prefix := take sepIdx line in
      let prefixFields := fields prefix in
      if decide (length prefixFields < 5)%nat then false
      else
        let mntPoint := nth 4 prefixFields [] in
        let suffix := drop (sepIdx + 3) line in
        match fields suffix with
        | [] => false
        | fsType :: _ =>
            bool_decide (mntPoint = to_bytes mountPoint) && bool_decide (fsType = to_bytes "bpf")
        end
  end.

(** What os.Stat says of a path. *)
Inductive StatResult :=
  | StatOk (isDir : bool)
  | StatNotExist
  | StatErr (err : error).

(** The file system and the mount table. os_Open gives the contents that reading the
    file yields, and the error that ends the reading other than the end of the file. *)
Class MountHost (W : Type) := {
  os_Open : string → W → result (string * option error) * W;
  os_Stat : string → W → StatResult * W;
  os_MkdirAll : string → Z → W → option error * W;
  sys_Mount : string → string → string → W → option error * W;
  sys_Unmount : string → W → option error * W;
}.

Section bpffs.
Context {W : Type} `{!MountHost W}.

Definition IsMounted (mountInfoPath mountPoint : string) (w : W) : result bool * W :=
  let '(file, w) := os_Open mountInfoPath w in
  (match file with
   | Err err => Err ("opening mountinfo: " +:+ err)
   | Ok (contents, read_err) =>
       let '(lines, err) := scan (to_bytes contents) read_err in
       if existsb (line_matches mountPoint) lines then Ok true
       else match err with
            | Some err => Err ("reading mountinfo: " +:+ err)
            | None => Ok false
            end
   end, w).

Definition mount_syscall (mountPoint : string) (w : W) : option error * W :=
  let '(err, w) := sys_Mount "bpffs" mountPoint "bpf" w in
  (match err with Some err => Some ("mount syscall: " +:+ err) | None => None end, w).

Definition Mount (mountPoint : string) (w : W) : option error * W :=
  let '(fi, w) := os_Stat mountPoint w in
  match fi with
  | StatOk false => (Some "mount point exists but is not a directory", w)
  | StatOk true => mount_syscall mountPoint w
  | StatNotExist =>
      let '(err, w) := os_MkdirAll mountPoint 493 w in
      match err with
      | Some err => (Some ("creating mount point directory: " +:+ err), w)
      | None => mount_syscall mountPoint w
      end
  | StatErr err => (Some ("stat mount point: " +:+ err), w)
  end.

Definition Unmount (mountPoint : string) (w : W) : option error * W :=
  let '(err, w) := sys_Unmount mountPoint w in
  (match err with Some err => Some ("unmount syscall: " +:+ err) | None => None end, w).

Definition EnsureMounted (mountInfoPath mountPoint : string) (w : W) : option error * W :=
  let '(mounted, w) := IsMounted mountInfoPath mountPoint w in
  match mounted with
  | Err err => (Some err, w)
  | Ok true => (None, w)
  | Ok false => Mount mountPoint w
  end.

(** ** cmd/bpfman-agent: --mount-bpffs *)

Definition nl : string := String.String line_feed "".

(** The mount and what follows it, shared by the two modes of handleMountBPFFS; the
    race with another process: mounted between the check and the mount. [msg] is the
    text so far. *)
Definition mount_or_race (mountInfoPath mountPoint msg : string) (w : W)
    : (Z * string * option error) * W :=
  let '(err, w) := Mount mountPoint w in
  match err with
  | None => ((0, msg +:+ "bpffs mounted at " +:+ mountPoint +:+ nl, None), w)
  | Some err =>
      let '(mounted, w) := IsMounted mountInfoPath mountPoint w in
      match mounted with
      | Ok true => ((0, msg +:+ "bpffs already mounted at " +:+ mountPoint +:+ nl, None), w)
      | _ => ((1, "", Some ("failed to mount bpffs at " +:+ mountPoint +:+ ": " +:+ err)), w)
      end
  end.

(** The exit code, the text for the standard output, and the error. *)
Definition handleMountBPFFS (mountInfoPath mountPoint : string) (remount : bool) (w : W)
    : (Z * string * option error) * W :=
  let '(mounted, w) := IsMounted mountInfoPath mountPoint w in
  match mounted with
  | Err err =>
      ((1, "", Some ("failed to check mount status at " +:+ mountPoint +:+ ": " +:+ err)), w)
  | Ok mounted =>
      if negb remount then
        if (mounted : bool) then ((0, "bpffs already mounted at " +:+ mountPoint +:+ nl, None), w)
        else mount_or_race mountInfoPath mountPoint "" w
      else if mounted then
        let '(err, w) := Unmount mountPoint w in
        match err with
        | Some err =>
            ((1, "", Some ("failed to unmount bpffs at " +:+ mountPoint +:+ ": " +:+ err)), w)
        | None =>
            mount_or_race mountInfoPath mountPoint
              ("bpffs unmounted at " +:+ mountPoint +:+ nl) w
        end
      else mount_or_race mountInfoPath mountPoint "" w
  end.
End bpffs.
