(* ===== verification/BpffsSpecs.v ===== *)
(** What mounting the BPF filesystem promises: the parser finds exactly the mounts that
    the kernel prints; a success of the init-container mode means that a bpffs is
    mounted, whatever other processes do in between; and the mount points it cannot
    see. *)

From Stdlib Require Import Ascii.
From S2P Require Import Prelude GoStrings Bpffs.
From stdpp Require Import options.
#[local] Set Default Proof Using "Type*".

(** ** The kernel's side (proc(5)) *)

Record MountEntry := mkMountEntry {
  me_id : bytes; me_parent : bytes; me_dev : bytes; me_root : bytes;
  me_point : bytes;
  me_options : bytes;
  me_optional : list bytes;
  me_fstype : bytes;
  me_source : bytes;
  me_super : bytes;
}.

Definition entry_prefix (e : MountEntry) : list bytes :=
  [me_id e; me_parent e; me_dev e; me_root e; me_point e; me_options e] ++ me_optional e.
Definition entry_suffix (e : MountEntry) : list bytes := [me_fstype e; me_source e; me_super e].

Definition entry_line (e : MountEntry) : bytes :=
  join_spaces (entry_prefix e) ++ separator ++ join_spaces (entry_suffix e).

Fixpoint mountinfo (es : list MountEntry) : bytes :=
  match es with [] => [] | e :: es' => entry_line e ++ line_feed :: mountinfo es' end.

(** The fields are words, and none before the separator is a dash. *)
Definition wf_entry (e : MountEntry) : Prop :=
  Forall word (entry_prefix e) ∧ Forall word (entry_suffix e) ∧
  Forall (λ f, f ≠ to_bytes "-") (entry_prefix e).

Definition short_entry (e : MountEntry) : Prop :=
  Z.of_nat (length (entry_line e)) < defaultScanMaxLineLen.

Definition is_bpffs_at (mountPoint : string) (e : MountEntry) : bool :=
  bool_decide (me_point e = to_bytes mountPoint) && bool_decide (me_fstype e = to_bytes "bpf").

(** ** The separator *)

Lemma spaceless_no_white c f : [c] ∈ white_space → spaceless f → c ∉ f.
Proof.
  intros Hw Hs (i & Hi)%list_elem_of_lookup.
  pose proof (Hs i (lookup_lt_Some _ _ _ Hi)) as Hn. rewrite space_at_iff in Hn.
  apply (Hn [c] Hw). exists (drop (S i) f). by apply drop_S.
Qed.

Lemma blank_white : [" "%char] ∈ white_space.
Proof. apply (bool_decide_unpack _). vm_compute. exact I. Qed.
Lemma line_feed_white : [line_feed] ∈ white_space.
Proof. apply (bool_decide_unpack _). vm_compute. exact I. Qed.
Lemma carriage_return_white : [carriage_return] ∈ white_space.
Proof. apply (bool_decide_unpack _). vm_compute. exact I. Qed.

Lemma word_no_blank f : word f → " "%char ∉ f.
Proof. intros [_ Hs]. by apply spaceless_no_white, Hs; apply blank_white. Qed.

(** The separator does not begin inside a word. *)
Lemma index_after_word f l :
  " "%char ∉ f → index separator (f ++ l) = (λ i, (length f + i)%nat) <$> index separator l.
Proof.
  intros Hf. induction f as [|c f IH].
  { rewrite app_nil_l. by destruct (index separator l). }
  apply not_elem_of_cons in Hf as [Hc Hf]. cbn [app index].
  replace (has_prefix separator (c :: f ++ l)) with false.
  - rewrite IH by done. by destruct (index separator l).
  - symmetry. apply not_true_is_false. intros Hp%has_prefix_iff.
    by apply prefix_cons_inv_1 in Hp.
Qed.

Lemma dash_not_word g l :
  word g → g ≠ to_bytes "-" → has_prefix (to_bytes "- ") (g ++ " "%char :: l) = false.
Proof.
  intros Hw Hg. apply not_true_is_false. intros Hp%has_prefix_iff.
  destruct g as [|c g]; [by destruct Hw|]. cbn in Hp.
  pose proof (prefix_cons_inv_1 _ _ _ _ Hp) as <-. apply prefix_cons_inv_2 in Hp.
  destruct g as [|d g]; [done|]. apply prefix_cons_inv_1 in Hp as <-.
  apply (word_no_blank _ Hw). by right; left.
Qed.

Lemma index_separator fs r :
  fs ≠ [] → Forall word fs → Forall (λ f, f ≠ to_bytes "-") fs →
  index separator (join_spaces fs ++ separator ++ r) = Some (length (join_spaces fs)).
Proof.
  intros _ Hw Hd. induction fs as [|f fs IH]; [done|].
  apply Forall_cons in Hw as [Hf Hw]. apply Forall_cons in Hd as [_ Hd].
  destruct fs as [|g fs].
  - cbn [join_spaces]. rewrite index_after_word by by apply word_no_blank.
    replace (index separator (separator ++ r)) with (Some 0%nat) by reflexivity.
    cbn [fmap option_fmap option_map]. f_equal. lia.
  - change (join_spaces (f :: g :: fs)) with (f ++ " "%char :: join_spaces (g :: fs)).
    rewrite <- app_assoc, index_after_word by by apply word_no_blank.
    rewrite <- app_comm_cons. set (l := join_spaces (g :: fs)) in *.
    assert (Hn : has_prefix (to_bytes "- ") (l ++ separator ++ r) = false).
    { apply Forall_cons in Hw as [Hg _]. apply Forall_cons in Hd as [Hg' _]. subst l.
      destruct fs as [|h fs]; [by apply dash_not_word|].
      change (join_spaces (g :: h :: fs)) with (g ++ " "%char :: join_spaces (h :: fs)).
      rewrite <- app_assoc. by apply dash_not_word. }
    assert (Hi : index separator (" "%char :: l ++ separator ++ r) =
                 S <$> index separator (l ++ separator ++ r)).
    { cbn [index]. change (has_prefix separator (" "%char :: l ++ separator ++ r))
        with (has_prefix (to_bytes "- ") (l ++ separator ++ r)). by rewrite Hn. }
    rewrite Hi, IH by done. cbn [fmap option_fmap option_map]. f_equal.
    rewrite length_app. cbn [length]. lia.
Qed.

(** The parser reads a line of the kernel as the entry it is. *)
Lemma line_matches_entry mountPoint e :
  wf_entry e → line_matches mountPoint (entry_line e) = is_bpffs_at mountPoint e.
Proof.
  intros (Hp & Hs & Hd). unfold line_matches, entry_line.
  rewrite index_separator by done. rewrite take_app_length, fields_join by done.
  destruct (decide (length (entry_prefix e) < 5)%nat) as [Hl|_]; [cbn in Hl; lia|].
  rewrite <- drop_drop, drop_app_length. change 3%nat with (length separator).
  rewrite drop_app_length, fields_join by done. done.
Qed.

(** ** The scanner *)

Lemma split_line_feed line r :
  line_feed ∉ line → split_line (line ++ line_feed :: r) = (line, Some r).
Proof.
  induction line as [|c line IH]; intros Hl; [done|].
  apply not_elem_of_cons in Hl as [Hc Hl]. cbn -[line_feed].
  destruct (decide (c = line_feed)) as [->|_]; [done|]. by rewrite IH.
Qed.

Lemma split_line_length l line r : split_line l = (line, Some r) → (length r < length l)%nat.
Proof.
  revert line r. induction l as [|c l IH]; intros line r; cbn -[line_feed]; [done|].
  destruct (decide (c = line_feed)); [intros ?; simplify_eq; lia|].
  destruct (split_line l) as [line' rest] eqn:Hl. intros ?. simplify_eq.
  specialize (IH _ _ eq_refl). lia.
Qed.

(** As much fuel as the file has bytes is enough: more changes nothing. *)
Lemma scan_lines_fuel n m data err :
  (length data < n)%nat → (length data < m)%nat → scan_lines n data err = scan_lines m data err.
Proof.
  revert m data. induction n as [|n IH]; intros m data Hn Hm; [lia|].
  destruct m as [|m]; [lia|]. cbn [scan_lines].
  destruct (split_line data) as [line [data'|]] eqn:Hl; [|done].
  apply split_line_length in Hl. rewrite (IH m data') by lia. done.
Qed.

Lemma scan_line line r err :
  line_feed ∉ line →
  scan (line ++ line_feed :: r) err =
  if decide (Z.of_nat (length line) < defaultScanMaxLineLen) then
    let '(lines, err) := scan r err in (drop_cr line :: lines, err)
  else ([], Some ErrTooLong).
Proof.
  intros Hl. unfold scan at 1. cbn [scan_lines]. rewrite split_line_feed by done.
  rewrite (scan_lines_fuel _ (S (length r))); [done| |lia].
  rewrite length_app. cbn. lia.
Qed.

Lemma drop_cr_id line : carriage_return ∉ line → drop_cr line = line.
Proof.
  intros Hl. unfold drop_cr. destruct (rev line) as [|c r] eqn:Hr; [done|].
  destruct (decide _) as [->|_]; [|done]. destruct Hl.
  rewrite <- (rev_involutive line), Hr. cbn. apply elem_of_app. right. by left.
Qed.

Lemma join_spaces_elem c fs : c ∈ join_spaces fs → c = " "%char ∨ ∃ f, f ∈ fs ∧ c ∈ f.
Proof.
  induction fs as [|f fs IH]; [by intros ?%elem_of_nil|]. destruct fs as [|g fs].
  - intros Hc. right. exists f. split; [by left|done].
  - change (join_spaces (f :: g :: fs)) with (f ++ " "%char :: join_spaces (g :: fs)).
    intros [Hc|[->|Hc]%elem_of_cons]%elem_of_app; [right; exists f; split; [by left|done]|by left|].
    destruct (IH Hc) as [?|(h & Hh & ?)]; [by left|]. right. exists h. split; [by right|done].
Qed.

Lemma entry_line_no c e :
  [c] ∈ white_space → c ≠ " "%char → wf_entry e → c ∉ entry_line e.
Proof.
  intros Hw Hb (Hp & Hs & _). unfold entry_line.
  assert (Hj : ∀ fs, Forall word fs → c ∉ join_spaces fs).
  { intros fs Hfs [?|(f & Hf & Hc)]%join_spaces_elem; [done|].
    rewrite Forall_forall in Hfs. destruct (Hfs f Hf) as [_ Hsp].
    by apply (spaceless_no_white c f). }
  intros [Hc|[Hc|Hc]%elem_of_app]%elem_of_app; [exact (Hj _ Hp Hc)| |exact (Hj _ Hs Hc)].
  change (c ∈ [" "%char; "-"%char; " "%char]) in Hc. rewrite !elem_of_cons in Hc.
  destruct Hc as [?|[->|[?|?%elem_of_nil]]]; try done.
  revert Hw. apply (bool_decide_unpack _). vm_compute. exact I.
Qed.

(** The lines of what the kernel prints, up to a line that is too long. *)
Lemma scan_mountinfo es rest err :
  Forall wf_entry es → Forall short_entry es →
  scan (mountinfo es ++ rest) err =
  let '(lines, err) := scan rest err in ((entry_line <$> es) ++ lines, err).
Proof.
  intros Hw Hs. induction es as [|e es IH].
  { cbn [mountinfo]. rewrite app_nil_l. by destruct (scan rest err). }
  apply Forall_cons in Hw as [He Hw]. apply Forall_cons in Hs as [Hse Hs].
  cbn [mountinfo]. rewrite <- app_assoc, <- app_comm_cons, scan_line, decide_True, IH; try done.
  - destruct (scan rest err) as [lines err']. cbn [fmap list_fmap app].
    rewrite drop_cr_id; [done|]. apply entry_line_no; [apply carriage_return_white|done|done].
  - apply entry_line_no; [apply line_feed_white|done|done].
Qed.

Lemma existsb_lines mountPoint es :
  Forall wf_entry es →
  existsb (line_matches mountPoint) (entry_line <$> es) = existsb (is_bpffs_at mountPoint) es.
Proof.
  intros Hw. induction es as [|e es IH]; [done|]. apply Forall_cons in Hw as [He Hw].
  cbn [fmap list_fmap existsb]. by rewrite line_matches_entry, <- IH.
Qed.

(** ** IsMounted *)

Section is_mounted.
Context {W : Type} `{!MountHost W}.
Implicit Types w : W.

Lemma IsMounted_mountinfo path mountPoint es w w' :
  os_Open path w = (Ok (of_bytes (mountinfo es), None), w') →
  Forall wf_entry es → Forall short_entry es →
  IsMounted path mountPoint w = (Ok (existsb (is_bpffs_at mountPoint) es), w').
Proof.
  intros Ho Hw Hs. unfold IsMounted. rewrite Ho, to_of_bytes.
  rewrite <- (app_nil_r (mountinfo es)), scan_mountinfo by done.
  change (scan [] None) with ([] : list bytes, @None string). cbv beta iota.
  rewrite app_nil_r, existsb_lines by done. by destruct (existsb _ es).
Qed.

(** C27: reading what the kernel prints, IsMounted says that a bpffs is mounted at the
    mount point exactly when the mount table has such an entry, whatever optional
    fields, propagation or neighbours the entries have. *)
Theorem IsMounted_reads_table path mountPoint es w w' :
  os_Open path w = (Ok (of_bytes (mountinfo es), None), w') →
  Forall wf_entry es → Forall short_entry es →
  IsMounted path mountPoint w = (Ok (existsb (is_bpffs_at mountPoint) es), w').
Proof. apply IsMounted_mountinfo. Qed.

(** An entry whose line is as long as the scanner's buffer makes the check fail, if no
    bpffs at the mount point comes before it. *)
Theorem IsMounted_line_too_long path mountPoint es1 e es2 w w' :
  os_Open path w = (Ok (of_bytes (mountinfo (es1 ++ e :: es2)), None), w') →
  Forall wf_entry es1 → Forall short_entry es1 → wf_entry e → ¬ short_entry e →
  existsb (is_bpffs_at mountPoint) es1 = false →
  IsMounted path mountPoint w = (Err ("reading mountinfo: " +:+ ErrTooLong), w').
Proof.
  intros Ho Hw Hs He Hl Hn. unfold IsMounted. rewrite Ho, to_of_bytes.
  assert (Hm : mountinfo (es1 ++ e :: es2) = mountinfo es1 ++ entry_line e ++ line_feed :: mountinfo es2).
  { clear. induction es1 as [|e1 es1 IH]; [done|].
    cbn [mountinfo app]. rewrite IH. by rewrite <- app_assoc. }
  rewrite Hm, scan_mountinfo by done.
  rewrite scan_line, decide_False; [|done|].
  - rewrite app_nil_r, existsb_lines, Hn by done. done.
  - apply entry_line_no; [apply line_feed_white|done|done].
Qed.

(** A mount point with a blank is never found, whatever the file holds: the kernel
    prints the blank as [\040], and the escape is not undone. *)
Theorem IsMounted_blank path mountPoint w :
  " "%char ∈ to_bytes mountPoint → (IsMounted path mountPoint w).1 ≠ Ok true.
Proof.
  intros Hb. unfold IsMounted. destruct (os_Open path w) as [[[contents err]|err] w']; [|done].
  destruct (scan (to_bytes contents) err) as [lines err'].
  replace (existsb _ lines) with false; [by destruct err'|].
  symmetry. apply not_true_is_false. intros (line & _ & Hl)%existsb_exists.
  unfold line_matches in Hl. destruct (index separator line) as [i|]; [|done].
  destruct (decide _) as [|Hlen]; [done|]. destruct (fields (drop _ _)); [done|].
  apply andb_true_iff in Hl as [Hl _]. apply bool_decide_eq_true in Hl.
  pose proof (fields_no_blank (take i line)) as Hf. rewrite Forall_forall in Hf.
  destruct (Hf (nth 4 (fields (take i line)) [])) as [_ Hn]; [|by rewrite Hl in Hn].
  apply list_elem_of_In, nth_In. lia.
Qed.
End is_mounted.

(** ** handleMountBPFFS *)

(** A host with a mount table, which others may change during any call. [plain] are
    the mount points that the kernel prints as they are: absolute, resolved and
    without a character that it escapes. *)
Class MountTable (W : Type) `{!MountHost W} := {
  mount_table : W → list MountEntry;
  plain : string → Prop;
  table_wf w : Forall wf_entry (mount_table w) ∧ Forall short_entry (mount_table w);
  law_Open w r w' :
    os_Open DefaultMountInfoPath w = (r, w') →
    (∃ e, r = Err e) ∨ r = Ok (of_bytes (mountinfo (mount_table w')), None);
  law_Mount source mp w w' :
    sys_Mount source mp "bpf" w = (None, w') → plain mp →
    existsb (is_bpffs_at mp) (mount_table w') = true;
}.

Section handle_mount.
Context {W : Type} `{!MountHost W, !MountTable W}.
Implicit Types w : W.

Definition mounted_bpffs (mp : string) (w : W) : bool := existsb (is_bpffs_at mp) (mount_table w).

Lemma IsMounted_table mp w :
  ∃ w', (∃ e, IsMounted DefaultMountInfoPath mp w = (Err e, w')) ∨
        IsMounted DefaultMountInfoPath mp w = (Ok (mounted_bpffs mp w'), w').
Proof.
  destruct (os_Open DefaultMountInfoPath w) as [r w'] eqn:Ho. exists w'.
  destruct (law_Open _ _ _ Ho) as [[e ->]| ->].
  - left. eexists. unfold IsMounted. by rewrite Ho.
  - right. destruct (table_wf w'). by apply IsMounted_mountinfo.
Qed.

Lemma Mount_mounts mp w w' : plain mp → Mount mp w = (None, w') → mounted_bpffs mp w' = true.
Proof.
  intros Hp. assert (Hs : ∀ w, mount_syscall mp w = (None, w') → mounted_bpffs mp w' = true).
  { intros w1. unfold mount_syscall. destruct (sys_Mount _ _ _ w1) as [[e|] w2] eqn:Hm; [done|].
    intros [= ->]. by eapply law_Mount. }
  unfold Mount. destruct (os_Stat mp w) as [[[|]| |e] w1]; try done; [apply Hs|].
  destruct (os_MkdirAll mp _ w1) as [[e|] w2]; [done|apply Hs].
Qed.

(** What an exit code says of the state. *)
Definition exit_says (mp : string) (r : (Z * string * option error) * W) : Prop :=
  let '((code, out, err), w') := r in
  (code = 0 ∧ err = None ∧ mounted_bpffs mp w' = true) ∨ (code = 1 ∧ out = "" ∧ is_Some err).

Lemma mount_or_race_says mp msg w :
  plain mp → exit_says mp (mount_or_race DefaultMountInfoPath mp msg w).
Proof.
  intros Hp. unfold mount_or_race. destruct (Mount mp w) as [[e|] w1] eqn:Hm.
  - destruct (IsMounted_table mp w1) as (w2 & [[e' ->]| ->]); [by right|].
    destruct (mounted_bpffs mp w2) eqn:Ht; [by left|by right].
  - left. split_and!; [done..|]. by eapply Mount_mounts.
Qed.

(** C26: the init container that mounts the BPF filesystem exits with 0 only when a
    bpffs is mounted at the mount point, in either mode and whatever others do to the
    mount table between its calls; otherwise it exits with 1 and an error. *)
Theorem handleMountBPFFS_sound mp remount w :
  plain mp → exit_says mp (handleMountBPFFS DefaultMountInfoPath mp remount w).
Proof.
  intros Hp. unfold handleMountBPFFS.
  destruct (IsMounted_table mp w) as (w1 & [[e ->]| ->]); [by right|].
  destruct remount; cbn [negb]; destruct (mounted_bpffs mp w1) eqn:Ht;
    [|by apply mount_or_race_says|by left|by apply mount_or_race_says].
  destruct (Unmount mp w1) as [[e|] w2]; [by right|]. by apply mount_or_race_says.
Qed.

(** A bpffs that is there is left alone: nothing but the reading of the table. *)
Theorem handleMountBPFFS_idempotent mp w w' :
  IsMounted DefaultMountInfoPath mp w = (Ok true, w') →
  handleMountBPFFS DefaultMountInfoPath mp false w =
  ((0, "bpffs already mounted at " +:+ mp +:+ nl, None), w').
Proof. intros Hm. unfold handleMountBPFFS. by rewrite Hm. Qed.
End handle_mount.

(** ** A simulated host *)

(** The mounts as pairs of a mount point and a type. *)
Definition sim_entry (m : string * string) : MountEntry :=
  mkMountEntry (to_bytes "48") (to_bytes "16") (to_bytes "0:39") (to_bytes "/")
    (to_bytes m.1) (to_bytes "rw,nosuid") [to_bytes "shared:9"]
    (to_bytes m.2) (to_bytes m.2) (to_bytes "rw").

Definition wordb (f : bytes) : bool := bool_decide (f ≠ []) && spacelessb f.

Lemma wordb_iff f : wordb f = true ↔ word f.
Proof. unfold wordb, word. by rewrite andb_true_iff, bool_decide_eq_true, spacelessb_iff. Qed.

Definition wf_entryb (e : MountEntry) : bool :=
  forallb wordb (entry_prefix e) && forallb wordb (entry_suffix e) &&
  forallb (λ f, bool_decide (f ≠ to_bytes "-")) (entry_prefix e) &&
  bool_decide (short_entry e).

Lemma wf_entryb_ok e : wf_entryb e = true → wf_entry e ∧ short_entry e.
Proof.
  unfold wf_entryb. rewrite !andb_true_iff, !forallb_True_iff, bool_decide_eq_true.
  intros [[[Hp Hs] Hd] Hl]. split; [|done]. split_and!; apply Forall_forall; intros f Hf.
  - by apply wordb_iff, Hp.
  - by apply wordb_iff, Hs.
  - specialize (Hd f Hf). by apply bool_decide_eq_true in Hd.
Qed.

Definition sim_table (w : list (string * string)) : list MountEntry :=
  List.filter wf_entryb (sim_entry <$> w).

#[export] Instance sim_host : MountHost (list (string * string)) := {|
  os_Open path w :=
    (if decide (path = DefaultMountInfoPath) then Ok (of_bytes (mountinfo (sim_table w)), None)
     else Err "no such file or directory", w);
  os_Stat path w := (if decide (path = DefaultMountPoint) then StatOk true else StatNotExist, w);
  os_MkdirAll _ _ w := (None, w);
  sys_Mount _ mp fs w := (None, w ++ [(mp, fs)]);
  sys_Unmount mp w := (None, List.filter (λ m, bool_decide (m.1 ≠ mp)) w);
|}.

#[export] Program Instance sim_mounts : MountTable (list (string * string)) := {|
  mount_table := sim_table;
  plain mp := wf_entryb (sim_entry (mp, "bpf")) = true;
|}.
Next Obligation.
  intros w. unfold sim_table. split; apply Forall_forall; intros e He;
    apply list_elem_of_In, filter_In in He as [_ He]; by apply wf_entryb_ok.
Qed.
Next Obligation. intros w r w'. cbn. intros [= <- <-]. by right. Qed.
Next Obligation.
  intros source mp w w' [= <-] Hp. unfold sim_table. apply existsb_exists.
  exists (sim_entry (mp, "bpf")). split.
  - apply filter_In. split; [|done]. apply list_elem_of_In, list_elem_of_fmap.
    exists (mp, "bpf"). split; [done|]. apply elem_of_app. right. by left.
  - unfold is_bpffs_at. by rewrite !bool_decide_true by done.
Qed.

Lemma handleMountBPFFS_sound_witness :
  handleMountBPFFS DefaultMountInfoPath "/sys/fs/bpf" false [("/proc", "proc")] =
    ((0, "bpffs mounted at /sys/fs/bpf" +:+ nl, None), [("/proc", "proc"); ("/sys/fs/bpf", "bpf")]) ∧
  exit_says "/sys/fs/bpf"
    (handleMountBPFFS DefaultMountInfoPath "/sys/fs/bpf" false [("/proc", "proc")]).
Proof.
  split; [vm_compute; reflexivity|].
  apply (handleMountBPFFS_sound "/sys/fs/bpf" false [("/proc", "proc")]).
  vm_compute. reflexivity.
Defined.

Lemma IsMounted_reads_table_witness :
  IsMounted DefaultMountInfoPath "/sys/fs/bpf" [("/proc", "proc"); ("/sys/fs/bpf", "bpf")] =
  (Ok true, [("/proc", "proc"); ("/sys/fs/bpf", "bpf")]).
Proof.
  etrans; [apply (IsMounted_reads_table DefaultMountInfoPath "/sys/fs/bpf"
    (sim_entry <$> [("/proc", "proc"); ("/sys/fs/bpf", "bpf")]))|].
  - vm_compute. reflexivity.
  - repeat (constructor; [apply wf_entryb_ok; vm_compute; reflexivity|]). constructor.
  - repeat (constructor; [vm_compute; reflexivity|]). constructor.
  - vm_compute. reflexivity.
Defined.
