(* ===== verification/Processes.v ===== *)
(** The processes around the controllers: the interface watcher, the metrics server
    and the early exits of the agent (cmd/bpfman-agent), the redirect and the readiness
    check of the metrics proxy (cmd/metrics-proxy), the version text
    (internal/version), and the choice of a cluster configuration and the probe for
    bpfman of pkg/helpers. *)

From S2P Require Import Prelude ApiTypes Selectors Bpffs.
From stdpp Require Import options.

(** ** internal/version *)

Record Build := mkBuild {
  buildVersion : string;
  buildCommit : string;
  buildDate : string;
  goVersion : string;
  goPlatform : string;
}.

Definition Version (b : Build) : string :=
  if decide (buildVersion b = "") then "(devel)" else buildVersion b.
Definition Commit (b : Build) : string :=
  if decide (buildCommit b = "") then "unknown" else buildCommit b.
Definition Date (b : Build) : string :=
  if decide (buildDate b = "") then "unknown" else buildDate b.

Definition version_String (b : Build) : string :=
  String.concat " "
    ([Version b] ++ (if decide (buildCommit b ≠ "") then [buildCommit b] else []) ++
     (if decide (buildDate b ≠ "") then [buildDate b] else []) ++ [goVersion b; goPlatform b]).

(** ** cmd/bpfman-agent: the interface watcher *)

Inductive EventType := EventAdded | EventDeleted | EventOther (t : Z).

Record IfaceEvent := mkIfaceEvent {
  ev_Type : EventType;
  ev_Interface : Interface;
}.

(** Store and Delete of the map, a list of entries in the order of a later Range. *)
Definition map_Store (i : Interface) (m : list (Interface * bool)) : list (Interface * bool) :=
  match find_index (λ e, bool_decide (e.1 = i)) m with
  | Some k => <[k := (i, true)]> m
  | None => m ++ [(i, true)]
  end.

Definition map_Delete (i : Interface) (m : list (Interface * bool)) : list (Interface * bool) :=
  List.filter (λ e, bool_decide (e.1 ≠ i)) m.

Definition handle_event (m : list (Interface * bool)) (event : IfaceEvent)
    : list (Interface * bool) :=
  match ev_Type event with
  | EventAdded => map_Store (ev_Interface event) m
  | EventDeleted => map_Delete (ev_Interface event) m
  | EventOther _ => m
  end.

(** What the select of one round of the loop finds. *)
Inductive Selected := CtxDone | EventsClosed | Received (event : IfaceEvent).

(** The map after the rounds, and the result of the loop if it has ended. *)
Fixpoint interfaceDiscovery_run (m : list (Interface * bool)) (rounds : list Selected)
    : list (Interface * bool) * option (option error) :=
  match rounds with
  | [] => (m, None)
  | CtxDone :: _ => (m, Some None)
  | EventsClosed :: _ => (m, Some (Some "interface events channel closed unexpectedly"))
  | Received event :: rounds' => interfaceDiscovery_run (handle_event m event) rounds'
  end.

(** ** cmd/bpfman-agent: the metrics server *)

Inductive RemoveResult := RemoveOk | RemoveNotExist | RemoveErr (err : error).

(** Sockets of the file system; a listener is named by a number. *)
Class SocketHost (W : Type) := {
  os_Remove : string → W → RemoveResult * W;
  net_Listen : string → W → result nat * W;
  os_Chmod : string → Z → W → option error * W;
  listener_Close : nat → W → option error * W;
}.

Definition internalMetricsSocketPath : string := "/var/run/bpfman-agent/metrics.sock".

Section metrics_server.
Context {W : Type} `{!SocketHost W}.

Definition newAgentMetricsServer (socketPath : string) : GoM W (result nat) :=
  removed ← lift (os_Remove socketPath);
  match removed with
  | RemoveErr err => mret (Err ("removing existing metrics socket " +:+ socketPath +:+ ": " +:+ err))
  | _ =>
      listener ← lift (net_Listen socketPath);
      match listener with
      | Err err => mret (Err ("listening on Unix socket " +:+ socketPath +:+ ": " +:+ err))
      | Ok listener =>
          err ← lift (os_Chmod socketPath 438);
          match err with
          | Some err =>
              _ ← lift (listener_Close listener);
              mret (Err ("setting permissions 0666 on socket " +:+ socketPath +:+ ": " +:+ err))
          | None => mret (Ok listener)
          end
      end
  end.

(** How the select of the server's run ends: with the context, and then the error of
    the shutdown, or with the error of Serve. *)
Inductive ServerEnd := Shutdown (err : option error) | ServeFailed (err : error).

Definition metricsServer_run (socketPath : string) (e : ServerEnd) : GoM W (option error) :=
  let result :=
    match e with
    | Shutdown None => None
    | Shutdown (Some err) => Some ("shutdown on socket " +:+ socketPath +:+ ": " +:+ err)
    | ServeFailed err => Some ("serve on socket " +:+ socketPath +:+ ": " +:+ err)
    end in
  _ ← lift (os_Remove socketPath); mret result.
End metrics_server.

(** The server's handler: whether a path is served. *)
Definition metrics_path (path : string) : bool := bool_decide (path = "/metrics").

(** runAgent: the components that are started, and what the group returns when they
    end in that order, each with its result. *)
Inductive AgentComponent := InterfaceDiscovery | MetricsServer | Manager.

Definition component_error (c : AgentComponent) (err : error) : error :=
  match c with
  | InterfaceDiscovery => "interface discovery: " +:+ err
  | MetricsServer => "metrics server: " +:+ err
  | Manager => "manager: " +:+ err
  end.

Definition agent_components (ifaceDiscovery : bool) : list AgentComponent :=
  (if ifaceDiscovery then [InterfaceDiscovery] else []) ++ [MetricsServer; Manager].

Fixpoint runAgent (ended : list (AgentComponent * option error)) : option error :=
  match ended with
  | [] => None
  | (c, Some err) :: _ => Some (component_error c err)
  | (_, None) :: ended' => runAgent ended'
  end.

(** ** cmd/bpfman-agent: main up to the manager *)

(** The logger's Development mode and level for a value of GO_LOG. *)
Definition agent_log_options (logLevel : string) : bool * option Z :=
  if decide (logLevel = "info") then (false, None)
  else if decide (logLevel = "debug") then (true, None)
  else if decide (logLevel = "trace") then (true, Some (-2))
  else (false, None).

Record AgentFlags := mkAgentFlags {
  showVersion : bool;
  mountBPFFS : bool;
  mountBPFFSPath : string;
  remountBPFFS : bool;
}.

(** The exit code and the two outputs, if main ends before it sets up the manager. *)
Definition agent_early_exit {W} `{!MountHost W} (b : Build) (flags : AgentFlags) (w : W)
    : option (Z * string * string) * W :=
  if showVersion flags then (Some (0, version_String b +:+ nl, ""), w)
  else if mountBPFFS flags then
    let '((code, out, err), w) :=
      handleMountBPFFS DefaultMountInfoPath (mountBPFFSPath flags) (remountBPFFS flags) w in
    (Some (code, out, match err with Some err => "error: " +:+ err +:+ nl | None => "" end), w)
  else (None, w).

(** ** cmd/metrics-proxy *)

(** The path that a request is passed on with, or [None] for 404. *)
Definition redirectAgentMetrics (prefix targetPath path : string) : option string :=
  if String.prefix prefix path then Some targetPath else None.

(** The readiness check, from the answer of the upstream: a status and its text. *)
Definition readiness (resp : result (Z * string)) : option error :=
  match resp with
  | Err err => Some ("readyz: cannot connect: " +:+ err)
  | Ok (status, text) =>
      if (status <? 200) || (status >=? 300)
      then Some ("readyz: bad response: " +:+ pretty status +:+ " " +:+ text)
      else None
  end.

(** ** pkg/helpers: clients *)

(** client-go: the configurations of the cluster and of a kubeconfig file, and the
    names of the API groups a server has. A configuration is a text. *)
Class KubeConfig (W : Type) := {
  rest_InClusterConfig : W → result string * W;
  default_kubeconfig : W → string * W;
  clientcmd_BuildConfigFromFlags : string → W → result string * W;
  kube_Getenv : string → W → string * W;
  discovery_client : string → W → result unit * W;
  ServerGroups : string → W → result (list string) * W;
}.

Section helpers.
Context {W : Type} `{!KubeConfig W}.

Definition or_die {A} (r : result A) : GoM W A :=
  match r with Ok a => mret a | Err err => panic err end.

Definition GetK8sConfigOrDie : GoM W string :=
  config ← lift rest_InClusterConfig;
  match config with
  | Err _ =>
      kubeConfig ← lift default_kubeconfig;
      config ← lift (clientcmd_BuildConfigFromFlags kubeConfig);
      or_die config
  | Ok config =>
      kubeConfig ← lift (kube_Getenv "KUBECONFIG");
      if decide (kubeConfig ≠ "") then
        config ← lift (clientcmd_BuildConfigFromFlags kubeConfig);
        or_die config
      else mret config
  end.

Definition IsBpfmanDeployed : GoM W bool :=
  config ← GetK8sConfigOrDie;
  client ← lift (discovery_client config);
  _ ← or_die client;
  apiList ← lift (ServerGroups config);
  groups ← or_die apiList;
  mret (existsb (λ name, bool_decide (name = "bpfman.io")) groups).
End helpers.
