(* ===== verification/ProcessSpecs.v ===== *)
(** What the agent's processes keep: the map of interfaces holds exactly the interfaces
    that exist by the watcher's events, so that the discovery of the reconcilers offers
    these and no others; and a metrics server that cannot be set up leaves no listener. *)

From S2P Require Import Prelude ApiTypes Selectors Processes.
From stdpp Require Import options.
#[local] Set Default Proof Using "Type*".

(** ** The interface watcher *)

(** Whether an interface exists after the events: the last addition or deletion of it
    is an addition. *)
Definition exists_after (i : Interface) (b : bool) (event : IfaceEvent) : bool :=
  if decide (ev_Interface event = i) then
    match ev_Type event with EventAdded => true | EventDeleted => false | EventOther _ => b end
  else b.

Definition live (i : Interface) (events : list IfaceEvent) : bool :=
  foldl (exists_after i) false events.

(** The map holds the interfaces of [alive] once each, with the value true. *)
Definition holds (m : list (Interface * bool)) (alive : Interface → bool) : Prop :=
  NoDup m.*1 ∧ (∀ e, e ∈ m → e.2 = true) ∧ ∀ i, (i, true) ∈ m ↔ alive i = true.

Lemma holds_Store m alive i :
  holds m alive → holds (map_Store i m) (λ j, bool_decide (i = j) || alive j).
Proof.
  intros (Hnd & Hv & Hin). unfold map_Store.
  destruct (find_index _ m) as [k|] eqn:Hk.
  - apply find_index_Some in Hk as ([i' b] & Hm & Hi & _).
    apply bool_decide_eq_true in Hi. cbn in Hi. subst i'.
    pose proof (Hv _ (list_elem_of_lookup_2 _ _ _ Hm)) as Hb. cbn in Hb. subst b.
    rewrite list_insert_id by done. split_and!; [done|done|]. intros j.
    rewrite Hin, orb_true_iff, bool_decide_eq_true. split; [by right|].
    intros [<-|?]; [|done]. apply Hin. by eapply list_elem_of_lookup_2.
  - pose proof (proj1 (find_index_None _ _) Hk) as Hn.
    assert (Hni : i ∉ m.*1).
    { intros ([i' b] & -> & He)%list_elem_of_fmap. specialize (Hn _ He).
      by apply bool_decide_eq_false in Hn. }
    split_and!.
    + rewrite fmap_app. apply NoDup_app. split_and!; [done| |apply NoDup_singleton].
      intros j Hj. cbn. rewrite list_elem_of_singleton. by intros ->.
    + intros e [He| ->%list_elem_of_singleton]%elem_of_app; [by apply Hv|done].
    + intros j. rewrite elem_of_app, list_elem_of_singleton, Hin, orb_true_iff, bool_decide_eq_true.
      naive_solver.
Qed.

Lemma holds_Delete m alive i :
  holds m alive → holds (map_Delete i m) (λ j, bool_decide (i ≠ j) && alive j).
Proof.
  intros (Hnd & Hv & Hin). unfold map_Delete.
  assert (Hf : ∀ e, e ∈ List.filter (λ e, bool_decide (e.1 ≠ i)) m ↔ e ∈ m ∧ e.1 ≠ i).
  { intros e. by rewrite !list_elem_of_In, filter_In, bool_decide_eq_true. }
  split_and!.
  - clear -Hnd. induction m as [|e m IH]; [constructor|].
    cbn [fmap list_fmap] in Hnd. apply NoDup_cons in Hnd as [He Hnd]. cbn [List.filter].
    destruct (bool_decide _); [|by apply IH]. cbn. apply NoDup_cons. split; [|by apply IH].
    intros (e' & Heq & Hin%list_elem_of_In%filter_In)%list_elem_of_fmap. apply He.
    apply list_elem_of_fmap. exists e'. split; [done|]. by apply list_elem_of_In, Hin.
  - intros e He%Hf. by apply Hv, He.
  - intros j. rewrite Hf, Hin, andb_true_iff, bool_decide_eq_true. cbn. naive_solver.
Qed.

Lemma holds_ext m alive alive' : (∀ i, alive i = alive' i) → holds m alive → holds m alive'.
Proof. intros He (? & ? & Hin). split_and!; try done. intros i. by rewrite Hin, He. Qed.

Lemma holds_event m alive event :
  holds m alive → holds (handle_event m event) (λ i, exists_after i (alive i) event).
Proof.
  intros Hm. unfold handle_event, exists_after. destruct (ev_Type event).
  - eapply holds_ext; [|by apply holds_Store]. intros i. cbn.
    destruct (decide (ev_Interface event = i)); [by rewrite bool_decide_true|by rewrite bool_decide_false].
  - eapply holds_ext; [|by apply holds_Delete]. intros i. cbn.
    destruct (decide (ev_Interface event = i)); [by rewrite bool_decide_false by naive_solver|by rewrite bool_decide_true].
  - eapply holds_ext; [|done]. intros i. cbn. by destruct (decide _).
Qed.

Lemma run_holds m alive events :
  holds m alive →
  holds (interfaceDiscovery_run m (Received <$> events)).1
    (λ i, foldl (exists_after i) (alive i) events).
Proof.
  revert m alive. induction events as [|ev events IH]; intros m alive Hm; [done|].
  cbn. by apply (IH _ (λ i, exists_after i (alive i) ev)), holds_event.
Qed.

Lemma run_stop m events stop :
  stop ∈ [[]; [CtxDone]; [EventsClosed]] →
  (interfaceDiscovery_run m ((Received <$> events) ++ stop)).1 =
  (interfaceDiscovery_run m (Received <$> events)).1.
Proof.
  intros Hs. revert m. induction events as [|ev events IH]; intros m; [|apply IH].
  cbn. rewrite !elem_of_cons in Hs. by destruct Hs as [->|[->|[->|?%elem_of_nil]]].
Qed.

Section discovery.
Context `{!Regexp}.

(** C29: the interfaces that discovery offers for an attach point are, each once, the
    admitted ones among those that exist: whose last addition or deletion, of the
    events the watcher has sent so far, is an addition; also when the watcher has been
    stopped. *)
Theorem discovery_offers_existing config events stop :
  stop ∈ [[]; [CtxDone]; [EventsClosed]] →
  let m := (interfaceDiscovery_run [] ((Received <$> events) ++ stop)).1 in
  NoDup (getDiscoveredInterfaces config m) ∧
  ∀ d, d ∈ getDiscoveredInterfaces config m ↔
    ∃ i, live i events = true ∧ admits config (i, true) = true ∧
      d = mkDiscoveredInterface (if_Name i) (interface_netns i).
Proof.
  intros Hs m. subst m. rewrite run_stop by done.
  destruct (run_holds [] (λ _, false) events) as (_ & Hv & Hin).
  { split_and!; [constructor|by intros e ?%elem_of_nil|]. intros i.
    split; [by intros ?%elem_of_nil|done]. }
  set (m := (interfaceDiscovery_run [] (Received <$> events)).1) in *.
  destruct (discovered_iff config m) as [Hnd Hd]. split; [done|]. intros d. rewrite Hd. split.
  - intros ([i b] & He & Ha & ->). pose proof (Hv _ He) as Hb. cbn in Hb. subst b.
    exists i. split_and!; [by apply Hin|done|done].
  - intros (i & Hl & Ha & ->). exists (i, true). split_and!; [by apply Hin|done|done].
Qed.
End discovery.

(** The watcher ends without an error when it is told to stop, with one when its events
    end, and on nothing else. *)
Lemma discovery_ends m rounds :
  (interfaceDiscovery_run m rounds).2 =
  head (omap (λ s, match s with
                   | CtxDone => Some None
                   | EventsClosed => Some (Some "interface events channel closed unexpectedly")
                   | Received _ => None
                   end) rounds).
Proof. revert m. induction rounds as [|[| |ev] rounds IH]; intros m; cbn; done || apply IH. Qed.

(** ** The metrics server *)

(** The open listeners. *)
Class Listeners (W : Type) `{!SocketHost W} := {
  listeners : W → gset nat;
  listeners_Remove p w : listeners (os_Remove p w).2 = listeners w;
  listeners_Chmod p m w : listeners (os_Chmod p m w).2 = listeners w;
  listeners_Listen p w w' l :
    net_Listen p w = (Ok l, w') → l ∉ listeners w ∧ listeners w' = {[l]} ∪ listeners w;
  listeners_failed p w w' err : net_Listen p w = (Err err, w') → listeners w' = listeners w;
  listeners_Close l w : listeners (listener_Close l w).2 = listeners w ∖ {[l]};
}.

Lemma newAgentMetricsServer_listeners {W} `{!SocketHost W, !Listeners W} p (w : W) :
  match newAgentMetricsServer p w with
  | (Ret (Ok l), w') => l ∉ listeners w ∧ listeners w' = {[l]} ∪ listeners w
  | (Ret (Err _), w') => listeners w' = listeners w
  | (Panic _, _) => False
  end.
Proof.
  unfold newAgentMetricsServer, mbind, GoM_bind. rewrite run_lift.
  pose proof (listeners_Remove p w) as Hr. destruct (os_Remove p w) as [r w1]. cbn in *.
  assert (Hl : match (net_Listen p w1) with
               | (Ok l, w2) => l ∉ listeners w ∧ listeners w2 = {[l]} ∪ listeners w
               | (Err _, w2) => listeners w2 = listeners w end).
  { destruct (net_Listen p w1) as [[l|e] w2] eqn:Hn; rewrite <- Hr;
      [by apply listeners_Listen in Hn|by eapply listeners_failed]. }
  destruct r; [| |done]; rewrite run_lift; destruct (net_Listen p w1) as [[l|e] w2];
    cbn; try done; rewrite run_lift; pose proof (listeners_Chmod p 438 w2) as Hc;
    destruct (os_Chmod p 438 w2) as [[e|] w3]; cbn in *; rewrite ?Hc; try done;
    rewrite run_lift; cbn; rewrite listeners_Close, Hc, (proj2 Hl); clear -Hl; set_solver.
Qed.

(** The group of components returns the error of the first that fails. *)
Lemma runAgent_iff ended :
  runAgent ended = None ↔ Forall (λ e, e.2 = None) ended.
Proof.
  induction ended as [|[c [err|]] ended IH]; cbn; rewrite ?Forall_cons; [done| |].
  - split; [done|]. by intros [? _].
  - rewrite IH. naive_solver.
Qed.

(** A request path is passed on to the agent's only path that is served. *)
Lemma redirect_served path p :
  redirectAgentMetrics "/agent-metrics" "/metrics" path = Some p → metrics_path p = true.
Proof. unfold redirectAgentMetrics. destruct (String.prefix _ _); [|done]. by intros [= <-]. Qed.

(** ** Concrete events *)

Lemma discovery_offers_existing_witness :
  let eth n := mkInterface n 1 "" [] 0 in
  let events := [mkIfaceEvent EventAdded (eth "eth0"); mkIfaceEvent EventAdded (eth "eth1");
                 mkIfaceEvent EventDeleted (eth "eth0")] in
  let config := mkInterfaceDiscovery (Some true) [] [] in
  let m := (interfaceDiscovery_run [] ((Received <$> events) ++ [CtxDone])).1 in
  mkDiscoveredInterface "eth1" (interface_netns (eth "eth1")) ∈
    getDiscoveredInterfaces (H := {| regexp_Compile _ := Err "" |}) config m.
Proof.
  intros eth events config m.
  apply (proj2 (discovery_offers_existing (H := {| regexp_Compile _ := Err "" |}) config events
                  [CtxDone] ltac:(right; left))).
  exists (eth "eth1"). split_and!; vm_compute; reflexivity.
Defined.

Example eth1_only :
  let eth n := mkInterface n 1 "" [] 0 in
  (interfaceDiscovery_run [] (Received <$>
    [mkIfaceEvent EventAdded (eth "eth0"); mkIfaceEvent EventAdded (eth "eth1");
     mkIfaceEvent EventDeleted (eth "eth0")])).1 = [(eth "eth1", true)].
Proof. vm_compute. reflexivity. Qed.
