(* ===== verification/Operator.v ===== *)
(** The cluster operator (controllers/bpfman-operator): reconcileBpfApplication
    with its finalizer and condition updates (common.go), and what the cluster and
    namespace reconcilers of cl_application_programs.go, ns_application_programs.go,
    common_cluster.go and common_namespace.go differ in, as the record [OperKind]. *)

From S2P Require Import Prelude ApiTypes Constants Selectors Application.
From stdpp Require Import options.

(** ** The outside *)

(** A Get: the object, a NotFound error or another one. *)
Inductive got (A : Type) : Type :=
  | Got (a : A)
  | NotFound
  | GetError (e : error).
Arguments Got {_} _.
Arguments NotFound {_}.
Arguments GetError {_} _.

(** The API server's objects of one scope as the operator asks for them. *)
Class OperatorAPI (W P PS : Type) := {
  op_GetApp : string → string → W → got (Application P) * W;
  op_GetState : string → string → W → got (AppState PS) * W;
  op_ListStates : option string → gmap string string → W → result (list (AppState PS)) * W;
  op_ListNodes : W → result (list Node) * W;
  op_Update : Application P → W → option error * W;
  op_StatusUpdate : Application P → W → option error * W;
  op_Now : W → Z * W;
}.

(** controllerutil.ContainsFinalizer and AddFinalizer *)
Definition ContainsFinalizer (finalizer : string) (o : ObjectMeta) : bool :=
  bool_decide (finalizer ∈ om_Finalizers o).

Definition AddFinalizer (finalizer : string) (o : ObjectMeta) : ObjectMeta :=
  if decide (finalizer ∈ om_Finalizers o) then o
  else set_Finalizers (om_Finalizers o ++ [finalizer]) o.

(** metav1.GetControllerOf: the first owner reference of a controller. *)
Definition GetControllerOf (o : ObjectMeta) : option OwnerReference :=
  i ← find_index (λ r, match or_Controller r with Some b => b | None => false end)
        (om_OwnerReferences o);
  om_OwnerReferences o !! i.

Definition with_app_meta {P} (m : ObjectMeta) (app : Application P) : Application P :=
  mkApplication m (app_common app) (app_Programs app) (app_Status app).

Definition with_app_Conditions {P} (cs : slice Condition) (app : Application P)
    : Application P :=
  mkApplication (app_meta app) (app_common app) (app_Programs app) (mkBpfAppStatus cs).

Definition app_Conditions {P} (app : Application P) : slice Condition :=
  appst_Conditions (app_Status app).

(** [%v] of a slice of strings. *)
Definition print_strings (l : list string) : string :=
  "[" +:+ String.concat " " l +:+ "]".

Definition retryDurationOperator : Z := 5.

(** What the reconcilers of the two scopes differ in: the finalizer of their
    agent, the namespace a Get of an object in [namespace] uses, the namespace
    the states are listed in, and the text for a state without an owner. *)
Record OperKind := mkOperKind {
  ok_finalizer : string;
  ok_getNamespace : string → string;
  ok_listNamespace : string → option string;
  ok_noOwner : string;
}.

Section operator.
Context {W P PS : Type} `{!OperatorAPI W P PS} (ok : OperKind).
Implicit Types app : Application P.

(** ** common.go *)

Definition op_removeFinalizer app (finalizer : string) : GoM W (result Z) :=
  let '(changed, m) := RemoveFinalizer finalizer (app_meta app) in
  if changed then
    err ← lift (op_Update (with_app_meta m app));
    mret (Ok (match err with Some _ => retryDurationOperator | None => 0 end))
  else mret (Ok 0).

Definition op_addFinalizer app (finalizer : string) : GoM W (result Z) :=
  err ← lift (op_Update (with_app_meta (AddFinalizer finalizer (app_meta app)) app));
  mret (Ok (match err with Some _ => retryDurationOperator | None => 0 end)).

Definition updateCondition (obj : Application P) (cond : BpfApplicationConditionType)
    (message : string) : GoM W (result Z) :=
  let set conditions :=
    now ← lift op_Now;
    let obj := with_app_Conditions
      (SetStatusCondition now conditions (BpfApplicationConditionType_Condition cond message))
      obj in
    err ← lift (op_StatusUpdate obj);
    mret (Ok (match err with Some _ => retryDurationOperator | None => 0 end)) in
  match elems (app_Conditions obj) with
  | [c] => if decide (cond_Type c = cond) then mret (Ok 0) else set None
  | [] => set (app_Conditions obj)
  | _ => set None
  end.

Definition updateStatus (namespace name : string) (cond : BpfApplicationConditionType)
    (message : string) : GoM W (result Z) :=
  app ← lift (op_GetApp (ok_getNamespace ok namespace) name);
  match app with
  | Got app => updateCondition app cond message
  | _ => mret (Ok retryDurationOperator)
  end.

Definition getAppStateList (appName appNamespace : string)
    : GoM W (result (list (AppState PS))) :=
  lift (op_ListStates (ok_listNamespace ok appNamespace) {[BpfAppStateOwner := appName]}).

Definition state_on (node : Node) (appState : AppState PS) : bool :=
  bool_decide (om_Name (node_meta node)
               = default "" (AppState_GetLabels appState !! K8sHostLabel)).

(** The nodes that have no state object yet. *)
Definition node_missing (nodes : list Node) (states : list (AppState PS)) : bool :=
  existsb (λ node, negb (existsb (state_on node) states)) nodes.

(** The loop over the states: the names of the pending and failed ones and of
    those that the agent's finalizer holds. *)
Fixpoint classify (states : list (AppState PS)) (pending failed finalApplied : list string)
    : list string * list string * list string :=
  match states with
  | [] => (pending, failed, finalApplied)
  | bpfAppState :: states' =>
      let finalApplied :=
        if ContainsFinalizer (ok_finalizer ok) (as_meta bpfAppState)
        then finalApplied ++ [AppState_GetName bpfAppState] else finalApplied in
      let conditions := AppState_GetConditions bpfAppState in
      if IsBpfAppStateConditionFailure conditions then
        classify states' pending (failed ++ [AppState_GetName bpfAppState]) finalApplied
      else if IsBpfAppStateConditionPending conditions then
        classify states' (pending ++ [AppState_GetName bpfAppState]) failed finalApplied
      else classify states' pending failed finalApplied
  end.

Definition op_isBeingDeleted app : bool :=
  match om_DeletionTimestamp (app_meta app) with Some _ => true | None => false end.

Definition reconcileBpfApplication app : GoM W (result Z) :=
  let appName := om_Name (app_meta app) in
  let appNamespace := om_Namespace (app_meta app) in
  if negb (ContainsFinalizer BpfmanOperatorFinalizer (app_meta app)) then
    op_addFinalizer app BpfmanOperatorFinalizer
  else
    bpfAppStateObjs ← getAppStateList appName appNamespace;
    match bpfAppStateObjs with
    | Err _ => mret (Ok 0)
    | Ok states =>
        nodes ← lift op_ListNodes;
        match nodes with
        | Err _ => mret (Ok retryDurationOperator)
        | Ok nodes =>
            if negb (op_isBeingDeleted app) && node_missing nodes states then
              updateStatus appNamespace appName BpfAppCondPending ""
            else
              let '(pending, failed, finalApplied) := classify states [] [] [] in
              if op_isBeingDeleted app then
                if decide (length finalApplied = 0%nat) then
                  op_removeFinalizer app BpfmanOperatorFinalizer
                else
                  updateStatus appNamespace appName BpfAppCondDeleteError
                    ("Program Deletion failed on the following BpfApplicationState objects: "
                       +:+ print_strings finalApplied)
              else if decide (length failed ≠ 0%nat) then
                updateStatus appNamespace appName BpfAppCondError
                  ("BpfApplication Reconciliation failed on the following BpfApplicationState objects: "
                     +:+ print_strings failed)
              else if decide (length pending ≠ 0%nat) then
                updateStatus appNamespace appName BpfAppCondPending
                  ("BpfApplication Reconciliation is pending on the following BpfApplicationState objects: "
                     +:+ print_strings pending)
              else updateStatus appNamespace appName BpfAppCondSuccess ""
        end
    end.

(** Reconcile: a request names an application or one of its states. *)
Definition op_Reconcile (namespace name : string) : GoM W (result Z) :=
  app ← lift (op_GetApp namespace name);
  match app with
  | Got app => reconcileBpfApplication app
  | GetError _ => mret (Ok 0)
  | NotFound =>
      state ← lift (op_GetState namespace name);
      match state with
      | Got bpfAppState =>
          match GetControllerOf (as_meta bpfAppState) with
          | None => mret (Err (ok_noOwner ok))
          | Some ownerRef =>
              app ← lift (op_GetApp (ok_getNamespace ok namespace) (or_Name ownerRef));
              match app with
              | Got app => reconcileBpfApplication app
              | _ => mret (Ok 0)
              end
          end
      | _ => mret (Ok 0)
      end
  end.

(** ** Which events of the state objects wake the operator *)

Inductive Event :=
  | GenericEvent (o : AppState PS)
  | CreateEvent (o : AppState PS)
  | UpdateEvent (ObjectOld ObjectNew : AppState PS)
  | DeleteEvent (o : AppState PS).

Definition statusChangedPredicate (e : Event) : bool :=
  match e with
  | UpdateEvent oldObject newObject =>
      let statusChanged :=
        negb (deep_equal (AppState_GetConditions oldObject) (AppState_GetConditions newObject)) in
      let finalizerChanged :=
        negb (Bool.eqb (ContainsFinalizer (ok_finalizer ok) (as_meta oldObject))
                (ContainsFinalizer (ok_finalizer ok) (as_meta newObject))) in
      statusChanged || finalizerChanged
  | _ => false
  end.
End operator.

(** ** The two scopes *)

Module ClOper.
Definition kind : OperKind :=
  mkOperKind ClBpfApplicationControllerFinalizer (λ _, "") (λ _, None)
    "failed getting BpfApplicationState object owner".

Section reconciler.
Context {W : Type}
  `{!OperatorAPI W ClBpfApplicationProgram ClBpfApplicationProgramState}.

Definition getAppStateList (appName appNamespace : string)
    : GoM W (result (list ClusterBpfApplicationState)) :=
  Operator.getAppStateList kind appName appNamespace.
Definition updateStatus (namespace name : string) (cond : BpfApplicationConditionType)
    (message : string) : GoM W (result Z) :=
  Operator.updateStatus (PS := ClBpfApplicationProgramState) kind namespace name cond message.
Definition Reconcile (namespace name : string) : GoM W (result Z) :=
  op_Reconcile kind namespace name.
Definition containsFinalizer (bpfAppState : ClusterBpfApplicationState) (finalizer : string)
    : bool :=
  ContainsFinalizer finalizer (as_meta bpfAppState).
Definition statusChangedPredicateCluster (e : Event (PS := ClBpfApplicationProgramState))
    : bool :=
  statusChangedPredicate kind e.
End reconciler.
End ClOper.

Module NsOper.
Definition kind : OperKind :=
  mkOperKind NsBpfApplicationControllerFinalizer id Some
    "failed getting BpfNsApplicationState Object owner".

Section reconciler.
Context {W : Type} `{!OperatorAPI W BpfApplicationProgram BpfApplicationProgramState}.

Definition getAppStateList (appName appNamespace : string)
    : GoM W (result (list BpfApplicationState)) :=
  Operator.getAppStateList kind appName appNamespace.
Definition updateStatus (namespace name : string) (cond : BpfApplicationConditionType)
    (message : string) : GoM W (result Z) :=
  Operator.updateStatus (PS := BpfApplicationProgramState) kind namespace name cond message.
Definition Reconcile (namespace name : string) : GoM W (result Z) :=
  op_Reconcile kind namespace name.
Definition containsFinalizer (bpfAppState : BpfApplicationState) (finalizer : string) : bool :=
  ContainsFinalizer finalizer (as_meta bpfAppState).
Definition statusChangedPredicateNamespace (e : Event (PS := BpfApplicationProgramState))
    : bool :=
  statusChangedPredicate kind e.
End reconciler.
End NsOper.
