(* ===== verification/OperatorSpecs.v ===== *)
(** What the operator reports and when it lets an application go: the condition
    of an application as a function of its nodes and states, the finalizer, the
    condition update, and the events the state watch may drop. *)

From S2P Require Import Prelude ApiTypes Constants Selectors Application AppSpecs Operator.
From stdpp Require Import options.
#[local] Set Default Proof Using "Type*".

Section operator.
Context {W P PS : Type} `{!OperatorAPI W P PS} (ok : OperKind).
Implicit Types (app : Application P) (w : W) (s : AppState PS) (states : list (AppState PS)).

(** How the operator reads one state. *)
Definition failing s : bool := IsBpfAppStateConditionFailure (AppState_GetConditions s).
Definition waiting s : bool :=
  negb (failing s) && IsBpfAppStateConditionPending (AppState_GetConditions s).
Definition held s : bool := ContainsFinalizer (ok_finalizer ok) (as_meta s).

Definition names_of (f : AppState PS → bool) states : list string :=
  AppState_GetName <$> filter (λ s, f s = true) states.

Lemma names_of_cons f s states :
  names_of f (s :: states) =
  (if f s then [AppState_GetName s] else []) ++ names_of f states.
Proof using Type.
  unfold names_of. rewrite filter_cons. destruct (f s); [by rewrite decide_True|].
  by rewrite decide_False.
Qed.

Lemma classify_spec states p f a :
  classify ok states p f a =
  (p ++ names_of waiting states, f ++ names_of failing states, a ++ names_of held states).
Proof using Type.
  revert p f a. induction states as [|s states IH]; intros p f a.
  { unfold names_of. simpl. by rewrite !app_nil_r. }
  rewrite !names_of_cons. unfold waiting at 1. cbn [classify].
  fold (failing s) (held s).
  destruct (failing s), (held s), (IsBpfAppStateConditionPending (AppState_GetConditions s));
    cbn [negb andb]; rewrite IH; by rewrite <- ?app_assoc, ?app_nil_l.
Qed.

Lemma names_of_nil f states :
  length (names_of f states) = 0%nat ↔ ∀ s, s ∈ states → f s = false.
Proof using Type.
  induction states as [|s states IH]; [split; [|done]; intros _ s Hs; by apply elem_of_nil in Hs|].
  rewrite names_of_cons, length_app. destruct (f s) eqn:Hf; simpl.
  - split; [lia|]. intros Hall. specialize (Hall s ltac:(left)). congruence.
  - rewrite IH. split; [|intros Hall x Hx; apply Hall; by right].
    by intros Hall x [->|Hx]%elem_of_cons; [|apply Hall].
Qed.

(** Every node has a state. *)
Definition covered (nodes : list Node) states : Prop :=
  ∀ n, n ∈ nodes → ∃ s, s ∈ states ∧ state_on n s = true.

Lemma node_missing_false nodes states :
  node_missing nodes states = false ↔ covered nodes states.
Proof using Type.
  unfold node_missing, covered. rewrite <- not_true_iff_false, existsb_exists. split.
  - intros Hno n Hn. destruct (existsb (state_on n) states) eqn:He.
    + apply existsb_exists in He as (s & Hs & Hon). exists s. by rewrite list_elem_of_In.
    + destruct Hno. exists n. by rewrite <- list_elem_of_In, He.
  - intros Hall (n & Hn & He). apply list_elem_of_In, Hall in Hn as (s & Hs & Hon).
    assert (existsb (state_on n) states = true) as Ht; [|by rewrite Ht in He].
    apply existsb_exists. exists s. by rewrite <- list_elem_of_In.
Qed.

Lemma failing_dec states : (∃ s, s ∈ states ∧ failing s = true) ∨ ∀ s, s ∈ states → failing s = false.
Proof using Type.
  destruct (existsb failing states) eqn:He.
  - left. apply existsb_exists in He as (s & Hs & Hf). exists s. by rewrite list_elem_of_In.
  - right. intros s Hs. apply not_true_iff_false. intros Hf.
    assert (existsb failing states = true); [|congruence].
    apply existsb_exists. exists s. by rewrite <- list_elem_of_In.
Qed.

(** The lists the operator gets for [app] in [w]. *)
Definition lists app w states nodes w2 : Prop :=
  ∃ w1, getAppStateList ok (om_Name (app_meta app)) (om_Namespace (app_meta app)) w =
          (Ret (Ok states), w1) ∧ (op_ListNodes (P := P) (PS := PS) w1) = (Ok nodes, w2).

Lemma run_reconcile app w states nodes w2 :
  ContainsFinalizer BpfmanOperatorFinalizer (app_meta app) = true →
  lists app w states nodes w2 →
  reconcileBpfApplication ok app w =
  (if negb (op_isBeingDeleted app) && node_missing nodes states then
     updateStatus (PS := PS) ok (om_Namespace (app_meta app)) (om_Name (app_meta app))
       BpfAppCondPending ""
   else
     if op_isBeingDeleted app then
       if decide (length (names_of held states) = 0%nat) then
         op_removeFinalizer (PS := PS) app BpfmanOperatorFinalizer
       else
         updateStatus (PS := PS) ok (om_Namespace (app_meta app)) (om_Name (app_meta app))
           BpfAppCondDeleteError
           ("Program Deletion failed on the following BpfApplicationState objects: "
              +:+ print_strings (names_of held states))
     else if decide (length (names_of failing states) ≠ 0%nat) then
       updateStatus (PS := PS) ok (om_Namespace (app_meta app)) (om_Name (app_meta app))
         BpfAppCondError
         ("BpfApplication Reconciliation failed on the following BpfApplicationState objects: "
            +:+ print_strings (names_of failing states))
     else if decide (length (names_of waiting states) ≠ 0%nat) then
       updateStatus (PS := PS) ok (om_Namespace (app_meta app)) (om_Name (app_meta app))
         BpfAppCondPending
         ("BpfApplication Reconciliation is pending on the following BpfApplicationState objects: "
            +:+ print_strings (names_of waiting states))
     else updateStatus (PS := PS) ok (om_Namespace (app_meta app)) (om_Name (app_meta app))
            BpfAppCondSuccess "") w2.
Proof.
  intros Hf (w1 & Hs & Hn). unfold reconcileBpfApplication. rewrite Hf. cbn [negb].
  rewrite (run_bind _ _ _ _ _ Hs).
  assert (lift (op_ListNodes (P := P) (PS := PS)) w1 = (Ret (Ok nodes), w2)) as Hl
    by (unfold lift; by rewrite Hn).
  rewrite (run_bind _ _ _ _ _ Hl). rewrite classify_spec, !app_nil_l.
  by destruct (negb (op_isBeingDeleted app) && node_missing nodes states).
Qed.

(** C11: for an application that is not being deleted the operator writes one
    of three conditions: Success exactly when every node has a state and no
    state fails or waits, Error exactly when every node has a state and one
    fails, Pending otherwise. *)
Theorem reconcileBpfApplication_reports app w states nodes w2 :
  ContainsFinalizer BpfmanOperatorFinalizer (app_meta app) = true →
  op_isBeingDeleted app = false → lists app w states nodes w2 →
  ∃ cond message,
    reconcileBpfApplication ok app w =
      updateStatus (PS := PS) ok (om_Namespace (app_meta app)) (om_Name (app_meta app))
        cond message w2 ∧
    (cond = BpfAppCondSuccess ↔
       covered nodes states ∧ ∀ s, s ∈ states → failing s = false ∧ waiting s = false) ∧
    (cond = BpfAppCondError ↔
       covered nodes states ∧ ∃ s, s ∈ states ∧ failing s = true) ∧
    cond ∈ [BpfAppCondSuccess; BpfAppCondError; BpfAppCondPending].
Proof.
  intros Hf Hd Hl. rewrite (run_reconcile _ _ _ _ _ Hf Hl), Hd. cbn [negb andb].
  pose proof (node_missing_false nodes states) as Hcov.
  destruct (node_missing nodes states).
  { exists BpfAppCondPending, "". split; [done|].
    assert (¬ covered nodes states) as Hn by (intros Hc; by apply Hcov in Hc).
    split; [split; [done|by intros [? _]]|]. split; [split; [done|by intros [? _]]|]. set_solver. }
  assert (covered nodes states) as Hc by by apply Hcov.
  pose proof (names_of_nil failing states) as HF. pose proof (names_of_nil waiting states) as HW.
  case_decide as Hfail; [|case_decide as Hwait].
  - eexists BpfAppCondError, _. split; [done|].
    destruct (failing_dec states) as [He|Hno]; [|by apply HF in Hno].
    split; [|split; [by split|set_solver]]. split; [done|]. intros [_ Hall].
    destruct He as (s & Hs & Hfs). destruct (Hall s Hs). congruence.
  - eexists BpfAppCondPending, _. split; [done|].
    rewrite HF in Hfail.
    split; [|split; [|set_solver]]; (split; [done|]).
    + intros [_ Hall]. destruct Hwait. apply HW. intros s Hs. by apply Hall.
    + intros [_ (s & Hs & Hfs)]. rewrite Hfail in Hfs by done. done.
  - eexists BpfAppCondSuccess, _. split; [done|].
    rewrite HF in Hfail. rewrite HW in Hwait.
    split; [|split; [|set_solver]].
    + split; [|done]. intros _. split; [done|]. auto.
    + split; [done|]. intros [_ (s & Hs & Hfs)]. rewrite Hfail in Hfs by done. done.
Qed.

(** The application without the operator's finalizer. *)
Definition without_finalizer app : Application P :=
  let m := app_meta app in
  with_app_meta
    (mkObjectMeta (om_Name m) (om_Namespace m) (om_UID m) (om_ResourceVersion m)
       (om_DeletionTimestamp m) (om_Labels m) (om_Annotations m) (om_OwnerReferences m)
       (filter (λ f, f ≠ BpfmanOperatorFinalizer) (om_Finalizers m))) app.

Lemma reconcile_deletes app w states nodes w2 :
  ContainsFinalizer BpfmanOperatorFinalizer (app_meta app) = true →
  op_isBeingDeleted app = true → lists app w states nodes w2 →
  ((∀ s, s ∈ states → held s = false) ∧
   reconcileBpfApplication ok app w =
     (Ret (Ok (match (op_Update (PS := PS) (without_finalizer app) w2).1 with
               | Some _ => retryDurationOperator
               | None => 0
               end)), (op_Update (PS := PS) (without_finalizer app) w2).2)) ∨
  (∃ s, s ∈ states ∧ held s = true ∧
     reconcileBpfApplication ok app w =
       updateStatus (PS := PS) ok (om_Namespace (app_meta app)) (om_Name (app_meta app))
         BpfAppCondDeleteError
         ("Program Deletion failed on the following BpfApplicationState objects: "
            +:+ print_strings (names_of held states)) w2).
Proof.
  intros Hf Hd Hl. rewrite (run_reconcile _ _ _ _ _ Hf Hl), Hd. cbn [negb andb].
  pose proof (names_of_nil held states) as Hnil. case_decide as Hh.
  - left. split; [by apply Hnil|].
    unfold op_removeFinalizer, RemoveFinalizer. fold (without_finalizer app).
    rewrite bool_decide_eq_true_2.
    + unfold mbind, GoM_bind. by rewrite run_lift.
    + apply not_eq_sym, Nat.lt_neq. apply bool_decide_eq_true in Hf.
      eapply length_filter_lt; [exact Hf|]. intros Hx. by destruct Hx.
  - right. destruct (existsb held states) eqn:He.
    + apply existsb_exists in He as (s & Hs & Hhs). exists s.
      split; [by apply list_elem_of_In|done].
    + destruct Hh. apply Hnil. intros s Hs. apply not_true_iff_false. intros Hhs.
      assert (existsb held states = true); [|congruence].
      apply existsb_exists. exists s. by rewrite <- list_elem_of_In.
Qed.

(** The state objects that the operator asks for. *)
Definition list_states app w : result (list (AppState PS)) * W :=
  op_ListStates (P := P) (ok_listNamespace ok (om_Namespace (app_meta app)))
    {[BpfAppStateOwner := om_Name (app_meta app)]} w.

Lemma run_list_states app w res w1 :
  list_states app w = (res, w1) →
  getAppStateList (P := P) ok (om_Name (app_meta app)) (om_Namespace (app_meta app)) w = (Ret res, w1).
Proof. unfold list_states, getAppStateList. intros Hl. by rewrite run_lift, Hl. Qed.

Lemma run_reconcile_no_states app w e w1 :
  ContainsFinalizer BpfmanOperatorFinalizer (app_meta app) = true →
  list_states app w = (Err e, w1) → reconcileBpfApplication ok app w = (Ret (Ok 0), w1).
Proof.
  intros Hf Hl%run_list_states. unfold reconcileBpfApplication. rewrite Hf. cbn [negb].
  by rewrite (run_bind _ _ _ _ _ Hl).
Qed.

Lemma run_reconcile_no_nodes app w states w1 e w2 :
  ContainsFinalizer BpfmanOperatorFinalizer (app_meta app) = true →
  list_states app w = (Ok states, w1) → op_ListNodes (P := P) (PS := PS) w1 = (Err e, w2) →
  reconcileBpfApplication ok app w = (Ret (Ok retryDurationOperator), w2).
Proof.
  intros Hf Hl%run_list_states Hn. unfold reconcileBpfApplication. rewrite Hf. cbn [negb].
  rewrite (run_bind _ _ _ _ _ Hl). unfold mbind, GoM_bind. by rewrite run_lift, Hn.
Qed.

Lemma lists_intro app w states w1 nodes w2 :
  list_states app w = (Ok states, w1) → op_ListNodes (P := P) (PS := PS) w1 = (Ok nodes, w2) →
  lists app w states nodes w2.
Proof. intros Hl%run_list_states Hn. by exists w1. Qed.

(** C12: what the operator does of an application that is being deleted, whatever the
    server answers: when the states or the nodes cannot be listed it does nothing (and
    tries again only in the second case); when a state carries the agent's finalizer it
    reports which do; only when the list of the states has come and none of them carries
    it, it writes the application without its own finalizer and otherwise unchanged. *)
Theorem reconcileBpfApplication_deletes app w :
  ContainsFinalizer BpfmanOperatorFinalizer (app_meta app) = true →
  op_isBeingDeleted app = true →
  match list_states app w with
  | (Err _, w1) => reconcileBpfApplication ok app w = (Ret (Ok 0), w1)
  | (Ok states, w1) =>
      match op_ListNodes (P := P) (PS := PS) w1 with
      | (Err _, w2) => reconcileBpfApplication ok app w = (Ret (Ok retryDurationOperator), w2)
      | (Ok _, w2) =>
          ((∀ s, s ∈ states → held s = false) ∧
           let '(err, w3) := op_Update (PS := PS) (without_finalizer app) w2 in
           reconcileBpfApplication ok app w =
             (Ret (Ok (match err with Some _ => retryDurationOperator | None => 0 end)), w3)) ∨
          ((∃ s, s ∈ states ∧ held s = true) ∧
           reconcileBpfApplication ok app w =
             updateStatus (PS := PS) ok (om_Namespace (app_meta app)) (om_Name (app_meta app))
               BpfAppCondDeleteError
               ("Program Deletion failed on the following BpfApplicationState objects: "
                  +:+ print_strings (names_of held states)) w2)
      end
  end.
Proof.
  intros Hf Hd. destruct (list_states app w) as [[states|e] w1] eqn:Hl;
    [|by eapply run_reconcile_no_states].
  destruct (op_ListNodes w1) as [[nodes|e] w2] eqn:Hn; [|by eapply run_reconcile_no_nodes].
  destruct (reconcile_deletes app w states nodes w2 Hf Hd) as [[Hno Hrun]|(s & Hs & Hh & Hrun)].
  - by eapply lists_intro.
  - left. split; [done|]. by destruct (op_Update (PS := PS) (without_finalizer app) w2).
  - right. split; [by exists s|done].
Qed.

(** ** The condition *)

(** The condition types an application can have. *)
Definition app_cond (t : BpfApplicationConditionType) : bool :=
  bool_decide (t ∈ [BpfAppCondPending; BpfAppCondSuccess; BpfAppCondError;
                    BpfAppCondDeleteError]).

Lemma app_cond_Type t message :
  app_cond t = true → cond_Type (BpfApplicationConditionType_Condition t message) = t.
Proof using Type.
  unfold app_cond. rewrite bool_decide_eq_true, !elem_of_cons, elem_of_nil.
  by intros [->|[->|[->|[->|[]]]]].
Qed.

(** The condition update does nothing when the one condition there is has
    the type already, whatever the message (which then stays as it was); in
    every other case it writes the application with exactly one condition, of
    that type and with that message. *)
Theorem updateCondition_spec obj t message w :
  app_cond t = true →
  (∃ c, app_Conditions obj = Some [c] ∧ cond_Type c = t ∧
     updateCondition (PS := PS) obj t message w = (Ret (Ok 0), w)) ∨
  (¬ (∃ c, app_Conditions obj = Some [c] ∧ cond_Type c = t) ∧
   ∃ c w1 res, cond_Type c = t ∧
     cond_Message c = cond_Message (BpfApplicationConditionType_Condition t message) ∧
     updateCondition (PS := PS) obj t message w =
       (Ret (Ok res), (op_StatusUpdate (PS := PS) (with_app_Conditions (Some [c]) obj) w1).2)).
Proof.
  intros Ht. pose proof (app_cond_Type t message Ht) as HT.
  assert (∀ now cs, elems cs = [] → ∃ c,
    SetStatusCondition now cs (BpfApplicationConditionType_Condition t message) = Some [c] ∧
    cond_Type c = t ∧
    cond_Message c = cond_Message (BpfApplicationConditionType_Condition t message)) as Hset.
  { intros now cs Hcs. unfold SetStatusCondition, go_append. rewrite Hcs. simpl.
    destruct (cond_LastTransitionTime _); eexists; by repeat split. }
  unfold updateCondition. destruct (elems (app_Conditions obj)) as [|c0 cs] eqn:Hel.
  - right. split; [intros (c & Hs & _); by rewrite Hs in Hel|].
    destruct (Hset (op_Now (P := P) (PS := PS) w).1 (app_Conditions obj) Hel) as (c & Hc & ? & ?).
    eexists c, _, _. split; [done|]. split; [done|]. unfold mbind, GoM_bind.
    rewrite run_lift, Hc, run_lift. reflexivity.
  - assert (cs = [] → app_Conditions obj = Some [c0]) as Hone.
    { intros ->. destruct (app_Conditions obj); simpl in Hel; congruence. }
    assert (∀ now, ∃ c, SetStatusCondition now None
      (BpfApplicationConditionType_Condition t message) = Some [c] ∧ cond_Type c = t ∧
      cond_Message c = cond_Message (BpfApplicationConditionType_Condition t message)) as Hset'
      by (intros now; by apply Hset).
    destruct (Hset' (op_Now (P := P) (PS := PS) w).1) as (c & Hc & ? & ?).
    destruct cs as [|c1 cs]; [case_decide as Hc0|].
    + left. exists c0. split; [by apply Hone|]. by split.
    + right. split; [intros (x & Hs & Hx); rewrite Hone in Hs by done; congruence|].
      eexists c, _, _. split; [done|]. split; [done|]. unfold mbind, GoM_bind.
      rewrite run_lift, Hc, run_lift. reflexivity.
    + right. split; [intros (x & Hs & _); by rewrite Hs in Hel|].
      eexists c, _, _. split; [done|]. split; [done|]. unfold mbind, GoM_bind.
      rewrite run_lift, Hc, run_lift. reflexivity.
Qed.

(** ** The watch *)

(** An update of a state that the watch drops cannot change the
    operator's decision: with the old or the new object among the states, the
    same ones fail, wait and are held, and the same nodes are covered. *)
Theorem dropped_update_irrelevant (old new : AppState PS) before after nodes :
  statusChangedPredicate ok (UpdateEvent old new) = false →
  AppState_GetName old = AppState_GetName new →
  AppState_GetLabels old = AppState_GetLabels new →
  classify ok (before ++ old :: after) [] [] [] = classify ok (before ++ new :: after) [] [] [] ∧
  node_missing nodes (before ++ old :: after) = node_missing nodes (before ++ new :: after).
Proof.
  unfold statusChangedPredicate, deep_equal. intros [Hc Hf]%orb_false_iff Hn Hlab.
  apply negb_false_iff, bool_decide_eq_true in Hc. apply negb_false_iff, eqb_prop in Hf.
  rewrite !classify_spec. split.
  - assert (∀ f, f old = f new →
      names_of f (before ++ old :: after) = names_of f (before ++ new :: after)) as Hsame.
    { intros f Hfe. unfold names_of. rewrite !filter_app, !fmap_app. f_equal.
      fold (names_of f (old :: after)) (names_of f (new :: after)).
      by rewrite !names_of_cons, Hfe, Hn. }
    rewrite !Hsame; [done| | |]; unfold waiting, failing, held; by rewrite ?Hc, ?Hf.
  - unfold node_missing. induction nodes as [|n nodes IH]; [done|]. cbn [existsb].
    rewrite IH, !existsb_app. cbn [existsb]. do 3 f_equal.
    assert (state_on n old = state_on n new) as -> by (unfold state_on; by rewrite Hlab).
    done.
Qed.
End operator.
