(* ===== verification/Protocol.v ===== *)
(** The agents and the operator on one API server: any interleaving of their Reconciles
    with the steps of users and of the cluster keeps the state objects well-formed, and
    so the operator does not let an application go while a node records one of its
    programs as loaded. *)

From S2P Require Import Prelude ApiTypes Constants Bpfman Selectors Links.
From S2P Require Import ClKinds NsKinds Application Apps AppSpecs Keeps Typing Operator.
From S2P Require Import OperatorSpecs.
From stdpp Require Import options.
#[local] Set Default Proof Using "Type*".

(** ** The operator's calls *)

(** What [TypedStore] says of the agent's calls, for the operator's: its writes keep
    [I] when they are of applications as [live] has them. *)
Class OperatorStore {W P PS} `{!AgentEnv W, !ProgramState PS, !OperatorAPI W P PS}
    (ak : AppKind W P PS) `{!AppKindLaws ak, !TypedScope ak} (live : owner → bool)
    (I : W → Prop) : Prop := {
  ostore_GetApp ns name w :
    I w → I (op_GetApp ns name w).2 ∧
          ∀ app, (op_GetApp ns name w).1 = Got app →
            op_isBeingDeleted app = negb (live (app_owner ak app));
  ostore_GetState ns name w : I w → I (op_GetState ns name w).2;
  ostore_ListStates ns l w :
    I w → I (op_ListStates ns l w).2 ∧
          ∀ ans, (op_ListStates ns l w).1 = Ok ans → Forall (well_formed ak live) ans;
  ostore_ListNodes w : I w → I (op_ListNodes w).2;
  ostore_Now w : I w → I (op_Now w).2;
  ostore_Update app w :
    I w → op_isBeingDeleted app = negb (live (app_owner ak app)) → I (op_Update app w).2;
  ostore_StatusUpdate app w :
    I w → op_isBeingDeleted app = negb (live (app_owner ak app)) → I (op_StatusUpdate app w).2;
}.

(** The namespace of an application's states is that of the application. *)
Class OwnedScope {W P PS} (ak : AppKind W P PS) : Prop := {
  namespace_of_meta (app app' : Application P) :
    om_Namespace (app_meta app) = om_Namespace (app_meta app') →
    ak_namespace ak app = ak_namespace ak app';
}.

Section operator.
Context {W P PS : Type} `{!AgentEnv W, !ProgramState PS, !OperatorAPI W P PS}
  (ok : OperKind) (ak : AppKind W P PS) `{!AppKindLaws ak, !TypedScope ak, !OwnedScope ak}
  (live : owner → bool) (I : W → Prop) `{!OperatorStore ak live I}.
Implicit Types app : Application P.
Abbreviation any := (λ _, True).

Definition as_live app : Prop := op_isBeingDeleted app = negb (live (app_owner ak app)).

(** A write of an application changes neither its identity nor its deletion. *)
Lemma as_live_meta app app' :
  om_Name (app_meta app') = om_Name (app_meta app) →
  om_Namespace (app_meta app') = om_Namespace (app_meta app) →
  om_DeletionTimestamp (app_meta app') = om_DeletionTimestamp (app_meta app) →
  as_live app → as_live app'.
Proof.
  intros Hn Hns Hd. unfold as_live, op_isBeingDeleted, app_owner.
  by rewrite Hn, Hd, (namespace_of_meta app' app Hns).
Qed.

Lemma keeps_GetApp ns name :
  keeps I (lift (op_GetApp ns name)) (λ res, ∀ app, res = Got app → as_live app).
Proof. apply keeps_lift. intros w. apply ostore_GetApp. Qed.

Lemma keeps_op_updateCondition app c m :
  as_live app → keeps I (updateCondition (PS := PS) app c m) any.
Proof.
  intros Ha. unfold updateCondition.
  assert (Hset : ∀ cs, keeps I
    (now ← lift (op_Now (P := P) (PS := PS));
     err ← lift (op_StatusUpdate (with_app_Conditions
             (SetStatusCondition now cs (BpfApplicationConditionType_Condition c m)) app));
     mret (Ok (match err with Some _ => retryDurationOperator | None => 0 end))) any).
  { intros cs. apply keeps_then; [apply keeps_call, ostore_Now|]. intros now.
    apply keeps_then; [|intros err; by apply keeps_ret].
    apply keeps_call. intros w Hw. apply ostore_StatusUpdate; [done|].
    by apply (as_live_meta app). }
  destruct (elems _) as [|x [|y l]]; [apply Hset| |apply Hset].
  destruct (decide _); [by apply keeps_ret|apply Hset].
Qed.

Lemma keeps_op_updateStatus ns name c m :
  keeps I (updateStatus (P := P) (PS := PS) ok ns name c m) any.
Proof.
  unfold updateStatus. eapply keeps_bind; [apply keeps_GetApp|].
  intros [app| |e] Happ; [|by apply keeps_ret..]. by apply keeps_op_updateCondition, Happ.
Qed.

Lemma keeps_op_addFinalizer app f :
  as_live app → keeps I (op_addFinalizer (PS := PS) app f) any.
Proof.
  intros Ha. unfold op_addFinalizer. apply keeps_then; [|intros err; by apply keeps_ret].
  apply keeps_call. intros w Hw. apply ostore_Update; [done|].
  apply (as_live_meta app); [..|exact Ha]; cbn; unfold AddFinalizer; by destruct (decide _).
Qed.

Lemma keeps_op_removeFinalizer app f :
  as_live app → keeps I (op_removeFinalizer (PS := PS) app f) any.
Proof.
  intros Ha. unfold op_removeFinalizer, RemoveFinalizer.
  destruct (bool_decide _); [|by apply keeps_ret].
  apply keeps_then; [|intros err; by apply keeps_ret].
  apply keeps_call. intros w Hw. apply ostore_Update; [done|]. by apply (as_live_meta app).
Qed.

Lemma keeps_reconcileBpfApplication app :
  as_live app → keeps I (reconcileBpfApplication ok app) any.
Proof.
  intros Ha. unfold reconcileBpfApplication, getAppStateList.
  destruct (negb _); [by apply keeps_op_addFinalizer|].
  apply keeps_then; [apply keeps_call; intros w Hw; exact (proj1 (ostore_ListStates (I := I) _ _ w Hw))|].
  intros [states|e]; [|by apply keeps_ret].
  apply keeps_then; [apply keeps_call, ostore_ListNodes|].
  intros [nodes|e]; [|by apply keeps_ret].
  destruct (_ && _); [apply keeps_op_updateStatus|].
  destruct (classify _ _ _ _ _) as [[pending failed] applied].
  repeat (case_match || case_decide); by auto using keeps_op_updateStatus, keeps_op_removeFinalizer.
Qed.

Lemma keeps_op_Reconcile ns name : keeps I (op_Reconcile (P := P) (PS := PS) ok ns name) any.
Proof.
  unfold op_Reconcile. eapply keeps_bind; [apply keeps_GetApp|].
  intros [app| |e] Happ; [by apply keeps_reconcileBpfApplication, Happ| |by apply keeps_ret].
  apply keeps_then; [apply keeps_call, ostore_GetState|].
  intros [an| |e]; [|by apply keeps_ret..].
  destruct (GetControllerOf _); [|by apply keeps_ret].
  eapply keeps_bind; [apply keeps_GetApp|].
  intros [app| |e] Ho; [|by apply keeps_ret..]. by apply keeps_reconcileBpfApplication, Ho.
Qed.
End operator.

(** ** Interleavings *)

Section protocol.
Context {W P PS : Type} `{!AgentEnv W, !LabelLib, !BytecodeLib W, !ApplicationAPI W P PS,
  !OperatorAPI W P PS, !ProgramState PS, !ProgramStateLaws PS, !EqDecision PS}
  (ok : OperKind) (ak : AppKind W P PS)
  `{!AppKindLaws ak, !TypedScope ak, !OwnedScope ak}.
(** What users, the garbage collector and the kubelet do, which node's agent runs next
    included. *)
Variable other : W → W → Prop.

Inductive step : W → W → Prop :=
  | agent_step NodeName req w : step w (Reconcile ak NodeName req w).2
  | operator_step ns name w : step w (op_Reconcile (P := P) (PS := PS) ok ns name w).2
  | other_step w w' : other w w' → step w w'.

Variable I : (owner → bool) → W → Prop.
Context `{HT : ∀ live, TypedStore ak live (I live), HO : ∀ live, OperatorStore ak live (I live)}.
Hypothesis other_keeps : ∀ w w' live, other w w' → I live w → ∃ live', I live' w'.

Lemma step_keeps w w' : step w w' → (∃ live, I live w) → ∃ live, I live w'.
Proof.
  intros [NodeName req w1|ns name w1|w1 w2 Hother] [live Hw].
  - exists live. by apply (keeps_Reconcile ak live (I live) NodeName req w1).
  - exists live. by apply (keeps_op_Reconcile ok ak live (I live) ns name w1).
  - exact (other_keeps _ _ live Hother Hw).
Qed.

Lemma steps_keep w w' : rtc step w w' → (∃ live, I live w) → ∃ live, I live w'.
Proof. induction 1; [done|]. intros Hw. eauto using step_keeps. Qed.

Lemma listed_well_formed live w app states w1 :
  I live w → list_states ok app w = (Ok states, w1) → Forall (well_formed ak live) states.
Proof.
  intros Hw Hl. unfold list_states in Hl.
  apply (ostore_ListStates (ok_listNamespace ok (om_Namespace (app_meta app)))
    {[BpfAppStateOwner := om_Name (app_meta app)]} w Hw). by rewrite Hl.
Qed.

End protocol.

(** ** The two scopes *)

Section scopes.
Context {W : Type} `{!AgentEnv W}.

#[export] Instance ClApp_owned : OwnedScope (W := W) ClApp.app_kind.
Proof. by split. Qed.

#[export] Instance NsApp_owned : OwnedScope (W := W) NsApp.app_kind.
Proof. split. intros app app' Hns. cbn. by rewrite Hns. Qed.
End scopes.
