(* ===== verification/ConfigTypes.v ===== *)
(** The bpfman configuration: the Config resource (apis/v1alpha1/config_types.go),
    the names of the resources the operator keeps for it (internal/constants.go),
    these resources, and the API server as the configuration controller uses it.
    The Kubernetes objects have the fields the controller writes or compares;
    whatever else they have is in a field of the type [OtherFields]. *)

From S2P Require Import Prelude ApiTypes Constants Operator.
From stdpp Require Import options.

(** ** config_types.go *)

Record ComponentOverride := mkComponentOverride {
  APIVersion : string;
  ov_Kind : string;
  ov_Namespace : string;
  ov_Name : string;
  Unmanaged : bool;
}.

Record AgentSpec := mkAgentSpec {
  HealthProbePort : Z;
  ag_Image : string;
  ag_LogLevel : string;
}.

Record DaemonSpec := mkDaemonSpec {
  CsiRegistrarImage : string;
  dm_Image : string;
  dm_LogLevel : string;
}.

Record ConfigSpec := mkConfigSpec {
  Agent : AgentSpec;
  Configuration : string;
  Daemon : DaemonSpec;
  cs_Namespace : string;
  Overrides : list ComponentOverride;
}.

Record Config := mkConfig {
  cfg_meta : ObjectMeta;
  Spec : ConfigSpec;
}.

(** ** internal/constants.go: the names of the resources *)

Definition BpfmanNamespace : string := "bpfman".
Definition BpfmanDsName : string := "bpfman-daemon".
Definition BpfmanMetricsProxyDsName : string := "bpfman-metrics-proxy".
Definition BpfmanConfigName : string := "bpfman-config".
Definition BpfmanCmName : string := "bpfman-config".
Definition BpfmanCsiDriverName : string := "csi.bpfman.io".
Definition BpfmanRestrictedSccName : string := "bpfman-restricted".
Definition BpfmanAgentServiceMonitorName : string := "bpfman-agent-metrics-monitor".
Definition BpfmanControllerServiceMonitorName : string :=
  "bpfman-controller-manager-metrics-monitor".
Definition BpfmanAgentMetricsServiceName : string := "bpfman-agent-metrics-service".
Definition BpfmanControllerMetricsServiceName : string :=
  "bpfman-controller-manager-metrics-service".
Definition BpfmanContainerName : string := "bpfman".
Definition BpfmanAgentContainerName : string := "bpfman-agent".
Definition BpfmanInitContainerName : string := "mount-bpffs".
Definition BpfmanCsiDriverRegistrarName : string := "node-driver-registrar".
Definition BpfmanMetricsProxyContainer : string := "metrics-proxy".
Definition BpfmanPrivilegedSccClusterRoleBindingName : string := "bpfman-privileged-scc".
Definition BpfmanUserClusterRoleName : string := "bpfman-user".
Definition BpfmanPrometheusClusterRoleBindingName : string := "bpfman-prometheus-metrics-reader".
Definition BpfmanPrometheusRoleName : string := "bpfman-prometheus-k8s".
Definition BpfmanPrometheusRoleBindingName : string := "bpfman-prometheus-k8s".
Definition BpfmanTOML : string := "bpfman.toml".
Definition BpfmanLogLevel : string := "bpfman.log.level".
Definition BpfmanAgentLogLevel : string := "bpfman.agent.log.level".
Definition APIPrefix : string := "bpfman.io".

(** ** Kubernetes objects *)

(** The fields of an object that the controller neither sets nor looks at one by
    one, as their JSON text: empty when they all have their zero value. *)
Definition OtherFields : Type := string.
Definition no_other : OtherFields := "".

Record ConfigMap := mkConfigMap {
  cm_meta : ObjectMeta;
  cm_Data : gmap string string;
  cm_other : OtherFields;
}.

Record CSIDriver := mkCSIDriver {
  csi_meta : ObjectMeta;
  csi_Spec : OtherFields;
  csi_other : OtherFields;
}.

Record SecurityContextConstraints := mkSCC {
  scc_meta : ObjectMeta;
  AllowHostDirVolumePlugin : bool;
  AllowHostIPC : bool;
  AllowHostNetwork : bool;
  AllowHostPID : bool;
  AllowHostPorts : bool;
  AllowPrivilegeEscalation : option bool;
  AllowPrivilegedContainer : bool;
  RequiredDropCapabilities : list string;
  RunAsUser_Type : string;
  SELinuxContext_Type : string;
  SupplementalGroups_Type : string;
  FSGroup_Type : string;
  scc_Volumes : list string;
  scc_other : OtherFields;
}.

Record VolumeMount := mkVolumeMount {
  vm_Name : string;
  MountPath : string;
  ReadOnly : bool;
  vm_other : OtherFields;
}.

Record Volume := mkVolume {
  vol_Name : string;
  vol_Secret : option (string * option Z);
  vol_other : OtherFields;
}.

Record K8sContainer := mkK8sContainer {
  ct_Name : string;
  ct_Image : string;
  ct_Args : list string;
  ct_ImagePullPolicy : string;
  ct_VolumeMounts : list VolumeMount;
  ct_other : OtherFields;
}.

Record PodSpec := mkPodSpec {
  InitContainers : list K8sContainer;
  ps_Containers : list K8sContainer;
  ps_Volumes : list Volume;
  AutomountServiceAccountToken : option bool;
  ps_other : OtherFields;
}.

Record PodTemplate := mkPodTemplate {
  tpl_Annotations : gmap string string;
  tpl_other : OtherFields;
  tpl_Spec : PodSpec;
}.

Record DaemonSet := mkDaemonSet {
  ds_meta : ObjectMeta;
  ds_Template : PodTemplate;
  ds_spec_other : OtherFields;
  ds_other : OtherFields;
}.

Record ServicePort := mkServicePort {
  sp_Name : string;
  sp_Port : Z;
  sp_Protocol : string;
  sp_TargetPort : string;
  sp_other : OtherFields;
}.

Record Service := mkService {
  svc_meta : ObjectMeta;
  ClusterIP : string;
  ClusterIPs : list string;
  Ports : list ServicePort;
  svc_Selector : gmap string string;
  svc_spec_other : OtherFields;
  svc_other : OtherFields;
}.

Record TLSConfig := mkTLSConfig {
  CAFile : string;
  ServerName : option string;
  InsecureSkipVerify : option bool;
  tls_other : OtherFields;
}.

Record Endpoint := mkEndpoint {
  ep_Path : string;
  ep_Port : string;
  ep_Scheme : option string;
  BearerTokenFile : string;
  ep_TLSConfig : option TLSConfig;
  ep_other : OtherFields;
}.

Record ServiceMonitor := mkServiceMonitor {
  sm_meta : ObjectMeta;
  Endpoints : list Endpoint;
  sm_MatchLabels : gmap string string;
  sm_selector_other : OtherFields;
  sm_other : OtherFields;
}.

Record K8sNamespace := mkK8sNamespace {
  ns_meta : ObjectMeta;
  ns_other : OtherFields;
}.

Record RoleRef := mkRoleRef {
  rr_APIGroup : string;
  rr_Kind : string;
  rr_Name : string;
}.

Record Subject := mkSubject {
  sj_Kind : string;
  sj_Name : string;
  sj_Namespace : string;
  sj_other : OtherFields;
}.

Record PolicyRule := mkPolicyRule {
  Verbs : list string;
  APIGroups : list string;
  Resources : list string;
  ResourceNames : list string;
  NonResourceURLs : list string;
}.

(** ClusterRoleBinding and RoleBinding *)
Record Binding := mkBinding {
  bd_meta : ObjectMeta;
  bd_RoleRef : RoleRef;
  bd_Subjects : list Subject;
  bd_other : OtherFields;
}.

(** ClusterRole and Role *)
Record Role := mkRole {
  ro_meta : ObjectMeta;
  Rules : list PolicyRule;
  ro_other : OtherFields;
}.

#[export] Instance VolumeMount_eq_dec : EqDecision VolumeMount.
Proof. solve_decision. Defined.
#[export] Instance Volume_eq_dec : EqDecision Volume.
Proof. solve_decision. Defined.
#[export] Instance K8sContainer_eq_dec : EqDecision K8sContainer.
Proof. solve_decision. Defined.
#[export] Instance PodSpec_eq_dec : EqDecision PodSpec.
Proof. solve_decision. Defined.
#[export] Instance PodTemplate_eq_dec : EqDecision PodTemplate.
Proof. solve_decision. Defined.
#[export] Instance ServicePort_eq_dec : EqDecision ServicePort.
Proof. solve_decision. Defined.
#[export] Instance TLSConfig_eq_dec : EqDecision TLSConfig.
Proof. solve_decision. Defined.
#[export] Instance Endpoint_eq_dec : EqDecision Endpoint.
Proof. solve_decision. Defined.
#[export] Instance RoleRef_eq_dec : EqDecision RoleRef.
Proof. solve_decision. Defined.
#[export] Instance Subject_eq_dec : EqDecision Subject.
Proof. solve_decision. Defined.
#[export] Instance PolicyRule_eq_dec : EqDecision PolicyRule.
Proof. solve_decision. Defined.
#[export] Instance ObjectMeta_eq_dec : EqDecision ObjectMeta.
Proof. solve_decision. Defined.
#[export] Instance SCC_eq_dec : EqDecision SecurityContextConstraints.
Proof. solve_decision. Defined.

(** The types of objects the controller asks the API server for. *)
Inductive RKind :=
  | KConfig | KConfigMap | KCSIDriver | KSCC | KDaemonSet | KService | KServiceMonitor
  | KNamespace | KClusterRoleBinding | KClusterRole | KRole | KRoleBinding.

#[export] Instance RKind_eq_dec : EqDecision RKind.
Proof. solve_decision. Defined.

Definition obj (k : RKind) : Type :=
  match k with
  | KConfig => Config | KConfigMap => ConfigMap | KCSIDriver => CSIDriver
  | KSCC => SecurityContextConstraints | KDaemonSet => DaemonSet | KService => Service
  | KServiceMonitor => ServiceMonitor | KNamespace => K8sNamespace
  | KClusterRoleBinding | KRoleBinding => Binding
  | KClusterRole | KRole => Role
  end.

Definition obj_meta {k : RKind} : obj k → ObjectMeta :=
  match k with
  | KConfig => cfg_meta | KConfigMap => cm_meta | KCSIDriver => csi_meta
  | KSCC => scc_meta | KDaemonSet => ds_meta | KService => svc_meta
  | KServiceMonitor => sm_meta | KNamespace => ns_meta
  | KClusterRoleBinding | KRoleBinding => bd_meta
  | KClusterRole | KRole => ro_meta
  end.

Definition with_scc_meta (m : ObjectMeta) (x : SecurityContextConstraints)
    : SecurityContextConstraints :=
  mkSCC m (AllowHostDirVolumePlugin x) (AllowHostIPC x) (AllowHostNetwork x) (AllowHostPID x)
    (AllowHostPorts x) (AllowPrivilegeEscalation x) (AllowPrivilegedContainer x)
    (RequiredDropCapabilities x) (RunAsUser_Type x) (SELinuxContext_Type x)
    (SupplementalGroups_Type x) (FSGroup_Type x) (scc_Volumes x) (scc_other x).

Definition set_obj_meta {k : RKind} (m : ObjectMeta) : obj k → obj k :=
  match k return obj k → obj k with
  | KConfig => λ x, mkConfig m (Spec x)
  | KConfigMap => λ x, mkConfigMap m (cm_Data x) (cm_other x)
  | KCSIDriver => λ x, mkCSIDriver m (csi_Spec x) (csi_other x)
  | KSCC => with_scc_meta m
  | KDaemonSet => λ x, mkDaemonSet m (ds_Template x) (ds_spec_other x) (ds_other x)
  | KService => λ x,
      mkService m (ClusterIP x) (ClusterIPs x) (Ports x) (svc_Selector x) (svc_spec_other x)
        (svc_other x)
  | KServiceMonitor => λ x,
      mkServiceMonitor m (Endpoints x) (sm_MatchLabels x) (sm_selector_other x) (sm_other x)
  | KNamespace => λ x, mkK8sNamespace m (ns_other x)
  | KClusterRoleBinding | KRoleBinding => λ x,
      mkBinding m (bd_RoleRef x) (bd_Subjects x) (bd_other x)
  | KClusterRole | KRole => λ x, mkRole m (Rules x) (ro_other x)
  end.

Lemma obj_meta_set {k} m (x : obj k) : obj_meta (set_obj_meta m x) = m.
Proof. by destruct k. Qed.

Lemma set_obj_meta_set {k} m m' (x : obj k) :
  set_obj_meta m (set_obj_meta m' x) = set_obj_meta m x.
Proof. by destruct k. Qed.

Lemma set_obj_meta_same {k} (x : obj k) : set_obj_meta (obj_meta x) x = x.
Proof. by destruct k, x. Qed.

(** ObjectMeta, a field at a time. *)
Definition set_ResourceVersion (v : string) (m : ObjectMeta) : ObjectMeta :=
  mkObjectMeta (om_Name m) (om_Namespace m) (om_UID m) v (om_DeletionTimestamp m) (om_Labels m)
    (om_Annotations m) (om_OwnerReferences m) (om_Finalizers m).
Definition set_Name (name : string) (m : ObjectMeta) : ObjectMeta :=
  mkObjectMeta name (om_Namespace m) (om_UID m) (om_ResourceVersion m) (om_DeletionTimestamp m)
    (om_Labels m) (om_Annotations m) (om_OwnerReferences m) (om_Finalizers m).
Definition set_Namespace (ns : string) (m : ObjectMeta) : ObjectMeta :=
  mkObjectMeta (om_Name m) ns (om_UID m) (om_ResourceVersion m) (om_DeletionTimestamp m)
    (om_Labels m) (om_Annotations m) (om_OwnerReferences m) (om_Finalizers m).
Definition set_Labels (l : gmap string string) (m : ObjectMeta) : ObjectMeta :=
  mkObjectMeta (om_Name m) (om_Namespace m) (om_UID m) (om_ResourceVersion m)
    (om_DeletionTimestamp m) l (om_Annotations m) (om_OwnerReferences m) (om_Finalizers m).
Definition set_Annotations (a : gmap string string) (m : ObjectMeta) : ObjectMeta :=
  mkObjectMeta (om_Name m) (om_Namespace m) (om_UID m) (om_ResourceVersion m)
    (om_DeletionTimestamp m) (om_Labels m) a (om_OwnerReferences m) (om_Finalizers m).

(** ObjectMeta{Name, Namespace, Labels} *)
Definition named (name ns : string) (labels : gmap string string) : ObjectMeta :=
  set_Labels labels (set_Namespace ns (set_Name name emptyObjectMeta)).

(** ** The API server and the rest of the outside *)

Record GroupVersionKind := mkGroupVersionKind {
  gvk_Group : string;
  gvk_Version : string;
  gvk_Kind : string;
}.

(** The controller-runtime client and scheme, the decoder of manifests
    ([UniversalDeserializer().Decode] into an object: [None] is an object of
    another type), the files and the environment of the process. *)
Class ConfigAPI (W : Type) := {
  api_Get : ∀ k, string → string → W → got (obj k) * W;
  api_Create : ∀ k, obj k → W → option error * W;
  api_Update : ∀ k, obj k → W → option error * W;
  SetControllerReference : Config → ∀ k, obj k → result (obj k);
  ObjectKinds : RKind → result (list GroupVersionKind);
  decode : ∀ k, string → obj k → result (option (obj k));
  read_file : string → W → result string * W;
  Getenv : string → W → string * W;
}.
