(* ===== verification/Config.v ===== *)
(** The bpfman configuration controller (controllers/bpfman-operator/config.go):
    assureResource, which brings one resource to its desired form, the desired
    forms of the resources, and Reconcile, which assures them one after the
    other. A [ctrl.Result] is always the zero one here, so a method returns its
    error only. *)

From Stdlib Require Import Ascii.
From S2P Require Import Prelude ApiTypes Constants Application Operator ConfigTypes.
From stdpp Require Import options.

(** schema.ParseGroupVersion of the vendored apimachinery, its group. *)
Fixpoint split_slash (s : string) : option (string * string) :=
  match s with
  | EmptyString => None
  | String.String c s' =>
      if decide (c = "/"%char) then Some ("", s')
      else (λ '(a, b), (String.String c a, b)) <$> split_slash s'
  end.

Definition ParseGroupVersion (gv : string) : result (string * string) :=
  if decide (gv = "" ∨ gv = "/") then Ok ("", "")
  else
    match split_slash gv with
    | None => Ok ("", gv)
    | Some (group, version) =>
        match split_slash version with
        | None => Ok (group, version)
        | Some _ => Err ("unexpected GroupVersion string: " +:+ gv)
        end
    end.

(** The next call unless this one failed. *)
Definition and_then {W} (m k : GoM W (option error)) : GoM W (option error) :=
  err ← m;
  match err with Some e => mret (Some e) | None => k end.
Infix "?;" := and_then (at level 85, right associativity).

(** The type BpfmanConfigReconciler *)
Record BpfmanConfigReconciler := mkBpfmanConfigReconciler {
  BpfmanStandardDS : string;
  BpfmanMetricsProxyDS : string;
  CsiDriverDS : string;
  IsOpenshift : bool;
  HasMonitoring : bool;
}.

Section config.
Context {W : Type} `{!ConfigAPI W}.
Implicit Types (bpfmanConfig config : Config) (r : BpfmanConfigReconciler).

(** ** isOverridden, assureResource and load *)

Definition override_matches (m : ObjectMeta) (gvk : GroupVersionKind)
    (override : ComponentOverride) : bool :=
  if negb (Unmanaged override) then false
  else
    match ParseGroupVersion (APIVersion override) with
    | Err _ => false
    | Ok (group, _) =>
        bool_decide (ov_Kind override = gvk_Kind gvk)
        && bool_decide (group = gvk_Group gvk)
        && bool_decide (ov_Namespace override = om_Namespace m)
        && bool_decide (ov_Name override = om_Name m)
    end.

Definition isOverridden {k} (resource : obj k) (overrides : list ComponentOverride) : bool :=
  match ObjectKinds k with
  | Ok (resourceGVK :: _) => existsb (override_matches (obj_meta resource) resourceGVK) overrides
  | _ => false
  end.

(** [needsUpdate existing desired] also returns the desired object, to which
    some of the callers' functions assign. *)
Definition assureResource {k} (bpfmanConfig : Config) (resource : obj k)
    (needsUpdate : obj k → obj k → bool * obj k) : GoM W (option error) :=
  if isOverridden resource (Overrides (Spec bpfmanConfig)) then mret None
  else
    match SetControllerReference bpfmanConfig k resource with
    | Err err => mret (Some err)
    | Ok resource =>
        existing ← lift (api_Get k (om_Namespace (obj_meta resource))
                           (om_Name (obj_meta resource)));
        match existing with
        | NotFound => lift (api_Create k resource)
        | GetError err => mret (Some err)
        | Got existingResource =>
            let '(update, resource) := needsUpdate existingResource resource in
            if update || negb (deep_equal (om_OwnerReferences (obj_meta existingResource))
                                 (om_OwnerReferences (obj_meta resource)))
            then
              lift (api_Update k (set_obj_meta
                (set_ResourceVersion (om_ResourceVersion (obj_meta existingResource))
                   (obj_meta resource)) resource))
            else mret None
        end
    end.

(** os.Open and io.ReadAll, which fail alike, are [read_file]. *)
Definition load k (t : obj k) (path name : string) : GoM W (result (obj k)) :=
  let failed err := Err ("load " +:+ name +:+ " from " +:+ path +:+ ": " +:+ err) in
  file ← lift (read_file path);
  match file with
  | Err err => mret (failed err)
  | Ok b =>
      match decode k b t with
      | Err err => mret (failed err)
      | Ok None => panic "interface conversion"
      | Ok (Some t) => mret (Ok (set_obj_meta (set_Name name (obj_meta t)) t))
      end
  end.

(** ** reconcileCM, reconcileCSIDriver, reconcileSCC *)

Definition bpfman_cm bpfmanConfig : ConfigMap :=
  mkConfigMap (named BpfmanCmName (cs_Namespace (Spec bpfmanConfig)) ∅)
    {[ BpfmanTOML := Configuration (Spec bpfmanConfig);
       BpfmanAgentLogLevel := ag_LogLevel (Agent (Spec bpfmanConfig));
       BpfmanLogLevel := dm_LogLevel (Daemon (Spec bpfmanConfig)) ]}
    no_other.

Definition cm_needsUpdate (existing desired : ConfigMap) : bool * ConfigMap :=
  (negb (deep_equal (cm_Data existing) (cm_Data desired)), desired).

Definition reconcileCM bpfmanConfig : GoM W (option error) :=
  assureResource (k := KConfigMap) bpfmanConfig (bpfman_cm bpfmanConfig) cm_needsUpdate.

Definition csi_needsUpdate (existing desired : CSIDriver) : bool * CSIDriver :=
  (negb (deep_equal (csi_Spec existing) (csi_Spec desired)), desired).

Definition blank_csi (m : ObjectMeta) : CSIDriver := mkCSIDriver m no_other no_other.

Definition reconcileCSIDriver r bpfmanConfig : GoM W (option error) :=
  csiDriver ← load KCSIDriver (blank_csi (named BpfmanCsiDriverName "" ∅)) (CsiDriverDS r)
                BpfmanCsiDriverName;
  match csiDriver with
  | Err err => mret (Some err)
  | Ok csiDriver =>
      assureResource (k := KCSIDriver) bpfmanConfig csiDriver csi_needsUpdate
  end.

Definition bpfmanRestrictedSCC : SecurityContextConstraints :=
  mkSCC (named BpfmanRestrictedSccName "" ∅) false false false false false (Some false) false
    ["ALL"] "MustRunAsNonRoot" "RunAsAny" "MustRunAs" "RunAsAny"
    ["configMap"; "csi"; "downwardAPI"; "emptyDir"; "ephemeral"; "persistentVolumeClaim";
     "projected"; "secret"] no_other.

Definition scc_needsUpdate (existing desired : SecurityContextConstraints)
    : bool * SecurityContextConstraints :=
  let existingCopy := with_scc_meta emptyObjectMeta existing in
  let desiredCopy := with_scc_meta emptyObjectMeta desired in
  (negb (deep_equal existingCopy desiredCopy), desired).

Definition reconcileSCC r bpfmanConfig : GoM W (option error) :=
  if IsOpenshift r then
    assureResource (k := KSCC) bpfmanConfig bpfmanRestrictedSCC scc_needsUpdate
  else mret None.

(** ** The daemon sets *)

Definition with_Image (image : string) (c : K8sContainer) : K8sContainer :=
  mkK8sContainer (ct_Name c) image (ct_Args c) (ct_ImagePullPolicy c) (ct_VolumeMounts c)
    (ct_other c).
Definition with_Args (args : list string) (c : K8sContainer) : K8sContainer :=
  mkK8sContainer (ct_Name c) (ct_Image c) args (ct_ImagePullPolicy c) (ct_VolumeMounts c)
    (ct_other c).
Definition with_ImagePullPolicy (p : string) (c : K8sContainer) : K8sContainer :=
  mkK8sContainer (ct_Name c) (ct_Image c) (ct_Args c) p (ct_VolumeMounts c) (ct_other c).
Definition with_VolumeMounts (vs : list VolumeMount) (c : K8sContainer) : K8sContainer :=
  mkK8sContainer (ct_Name c) (ct_Image c) (ct_Args c) (ct_ImagePullPolicy c) vs (ct_other c).

(** The two loops of copyImagePullPolicy. *)
Fixpoint copy_policies (src dst : list K8sContainer) : list K8sContainer :=
  match src, dst with
  | s :: src', d :: dst' =>
      (if decide (ct_ImagePullPolicy d = "")
       then with_ImagePullPolicy (ct_ImagePullPolicy s) d else d) :: copy_policies src' dst'
  | _, _ => dst
  end.

Definition copyImagePullPolicy (src dst : PodSpec) : PodSpec :=
  mkPodSpec (copy_policies (InitContainers src) (InitContainers dst))
    (copy_policies (ps_Containers src) (ps_Containers dst)) (ps_Volumes dst)
    (AutomountServiceAccountToken dst) (ps_other dst).

Definition healthProbeAddress (healthProbePort : Z) : string :=
  if decide (healthProbePort <= 0 ∨ healthProbePort > 65535) then ""
  else ":" +:+ pretty healthProbePort.

(** strings.Contains *)
Fixpoint string_contains (s substr : string) : bool :=
  String.prefix substr s
  || match s with EmptyString => false | String.String _ s' => string_contains s' substr end.

Definition configure_init_container (config : Config) (container : K8sContainer)
    : K8sContainer :=
  if decide (ct_Name container = BpfmanInitContainerName)
  then with_Image (ag_Image (Agent (Spec config))) container else container.

Definition configure_arg (addr arg : string) : string :=
  if decide (addr ≠ "") then
    if string_contains arg "health-probe-bind-address"
    then "--health-probe-bind-address=" +:+ addr else arg
  else arg.

Definition configure_container (config : Config) (container : K8sContainer) : K8sContainer :=
  let bpfmanHealthProbeAddr := healthProbeAddress (HealthProbePort (Agent (Spec config))) in
  if decide (ct_Name container = BpfmanContainerName) then
    with_Image (dm_Image (Daemon (Spec config))) container
  else if decide (ct_Name container = BpfmanAgentContainerName) then
    with_Args (configure_arg bpfmanHealthProbeAddr <$> ct_Args container)
      (with_Image (ag_Image (Agent (Spec config))) container)
  else if decide (ct_Name container = BpfmanCsiDriverRegistrarName) then
    if decide (CsiRegistrarImage (Daemon (Spec config)) ≠ "")
    then with_Image (CsiRegistrarImage (Daemon (Spec config))) container else container
  else container.

(** Every container gets the policy of the environment, when it has one. *)
Definition env_policy (p : string) (cs : list K8sContainer) : list K8sContainer :=
  if decide (p ≠ "") then with_ImagePullPolicy p <$> cs else cs.

Definition newAnnotations (config : Config) : gmap string string :=
  {[ (APIPrefix +:+ "." +:+ BpfmanLogLevel) := dm_LogLevel (Daemon (Spec config));
     (APIPrefix +:+ "." +:+ BpfmanAgentLogLevel) := ag_LogLevel (Agent (Spec config));
     (APIPrefix +:+ "." +:+ BpfmanTOML) := Configuration (Spec config) ]}.

Definition BPFMAN_IMAGE_PULL_POLICY : string := "BPFMAN_IMAGE_PULL_POLICY".

Definition bpfman_ds (p : string) (staticBpfmanDS : DaemonSet) (config : Config) : DaemonSet :=
  let tpl := ds_Template staticBpfmanDS in
  let spec := tpl_Spec tpl in
  mkDaemonSet
    (set_Namespace (cs_Namespace (Spec config)) (set_Name BpfmanDsName (ds_meta staticBpfmanDS)))
    (mkPodTemplate (newAnnotations config ∪ tpl_Annotations tpl) (tpl_other tpl)
       (mkPodSpec
          (env_policy p (configure_init_container config <$> InitContainers spec))
          (env_policy p (configure_container config <$> ps_Containers spec))
          (ps_Volumes spec) (Some true) (ps_other spec)))
    (ds_spec_other staticBpfmanDS) (ds_other staticBpfmanDS).

Definition configureBpfmanDs (staticBpfmanDS : DaemonSet) (config : Config)
    : GoM W DaemonSet :=
  p ← lift (Getenv BPFMAN_IMAGE_PULL_POLICY);
  mret (bpfman_ds p staticBpfmanDS config).

Definition tls_mount : VolumeMount :=
  mkVolumeMount "agent-metrics-tls" "/tmp/k8s-webhook-server/serving-certs" true no_other.
Definition tls_volume : Volume :=
  mkVolume "agent-metrics-tls" (Some ("agent-metrics-tls", Some 420)) no_other.
Definition servingCertSecretName : string :=
  "service.beta.openshift.io/serving-cert-secret-name".

Definition configure_proxy_container (config : Config) (isOpenshift : bool)
    (container : K8sContainer) : K8sContainer :=
  if decide (ct_Name container = BpfmanMetricsProxyContainer) then
    let container := with_Image (ag_Image (Agent (Spec config))) container in
    if isOpenshift
    then with_VolumeMounts (ct_VolumeMounts container ++ [tls_mount]) container else container
  else container.

Definition metrics_proxy_ds (p : string) (staticMetricsProxyDS : DaemonSet) (config : Config)
    (isOpenshift : bool) : DaemonSet :=
  let tpl := ds_Template staticMetricsProxyDS in
  let spec := tpl_Spec tpl in
  mkDaemonSet
    (set_Namespace (cs_Namespace (Spec config))
       (set_Name BpfmanMetricsProxyDsName (ds_meta staticMetricsProxyDS)))
    (mkPodTemplate
       (if isOpenshift then <[servingCertSecretName := "agent-metrics-tls"]> (tpl_Annotations tpl)
        else tpl_Annotations tpl)
       (tpl_other tpl)
       (mkPodSpec (InitContainers spec)
          (env_policy p (configure_proxy_container config isOpenshift <$> ps_Containers spec))
          (if isOpenshift then ps_Volumes spec ++ [tls_volume] else ps_Volumes spec)
          (Some true) (ps_other spec)))
    (ds_spec_other staticMetricsProxyDS) (ds_other staticMetricsProxyDS).

Definition configureMetricsProxyDs (staticMetricsProxyDS : DaemonSet) (config : Config)
    (isOpenshift : bool) : GoM W DaemonSet :=
  p ← lift (Getenv BPFMAN_IMAGE_PULL_POLICY);
  mret (metrics_proxy_ds p staticMetricsProxyDS config isOpenshift).

Definition with_pod_spec (spec : PodSpec) (ds : DaemonSet) : DaemonSet :=
  mkDaemonSet (ds_meta ds)
    (mkPodTemplate (tpl_Annotations (ds_Template ds)) (tpl_other (ds_Template ds)) spec)
    (ds_spec_other ds) (ds_other ds).

Definition ds_needsUpdate (existing desired : DaemonSet) : bool * DaemonSet :=
  let desired := with_pod_spec (copyImagePullPolicy (tpl_Spec (ds_Template existing))
                                  (tpl_Spec (ds_Template desired))) desired in
  (negb (deep_equal (ds_Template existing, ds_spec_other existing)
           (ds_Template desired, ds_spec_other desired)), desired).

Definition blank_ds (m : ObjectMeta) : DaemonSet :=
  mkDaemonSet m (mkPodTemplate ∅ no_other (mkPodSpec [] [] [] None no_other)) no_other no_other.

Definition reconcileStandardDS r bpfmanConfig : GoM W (option error) :=
  bpfmanDS ← load KDaemonSet (blank_ds (named BpfmanDsName "" ∅)) (BpfmanStandardDS r)
               BpfmanDsName;
  match bpfmanDS with
  | Err err => mret (Some err)
  | Ok bpfmanDS =>
      bpfmanDS ← configureBpfmanDs bpfmanDS bpfmanConfig;
      assureResource (k := KDaemonSet) bpfmanConfig bpfmanDS ds_needsUpdate
  end.

Definition reconcileMetricsProxyDS r bpfmanConfig : GoM W (option error) :=
  if negb (HasMonitoring r) then mret None
  else
    metricsProxyDS ← load KDaemonSet (blank_ds (named BpfmanMetricsProxyDsName "" ∅))
                       (BpfmanMetricsProxyDS r) BpfmanMetricsProxyDsName;
    match metricsProxyDS with
    | Err err => mret (Some err)
    | Ok metricsProxyDS =>
        metricsProxyDS ← configureMetricsProxyDs metricsProxyDS bpfmanConfig (IsOpenshift r);
        assureResource (k := KDaemonSet) bpfmanConfig metricsProxyDS ds_needsUpdate
    end.

(** ** reconcileMetricsServices, reconcileServiceMonitors *)

Definition metrics_port : ServicePort :=
  mkServicePort "https-metrics" 8443 "TCP" "https-metrics" no_other.

Definition agentSvc (ns : string) : Service :=
  mkService (named BpfmanAgentMetricsServiceName ns
    {[ "app.kubernetes.io/name" := "agent-metrics-service";
       "app.kubernetes.io/instance" := "agent-metrics-service";
       "app.kubernetes.io/component" := "metrics";
       "app.kubernetes.io/created-by" := "bpfman-operator";
       "app.kubernetes.io/part-of" := "bpfman-operator";
       "app.kubernetes.io/managed-by" := "bpfman-operator" ]})
    "None" [] [metrics_port] {[ "name" := "bpfman-metrics-proxy" ]} no_other no_other.

Definition controllerSvc (ns : string) : Service :=
  mkService (named BpfmanControllerMetricsServiceName ns
    {[ "control-plane" := "controller-manager";
       "app.kubernetes.io/name" := "service";
       "app.kubernetes.io/instance" := "controller-manager-metrics-service";
       "app.kubernetes.io/component" := "metrics";
       "app.kubernetes.io/created-by" := "bpfman-operator";
       "app.kubernetes.io/part-of" := "bpfman-operator";
       "app.kubernetes.io/managed-by" := "bpfman-operator" ]})
    "" [] [metrics_port] {[ "control-plane" := "controller-manager" ]} no_other no_other.

Definition with_ClusterIPs (ip : string) (ips : list string) (x : Service) : Service :=
  mkService (svc_meta x) ip ips (Ports x) (svc_Selector x) (svc_spec_other x) (svc_other x).

Definition svc_needsUpdate (existing desired : Service) : bool * Service :=
  let desired := with_ClusterIPs (ClusterIP existing) (ClusterIPs existing) desired in
  (negb (deep_equal (om_Labels (svc_meta existing)) (om_Labels (svc_meta desired)))
   || negb (deep_equal (Ports existing) (Ports desired))
   || negb (deep_equal (svc_Selector existing) (svc_Selector desired)), desired).

Definition reconcileMetricsServices r bpfmanConfig : GoM W (option error) :=
  if negb (HasMonitoring r) then mret None
  else
    let ns := cs_Namespace (Spec bpfmanConfig) in
    assureResource (k := KService) bpfmanConfig (agentSvc ns) svc_needsUpdate ?;
    assureResource (k := KService) bpfmanConfig (controllerSvc ns) svc_needsUpdate.

Definition serviceMonitorTLSConfig (isOpenshift : bool) (serviceName namespace : string)
    : TLSConfig :=
  if isOpenshift then
    mkTLSConfig "/etc/prometheus/configmaps/serving-certs-ca-bundle/service-ca.crt"
      (Some (serviceName +:+ "." +:+ namespace +:+ ".svc")) (Some false) no_other
  else mkTLSConfig "" None (Some true) no_other.

Definition metrics_endpoint (path : string) (tls : TLSConfig) : Endpoint :=
  mkEndpoint path "https-metrics" (Some "https")
    "/var/run/secrets/kubernetes.io/serviceaccount/token" (Some tls) no_other.

Definition agentSM (isOpenshift : bool) (ns : string) : ServiceMonitor :=
  mkServiceMonitor (named BpfmanAgentServiceMonitorName ns
    {[ "app.kubernetes.io/component" := "metrics";
       "app.kubernetes.io/created-by" := "bpfman-operator";
       "app.kubernetes.io/instance" := "agent-metrics-monitor";
       "app.kubernetes.io/managed-by" := "bpfman-operator";
       "app.kubernetes.io/name" := "agent-metrics-monitor";
       "app.kubernetes.io/part-of" := "bpfman-operator" ]})
    [metrics_endpoint "/agent-metrics"
       (serviceMonitorTLSConfig isOpenshift "bpfman-agent-metrics-service" ns)]
    {[ "app.kubernetes.io/component" := "metrics";
       "app.kubernetes.io/instance" := "agent-metrics-service";
       "app.kubernetes.io/name" := "agent-metrics-service" ]} no_other no_other.

Definition controllerSM (ns : string) : ServiceMonitor :=
  mkServiceMonitor (named BpfmanControllerServiceMonitorName ns
    {[ "app.kubernetes.io/component" := "metrics";
       "app.kubernetes.io/created-by" := "bpfman-operator";
       "app.kubernetes.io/instance" := "controller-manager-metrics-monitor";
       "app.kubernetes.io/managed-by" := "bpfman-operator";
       "app.kubernetes.io/name" := "servicemonitor";
       "app.kubernetes.io/part-of" := "bpfman-operator";
       "control-plane" := "controller-manager" ]})
    [metrics_endpoint "/metrics" (mkTLSConfig "" None (Some true) no_other)]
    {[ "control-plane" := "controller-manager" ]} no_other no_other.

Definition sm_needsUpdate (existing desired : ServiceMonitor) : bool * ServiceMonitor :=
  (negb (deep_equal (Endpoints existing) (Endpoints desired))
   || negb (deep_equal (sm_MatchLabels existing, sm_selector_other existing)
              (sm_MatchLabels desired, sm_selector_other desired)), desired).

Definition reconcileServiceMonitors r bpfmanConfig : GoM W (option error) :=
  if negb (HasMonitoring r) then mret None
  else
    let ns := cs_Namespace (Spec bpfmanConfig) in
    assureResource (k := KServiceMonitor) bpfmanConfig (agentSM (IsOpenshift r) ns)
      sm_needsUpdate ?;
    assureResource (k := KServiceMonitor) bpfmanConfig (controllerSM ns) sm_needsUpdate.

(** ** reconcileAgentMetricsServiceAnnotation *)

Definition reconcileAgentMetricsServiceAnnotation r bpfmanConfig : GoM W (option error) :=
  if negb (IsOpenshift r) then mret None
  else
    let ns := cs_Namespace (Spec bpfmanConfig) in
    let svc := mkService (named BpfmanAgentMetricsServiceName ns ∅) "" [] [] ∅ no_other no_other in
    if isOverridden (k := KService) svc (Overrides (Spec bpfmanConfig)) then mret None
    else
      svc ← lift (api_Get KService ns BpfmanAgentMetricsServiceName);
      match svc with
      | NotFound => mret None
      | GetError err => mret (Some ("get agent metrics service: " +:+ err))
      | Got svc =>
          let annotations := om_Annotations (obj_meta (k := KService) svc) in
          if decide (default "" (annotations !! servingCertSecretName) ≠ "agent-metrics-tls") then
            err ← lift (api_Update KService (set_obj_meta
              (set_Annotations (<[servingCertSecretName := "agent-metrics-tls"]> annotations)
                 (obj_meta svc)) svc));
            mret (match err with
                  | Some err => Some ("annotate agent metrics service: " +:+ err)
                  | None => None
                  end)
          else mret None
      end.

(** ** reconcileOpenShiftRBAC, reconcilePrometheusRBAC *)

Definition rbac_group : string := "rbac.authorization.k8s.io".

Definition privilegedCRB (ns : string) : Binding :=
  mkBinding (named BpfmanPrivilegedSccClusterRoleBindingName "" ∅)
    (mkRoleRef rbac_group "ClusterRole" "system:openshift:scc:privileged")
    [mkSubject "ServiceAccount" "bpfman-daemon" ns no_other] no_other.

Definition userCR : Role :=
  mkRole (named BpfmanUserClusterRoleName "" ∅)
    [mkPolicyRule ["use"] ["security.openshift.io"] ["securitycontextconstraints"]
       ["bpfman-restricted"] []] no_other.

Definition promRole (ns : string) : Role :=
  mkRole (named BpfmanPrometheusRoleName ns ∅)
    [mkPolicyRule ["get"; "list"; "watch"] [""]
       ["pods"; "services"; "endpoints"; "configmaps"; "secrets"] [] []] no_other.

Definition prometheus_subject : Subject :=
  mkSubject "ServiceAccount" "prometheus-k8s" "openshift-monitoring" no_other.

Definition promRB (ns : string) : Binding :=
  mkBinding (named BpfmanPrometheusRoleBindingName ns ∅)
    (mkRoleRef rbac_group "Role" BpfmanPrometheusRoleName) [prometheus_subject] no_other.

Definition metricsReaderCRB : Binding :=
  mkBinding (named BpfmanPrometheusClusterRoleBindingName ""
    {[ "app.kubernetes.io/component" := "metrics";
       "app.kubernetes.io/created-by" := "bpfman-operator";
       "app.kubernetes.io/instance" := "prometheus-metrics-reader";
       "app.kubernetes.io/managed-by" := "bpfman-operator";
       "app.kubernetes.io/name" := "clusterrolebinding";
       "app.kubernetes.io/part-of" := "bpfman-operator" ]})
    (mkRoleRef rbac_group "ClusterRole" "bpfman-metrics-reader") [prometheus_subject] no_other.

Definition binding_needsUpdate (existing desired : Binding) : bool * Binding :=
  (negb (deep_equal (bd_RoleRef existing) (bd_RoleRef desired))
   || negb (deep_equal (bd_Subjects existing) (bd_Subjects desired)), desired).

Definition role_needsUpdate (existing desired : Role) : bool * Role :=
  (negb (deep_equal (Rules existing) (Rules desired)), desired).

Definition reconcileOpenShiftRBAC r bpfmanConfig : GoM W (option error) :=
  if negb (IsOpenshift r) then mret None
  else
    let ns := cs_Namespace (Spec bpfmanConfig) in
    assureResource (k := KClusterRoleBinding) bpfmanConfig (privilegedCRB ns)
      binding_needsUpdate ?;
    assureResource (k := KClusterRole) bpfmanConfig userCR role_needsUpdate.

Definition reconcilePrometheusRBAC r bpfmanConfig : GoM W (option error) :=
  if negb (IsOpenshift r) || negb (HasMonitoring r) then mret None
  else
    let ns := cs_Namespace (Spec bpfmanConfig) in
    assureResource (k := KRole) bpfmanConfig (promRole ns) role_needsUpdate ?;
    assureResource (k := KRoleBinding) bpfmanConfig (promRB ns) binding_needsUpdate ?;
    assureResource (k := KClusterRoleBinding) bpfmanConfig metricsReaderCRB binding_needsUpdate.

(** ** reconcileNamespace *)

(** [if m\[k\] != v { m\[k\] = v; changed = true }] for each pair: a missing key
    reads as the empty string. The source ranges over a map literal; its keys
    differ, so the order does not matter. *)
Fixpoint put_all (kvs : list (string * string)) (m : gmap string string) (changed : bool)
    : gmap string string * bool :=
  match kvs with
  | [] => (m, changed)
  | (k, v) :: kvs' =>
      if decide (default "" (m !! k) ≠ v) then put_all kvs' (<[k := v]> m) true
      else put_all kvs' m changed
  end.

Definition psaLabels : list (string * string) :=
  [("pod-security.kubernetes.io/enforce", "privileged");
   ("pod-security.kubernetes.io/audit", "privileged");
   ("pod-security.kubernetes.io/warn", "privileged")].

Definition clusterMonitoringLabel : list (string * string) :=
  [("openshift.io/cluster-monitoring", "true")].

Definition osAnnotations : list (string * string) :=
  [("openshift.io/node-selector", "");
   ("openshift.io/description", "Openshift bpfman components");
   ("workload.openshift.io/allowed", "management")].

Definition not_found (resource name : string) : error :=
  resource +:+ " " +:+ go_quote name +:+ " not found".

Definition configure_namespace r (m : ObjectMeta) : ObjectMeta * bool :=
  let '(labels, changed) := put_all psaLabels (om_Labels m) false in
  if IsOpenshift r then
    let '(labels, changed) :=
      if HasMonitoring r then put_all clusterMonitoringLabel labels changed
      else (labels, changed) in
    let '(annotations, changed) := put_all osAnnotations (om_Annotations m) changed in
    (set_Annotations annotations (set_Labels labels m), changed)
  else (set_Labels labels m, changed).

Definition reconcileNamespace r bpfmanConfig : GoM W (option error) :=
  let ns := cs_Namespace (Spec bpfmanConfig) in
  namespace ← lift (api_Get KNamespace "" ns);
  match namespace with
  | NotFound => mret (Some ("get namespace " +:+ ns +:+ ": " +:+ not_found "namespaces" ns))
  | GetError err => mret (Some ("get namespace " +:+ ns +:+ ": " +:+ err))
  | Got namespace =>
      let '(m, changed) := configure_namespace r (obj_meta (k := KNamespace) namespace) in
      if changed then
        err ← lift (api_Update KNamespace (set_obj_meta m namespace));
        mret (match err with
              | Some err => Some ("update namespace " +:+ ns +:+ ": " +:+ err)
              | None => None
              end)
      else mret None
  end.

(** ** handleDeletion and Reconcile *)

Definition with_cfg_meta (m : ObjectMeta) (config : Config) : Config :=
  mkConfig m (Spec config).

Definition handleDeletion (config : Config) : GoM W (option error) :=
  let config :=
    with_cfg_meta (RemoveFinalizer BpfmanConfigFinalizer (cfg_meta config)).2 config in
  lift (api_Update KConfig config).

(** Reconcile from the point where the Config is neither missing nor being
    deleted and has its finalizer. *)
Definition reconcile_resources r bpfmanConfig : GoM W (option error) :=
  reconcileCM bpfmanConfig ?;
  reconcileCSIDriver r bpfmanConfig ?;
  reconcileSCC r bpfmanConfig ?;
  reconcileStandardDS r bpfmanConfig ?;
  reconcileMetricsProxyDS r bpfmanConfig ?;
  reconcileMetricsServices r bpfmanConfig ?;
  reconcileServiceMonitors r bpfmanConfig ?;
  reconcileAgentMetricsServiceAnnotation r bpfmanConfig ?;
  reconcileOpenShiftRBAC r bpfmanConfig ?;
  reconcilePrometheusRBAC r bpfmanConfig ?;
  reconcileNamespace r bpfmanConfig.

Definition Reconcile r (name : string) : GoM W (option error) :=
  bpfmanConfig ← lift (api_Get KConfig "" name);
  match bpfmanConfig with
  | NotFound => mret None
  | GetError err => mret (Some err)
  | Got bpfmanConfig =>
      match om_DeletionTimestamp (cfg_meta bpfmanConfig) with
      | Some _ => handleDeletion bpfmanConfig
      | None =>
          if negb (ContainsFinalizer BpfmanConfigFinalizer (cfg_meta bpfmanConfig)) then
            lift (api_Update KConfig (with_cfg_meta
              (AddFinalizer BpfmanConfigFinalizer (cfg_meta bpfmanConfig)) bpfmanConfig))
          else reconcile_resources r bpfmanConfig
      end
  end.

(** resourcePredicate: of an update, the new object. *)
Inductive ResourceEvent :=
  | GenericEvent (o : ObjectMeta)
  | CreateEvent (o : ObjectMeta)
  | UpdateEvent (old new : ObjectMeta)
  | DeleteEvent (o : ObjectMeta).

Definition resourcePredicate (resourceName : string) (e : ResourceEvent) : bool :=
  match e with
  | GenericEvent o | CreateEvent o | UpdateEvent _ o | DeleteEvent o =>
      bool_decide (om_Name o = resourceName)
  end.
End config.
