(* ===== verification/ConfigSpecs.v ===== *)
(** What the configuration controller relies on the API server for, when an
    object has its desired content, and what assureResource does: it leaves
    unmanaged objects alone, touches one object only, brings it to its desired
    content, and then has nothing more to do. *)

From S2P Require Import Prelude ApiTypes Constants Operator ConfigTypes Config.
From stdpp Require Import options.
#[local] Set Default Proof Using "Type*".

(** ** Desired content *)

(** [d] with the image pull policy defaulted where it has none. *)
Definition policy_defaulted (d y : K8sContainer) : Prop :=
  y = d ∨ ct_ImagePullPolicy d = "" ∧ y = with_ImagePullPolicy (ct_ImagePullPolicy y) d.

(** The object [y] has the content asked for with [x]. What the API server adds
    to an object is allowed: pull policies, cluster IPs, and all the fields that
    the controller leaves out. *)
Definition content (k : RKind) : obj k → obj k → Prop :=
  match k return obj k → obj k → Prop with
  | KConfig => λ x y, Spec y = Spec x
  | KConfigMap => λ x y, cm_Data y = cm_Data x
  | KCSIDriver => λ x y, csi_Spec y = csi_Spec x
  | KSCC => λ x y, with_scc_meta emptyObjectMeta y = with_scc_meta emptyObjectMeta x
  | KDaemonSet => λ x y,
      let xt := ds_Template x in let yt := ds_Template y in
      let xs := tpl_Spec xt in let ys := tpl_Spec yt in
      ds_spec_other y = ds_spec_other x ∧ tpl_Annotations yt = tpl_Annotations xt ∧
      tpl_other yt = tpl_other xt ∧ ps_Volumes ys = ps_Volumes xs ∧
      AutomountServiceAccountToken ys = AutomountServiceAccountToken xs ∧
      ps_other ys = ps_other xs ∧
      Forall2 policy_defaulted (InitContainers xs) (InitContainers ys) ∧
      Forall2 policy_defaulted (ps_Containers xs) (ps_Containers ys)
  | KService => λ x y,
      om_Labels (svc_meta y) = om_Labels (svc_meta x) ∧ Ports y = Ports x ∧
      svc_Selector y = svc_Selector x
  | KServiceMonitor => λ x y,
      Endpoints y = Endpoints x ∧ sm_MatchLabels y = sm_MatchLabels x ∧
      sm_selector_other y = sm_selector_other x
  | KNamespace => λ x y,
      om_Annotations (ns_meta y) = om_Annotations (ns_meta x)
  | KClusterRoleBinding | KRoleBinding => λ x y,
      bd_RoleRef y = bd_RoleRef x ∧ bd_Subjects y = bd_Subjects x
  | KClusterRole | KRole => λ x y, Rules y = Rules x
  end.

(** ** The API server *)

Definition obj_name {k} (x : obj k) : string := om_Name (obj_meta x).
Definition obj_ns {k} (x : obj k) : string := om_Namespace (obj_meta x).

(** What the API server keeps of an object [x] that was written, as [y]: its
    content, and its metadata but for labels and annotations it may add. *)
Record stored {k} (x y : obj k) : Prop := {
  stored_content : content k x y;
  stored_labels : om_Labels (obj_meta x) ⊆ om_Labels (obj_meta y);
  stored_annotations : om_Annotations (obj_meta x) ⊆ om_Annotations (obj_meta y);
  stored_owners : om_OwnerReferences (obj_meta y) = om_OwnerReferences (obj_meta x);
  stored_finalizers : om_Finalizers (obj_meta y) = om_Finalizers (obj_meta x);
  stored_live : om_DeletionTimestamp (obj_meta y) = None;
}.

Section view.
Context {W : Type} `{!ConfigAPI W}.

Definition view (k : RKind) (ns n : string) (w : W) : got (obj k) := (api_Get k ns n w).1.
Definition file (path : string) (w : W) : result string := (read_file path w).1.
Definition env (v : string) (w : W) : string := (Getenv v w).1.

(** No object is being deleted. *)
Definition live (w : W) : Prop :=
  ∀ k ns n (x : obj k), view k ns n w = Got x → om_DeletionTimestamp (obj_meta x) = None.

(** [w'] differs from [w] in the object [(k, ns, n)] only. *)
Definition only_at (k : RKind) (ns n : string) (w w' : W) : Prop :=
  (∀ k' ns' n', (k', ns', n') ≠ (k, ns, n) → view k' ns' n' w' = view k' ns' n' w) ∧
  (∀ p, file p w' = file p w) ∧ (∀ v, env v w' = env v w).
End view.

(** The API server: reading changes nothing; a write touches the object it
    names and no other, and stores it; objects have the names they are found at. An
    owner reference is set in the metadata only. *)
Class ConfigAPILaws (W : Type) `{!ConfigAPI W} := {
  get_pure k ns n (w : W) : (api_Get k ns n w).2 = w;
  read_pure p (w : W) : (read_file p w).2 = w;
  getenv_pure v (w : W) : (Getenv v w).2 = w;
  get_named k ns n (w : W) x : view k ns n w = Got x → obj_ns x = ns ∧ obj_name x = n;
  create_only_at k x (w : W) :
    only_at k (obj_ns x) (obj_name x) w (api_Create k x w).2;
  update_only_at k x (w : W) :
    only_at k (obj_ns x) (obj_name x) w (api_Update k x w).2;
  create_stores k x (w w' : W) :
    api_Create k x w = (None, w') →
    ∃ y, view k (obj_ns x) (obj_name x) w' = Got y ∧ stored x y;
  update_stores k x e (w w' : W) :
    view k (obj_ns x) (obj_name x) w = Got e →
    om_DeletionTimestamp (obj_meta e) = None →
    api_Update k x w = (None, w') →
    ∃ y, view k (obj_ns x) (obj_name x) w' = Got y ∧ stored x y;
  owner_reference_only c k x x' :
    SetControllerReference c k x = Ok x' →
    x' = set_obj_meta (set_OwnerReferences (om_OwnerReferences (obj_meta x')) (obj_meta x)) x;
}.

(** An API server that is available, and a controller that writes alone: an
    object that is missing can be created, one that exists can be updated by who
    has read its current version, and every object can be owned by the Config. *)
Class ConfigAPIServes (W : Type) `{!ConfigAPI W} := {
  get_serves k ns n (w : W) e : view k ns n w ≠ GetError e;
  create_serves k x (w : W) :
    view k (obj_ns x) (obj_name x) w = NotFound → (api_Create k x w).1 = None;
  update_serves k x e (w : W) :
    view k (obj_ns x) (obj_name x) w = Got e →
    om_ResourceVersion (obj_meta x) = om_ResourceVersion (obj_meta e) →
    (api_Update k x w).1 = None;
  owner_serves c k (x : obj k) : is_ok (SetControllerReference c k x) = true;
}.

(** ** The [needsUpdate] functions *)

(** It is right about whether there is something to update, only fills in the
    desired object what the server added, and keeps its metadata. *)
Class NeedsUpdate (k : RKind) (nu : obj k → obj k → bool * obj k) : Prop := {
  nu_iff y d : (nu y d).1 = false ↔ content k d y;
  nu_meta e d : obj_meta (nu e d).2 = obj_meta d;
  nu_content e d y m :
    om_Labels m = om_Labels (obj_meta d) →
    content k (set_obj_meta m (nu e d).2) y → content k d y;
  nu_owner d y m : om_Labels m = om_Labels (obj_meta d) →
    content k (set_obj_meta m d) y ↔ content k d y;
}.

Lemma negb_deep_equal `{EqDecision A} (x y : A) : negb (deep_equal x y) = false ↔ x = y.
Proof. unfold deep_equal. by rewrite negb_false_iff, bool_decide_eq_true. Qed.

Ltac nu_tac :=
  split; intros; cbn in *; rewrite ?orb_false_iff, ?negb_deep_equal;
  first [done | tauto | intuition congruence].

#[export] Instance cm_nu : NeedsUpdate KConfigMap cm_needsUpdate.
Proof. nu_tac. Qed.
#[export] Instance csi_nu : NeedsUpdate KCSIDriver csi_needsUpdate.
Proof. nu_tac. Qed.
#[export] Instance scc_nu : NeedsUpdate KSCC scc_needsUpdate.
Proof. nu_tac. Qed.
#[export] Instance svc_nu : NeedsUpdate KService svc_needsUpdate.
Proof. nu_tac. Qed.
#[export] Instance sm_nu : NeedsUpdate KServiceMonitor sm_needsUpdate.
Proof.
  split; intros; cbn in *; rewrite ?orb_false_iff, ?negb_deep_equal; [|done|done|done].
  split; [intros [? [=]]; done|]. intros (-> & -> & ->). done.
Qed.
#[export] Instance crb_nu : NeedsUpdate KClusterRoleBinding binding_needsUpdate.
Proof. nu_tac. Qed.
#[export] Instance rb_nu : NeedsUpdate KRoleBinding binding_needsUpdate.
Proof. nu_tac. Qed.
#[export] Instance cr_nu : NeedsUpdate KClusterRole role_needsUpdate.
Proof. nu_tac. Qed.
#[export] Instance role_nu : NeedsUpdate KRole role_needsUpdate.
Proof. nu_tac. Qed.

(** copyImagePullPolicy makes the desired containers equal to the existing ones
    exactly when these only add policies. *)
Lemma copy_policies_iff (ys ds : list K8sContainer) :
  ys = copy_policies ys ds ↔ Forall2 policy_defaulted ds ys.
Proof.
  revert ds. induction ys as [|y ys IH]; intros [|d ds]; cbn; try by (split; inversion 1).
  rewrite Forall2_cons. rewrite <- IH. unfold policy_defaulted.
  case_decide as Hd; split.
  - intros [= Hy Hys]. split; [|done]. right. by rewrite Hy at 1.
  - intros [[->|[_ Hy]] Hys]; [|by rewrite <- Hy, <- Hys].
    rewrite <- Hys. f_equal. by destruct d.
  - intros [= Hy Hys]. auto.
  - intros [[->|[? _]] Hys]; [by rewrite <- Hys|done].
Qed.

Lemma copy_policies_content es ds ys :
  Forall2 policy_defaulted (copy_policies es ds) ys → Forall2 policy_defaulted ds ys.
Proof.
  revert ds ys. induction es as [|e es IH]; intros [|d ds] ys H; cbn in H; try done.
  inversion H as [|?? y ys' Hy Hys]; subst. constructor; [|by apply IH].
  unfold policy_defaulted in *. case_decide as Hd; [|done]. right. split; [done|].
  destruct Hy as [->|[_ ->]]; by destruct d.
Qed.

#[export] Instance ds_nu : NeedsUpdate KDaemonSet ds_needsUpdate.
Proof.
  split; [|done| |done].
  - intros y d. cbn. rewrite negb_deep_equal. destruct y as [? [? ? []] ? ?], d as [? [? ? []] ? ?].
    cbn. rewrite <- !copy_policies_iff. split; [by intros [=]|].
    intros (-> & -> & -> & -> & -> & -> & Hi & Hc). unfold with_pod_spec, copyImagePullPolicy.
    cbn. by rewrite <- Hi, <- Hc.
  - intros e d y m _. cbn.
    intros (-> & -> & -> & -> & -> & -> & Hi & Hc).
    split_and!; eauto using copy_policies_content.
Qed.

(** ** assureResource *)

Section assure.
Context {W : Type} `{!ConfigAPI W, !ConfigAPILaws W}.
Implicit Types (c : Config) (w : W).

Lemma run_Get k ns n w : lift (api_Get k ns n) w = (Ret (view k ns n w), w).
Proof. by rewrite run_lift, get_pure. Qed.

(** Whether an object is excluded from management depends on its type and name. *)
Definition unmanaged c (k : RKind) (ns n : string) : bool :=
  match ObjectKinds (W := W) k with
  | Ok (gvk :: _) => existsb (override_matches (named n ns ∅) gvk) (Overrides (Spec c))
  | _ => false
  end.

Lemma isOverridden_unmanaged c {k} (x : obj k) :
  isOverridden (W := W) x (Overrides (Spec c)) = unmanaged c k (obj_ns x) (obj_name x).
Proof using Type. done. Qed.

Lemma owner_reference_same c k (x x' : obj k) :
  SetControllerReference (W := W) c k x = Ok x' →
  obj_ns x' = obj_ns x ∧ obj_name x' = obj_name x ∧
  om_Labels (obj_meta x') = om_Labels (obj_meta x) ∧
  ∀ y, content k x' y ↔ content k x y.
Proof.
  intros ->%owner_reference_only. unfold obj_ns, obj_name. rewrite obj_meta_set.
  repeat split; try done; by destruct k.
Qed.

(** What a step of the controller leaves alone: the objects other than those
    named in [l], and of the latter the unmanaged ones if they are not
    namespaces; and the files and the environment. *)
Definition spared c (l : list (RKind * string)) k ns n : Prop :=
  (k, n) ∉ l ∨ unmanaged c k ns n = true ∧ k ≠ KNamespace.

Definition confined c (l : list (RKind * string)) (m : GoM W (option error)) : Prop :=
  ∀ w, (∀ k ns n, spared c l k ns n → view k ns n (m w).2 = view k ns n w) ∧
       (∀ p, file p (m w).2 = file p w) ∧ (∀ v, env v (m w).2 = env v w).

Lemma confined_idle c l w (m : GoM W (option error)) o :
  m w = (o, w) →
  (∀ k ns n, spared c l k ns n → view k ns n (m w).2 = view k ns n w) ∧
  (∀ p, file p (m w).2 = file p w) ∧ (∀ v, env v (m w).2 = env v w).
Proof using Type. by intros ->. Qed.

Lemma only_at_confined c l k ns n w w' :
  only_at k ns n w w' → (k, n) ∈ l → (unmanaged c k ns n = true → k = KNamespace) →
  (∀ k' ns' n', spared c l k' ns' n' → view k' ns' n' w' = view k' ns' n' w) ∧
  (∀ p, file p w' = file p w) ∧ (∀ v, env v w' = env v w).
Proof using Type.
  intros (Hv & Hf & He) Hin Hm. repeat split; [|done|done].
  intros k' ns' n' Hsp. apply Hv. intros [= -> -> ->]. destruct Hsp as [?|[? ?]]; naive_solver.
Qed.

(** The object an update writes. *)
Definition update_of {k} (nu : obj k → obj k → bool * obj k) (e d : obj k) : obj k :=
  set_obj_meta (set_ResourceVersion (om_ResourceVersion (obj_meta e)) (obj_meta (nu e d).2))
    (nu e d).2.

Lemma update_of_spec {k} nu `{!NeedsUpdate k nu} (e d : obj k) :
  obj_ns (update_of nu e d) = obj_ns d ∧ obj_name (update_of nu e d) = obj_name d ∧
  om_OwnerReferences (obj_meta (update_of nu e d)) = om_OwnerReferences (obj_meta d) ∧
  om_ResourceVersion (obj_meta (update_of nu e d)) = om_ResourceVersion (obj_meta e) ∧
  ∀ y, content k (update_of nu e d) y → content k d y.
Proof using Type.
  unfold obj_ns, obj_name, update_of. rewrite obj_meta_set. cbn. rewrite nu_meta.
  split_and!; try done. intros y. by apply nu_content.
Qed.

Lemma run_write {A} (f : W → A * W) w a w' :
  (Ret (f w).1, (f w).2) = (Ret a, w') → f w = (a, w').
Proof using Type. destruct (f w). by intros [= -> ->]. Qed.

(** assureResource by cases. *)
Lemma run_assure c k (x : obj k) nu w :
  assureResource c x nu w =
  if unmanaged c k (obj_ns x) (obj_name x) then (Ret None, w)
  else match SetControllerReference c k x with
       | Err err => (Ret (Some err), w)
       | Ok x' =>
           match view k (obj_ns x) (obj_name x) w with
           | NotFound => (Ret (api_Create k x' w).1, (api_Create k x' w).2)
           | GetError err => (Ret (Some err), w)
           | Got e =>
               if (nu e x').1 || negb (deep_equal (om_OwnerReferences (obj_meta e))
                                        (om_OwnerReferences (obj_meta (nu e x').2)))
               then (Ret (api_Update k (update_of nu e x') w).1,
                     (api_Update k (update_of nu e x') w).2)
               else (Ret None, w)
           end
       end.
Proof.
  unfold assureResource. rewrite isOverridden_unmanaged. destruct (unmanaged _ _ _ _); [done|].
  destruct (SetControllerReference c k x) as [x'|e] eqn:Hx; [|done].
  apply owner_reference_same in Hx as (Hns & Hn & _). unfold obj_ns, obj_name in *.
  erewrite run_bind by apply run_Get. rewrite Hns, Hn.
  destruct (view _ _ _ w) as [e| |e]; [|by rewrite run_lift|done].
  unfold update_of. destruct (nu e x') as [b d]. cbn.
  destruct (b || _); [by rewrite run_lift|done].
Qed.

Lemma assure_confined c k (x : obj k) nu `{!NeedsUpdate k nu} :
  confined c [(k, obj_name x)] (assureResource c x nu).
Proof.
  intros w. rewrite run_assure.
  destruct (unmanaged c k (obj_ns x) (obj_name x)) eqn:Hu; [done|].
  destruct (SetControllerReference c k x) as [x'|e] eqn:Hx; [|done].
  apply owner_reference_same in Hx as (Hns & Hn & _).
  destruct (view _ _ _ w) as [e| |e]; [|cbn [snd]|done].
  - destruct (_ || _); [cbn [snd]|done].
    destruct (update_of_spec nu e x') as (Hk1 & Hk2 & _).
    rewrite Hns in Hk1. rewrite Hn in Hk2.
    eapply only_at_confined; [apply update_only_at| |].
    + rewrite Hk2. by left.
    + rewrite Hk1, Hk2. congruence.
  - eapply only_at_confined; [apply create_only_at| |].
    + rewrite Hn. by left.
    + rewrite Hns, Hn. congruence.
Qed.

(** The object is unmanaged, or it exists with its content and its owner. *)
Definition conforming c k (x : obj k) w : Prop :=
  unmanaged c k (obj_ns x) (obj_name x) = true ∨
  ∃ x' y, SetControllerReference c k x = Ok x' ∧
    view k (obj_ns x) (obj_name x) w = Got y ∧ content k x y ∧
    om_OwnerReferences (obj_meta y) = om_OwnerReferences (obj_meta x').

Lemma conforming_view c k (x : obj k) w w' :
  view k (obj_ns x) (obj_name x) w' = view k (obj_ns x) (obj_name x) w →
  conforming c k x w → conforming c k x w'.
Proof using Type. unfold conforming. by intros ->. Qed.

Lemma assure_idle c k (x : obj k) nu `{!NeedsUpdate k nu} w :
  conforming c k x w → assureResource c x nu w = (Ret None, w).
Proof.
  intros Hc. rewrite run_assure. destruct Hc as [->|(x' & y & Hx & Hy & Hcon & Hown)]; [done|].
  destruct (unmanaged _ _ _ _); [done|]. rewrite Hx, Hy.
  apply owner_reference_same in Hx as (_ & _ & _ & Hcx).
  rewrite (proj2 (nu_iff y x')) by by apply Hcx.
  by rewrite (proj2 (negb_deep_equal _ _)) by by rewrite nu_meta.
Qed.

Lemma live_only_at k ns n w w' (y : obj k) :
  live w → only_at k ns n w w' → view k ns n w' = Got y →
  om_DeletionTimestamp (obj_meta y) = None → live w'.
Proof using Type.
  intros Hl (Hv & _) Hy Hd k' ns' n' x Hx.
  destruct (decide ((k', ns', n') = (k, ns, n))) as [[= -> -> ->]|Hne].
  - rewrite Hy in Hx. by injection Hx as ->.
  - rewrite Hv in Hx by done. by eapply Hl.
Qed.

Lemma assure_settles c k (x : obj k) nu `{!NeedsUpdate k nu} w w' :
  live w → assureResource c x nu w = (Ret None, w') → live w' ∧ conforming c k x w'.
Proof.
  intros Hl. rewrite run_assure. unfold conforming.
  destruct (unmanaged _ _ _ _); [intros [= <-]; auto|].
  destruct (SetControllerReference c k x) as [x'|e] eqn:Hx; [|done].
  pose proof (owner_reference_same _ _ _ _ Hx) as (Hns & Hn & Hlab & Hcx).
  destruct (view k _ _ w) as [e| |e] eqn:He; [| |done].
  - destruct (_ || _) eqn:Hb.
    + intros Hrun%run_write.
      destruct (update_of_spec nu e x') as (Hk1 & Hk2 & Hk3 & _ & Hk5).
      rewrite Hns in Hk1. rewrite Hn in Hk2. rewrite <- Hk1, <- Hk2 in He |- *.
      destruct (update_stores _ _ _ _ _ He (Hl _ _ _ _ He) Hrun) as (y & Hy & Hst).
      pose proof (update_only_at k (update_of nu e x') w) as Hat. rewrite Hrun in Hat.
      split; [eapply live_only_at; [done|exact Hat|done|apply Hst]|].
      right. exists x', y. split_and!; [done|done|apply Hcx, Hk5, Hst|].
      by rewrite (stored_owners _ _ Hst).
    + intros [= <-]. apply orb_false_iff in Hb as [Hb1 Hb2]. split; [done|]. right.
      exists x', e. apply nu_iff in Hb1. rewrite negb_deep_equal, nu_meta in Hb2.
      split_and!; [done|done|by apply Hcx|done].
  - intros Hrun%run_write. destruct (create_stores _ _ _ _ Hrun) as (y & Hy & Hst).
    pose proof (create_only_at k x' w) as Hat. rewrite Hrun in Hat.
    split; [eapply live_only_at; [done|exact Hat|done|apply Hst]|].
    right. exists x', y. rewrite <- Hns, <- Hn. split_and!; [done|done|apply Hcx, Hst|apply Hst].
Qed.

Lemma assure_serves `{!ConfigAPIServes W} c k (x : obj k) nu `{!NeedsUpdate k nu} w :
  ∃ w', assureResource c x nu w = (Ret None, w').
Proof.
  rewrite run_assure. destruct (unmanaged _ _ _ _); [by eexists|].
  pose proof (owner_serves (W := W) c k x) as Hok.
  destruct (SetControllerReference c k x) as [x'|e] eqn:Hx; [|done].
  pose proof (owner_reference_same _ _ _ _ Hx) as (Hns & Hn & Hlab & Hcx).
  destruct (view k _ _ w) as [e| |e] eqn:He.
  - destruct (_ || _); [|by eexists].
    destruct (update_of_spec nu e x') as (Hk1 & Hk2 & _ & Hk4 & _).
    rewrite Hns in Hk1. rewrite Hn in Hk2. eexists. rewrite <- Hk1, <- Hk2 in He.
    by rewrite (update_serves _ _ _ _ He Hk4).
  - eexists. rewrite <- Hns, <- Hn in He. by rewrite (create_serves _ _ _ He).
  - by apply get_serves in He.
Qed.
End assure.
