(* ===== verification/ConfigSteps.v ===== *)
(** The steps of the configuration controller: what a step may touch, the
    condition it establishes, in which it has nothing to do, and how steps in
    sequence keep each other's conditions. *)

From S2P Require Import Prelude ApiTypes Constants Operator ConfigTypes Config ConfigSpecs.
From stdpp Require Import options.
#[local] Set Default Proof Using "Type*".

Section steps.
Context {W : Type} `{!ConfigAPI W, !ConfigAPILaws W} (c : Config) (r : BpfmanConfigReconciler).
Implicit Types (m : GoM W (option error)) (l : list (RKind * string)) (I : W → Prop) (w : W).

(** [w] and [w'] agree on the objects in [l], on the files and the environment. *)
Definition agree l w w' : Prop :=
  (∀ k ns n, (k, n) ∈ l → view k ns n w' = view k ns n w) ∧
  (∀ p, file p w' = file p w) ∧ (∀ v, env v w' = env v w).

(** A step touches no more than [l]; when it ends without an error, [I] holds,
    which depends on [l] only; and when [I] holds, the step does nothing. *)
Record Step m l I : Prop := {
  step_confined : confined c l m;
  step_settles w w' : live w → m w = (Ret None, w') → live w' ∧ I w';
  step_idle w : I w → m w = (Ret None, w);
  step_support w w' : agree l w w' → I w → I w';
}.

Definition keeps m I : Prop := ∀ w w', live w → I w → m w = (Ret None, w') → I w'.

Lemma run_and_then m1 m2 w :
  (m1 ?; m2) w =
  match m1 w with
  | (Ret None, w') => m2 w'
  | (Ret (Some e), w') => (Ret (Some e), w')
  | (Panic why, w') => (Panic why, w')
  end.
Proof using Type. unfold and_then, mbind, GoM_bind. by destruct (m1 w) as [[[]|] ?]. Qed.

Lemma and_then_None m1 m2 w w' :
  (m1 ?; m2) w = (Ret None, w') → ∃ w1, m1 w = (Ret None, w1) ∧ m2 w1 = (Ret None, w').
Proof using Type. rewrite run_and_then. destruct (m1 w) as [[[]|] ?]; naive_solver. Qed.

Lemma confined_and_then l1 l2 m1 m2 :
  confined c l1 m1 → confined c l2 m2 → confined c (l1 ++ l2) (m1 ?; m2).
Proof using Type.
  intros H1 H2 w. rewrite run_and_then. destruct (H1 w) as (Hv1 & Hf1 & He1).
  assert (Hl : ∀ k ns n, spared c (l1 ++ l2) k ns n → spared c l1 k ns n ∧ spared c l2 k ns n).
  { unfold spared. intros k ns n. rewrite elem_of_app. tauto. }
  destruct (m1 w) as [[[e|]|why] w1]; cbn in *;
    [split_and!; [intros ??? [? ?]%Hl; by apply Hv1|done|done]|
    |split_and!; [intros ??? [? ?]%Hl; by apply Hv1|done|done]].
  destruct (H2 w1) as (Hv2 & Hf2 & He2). split_and!; [|congruence|congruence].
  intros k ns n [Hs1 Hs2]%Hl. by rewrite Hv2, Hv1.
Qed.

Lemma step_and_then m1 m2 l1 l2 I1 I2 :
  Step m1 l1 I1 → Step m2 l2 I2 → keeps m2 I1 →
  Step (m1 ?; m2) (l1 ++ l2) (λ w, I1 w ∧ I2 w).
Proof using Type.
  intros [Hc1 Hs1 Hi1 Hp1] [Hc2 Hs2 Hi2 Hp2] Hk. split.
  - by apply confined_and_then.
  - intros w w' Hl (w1 & H1 & H2)%and_then_None.
    destruct (Hs1 _ _ Hl H1) as [Hl1 HI1]. destruct (Hs2 _ _ Hl1 H2) as [Hl2 HI2].
    split; [done|]. split; [by eapply (Hk w1)|done].
  - intros w [HI1 HI2]. rewrite run_and_then, Hi1 by done. by apply Hi2.
  - intros w w' (Hv & Hf & He) [HI1 HI2]. split.
    + eapply Hp1; [|done]. split_and!; [|done|done]. intros k ns n Hin. apply Hv, elem_of_app. auto.
    + eapply Hp2; [|done]. split_and!; [|done|done]. intros k ns n Hin. apply Hv, elem_of_app. auto.
Qed.

Lemma keeps_disjoint m1 l1 I1 m2 l2 :
  Step m1 l1 I1 → confined c l2 m2 → (∀ k n, (k, n) ∈ l1 → (k, n) ∉ l2) → keeps m2 I1.
Proof using Type.
  intros [_ _ _ Hp] Hc Hd w w' _ HI Hm. destruct (Hc w) as (Hv & Hf & He). rewrite Hm in *.
  eapply Hp; [|exact HI]. split_and!; [|done|done]. intros k ns n Hin. apply Hv. left. by apply Hd.
Qed.

Lemma keeps_and_then m1 m2 l1 I1 I :
  Step m1 l1 I1 → keeps m1 I → keeps m2 I → keeps (m1 ?; m2) I.
Proof using Type.
  intros Hs H1 H2 w w' Hl HI (w1 & Hm1 & Hm2)%and_then_None.
  eapply H2; [by eapply (step_settles _ _ _ Hs)|by eapply H1|done].
Qed.

(** ** Basic steps *)

Lemma step_skip l : Step (mret None) l (λ _, True).
Proof using Type. split; [done| |done|done]. by intros w w' Hl [= <-]. Qed.

Lemma step_when (b : bool) m l I :
  Step m l I → Step (if b then m else mret None) l (λ w, b = true → I w).
Proof using Type.
  intros [Hc Hs Hi Hp]. destruct b.
  - split; [done| | |].
    + intros w w' Hl Hm. destruct (Hs _ _ Hl Hm). auto.
    + intros w HI. by apply Hi, HI.
    + intros w w' Ha HI _. by eapply Hp, HI.
  - split; [done| |done|done]. by intros w w' Hl [= <-].
Qed.

Lemma step_unless (b : bool) m l I :
  Step m l I → Step (if negb b then mret None else m) l (λ w, b = true → I w).
Proof using Type. intros Hs. apply (step_when b) in Hs. by destruct b. Qed.

Lemma step_assure k (x : obj k) nu `{!NeedsUpdate k nu} :
  Step (assureResource c x nu) [(k, obj_name x)] (conforming c k x).
Proof.
  split.
  - by apply assure_confined.
  - intros w w'. apply assure_settles, _.
  - intros w. apply assure_idle, _.
  - intros w w' (Hv & _). apply conforming_view, Hv. by left.
Qed.

(** The manifest at [path], read into [t]. *)
Definition loaded k (t : obj k) (path name : string) w : option (obj k) :=
  match file path w with
  | Ok b => match decode k b t with
            | Ok (Some t) => Some (set_obj_meta (set_Name name (obj_meta t)) t)
            | _ => None
            end
  | Err _ => None
  end.

Lemma run_load k (t : obj k) path name w :
  ∃ o, load k t path name w = (o, w) ∧
       match loaded k t path name w with
       | Some d => o = Ret (Ok d)
       | None => ∀ d, o ≠ Ret (Ok d)
       end.
Proof.
  unfold load, loaded, file. erewrite run_bind by apply run_lift. rewrite read_pure.
  destruct (read_file path w).1 as [b|e]; [|by eexists].
  destruct (decode k b t) as [[d|]|e]; by eexists.
Qed.

Lemma loaded_name k (t : obj k) path name w d :
  loaded k t path name w = Some d → obj_name d = name.
Proof using Type.
  unfold loaded. destruct (file path w) as [b|]; [|done].
  destruct (decode k b t) as [[t'|]|]; [|done|done]. intros [= <-].
  unfold obj_name. by rewrite obj_meta_set.
Qed.

Lemma step_load k (t : obj k) path name (g : obj k → GoM W (option error)) l J :
  (∀ d, obj_name d = name → Step (g d) l (J d)) →
  Step (d ← load k t path name; match d with Err err => mret (Some err) | Ok d => g d end) l
       (λ w, ∃ d, loaded k t path name w = Some d ∧ J d w).
Proof.
  intros Hg. split.
  - intros w. destruct (run_load k t path name w) as (o & Ho & Hd). unfold mbind, GoM_bind.
    rewrite Ho. destruct o as [[d|e]|why]; [|done|done].
    destruct (loaded k t path name w) as [d'|] eqn:Hld; [|by destruct (Hd d)].
    injection Hd as <-. apply (step_confined _ _ _ (Hg d (loaded_name _ _ _ _ _ _ Hld))).
  - intros w w' Hl. destruct (run_load k t path name w) as (o & Ho & Hd).
    unfold mbind, GoM_bind. rewrite Ho. destruct o as [[d|e]|why]; [|done|done].
    intros Hm. destruct (loaded k t path name w) as [d'|] eqn:Hld; [|by destruct (Hd d)].
    injection Hd as <-. specialize (Hg d (loaded_name _ _ _ _ _ _ Hld)).
    destruct (step_settles _ _ _ Hg _ _ Hl Hm) as [Hl' HJ].
    split; [done|]. exists d. split; [|done]. unfold loaded in *.
    pose proof (step_confined _ _ _ Hg w) as (_ & Hf & _). rewrite Hm in Hf. cbn in Hf.
    by rewrite Hf.
  - intros w (d & Hd & HJ). destruct (run_load k t path name w) as (o & Ho & Hr).
    rewrite Hd in Hr. subst o. erewrite run_bind by done.
    by apply (step_idle _ _ _ (Hg d (loaded_name _ _ _ _ _ _ Hd))).
  - intros w w' Ha (d & Hd & HJ). exists d.
    split; [|by eapply (step_support _ _ _ (Hg d (loaded_name _ _ _ _ _ _ Hd)))].
    destruct Ha as (_ & Hf & _). unfold loaded in *. by rewrite Hf.
Qed.

Lemma step_env {A} v (f : string → A) (m : GoM W A) (g : A → GoM W (option error)) l J :
  (∀ w, m w = (Ret (f (env v w)), w)) → (∀ p, Step (g (f p)) l (J p)) →
  Step (m ≫= g) l (λ w, J (env v w) w).
Proof using Type.
  intros Hm Hg. split.
  - intros w. erewrite run_bind by apply Hm. apply (step_confined _ _ _ (Hg _)).
  - intros w w' Hl. erewrite run_bind by apply Hm. intros Hr.
    destruct (step_settles _ _ _ (Hg _) _ _ Hl Hr) as [Hl' HJ]. split; [done|].
    pose proof (step_confined _ _ _ (Hg (env v w)) w) as (_ & _ & He). rewrite Hr in He.
    cbn in He. by rewrite He.
  - intros w HJ. erewrite run_bind by apply Hm. by apply (step_idle _ _ _ (Hg _)).
  - intros w w' Ha HJ. destruct Ha as (Hv & Hf & He). rewrite He.
    eapply (step_support _ _ _ (Hg _)); [|done]. done.
Qed.

Lemma run_configureBpfmanDs ds w :
  configureBpfmanDs ds c w = (Ret (bpfman_ds (env BPFMAN_IMAGE_PULL_POLICY w) ds c), w).
Proof.
  unfold configureBpfmanDs, env. erewrite run_bind by apply run_lift. by rewrite getenv_pure.
Qed.

Lemma run_configureMetricsProxyDs ds b w :
  configureMetricsProxyDs ds c b w =
  (Ret (metrics_proxy_ds (env BPFMAN_IMAGE_PULL_POLICY w) ds c b), w).
Proof.
  unfold configureMetricsProxyDs, env. erewrite run_bind by apply run_lift.
  by rewrite getenv_pure.
Qed.
End steps.
