(* ===== verification/ConfigTheorems.v ===== *)
(** The steps of the configuration controller one by one: what each establishes
    ([cm_settled], ..., [namespace_settled]), and the whole pass as a step. *)

From S2P Require Import Prelude ApiTypes Constants Application Operator ConfigTypes Config.
From S2P Require Import ConfigSpecs ConfigSteps.
From stdpp Require Import options.
#[local] Set Default Proof Using "Type*".

(** ** reconcileNamespace *)

(** Every key of [kvs] reads as its value. *)
Definition reads (kvs : list (string * string)) (m : gmap string string) : Prop :=
  Forall (λ kv, default "" (m !! kv.1) = kv.2) kvs.

Lemma put_all_cons k v kvs m b :
  put_all ((k, v) :: kvs) m b =
  if decide (default "" (m !! k) ≠ v) then put_all kvs (<[k := v]> m) true else put_all kvs m b.
Proof. done. Qed.

Lemma put_all_reads kvs m b : reads kvs m → put_all kvs m b = (m, b).
Proof.
  intros H. induction H as [|[k v] kvs Hk H IH]; cbn in *; [done|].
  by rewrite decide_False by tauto.
Qed.

Lemma put_all_lookup kvs m b k :
  k ∉ kvs.*1 → (put_all kvs m b).1 !! k = m !! k.
Proof.
  revert m b. induction kvs as [|[k' v] kvs IH]; cbn; [done|]. intros m b Hk.
  apply not_elem_of_cons in Hk as [Hne Hk].
  case_decide; rewrite IH by done; [by rewrite lookup_insert_ne|done].
Qed.

Lemma put_all_ok kvs m b :
  NoDup kvs.*1 → reads kvs (put_all kvs m b).1.
Proof.
  revert m b. induction kvs as [|[k v] kvs IH]; intros m b Hnd; [constructor|].
  cbn in Hnd. apply NoDup_cons in Hnd as [Hk Hnd]. cbn. case_decide as Hd.
  - constructor; [|by apply IH]. cbn. by rewrite put_all_lookup, lookup_insert_eq.
  - constructor; [|by apply IH]. cbn. rewrite put_all_lookup by done.
    destruct (decide (default "" (m !! k) = v)); tauto.
Qed.

Lemma put_all_true kvs m : (put_all kvs m true).2 = true.
Proof. revert m. induction kvs as [|[k v] kvs IH]; intros m; cbn; [done|]. by case_decide. Qed.

Lemma put_all_same kvs m b :
  (put_all kvs m b).2 = false → put_all kvs m b = (m, false).
Proof.
  revert m b. induction kvs as [|[k v] kvs IH]; intros m b; cbn; [by intros ->|].
  case_decide; [|apply IH]. by rewrite put_all_true.
Qed.

Lemma reads_other kvs kvs' m b :
  (∀ k, k ∈ kvs.*1 → k ∉ kvs'.*1) → reads kvs m → reads kvs (put_all kvs' m b).1.
Proof.
  unfold reads. rewrite !Forall_forall. intros Hd H [k v] Hin. cbn.
  rewrite put_all_lookup; [by apply (H (k, v))|]. apply Hd.
  apply list_elem_of_fmap. by exists (k, v).
Qed.

Lemma reads_mono kvs m m' :
  m ⊆ m' → Forall (λ kv, kv.2 ≠ "") kvs → reads kvs m → reads kvs m'.
Proof.
  intros Hm Hne. unfold reads. rewrite !Forall_forall in *. intros H [k v] Hin.
  specialize (H _ Hin). specialize (Hne _ Hin). cbn in *.
  destruct (m !! k) as [u|] eqn:Hk; cbn in *; [|congruence].
  by rewrite (lookup_weaken _ _ _ _ Hk Hm).
Qed.

(** The labels and annotations of the namespace are as they should be; a missing
    annotation counts as an empty one. *)
Definition namespace_ok (r : BpfmanConfigReconciler) (m : ObjectMeta) : Prop :=
  reads psaLabels (om_Labels m) ∧
  (IsOpenshift r = true →
   (HasMonitoring r = true → reads clusterMonitoringLabel (om_Labels m)) ∧
   reads osAnnotations (om_Annotations m)).

#[local] Arguments put_all : simpl never.

(** The two maps of [configure_namespace] apart. *)
Definition ns_labels (r : BpfmanConfigReconciler) (m : ObjectMeta) : gmap string string * bool :=
  let p := put_all psaLabels (om_Labels m) false in
  if IsOpenshift r && HasMonitoring r then put_all clusterMonitoringLabel p.1 p.2 else p.
Definition ns_annotations (r : BpfmanConfigReconciler) (m : ObjectMeta) (b : bool)
    : gmap string string * bool :=
  if IsOpenshift r then put_all osAnnotations (om_Annotations m) b else (om_Annotations m, b).

Lemma configure_namespace_eq r m :
  let l := ns_labels r m in
  let a := ns_annotations r m l.2 in
  configure_namespace r m = (set_Annotations a.1 (set_Labels l.1 m), a.2).
Proof.
  unfold configure_namespace, ns_labels, ns_annotations. cbn zeta.
  destruct (put_all psaLabels _ _) as [l b]; cbn. destruct (IsOpenshift r); cbn; [|done].
  destruct (HasMonitoring r); cbn; [destruct (put_all clusterMonitoringLabel l b); cbn|];
    by destruct (put_all osAnnotations _ _).
Qed.

Lemma configure_namespace_idle r m :
  namespace_ok r m → (configure_namespace r m).2 = false.
Proof.
  intros [Hp Ho]. rewrite configure_namespace_eq. cbn. unfold ns_labels, ns_annotations.
  rewrite (put_all_reads psaLabels) by done. cbn. destruct (IsOpenshift r); cbn; [|done].
  destruct Ho as [Hm Ha]; [done|].
  destruct (HasMonitoring r); rewrite ?(put_all_reads clusterMonitoringLabel) by auto;
    by rewrite put_all_reads.
Qed.

Lemma psa_not_monitoring k : k ∈ psaLabels.*1 → k ∉ clusterMonitoringLabel.*1.
Proof.
  intros Hk Hc. apply list_elem_of_singleton in Hc. subst k. revert Hk.
  apply (bool_decide_unpack _). vm_compute. exact I.
Qed.

Lemma nodup_keys :
  NoDup psaLabels.*1 ∧ NoDup clusterMonitoringLabel.*1 ∧ NoDup osAnnotations.*1.
Proof. split_and!; apply (bool_decide_unpack _); vm_compute; exact I. Qed.

Lemma configure_namespace_ok r m : namespace_ok r (configure_namespace r m).1.
Proof.
  destruct nodup_keys as (Hn1 & Hn2 & Hn3). rewrite configure_namespace_eq. cbn.
  unfold namespace_ok, ns_labels. cbn.
  pose proof (put_all_ok psaLabels (om_Labels m) false Hn1) as Hp.
  destruct (put_all psaLabels _ _) as [l b]; cbn in *.
  split; [|intros Ho; split].
  - destruct (_ && _); cbn; [|done]. by apply reads_other; [apply psa_not_monitoring|].
  - intros Hm. rewrite Ho, Hm. cbn. by apply put_all_ok.
  - unfold ns_annotations. rewrite Ho. by apply put_all_ok.
Qed.

Lemma configure_namespace_same r m :
  (configure_namespace r m).2 = false → (configure_namespace r m).1 = m.
Proof.
  rewrite configure_namespace_eq. cbn. intros Ha.
  assert (Hl : (ns_labels r m).2 = false ∧ (ns_annotations r m (ns_labels r m).2).1 = om_Annotations m).
  { unfold ns_annotations in *. destruct (IsOpenshift r); cbn in *; [|done].
    destruct (ns_labels r m).2; [by rewrite put_all_true in Ha|].
    by rewrite put_all_same. }
  destruct Hl as [Hl ->].
  assert (Hm : (ns_labels r m).1 = om_Labels m).
  { unfold ns_labels in *. destruct (_ && _) eqn:Hb; cbn in *.
    - destruct (put_all psaLabels (om_Labels m) false) as [l b] eqn:Hp; cbn in *.
      destruct b; [by rewrite put_all_true in Hl|]. rewrite put_all_same by done. cbn.
      pose proof (put_all_same psaLabels (om_Labels m) false) as H. rewrite Hp in H.
      by injection (H eq_refl).
    - by rewrite put_all_same. }
  rewrite Hm. by destruct m.
Qed.

(** The annotation osAnnotations asks for with an empty value is never added. *)
Lemma node_selector_not_added r m :
  om_Annotations m !! "openshift.io/node-selector" = None →
  om_Annotations (configure_namespace r m).1 !! "openshift.io/node-selector" = None.
Proof.
  intros Hn. rewrite configure_namespace_eq. cbn. unfold ns_annotations.
  destruct (IsOpenshift r); [|done]. unfold osAnnotations. rewrite put_all_cons, decide_False.
  - by rewrite put_all_lookup by (apply (bool_decide_unpack _); vm_compute; exact I).
  - rewrite Hn. cbn. tauto.
Qed.

(** ** The steps of a pass *)

Section config.
Context {W : Type} `{!ConfigAPI W, !ConfigAPILaws W} (c : Config) (r : BpfmanConfigReconciler).
Implicit Types w : W.

Definition ns : string := cs_Namespace (Spec c).

(** What each step establishes. *)
Definition cm_settled w : Prop := conforming c KConfigMap (bpfman_cm c) w.

Definition csi_manifest w : option CSIDriver :=
  loaded KCSIDriver (blank_csi (named BpfmanCsiDriverName "" ∅)) (CsiDriverDS r)
    BpfmanCsiDriverName w.
Definition csi_settled w : Prop :=
  ∃ d, csi_manifest w = Some d ∧ conforming c KCSIDriver d w.

Definition scc_settled w : Prop :=
  IsOpenshift r = true → conforming c KSCC bpfmanRestrictedSCC w.

Definition ds_manifest w : option DaemonSet :=
  loaded KDaemonSet (blank_ds (named BpfmanDsName "" ∅)) (BpfmanStandardDS r) BpfmanDsName w.
Definition ds_settled w : Prop :=
  ∃ d, ds_manifest w = Some d ∧
       conforming c KDaemonSet (bpfman_ds (env BPFMAN_IMAGE_PULL_POLICY w) d c) w.

Definition proxy_manifest w : option DaemonSet :=
  loaded KDaemonSet (blank_ds (named BpfmanMetricsProxyDsName "" ∅)) (BpfmanMetricsProxyDS r)
    BpfmanMetricsProxyDsName w.
Definition proxy_settled w : Prop :=
  HasMonitoring r = true →
  ∃ d, proxy_manifest w = Some d ∧
       conforming c KDaemonSet
         (metrics_proxy_ds (env BPFMAN_IMAGE_PULL_POLICY w) d c (IsOpenshift r)) w.

Definition services_settled w : Prop :=
  HasMonitoring r = true →
  conforming c KService (agentSvc ns) w ∧ conforming c KService (controllerSvc ns) w.

Definition monitors_settled w : Prop :=
  HasMonitoring r = true →
  conforming c KServiceMonitor (agentSM (IsOpenshift r) ns) w ∧
  conforming c KServiceMonitor (controllerSM ns) w.

Definition annotation_settled w : Prop :=
  IsOpenshift r = true →
  unmanaged (W := W) c KService ns BpfmanAgentMetricsServiceName = true ∨
  view KService ns BpfmanAgentMetricsServiceName w = NotFound ∨
  ∃ e : obj KService, view KService ns BpfmanAgentMetricsServiceName w = Got e ∧
    om_Annotations (obj_meta e) !! servingCertSecretName = Some "agent-metrics-tls".

Definition rbac_settled w : Prop :=
  IsOpenshift r = true →
  conforming c KClusterRoleBinding (privilegedCRB ns) w ∧ conforming c KClusterRole userCR w.

Definition prometheus_settled w : Prop :=
  IsOpenshift r && HasMonitoring r = true →
  conforming c KRole (promRole ns) w ∧ conforming c KRoleBinding (promRB ns) w ∧
  conforming c KClusterRoleBinding metricsReaderCRB w.

Definition namespace_settled w : Prop :=
  ∃ e : obj KNamespace, view KNamespace "" ns w = Got e ∧ namespace_ok r (obj_meta e).

(** Everything that the Config asks for is there. *)
Definition settled w : Prop :=
  cm_settled w ∧ csi_settled w ∧ scc_settled w ∧ ds_settled w ∧ proxy_settled w ∧
  services_settled w ∧ monitors_settled w ∧ annotation_settled w ∧ rbac_settled w ∧
  prometheus_settled w ∧ namespace_settled w.

Lemma step_eq m m' l I (J : W → Prop) :
  Step c m l I → (∀ w, m' w = m w) → (∀ w, I w ↔ J w) → Step c m' l J.
Proof using Type.
  intros [Hc Hs Hi Hp] Hm HJ. split.
  - intros w. rewrite Hm. apply Hc.
  - intros w w' Hl. rewrite Hm, <- HJ. by apply Hs.
  - intros w. rewrite Hm, <- HJ. apply Hi.
  - intros w w' Ha. rewrite <- !HJ. by apply Hp.
Qed.

Lemma cm_step : Step c (reconcileCM c) [(KConfigMap, BpfmanCmName)] cm_settled.
Proof. exact (step_assure c KConfigMap (bpfman_cm c) _). Qed.

Lemma csi_step :
  Step c (reconcileCSIDriver r c) [(KCSIDriver, BpfmanCsiDriverName)] csi_settled.
Proof.
  apply (step_load c KCSIDriver _ _ _ (λ d, assureResource (k := KCSIDriver) c d csi_needsUpdate)).
  intros d <-. apply step_assure, _.
Qed.

Lemma scc_step : Step c (reconcileSCC r c) [(KSCC, BpfmanRestrictedSccName)] scc_settled.
Proof. apply step_when. exact (step_assure c KSCC bpfmanRestrictedSCC _). Qed.

Lemma ds_step : Step c (reconcileStandardDS r c) [(KDaemonSet, BpfmanDsName)] ds_settled.
Proof.
  unfold reconcileStandardDS, ds_settled.
  apply (step_load c KDaemonSet _ _ _
    (λ d, d ← configureBpfmanDs d c; assureResource (k := KDaemonSet) c d ds_needsUpdate) _
    (λ d w, conforming c KDaemonSet (bpfman_ds (env BPFMAN_IMAGE_PULL_POLICY w) d c) w)).
  intros d _. eapply (step_env c BPFMAN_IMAGE_PULL_POLICY (λ p, bpfman_ds p d c) _ _ _
    (λ p, conforming c KDaemonSet (bpfman_ds p d c))).
  - apply run_configureBpfmanDs.
  - intros p. exact (step_assure c KDaemonSet (bpfman_ds p d c) _).
Qed.

Lemma proxy_step :
  Step c (reconcileMetricsProxyDS r c) [(KDaemonSet, BpfmanMetricsProxyDsName)] proxy_settled.
Proof.
  apply step_unless.
  apply (step_load c KDaemonSet _ _ _
    (λ d, d ← configureMetricsProxyDs d c (IsOpenshift r); assureResource (k := KDaemonSet) c d ds_needsUpdate) _
    (λ d w, conforming c KDaemonSet
      (metrics_proxy_ds (env BPFMAN_IMAGE_PULL_POLICY w) d c (IsOpenshift r)) w)).
  intros d _.
  eapply (step_env c BPFMAN_IMAGE_PULL_POLICY (λ p, metrics_proxy_ds p d c (IsOpenshift r)) _ _ _
    (λ p, conforming c KDaemonSet (metrics_proxy_ds p d c (IsOpenshift r)))).
  - apply run_configureMetricsProxyDs.
  - intros p. exact (step_assure c KDaemonSet (metrics_proxy_ds p d c (IsOpenshift r)) _).
Qed.

(** A step that names other objects keeps the condition of a step. *)
Lemma keeps_step m1 l1 I1 m2 l2 I2 :
  Step c m1 l1 I1 → Step c m2 l2 I2 →
  (∀ k n, (k, n) ∈ l1 → (k, n) ∉ l2) → keeps m2 I1.
Proof using Type. intros H1 H2. eapply keeps_disjoint; [done|apply H2]. Qed.

Lemma step_pair k1 (x1 : obj k1) nu1 `{!NeedsUpdate k1 nu1} m2 l2 I2 :
  Step c m2 l2 I2 → (k1, obj_name x1) ∉ l2 →
  Step c (assureResource c x1 nu1 ?; m2) ((k1, obj_name x1) :: l2)
    (λ w, conforming c k1 x1 w ∧ I2 w).
Proof.
  intros H2 Hd. pose proof (step_assure c k1 x1 nu1) as H1.
  apply (step_and_then c _ _ [(k1, obj_name x1)] l2 _ _ H1 H2).
  eapply keeps_step; [apply H1|apply H2|]. by intros k n [= -> ->]%list_elem_of_singleton.
Qed.

Ltac decide_notin := by apply (bool_decide_unpack _).

Lemma services_step :
  Step c (reconcileMetricsServices r c)
    [(KService, BpfmanAgentMetricsServiceName); (KService, BpfmanControllerMetricsServiceName)]
    services_settled.
Proof.
  apply step_unless. apply (step_pair KService (agentSvc ns) _); [|decide_notin].
  exact (step_assure c KService (controllerSvc ns) _).
Qed.

Lemma monitors_step :
  Step c (reconcileServiceMonitors r c)
    [(KServiceMonitor, BpfmanAgentServiceMonitorName);
     (KServiceMonitor, BpfmanControllerServiceMonitorName)] monitors_settled.
Proof.
  apply step_unless.
  apply (step_pair KServiceMonitor (agentSM (IsOpenshift r) ns) _); [|decide_notin].
  exact (step_assure c KServiceMonitor (controllerSM ns) _).
Qed.

Lemma rbac_step :
  Step c (reconcileOpenShiftRBAC r c)
    [(KClusterRoleBinding, BpfmanPrivilegedSccClusterRoleBindingName);
     (KClusterRole, BpfmanUserClusterRoleName)] rbac_settled.
Proof.
  apply step_unless. apply (step_pair KClusterRoleBinding (privilegedCRB ns) _); [|decide_notin].
  exact (step_assure c KClusterRole userCR _).
Qed.

Lemma prometheus_step :
  Step c (reconcilePrometheusRBAC r c)
    [(KRole, BpfmanPrometheusRoleName); (KRoleBinding, BpfmanPrometheusRoleBindingName);
     (KClusterRoleBinding, BpfmanPrometheusClusterRoleBindingName)] prometheus_settled.
Proof.
  unfold reconcilePrometheusRBAC, prometheus_settled. rewrite <- negb_andb. apply step_unless.
  apply (step_pair KRole (promRole ns) _); [|decide_notin].
  apply (step_pair KRoleBinding (promRB ns) _); [|decide_notin].
  exact (step_assure c KClusterRoleBinding metricsReaderCRB _).
Qed.
(** ** reconcileNamespace and reconcileAgentMetricsServiceAnnotation *)

Lemma run_wrapped (g : error → error) (f : W → option error * W) w :
  (err ← lift f; mret (match err with Some e => Some (g e) | None => None end)
   : GoM W (option error)) w = (Ret (g <$> (f w).1), (f w).2).
Proof using Type. erewrite run_bind by apply run_lift. done. Qed.

Lemma wrapped_None (g : error → error) (f : W → option error * W) w w' :
  (Ret (g <$> (f w).1), (f w).2) = (Ret None, w') → f w = (None, w').
Proof using Type. destruct (f w) as [[e|] w1]; cbn; [done|]. by intros [= ->]. Qed.

(** The namespace as reconcileNamespace writes it. *)
Definition namespace_of (e : obj KNamespace) : obj KNamespace :=
  set_obj_meta (configure_namespace r (obj_meta e)).1 e.

Lemma run_namespace w e :
  view KNamespace "" ns w = Got e →
  reconcileNamespace r c w =
  if (configure_namespace r (obj_meta e)).2 then
    (Ret ((λ err, "update namespace " +:+ ns +:+ ": " +:+ err) <$>
            (api_Update KNamespace (namespace_of e) w).1),
     (api_Update KNamespace (namespace_of e) w).2)
  else (Ret None, w).
Proof.
  intros He. unfold reconcileNamespace. erewrite run_bind by apply run_Get. fold ns. rewrite He.
  cbn [obj_meta]. unfold namespace_of. cbn [obj_meta].
  destruct (configure_namespace r (ns_meta e)) as [m b]. cbn [fst snd].
  destruct b; [|done].
  apply (run_wrapped (λ err, "update namespace " +:+ ns +:+ ": " +:+ err)).
Qed.

Lemma run_namespace_missing w :
  (∀ e, view KNamespace "" ns w ≠ Got e) →
  ∃ err, reconcileNamespace r c w = (Ret (Some err), w).
Proof.
  intros He. unfold reconcileNamespace. erewrite run_bind by apply run_Get. fold ns.
  destruct (view KNamespace "" ns w) as [e| |e]; [by destruct (He e)|by eexists|by eexists].
Qed.

Lemma configure_namespace_key m :
  om_Namespace (configure_namespace r m).1 = om_Namespace m ∧
  om_Name (configure_namespace r m).1 = om_Name m ∧
  om_DeletionTimestamp (configure_namespace r m).1 = om_DeletionTimestamp m.
Proof using Type. by rewrite configure_namespace_eq. Qed.

Lemma namespace_of_key w e :
  view KNamespace "" ns w = Got e →
  obj_ns (namespace_of e) = "" ∧ obj_name (namespace_of e) = ns.
Proof.
  intros [H1 H2]%get_named. unfold obj_ns, obj_name, namespace_of in *. rewrite obj_meta_set.
  destruct (configure_namespace_key (obj_meta e)) as (-> & -> & _). done.
Qed.

Lemma namespace_ok_stored m (y : obj KNamespace) x :
  obj_meta x = m → namespace_ok r m → stored x y → namespace_ok r (obj_meta y).
Proof using Type.
  intros <- [Hp Ho] [Hc Hl Ha _ _ _]. cbn in *. unfold namespace_ok. rewrite Hc.
  assert (Hne : Forall (λ kv, kv.2 ≠ "") psaLabels ∧
                Forall (λ kv, kv.2 ≠ "") clusterMonitoringLabel)
    by (split; repeat constructor; done).
  destruct Hne as [Hn1 Hn2]. split; [by eapply reads_mono|]. intros Hop.
  destruct (Ho Hop) as [Hm Hann]. split; [|done]. intros Hmon.
  by eapply reads_mono; [| |apply Hm].
Qed.

Lemma namespace_step :
  Step c (reconcileNamespace r c) [(KNamespace, ns)] namespace_settled.
Proof.
  split.
  - intros w. destruct (view KNamespace "" ns w) as [e| |e] eqn:He;
      [|destruct (run_namespace_missing w) as [err ->]; [by rewrite He|done]..].
    rewrite (run_namespace _ _ He). destruct (configure_namespace r (obj_meta e)).2; [|done].
    cbn [snd]. destruct (namespace_of_key _ _ He) as [Hk1 Hk2].
    eapply only_at_confined; [apply update_only_at| |done]. rewrite Hk2. by left.
  - intros w w' Hl. destruct (view KNamespace "" ns w) as [e| |e] eqn:He;
      [|destruct (run_namespace_missing w) as [err ->]; [by rewrite He|done]..].
    rewrite (run_namespace _ _ He).
    pose proof (configure_namespace_ok r (obj_meta e)) as Hok.
    destruct (configure_namespace r (obj_meta e)).2 eqn:Hb.
    + intros Hrun%wrapped_None. pose proof (update_only_at KNamespace (namespace_of e) w) as Hat.
      destruct (namespace_of_key _ _ He) as [Hk1 Hk2].
      destruct (update_stores KNamespace (namespace_of e) e w w') as (y & Hy & Hst); [|by eapply Hl|done|].
      { by rewrite Hk1, Hk2. }
      rewrite Hrun in Hat. split; [eapply live_only_at; [done|exact Hat|done|apply Hst]|].
      rewrite Hk1, Hk2 in Hy. exists y. split; [done|].
      eapply namespace_ok_stored; [|exact Hok|exact Hst]. apply obj_meta_set.
    + intros [= <-]. split; [done|]. exists e. split; [done|].
      by rewrite configure_namespace_same in Hok.
  - intros w (e & He & Hok). rewrite (run_namespace _ _ He).
    by rewrite configure_namespace_idle.
  - intros w w' (Hv & _) (e & He & Hok). exists e. split; [|done].
    rewrite <- He. apply Hv. by left.
Qed.
(** The agent's metrics service with the annotation of the service CA. *)
Definition annotated (e : obj KService) : obj KService :=
  set_obj_meta (set_Annotations
    (<[servingCertSecretName := "agent-metrics-tls"]> (om_Annotations (obj_meta e)))
    (obj_meta e)) e.

Abbreviation agent_view := (view KService ns BpfmanAgentMetricsServiceName).

Lemma run_annotation w :
  reconcileAgentMetricsServiceAnnotation r c w =
  if negb (IsOpenshift r) then (Ret None, w)
  else if unmanaged (W := W) c KService ns BpfmanAgentMetricsServiceName then (Ret None, w)
  else match agent_view w with
       | NotFound => (Ret None, w)
       | GetError err => (Ret (Some ("get agent metrics service: " +:+ err)), w)
       | Got e =>
           if decide (default "" (om_Annotations (obj_meta e) !! servingCertSecretName)
                      ≠ "agent-metrics-tls")
           then (Ret ((λ err, "annotate agent metrics service: " +:+ err) <$>
                        (api_Update KService (annotated e) w).1),
                 (api_Update KService (annotated e) w).2)
           else (Ret None, w)
       end.
Proof.
  unfold reconcileAgentMetricsServiceAnnotation. destruct (IsOpenshift r); [|done]. cbn [negb].
  rewrite isOverridden_unmanaged. fold ns. cbn [obj_ns obj_name].
  change (unmanaged c KService (obj_ns _) (obj_name _)) with
    (unmanaged (W := W) c KService ns BpfmanAgentMetricsServiceName).
  destruct (unmanaged _ _ _ _); [done|]. erewrite run_bind by apply run_Get.
  destruct (agent_view w) as [e| |e]; [|done|done]. cbn zeta. case_decide; [|done].
  apply (run_wrapped (λ err, "annotate agent metrics service: " +:+ err)).
Qed.

Lemma annotated_key w e :
  agent_view w = Got e →
  obj_ns (annotated e) = ns ∧ obj_name (annotated e) = BpfmanAgentMetricsServiceName.
Proof. by intros [H1 H2]%get_named. Qed.

(** Where an error-free annotation step leads. *)
Lemma annotation_runs w w' :
  live w → reconcileAgentMetricsServiceAnnotation r c w = (Ret None, w') →
  (w' = w ∧ annotation_settled w) ∨
  ∃ e y, agent_view w = Got e ∧ agent_view w' = Got y ∧ stored (annotated e) y ∧
         only_at KService ns BpfmanAgentMetricsServiceName w w'.
Proof.
  intros Hl. rewrite run_annotation. unfold annotation_settled.
  destruct (IsOpenshift r); cbn [negb]; [|intros [= <-]; by left].
  destruct (unmanaged _ _ _ _); [intros [= <-]; by auto|].
  destruct (agent_view w) as [e| |e] eqn:He; [|intros [= <-]; by auto|done].
  case_decide as Hd.
  - intros Hrun%wrapped_None. right.
    destruct (annotated_key _ _ He) as [Hk1 Hk2].
    pose proof (update_only_at KService (annotated e) w) as Hat. rewrite Hrun, Hk1, Hk2 in Hat.
    destruct (update_stores KService (annotated e) e w w') as (y & Hy & Hst);
      [by rewrite Hk1, Hk2|by eapply Hl|done|].
    rewrite Hk1, Hk2 in Hy. by exists e, y.
  - intros [= <-]. left. split; [done|]. intros _. right. right. exists e. split; [done|].
    destruct (om_Annotations (obj_meta e) !! servingCertSecretName) as [v|] eqn:Hv; cbn in Hd.
    + by rewrite Hd.
    + discriminate Hd.
Qed.

Lemma annotation_step :
  Step c (reconcileAgentMetricsServiceAnnotation r c)
    [(KService, BpfmanAgentMetricsServiceName)] annotation_settled.
Proof.
  split.
  - intros w. rewrite run_annotation. destruct (IsOpenshift r); [|done]. cbn [negb].
    destruct (unmanaged _ _ _ _) eqn:Hu; [done|].
    destruct (agent_view w) as [e| |e] eqn:He; [|done|done]. case_decide; [|done]. cbn [snd].
    destruct (annotated_key _ _ He) as [Hk1 Hk2].
    eapply only_at_confined; [apply update_only_at| |]; rewrite ?Hk1, Hk2; [by left|congruence].
  - intros w w' Hl Hrun. destruct (annotation_runs _ _ Hl Hrun) as [[-> HI]|(e & y & He & Hy & Hst & Hat)].
    + by split.
    + split; [eapply live_only_at; [done|exact Hat|done|apply Hst]|].
      intros _. right. right. exists y. split; [done|].
      eapply lookup_weaken; [|apply (stored_annotations _ _ Hst)].
      apply lookup_insert_eq.
  - intros w HI. rewrite run_annotation. unfold annotation_settled in HI.
    destruct (IsOpenshift r); [|done]. cbn [negb]. destruct (HI eq_refl) as [->|[H|(e & He & Ha)]].
    + done.
    + rewrite H. by destruct (unmanaged _ _ _ _).
    + rewrite He, Ha. by destruct (unmanaged _ _ _ _).
  - intros w w' (Hv & _) HI Ho. destruct (HI Ho) as [H|[H|(e & He & Ha)]]; [by left|right; left|].
    + rewrite <- H. apply Hv. by left.
    + right. right. exists e. split; [|done]. rewrite <- He. apply Hv. by left.
Qed.

(** The annotation is no reason to update the services again. *)
Lemma annotation_keeps_services :
  keeps (reconcileAgentMetricsServiceAnnotation r c) services_settled.
Proof.
  intros w w' Hl HI Hrun. destruct (annotation_runs _ _ Hl Hrun) as [[-> _]|(e & y & He & Hy & Hst & Hat)];
    [done|]. intros Hm. destruct (HI Hm) as [Ha Hc]. split.
  - destruct Ha as [Hu|(x' & e' & Hx & He' & Hcon & Hown)]; [by left|right].
    change (obj_ns (k := KService) (agentSvc ns)) with ns in He'.
    change (obj_name (k := KService) (agentSvc ns)) with BpfmanAgentMetricsServiceName in He'.
    rewrite He in He'. injection He' as <-. exists x', y. split_and!; [done|done| |].
    + destruct (stored_content _ _ Hst) as (H1 & H2 & H3), Hcon as (H4 & H5 & H6).
      split_and!; etransitivity; eauto.
    + by rewrite (stored_owners _ _ Hst).
  - eapply conforming_view; [|exact Hc]. apply Hat. by intros [= ?].
Qed.

(** ** The whole pass *)

Definition touched : list (RKind * string) :=
  [(KConfigMap, BpfmanCmName)] ++ [(KCSIDriver, BpfmanCsiDriverName)] ++
  [(KSCC, BpfmanRestrictedSccName)] ++ [(KDaemonSet, BpfmanDsName)] ++
  [(KDaemonSet, BpfmanMetricsProxyDsName)] ++
  [(KService, BpfmanAgentMetricsServiceName); (KService, BpfmanControllerMetricsServiceName)] ++
  [(KServiceMonitor, BpfmanAgentServiceMonitorName);
   (KServiceMonitor, BpfmanControllerServiceMonitorName)] ++
  [(KService, BpfmanAgentMetricsServiceName)] ++
  [(KClusterRoleBinding, BpfmanPrivilegedSccClusterRoleBindingName);
   (KClusterRole, BpfmanUserClusterRoleName)] ++
  [(KRole, BpfmanPrometheusRoleName); (KRoleBinding, BpfmanPrometheusRoleBindingName);
   (KClusterRoleBinding, BpfmanPrometheusClusterRoleBindingName)] ++ [(KNamespace, ns)].

Ltac pair_neq H :=
  first [ let H' := fresh in pose proof (f_equal fst H) as H'; cbn in H'; discriminate H'
        | let H' := fresh in pose proof (f_equal snd H) as H'; vm_compute in H'; discriminate H' ].
Ltac apart :=
  let Hin := fresh in let Hc := fresh in intros ? ? Hin Hc; cbn [app] in Hin, Hc;
  repeat (apply elem_of_cons in Hin as [[= -> ->]|Hin];
          [repeat (apply elem_of_cons in Hc as [Hc|Hc]; [pair_neq Hc|]);
           by apply elem_of_nil in Hc|]);
  by apply elem_of_nil in Hin.

Lemma reconcile_step : Step c (reconcile_resources r c) touched settled.
Proof.
  unfold reconcile_resources, touched, settled.
  pose proof prometheus_step as Hprom. pose proof namespace_step as Hns.
  pose proof (step_and_then c _ _ _ _ _ _ Hprom Hns
    (keeps_step _ _ _ _ _ _ Hprom Hns ltac:(apart))) as H1.
  pose proof (step_and_then c _ _ _ _ _ _ rbac_step H1
    (keeps_step _ _ _ _ _ _ rbac_step H1 ltac:(apart))) as H2.
  pose proof (step_and_then c _ _ _ _ _ _ annotation_step H2
    (keeps_step _ _ _ _ _ _ annotation_step H2 ltac:(apart))) as H3.
  pose proof (step_and_then c _ _ _ _ _ _ monitors_step H3
    (keeps_step _ _ _ _ _ _ monitors_step H3 ltac:(apart))) as H4.
  assert (H5 : keeps (reconcileServiceMonitors r c ?;
      reconcileAgentMetricsServiceAnnotation r c ?; reconcileOpenShiftRBAC r c ?;
      reconcilePrometheusRBAC r c ?; reconcileNamespace r c) services_settled).
  { eapply keeps_and_then; [apply monitors_step| |].
    { eapply keeps_step; [apply services_step|apply monitors_step|apart]. }
    eapply keeps_and_then; [apply annotation_step|apply annotation_keeps_services|].
    eapply keeps_step; [apply services_step|exact H2|apart]. }
  pose proof (step_and_then c _ _ _ _ _ _ services_step H4 H5) as H6.
  pose proof (step_and_then c _ _ _ _ _ _ proxy_step H6
    (keeps_step _ _ _ _ _ _ proxy_step H6 ltac:(apart))) as H7.
  pose proof (step_and_then c _ _ _ _ _ _ ds_step H7
    (keeps_step _ _ _ _ _ _ ds_step H7 ltac:(apart))) as H8.
  pose proof (step_and_then c _ _ _ _ _ _ scc_step H8
    (keeps_step _ _ _ _ _ _ scc_step H8 ltac:(apart))) as H9.
  pose proof (step_and_then c _ _ _ _ _ _ csi_step H9
    (keeps_step _ _ _ _ _ _ csi_step H9 ltac:(apart))) as H10.
  exact (step_and_then c _ _ _ _ _ _ cm_step H10
    (keeps_step _ _ _ _ _ _ cm_step H10 ltac:(apart))).
Qed.
End config.
