(* ===== verification/ConfigReconcile.v ===== *)
(** What the configuration controller achieves: a pass brings every resource into
    its desired form and the next pass finds nothing to do; unmanaged resources are
    left alone; and what happens to a Config that lacks its finalizer or is being
    deleted. *)

From S2P Require Import Prelude ApiTypes Constants Application Operator ConfigTypes Config.
From S2P Require Import ConfigSpecs ConfigSteps ConfigTheorems.
From stdpp Require Import options.
#[local] Set Default Proof Using "Type*".

Section serves.
Context {W : Type} `{!ConfigAPI W, !ConfigAPILaws W, !ConfigAPIServes W}.
Context (c : Config) (r : BpfmanConfigReconciler).
Implicit Types (w : W) (m : GoM W (option error)).

(** The manifests can be read, and the namespace exists. *)
Definition prepared w : Prop :=
  is_Some (csi_manifest r w) ∧ is_Some (ds_manifest r w) ∧
  (HasMonitoring r = true → is_Some (proxy_manifest r w)) ∧
  ∃ e, view KNamespace "" (ns c) w = Got e.

Definition serves m : Prop := ∀ w, prepared w → ∃ w', m w = (Ret None, w').

Lemma serves_and_then m1 m2 l I :
  serves m1 → Step c m1 l I → (KNamespace, ns c) ∉ l → serves m2 → serves (m1 ?; m2).
Proof using Type.
  intros H1 Hs Hl H2 w Hp. destruct (H1 w Hp) as [w1 Hw1]. rewrite run_and_then, Hw1. apply H2.
  pose proof (step_confined _ _ _ _ Hs w) as (Hv & Hf & _). rewrite Hw1 in Hv, Hf. cbn in *.
  destruct Hp as (Hcsi & Hds & Hpr & [e He]).
  unfold prepared, csi_manifest, ds_manifest, proxy_manifest, loaded in *. rewrite !Hf.
  split_and!; [done|done|done|]. exists e. rewrite <- He. apply Hv. by left.
Qed.

Lemma serves_assure k (x : obj k) nu `{!NeedsUpdate k nu} w :
  ∃ w', assureResource c x nu w = (Ret None, w').
Proof. apply assure_serves, _. Qed.

Lemma assures_and_then k (x : obj k) nu `{!NeedsUpdate k nu} m w :
  (∀ w, ∃ w', m w = (Ret None, w')) →
  ∃ w', (assureResource c x nu ?; m) w = (Ret None, w').
Proof.
  intros Hm. destruct (assure_serves c k x nu w) as [w1 H1]. rewrite run_and_then, H1. apply Hm.
Qed.

Lemma serves_unless (b : bool) m :
  (b = true → serves m) → serves (if negb b then mret None else m).
Proof using Type. destruct b; [by auto|]. intros _ w _. by exists w. Qed.

Lemma run_loaded k (t : obj k) path name (g : obj k → GoM W (option error)) w d :
  loaded k t path name w = Some d →
  (d ← load k t path name; match d with Err err => mret (Some err) | Ok d => g d end) w = g d w.
Proof.
  intros Hd. destruct (run_load k t path name w) as (o & Ho & Hr). rewrite Hd in Hr. subst o.
  by erewrite run_bind by done.
Qed.

Lemma annotation_serves : serves (reconcileAgentMetricsServiceAnnotation r c).
Proof.
  intros w _. rewrite run_annotation. destruct (negb _); [by exists w|].
  destruct (unmanaged _ _ _ _); [by exists w|].
  destruct (view _ _ _ w) as [e| |e] eqn:He; [|by exists w|by apply get_serves in He].
  case_decide; [|by exists w]. destruct (annotated_key c _ _ He) as [Hk1 Hk2].
  rewrite (update_serves KService (annotated e) e); [by eexists|by rewrite Hk1, Hk2|done].
Qed.

Lemma namespace_serves : serves (reconcileNamespace r c).
Proof.
  intros w (_ & _ & _ & e & He). rewrite (run_namespace c r _ _ He).
  destruct (configure_namespace _ _).2; [|by eexists].
  destruct (namespace_of_key c r _ _ He) as [Hk1 Hk2].
  rewrite (update_serves KNamespace (namespace_of r e) e);
    [by eexists|by rewrite Hk1, Hk2|]. unfold namespace_of. rewrite obj_meta_set.
  by rewrite configure_namespace_eq.
Qed.

Lemma reconcile_serves : serves (reconcile_resources r c).
Proof.
  unfold reconcile_resources.
  eapply serves_and_then; [|apply cm_step|by apply (bool_decide_unpack _)|].
  { intros w _. apply (serves_assure KConfigMap), _. }
  eapply serves_and_then; [|apply csi_step|by apply (bool_decide_unpack _)|].
  { intros w ([d Hd] & _). unfold reconcileCSIDriver.
    rewrite (run_loaded KCSIDriver _ _ _ _ _ _ Hd). apply (serves_assure KCSIDriver), _. }
  eapply serves_and_then; [|apply scc_step|by apply (bool_decide_unpack _)|].
  { intros w _. unfold reconcileSCC. destruct (IsOpenshift r); [|by exists w].
    apply (serves_assure KSCC), _. }
  eapply serves_and_then; [|apply ds_step|by apply (bool_decide_unpack _)|].
  { intros w (_ & [d Hd] & _). unfold reconcileStandardDS.
    rewrite (run_loaded KDaemonSet _ _ _ _ _ _ Hd).
    erewrite run_bind by apply run_configureBpfmanDs. apply (serves_assure KDaemonSet), _. }
  eapply serves_and_then; [|apply proxy_step|by apply (bool_decide_unpack _)|].
  { apply serves_unless. intros Hm w (_ & _ & Hpr & _). destruct (Hpr Hm) as [d Hd].
    rewrite (run_loaded KDaemonSet _ _ _ _ _ _ Hd).
    erewrite run_bind by apply run_configureMetricsProxyDs.
    apply (serves_assure KDaemonSet), _. }
  eapply serves_and_then; [|apply services_step|by apply (bool_decide_unpack _)|].
  { apply serves_unless. intros _ w _. apply (assures_and_then KService); [apply _|].
    intros w'. apply (serves_assure KService), _. }
  eapply serves_and_then; [|apply monitors_step|by apply (bool_decide_unpack _)|].
  { apply serves_unless. intros _ w _. apply (assures_and_then KServiceMonitor); [apply _|].
    intros w'. apply (serves_assure KServiceMonitor), _. }
  eapply serves_and_then; [|apply annotation_step|by apply (bool_decide_unpack _)|].
  { apply annotation_serves. }
  eapply serves_and_then; [|apply rbac_step|by apply (bool_decide_unpack _)|].
  { apply serves_unless. intros _ w _. apply (assures_and_then KClusterRoleBinding); [apply _|].
    intros w'. apply (serves_assure KClusterRole), _. }
  eapply serves_and_then; [|apply prometheus_step|by apply (bool_decide_unpack _)|].
  { unfold reconcilePrometheusRBAC. rewrite <- negb_andb. apply serves_unless. intros _ w _.
    apply (assures_and_then KRole); [apply _|]. intros w'. apply (assures_and_then KRoleBinding); [apply _|].
    intros w''. apply (serves_assure KClusterRoleBinding), _. }
  apply namespace_serves.
Qed.
End serves.

Section reconcile.
Context {W : Type} `{!ConfigAPI W, !ConfigAPILaws W} (c : Config) (r : BpfmanConfigReconciler).
Implicit Types (w : W) (name : string).

(** Reconcile once the Config has been read. *)
Lemma run_Reconcile name w :
  view KConfig "" name w = Got c →
  Reconcile r name w =
  match om_DeletionTimestamp (cfg_meta c) with
  | Some _ => handleDeletion c w
  | None =>
      if negb (ContainsFinalizer BpfmanConfigFinalizer (cfg_meta c))
      then lift (api_Update KConfig (with_cfg_meta
             (AddFinalizer BpfmanConfigFinalizer (cfg_meta c)) c)) w
      else reconcile_resources r c w
  end.
Proof.
  intros Hc. unfold Reconcile. erewrite run_bind by exact (run_Get KConfig "" name w). rewrite Hc.
  destruct (om_DeletionTimestamp _); [done|]. by destruct (negb _).
Qed.

Lemma run_live name w :
  live w → view KConfig "" name w = Got c →
  ContainsFinalizer BpfmanConfigFinalizer (cfg_meta c) = true →
  Reconcile r name w = reconcile_resources r c w.
Proof.
  intros Hl Hc Hf. rewrite (run_Reconcile _ _ Hc). apply Hl in Hc. cbn in Hc. by rewrite Hc, Hf.
Qed.

Lemma config_untouched n : (KConfig, n) ∉ touched c.
Proof using Type. by apply (bool_decide_unpack _). Qed.

(** A pass without an error. *)
Lemma pass_settles name w w' :
  live w → view KConfig "" name w = Got c →
  ContainsFinalizer BpfmanConfigFinalizer (cfg_meta c) = true →
  Reconcile r name w = (Ret None, w') →
  settled c r w' ∧ Reconcile r name w' = (Ret None, w').
Proof.
  intros Hl Hc Hf. rewrite (run_live _ _ Hl Hc Hf). intros Hrun.
  pose proof (reconcile_step c r) as Hs. destruct (step_settles _ _ _ _ Hs _ _ Hl Hrun) as [Hl' HI].
  split; [done|]. rewrite (run_live name w'); [by apply (step_idle _ _ _ _ Hs)|done| |done].
  rewrite <- Hc. pose proof (step_confined _ _ _ _ Hs w) as (Hv & _). rewrite Hrun in Hv.
  apply Hv. left. apply config_untouched.
Qed.

(** C18: with a Config that has its finalizer, readable manifests and an existing
    namespace, and an API server that serves what it can, a pass of the
    configuration controller ends without an error; then every resource that the
    Config asks for and does not exclude has its desired content and is owned by
    the Config, the namespace has its labels and annotations, and the next pass
    writes nothing, although the API server fills in image pull policies, cluster
    IPs and other defaults. *)
Theorem Reconcile_settles `{!ConfigAPIServes W} name w :
  live w → view KConfig "" name w = Got c →
  ContainsFinalizer BpfmanConfigFinalizer (cfg_meta c) = true → prepared c r w →
  ∃ w', Reconcile r name w = (Ret None, w') ∧ settled c r w' ∧
        Reconcile r name w' = (Ret None, w').
Proof.
  intros Hl Hc Hf Hp. destruct (reconcile_serves c r w Hp) as [w' Hw'].
  rewrite <- (run_live _ _ Hl Hc Hf) in Hw'. exists w'. split; [done|].
  by eapply pass_settles.
Qed.

Lemma update_config_confined (c' : obj KConfig) w k ns' n :
  k ≠ KConfig → view k ns' n (api_Update KConfig c' w).2 = view k ns' n w.
Proof. intros Hk. apply (update_only_at KConfig c' w). by intros [= -> _ _]. Qed.

(** C19: whatever the API server answers, error or not, Reconcile leaves alone every
    object that it does not manage by name, and of those it does, other than the
    namespace, the ones that an override of the Config marks as unmanaged. *)
Theorem Reconcile_spares name w k ns' n :
  view KConfig "" name w = Got c → spared (W := W) c (touched c) k ns' n → k ≠ KConfig →
  view k ns' n (Reconcile r name w).2 = view k ns' n w.
Proof.
  intros Hc Hs Hk. rewrite (run_Reconcile _ _ Hc).
  destruct (om_DeletionTimestamp _); [|destruct (negb _)].
  - unfold handleDeletion. rewrite run_lift. by apply update_config_confined.
  - rewrite run_lift. by apply update_config_confined.
  - by apply (step_confined _ _ _ _ (reconcile_step c r) w).
Qed.

(** C22: of a Config that is being deleted, or that has no finalizer yet, Reconcile
    writes the finalizers and nothing else: it writes the Config as it read it, with the
    same name, labels, annotations, owners, identity, version and specification, but
    without its own finalizer in the first case and with it after those of others in the
    second; it touches no resource, and returns the error of that write. *)
Theorem Reconcile_finalizer name w :
  view KConfig "" name w = Got c →
  om_DeletionTimestamp (cfg_meta c) ≠ None ∨
    ContainsFinalizer BpfmanConfigFinalizer (cfg_meta c) = false →
  let m := cfg_meta c in
  let c' : Config :=
    mkConfig (mkObjectMeta (om_Name m) (om_Namespace m) (om_UID m) (om_ResourceVersion m)
                (om_DeletionTimestamp m) (om_Labels m) (om_Annotations m) (om_OwnerReferences m)
                (match om_DeletionTimestamp m with
                 | Some _ => filter (λ f, f ≠ BpfmanConfigFinalizer) (om_Finalizers m)
                 | None => om_Finalizers m ++ [BpfmanConfigFinalizer]
                 end))
      (Spec c) in
  Reconcile r name w = (Ret (api_Update KConfig c' w).1, (api_Update KConfig c' w).2) ∧
  ∀ k ns' n, k ≠ KConfig → view k ns' n (Reconcile r name w).2 = view k ns' n w.
Proof.
  intros Hc Hor m c'. rewrite (run_Reconcile _ _ Hc). unfold ContainsFinalizer in *. subst m.
  destruct (om_DeletionTimestamp (cfg_meta c)) as [t|] eqn:Hd.
  - unfold handleDeletion, RemoveFinalizer, with_cfg_meta, set_Finalizers. cbn [snd].
    rewrite Hd. fold c'. rewrite run_lift. split; [done|].
    intros k ns' n Hk. by apply update_config_confined.
  - destruct Hor as [?|Hor]; [done|]. rewrite Hor. cbn [negb].
    apply bool_decide_eq_false in Hor. unfold AddFinalizer. rewrite decide_False by done.
    unfold with_cfg_meta, set_Finalizers. rewrite Hd. fold c'. rewrite run_lift. split; [done|].
    intros k ns' n Hk. by apply update_config_confined.
Qed.

(** On OpenShift the namespace is meant to have an empty node selector
    annotation. A missing annotation reads as the empty string, so Reconcile's
    step for the namespace never adds it: a namespace without it is still without it
    after a step that ended well. *)
Theorem reconcileNamespace_no_node_selector w w' e :
  live w → view KNamespace "" (ns c) w = Got e →
  om_Annotations (obj_meta e) !! "openshift.io/node-selector" = None →
  reconcileNamespace r c w = (Ret None, w') →
  ∃ y, view KNamespace "" (ns c) w' = Got y ∧
       om_Annotations (obj_meta y) !! "openshift.io/node-selector" = None.
Proof.
  intros Hl He Ha. rewrite (run_namespace c r _ _ He).
  destruct (configure_namespace r (obj_meta e)).2; [|intros [= <-]; by eauto].
  intros Hrun%wrapped_None. destruct (namespace_of_key c r _ _ He) as [Hk1 Hk2].
  destruct (update_stores KNamespace (namespace_of r e) e w w') as (y & Hy & Hst);
    [by rewrite Hk1, Hk2|by eapply Hl|done|].
  rewrite Hk1, Hk2 in Hy. exists y. split; [done|].
  pose proof (stored_content _ _ Hst) as Hcon. cbn in Hcon. cbn. rewrite Hcon.
  by apply node_selector_not_added.
Qed.
End reconcile.

(** ** The daemon set *)

(** The comparison of daemon sets asks for an update exactly when the existing
    one differs from the desired one in more than image pull policies that the
    desired one leaves open; an update never takes such a policy back. *)
Theorem ds_needsUpdate_exact (existing desired : DaemonSet) :
  ((ds_needsUpdate existing desired).1 = false ↔ content KDaemonSet desired existing) ∧
  ∀ i e d, ps_Containers (tpl_Spec (ds_Template existing)) !! i = Some e →
    ps_Containers (tpl_Spec (ds_Template desired)) !! i = Some d →
    ps_Containers (tpl_Spec (ds_Template (ds_needsUpdate existing desired).2)) !! i =
    Some (if decide (ct_ImagePullPolicy d = "")
          then with_ImagePullPolicy (ct_ImagePullPolicy e) d else d).
Proof.
  split; [apply (nu_iff (k := KDaemonSet))|]. cbn. clear.
  generalize (ps_Containers (tpl_Spec (ds_Template existing))) as es.
  generalize (ps_Containers (tpl_Spec (ds_Template desired))) as ds.
  intros ds es. revert ds. induction es as [|e0 es IH]; intros [|d0 ds] [|i] e d He Hd;
    cbn in *; simplify_eq; [done|by eapply IH].
Qed.

(** The argument of the agent's health probe for a valid port. *)
Definition probe_arg (port : Z) (arg : string) : string :=
  if string_contains arg "health-probe-bind-address"
  then "--health-probe-bind-address=:" +:+ pretty port else arg.

Lemma configure_arg_valid port arg :
  1 <= port <= 65535 → configure_arg (healthProbeAddress port) arg = probe_arg port arg.
Proof.
  intros Hp. unfold configure_arg, healthProbeAddress, probe_arg.
  rewrite (decide_False (P := _ ∨ _)) by lia. by rewrite decide_True.
Qed.

Lemma configure_arg_invalid port arg :
  ¬ 1 <= port <= 65535 → configure_arg (healthProbeAddress port) arg = arg.
Proof.
  intros Hp. unfold configure_arg, healthProbeAddress.
  rewrite (decide_True (P := _ ∨ _)) by lia. by rewrite decide_False by tauto.
Qed.

(** The container [ct'] of the daemon set for [ct] of the manifest: with the image
    of the Config by the container's name, the health probe's port in the agent's
    arguments when it is a port number, and the pull policy [p] if there is one. *)
Record configured (c : Config) (p : string) (ct ct' : K8sContainer) : Prop := {
  configured_name : ct_Name ct' = ct_Name ct;
  configured_daemon : ct_Name ct = "bpfman" → ct_Image ct' = dm_Image (Daemon (Spec c));
  configured_agent : ct_Name ct = "bpfman-agent" → ct_Image ct' = ag_Image (Agent (Spec c));
  configured_registrar : ct_Name ct = "node-driver-registrar" →
    ct_Image ct' = if decide (CsiRegistrarImage (Daemon (Spec c)) = "") then ct_Image ct
                   else CsiRegistrarImage (Daemon (Spec c));
  configured_image : ct_Name ct ∉ ["bpfman"; "bpfman-agent"; "node-driver-registrar"] →
    ct_Image ct' = ct_Image ct;
  configured_args : ct_Args ct' =
    if decide (ct_Name ct = "bpfman-agent" ∧ 1 <= HealthProbePort (Agent (Spec c)) <= 65535)
    then probe_arg (HealthProbePort (Agent (Spec c))) <$> ct_Args ct else ct_Args ct;
  configured_policy :
    ct_ImagePullPolicy ct' = if decide (p = "") then ct_ImagePullPolicy ct else p;
  configured_mounts : ct_VolumeMounts ct' = ct_VolumeMounts ct;
  configured_other : ct_other ct' = ct_other ct;
}.

Lemma configure_args_agent port (args : list string) :
  configure_arg (healthProbeAddress port) <$> args =
  if decide (1 <= port <= 65535) then probe_arg port <$> args else args.
Proof.
  case_decide as Hp.
  - apply list_fmap_ext. intros _ arg _. by apply configure_arg_valid.
  - rewrite <- (list_fmap_id args) at 2. apply list_fmap_ext. intros _ arg _.
    by apply configure_arg_invalid.
Qed.

Lemma configure_container_configured c ct : configured c "" ct (configure_container c ct).
Proof.
  unfold configure_container.
  assert (Hargs : ct_Name ct ≠ "bpfman-agent" →
    ct_Args ct = if decide (ct_Name ct = "bpfman-agent" ∧
      1 <= HealthProbePort (Agent (Spec c)) <= 65535)
    then probe_arg (HealthProbePort (Agent (Spec c))) <$> ct_Args ct else ct_Args ct)
    by (intros Hne; rewrite decide_False; [done|by intros [? _]]).
  destruct (decide (ct_Name ct = BpfmanContainerName)) as [H1|H1];
    [|destruct (decide (ct_Name ct = BpfmanAgentContainerName)) as [H2|H2];
      [|destruct (decide (ct_Name ct = BpfmanCsiDriverRegistrarName)) as [H3|H3];
        [destruct (decide (CsiRegistrarImage (Daemon (Spec c)) ≠ "")) as [H4|H4]|]]].
  - split; try done; try (rewrite H1; done).
    intros Hin. destruct Hin. rewrite H1. by left.
  - split; try done; try (rewrite H2; done).
    + intros Hin. destruct Hin. rewrite H2. right. by left.
    + cbn. rewrite configure_args_agent. rewrite H2. by repeat case_decide; try tauto.
  - split; try done; try (rewrite H3; done).
    + intros _. by rewrite decide_False.
    + intros Hin. destruct Hin. rewrite H3. do 2 right. by left.
  - split; try done; try (rewrite H3; done).
    intros _. destruct (decide (_ = "")); tauto.
  - split; try done. by apply Hargs.
Qed.

(** One container after the environment's policy. *)
Lemma env_policy_configured c p (cs : list K8sContainer) i ct :
  cs !! i = Some ct →
  ∃ ct', env_policy p (configure_container c <$> cs) !! i = Some ct' ∧ configured c p ct ct'.
Proof.
  intros Hi. pose proof (configure_container_configured c ct) as [].
  unfold env_policy. destruct (decide (p ≠ "")) as [Hp|Hp]; rewrite !list_lookup_fmap, Hi;
    eexists; (split; [done|]).
  - split; try done. cbn. by rewrite decide_False.
  - split; try done. rewrite decide_True; [done|].
    destruct (decide (p = "")); tauto.
Qed.

(** The daemon set that the operator asks for has its name and the namespace of
    the Config, carries the configuration in its annotations (so that a change
    restarts the pods) next to those of the manifest, and keeps every container of
    the manifest in its place, configured. *)
Theorem configureBpfmanDs_spec `{!ConfigAPI W, !ConfigAPILaws W} (ds : DaemonSet) (c : Config)
    (w : W) :
  ∃ ds', configureBpfmanDs ds c w = (Ret ds', w) ∧
    om_Name (ds_meta ds') = "bpfman-daemon" ∧ om_Namespace (ds_meta ds') = ns c ∧
    (tpl_Annotations (ds_Template ds') !! "bpfman.io.bpfman.toml" = Some (Configuration (Spec c)) ∧
     tpl_Annotations (ds_Template ds') !! "bpfman.io.bpfman.log.level"
       = Some (dm_LogLevel (Daemon (Spec c))) ∧
     tpl_Annotations (ds_Template ds') !! "bpfman.io.bpfman.agent.log.level"
       = Some (ag_LogLevel (Agent (Spec c)))) ∧
    (∀ k, k ∉ dom (newAnnotations c) →
       tpl_Annotations (ds_Template ds') !! k = tpl_Annotations (ds_Template ds) !! k) ∧
    length (ps_Containers (tpl_Spec (ds_Template ds')))
      = length (ps_Containers (tpl_Spec (ds_Template ds))) ∧
    ∀ i ct, ps_Containers (tpl_Spec (ds_Template ds)) !! i = Some ct →
      ∃ ct', ps_Containers (tpl_Spec (ds_Template ds')) !! i = Some ct' ∧
             configured c (env BPFMAN_IMAGE_PULL_POLICY w) ct ct'.
Proof.
  eexists. split; [apply run_configureBpfmanDs|]. split_and!; try done.
  - cbn. by apply lookup_union_Some_l.
  - cbn. by apply lookup_union_Some_l.
  - cbn. by apply lookup_union_Some_l.
  - intros k Hk. cbn. rewrite lookup_union_r; [done|]. by apply not_elem_of_dom.
  - cbn. unfold env_policy. case_decide; by rewrite !length_fmap.
  - intros i ct Hi. by apply env_policy_configured.
Qed.
