(* ===== verification/OperatorMain.v ===== *)
(** What the operator asks the cluster (internal/k8s.go): the platform probes and the
    event filters by label; the default Config and its creation
    (cmd/bpfman-operator/main.go), and the road from an empty cluster to the settled
    one. *)

From S2P Require Import Prelude ApiTypes Constants Application Operator ConfigTypes Config.
From S2P Require Import ConfigSpecs ConfigSteps ConfigTheorems ConfigReconcile.
From stdpp Require Import options.
#[local] Set Default Proof Using "Type*".

(** ** internal/k8s.go *)

(** The API groups and the version of the cluster, and a client that does not go
    through the manager's cache. *)
Class ClusterAccess (W : Type) := {
  ServerVersion : W → result string * W;
  ServerGroups : W → result (list string) * W;
  client_New : W → option error * W;
}.

Definition event_object (e : ResourceEvent) : ObjectMeta :=
  match e with
  | GenericEvent o | CreateEvent o | UpdateEvent _ o | DeleteEvent o => o
  end.

Definition BpfNodePredicate (nodeName : string) (e : ResourceEvent) : bool :=
  bool_decide (default "" (om_Labels (event_object e) !! K8sHostLabel) = nodeName).

Definition DiscoveredBpfProgramPredicate (e : ResourceEvent) : bool :=
  match om_Labels (event_object e) !! DiscoveredLabel with Some _ => true | None => false end.

(** ** cmd/bpfman-operator/main.go *)

Definition DefaultConfigNamespace : string := "bpfman".
Definition DefaultLogLevel : string := "info".
Definition DefaultHealthProbePort : Z := 8175.
Definition DefaultConfiguration : string := "[database]
max_retries = 30
millisec_delay = 10000
[signing]
allow_unsigned = true
verify_enabled = true
".

Definition defaultConfig (bpfmanImage bpfmanAgentImage : string) : Config :=
  mkConfig (named BpfmanConfigName "" ∅)
    (mkConfigSpec
       (mkAgentSpec DefaultHealthProbePort bpfmanAgentImage DefaultLogLevel)
       DefaultConfiguration
       (mkDaemonSpec "" bpfmanImage DefaultLogLevel)
       DefaultConfigNamespace []).

Section main.
Context {W : Type} `{!ConfigAPI W, !ClusterAccess W}.

Definition IsOpenShift : GoM W (result bool) :=
  k8sVersion ← lift ServerVersion;
  match k8sVersion with
  | Err err => mret (Err err)
  | Ok _ =>
      apiList ← lift ServerGroups;
      mret (match apiList with
            | Err err => Err err
            | Ok groups => Ok (existsb (λ g, bool_decide (g = "route.openshift.io")) groups)
            end)
  end.

Definition HasMonitoringAPI : GoM W (result bool) :=
  apiList ← lift ServerGroups;
  mret (match apiList with
        | Err err => Err err
        | Ok groups => Ok (existsb (λ g, bool_decide (g = "monitoring.coreos.com")) groups)
        end).

Definition ensureDefaultConfig (bpfmanImage bpfmanAgentImage : string)
    : GoM W (option error) :=
  err ← lift client_New;
  match err with
  | Some err => mret (Some err)
  | None =>
      existing ← lift (api_Get KConfig "" BpfmanConfigName);
      match existing with
      | Got _ => mret None
      | GetError err => mret (Some err)
      | NotFound => lift (api_Create KConfig (defaultConfig bpfmanImage bpfmanAgentImage))
      end
  end.

Definition BpfmanDaemonManifestPath : string := "./config/bpfman-deployment/daemonset.yaml".
Definition BpfmanMetricsProxyPath : string :=
  "./config/bpfman-deployment/metrics-proxy-daemonset.yaml".
Definition BpfmanCsiDriverPath : string := "./config/bpfman-deployment/csidriverinfo.yaml".
End main.

(** ** From an empty cluster to a settled one *)

Class ClusterAccessLaws (W : Type) `{!ConfigAPI W, !ClusterAccess W} := {
  version_pure (w : W) : (ServerVersion w).2 = w;
  groups_pure (w : W) : (ServerGroups w).2 = w;
  client_New_pure (w : W) : (client_New w).2 = w;
}.

Section bootstrap.
Context {W : Type} `{!ConfigAPI W, !ConfigAPILaws W, !ConfigAPIServes W, !ClusterAccess W}.
Context `{!ClusterAccessLaws W} (r : BpfmanConfigReconciler).
Implicit Types (w : W) (c : Config).

(** A write of the Config keeps what a pass needs, for a Config with the same
    specification. *)
Lemma prepared_config c c' n w w' :
  only_at KConfig "" n w w' → Spec c' = Spec c → prepared c r w → prepared c' r w'.
Proof using Type.
  intros (Hv & Hf & _) Hs (H1 & H2 & H3 & e & He).
  unfold prepared, csi_manifest, ds_manifest, proxy_manifest, loaded in *. rewrite !Hf.
  split_and!; [done|done|done|]. exists e. unfold ns in *. rewrite Hs, <- He. by apply Hv.
Qed.

(** The first pass, on a Config without the finalizer. *)
Lemma first_pass c name w :
  live w → view KConfig "" name w = Got c →
  ContainsFinalizer BpfmanConfigFinalizer (cfg_meta c) = false →
  ∃ c' w', Reconcile r name w = (Ret None, w') ∧ view KConfig "" name w' = Got c' ∧
    Spec c' = Spec c ∧ ContainsFinalizer BpfmanConfigFinalizer (cfg_meta c') = true ∧
    only_at KConfig "" name w w' ∧ live w'.
Proof using Type*.
  intros Hl Hc Hf. rewrite (run_Reconcile _ _ _ _ Hc).
  pose proof (Hl _ _ _ _ Hc) as Hd. cbn in Hd. rewrite Hd, Hf. cbn [negb]. rewrite run_lift.
  destruct (get_named _ _ _ _ _ Hc) as [Hns Hn].
  set (x := with_cfg_meta (AddFinalizer BpfmanConfigFinalizer (cfg_meta c)) c).
  assert (Hx : om_Finalizers (cfg_meta x) = om_Finalizers (cfg_meta c) ++ [BpfmanConfigFinalizer] ∧
    obj_ns (k := KConfig) x = "" ∧ obj_name (k := KConfig) x = name ∧
    om_ResourceVersion (cfg_meta x) = om_ResourceVersion (cfg_meta c)).
  { unfold ContainsFinalizer in Hf. apply bool_decide_eq_false in Hf.
    subst x. unfold obj_ns, obj_name in *. cbn in *. unfold AddFinalizer.
    by rewrite decide_False. }
  destruct Hx as (Hfin & Hns' & Hn' & Hrv).
  assert (Hup : api_Update KConfig x w = (None, (api_Update KConfig x w).2)).
  { pose proof (update_serves KConfig x c w) as Hs. rewrite Hns', Hn' in Hs.
    specialize (Hs Hc Hrv). by destruct (api_Update KConfig x w); cbn in *; subst. }
  pose proof (update_only_at KConfig x w) as Hat. rewrite Hns', Hn' in Hat.
  destruct (update_stores KConfig x c w (api_Update KConfig x w).2) as (y & Hy & Hst);
    [by rewrite Hns', Hn'|done|done|].
  rewrite Hns', Hn' in Hy. exists y, (api_Update KConfig x w).2.
  split; [by rewrite Hup|]. split_and!; [done| | |done|].
  - apply (stored_content _ _ Hst).
  - unfold ContainsFinalizer. apply bool_decide_eq_true.
    pose proof (stored_finalizers _ _ Hst) as Hfy.
    change (om_Finalizers (cfg_meta y) = om_Finalizers (cfg_meta x)) in Hfy. rewrite Hfy, Hfin.
    apply elem_of_app. right. by left.
  - eapply live_only_at; [done|exact Hat|done|apply Hst].
Qed.

(** C20: from a cluster without a Config, with the manifests readable and the
    namespace there, the operator comes up by itself: ensureDefaultConfig creates the
    default Config, the first Reconcile adds its finalizer, the second brings every
    resource to its desired form, and every later one finds nothing to do. *)
Theorem bootstrap_settles bpfmanImage bpfmanAgentImage w :
  live w → view KConfig "" BpfmanConfigName w = NotFound → (client_New w).1 = None →
  prepared (defaultConfig bpfmanImage bpfmanAgentImage) r w →
  ∃ c w1 w2 w3,
    ensureDefaultConfig bpfmanImage bpfmanAgentImage w = (Ret None, w1) ∧
    Reconcile r BpfmanConfigName w1 = (Ret None, w2) ∧
    Reconcile r BpfmanConfigName w2 = (Ret None, w3) ∧
    Spec c = Spec (defaultConfig bpfmanImage bpfmanAgentImage) ∧
    view KConfig "" BpfmanConfigName w3 = Got c ∧ settled c r w3 ∧
    Reconcile r BpfmanConfigName w3 = (Ret None, w3).
Proof.
  intros Hl Hnf Hcl Hp. set (d := defaultConfig bpfmanImage bpfmanAgentImage) in *.
  set (w1 := (api_Create KConfig d w).2).
  assert (Hcr : api_Create KConfig d w = (None, w1)).
  { pose proof (create_serves KConfig d w Hnf) as Hs.
    subst w1. by destruct (api_Create KConfig d w); cbn in *; subst. }
  pose proof (create_only_at KConfig d w) as Hat. rewrite Hcr in Hat. cbn [snd] in Hat.
  change (obj_ns (k := KConfig) d) with "" in Hat.
  change (obj_name (k := KConfig) d) with BpfmanConfigName in Hat.
  destruct (create_stores KConfig d w w1 Hcr) as (c1 & Hc1 & Hst1).
  assert (Hl1 : live w1) by (eapply live_only_at; [done|exact Hat|exact Hc1|apply Hst1]).
  destruct (first_pass c1 BpfmanConfigName w1 Hl1 Hc1) as (c & w2 & Hr2 & Hc & Hs & Hf & Hat2 & Hl2).
  { unfold ContainsFinalizer. apply bool_decide_eq_false. cbn.
    pose proof (stored_finalizers _ _ Hst1) as Hfy. cbn in Hfy. rewrite Hfy.
    apply not_elem_of_nil. }
  assert (Hspec : Spec c = Spec d) by (rewrite Hs; apply (stored_content _ _ Hst1)).
  assert (Hp2 : prepared c r w2).
  { eapply prepared_config; [exact Hat2|exact Hs|].
    eapply prepared_config; [exact Hat| |exact Hp]. apply (stored_content _ _ Hst1). }
  destruct (reconcile_serves c r w2 Hp2) as [w3 Hw3]. rewrite <- (run_live _ _ _ _ Hl2 Hc Hf) in Hw3.
  destruct (pass_settles c r BpfmanConfigName w2 w3 Hl2 Hc Hf Hw3) as [Hset Hidle].
  exists c, w1, w2, w3. split_and!; try done.
  - unfold ensureDefaultConfig. erewrite run_bind by apply run_lift. rewrite Hcl, client_New_pure.
    erewrite run_bind by exact (run_Get KConfig "" BpfmanConfigName w). rewrite Hnf, run_lift.
    fold d. by rewrite Hcr.
  - rewrite <- Hc. pose proof (step_confined _ _ _ _ (reconcile_step c r) w2) as (Hv & _).
    rewrite (run_live _ _ _ _ Hl2 Hc Hf) in Hw3. rewrite Hw3 in Hv. apply Hv. left.
    apply config_untouched.
Qed.
End bootstrap.
