(* ===== verification/Watches.v ===== *)
(** What wakes the controllers: the SetupWithManager methods of the agent's and of the
    operator's reconcilers as lists of watches, the event filters of
    controllers/bpfman-agent/common.go, and of the vendored controller-runtime the
    handlers, the predicates and the builder that they use. *)

From S2P Require Import Prelude ApiTypes Constants Selectors Application Operator.
From S2P Require Import ConfigTypes Config OperatorMain.
From stdpp Require Import options.

(** ** controller-runtime *)

Record Request := mkRequest {
  rq_Namespace : string;
  rq_Name : string;
}.

#[export] Instance Request_eq_dec : EqDecision Request.
Proof. solve_decision. Defined.

(** What a watch sees of an object: its kind, its metadata and, of applications, the
    generation, which the API server counts up with every change of the specification
    and with a request for deletion. *)
Class Watchable (K O : Type) := {
  kind_of : O → K;
  meta_of : O → ObjectMeta;
  generation_of : O → Z;
}.

Inductive WatchEvent (O : Type) :=
  | OnGeneric (Object : O)
  | OnCreate (Object : O)
  | OnUpdate (ObjectOld ObjectNew : O)
  | OnDelete (Object : O).
Arguments OnGeneric {_} _.
Arguments OnCreate {_} _.
Arguments OnUpdate {_} _ _.
Arguments OnDelete {_} _.

Section runtime.
Context {K O : Type} `{!EqDecision K, !Watchable K O}.
Implicit Types e : WatchEvent O.

(** *** pkg/handler *)

Definition event_new e : O :=
  match e with OnGeneric o | OnCreate o | OnUpdate _ o | OnDelete o => o end.

Definition EnqueueRequestForObject e : list Request :=
  let m := meta_of (event_new e) in [mkRequest (om_Namespace m) (om_Name m)].

(** With the option OnlyControllerOwner. The API group of the owner is not part of the
    model, its kind is. *)
Definition getOwnerReconcileRequest (ownerKind : string) (namespaced : bool) (o : O)
    : list Request :=
  match GetControllerOf (meta_of o) with
  | Some ref =>
      if decide (or_Kind ref = ownerKind) then
        [mkRequest (if namespaced then om_Namespace (meta_of o) else "") (or_Name ref)]
      else []
  | None => []
  end.

(** A handler that maps objects is asked for both objects of an update; its requests
    are a set. *)
Definition on_objects (f : O → list Request) e : list Request :=
  match e with
  | OnUpdate o n => remove_dups (f o ++ f n)
  | OnGeneric o | OnCreate o | OnDelete o => remove_dups (f o)
  end.

Definition EnqueueRequestForOwner (ownerKind : string) (namespaced : bool) e : list Request :=
  on_objects (getOwnerReconcileRequest ownerKind namespaced) e.

Definition EnqueueRequestsFromMapFunc (f : O → list Request) e : list Request :=
  on_objects f e.

(** *** pkg/predicate *)

Definition And (predicates : list (WatchEvent O → bool)) e : bool :=
  forallb (λ p, p e) predicates.

Definition GenerationChangedPredicate e : bool :=
  match e with
  | OnUpdate o n => negb (bool_decide (generation_of n = generation_of o))
  | _ => true
  end.

Definition ResourceVersionChangedPredicate e : bool :=
  match e with
  | OnUpdate o n =>
      negb (bool_decide (om_ResourceVersion (meta_of n) = om_ResourceVersion (meta_of o)))
  | _ => true
  end.

Definition LabelChangedPredicate e : bool :=
  match e with
  | OnUpdate o n => negb (bool_decide (om_Labels (meta_of n) = om_Labels (meta_of o)))
  | _ => true
  end.

(** The same event with the metadata for an object. *)
Definition meta_event e : ResourceEvent :=
  match e with
  | OnGeneric o => Config.GenericEvent (meta_of o)
  | OnCreate o => Config.CreateEvent (meta_of o)
  | OnUpdate o n => Config.UpdateEvent (meta_of o) (meta_of n)
  | OnDelete o => Config.DeleteEvent (meta_of o)
  end.

(** *** pkg/builder *)

Record Watch := mkWatch {
  w_kind : K;
  w_handler : WatchEvent O → list Request;
  w_predicates : list (WatchEvent O → bool);
}.

Record Controller := mkController {
  ct_watches : list Watch;
  ct_MaxConcurrentReconciles : Z;
}.

(** What a watch on a kind is told, and the requests that all watches make of it. *)
Definition watch_requests e (w : Watch) : list Request :=
  if decide (w_kind w = kind_of (event_new e)) then
    if And (w_predicates w) e then w_handler w e else []
  else [].

Definition enqueued (c : Controller) e : list Request :=
  concat (watch_requests e <$> ct_watches c).

Definition For (k : K) (predicates : list (WatchEvent O → bool)) : Watch :=
  mkWatch k EnqueueRequestForObject predicates.
Definition Owns (ownerKind : string) (namespaced : bool) (k : K)
    (predicates : list (WatchEvent O → bool)) : Watch :=
  mkWatch k (EnqueueRequestForOwner ownerKind namespaced) predicates.
End runtime.
Arguments Watch : clear implicits.
Arguments Controller : clear implicits.

(** ** The objects of the application controllers *)

(** Of a pod, what the filter of the agent reads. *)
Record Pod := mkPod {
  pod_meta : ObjectMeta;
  pod_NodeName : string;
  pod_Phase : string;
}.

Definition PodRunning : string := "Running".

Inductive AppKindOf := KApp | KState | KNode | KPod.

#[export] Instance AppKindOf_eq_dec : EqDecision AppKindOf.
Proof. solve_decision. Defined.

Inductive AppObject (P PS : Type) :=
  | AppObj (generation : Z) (app : Application P)
  | StateObj (an : AppState PS)
  | NodeObj (node : Node)
  | PodObj (pod : Pod).
Arguments AppObj {_ _} _ _.
Arguments StateObj {_ _} _.
Arguments NodeObj {_ _} _.
Arguments PodObj {_ _} _.

#[export] Instance AppObject_watchable P PS : Watchable AppKindOf (AppObject P PS) := {|
  kind_of o := match o with
               | AppObj _ _ => KApp | StateObj _ => KState | NodeObj _ => KNode | PodObj _ => KPod
               end;
  meta_of o := match o with
               | AppObj _ app => app_meta app | StateObj an => as_meta an
               | NodeObj node => node_meta node | PodObj pod => pod_meta pod
               end;
  generation_of o := match o with AppObj g _ => g | _ => 0 end;
|}.

(** ** controllers/bpfman-agent *)

Section agent.
Context {P PS : Type}.
Implicit Types e : WatchEvent (AppObject P PS).

(** common.go *)
Definition nodePredicate (nodeName : string) e : bool :=
  bool_decide (default "" (om_Labels (meta_of (event_new e)) !! "kubernetes.io/hostname")
               = nodeName).

Definition podOnNodePredicate (nodeName : string) e : bool :=
  match e with
  | OnGeneric (PodObj pod) | OnDelete (PodObj pod) => bool_decide (pod_NodeName pod = nodeName)
  | OnCreate (PodObj pod) | OnUpdate _ (PodObj pod) =>
      bool_decide (pod_NodeName pod = nodeName) && bool_decide (pod_Phase pod = PodRunning)
  | _ => false
  end.

(** SetupWithManager of both application reconcilers, for an application of this kind. *)
Definition agent_SetupWithManager (ownerKind : string) (namespaced : bool) (NodeName : string)
    : Controller AppKindOf (AppObject P PS) :=
  mkController
    [For KApp [And [GenerationChangedPredicate; ResourceVersionChangedPredicate]];
     Owns ownerKind namespaced KState [λ e, BpfNodePredicate NodeName (meta_event e)];
     mkWatch KNode EnqueueRequestForObject [And [LabelChangedPredicate; nodePredicate NodeName]];
     mkWatch KPod EnqueueRequestForObject [podOnNodePredicate NodeName]]
    1.

(** ** controllers/bpfman-operator: the applications *)

(** The filter of the operator is told of state objects only. *)
Definition on_states (p : Operator.Event (PS := PS) → bool) e : bool :=
  match e with
  | OnGeneric (StateObj o) => p (Operator.GenericEvent o)
  | OnCreate (StateObj o) => p (Operator.CreateEvent o)
  | OnUpdate (StateObj o) (StateObj n) => p (Operator.UpdateEvent o n)
  | OnDelete (StateObj o) => p (Operator.DeleteEvent o)
  | _ => false
  end.

Definition operator_SetupWithManager (p : Operator.Event (PS := PS) → bool)
    : Controller AppKindOf (AppObject P PS) :=
  mkController [For KApp []; mkWatch KState EnqueueRequestForObject [on_states p]] 1.
End agent.

Definition ClBpfApplicationReconciler_SetupWithManager (NodeName : string)
    : Controller AppKindOf (AppObject ClBpfApplicationProgram ClBpfApplicationProgramState) :=
  agent_SetupWithManager "ClusterBpfApplication" false NodeName.
Definition NsBpfApplicationReconciler_SetupWithManager (NodeName : string)
    : Controller AppKindOf (AppObject BpfApplicationProgram BpfApplicationProgramState) :=
  agent_SetupWithManager "BpfApplication" true NodeName.
Definition BpfApplicationReconciler_SetupWithManager
    : Controller AppKindOf (AppObject ClBpfApplicationProgram ClBpfApplicationProgramState) :=
  operator_SetupWithManager ClOper.statusChangedPredicateCluster.
Definition BpfNsApplicationReconciler_SetupWithManager
    : Controller AppKindOf (AppObject BpfApplicationProgram BpfApplicationProgramState) :=
  operator_SetupWithManager NsOper.statusChangedPredicateNamespace.

(** ** controllers/bpfman-operator: the configuration *)

Record ConfigObject := mkConfigObject {
  co_kind : RKind;
  co_obj : obj co_kind;
}.

#[export] Instance ConfigObject_watchable : Watchable RKind ConfigObject := {|
  kind_of := co_kind;
  meta_of o := obj_meta (co_obj o);
  generation_of _ := 0;
|}.

Section config.

(** [builder.WithPredicates(resourcePredicate(name))] *)
Definition of_name (name : string) : list (WatchEvent ConfigObject → bool) :=
  [λ e, resourcePredicate name (meta_event e)].

(** Config is not namespaced. *)
Definition config_owns (k : RKind) (name : string) : Watch RKind ConfigObject :=
  Owns "Config" false k (of_name name).

Definition namespace_requests (o : ConfigObject) : list Request :=
  if decide (om_Name (meta_of o) ≠ BpfmanNamespace) then [] else [mkRequest "" BpfmanConfigName].

Definition BpfmanConfigReconciler_SetupWithManager (r : BpfmanConfigReconciler)
    : Controller RKind ConfigObject :=
  mkController
    ([For KConfig (of_name BpfmanConfigName);
      config_owns KConfigMap BpfmanCmName;
      config_owns KDaemonSet BpfmanDsName;
      config_owns KCSIDriver BpfmanCsiDriverName] ++
     (if IsOpenshift r then
        [config_owns KSCC BpfmanRestrictedSccName;
         config_owns KClusterRoleBinding BpfmanPrivilegedSccClusterRoleBindingName;
         config_owns KClusterRole BpfmanUserClusterRoleName;
         config_owns KClusterRoleBinding BpfmanPrometheusClusterRoleBindingName;
         config_owns KRole BpfmanPrometheusRoleName;
         config_owns KRoleBinding BpfmanPrometheusRoleBindingName] ++
        (if HasMonitoring r then
           [mkWatch KNamespace (EnqueueRequestsFromMapFunc namespace_requests)
              (of_name BpfmanNamespace)]
         else [])
      else []) ++
     (if HasMonitoring r then
        [config_owns KDaemonSet BpfmanMetricsProxyDsName;
         config_owns KService BpfmanAgentMetricsServiceName;
         config_owns KService BpfmanControllerMetricsServiceName;
         config_owns KServiceMonitor BpfmanAgentServiceMonitorName;
         config_owns KServiceMonitor BpfmanControllerServiceMonitorName]
      else []))
    1.
End config.
