(* ===== verification/WatchTheorems.v ===== *)
(** What the watches promise: every resource of the Config is watched, so that a change to
    one is undone by the Reconcile that it causes; and every update of a state object that
    matters to the operator wakes it, while the deletion of one never does. *)

From S2P Require Import Prelude ApiTypes Constants Selectors Application Operator OperatorSpecs.
From S2P Require Import ConfigTypes Config ConfigSpecs ConfigSteps ConfigTheorems.
From S2P Require Import ConfigReconcile OperatorMain Watches.
From stdpp Require Import options.
#[local] Set Default Proof Using "Type*".

(** ** Requests *)

Section requests.
Context {K O : Type} `{!EqDecision K, !Watchable K O}.

Lemma elem_of_enqueued (c : Controller K O) e w req :
  w ∈ ct_watches c → w_kind w = kind_of (event_new e) → And (w_predicates w) e = true →
  req ∈ w_handler w e → req ∈ enqueued c e.
Proof using Type.
  intros Hw Hk Hp Hreq. unfold enqueued. apply list_elem_of_In, in_concat.
  exists (watch_requests e w). split; apply list_elem_of_In.
  - apply list_elem_of_fmap. by exists w.
  - unfold watch_requests. by rewrite decide_True, Hp.
Qed.

Lemma enqueued_nil (c : Controller K O) e :
  (∀ w, w ∈ ct_watches c → watch_requests e w = []) → enqueued c e = [].
Proof using Type.
  unfold enqueued. induction (ct_watches c) as [|w ws IH]; intros Hw; [done|]. cbn.
  rewrite Hw by left. apply IH. intros w' Hw'. apply Hw. by right.
Qed.

Lemma watch_other_kind e (w : Watch K O) : w_kind w ≠ kind_of (event_new e) → watch_requests e w = [].
Proof using Type. intros Hne. unfold watch_requests. by rewrite decide_False. Qed.

Lemma elem_of_on_objects (f : O → list Request) e o req :
  match e with
  | OnUpdate old new => o = old ∨ o = new
  | OnGeneric x | OnCreate x | OnDelete x => o = x
  end → req ∈ f o → req ∈ on_objects f e.
Proof using Type.
  intros Ho Hr. destruct e; cbn; rewrite elem_of_remove_dups; try by subst.
  rewrite elem_of_app. destruct Ho as [-> | ->]; [by left|by right].
Qed.
End requests.

(** ** The configuration controller *)

(** What the API server tells the watches of a change to one object. *)
Definition event_of {k} (before after : got (obj k)) : option (WatchEvent ConfigObject) :=
  match before, after with
  | NotFound, Got y => Some (OnCreate (mkConfigObject k y))
  | Got x, Got y => Some (OnUpdate (mkConfigObject k x) (mkConfigObject k y))
  | Got x, NotFound => Some (OnDelete (mkConfigObject k x))
  | _, _ => None
  end.

(** The resources that a pass asks for on a platform, the namespace apart. *)
Definition managed (r : BpfmanConfigReconciler) : list (RKind * string) :=
  [(KConfigMap, BpfmanCmName); (KCSIDriver, BpfmanCsiDriverName); (KDaemonSet, BpfmanDsName)] ++
  (if IsOpenshift r then
     [(KSCC, BpfmanRestrictedSccName);
      (KClusterRoleBinding, BpfmanPrivilegedSccClusterRoleBindingName);
      (KClusterRole, BpfmanUserClusterRoleName)] else []) ++
  (if HasMonitoring r then
     [(KDaemonSet, BpfmanMetricsProxyDsName);
      (KService, BpfmanAgentMetricsServiceName); (KService, BpfmanControllerMetricsServiceName);
      (KServiceMonitor, BpfmanAgentServiceMonitorName);
      (KServiceMonitor, BpfmanControllerServiceMonitorName)] else []) ++
  (if IsOpenshift r && HasMonitoring r then
     [(KRole, BpfmanPrometheusRoleName); (KRoleBinding, BpfmanPrometheusRoleBindingName);
      (KClusterRoleBinding, BpfmanPrometheusClusterRoleBindingName)] else []).

(** Goes through the members of a list. *)
Ltac each_elem H :=
  cbn [app] in H; repeat (apply elem_of_cons in H as [[= -> ->]|H]); try by apply elem_of_nil in H.
Ltac find_elem := cbn [app]; repeat first [left; reflexivity|right].

Lemma managed_watched r k n :
  (k, n) ∈ managed r → config_owns k n ∈ ct_watches (BpfmanConfigReconciler_SetupWithManager r).
Proof.
  destruct r as [d p csi [] []]; unfold managed; cbn [IsOpenshift HasMonitoring andb];
    intros Hin; each_elem Hin; unfold BpfmanConfigReconciler_SetupWithManager;
    cbn [ct_watches IsOpenshift HasMonitoring]; find_elem.
Qed.

(** SetControllerReference makes the Config the controller of the object. *)
Class ConfigOwnerLaws (W : Type) `{!ConfigAPI W} : Prop := {
  owner_controls c k (x x' : obj k) :
    SetControllerReference c k x = Ok x' →
    ∃ ref, GetControllerOf (obj_meta x') = Some ref ∧ or_Kind ref = "Config" ∧
           or_Name ref = om_Name (cfg_meta c);
}.

Section config.
Context {W : Type} `{!ConfigAPI W, !ConfigAPILaws W, !ConfigAPIServes W, !ConfigOwnerLaws W}
  (c : Config) (r : BpfmanConfigReconciler).
Implicit Types w : W.

(** The object of a settled cluster for a managed resource. *)
Lemma settled_managed w k n :
  settled c r w → (k, n) ∈ managed r → ∃ x : obj k, obj_name x = n ∧ conforming c k x w.
Proof using ConfigAPILaws0.
  intros (Hcm & (csi & Hcsi & Hcsi') & Hscc & (ds & Hds & Hds') & Hpx & Hsvc & Hmon & _ & Hrbac &
          Hprom & _).
  unfold cm_settled, scc_settled, proxy_settled, services_settled, monitors_settled, rbac_settled,
    prometheus_settled in *.
  apply (loaded_name KCSIDriver) in Hcsi. apply (loaded_name KDaemonSet) in Hds.
  destruct (IsOpenshift r) eqn:Ho, (HasMonitoring r) eqn:Hm; unfold managed; rewrite ?Ho, ?Hm;
    cbn [andb]; intros Hin;
    try specialize (Hscc eq_refl);
    try (destruct (Hpx eq_refl) as (px & Hpx1 & Hpx2); apply (loaded_name KDaemonSet) in Hpx1);
    try specialize (Hsvc eq_refl) as [Hs1 Hs2]; try specialize (Hmon eq_refl) as [Hm1 Hm2];
    try specialize (Hrbac eq_refl) as [Hr1 Hr2]; try specialize (Hprom eq_refl) as (Hp1 & Hp2 & Hp3);
    each_elem Hin;
    match goal with
    | H : conforming c _ ?x w |- _ => exists x; split; [first [reflexivity|assumption]|exact H]
    end.
Qed.

Definition controlled_by (m : ObjectMeta) : Prop :=
  ∃ ref, GetControllerOf m = Some ref ∧ or_Kind ref = "Config" ∧ or_Name ref = om_Name (cfg_meta c).

Lemma owned_requests (k : RKind) (x : obj k) :
  controlled_by (obj_meta x) →
  mkRequest "" (om_Name (cfg_meta c)) ∈
    getOwnerReconcileRequest "Config" false (mkConfigObject k x).
Proof using Type.
  intros (ref & Href & Hkind & Hname). unfold getOwnerReconcileRequest.
  change (meta_of (mkConfigObject k x)) with (obj_meta x). rewrite Href, decide_True by done. rewrite Hname. left.
Qed.

(** A change to a managed object that the Config controls makes its request. *)
Lemma change_enqueued (k : RKind) n (x : obj k) after e :
  (k, n) ∈ managed r → obj_name x = n → controlled_by (obj_meta x) →
  (∀ y, after = Got y → obj_name y = n) → event_of (Got x) after = Some e →
  mkRequest "" (om_Name (cfg_meta c)) ∈ enqueued (BpfmanConfigReconciler_SetupWithManager r) e.
Proof using Type.
  intros Hin Hn Hc Hy He.
  assert (Hev : kind_of (event_new e) = k ∧ om_Name (meta_of (event_new e)) = n ∧
    mkRequest "" (om_Name (cfg_meta c)) ∈ EnqueueRequestForOwner "Config" false e).
  { unfold event_of in He. destruct after as [y| |]; [| |done]; injection He as <-; cbn.
    - split; [done|]. split; [by apply Hy|]. apply elem_of_remove_dups, elem_of_app. left.
      by apply owned_requests.
    - split; [done|]. split; [done|]. apply elem_of_remove_dups. by apply owned_requests. }
  destruct Hev as (Hk & Hnm & Hreq).
  apply (elem_of_enqueued _ e (config_owns k n)); [by apply managed_watched|done| |exact Hreq].
  cbn. rewrite andb_true_r. destruct e; cbn in *; by apply bool_decide_eq_true_2.
Qed.

(** C17: drift is repaired: in a settled cluster every resource that the Config asks for on
    the platform and does not exclude exists and has the Config as its controller; and
    whatever happens to such an object, a change by another or its deletion, the event
    it causes makes one of the watches request a Reconcile of the Config, which ends
    without an error in a settled cluster again. The namespace is the exception. *)
Theorem drift_repaired w k n :
  settled c r w → (k, n) ∈ managed r →
  (∃ ns', unmanaged (W := W) c k ns' n = true ∨
          ∃ x, view k ns' n w = Got x ∧ controlled_by (obj_meta x)) ∧
  ∀ ns' x w' e,
    view k ns' n w = Got x → controlled_by (obj_meta x) →
    event_of (Got x) (view k ns' n w') = Some e →
    live w' → view KConfig "" (om_Name (cfg_meta c)) w' = Got c →
    ContainsFinalizer BpfmanConfigFinalizer (cfg_meta c) = true → prepared c r w' →
    ∃ req w'', req ∈ enqueued (BpfmanConfigReconciler_SetupWithManager r) e ∧
      Reconcile r (rq_Name req) w' = (Ret None, w'') ∧ settled c r w''.
Proof.
  intros Hs Hin. split.
  - destruct (settled_managed w k n Hs Hin) as (d & Hd & Hconf). exists (obj_ns d).
    destruct Hconf as [Hu|(x' & y & Hx' & Hy & _ & Hown)]; rewrite Hd in *; [by left|].
    right. exists y. split; [exact Hy|].
    destruct (owner_controls _ _ _ _ Hx') as (ref & Href & Hrest). exists ref.
    split; [|exact Hrest]. unfold GetControllerOf in *. by rewrite Hown.
  - intros ns' x w' e Hx Hctl He Hl Hc Hf Hp.
    destruct (reconcile_serves c r w' Hp) as [w'' Hw'']. rewrite <- (run_live c r _ _ Hl Hc Hf) in Hw''.
    exists (mkRequest "" (om_Name (cfg_meta c))), w''. split; [|split; [exact Hw''|]].
    + apply (change_enqueued k n x (view k ns' n w') e); [done| |done| |done].
      * by apply (get_named k _ _ _ _ Hx).
      * intros z Hz. by apply (get_named k _ _ _ _ Hz).
    + by apply (pass_settles c r (om_Name (cfg_meta c)) w').
Qed.
End config.

(** The namespace is watched on OpenShift with monitoring only, and by a fixed name: of
    the namespace that the Config names, whose labels every pass sees to, no event makes a
    request when it has another name or on another platform. *)
Theorem namespace_unwatched r e :
  kind_of (event_new e) = KNamespace →
  IsOpenshift r && HasMonitoring r = false ∨ om_Name (meta_of (event_new e)) ≠ BpfmanNamespace →
  enqueued (BpfmanConfigReconciler_SetupWithManager r) e = [].
Proof.
  intros Hk Hor. apply enqueued_nil. intros w Hw.
  destruct (decide (w_kind w = KNamespace)) as [Hkw|Hkw]; [|apply watch_other_kind; congruence].
  assert (Hns : IsOpenshift r && HasMonitoring r = true ∧
    w = mkWatch KNamespace (EnqueueRequestsFromMapFunc namespace_requests) (of_name BpfmanNamespace)).
  { destruct r as [d p csi [] []]; unfold BpfmanConfigReconciler_SetupWithManager in Hw;
      cbn [ct_watches IsOpenshift HasMonitoring app] in Hw;
      repeat (apply elem_of_cons in Hw as [->|Hw]; [first [discriminate Hkw|by split]|]);
      by apply elem_of_nil in Hw. }
  destruct Hns as [Hb ->]. destruct Hor as [Hor|Hne]; [congruence|]. unfold watch_requests.
  assert (And (of_name BpfmanNamespace) e = false) as Hp.
  { cbn. rewrite andb_true_r. destruct e; by apply bool_decide_eq_false_2. }
  cbn -[And of_name]. rewrite Hp. by case_decide.
Qed.

(** ** The operator *)

Lemma run_bind_lift {W A B} (f : W → A * W) (g : A → GoM W B) w a w' :
  f w = (a, w') → (lift f ≫= g) w = g a w'.
Proof. intros Hf. unfold mbind, GoM_bind, lift. by rewrite Hf. Qed.

Section operator.
Context {W P PS : Type} `{!OperatorAPI W P PS} (ok : OperKind).
Implicit Types (w : W) (an : AppState PS).

Abbreviation setup := (operator_SetupWithManager (P := P) (statusChangedPredicate (PS := PS) ok)).

(** C21: an update of a state object either wakes the operator, with a request that it
    resolves to the application that controls the object, whose status it then decides;
    or it changes nothing that the decision depends on. *)
Theorem state_update_reaches_operator old new ref app w :
  AppState_GetName old = AppState_GetName new → AppState_GetLabels old = AppState_GetLabels new →
  op_GetApp (PS := PS) (om_Namespace (as_meta new)) (om_Name (as_meta new)) w
    = (NotFound (A := Application P), w) →
  op_GetState (P := P) (om_Namespace (as_meta new)) (om_Name (as_meta new)) w = (Got new, w) →
  GetControllerOf (as_meta new) = Some ref →
  op_GetApp (PS := PS) (ok_getNamespace ok (om_Namespace (as_meta new))) (or_Name ref) w
    = (Got app, w) →
  (∃ req, enqueued setup (OnUpdate (StateObj old) (StateObj new)) = [req] ∧
     op_Reconcile ok (rq_Namespace req) (rq_Name req) w = reconcileBpfApplication ok app w) ∨
  (enqueued setup (OnUpdate (StateObj old) (StateObj new)) = [] ∧
   ∀ before after nodes,
     classify ok (before ++ old :: after) [] [] [] = classify ok (before ++ new :: after) [] [] [] ∧
     node_missing nodes (before ++ old :: after) = node_missing nodes (before ++ new :: after)).
Proof.
  intros Hn Hl H1 H2 H3 H4.
  destruct (statusChangedPredicate ok (Operator.UpdateEvent old new)) eqn:Hp.
  - left. exists (mkRequest (om_Namespace (as_meta new)) (om_Name (as_meta new))). split.
    + unfold enqueued, watch_requests. cbn -[statusChangedPredicate]. by rewrite Hp.
    + unfold op_Reconcile. cbn [rq_Namespace rq_Name].
      by rewrite (run_bind_lift _ _ _ _ _ H1), (run_bind_lift _ _ _ _ _ H2), H3,
        (run_bind_lift _ _ _ _ _ H4).
  - right. split; [|intros; by apply dropped_update_irrelevant].
    unfold enqueued, watch_requests. cbn -[statusChangedPredicate]. by rewrite Hp.
Qed.

(** No deletion of a state object wakes the operator, nor does a Reconcile for one that is
    gone reach the application. *)
Lemma state_deletion_unnoticed an ns n w :
  enqueued setup (OnDelete (StateObj an)) = [] ∧
  (op_GetApp (PS := PS) ns n w = (NotFound (A := Application P), w) →
   op_GetState (P := P) ns n w = (NotFound (A := AppState PS), w) →
   op_Reconcile ok ns n w = (Ret (Ok 0), w)).
Proof.
  split; [done|]. intros H1 H2. unfold op_Reconcile.
  by rewrite (run_bind_lift _ _ _ _ _ H1), (run_bind_lift _ _ _ _ _ H2).
Qed.
End operator.
