(* ===== verification/Heap.v ===== *)
(** Go values in memory, for the functions that copy them: a struct holds its fields, and a
    pointer, slice or map holds the location of a cell. [rep] says which contents a value
    has and which cells it reaches; a function copies deeply ([DeepCopies]) when its result
    has the same contents and reaches no cell that was there before. *)

From S2P Require Import Prelude.
From stdpp Require Import options.

(** ** Memory *)

Abbreviation loc := positive.

Inductive plain :=
  | PString (s : string)
  | PInt (n : Z)
  | PBool (b : bool)
  | PTime (t : Z).

(** [VZero] is the zero value of an element that is not assigned yet. *)
Inductive val :=
  | VPlain (p : plain)
  | VStruct (fields : list (string * val))
  | VPtr (l : option loc)
  | VSlice (l : option loc)
  | VMap (l : option loc)
  | VZero.

(** What a pointer, a slice and a map refer to. A slice is all of its array; a map is
    iterated in the order of its list. *)
Inductive cell :=
  | Scalar (v : val)
  | Array (vs : list val)
  | Dict (kvs : list (string * val)).

Abbreviation heap := (gmap loc cell).
Abbreviation HeapM := (GoM heap).
Abbreviation copier := (val → HeapM val).

Definition alloc (c : cell) : HeapM loc := λ h,
  let l := fresh (dom h) in (Ret l, <[l := c]> h).
Definition store (l : loc) (c : cell) : HeapM unit := λ h, (Ret tt, <[l := c]> h).
Definition ill_typed : string := "ill-typed memory".

Definition load_scalar (l : loc) : HeapM val := λ h,
  match h !! l with Some (Scalar v) => (Ret v, h) | _ => (Panic ill_typed, h) end.
Definition load_array (l : loc) : HeapM (list val) := λ h,
  match h !! l with Some (Array vs) => (Ret vs, h) | _ => (Panic ill_typed, h) end.
Definition load_dict (l : loc) : HeapM (list (string * val)) := λ h,
  match h !! l with Some (Dict kvs) => (Ret kvs, h) | _ => (Panic ill_typed, h) end.

(** ** How the generated functions copy *)

(** [*out = *in] *)
Definition assign : copier := mret.

(** [if in != nil { *out = new(T); f(in, out) }] *)
Definition new_copy (f : copier) : copier := λ v,
  match v with
  | VPtr None => mret (VPtr None)
  | VPtr (Some l) =>
      q ← alloc (Scalar VZero);
      x ← load_scalar l;
      y ← f x;
      _ ← store q (Scalar y);
      mret (VPtr (Some q))
  | _ => panic ill_typed
  end.

(** [for i := range *in { f(&( *in)[i], &( *out)[i]) }] *)
Fixpoint copy_elems (f : copier) (q : loc) (i : nat) (vs : list val) : HeapM unit :=
  match vs with
  | [] => mret tt
  | x :: vs =>
      y ← f x;
      ys ← load_array q;
      _ ← store q (Array (<[i := y]> ys));
      copy_elems f q (S i) vs
  end.

(** [if in != nil { *out = make([]T, len( *in)); ... }] *)
Definition slice_copy (f : copier) : copier := λ v,
  match v with
  | VSlice None => mret (VSlice None)
  | VSlice (Some l) =>
      xs ← load_array l;
      q ← alloc (Array (replicate (length xs) VZero));
      _ ← copy_elems f q 0 xs;
      mret (VSlice (Some q))
  | _ => panic ill_typed
  end.

(** [for key, val := range *in { ( *out)[key] = f(val) }]; the keys of a map differ. *)
Fixpoint copy_entries (f : copier) (q : loc) (kvs : list (string * val)) : HeapM unit :=
  match kvs with
  | [] => mret tt
  | (key, x) :: kvs =>
      y ← f x;
      ys ← load_dict q;
      _ ← store q (Dict (ys ++ [(key, y)]));
      copy_entries f q kvs
  end.

(** [if in != nil { *out = make(map[string]T, len( *in)); ... }] *)
Definition map_copy (f : copier) : copier := λ v,
  match v with
  | VMap None => mret (VMap None)
  | VMap (Some l) =>
      kvs ← load_dict l;
      q ← alloc (Dict []);
      _ ← copy_entries f q kvs;
      mret (VMap (Some q))
  | _ => panic ill_typed
  end.

(** A field of a struct, and the assignment to one. *)
Fixpoint get_field (F : string) (fields : list (string * val)) : option val :=
  match fields with
  | [] => None
  | (G, x) :: fields => if decide (F = G) then Some x else get_field F fields
  end.

Fixpoint set_field (F : string) (y : val) (fields : list (string * val)) : list (string * val) :=
  match fields with
  | [] => []
  | (G, x) :: fields => if decide (F = G) then (G, y) :: fields else (G, x) :: set_field F y fields
  end.

(** The statements of a function, one for a field each, that have [in] and make [out]. *)
Fixpoint copy_fields (stmts : list (string * copier)) (in_ out : list (string * val))
    : HeapM (list (string * val)) :=
  match stmts with
  | [] => mret out
  | (F, f) :: stmts =>
      x ← (match get_field F in_ with Some x => mret x | None => panic ill_typed end);
      y ← f x;
      copy_fields stmts in_ (set_field F y out)
  end.

(** [*out = *in] and the statements. *)
Definition struct_copy (stmts : list (string * copier)) : copier := λ v,
  match v with
  | VStruct fields => out ← copy_fields stmts fields fields; mret (VStruct out)
  | _ => panic ill_typed
  end.

(** [DeepCopyObject]: a nil pointer is returned as a nil interface. *)
Definition copy_object (f : copier) (v : val) : HeapM (option val) :=
  c ← f v;
  mret (match c with VPtr None => None | _ => Some c end).

(** ** Types and contents *)

Inductive ty :=
  | TPlain
  | TStruct (fields : list (string * ty))
  | TPtr (T : ty)
  | TSlice (T : ty)
  | TMap (T : ty).

(** What a value stands for, wherever it is. *)
Inductive tree :=
  | TrPlain (p : plain)
  | TrStruct (fields : list (string * tree))
  | TrNil
  | TrPtr (t : tree)
  | TrSlice (ts : list tree)
  | TrMap (kts : list (string * tree)).

(** The value has type [T] and contents [t], and reaches the cells [F]. *)
Inductive rep (h : heap) : ty → val → tree → gset loc → Prop :=
  | rep_plain p : rep h TPlain (VPlain p) (TrPlain p) ∅
  | rep_struct fs vs ts F : rep_fields h fs vs ts F → rep h (TStruct fs) (VStruct vs) (TrStruct ts) F
  | rep_nil_ptr T : rep h (TPtr T) (VPtr None) TrNil ∅
  | rep_ptr T l x t F :
      h !! l = Some (Scalar x) → rep h T x t F →
      rep h (TPtr T) (VPtr (Some l)) (TrPtr t) ({[l]} ∪ F)
  | rep_nil_slice T : rep h (TSlice T) (VSlice None) TrNil ∅
  | rep_slice T l xs ts F :
      h !! l = Some (Array xs) → rep_elems h T xs ts F →
      rep h (TSlice T) (VSlice (Some l)) (TrSlice ts) ({[l]} ∪ F)
  | rep_nil_map T : rep h (TMap T) (VMap None) TrNil ∅
  | rep_map T l kvs kts F :
      h !! l = Some (Dict kvs) → rep_entries h T kvs kts F →
      rep h (TMap T) (VMap (Some l)) (TrMap kts) ({[l]} ∪ F)
with rep_fields (h : heap) :
    list (string * ty) → list (string * val) → list (string * tree) → gset loc → Prop :=
  | fields_nil : rep_fields h [] [] [] ∅
  | fields_cons name T x t F fs vs ts G :
      rep h T x t F → rep_fields h fs vs ts G →
      rep_fields h ((name, T) :: fs) ((name, x) :: vs) ((name, t) :: ts) (F ∪ G)
with rep_elems (h : heap) : ty → list val → list tree → gset loc → Prop :=
  | elems_nil T : rep_elems h T [] [] ∅
  | elems_cons T x t F xs ts G :
      rep h T x t F → rep_elems h T xs ts G → rep_elems h T (x :: xs) (t :: ts) (F ∪ G)
with rep_entries (h : heap) :
    ty → list (string * val) → list (string * tree) → gset loc → Prop :=
  | entries_nil T : rep_entries h T [] [] ∅
  | entries_cons T key x t F kvs kts G :
      rep h T x t F → rep_entries h T kvs kts G →
      rep_entries h T ((key, x) :: kvs) ((key, t) :: kts) (F ∪ G).

Scheme rep_mut := Minimality for rep Sort Prop
  with rep_fields_mut := Minimality for rep_fields Sort Prop
  with rep_elems_mut := Minimality for rep_elems Sort Prop
  with rep_entries_mut := Minimality for rep_entries Sort Prop.
Combined Scheme rep_ind_all from rep_mut, rep_fields_mut, rep_elems_mut, rep_entries_mut.

(** A type without references: its values reach nothing. *)
Fixpoint flat (T : ty) : bool :=
  match T with
  | TPlain => true
  | TStruct fs => forallb (λ '(_, T), flat T) fs
  | _ => false
  end.
