(* ===== verification/HeapSpecs.v ===== *)
(** The copying functions of [Heap] copy deeply when the functions they are given do, and
    a deep copy is independent of what it was made from. *)

From S2P Require Import Prelude Heap.
From stdpp Require Import options.

Section rep.
Implicit Types (h : heap) (F G : gset loc).

(** *** What a value stands for depends on the cells it reaches only *)

Lemma rep_agree_all h h' :
  (∀ T v t F, rep h T v t F → (∀ l, l ∈ F → h' !! l = h !! l) → rep h' T v t F) ∧
  (∀ fs vs ts F, rep_fields h fs vs ts F → (∀ l, l ∈ F → h' !! l = h !! l) → rep_fields h' fs vs ts F) ∧
  (∀ T vs ts F, rep_elems h T vs ts F → (∀ l, l ∈ F → h' !! l = h !! l) → rep_elems h' T vs ts F) ∧
  (∀ T kvs kts F, rep_entries h T kvs kts F → (∀ l, l ∈ F → h' !! l = h !! l) →
     rep_entries h' T kvs kts F).
Proof.
  apply rep_ind_all; intros; try by constructor; eauto with set_solver.
  all: econstructor; [try (rewrite <- H; set_solver)|]; eauto; set_solver.
Qed.

Lemma rep_agree h h' T v t F :
  (∀ l, l ∈ F → h' !! l = h !! l) → rep h T v t F → rep h' T v t F.
Proof. intros. by eapply (proj1 (rep_agree_all h h')). Qed.

Lemma rep_dom_all h :
  (∀ T v t F, rep h T v t F → F ⊆ dom h) ∧
  (∀ fs vs ts F, rep_fields h fs vs ts F → F ⊆ dom h) ∧
  (∀ T vs ts F, rep_elems h T vs ts F → F ⊆ dom h) ∧
  (∀ T kvs kts F, rep_entries h T kvs kts F → F ⊆ dom h).
Proof.
  apply rep_ind_all; intros;
    repeat match goal with H : h !! _ = Some _ |- _ => apply elem_of_dom_2 in H end; set_solver.
Qed.

Lemma grown h h' F l : h ⊆ h' → F ⊆ dom h → l ∈ F → h' !! l = h !! l.
Proof.
  intros Hsub HF Hl. assert (is_Some (h !! l)) as [c Hc] by (apply elem_of_dom; set_solver).
  rewrite Hc. by eapply lookup_weaken.
Qed.

Lemma rep_grow h h' T v t F : h ⊆ h' → rep h T v t F → rep h' T v t F.
Proof.
  intros Hsub Hr. eapply rep_agree; [|exact Hr]. intros l Hl.
  eapply grown; [done| |done]. by eapply (proj1 (rep_dom_all h)).
Qed.

Lemma rep_elems_grow h h' T vs ts F : h ⊆ h' → rep_elems h T vs ts F → rep_elems h' T vs ts F.
Proof.
  intros Hsub Hr. pose proof (proj1 (proj2 (proj2 (rep_dom_all h))) _ _ _ _ Hr).
  eapply (rep_agree_all h h'); [exact Hr|]. intros l Hl. by eapply grown.
Qed.

Lemma rep_entries_grow h h' T vs ts F : h ⊆ h' → rep_entries h T vs ts F → rep_entries h' T vs ts F.
Proof.
  intros Hsub Hr. pose proof (proj2 (proj2 (proj2 (rep_dom_all h))) _ _ _ _ Hr).
  eapply (rep_agree_all h h'); [exact Hr|]. intros l Hl. by eapply grown.
Qed.

Lemma rep_fields_grow h h' fs vs ts F : h ⊆ h' → rep_fields h fs vs ts F → rep_fields h' fs vs ts F.
Proof.
  intros Hsub Hr. pose proof (proj1 (proj2 (rep_dom_all h)) _ _ _ _ Hr).
  eapply (rep_agree_all h h'); [exact Hr|]. intros l Hl. by eapply grown.
Qed.

(** Values of a type without references reach nothing and are the same in every memory. *)
Lemma rep_flat_all h h' :
  (∀ T v t F, rep h T v t F → flat T = true → F = ∅ ∧ rep h' T v t ∅) ∧
  (∀ fs vs ts F, rep_fields h fs vs ts F → forallb (λ '(_, T), flat T) fs = true →
     F = ∅ ∧ rep_fields h' fs vs ts ∅) ∧
  (∀ T vs ts F, rep_elems h T vs ts F → flat T = true → F = ∅ ∧ rep_elems h' T vs ts ∅) ∧
  (∀ T kvs kts F, rep_entries h T kvs kts F → flat T = true → F = ∅ ∧ rep_entries h' T kvs kts ∅).
Proof.
  apply rep_ind_all; intros; cbn in *; try done; try (split; [done|by constructor]).
  - destruct H0 as [-> ?]; [done|]. split; [done|by constructor].
  - apply andb_true_iff in H3 as [H3 H4]. destruct H0 as [-> ?]; [done|]. destruct H2 as [-> ?]; [done|].
    split; [set_solver|]. rewrite <- (union_empty_l_L ∅). by constructor.
  - destruct H0 as [-> ?]; [done|]. destruct H2 as [-> ?]; [done|].
    split; [set_solver|]. rewrite <- (union_empty_l_L ∅). by constructor.
  - destruct H0 as [-> ?]; [done|]. destruct H2 as [-> ?]; [done|].
    split; [set_solver|]. rewrite <- (union_empty_l_L ∅). by constructor.
Qed.
End rep.

(** ** Copying deeply *)

(** The copy stands for the same and reaches none of the cells that were there; these are
    as they were. *)
Class DeepCopies (T : ty) (f : copier) : Prop :=
  deep_copies h v t F : rep h T v t F →
    ∃ v' h' F', f v h = (Ret v', h') ∧ h ⊆ h' ∧ rep h' T v' t F' ∧ F' ## dom h.

Class Flat (T : ty) : Prop := is_flat : flat T = true.
#[export] Hint Extern 0 (Flat _) => reflexivity : typeclass_instances.

#[export] Instance assign_copies T : Flat T → DeepCopies T assign.
Proof.
  intros Hf h v t F Hr. destruct (proj1 (rep_flat_all h h) _ _ _ _ Hr Hf) as [-> Hr'].
  exists v, h, ∅. split_and!; [done..|set_solver].
Qed.

Lemma run_alloc (c : cell) (h : heap) :
  ∃ q, alloc c h = (Ret q, <[q := c]> h) ∧ q ∉ dom h ∧ h ⊆ <[q := c]> h.
Proof.
  exists (fresh (dom h)). split; [done|]. assert (fresh (dom h) ∉ dom h) as Hq by apply is_fresh.
  split; [done|]. apply insert_subseteq. by apply not_elem_of_dom.
Qed.

(** A write to a new cell. *)
Lemma store_new (h h' : heap) q c : h ⊆ h' → q ∉ dom h → h ⊆ <[q := c]> h'.
Proof.
  intros Hsub Hq. apply map_subseteq_spec. intros l x Hl.
  rewrite lookup_insert_ne; [by eapply lookup_weaken|]. intros <-. by apply Hq, (elem_of_dom_2 _ _ x).
Qed.

Lemma rep_store (h : heap) q c T v t F : q ∉ F → rep h T v t F → rep (<[q := c]> h) T v t F.
Proof.
  intros Hq. apply rep_agree. intros l Hl. rewrite lookup_insert_ne; [done|]. by intros ->.
Qed.

Lemma rep_elems_store (h : heap) q c T v t F :
  q ∉ F → rep_elems h T v t F → rep_elems (<[q := c]> h) T v t F.
Proof.
  intros Hq Hr. eapply (rep_agree_all h); [exact Hr|].
  intros l Hl. rewrite lookup_insert_ne; [done|]. by intros ->.
Qed.

Lemma rep_entries_store (h : heap) q c T v t F :
  q ∉ F → rep_entries h T v t F → rep_entries (<[q := c]> h) T v t F.
Proof.
  intros Hq Hr. eapply (rep_agree_all h); [exact Hr|].
  intros l Hl. rewrite lookup_insert_ne; [done|]. by intros ->.
Qed.

Lemma rep_elems_snoc (h : heap) T vs ts F x t G :
  rep_elems h T vs ts F → rep h T x t G → rep_elems h T (vs ++ [x]) (ts ++ [t]) (F ∪ G).
Proof.
  induction 1 as [T|T y u F1 ys us F2 Hy _ IH]; intros Hx; cbn.
  - rewrite (union_comm_L ∅). constructor; [done|constructor].
  - rewrite <- (assoc_L (∪)). constructor; [done|by apply IH].
Qed.

Lemma rep_entries_snoc (h : heap) T vs ts F key x t G :
  rep_entries h T vs ts F → rep h T x t G →
  rep_entries h T (vs ++ [(key, x)]) (ts ++ [(key, t)]) (F ∪ G).
Proof.
  induction 1 as [T|T k y u F1 ys us F2 Hy _ IH]; intros Hx; cbn.
  - rewrite (union_comm_L ∅). constructor; [done|constructor].
  - rewrite <- (assoc_L (∪)). constructor; [done|by apply IH].
Qed.

#[export] Instance new_copies T f : DeepCopies T f → DeepCopies (TPtr T) (new_copy f).
Proof.
  intros Hf h v t F Hr. inversion Hr as [| |? Hv|? l x t1 G Hl Hx| | | |]; subst.
  { exists (VPtr None), h, ∅. split_and!; [done..|set_solver]. }
  destruct (run_alloc (Scalar VZero) h) as (q & Ha & Hq & Hsub). set (h1 := <[q := Scalar VZero]> h) in *.
  assert (Hl1 : h1 !! l = Some (Scalar x)) by by eapply lookup_weaken.
  destruct (Hf h1 x t1 G) as (y & h2 & G2 & Hrun & Hsub2 & Hy & Hd); [by eapply rep_grow|].
  exists (VPtr (Some q)), (<[q := Scalar y]> h2), ({[q]} ∪ G2).
  assert (Hq2 : q ∉ G2) by (unfold h1 in Hd; set_solver). split_and!.
  - unfold new_copy. rewrite (run_bind _ _ _ _ _ Ha).
    assert (Hload : load_scalar l h1 = (Ret x, h1)) by (unfold load_scalar; by rewrite Hl1).
    by rewrite (run_bind _ _ _ _ _ Hload), (run_bind _ _ _ _ _ Hrun).
  - apply store_new; [|done]. by etrans.
  - apply (rep_ptr _ _ _ y); [by rewrite lookup_insert_eq|]. by apply rep_store.
  - unfold h1 in Hd. set_solver.
Qed.

(** After [i] elements of the new slice. *)
Lemma run_copy_elems T f (h hq : heap) q xs ts F ys ts0 G :
  DeepCopies T f → h ⊆ hq → q ∉ dom h → rep_elems h T xs ts F →
  hq !! q = Some (Array (ys ++ replicate (length xs) VZero)) →
  rep_elems hq T ys ts0 G → G ## dom h → q ∉ G →
  ∃ zs h' G', copy_elems f q (length ys) xs hq = (Ret tt, h') ∧ h ⊆ h' ∧
    h' !! q = Some (Array zs) ∧ rep_elems h' T zs (ts0 ++ ts) G' ∧ G' ## dom h ∧ q ∉ G'.
Proof.
  intros Hf Hsub Hq Hxs. revert hq ys ts0 G Hsub.
  induction Hxs as [T|T x t F xs ts F2 Hx Hxs IH]; intros hq ys ts0 G Hsub Hcell Hys HG HqG.
  { exists ys, hq, G. rewrite !app_nil_r in *. by split_and!. }
  destruct (Hf hq x t F) as (y & h1 & G1 & Hrun & Hsub1 & Hy & Hd); [by eapply rep_grow|].
  assert (Hcell1 : h1 !! q = Some (Array (ys ++ VZero :: replicate (length xs) VZero)))
    by (by eapply lookup_weaken).
  assert (q ∈ dom hq) as Hqd by by eapply elem_of_dom_2.
  assert (dom h ⊆ dom hq) as Hdom by by apply subseteq_dom.
  set (h2 := <[q := Array (<[length ys := y]> (ys ++ VZero :: replicate (length xs) VZero))]> h1).
  destruct (IH Hf h2 (ys ++ [y]) (ts0 ++ [t]) (G ∪ G1)) as (zs & h' & G' & Hrest & Hres).
  - apply store_new; [|done]. by etrans.
  - unfold h2. rewrite lookup_insert_eq, <- app_assoc. do 3 f_equal. by rewrite insert_app_r_alt, Nat.sub_diag by done.
  - apply rep_elems_snoc; [|apply rep_store; [set_solver|exact Hy]].
    apply rep_elems_store; [done|]. by eapply rep_elems_grow.
  - set_solver.
  - set_solver.
  - exists zs, h', G'. rewrite <- app_assoc in Hres. split; [|exact Hres].
    cbn [copy_elems]. rewrite (run_bind _ _ _ _ _ Hrun).
    assert (Hload : load_array q h1 = (Ret (ys ++ VZero :: replicate (length xs) VZero), h1))
      by (unfold load_array; by rewrite Hcell1).
    rewrite (run_bind _ _ _ _ _ Hload). rewrite length_app, Nat.add_1_r in Hrest. exact Hrest.
Qed.

#[export] Instance slice_copies T f : DeepCopies T f → DeepCopies (TSlice T) (slice_copy f).
Proof.
  intros Hf h v t F Hr. inversion Hr as [| | | |? Hv|? l xs ts G Hl Hxs| |]; subst.
  { exists (VSlice None), h, ∅. split_and!; [done..|set_solver]. }
  destruct (run_alloc (Array (replicate (length xs) VZero)) h) as (q & Ha & Hq & Hsub).
  set (h1 := <[q := Array (replicate (length xs) VZero)]> h) in *.
  destruct (run_copy_elems T f h h1 q xs ts G [] [] ∅) as (zs & h2 & G2 & Hrun & Hsub2 & Hz & Hzs & Hd & Hq2);
    [done..|by unfold h1; rewrite lookup_insert_eq|constructor|set_solver|set_solver|].
  exists (VSlice (Some q)), h2, ({[q]} ∪ G2). split_and!; [|done|by eapply rep_slice|set_solver].
  unfold slice_copy.
  assert (Hload : load_array l h = (Ret xs, h)) by (unfold load_array; by rewrite Hl).
  rewrite (run_bind _ _ _ _ _ Hload), (run_bind _ _ _ _ _ Ha). by rewrite (run_bind _ _ _ _ _ Hrun).
Qed.

Lemma run_copy_entries T f (h hq : heap) q xs ts F ys ts0 G :
  DeepCopies T f → h ⊆ hq → q ∉ dom h → rep_entries h T xs ts F →
  hq !! q = Some (Dict ys) → rep_entries hq T ys ts0 G → G ## dom h → q ∉ G →
  ∃ zs h' G', copy_entries f q xs hq = (Ret tt, h') ∧ h ⊆ h' ∧
    h' !! q = Some (Dict zs) ∧ rep_entries h' T zs (ts0 ++ ts) G' ∧ G' ## dom h ∧ q ∉ G'.
Proof.
  intros Hf Hsub Hq Hxs. revert hq ys ts0 G Hsub.
  induction Hxs as [T|T key x t F xs ts F2 Hx Hxs IH]; intros hq ys ts0 G Hsub Hcell Hys HG HqG.
  { exists ys, hq, G. rewrite !app_nil_r in *. by split_and!. }
  destruct (Hf hq x t F) as (y & h1 & G1 & Hrun & Hsub1 & Hy & Hd); [by eapply rep_grow|].
  assert (Hcell1 : h1 !! q = Some (Dict ys)) by (by eapply lookup_weaken).
  assert (q ∈ dom hq) as Hqd by by eapply elem_of_dom_2.
  assert (dom h ⊆ dom hq) as Hdom by by apply subseteq_dom.
  set (h2 := <[q := Dict (ys ++ [(key, y)])]> h1).
  destruct (IH Hf h2 (ys ++ [(key, y)]) (ts0 ++ [(key, t)]) (G ∪ G1)) as (zs & h' & G' & Hrest & Hres).
  - apply store_new; [|done]. by etrans.
  - by unfold h2; rewrite lookup_insert_eq.
  - apply rep_entries_snoc; [|apply rep_store; [set_solver|exact Hy]].
    apply rep_entries_store; [done|]. by eapply rep_entries_grow.
  - set_solver.
  - set_solver.
  - exists zs, h', G'. rewrite <- app_assoc in Hres. split; [|exact Hres].
    cbn [copy_entries]. rewrite (run_bind _ _ _ _ _ Hrun).
    assert (Hload : load_dict q h1 = (Ret ys, h1)) by (unfold load_dict; by rewrite Hcell1).
    rewrite (run_bind _ _ _ _ _ Hload). exact Hrest.
Qed.

#[export] Instance map_copies T f : DeepCopies T f → DeepCopies (TMap T) (map_copy f).
Proof.
  intros Hf h v t F Hr. inversion Hr as [| | | | | |? Hv|? l xs ts G Hl Hxs]; subst.
  { exists (VMap None), h, ∅. split_and!; [done..|set_solver]. }
  destruct (run_alloc (Dict []) h) as (q & Ha & Hq & Hsub). set (h1 := <[q := Dict []]> h) in *.
  destruct (run_copy_entries T f h h1 q xs ts G [] [] ∅) as (zs & h2 & G2 & Hrun & Hsub2 & Hz & Hzs & Hd & Hq2);
    [done..|by unfold h1; rewrite lookup_insert_eq|constructor|set_solver|set_solver|].
  exists (VMap (Some q)), h2, ({[q]} ∪ G2). split_and!; [|done|by eapply rep_map|set_solver].
  unfold map_copy.
  assert (Hload : load_dict l h = (Ret xs, h)) by (unfold load_dict; by rewrite Hl).
  rewrite (run_bind _ _ _ _ _ Hload), (run_bind _ _ _ _ _ Ha). by rewrite (run_bind _ _ _ _ _ Hrun).
Qed.

(** *** Structs *)

(** The statements go through the fields in order and skip only those without references. *)
Class CopiesFields (fs : list (string * ty)) (stmts : list (string * copier)) : Prop :=
  fields_copied (h : heap) pre done vs ts F :
    NoDup fs.*1 → (∀ n, n ∈ fs.*1 → n ∉ pre.*1 ∧ n ∉ done.*1) → rep_fields h fs vs ts F →
    ∃ vs' h' F', copy_fields stmts (pre ++ vs) (done ++ vs) h = (Ret (done ++ vs'), h') ∧
      h ⊆ h' ∧ rep_fields h' fs vs' ts F' ∧ F' ## dom h.

#[export] Instance no_fields : CopiesFields [] [].
Proof.
  intros h pre done vs ts F _ _ Hr. inversion Hr; subst.
  exists [], h, ∅. split_and!; [done..|constructor|set_solver].
Qed.

Lemma get_field_here n x pre vs : n ∉ pre.*1 → get_field n (pre ++ (n, x) :: vs) = Some x.
Proof.
  induction pre as [|[m y] pre IH]; intros Hn; cbn; [by rewrite decide_True|].
  rewrite decide_False by set_solver. apply IH. set_solver.
Qed.

Lemma set_field_here n x y pre vs :
  n ∉ pre.*1 → set_field n y (pre ++ (n, x) :: vs) = pre ++ (n, y) :: vs.
Proof.
  induction pre as [|[m z] pre IH]; intros Hn; cbn; [by rewrite decide_True|].
  rewrite decide_False by set_solver. f_equal. apply IH. set_solver.
Qed.

(** What is left of the distinct names. *)
Lemma names_left n (ns pre done : list string) :
  NoDup (n :: ns) → (∀ m, m ∈ n :: ns → m ∉ pre ∧ m ∉ done) →
  NoDup ns ∧ ∀ m, m ∈ ns → m ∉ pre ++ [n] ∧ m ∉ done ++ [n].
Proof.
  intros [Hn Hnd]%NoDup_cons Hout. split; [done|]. intros m Hm.
  destruct (Hout m ltac:(by right)). assert (m ≠ n) by by intros ->. set_solver.
Qed.

#[export] Instance skip_field n T fs stmts :
  Flat T → CopiesFields fs stmts → CopiesFields ((n, T) :: fs) stmts | 2.
Proof.
  intros Hflat Hfs h pre done vs ts F Hnd Hout Hr.
  inversion Hr as [|? ? x t F1 ? vs1 ts1 F2 Hx Hvs]; subst.
  destruct (proj1 (rep_flat_all h h) _ _ _ _ Hx Hflat) as [-> _].
  destruct (names_left _ _ _ _ Hnd Hout) as [Hnd1 Hout1].
  destruct (Hfs h (pre ++ [(n, x)]) (done ++ [(n, x)]) vs1 ts1 F2) as (vs' & h' & F' & Hrun & Hsub & Hvs' & Hd);
    [done| |done|].
  { intros m Hm. rewrite !fmap_app. by apply Hout1. }
  rewrite <- !app_assoc in Hrun. exists ((n, x) :: vs'), h', (∅ ∪ F').
  split_and!; [exact Hrun|done| |set_solver]. constructor; [|done].
  by apply (proj1 (rep_flat_all h h') _ _ _ _ Hx).
Qed.

#[export] Instance copy_field n T f fs stmts :
  DeepCopies T f → CopiesFields fs stmts → CopiesFields ((n, T) :: fs) ((n, f) :: stmts) | 1.
Proof.
  intros Hf Hfs h pre done vs ts F Hnd Hout Hr.
  inversion Hr as [|? ? x t F1 ? vs1 ts1 F2 Hx Hvs]; subst.
  destruct (Hf h x t F1 Hx) as (y & h1 & G1 & Hrunx & Hsub1 & Hy & Hd1).
  destruct (Hout n ltac:(by left)) as [Hpre Hdone].
  destruct (names_left _ _ _ _ Hnd Hout) as [Hnd1 Hout1].
  destruct (Hfs h1 (pre ++ [(n, x)]) (done ++ [(n, y)]) vs1 ts1 F2) as (vs' & h' & F' & Hrun & Hsub & Hvs' & Hd);
    [done| |by eapply rep_fields_grow|].
  { intros m Hm. rewrite !fmap_app. by apply Hout1. }
  rewrite <- !app_assoc in Hrun. exists ((n, y) :: vs'), h', (G1 ∪ F'). split_and!.
  - cbn [copy_fields]. rewrite get_field_here by done. rewrite (run_bind _ _ _ _ _ (run_ret x h)).
    rewrite (run_bind _ _ _ _ _ Hrunx). rewrite set_field_here by done. exact Hrun.
  - by etrans.
  - constructor; [by eapply rep_grow|done].
  - assert (dom h ⊆ dom h1) by by apply subseteq_dom. set_solver.
Qed.

Class Distinct (fs : list (string * ty)) : Prop := are_distinct : NoDup fs.*1.
#[export] Hint Extern 0 (Distinct _) =>
  apply (bool_decide_unpack (NoDup _)); vm_compute; exact I : typeclass_instances.

#[export] Instance struct_copies fs stmts :
  Distinct fs → CopiesFields fs stmts → DeepCopies (TStruct fs) (struct_copy stmts).
Proof.
  intros Hnd Hfs h v t F Hr. inversion Hr as [|? vs ts ? Hvs| | | | | |]; subst.
  destruct (Hfs h [] [] vs ts F) as (vs' & h' & F' & Hrun & Hsub & Hvs' & Hd); [done| |done|].
  { intros n _. split; apply not_elem_of_nil. }
  exists (VStruct vs'), h', F'. split_and!; [|done|by constructor|done].
  unfold struct_copy. cbn in Hrun. by rewrite (run_bind _ _ _ _ _ Hrun).
Qed.

(** *** Independence *)

(** A copy that was made in memory [h] by [f]: it stands for what the original stands for,
    both still do afterwards, they share no cell, and each keeps its contents whatever is
    written to the cells that it does not reach. *)
Definition isolates (T : ty) (f : copier) : Prop :=
  ∀ h v t F, rep h T v t F → ∃ v' h' F', f v h = (Ret v', h') ∧
    rep h' T v t F ∧ rep h' T v' t F' ∧ F ## F' ∧
    (∀ h'', (∀ l, l ∈ F' → h'' !! l = h' !! l) → rep h'' T v' t F') ∧
    (∀ h'', (∀ l, l ∈ F → h'' !! l = h' !! l) → rep h'' T v t F).

Lemma copies_isolates T f : DeepCopies T f → isolates T f.
Proof.
  intros Hf h v t F Hr. destruct (Hf h v t F Hr) as (v' & h' & F' & Hrun & Hsub & Hv' & Hd).
  pose proof (rep_grow _ _ _ _ _ _ Hsub Hr) as Hr'.
  pose proof (proj1 (rep_dom_all h) _ _ _ _ Hr) as HF.
  exists v', h', F'. split_and!; [done..|set_solver| |].
  - intros h'' Hh. by eapply rep_agree.
  - intros h'' Hh. by eapply rep_agree.
Qed.
