(* ===== verification/DeepCopy.v ===== *)
(** The generated functions that copy the API objects: apis/v1alpha1/zz_generated.deepcopy.go,
    and of its counterpart in the vendored apimachinery those that it calls. For each struct
    type its fields ([_ty]), the statements of its DeepCopyInto, its DeepCopy and, for an
    object of the API server, its DeepCopyObject. A time.Time is a plain value: the location
    it points to is never written. *)

From S2P Require Import Prelude Heap.
From stdpp Require Import options.

(** ** k8s.io/apimachinery/pkg/apis/meta/v1 *)

Definition LabelSelectorRequirement_ty : ty := TStruct [("Key", TPlain); ("Operator", TPlain);
    ("Values", TSlice TPlain)].
Definition LabelSelectorRequirement_DeepCopyInto : copier := struct_copy [
    ("Values", slice_copy assign)].

Definition LabelSelector_ty : ty := TStruct [("MatchLabels", TMap TPlain);
    ("MatchExpressions", TSlice LabelSelectorRequirement_ty)].
Definition LabelSelector_DeepCopyInto : copier := struct_copy [("MatchLabels", map_copy assign);
    ("MatchExpressions", slice_copy LabelSelectorRequirement_DeepCopyInto)].

Definition Condition_ty : ty := TStruct [("Type", TPlain); ("Status", TPlain);
    ("ObservedGeneration", TPlain); ("LastTransitionTime", TPlain); ("Reason", TPlain);
    ("Message", TPlain)].
Definition Condition_DeepCopyInto : copier := struct_copy [("LastTransitionTime", assign)].

Definition TypeMeta_ty : ty := TStruct [("Kind", TPlain); ("APIVersion", TPlain)].

Definition OwnerReference_ty : ty := TStruct [("APIVersion", TPlain); ("Kind", TPlain);
    ("Name", TPlain); ("UID", TPlain); ("Controller", TPtr TPlain);
    ("BlockOwnerDeletion", TPtr TPlain)].
Definition OwnerReference_DeepCopyInto : copier := struct_copy [("Controller", new_copy assign);
    ("BlockOwnerDeletion", new_copy assign)].

Definition FieldsV1_ty : ty := TStruct [("Raw", TSlice TPlain)].
Definition FieldsV1_DeepCopyInto : copier := struct_copy [("Raw", slice_copy assign)].

Definition ManagedFieldsEntry_ty : ty := TStruct [("Manager", TPlain); ("Operation", TPlain);
    ("APIVersion", TPlain); ("Time", TPtr TPlain); ("FieldsType", TPlain);
    ("FieldsV1", TPtr FieldsV1_ty); ("Subresource", TPlain)].
Definition ManagedFieldsEntry_DeepCopyInto : copier := struct_copy [("Time", new_copy assign);
    ("FieldsV1", new_copy FieldsV1_DeepCopyInto)].

Definition ObjectMeta_ty : ty := TStruct [("Name", TPlain); ("GenerateName", TPlain);
    ("Namespace", TPlain); ("SelfLink", TPlain); ("UID", TPlain); ("ResourceVersion", TPlain);
    ("Generation", TPlain); ("CreationTimestamp", TPlain); ("DeletionTimestamp", TPtr TPlain);
    ("DeletionGracePeriodSeconds", TPtr TPlain); ("Labels", TMap TPlain);
    ("Annotations", TMap TPlain); ("OwnerReferences", TSlice OwnerReference_ty);
    ("Finalizers", TSlice TPlain); ("ManagedFields", TSlice ManagedFieldsEntry_ty)].
Definition ObjectMeta_DeepCopyInto : copier := struct_copy [("CreationTimestamp", assign);
    ("DeletionTimestamp", new_copy assign); ("DeletionGracePeriodSeconds", new_copy assign);
    ("Labels", map_copy assign); ("Annotations", map_copy assign);
    ("OwnerReferences", slice_copy OwnerReference_DeepCopyInto);
    ("Finalizers", slice_copy assign);
    ("ManagedFields", slice_copy ManagedFieldsEntry_DeepCopyInto)].

Definition ListMeta_ty : ty := TStruct [("SelfLink", TPlain); ("ResourceVersion", TPlain);
    ("Continue", TPlain); ("RemainingItemCount", TPtr TPlain)].
Definition ListMeta_DeepCopyInto : copier := struct_copy [
    ("RemainingItemCount", new_copy assign)].

(** ** apis/v1alpha1 *)

Definition AgentSpec_ty : ty := TStruct [("HealthProbePort", TPlain); ("Image", TPlain);
    ("LogLevel", TPlain)].
Definition AgentSpec_DeepCopyInto : copier := struct_copy [].
Definition AgentSpec_DeepCopy : copier := new_copy AgentSpec_DeepCopyInto.

Definition AttachInfoStateCommon_ty : ty := TStruct [("ShouldAttach", TPlain); ("UUID", TPlain);
    ("LinkId", TPtr TPlain); ("LinkStatus", TPlain)].
Definition AttachInfoStateCommon_DeepCopyInto : copier := struct_copy [
    ("LinkId", new_copy assign)].
Definition AttachInfoStateCommon_DeepCopy : copier := new_copy AttachInfoStateCommon_DeepCopyInto.

Definition ImagePullSecretSelector_ty : ty := TStruct [("Name", TPlain); ("Namespace", TPlain)].
Definition ImagePullSecretSelector_DeepCopyInto : copier := struct_copy [].
Definition ImagePullSecretSelector_DeepCopy : copier := new_copy ImagePullSecretSelector_DeepCopyInto.

Definition ByteCodeImage_ty : ty := TStruct [("Url", TPlain); ("ImagePullPolicy", TPlain);
    ("ImagePullSecret", TPtr ImagePullSecretSelector_ty)].
Definition ByteCodeImage_DeepCopyInto : copier := struct_copy [
    ("ImagePullSecret", new_copy assign)].
Definition ByteCodeImage_DeepCopy : copier := new_copy ByteCodeImage_DeepCopyInto.

Definition ByteCodeSelector_ty : ty := TStruct [("Image", TPtr ByteCodeImage_ty);
    ("Path", TPtr TPlain)].
Definition ByteCodeSelector_DeepCopyInto : copier := struct_copy [
    ("Image", new_copy ByteCodeImage_DeepCopyInto); ("Path", new_copy assign)].
Definition ByteCodeSelector_DeepCopy : copier := new_copy ByteCodeSelector_DeepCopyInto.

Definition BpfAppCommon_ty : ty := TStruct [("NodeSelector", LabelSelector_ty);
    ("GlobalData", TMap (TSlice TPlain)); ("ByteCode", ByteCodeSelector_ty);
    ("MapOwnerSelector", TPtr LabelSelector_ty)].
Definition BpfAppCommon_DeepCopyInto : copier := struct_copy [
    ("NodeSelector", LabelSelector_DeepCopyInto); ("GlobalData", map_copy (slice_copy assign));
    ("ByteCode", ByteCodeSelector_DeepCopyInto);
    ("MapOwnerSelector", new_copy LabelSelector_DeepCopyInto)].
Definition BpfAppCommon_DeepCopy : copier := new_copy BpfAppCommon_DeepCopyInto.

Definition BpfAppStatus_ty : ty := TStruct [("Conditions", TSlice Condition_ty)].
Definition BpfAppStatus_DeepCopyInto : copier := struct_copy [
    ("Conditions", slice_copy Condition_DeepCopyInto)].
Definition BpfAppStatus_DeepCopy : copier := new_copy BpfAppStatus_DeepCopyInto.

Definition InterfaceDiscovery_ty : ty := TStruct [("InterfaceAutoDiscovery", TPtr TPlain);
    ("ExcludeInterfaces", TSlice TPlain); ("AllowedInterfaces", TSlice TPlain)].
Definition InterfaceDiscovery_DeepCopyInto : copier := struct_copy [
    ("InterfaceAutoDiscovery", new_copy assign); ("ExcludeInterfaces", slice_copy assign);
    ("AllowedInterfaces", slice_copy assign)].
Definition InterfaceDiscovery_DeepCopy : copier := new_copy InterfaceDiscovery_DeepCopyInto.

Definition InterfaceSelector_ty : ty := TStruct [
    ("InterfacesDiscoveryConfig", TPtr InterfaceDiscovery_ty); ("Interfaces", TSlice TPlain);
    ("PrimaryNodeInterface", TPtr TPlain)].
Definition InterfaceSelector_DeepCopyInto : copier := struct_copy [
    ("InterfacesDiscoveryConfig", new_copy InterfaceDiscovery_DeepCopyInto);
    ("Interfaces", slice_copy assign); ("PrimaryNodeInterface", new_copy assign)].
Definition InterfaceSelector_DeepCopy : copier := new_copy InterfaceSelector_DeepCopyInto.

Definition NetworkNamespaceSelector_ty : ty := TStruct [("Pods", LabelSelector_ty)].
Definition NetworkNamespaceSelector_DeepCopyInto : copier := struct_copy [
    ("Pods", LabelSelector_DeepCopyInto)].
Definition NetworkNamespaceSelector_DeepCopy : copier := new_copy NetworkNamespaceSelector_DeepCopyInto.

Definition XdpAttachInfo_ty : ty := TStruct [("InterfaceSelector", InterfaceSelector_ty);
    ("NetworkNamespaces", NetworkNamespaceSelector_ty); ("Priority", TPtr TPlain);
    ("ProceedOn", TSlice TPlain)].
Definition XdpAttachInfo_DeepCopyInto : copier := struct_copy [
    ("InterfaceSelector", InterfaceSelector_DeepCopyInto);
    ("NetworkNamespaces", NetworkNamespaceSelector_DeepCopyInto); ("Priority", new_copy assign);
    ("ProceedOn", slice_copy assign)].
Definition XdpAttachInfo_DeepCopy : copier := new_copy XdpAttachInfo_DeepCopyInto.

Definition XdpProgramInfo_ty : ty := TStruct [("Links", TSlice XdpAttachInfo_ty)].
Definition XdpProgramInfo_DeepCopyInto : copier := struct_copy [
    ("Links", slice_copy XdpAttachInfo_DeepCopyInto)].
Definition XdpProgramInfo_DeepCopy : copier := new_copy XdpProgramInfo_DeepCopyInto.

Definition TcAttachInfo_ty : ty := TStruct [("InterfaceSelector", InterfaceSelector_ty);
    ("NetworkNamespaces", NetworkNamespaceSelector_ty); ("Direction", TPlain);
    ("Priority", TPtr TPlain); ("ProceedOn", TSlice TPlain)].
Definition TcAttachInfo_DeepCopyInto : copier := struct_copy [
    ("InterfaceSelector", InterfaceSelector_DeepCopyInto);
    ("NetworkNamespaces", NetworkNamespaceSelector_DeepCopyInto); ("Priority", new_copy assign);
    ("ProceedOn", slice_copy assign)].
Definition TcAttachInfo_DeepCopy : copier := new_copy TcAttachInfo_DeepCopyInto.

Definition TcProgramInfo_ty : ty := TStruct [("Links", TSlice TcAttachInfo_ty)].
Definition TcProgramInfo_DeepCopyInto : copier := struct_copy [
    ("Links", slice_copy TcAttachInfo_DeepCopyInto)].
Definition TcProgramInfo_DeepCopy : copier := new_copy TcProgramInfo_DeepCopyInto.

Definition TcxAttachInfo_ty : ty := TStruct [("InterfaceSelector", InterfaceSelector_ty);
    ("NetworkNamespaces", NetworkNamespaceSelector_ty); ("Direction", TPlain);
    ("Priority", TPtr TPlain)].
Definition TcxAttachInfo_DeepCopyInto : copier := struct_copy [
    ("InterfaceSelector", InterfaceSelector_DeepCopyInto);
    ("NetworkNamespaces", NetworkNamespaceSelector_DeepCopyInto); ("Priority", new_copy assign)].
Definition TcxAttachInfo_DeepCopy : copier := new_copy TcxAttachInfo_DeepCopyInto.

Definition TcxProgramInfo_ty : ty := TStruct [("Links", TSlice TcxAttachInfo_ty)].
Definition TcxProgramInfo_DeepCopyInto : copier := struct_copy [
    ("Links", slice_copy TcxAttachInfo_DeepCopyInto)].
Definition TcxProgramInfo_DeepCopy : copier := new_copy TcxProgramInfo_DeepCopyInto.

Definition ContainerSelector_ty : ty := TStruct [("Pods", LabelSelector_ty);
    ("ContainerNames", TSlice TPlain)].
Definition ContainerSelector_DeepCopyInto : copier := struct_copy [
    ("Pods", LabelSelector_DeepCopyInto); ("ContainerNames", slice_copy assign)].
Definition ContainerSelector_DeepCopy : copier := new_copy ContainerSelector_DeepCopyInto.

Definition UprobeAttachInfo_ty : ty := TStruct [("Function", TPlain); ("Offset", TPlain);
    ("Target", TPlain); ("Pid", TPtr TPlain); ("Containers", ContainerSelector_ty)].
Definition UprobeAttachInfo_DeepCopyInto : copier := struct_copy [("Pid", new_copy assign);
    ("Containers", ContainerSelector_DeepCopyInto)].
Definition UprobeAttachInfo_DeepCopy : copier := new_copy UprobeAttachInfo_DeepCopyInto.

Definition UprobeProgramInfo_ty : ty := TStruct [("Links", TSlice UprobeAttachInfo_ty)].
Definition UprobeProgramInfo_DeepCopyInto : copier := struct_copy [
    ("Links", slice_copy UprobeAttachInfo_DeepCopyInto)].
Definition UprobeProgramInfo_DeepCopy : copier := new_copy UprobeProgramInfo_DeepCopyInto.

Definition BpfApplicationProgram_ty : ty := TStruct [("Name", TPlain); ("Type", TPlain);
    ("XDP", TPtr XdpProgramInfo_ty); ("TC", TPtr TcProgramInfo_ty);
    ("TCX", TPtr TcxProgramInfo_ty); ("UProbe", TPtr UprobeProgramInfo_ty);
    ("URetProbe", TPtr UprobeProgramInfo_ty)].
Definition BpfApplicationProgram_DeepCopyInto : copier := struct_copy [
    ("XDP", new_copy XdpProgramInfo_DeepCopyInto); ("TC", new_copy TcProgramInfo_DeepCopyInto);
    ("TCX", new_copy TcxProgramInfo_DeepCopyInto);
    ("UProbe", new_copy UprobeProgramInfo_DeepCopyInto);
    ("URetProbe", new_copy UprobeProgramInfo_DeepCopyInto)].
Definition BpfApplicationProgram_DeepCopy : copier := new_copy BpfApplicationProgram_DeepCopyInto.

Definition BpfApplicationSpec_ty : ty := TStruct [("BpfAppCommon", BpfAppCommon_ty);
    ("Programs", TSlice BpfApplicationProgram_ty)].
Definition BpfApplicationSpec_DeepCopyInto : copier := struct_copy [
    ("BpfAppCommon", BpfAppCommon_DeepCopyInto);
    ("Programs", slice_copy BpfApplicationProgram_DeepCopyInto)].
Definition BpfApplicationSpec_DeepCopy : copier := new_copy BpfApplicationSpec_DeepCopyInto.

Definition BpfApplication_ty : ty := TStruct [("TypeMeta", TypeMeta_ty);
    ("ObjectMeta", ObjectMeta_ty); ("Spec", BpfApplicationSpec_ty); ("Status", BpfAppStatus_ty)].
Definition BpfApplication_DeepCopyInto : copier := struct_copy [("TypeMeta", assign);
    ("ObjectMeta", ObjectMeta_DeepCopyInto); ("Spec", BpfApplicationSpec_DeepCopyInto);
    ("Status", BpfAppStatus_DeepCopyInto)].
Definition BpfApplication_DeepCopy : copier := new_copy BpfApplication_DeepCopyInto.
Definition BpfApplication_DeepCopyObject : val → HeapM (option val) :=
  copy_object BpfApplication_DeepCopy.

Definition BpfApplicationList_ty : ty := TStruct [("TypeMeta", TypeMeta_ty);
    ("ListMeta", ListMeta_ty); ("Items", TSlice BpfApplication_ty)].
Definition BpfApplicationList_DeepCopyInto : copier := struct_copy [("TypeMeta", assign);
    ("ListMeta", ListMeta_DeepCopyInto); ("Items", slice_copy BpfApplication_DeepCopyInto)].
Definition BpfApplicationList_DeepCopy : copier := new_copy BpfApplicationList_DeepCopyInto.
Definition BpfApplicationList_DeepCopyObject : val → HeapM (option val) :=
  copy_object BpfApplicationList_DeepCopy.

Definition BpfProgramStateCommon_ty : ty := TStruct [("Name", TPlain);
    ("ProgramLinkStatus", TPlain); ("ProgramId", TPtr TPlain)].
Definition BpfProgramStateCommon_DeepCopyInto : copier := struct_copy [
    ("ProgramId", new_copy assign)].
Definition BpfProgramStateCommon_DeepCopy : copier := new_copy BpfProgramStateCommon_DeepCopyInto.

Definition XdpAttachInfoState_ty : ty := TStruct [
    ("AttachInfoStateCommon", AttachInfoStateCommon_ty); ("InterfaceName", TPlain);
    ("NetnsPath", TPlain); ("Priority", TPlain); ("ProceedOn", TSlice TPlain)].
Definition XdpAttachInfoState_DeepCopyInto : copier := struct_copy [
    ("AttachInfoStateCommon", AttachInfoStateCommon_DeepCopyInto);
    ("ProceedOn", slice_copy assign)].
Definition XdpAttachInfoState_DeepCopy : copier := new_copy XdpAttachInfoState_DeepCopyInto.

Definition XdpProgramInfoState_ty : ty := TStruct [("Links", TSlice XdpAttachInfoState_ty)].
Definition XdpProgramInfoState_DeepCopyInto : copier := struct_copy [
    ("Links", slice_copy XdpAttachInfoState_DeepCopyInto)].
Definition XdpProgramInfoState_DeepCopy : copier := new_copy XdpProgramInfoState_DeepCopyInto.

Definition TcAttachInfoState_ty : ty := TStruct [
    ("AttachInfoStateCommon", AttachInfoStateCommon_ty); ("InterfaceName", TPlain);
    ("NetnsPath", TPlain); ("Direction", TPlain); ("Priority", TPlain);
    ("ProceedOn", TSlice TPlain)].
Definition TcAttachInfoState_DeepCopyInto : copier := struct_copy [
    ("AttachInfoStateCommon", AttachInfoStateCommon_DeepCopyInto);
    ("ProceedOn", slice_copy assign)].
Definition TcAttachInfoState_DeepCopy : copier := new_copy TcAttachInfoState_DeepCopyInto.

Definition TcProgramInfoState_ty : ty := TStruct [("Links", TSlice TcAttachInfoState_ty)].
Definition TcProgramInfoState_DeepCopyInto : copier := struct_copy [
    ("Links", slice_copy TcAttachInfoState_DeepCopyInto)].
Definition TcProgramInfoState_DeepCopy : copier := new_copy TcProgramInfoState_DeepCopyInto.

Definition TcxAttachInfoState_ty : ty := TStruct [
    ("AttachInfoStateCommon", AttachInfoStateCommon_ty); ("InterfaceName", TPlain);
    ("NetnsPath", TPlain); ("Direction", TPlain); ("Priority", TPlain)].
Definition TcxAttachInfoState_DeepCopyInto : copier := struct_copy [
    ("AttachInfoStateCommon", AttachInfoStateCommon_DeepCopyInto)].
Definition TcxAttachInfoState_DeepCopy : copier := new_copy TcxAttachInfoState_DeepCopyInto.

Definition TcxProgramInfoState_ty : ty := TStruct [("Links", TSlice TcxAttachInfoState_ty)].
Definition TcxProgramInfoState_DeepCopyInto : copier := struct_copy [
    ("Links", slice_copy TcxAttachInfoState_DeepCopyInto)].
Definition TcxProgramInfoState_DeepCopy : copier := new_copy TcxProgramInfoState_DeepCopyInto.

Definition UprobeAttachInfoState_ty : ty := TStruct [
    ("AttachInfoStateCommon", AttachInfoStateCommon_ty); ("Function", TPlain); ("Offset", TPlain);
    ("Target", TPlain); ("Pid", TPtr TPlain); ("ContainerPid", TPlain)].
Definition UprobeAttachInfoState_DeepCopyInto : copier := struct_copy [
    ("AttachInfoStateCommon", AttachInfoStateCommon_DeepCopyInto); ("Pid", new_copy assign)].
Definition UprobeAttachInfoState_DeepCopy : copier := new_copy UprobeAttachInfoState_DeepCopyInto.

Definition UprobeProgramInfoState_ty : ty := TStruct [("Links", TSlice UprobeAttachInfoState_ty)].
Definition UprobeProgramInfoState_DeepCopyInto : copier := struct_copy [
    ("Links", slice_copy UprobeAttachInfoState_DeepCopyInto)].
Definition UprobeProgramInfoState_DeepCopy : copier := new_copy UprobeProgramInfoState_DeepCopyInto.

Definition BpfApplicationProgramState_ty : ty := TStruct [
    ("BpfProgramStateCommon", BpfProgramStateCommon_ty); ("Type", TPlain);
    ("XDP", TPtr XdpProgramInfoState_ty); ("TC", TPtr TcProgramInfoState_ty);
    ("TCX", TPtr TcxProgramInfoState_ty); ("UProbe", TPtr UprobeProgramInfoState_ty);
    ("URetProbe", TPtr UprobeProgramInfoState_ty)].
Definition BpfApplicationProgramState_DeepCopyInto : copier := struct_copy [
    ("BpfProgramStateCommon", BpfProgramStateCommon_DeepCopyInto);
    ("XDP", new_copy XdpProgramInfoState_DeepCopyInto);
    ("TC", new_copy TcProgramInfoState_DeepCopyInto);
    ("TCX", new_copy TcxProgramInfoState_DeepCopyInto);
    ("UProbe", new_copy UprobeProgramInfoState_DeepCopyInto);
    ("URetProbe", new_copy UprobeProgramInfoState_DeepCopyInto)].
Definition BpfApplicationProgramState_DeepCopy : copier := new_copy BpfApplicationProgramState_DeepCopyInto.

Definition BpfApplicationStateStatus_ty : ty := TStruct [("UpdateCount", TPlain);
    ("Node", TPlain); ("AppLoadStatus", TPlain);
    ("Programs", TSlice BpfApplicationProgramState_ty); ("Conditions", TSlice Condition_ty)].
Definition BpfApplicationStateStatus_DeepCopyInto : copier := struct_copy [
    ("Programs", slice_copy BpfApplicationProgramState_DeepCopyInto);
    ("Conditions", slice_copy Condition_DeepCopyInto)].
Definition BpfApplicationStateStatus_DeepCopy : copier := new_copy BpfApplicationStateStatus_DeepCopyInto.

Definition BpfApplicationState_ty : ty := TStruct [("TypeMeta", TypeMeta_ty);
    ("ObjectMeta", ObjectMeta_ty); ("Status", BpfApplicationStateStatus_ty)].
Definition BpfApplicationState_DeepCopyInto : copier := struct_copy [("TypeMeta", assign);
    ("ObjectMeta", ObjectMeta_DeepCopyInto); ("Status", BpfApplicationStateStatus_DeepCopyInto)].
Definition BpfApplicationState_DeepCopy : copier := new_copy BpfApplicationState_DeepCopyInto.
Definition BpfApplicationState_DeepCopyObject : val → HeapM (option val) :=
  copy_object BpfApplicationState_DeepCopy.

Definition BpfApplicationStateList_ty : ty := TStruct [("TypeMeta", TypeMeta_ty);
    ("ListMeta", ListMeta_ty); ("Items", TSlice BpfApplicationState_ty)].
Definition BpfApplicationStateList_DeepCopyInto : copier := struct_copy [("TypeMeta", assign);
    ("ListMeta", ListMeta_DeepCopyInto); ("Items", slice_copy BpfApplicationState_DeepCopyInto)].
Definition BpfApplicationStateList_DeepCopy : copier := new_copy BpfApplicationStateList_DeepCopyInto.
Definition BpfApplicationStateList_DeepCopyObject : val → HeapM (option val) :=
  copy_object BpfApplicationStateList_DeepCopy.

Definition ClNetworkNamespaceSelector_ty : ty := TStruct [("Namespace", TPlain);
    ("Pods", LabelSelector_ty)].
Definition ClNetworkNamespaceSelector_DeepCopyInto : copier := struct_copy [
    ("Pods", LabelSelector_DeepCopyInto)].
Definition ClNetworkNamespaceSelector_DeepCopy : copier := new_copy ClNetworkNamespaceSelector_DeepCopyInto.

Definition ClXdpAttachInfo_ty : ty := TStruct [("InterfaceSelector", InterfaceSelector_ty);
    ("NetworkNamespaces", TPtr ClNetworkNamespaceSelector_ty); ("Priority", TPtr TPlain);
    ("ProceedOn", TSlice TPlain)].
Definition ClXdpAttachInfo_DeepCopyInto : copier := struct_copy [
    ("InterfaceSelector", InterfaceSelector_DeepCopyInto);
    ("NetworkNamespaces", new_copy ClNetworkNamespaceSelector_DeepCopyInto);
    ("Priority", new_copy assign); ("ProceedOn", slice_copy assign)].
Definition ClXdpAttachInfo_DeepCopy : copier := new_copy ClXdpAttachInfo_DeepCopyInto.

Definition ClXdpProgramInfo_ty : ty := TStruct [("Links", TSlice ClXdpAttachInfo_ty)].
Definition ClXdpProgramInfo_DeepCopyInto : copier := struct_copy [
    ("Links", slice_copy ClXdpAttachInfo_DeepCopyInto)].
Definition ClXdpProgramInfo_DeepCopy : copier := new_copy ClXdpProgramInfo_DeepCopyInto.

Definition ClTcAttachInfo_ty : ty := TStruct [("InterfaceSelector", InterfaceSelector_ty);
    ("NetworkNamespaces", TPtr ClNetworkNamespaceSelector_ty); ("Direction", TPlain);
    ("Priority", TPtr TPlain); ("ProceedOn", TSlice TPlain)].
Definition ClTcAttachInfo_DeepCopyInto : copier := struct_copy [
    ("InterfaceSelector", InterfaceSelector_DeepCopyInto);
    ("NetworkNamespaces", new_copy ClNetworkNamespaceSelector_DeepCopyInto);
    ("Priority", new_copy assign); ("ProceedOn", slice_copy assign)].
Definition ClTcAttachInfo_DeepCopy : copier := new_copy ClTcAttachInfo_DeepCopyInto.

Definition ClTcProgramInfo_ty : ty := TStruct [("Links", TSlice ClTcAttachInfo_ty)].
Definition ClTcProgramInfo_DeepCopyInto : copier := struct_copy [
    ("Links", slice_copy ClTcAttachInfo_DeepCopyInto)].
Definition ClTcProgramInfo_DeepCopy : copier := new_copy ClTcProgramInfo_DeepCopyInto.

Definition ClTcxAttachInfo_ty : ty := TStruct [("InterfaceSelector", InterfaceSelector_ty);
    ("NetworkNamespaces", TPtr ClNetworkNamespaceSelector_ty); ("Direction", TPlain);
    ("Priority", TPtr TPlain)].
Definition ClTcxAttachInfo_DeepCopyInto : copier := struct_copy [
    ("InterfaceSelector", InterfaceSelector_DeepCopyInto);
    ("NetworkNamespaces", new_copy ClNetworkNamespaceSelector_DeepCopyInto);
    ("Priority", new_copy assign)].
Definition ClTcxAttachInfo_DeepCopy : copier := new_copy ClTcxAttachInfo_DeepCopyInto.

Definition ClTcxProgramInfo_ty : ty := TStruct [("Links", TSlice ClTcxAttachInfo_ty)].
Definition ClTcxProgramInfo_DeepCopyInto : copier := struct_copy [
    ("Links", slice_copy ClTcxAttachInfo_DeepCopyInto)].
Definition ClTcxProgramInfo_DeepCopy : copier := new_copy ClTcxProgramInfo_DeepCopyInto.

Definition ClFentryLoadInfo_ty : ty := TStruct [("Function", TPlain)].
Definition ClFentryLoadInfo_DeepCopyInto : copier := struct_copy [].
Definition ClFentryLoadInfo_DeepCopy : copier := new_copy ClFentryLoadInfo_DeepCopyInto.

Definition ClFentryAttachInfo_ty : ty := TStruct [("Mode", TPlain)].
Definition ClFentryAttachInfo_DeepCopyInto : copier := struct_copy [].
Definition ClFentryAttachInfo_DeepCopy : copier := new_copy ClFentryAttachInfo_DeepCopyInto.

Definition ClFentryProgramInfo_ty : ty := TStruct [("ClFentryLoadInfo", ClFentryLoadInfo_ty);
    ("Links", TSlice ClFentryAttachInfo_ty)].
Definition ClFentryProgramInfo_DeepCopyInto : copier := struct_copy [("ClFentryLoadInfo", assign);
    ("Links", slice_copy assign)].
Definition ClFentryProgramInfo_DeepCopy : copier := new_copy ClFentryProgramInfo_DeepCopyInto.

Definition ClFexitLoadInfo_ty : ty := TStruct [("Function", TPlain)].
Definition ClFexitLoadInfo_DeepCopyInto : copier := struct_copy [].
Definition ClFexitLoadInfo_DeepCopy : copier := new_copy ClFexitLoadInfo_DeepCopyInto.

Definition ClFexitAttachInfo_ty : ty := TStruct [("Mode", TPlain)].
Definition ClFexitAttachInfo_DeepCopyInto : copier := struct_copy [].
Definition ClFexitAttachInfo_DeepCopy : copier := new_copy ClFexitAttachInfo_DeepCopyInto.

Definition ClFexitProgramInfo_ty : ty := TStruct [("ClFexitLoadInfo", ClFexitLoadInfo_ty);
    ("Links", TSlice ClFexitAttachInfo_ty)].
Definition ClFexitProgramInfo_DeepCopyInto : copier := struct_copy [("ClFexitLoadInfo", assign);
    ("Links", slice_copy assign)].
Definition ClFexitProgramInfo_DeepCopy : copier := new_copy ClFexitProgramInfo_DeepCopyInto.

Definition ClKprobeAttachInfo_ty : ty := TStruct [("Function", TPlain); ("Offset", TPlain)].
Definition ClKprobeAttachInfo_DeepCopyInto : copier := struct_copy [].
Definition ClKprobeAttachInfo_DeepCopy : copier := new_copy ClKprobeAttachInfo_DeepCopyInto.

Definition ClKprobeProgramInfo_ty : ty := TStruct [("Links", TSlice ClKprobeAttachInfo_ty)].
Definition ClKprobeProgramInfo_DeepCopyInto : copier := struct_copy [
    ("Links", slice_copy assign)].
Definition ClKprobeProgramInfo_DeepCopy : copier := new_copy ClKprobeProgramInfo_DeepCopyInto.

Definition ClKretprobeAttachInfo_ty : ty := TStruct [("Function", TPlain)].
Definition ClKretprobeAttachInfo_DeepCopyInto : copier := struct_copy [].
Definition ClKretprobeAttachInfo_DeepCopy : copier := new_copy ClKretprobeAttachInfo_DeepCopyInto.

Definition ClKretprobeProgramInfo_ty : ty := TStruct [("Links", TSlice ClKretprobeAttachInfo_ty)].
Definition ClKretprobeProgramInfo_DeepCopyInto : copier := struct_copy [
    ("Links", slice_copy assign)].
Definition ClKretprobeProgramInfo_DeepCopy : copier := new_copy ClKretprobeProgramInfo_DeepCopyInto.

Definition ClContainerSelector_ty : ty := TStruct [("Namespace", TPlain);
    ("Pods", LabelSelector_ty); ("ContainerNames", TSlice TPlain)].
Definition ClContainerSelector_DeepCopyInto : copier := struct_copy [
    ("Pods", LabelSelector_DeepCopyInto); ("ContainerNames", slice_copy assign)].
Definition ClContainerSelector_DeepCopy : copier := new_copy ClContainerSelector_DeepCopyInto.

Definition ClUprobeAttachInfo_ty : ty := TStruct [("Function", TPlain); ("Offset", TPlain);
    ("Target", TPlain); ("Pid", TPtr TPlain); ("Containers", TPtr ClContainerSelector_ty)].
Definition ClUprobeAttachInfo_DeepCopyInto : copier := struct_copy [("Pid", new_copy assign);
    ("Containers", new_copy ClContainerSelector_DeepCopyInto)].
Definition ClUprobeAttachInfo_DeepCopy : copier := new_copy ClUprobeAttachInfo_DeepCopyInto.

Definition ClUprobeProgramInfo_ty : ty := TStruct [("Links", TSlice ClUprobeAttachInfo_ty)].
Definition ClUprobeProgramInfo_DeepCopyInto : copier := struct_copy [
    ("Links", slice_copy ClUprobeAttachInfo_DeepCopyInto)].
Definition ClUprobeProgramInfo_DeepCopy : copier := new_copy ClUprobeProgramInfo_DeepCopyInto.

Definition ClTracepointAttachInfo_ty : ty := TStruct [("Name", TPlain)].
Definition ClTracepointAttachInfo_DeepCopyInto : copier := struct_copy [].
Definition ClTracepointAttachInfo_DeepCopy : copier := new_copy ClTracepointAttachInfo_DeepCopyInto.

Definition ClTracepointProgramInfo_ty : ty := TStruct [
    ("Links", TSlice ClTracepointAttachInfo_ty)].
Definition ClTracepointProgramInfo_DeepCopyInto : copier := struct_copy [
    ("Links", slice_copy assign)].
Definition ClTracepointProgramInfo_DeepCopy : copier := new_copy ClTracepointProgramInfo_DeepCopyInto.

Definition ClBpfApplicationProgram_ty : ty := TStruct [("Name", TPlain); ("Type", TPlain);
    ("XDP", TPtr ClXdpProgramInfo_ty); ("TC", TPtr ClTcProgramInfo_ty);
    ("TCX", TPtr ClTcxProgramInfo_ty); ("FEntry", TPtr ClFentryProgramInfo_ty);
    ("FExit", TPtr ClFexitProgramInfo_ty); ("KProbe", TPtr ClKprobeProgramInfo_ty);
    ("KRetProbe", TPtr ClKretprobeProgramInfo_ty); ("UProbe", TPtr ClUprobeProgramInfo_ty);
    ("URetProbe", TPtr ClUprobeProgramInfo_ty); ("TracePoint", TPtr ClTracepointProgramInfo_ty)].
Definition ClBpfApplicationProgram_DeepCopyInto : copier := struct_copy [
    ("XDP", new_copy ClXdpProgramInfo_DeepCopyInto);
    ("TC", new_copy ClTcProgramInfo_DeepCopyInto);
    ("TCX", new_copy ClTcxProgramInfo_DeepCopyInto);
    ("FEntry", new_copy ClFentryProgramInfo_DeepCopyInto);
    ("FExit", new_copy ClFexitProgramInfo_DeepCopyInto);
    ("KProbe", new_copy ClKprobeProgramInfo_DeepCopyInto);
    ("KRetProbe", new_copy ClKretprobeProgramInfo_DeepCopyInto);
    ("UProbe", new_copy ClUprobeProgramInfo_DeepCopyInto);
    ("URetProbe", new_copy ClUprobeProgramInfo_DeepCopyInto);
    ("TracePoint", new_copy ClTracepointProgramInfo_DeepCopyInto)].
Definition ClBpfApplicationProgram_DeepCopy : copier := new_copy ClBpfApplicationProgram_DeepCopyInto.

Definition ClXdpAttachInfoState_ty : ty := TStruct [
    ("AttachInfoStateCommon", AttachInfoStateCommon_ty); ("InterfaceName", TPlain);
    ("NetnsPath", TPlain); ("Priority", TPlain); ("ProceedOn", TSlice TPlain)].
Definition ClXdpAttachInfoState_DeepCopyInto : copier := struct_copy [
    ("AttachInfoStateCommon", AttachInfoStateCommon_DeepCopyInto);
    ("ProceedOn", slice_copy assign)].
Definition ClXdpAttachInfoState_DeepCopy : copier := new_copy ClXdpAttachInfoState_DeepCopyInto.

Definition ClXdpProgramInfoState_ty : ty := TStruct [("Links", TSlice ClXdpAttachInfoState_ty)].
Definition ClXdpProgramInfoState_DeepCopyInto : copier := struct_copy [
    ("Links", slice_copy ClXdpAttachInfoState_DeepCopyInto)].
Definition ClXdpProgramInfoState_DeepCopy : copier := new_copy ClXdpProgramInfoState_DeepCopyInto.

Definition ClTcAttachInfoState_ty : ty := TStruct [
    ("AttachInfoStateCommon", AttachInfoStateCommon_ty); ("InterfaceName", TPlain);
    ("NetnsPath", TPlain); ("Direction", TPlain); ("Priority", TPlain);
    ("ProceedOn", TSlice TPlain)].
Definition ClTcAttachInfoState_DeepCopyInto : copier := struct_copy [
    ("AttachInfoStateCommon", AttachInfoStateCommon_DeepCopyInto);
    ("ProceedOn", slice_copy assign)].
Definition ClTcAttachInfoState_DeepCopy : copier := new_copy ClTcAttachInfoState_DeepCopyInto.

Definition ClTcProgramInfoState_ty : ty := TStruct [("Links", TSlice ClTcAttachInfoState_ty)].
Definition ClTcProgramInfoState_DeepCopyInto : copier := struct_copy [
    ("Links", slice_copy ClTcAttachInfoState_DeepCopyInto)].
Definition ClTcProgramInfoState_DeepCopy : copier := new_copy ClTcProgramInfoState_DeepCopyInto.

Definition ClTcxAttachInfoState_ty : ty := TStruct [
    ("AttachInfoStateCommon", AttachInfoStateCommon_ty); ("InterfaceName", TPlain);
    ("NetnsPath", TPlain); ("Direction", TPlain); ("Priority", TPlain)].
Definition ClTcxAttachInfoState_DeepCopyInto : copier := struct_copy [
    ("AttachInfoStateCommon", AttachInfoStateCommon_DeepCopyInto)].
Definition ClTcxAttachInfoState_DeepCopy : copier := new_copy ClTcxAttachInfoState_DeepCopyInto.

Definition ClTcxProgramInfoState_ty : ty := TStruct [("Links", TSlice ClTcxAttachInfoState_ty)].
Definition ClTcxProgramInfoState_DeepCopyInto : copier := struct_copy [
    ("Links", slice_copy ClTcxAttachInfoState_DeepCopyInto)].
Definition ClTcxProgramInfoState_DeepCopy : copier := new_copy ClTcxProgramInfoState_DeepCopyInto.

Definition ClFentryAttachInfoState_ty : ty := TStruct [
    ("AttachInfoStateCommon", AttachInfoStateCommon_ty)].
Definition ClFentryAttachInfoState_DeepCopyInto : copier := struct_copy [
    ("AttachInfoStateCommon", AttachInfoStateCommon_DeepCopyInto)].
Definition ClFentryAttachInfoState_DeepCopy : copier := new_copy ClFentryAttachInfoState_DeepCopyInto.

Definition ClFentryProgramInfoState_ty : ty := TStruct [("ClFentryLoadInfo", ClFentryLoadInfo_ty);
    ("Links", TSlice ClFentryAttachInfoState_ty)].
Definition ClFentryProgramInfoState_DeepCopyInto : copier := struct_copy [
    ("ClFentryLoadInfo", assign); ("Links", slice_copy ClFentryAttachInfoState_DeepCopyInto)].
Definition ClFentryProgramInfoState_DeepCopy : copier := new_copy ClFentryProgramInfoState_DeepCopyInto.

Definition ClFexitAttachInfoState_ty : ty := TStruct [
    ("AttachInfoStateCommon", AttachInfoStateCommon_ty)].
Definition ClFexitAttachInfoState_DeepCopyInto : copier := struct_copy [
    ("AttachInfoStateCommon", AttachInfoStateCommon_DeepCopyInto)].
Definition ClFexitAttachInfoState_DeepCopy : copier := new_copy ClFexitAttachInfoState_DeepCopyInto.

Definition ClFexitProgramInfoState_ty : ty := TStruct [("ClFexitLoadInfo", ClFexitLoadInfo_ty);
    ("Links", TSlice ClFexitAttachInfoState_ty)].
Definition ClFexitProgramInfoState_DeepCopyInto : copier := struct_copy [
    ("ClFexitLoadInfo", assign); ("Links", slice_copy ClFexitAttachInfoState_DeepCopyInto)].
Definition ClFexitProgramInfoState_DeepCopy : copier := new_copy ClFexitProgramInfoState_DeepCopyInto.

Definition ClKprobeAttachInfoState_ty : ty := TStruct [
    ("AttachInfoStateCommon", AttachInfoStateCommon_ty); ("Function", TPlain);
    ("Offset", TPlain)].
Definition ClKprobeAttachInfoState_DeepCopyInto : copier := struct_copy [
    ("AttachInfoStateCommon", AttachInfoStateCommon_DeepCopyInto)].
Definition ClKprobeAttachInfoState_DeepCopy : copier := new_copy ClKprobeAttachInfoState_DeepCopyInto.

Definition ClKprobeProgramInfoState_ty : ty := TStruct [
    ("Links", TSlice ClKprobeAttachInfoState_ty)].
Definition ClKprobeProgramInfoState_DeepCopyInto : copier := struct_copy [
    ("Links", slice_copy ClKprobeAttachInfoState_DeepCopyInto)].
Definition ClKprobeProgramInfoState_DeepCopy : copier := new_copy ClKprobeProgramInfoState_DeepCopyInto.

Definition ClKretprobeAttachInfoState_ty : ty := TStruct [
    ("AttachInfoStateCommon", AttachInfoStateCommon_ty); ("Function", TPlain)].
Definition ClKretprobeAttachInfoState_DeepCopyInto : copier := struct_copy [
    ("AttachInfoStateCommon", AttachInfoStateCommon_DeepCopyInto)].
Definition ClKretprobeAttachInfoState_DeepCopy : copier := new_copy ClKretprobeAttachInfoState_DeepCopyInto.

Definition ClKretprobeProgramInfoState_ty : ty := TStruct [
    ("Links", TSlice ClKretprobeAttachInfoState_ty)].
Definition ClKretprobeProgramInfoState_DeepCopyInto : copier := struct_copy [
    ("Links", slice_copy ClKretprobeAttachInfoState_DeepCopyInto)].
Definition ClKretprobeProgramInfoState_DeepCopy : copier := new_copy ClKretprobeProgramInfoState_DeepCopyInto.

Definition ClUprobeAttachInfoState_ty : ty := TStruct [
    ("AttachInfoStateCommon", AttachInfoStateCommon_ty); ("Function", TPlain); ("Offset", TPlain);
    ("Target", TPlain); ("Pid", TPtr TPlain); ("ContainerPid", TPtr TPlain)].
Definition ClUprobeAttachInfoState_DeepCopyInto : copier := struct_copy [
    ("AttachInfoStateCommon", AttachInfoStateCommon_DeepCopyInto); ("Pid", new_copy assign);
    ("ContainerPid", new_copy assign)].
Definition ClUprobeAttachInfoState_DeepCopy : copier := new_copy ClUprobeAttachInfoState_DeepCopyInto.

Definition ClUprobeProgramInfoState_ty : ty := TStruct [
    ("Links", TSlice ClUprobeAttachInfoState_ty)].
Definition ClUprobeProgramInfoState_DeepCopyInto : copier := struct_copy [
    ("Links", slice_copy ClUprobeAttachInfoState_DeepCopyInto)].
Definition ClUprobeProgramInfoState_DeepCopy : copier := new_copy ClUprobeProgramInfoState_DeepCopyInto.

Definition ClTracepointAttachInfoState_ty : ty := TStruct [
    ("AttachInfoStateCommon", AttachInfoStateCommon_ty); ("Name", TPlain)].
Definition ClTracepointAttachInfoState_DeepCopyInto : copier := struct_copy [
    ("AttachInfoStateCommon", AttachInfoStateCommon_DeepCopyInto)].
Definition ClTracepointAttachInfoState_DeepCopy : copier := new_copy ClTracepointAttachInfoState_DeepCopyInto.

Definition ClTracepointProgramInfoState_ty : ty := TStruct [
    ("Links", TSlice ClTracepointAttachInfoState_ty)].
Definition ClTracepointProgramInfoState_DeepCopyInto : copier := struct_copy [
    ("Links", slice_copy ClTracepointAttachInfoState_DeepCopyInto)].
Definition ClTracepointProgramInfoState_DeepCopy : copier :=
  new_copy ClTracepointProgramInfoState_DeepCopyInto.

Definition ClBpfApplicationProgramState_ty : ty := TStruct [
    ("BpfProgramStateCommon", BpfProgramStateCommon_ty); ("Type", TPlain);
    ("XDP", TPtr ClXdpProgramInfoState_ty); ("TC", TPtr ClTcProgramInfoState_ty);
    ("TCX", TPtr ClTcxProgramInfoState_ty); ("FEntry", TPtr ClFentryProgramInfoState_ty);
    ("FExit", TPtr ClFexitProgramInfoState_ty); ("KProbe", TPtr ClKprobeProgramInfoState_ty);
    ("KRetProbe", TPtr ClKretprobeProgramInfoState_ty);
    ("UProbe", TPtr ClUprobeProgramInfoState_ty); ("URetProbe", TPtr ClUprobeProgramInfoState_ty);
    ("TracePoint", TPtr ClTracepointProgramInfoState_ty)].
Definition ClBpfApplicationProgramState_DeepCopyInto : copier := struct_copy [
    ("BpfProgramStateCommon", BpfProgramStateCommon_DeepCopyInto);
    ("XDP", new_copy ClXdpProgramInfoState_DeepCopyInto);
    ("TC", new_copy ClTcProgramInfoState_DeepCopyInto);
    ("TCX", new_copy ClTcxProgramInfoState_DeepCopyInto);
    ("FEntry", new_copy ClFentryProgramInfoState_DeepCopyInto);
    ("FExit", new_copy ClFexitProgramInfoState_DeepCopyInto);
    ("KProbe", new_copy ClKprobeProgramInfoState_DeepCopyInto);
    ("KRetProbe", new_copy ClKretprobeProgramInfoState_DeepCopyInto);
    ("UProbe", new_copy ClUprobeProgramInfoState_DeepCopyInto);
    ("URetProbe", new_copy ClUprobeProgramInfoState_DeepCopyInto);
    ("TracePoint", new_copy ClTracepointProgramInfoState_DeepCopyInto)].
Definition ClBpfApplicationProgramState_DeepCopy : copier :=
  new_copy ClBpfApplicationProgramState_DeepCopyInto.

Definition ClBpfApplicationSpec_ty : ty := TStruct [("BpfAppCommon", BpfAppCommon_ty);
    ("Programs", TSlice ClBpfApplicationProgram_ty)].
Definition ClBpfApplicationSpec_DeepCopyInto : copier := struct_copy [
    ("BpfAppCommon", BpfAppCommon_DeepCopyInto);
    ("Programs", slice_copy ClBpfApplicationProgram_DeepCopyInto)].
Definition ClBpfApplicationSpec_DeepCopy : copier := new_copy ClBpfApplicationSpec_DeepCopyInto.

Definition ClBpfApplicationStateStatus_ty : ty := TStruct [("UpdateCount", TPlain);
    ("Node", TPlain); ("AppLoadStatus", TPlain);
    ("Programs", TSlice ClBpfApplicationProgramState_ty); ("Conditions", TSlice Condition_ty)].
Definition ClBpfApplicationStateStatus_DeepCopyInto : copier := struct_copy [
    ("Programs", slice_copy ClBpfApplicationProgramState_DeepCopyInto);
    ("Conditions", slice_copy Condition_DeepCopyInto)].
Definition ClBpfApplicationStateStatus_DeepCopy : copier := new_copy ClBpfApplicationStateStatus_DeepCopyInto.

Definition ClusterBpfApplication_ty : ty := TStruct [("TypeMeta", TypeMeta_ty);
    ("ObjectMeta", ObjectMeta_ty); ("Spec", ClBpfApplicationSpec_ty);
    ("Status", BpfAppStatus_ty)].
Definition ClusterBpfApplication_DeepCopyInto : copier := struct_copy [("TypeMeta", assign);
    ("ObjectMeta", ObjectMeta_DeepCopyInto); ("Spec", ClBpfApplicationSpec_DeepCopyInto);
    ("Status", BpfAppStatus_DeepCopyInto)].
Definition ClusterBpfApplication_DeepCopy : copier := new_copy ClusterBpfApplication_DeepCopyInto.
Definition ClusterBpfApplication_DeepCopyObject : val → HeapM (option val) :=
  copy_object ClusterBpfApplication_DeepCopy.

Definition ClusterBpfApplicationList_ty : ty := TStruct [("TypeMeta", TypeMeta_ty);
    ("ListMeta", ListMeta_ty); ("Items", TSlice ClusterBpfApplication_ty)].
Definition ClusterBpfApplicationList_DeepCopyInto : copier := struct_copy [("TypeMeta", assign);
    ("ListMeta", ListMeta_DeepCopyInto);
    ("Items", slice_copy ClusterBpfApplication_DeepCopyInto)].
Definition ClusterBpfApplicationList_DeepCopy : copier := new_copy ClusterBpfApplicationList_DeepCopyInto.
Definition ClusterBpfApplicationList_DeepCopyObject : val → HeapM (option val) :=
  copy_object ClusterBpfApplicationList_DeepCopy.

Definition ClusterBpfApplicationState_ty : ty := TStruct [("TypeMeta", TypeMeta_ty);
    ("ObjectMeta", ObjectMeta_ty); ("Status", ClBpfApplicationStateStatus_ty)].
Definition ClusterBpfApplicationState_DeepCopyInto : copier := struct_copy [("TypeMeta", assign);
    ("ObjectMeta", ObjectMeta_DeepCopyInto);
    ("Status", ClBpfApplicationStateStatus_DeepCopyInto)].
Definition ClusterBpfApplicationState_DeepCopy : copier := new_copy ClusterBpfApplicationState_DeepCopyInto.
Definition ClusterBpfApplicationState_DeepCopyObject : val → HeapM (option val) :=
  copy_object ClusterBpfApplicationState_DeepCopy.

Definition ClusterBpfApplicationStateList_ty : ty := TStruct [("TypeMeta", TypeMeta_ty);
    ("ListMeta", ListMeta_ty); ("Items", TSlice ClusterBpfApplicationState_ty)].
Definition ClusterBpfApplicationStateList_DeepCopyInto : copier := struct_copy [
    ("TypeMeta", assign); ("ListMeta", ListMeta_DeepCopyInto);
    ("Items", slice_copy ClusterBpfApplicationState_DeepCopyInto)].
Definition ClusterBpfApplicationStateList_DeepCopy : copier :=
  new_copy ClusterBpfApplicationStateList_DeepCopyInto.
Definition ClusterBpfApplicationStateList_DeepCopyObject : val → HeapM (option val) :=
  copy_object ClusterBpfApplicationStateList_DeepCopy.

Definition ComponentOverride_ty : ty := TStruct [("APIVersion", TPlain); ("Kind", TPlain);
    ("Namespace", TPlain); ("Name", TPlain); ("Unmanaged", TPlain)].
Definition ComponentOverride_DeepCopyInto : copier := struct_copy [].
Definition ComponentOverride_DeepCopy : copier := new_copy ComponentOverride_DeepCopyInto.

Definition DaemonSpec_ty : ty := TStruct [("CsiRegistrarImage", TPlain); ("Image", TPlain);
    ("LogLevel", TPlain)].
Definition DaemonSpec_DeepCopyInto : copier := struct_copy [].
Definition DaemonSpec_DeepCopy : copier := new_copy DaemonSpec_DeepCopyInto.

Definition ConfigSpec_ty : ty := TStruct [("Agent", AgentSpec_ty); ("Configuration", TPlain);
    ("Daemon", DaemonSpec_ty); ("Namespace", TPlain); ("Overrides", TSlice ComponentOverride_ty)].
Definition ConfigSpec_DeepCopyInto : copier := struct_copy [("Agent", assign); ("Daemon", assign);
    ("Overrides", slice_copy assign)].
Definition ConfigSpec_DeepCopy : copier := new_copy ConfigSpec_DeepCopyInto.

Definition ConfigStatus_ty : ty := TStruct [("Conditions", TSlice Condition_ty)].
Definition ConfigStatus_DeepCopyInto : copier := struct_copy [
    ("Conditions", slice_copy Condition_DeepCopyInto)].
Definition ConfigStatus_DeepCopy : copier := new_copy ConfigStatus_DeepCopyInto.

Definition Config_ty : ty := TStruct [("TypeMeta", TypeMeta_ty); ("ObjectMeta", ObjectMeta_ty);
    ("Spec", ConfigSpec_ty); ("Status", ConfigStatus_ty)].
Definition Config_DeepCopyInto : copier := struct_copy [("TypeMeta", assign);
    ("ObjectMeta", ObjectMeta_DeepCopyInto); ("Spec", ConfigSpec_DeepCopyInto);
    ("Status", ConfigStatus_DeepCopyInto)].
Definition Config_DeepCopy : copier := new_copy Config_DeepCopyInto.
Definition Config_DeepCopyObject : val → HeapM (option val) :=
  copy_object Config_DeepCopy.

Definition ConfigList_ty : ty := TStruct [("TypeMeta", TypeMeta_ty); ("ListMeta", ListMeta_ty);
    ("Items", TSlice Config_ty)].
Definition ConfigList_DeepCopyInto : copier := struct_copy [("TypeMeta", assign);
    ("ListMeta", ListMeta_DeepCopyInto); ("Items", slice_copy Config_DeepCopyInto)].
Definition ConfigList_DeepCopy : copier := new_copy ConfigList_DeepCopyInto.
Definition ConfigList_DeepCopyObject : val → HeapM (option val) :=
  copy_object ConfigList_DeepCopy.

(** All of them, and the objects of the API server among them. *)
Definition copiers : list (ty * copier) :=
  [(AgentSpec_ty, AgentSpec_DeepCopyInto);
   (AttachInfoStateCommon_ty, AttachInfoStateCommon_DeepCopyInto);
   (ImagePullSecretSelector_ty, ImagePullSecretSelector_DeepCopyInto);
   (ByteCodeImage_ty, ByteCodeImage_DeepCopyInto);
   (ByteCodeSelector_ty, ByteCodeSelector_DeepCopyInto);
   (BpfAppCommon_ty, BpfAppCommon_DeepCopyInto);
   (BpfAppStatus_ty, BpfAppStatus_DeepCopyInto);
   (InterfaceDiscovery_ty, InterfaceDiscovery_DeepCopyInto);
   (InterfaceSelector_ty, InterfaceSelector_DeepCopyInto);
   (NetworkNamespaceSelector_ty, NetworkNamespaceSelector_DeepCopyInto);
   (XdpAttachInfo_ty, XdpAttachInfo_DeepCopyInto);
   (XdpProgramInfo_ty, XdpProgramInfo_DeepCopyInto);
   (TcAttachInfo_ty, TcAttachInfo_DeepCopyInto);
   (TcProgramInfo_ty, TcProgramInfo_DeepCopyInto);
   (TcxAttachInfo_ty, TcxAttachInfo_DeepCopyInto);
   (TcxProgramInfo_ty, TcxProgramInfo_DeepCopyInto);
   (ContainerSelector_ty, ContainerSelector_DeepCopyInto);
   (UprobeAttachInfo_ty, UprobeAttachInfo_DeepCopyInto);
   (UprobeProgramInfo_ty, UprobeProgramInfo_DeepCopyInto);
   (BpfApplicationProgram_ty, BpfApplicationProgram_DeepCopyInto);
   (BpfApplicationSpec_ty, BpfApplicationSpec_DeepCopyInto);
   (BpfApplication_ty, BpfApplication_DeepCopyInto);
   (BpfApplicationList_ty, BpfApplicationList_DeepCopyInto);
   (BpfProgramStateCommon_ty, BpfProgramStateCommon_DeepCopyInto);
   (XdpAttachInfoState_ty, XdpAttachInfoState_DeepCopyInto);
   (XdpProgramInfoState_ty, XdpProgramInfoState_DeepCopyInto);
   (TcAttachInfoState_ty, TcAttachInfoState_DeepCopyInto);
   (TcProgramInfoState_ty, TcProgramInfoState_DeepCopyInto);
   (TcxAttachInfoState_ty, TcxAttachInfoState_DeepCopyInto);
   (TcxProgramInfoState_ty, TcxProgramInfoState_DeepCopyInto);
   (UprobeAttachInfoState_ty, UprobeAttachInfoState_DeepCopyInto);
   (UprobeProgramInfoState_ty, UprobeProgramInfoState_DeepCopyInto);
   (BpfApplicationProgramState_ty, BpfApplicationProgramState_DeepCopyInto);
   (BpfApplicationStateStatus_ty, BpfApplicationStateStatus_DeepCopyInto);
   (BpfApplicationState_ty, BpfApplicationState_DeepCopyInto);
   (BpfApplicationStateList_ty, BpfApplicationStateList_DeepCopyInto);
   (ClNetworkNamespaceSelector_ty, ClNetworkNamespaceSelector_DeepCopyInto);
   (ClXdpAttachInfo_ty, ClXdpAttachInfo_DeepCopyInto);
   (ClXdpProgramInfo_ty, ClXdpProgramInfo_DeepCopyInto);
   (ClTcAttachInfo_ty, ClTcAttachInfo_DeepCopyInto);
   (ClTcProgramInfo_ty, ClTcProgramInfo_DeepCopyInto);
   (ClTcxAttachInfo_ty, ClTcxAttachInfo_DeepCopyInto);
   (ClTcxProgramInfo_ty, ClTcxProgramInfo_DeepCopyInto);
   (ClFentryLoadInfo_ty, ClFentryLoadInfo_DeepCopyInto);
   (ClFentryAttachInfo_ty, ClFentryAttachInfo_DeepCopyInto);
   (ClFentryProgramInfo_ty, ClFentryProgramInfo_DeepCopyInto);
   (ClFexitLoadInfo_ty, ClFexitLoadInfo_DeepCopyInto);
   (ClFexitAttachInfo_ty, ClFexitAttachInfo_DeepCopyInto);
   (ClFexitProgramInfo_ty, ClFexitProgramInfo_DeepCopyInto);
   (ClKprobeAttachInfo_ty, ClKprobeAttachInfo_DeepCopyInto);
   (ClKprobeProgramInfo_ty, ClKprobeProgramInfo_DeepCopyInto);
   (ClKretprobeAttachInfo_ty, ClKretprobeAttachInfo_DeepCopyInto);
   (ClKretprobeProgramInfo_ty, ClKretprobeProgramInfo_DeepCopyInto);
   (ClContainerSelector_ty, ClContainerSelector_DeepCopyInto);
   (ClUprobeAttachInfo_ty, ClUprobeAttachInfo_DeepCopyInto);
   (ClUprobeProgramInfo_ty, ClUprobeProgramInfo_DeepCopyInto);
   (ClTracepointAttachInfo_ty, ClTracepointAttachInfo_DeepCopyInto);
   (ClTracepointProgramInfo_ty, ClTracepointProgramInfo_DeepCopyInto);
   (ClBpfApplicationProgram_ty, ClBpfApplicationProgram_DeepCopyInto);
   (ClXdpAttachInfoState_ty, ClXdpAttachInfoState_DeepCopyInto);
   (ClXdpProgramInfoState_ty, ClXdpProgramInfoState_DeepCopyInto);
   (ClTcAttachInfoState_ty, ClTcAttachInfoState_DeepCopyInto);
   (ClTcProgramInfoState_ty, ClTcProgramInfoState_DeepCopyInto);
   (ClTcxAttachInfoState_ty, ClTcxAttachInfoState_DeepCopyInto);
   (ClTcxProgramInfoState_ty, ClTcxProgramInfoState_DeepCopyInto);
   (ClFentryAttachInfoState_ty, ClFentryAttachInfoState_DeepCopyInto);
   (ClFentryProgramInfoState_ty, ClFentryProgramInfoState_DeepCopyInto);
   (ClFexitAttachInfoState_ty, ClFexitAttachInfoState_DeepCopyInto);
   (ClFexitProgramInfoState_ty, ClFexitProgramInfoState_DeepCopyInto);
   (ClKprobeAttachInfoState_ty, ClKprobeAttachInfoState_DeepCopyInto);
   (ClKprobeProgramInfoState_ty, ClKprobeProgramInfoState_DeepCopyInto);
   (ClKretprobeAttachInfoState_ty, ClKretprobeAttachInfoState_DeepCopyInto);
   (ClKretprobeProgramInfoState_ty, ClKretprobeProgramInfoState_DeepCopyInto);
   (ClUprobeAttachInfoState_ty, ClUprobeAttachInfoState_DeepCopyInto);
   (ClUprobeProgramInfoState_ty, ClUprobeProgramInfoState_DeepCopyInto);
   (ClTracepointAttachInfoState_ty, ClTracepointAttachInfoState_DeepCopyInto);
   (ClTracepointProgramInfoState_ty, ClTracepointProgramInfoState_DeepCopyInto);
   (ClBpfApplicationProgramState_ty, ClBpfApplicationProgramState_DeepCopyInto);
   (ClBpfApplicationSpec_ty, ClBpfApplicationSpec_DeepCopyInto);
   (ClBpfApplicationStateStatus_ty, ClBpfApplicationStateStatus_DeepCopyInto);
   (ClusterBpfApplication_ty, ClusterBpfApplication_DeepCopyInto);
   (ClusterBpfApplicationList_ty, ClusterBpfApplicationList_DeepCopyInto);
   (ClusterBpfApplicationState_ty, ClusterBpfApplicationState_DeepCopyInto);
   (ClusterBpfApplicationStateList_ty, ClusterBpfApplicationStateList_DeepCopyInto);
   (ComponentOverride_ty, ComponentOverride_DeepCopyInto);
   (DaemonSpec_ty, DaemonSpec_DeepCopyInto);
   (ConfigSpec_ty, ConfigSpec_DeepCopyInto);
   (ConfigStatus_ty, ConfigStatus_DeepCopyInto);
   (Config_ty, Config_DeepCopyInto);
   (ConfigList_ty, ConfigList_DeepCopyInto)].

Definition api_objects : list (ty * copier) :=
  [(BpfApplication_ty, BpfApplication_DeepCopyInto);
   (BpfApplicationList_ty, BpfApplicationList_DeepCopyInto);
   (BpfApplicationState_ty, BpfApplicationState_DeepCopyInto);
   (BpfApplicationStateList_ty, BpfApplicationStateList_DeepCopyInto);
   (ClusterBpfApplication_ty, ClusterBpfApplication_DeepCopyInto);
   (ClusterBpfApplicationList_ty, ClusterBpfApplicationList_DeepCopyInto);
   (ClusterBpfApplicationState_ty, ClusterBpfApplicationState_DeepCopyInto);
   (ClusterBpfApplicationStateList_ty, ClusterBpfApplicationStateList_DeepCopyInto);
   (Config_ty, Config_DeepCopyInto);
   (ConfigList_ty, ConfigList_DeepCopyInto)].
