(* ===== verification/DeepCopySpecs.v ===== *)
(** Every generated function copies deeply: it copies each field that refers to other memory,
    and no statement leaves one shared. *)

From S2P Require Import Prelude Heap HeapSpecs DeepCopy.
From stdpp Require Import options.

(** A generated function is looked up by its definition. *)
#[local] Hint Extern 3 (DeepCopies ?T ?f) =>
  (is_const T; unfold T; is_const f; unfold f; apply struct_copies) : typeclass_instances.

Lemma generated_copies : Forall (λ '(T, f), DeepCopies T f) copiers.
Proof. unfold copiers. repeat (constructor; [apply _|]). constructor. Qed.

(** C23: DeepCopy of every API type, given a pointer to a value of that type, returns a
    pointer to a value with the same contents in memory of its own: original and copy
    share no cell, both keep their contents, and neither is changed by any later write to
    the other. The agent compares the status that it has built with such a copy of the
    status it has read. *)
Theorem DeepCopy_isolates T f : (T, f) ∈ copiers → isolates (TPtr T) (new_copy f).
Proof.
  intros Hin. apply copies_isolates, new_copies. pose proof generated_copies as Hall.
  rewrite Forall_forall in Hall. exact (Hall _ Hin).
Qed.

(** DeepCopyObject of an object: nil for nil, else a copy. *)
Lemma objects_copied : Forall (λ '(T, f), DeepCopies T f) api_objects.
Proof. unfold api_objects. repeat (constructor; [apply _|]). constructor. Qed.

Lemma DeepCopyObject_nil f h : copy_object (new_copy f) (VPtr None) h = (Ret None, h).
Proof. done. Qed.

Lemma DeepCopyObject_copies T f h l t F :
  (T, f) ∈ api_objects → rep h (TPtr T) (VPtr (Some l)) t F →
  ∃ c h' F', copy_object (new_copy f) (VPtr (Some l)) h = (Ret (Some c), h') ∧
    rep h' (TPtr T) c t F' ∧ F ## F'.
Proof.
  intros Hin Hr. pose proof objects_copied as Hall. rewrite Forall_forall in Hall.
  specialize (Hall _ Hin). cbn in Hall. pose proof (new_copies T f Hall) as Hn.
  destruct (copies_isolates _ _ Hn h _ t F Hr) as (c & h' & F' & Hrun & _ & Hc & Hd & _).
  exists c, h', F'. split_and!; [|done..]. unfold copy_object.
  rewrite (run_bind _ _ _ _ _ Hrun). inversion Hc; subst; [|done]. by inversion Hr.
Qed.

(** ** A program state whose id is behind a pointer *)

Definition demo_heap : heap :=
  {[1%positive := Scalar (VStruct [("Name", VPlain (PString "xdp_pass"));
                                   ("ProgramLinkStatus", VPlain (PString "Pending"));
                                   ("ProgramId", VPtr (Some 2%positive))]);
    2%positive := Scalar (VPlain (PInt 1001))]}.

Definition demo_tree : tree :=
  TrPtr (TrStruct [("Name", TrPlain (PString "xdp_pass"));
                   ("ProgramLinkStatus", TrPlain (PString "Pending"));
                   ("ProgramId", TrPtr (TrPlain (PInt 1001)))]).

Lemma demo_rep :
  ∃ F, rep demo_heap (TPtr BpfProgramStateCommon_ty) (VPtr (Some 1%positive)) demo_tree F ∧
    2%positive ∈ F.
Proof. eexists. split; [repeat first [econstructor|done]|set_solver]. Defined.

(** The program id of the original is written through its pointer: the copy keeps 1001. *)
Lemma DeepCopy_isolates_witness :
  ∃ q h', BpfProgramStateCommon_DeepCopy (VPtr (Some 1%positive)) demo_heap = (Ret q, h') ∧
    ∃ F', rep (<[2%positive := Scalar (VPlain (PInt 7))]> h') (TPtr BpfProgramStateCommon_ty) q demo_tree F'.
Proof.
  destruct demo_rep as (F & Hr & H2).
  assert (Hin : (BpfProgramStateCommon_ty, BpfProgramStateCommon_DeepCopyInto) ∈ copiers)
    by (unfold copiers; repeat first [by left|right]).
  destruct (DeepCopy_isolates _ _ Hin demo_heap _ demo_tree F Hr)
    as (q & h' & F' & Hrun & Ho & Hc & Hd & Hkeep & _).
  exists q, h'. split; [exact Hrun|]. exists F'. apply Hkeep. intros l Hl.
  apply lookup_insert_ne. intros <-. exact (Hd 2%positive H2 Hl).
Defined.
