(* ===== verification/Mains.v ===== *)
(** The main functions of the agent, the operator and the metrics proxy (cmd/): flags,
    the TLS options of the operator's servers, the order in which each process sets itself
    up, what each failure exits with, and the handler of the proxy. *)

From Stdlib Require Import Ascii.
From S2P Require Import Prelude ApiTypes Constants Bpffs Processes Application Operator.
From S2P Require Import ConfigTypes Config OperatorMain.
From stdpp Require Import options.

(** ** The host of a process *)

(** The reconcilers that a SetupWithManager registers, with the fields main gives them. *)
Inductive Reconciler :=
  | ClBpfApplicationReconciler (NodeName Containers : string)
  | NsBpfApplicationReconciler (NodeName Containers : string)
  | BpfmanConfigReconciler_ (r : BpfmanConfigReconciler)
  | BpfApplicationReconciler
  | BpfNsApplicationReconciler.

(** Of a tls.Config, what the options of the operator set: a certificate watcher is named
    by a number. *)
Record TLS := mkTLS {
  NextProtos : list string;
  GetCertificate : option nat;
}.

(** Of the options of a metrics server. *)
Record MetricsOptions := mkMetricsOptions {
  mo_BindAddress : string;
  SecureServing : bool;
  mo_CertDir : string;
  TLSOpts : list (TLS → TLS);
}.

(** Of the options of a manager. *)
Record ManagerOptions := mkManagerOptions {
  PprofBindAddress : string;
  HealthProbeBindAddress : string;
  Metrics : MetricsOptions;
  WebhookTLSOpts : list (TLS → TLS);
  LeaderElection : bool;
  LeaderElectionID : string;
  CacheDisableFor : list string;
}.

(** controller-runtime, the flag and log packages and the standard streams. A manager is
    built once. *)
Class MainHost (W : Type) := {
  main_Getenv : string → W → string * W;
  print_stdout : string → W → unit * W;
  print_stderr : string → W → unit * W;
  SetLogger : bool * option Z → W → unit * W;
  log_Error : option error → string → W → unit * W;
  certwatcher_New : string → string → W → result nat * W;
  ctrl_NewManager : ManagerOptions → W → option error * W;
  server_NewServer : MetricsOptions → W → option error * W;
  mgr_Add : string → W → option error * W;
  mgr_Complete : Reconciler → W → option error * W;
  mgr_AddHealthzCheck : string → W → option error * W;
  mgr_AddReadyzCheck : string → W → option error * W;
  mgr_Start : W → option error * W;
  NewDiscoveryClientForConfig : W → option error * W;
}.

(** The rest of the agent's host: the client connection, the clientset of a configuration, the
    interface watcher, and the components of runAgent with the order in which they end. *)
Class AgentHost (W : Type) := {
  grpc_NewClient : string → W → option error * W;
  kubernetes_NewForConfig : string → W → option error * W;
  ifaces_NewRegisterer : W → option error * W;
  registerer_Subscribe : W → option error * W;
  run_components : list AgentComponent → W → list (AgentComponent * option error) * W;
}.

Section exits.
Context {W : Type} `{!MainHost W}.

(** [setupLog.Error(err, msg); os.Exit(1)] *)
Definition exit_with (err : option error) (msg : string) : GoM W Z :=
  _ ← lift (log_Error err msg); mret 1.

(** A step of main that ends the process when it fails. *)
Definition or_exit (step : W → option error * W) (msg : string) (next : GoM W Z) : GoM W Z :=
  err ← lift step;
  match err with Some err => exit_with (Some err) msg | None => next end.
End exits.

(** ** cmd/bpfman-agent *)

Record AgentMainFlags := mkAgentMainFlags {
  early_flags : AgentFlags;
  probeAddr : string;
  enableHTTP2 : bool;
  enableInterfacesDiscovery : bool;
  pprofAddr : string;
  certDir : string;
}.

Definition default_cert_dir : string := "/tmp/k8s-webhook-server/serving-certs".

Definition agent_default_flags : AgentMainFlags :=
  mkAgentMainFlags (mkAgentFlags false false DefaultMountPoint false) ":8175" false true ""
    default_cert_dir.

(** The options name no certificate and no TLS option: the manager's own metrics server is
    off. *)
Definition agent_manager_options (flags : AgentMainFlags) : ManagerOptions :=
  mkManagerOptions (pprofAddr flags) (probeAddr flags) (mkMetricsOptions "0" false "" []) [] false ""
    ["Secret"].

Section agent.
Context {W : Type} `{!MainHost W, !AgentHost W, !KubeConfig W, !MountHost W, !SocketHost W}.

(** internal/conn/conn.go. The client connects when it is first used. *)
Definition CreateConnection : GoM W (option error) :=
  let addr := "unix://" +:+ DefaultPath in
  err ← lift (grpc_NewClient addr);
  mret ((λ err, "unable to establish connection to " +:+ addr +:+ ": " +:+ err) <$> err).

(** common.go of the agent *)
Definition getClientset : GoM W (option error) :=
  config ← lift rest_InClusterConfig;
  match config with
  | Err err => mret (Some ("error getting config: " +:+ err))
  | Ok config =>
      err ← lift (kubernetes_NewForConfig config);
      mret ((λ err, "error creating clientset: " +:+ err) <$> err)
  end.

(** containers.go of the agent: the getter is [RealContainerGetter nodeName]. *)
Definition NewRealContainerGetter (nodeName : string) : GoM W (result string) :=
  err ← getClientset;
  mret (match err with
        | Some err => Err ("failed to get clientset: " +:+ err)
        | None => Ok nodeName
        end).

Definition newInterfaceDiscovery : GoM W (option error) :=
  err ← lift ifaces_NewRegisterer;
  match err with
  | Some err => mret (Some ("creating interface registerer: " +:+ err))
  | None =>
      err ← lift registerer_Subscribe;
      mret (match err with
            | Some err => Some ("subscribing to interface events: " +:+ err)
            | None => None
            end)
  end.

(** From the signal handler on. *)
Definition agent_run (flags : AgentMainFlags) : GoM W Z :=
  err ← (if enableInterfacesDiscovery flags then newInterfaceDiscovery else mret None);
  match err with
  | Some err => exit_with (Some err) "failed to set up interface discovery"
  | None =>
      ended ← lift (run_components (agent_components (enableInterfacesDiscovery flags)));
      match runAgent ended with
      | Some err => exit_with (Some err) "agent runtime failed, exiting"
      | None => mret 0
      end
  end.

(** The health checks and the metrics server. *)
Definition agent_checks (flags : AgentMainFlags) : GoM W Z :=
  or_exit (mgr_AddHealthzCheck "healthz") "unable to set up health check"
  (or_exit (mgr_AddReadyzCheck "readyz") "unable to set up ready check"
  (server ← newAgentMetricsServer internalMetricsSocketPath;
   match server with
   | Err err => exit_with (Some err) "failed to set up metrics server"
   | Ok _ => agent_run flags
   end)).

(** The reconcilers of this node. *)
Definition agent_reconcilers (nodeName : string) (next : GoM W Z) : GoM W Z :=
  containerGetter ← NewRealContainerGetter nodeName;
  match containerGetter with
  | Err err => exit_with (Some err) "unable to create containerGetter"
  | Ok getterNode =>
      or_exit (mgr_Complete (ClBpfApplicationReconciler nodeName getterNode))
        "unable to create BpfApplicationReconciler"
      (or_exit (mgr_Complete (NsBpfApplicationReconciler nodeName getterNode))
         "unable to create BpfNsApplicationReconciler"
       next)
  end.

Definition agent_setup (flags : AgentMainFlags) : GoM W Z :=
  or_exit (ctrl_NewManager (agent_manager_options flags)) "unable to start manager"
  (err ← CreateConnection;
   match err with
   | Some err => exit_with (Some err) "unable to connect to bpfman"
   | None =>
       nodeName ← lift (main_Getenv "KUBE_NODE_NAME");
       if decide (nodeName = "") then
         exit_with (Some "KUBE_NODE_NAME env var not set") "Couldn't determine bpfman-agent's node"
       else agent_reconcilers nodeName (agent_checks flags)
   end).

(** The exit code. *)
Definition agent_main (b : Build) (flags : AgentMainFlags) : GoM W Z :=
  early ← lift (agent_early_exit b (early_flags flags));
  match early with
  | Some (code, out, err) =>
      _ ← (if decide (out = "") then mret tt else lift (print_stdout out));
      _ ← (if decide (err = "") then mret tt else lift (print_stderr err));
      mret code
  | None =>
      logLevel ← lift (main_Getenv "GO_LOG");
      _ ← lift (SetLogger (agent_log_options logLevel));
      agent_setup flags
  end.
End agent.

(** ** TLS options *)

Definition disableHTTP2 (enable : bool) (c : TLS) : TLS :=
  if enable then c else mkTLS ["http/1.1"] (GetCertificate c).

Definition with_certificate (watcher : nat) (c : TLS) : TLS := mkTLS (NextProtos c) (Some watcher).

(** The options in their order. *)
Definition tls_config (opts : list (TLS → TLS)) : TLS := foldl (λ c f, f c) (mkTLS [] None) opts.

(** ** path/filepath of the standard library *)

Fixpoint path_elems (s cur : string) : list string :=
  match s with
  | EmptyString => [cur]
  | String.String c s' =>
      if decide (c = "/"%char) then cur :: path_elems s' ""
      else path_elems s' (cur +:+ String.String c EmptyString)
  end.

(** The elements that are kept, the last one first. *)
Fixpoint clean_elems (rooted : bool) (elems : list string) (kept : list string) : list string :=
  match elems with
  | [] => kept
  | e :: elems =>
      if decide (e = "" ∨ e = ".") then clean_elems rooted elems kept
      else if decide (e = "..") then
        match kept with
        | [] => clean_elems rooted elems (if rooted then [] else [".."])
        | k :: kept' =>
            if decide (k = "..") then clean_elems rooted elems (".." :: kept)
            else clean_elems rooted elems kept'
        end
      else clean_elems rooted elems (e :: kept)
  end.

Definition filepath_Clean (path : string) : string :=
  let rooted := String.prefix "/" path in
  let cleaned := String.concat "/" (rev (clean_elems rooted (path_elems path "") [])) in
  if rooted then "/" +:+ cleaned else if decide (cleaned = "") then "." else cleaned.

Definition filepath_Join (dir name : string) : string :=
  filepath_Clean (if decide (dir = "") then name else dir +:+ "/" +:+ name).

(** ** cmd/bpfman-operator *)

Record OperatorFlags := mkOperatorFlags {
  of_metricsAddr : string;
  of_probeAddr : string;
  of_enableLeaderElection : bool;
  of_enableHTTP2 : bool;
  of_certDir : string;
  of_showVersion : bool;
}.

Definition operator_default_flags : OperatorFlags :=
  mkOperatorFlags ":8443" ":8175" false false default_cert_dir false.

(** encoding/json and sigs.k8s.io/yaml on the default Config. *)
Class ConfigYAML := {
  json_Marshal : Config → result string;
  yaml_JSONToYAML : string → result string;
}.

Section operator.
Context {W : Type} `{!MainHost W, !ConfigAPI W, !ClusterAccess W, !ConfigYAML}.

Definition setupCertWatcher (certDir : string) (tlsOpts : list (TLS → TLS))
    : GoM W (option nat * list (TLS → TLS)) :=
  watcher ← lift (certwatcher_New (filepath_Join certDir "tls.crt") (filepath_Join certDir "tls.key"));
  match watcher with
  | Err err =>
      _ ← lift (log_Error (Some err) "Unable to create certificate watcher");
      mret (None, tlsOpts)
  | Ok watcher => mret (Some watcher, tlsOpts ++ [with_certificate watcher])
  end.

Definition die_stderr (msg : string) : GoM W Z := _ ← lift (print_stderr (msg +:+ nl)); mret 1.

Definition printDefaultConfig : GoM W Z :=
  bpfmanImage ← lift (Getenv "BPFMAN_IMG");
  if decide (bpfmanImage = "") then die_stderr "BPFMAN_IMG environment variable must be set"
  else
    bpfmanAgentImage ← lift (Getenv "BPFMAN_AGENT_IMG");
    if decide (bpfmanAgentImage = "") then
      die_stderr "BPFMAN_AGENT_IMG environment variable must be set"
    else
      match json_Marshal (defaultConfig bpfmanImage bpfmanAgentImage) with
      | Err err => die_stderr ("error marshalling config: " +:+ err)
      | Ok data =>
          match yaml_JSONToYAML data with
          | Err err => die_stderr ("error converting to YAML: " +:+ err)
          | Ok out => _ ← lift (print_stdout out); mret 0
          end
      end.

Definition operator_manager_options (flags : OperatorFlags) (tlsOpts : list (TLS → TLS))
    : ManagerOptions :=
  mkManagerOptions "" (of_probeAddr flags)
    (mkMetricsOptions (of_metricsAddr flags) true (of_certDir flags) tlsOpts)
    [disableHTTP2 (of_enableHTTP2 flags)] (of_enableLeaderElection flags) "8730d955.bpfman.io" [].

(** The health checks, the default Config and the start of the manager. *)
Definition operator_start (bpfmanImage bpfmanAgentImage : string) : GoM W Z :=
  or_exit (mgr_AddHealthzCheck "healthz") "unable to set up health check"
  (or_exit (mgr_AddReadyzCheck "readyz") "unable to set up ready check"
  (err ← ensureDefaultConfig bpfmanImage bpfmanAgentImage;
   match err with
   | Some err => exit_with (Some err) "unable to ensure default Config CR"
   | None => or_exit mgr_Start "problem running manager" (mret 0)
   end)).

Definition operator_controllers (r : BpfmanConfigReconciler) (next : GoM W Z) : GoM W Z :=
  or_exit (mgr_Complete (BpfmanConfigReconciler_ r)) "unable to create bpfmanConfig controller"
  (or_exit (mgr_Complete BpfApplicationReconciler)
     "unable to create BpfApplicationReconciler controller"
  (or_exit (mgr_Complete BpfNsApplicationReconciler)
     "unable to create BpfNsApplicationReconciler controller"
   next)).

(** The platform, and the controllers for it. *)
Definition operator_discover (next : GoM W Z) : GoM W Z :=
  or_exit NewDiscoveryClientForConfig "can't instantiate discovery client"
  (isOpenshift ← IsOpenShift;
   match isOpenshift with
   | Err err => exit_with (Some err) "unable to determine platform"
   | Ok isOpenshift =>
       hasMonitoring ← HasMonitoringAPI;
       match hasMonitoring with
       | Err err => exit_with (Some err) "unable to determine monitoring API availability"
       | Ok hasMonitoring =>
           operator_controllers
             (mkBpfmanConfigReconciler BpfmanDaemonManifestPath BpfmanMetricsProxyPath
                BpfmanCsiDriverPath isOpenshift hasMonitoring) next
       end
   end).

Definition operator_manager (flags : OperatorFlags) (next : GoM W Z) : GoM W Z :=
  '(certWatcher, tlsOpts) ←
    setupCertWatcher (of_certDir flags) [disableHTTP2 (of_enableHTTP2 flags)];
  or_exit (ctrl_NewManager (operator_manager_options flags tlsOpts)) "unable to start manager"
  (match certWatcher with
   | Some _ =>
       or_exit (mgr_Add "certificate watcher") "unable to add certificate watcher to manager" next
   | None => next
   end).

(** The exit code; [args] are the arguments after the name of the program. *)
Definition operator_main (b : Build) (args : list string) (flags : OperatorFlags) : GoM W Z :=
  if decide (head args = Some "default-config") then printDefaultConfig
  else if of_showVersion flags then _ ← lift (print_stdout (version_String b +:+ nl)); mret 0
  else
    bpfmanImage ← lift (Getenv "BPFMAN_IMG");
    if decide (bpfmanImage = "") then
      exit_with None "BPFMAN_IMG environment variable must be set"
    else
      bpfmanAgentImage ← lift (Getenv "BPFMAN_AGENT_IMG");
      if decide (bpfmanAgentImage = "") then
        exit_with None "BPFMAN_AGENT_IMG environment variable must be set"
      else
        logLevel ← lift (Getenv "GO_LOG");
        _ ← lift (SetLogger (agent_log_options logLevel));
        operator_manager flags (operator_discover (operator_start bpfmanImage bpfmanAgentImage)).
End operator.

(** ** cmd/metrics-proxy *)

Record ProxyFlags := mkProxyFlags {
  pf_enableHTTP2 : bool;
  pf_metricsAddr : string;
  pf_socketPath : string;
  pf_certDir : string;
  pf_showVersion : bool;
}.

Definition proxy_default_flags : ProxyFlags :=
  mkProxyFlags false ":8443" "/var/run/bpfman-agent/metrics.sock" default_cert_dir false.

Definition proxy_log_options (logLevel : string) : bool * option Z :=
  if decide (logLevel = "debug") then (true, None)
  else if decide (logLevel = "trace") then (true, Some (-2))
  else (false, None).

(** The reverse proxy passes path and query on as they are; an answer is a status with a
    body. [upstream] is the round trip over the socket. *)
Definition proxy_ServeHTTP (upstream : string → string → result (Z * string))
    (path query : string) : Z * string :=
  match upstream path query with
  | Ok resp => resp
  | Err err => (500, "proxy error: " +:+ err +:+ nl)
  end.

Definition not_found_response : Z * string := (404, "404 page not found" +:+ nl).

Definition metricsHandler (upstream : string → string → result (Z * string))
    (path query : string) : Z * string :=
  match redirectAgentMetrics "/agent-metrics" "/metrics" path with
  | None => not_found_response
  | Some path => proxy_ServeHTTP upstream path query
  end.

Section proxy.
Context {W : Type} `{!MainHost W}.

Definition proxy_manager_options : ManagerOptions :=
  mkManagerOptions "" ":8081" (mkMetricsOptions "0" false "" []) [] false "" [].

Definition proxy_metrics_options (flags : ProxyFlags) : MetricsOptions :=
  mkMetricsOptions (pf_metricsAddr flags) true (pf_certDir flags)
    [disableHTTP2 (pf_enableHTTP2 flags)].

Definition proxy_run (flags : ProxyFlags) : GoM W Z :=
  or_exit (ctrl_NewManager proxy_manager_options) "create manager failed"
  (or_exit (server_NewServer (proxy_metrics_options flags)) "create metrics server failed"
  (or_exit (mgr_Add "metrics server") "add metrics server failed"
  (or_exit (mgr_AddReadyzCheck "metrics-socket") "add readiness check failed"
  (or_exit (mgr_AddHealthzCheck "ping") "add health check failed"
  (or_exit mgr_Start "manager exited with error" (mret 0)))))).

(** The constant URL of the upstream parses. *)
Definition proxy_main (b : Build) (flags : ProxyFlags) : GoM W Z :=
  if pf_showVersion flags then _ ← lift (print_stdout (version_String b +:+ nl)); mret 0
  else
    logLevel ← lift (main_Getenv "GO_LOG");
    _ ← lift (SetLogger (proxy_log_options logLevel));
    proxy_run flags.
End proxy.
