(* ===== verification/MainSpecs.v ===== *)
(** What the main functions promise: the TLS of the operator's servers, the scope of the
    proxy, and that a process ends with 0 only after it has run with everything set up. *)

From S2P Require Import Prelude ApiTypes Constants Bpffs Processes Application Operator.
From S2P Require Import ConfigTypes Config ConfigSpecs OperatorMain Mains.
From stdpp Require Import options.
#[local] Set Default Proof Using "Type*".

(** ** TLS *)

Section tls.
Context {W : Type} `{!MainHost W, !ConfigAPI W, !ClusterAccess W}.

(** The metrics server of the operator speaks HTTP/1.1 only unless HTTP/2 is enabled, and
    takes its certificate from the watcher exactly when there is one. *)
Lemma operator_tls (flags : OperatorFlags) w :
  let dir := of_certDir flags in
  let watcher := (certwatcher_New (filepath_Join dir "tls.crt") (filepath_Join dir "tls.key") w).1 in
  ∃ opts w', setupCertWatcher dir [disableHTTP2 (of_enableHTTP2 flags)] w
      = (Ret (match watcher with Ok n => Some n | Err _ => None end, opts), w') ∧
    tls_config opts = mkTLS (if of_enableHTTP2 flags then [] else ["http/1.1"])
      (match watcher with Ok n => Some n | Err _ => None end).
Proof using Type.
  intros dir watcher. unfold setupCertWatcher, mbind, GoM_bind, lift. fold dir.
  subst watcher. destruct (certwatcher_New _ _ w) as [[n|err] w1]; cbn.
  - eexists _, _. split; [reflexivity|]. unfold tls_config. cbn. by destruct (of_enableHTTP2 flags).
  - destruct (log_Error _ _ w1). eexists _, _. split; [reflexivity|]. unfold tls_config. cbn.
    by destruct (of_enableHTTP2 flags).
Qed.
End tls.

(** ** The proxy *)

(** The handler of the agent's metrics server, with the answer of the registry. *)
Definition agent_handler (registry : string → string) (path query : string) : result (Z * string) :=
  Ok (if metrics_path path then (200, registry query) else not_found_response).

(** A request to the proxy with the prefix reads the agent's metrics, with its query, and
    every other is answered with 404. *)
Lemma proxied_metrics registry path query :
  metricsHandler (agent_handler registry) path query =
    if String.prefix "/agent-metrics" path then (200, registry query) else not_found_response.
Proof.
  unfold metricsHandler, redirectAgentMetrics. by destruct (String.prefix _ _).
Qed.

(** The proxy's reading of GO_LOG is the agent's. *)
Lemma proxy_log_options_agent l : proxy_log_options l = agent_log_options l.
Proof.
  unfold proxy_log_options, agent_log_options.
  destruct (decide (l = "info")) as [->|]; [done|]. by repeat case_decide.
Qed.

(** ** Exits *)

Section exits.
Context {W : Type} `{!MainHost W}.

Lemma run_exit_with err msg w code w' :
  exit_with err msg w = (Ret code, w') → code = 1.
Proof using Type.
  unfold exit_with, mbind, GoM_bind, lift. destruct (log_Error _ _ _). by intros [= <- _].
Qed.

Lemma run_or_exit step msg next w code w' :
  or_exit step msg next w = (Ret code, w') →
  code = 1 ∨ (step w).1 = None ∧ next (step w).2 = (Ret code, w').
Proof using Type.
  unfold or_exit, mbind at 1, GoM_bind, lift. destruct (step w) as [[err|] w1]; cbn.
  - intros H%run_exit_with. by left.
  - by right.
Qed.
End exits.

(** The reconcilers that are registered; only SetupWithManager registers one. *)
Class RegisterLaws (W : Type) `{!MainHost W} := {
  registered : W → list Reconciler;
  reg_Complete rec w :
    (mgr_Complete rec w).1 = None → registered (mgr_Complete rec w).2 = registered w ++ [rec];
  reg_Getenv v w : registered (main_Getenv v w).2 = registered w;
  reg_SetLogger o w : registered (SetLogger o w).2 = registered w;
  reg_NewManager o w : registered (ctrl_NewManager o w).2 = registered w;
  reg_Healthz n w : registered (mgr_AddHealthzCheck n w).2 = registered w;
  reg_Readyz n w : registered (mgr_AddReadyzCheck n w).2 = registered w;
}.

Section agent.
Context {W : Type} `{!MainHost W, !RegisterLaws W, !AgentHost W, !KubeConfig W, !MountHost W,
  !SocketHost W}.

(** The agent's own steps leave the reconcilers alone. *)
Context (reg_grpc : ∀ addr w, registered (grpc_NewClient addr w).2 = registered w).
Context (reg_config : ∀ w, registered (rest_InClusterConfig w).2 = registered w).
Context (reg_clientset : ∀ c w, registered (kubernetes_NewForConfig c w).2 = registered w).
Context (reg_socket : ∀ p w, registered (newAgentMetricsServer p w).2 = registered w).
Context (reg_discovery : ∀ w, registered (newInterfaceDiscovery w).2 = registered w).

(** Its components ran, with these results, in a world with these reconcilers. *)
Definition ran (flags : AgentMainFlags) (recs : list Reconciler) (w' : W) : Prop :=
  ∃ w1 ended, registered w1 = recs ∧
    run_components (agent_components (enableInterfacesDiscovery flags)) w1 = (ended, w') ∧
    runAgent ended = None.

Lemma run_CreateConnection w :
  ∃ err w1, CreateConnection w = (Ret err, w1) ∧ registered w1 = registered w.
Proof using reg_grpc.
  unfold CreateConnection, mbind, GoM_bind, lift. pose proof (reg_grpc ("unix://" +:+ DefaultPath) w) as Hw.
  destruct (grpc_NewClient _ w) as [err w1]. by eexists _, w1.
Qed.

Lemma run_NewRealContainerGetter nodeName w :
  ∃ res w1, NewRealContainerGetter nodeName w = (Ret res, w1) ∧ registered w1 = registered w ∧
    ∀ getterNode, res = Ok getterNode → getterNode = nodeName.
Proof using reg_config reg_clientset.
  unfold NewRealContainerGetter, getClientset, mbind, GoM_bind, lift.
  pose proof (reg_config w) as Hw. destruct (rest_InClusterConfig w) as [[config|err] w1]; cbn in *.
  - pose proof (reg_clientset config w1) as Hw1.
    destruct (kubernetes_NewForConfig config w1) as [[err|] w2]; cbn in *; eexists _, w2;
      (split; [done|]); (split; [congruence|]); by intros g [= <-].
  - by eexists _, w1.
Qed.

Lemma agent_run_zero flags w w' :
  agent_run flags w = (Ret 0, w') → ran flags (registered w) w'.
Proof using reg_discovery.
  assert (Hfinish : ∀ w1, registered w1 = registered w →
    (ended ← lift (run_components (agent_components (enableInterfacesDiscovery flags)));
     match runAgent ended with
     | Some err => exit_with (Some err) "agent runtime failed, exiting"
     | None => mret 0
     end) w1 = (Ret 0, w') → ran flags (registered w) w').
  { intros w1 Hw1. unfold mbind at 1, GoM_bind, lift.
    destruct (run_components _ w1) as [ended w2] eqn:Hc. cbn.
    destruct (runAgent ended) eqn:He; [by intros H%run_exit_with|].
    intros [= <-]. exists w1, ended. by split_and!. }
  unfold agent_run. unfold mbind at 1, GoM_bind at 1.
  destruct (enableInterfacesDiscovery flags) eqn:Hen; [|by apply Hfinish].
  pose proof (reg_discovery w) as Hreg.
  destruct (newInterfaceDiscovery w) as [[[err|]|why] w1]; cbn in Hreg |- *.
  - by intros H%run_exit_with.
  - by apply Hfinish.
  - done.
Qed.

(** The agent ends with 0, when it does not end early, only after it has the name of its
    node and both reconcilers for that node are registered, and after all of its
    components have ended without an error. *)
Lemma agent_setup_zero flags w w' :
  agent_setup flags w = (Ret 0, w') →
  ∃ nodeName, nodeName ≠ "" ∧
    ran flags (registered w ++ [ClBpfApplicationReconciler nodeName nodeName;
                                NsBpfApplicationReconciler nodeName nodeName]) w'.
Proof.
  unfold agent_setup. intros [|[_ H]]%run_or_exit; [done|].
  destruct (run_CreateConnection (ctrl_NewManager (agent_manager_options flags) w).2)
    as (err & w1 & Hconn & Hw1). rewrite reg_NewManager in Hw1. rewrite (run_bind _ _ _ _ _ Hconn) in H.
  destruct err; [by apply run_exit_with in H|].
  unfold mbind at 1, GoM_bind at 1, lift in H.
  pose proof (reg_Getenv "KUBE_NODE_NAME" w1) as Hw2.
  destruct (main_Getenv "KUBE_NODE_NAME" w1) as [nodeName w2]. cbn in Hw2.
  destruct (decide (nodeName = "")) as [_|Hne]; [by apply run_exit_with in H|].
  exists nodeName. split; [done|]. unfold agent_reconcilers in H.
  destruct (run_NewRealContainerGetter nodeName w2) as (res & w3 & Hget & Hw3 & Hres).
  rewrite (run_bind _ _ _ _ _ Hget) in H.
  destruct res as [g|]; [rewrite (Hres g eq_refl) in H|by apply run_exit_with in H].
  apply run_or_exit in H as [|[Hc1 H]]; [done|].
  apply run_or_exit in H as [|[Hc2 H]]; [done|]. apply reg_Complete in Hc1, Hc2.
  rewrite Hc1, Hw3, Hw2, Hw1, <- app_assoc in Hc2. cbn [app] in Hc2. rewrite <- Hc2.
  unfold agent_checks in H. apply run_or_exit in H as [|[_ H]]; [done|].
  apply run_or_exit in H as [|[_ H]]; [done|]. revert H.
  unfold mbind at 1, GoM_bind at 1.
  match goal with |- context [newAgentMetricsServer ?p ?w] =>
    pose proof (reg_socket p w) as Hs; destruct (newAgentMetricsServer p w) as [[[n|err]|why] w4] end;
    cbn in Hs |- *.
  - intros H%agent_run_zero. by rewrite Hs, reg_Readyz, reg_Healthz in H.
  - by intros H%run_exit_with.
  - done.
Qed.

(** The flags --enable-http2 and --cert-dir of the agent have no effect. *)
Lemma agent_unused_flags b early probe http2 http2' discovery pprof dir dir' w :
  agent_main b (mkAgentMainFlags early probe http2 discovery pprof dir) w =
  agent_main b (mkAgentMainFlags early probe http2' discovery pprof dir') w.
Proof using Type. done. Qed.
End agent.

(** So do the steps that only the operator takes: they register no reconciler. *)
Class OperatorRegisterLaws (W : Type)
    `{!MainHost W, !RegisterLaws W, !ConfigAPI W, !ClusterAccess W} := {
  reg_images v (w : W) : registered (Getenv v w).2 = registered w;
  reg_log err msg (w : W) : registered (log_Error err msg w).2 = registered w;
  reg_certwatcher crt key (w : W) : registered (certwatcher_New crt key w).2 = registered w;
  reg_manager n (w : W) : registered (mgr_Add n w).2 = registered w;
  reg_client (w : W) : registered (NewDiscoveryClientForConfig w).2 = registered w;
  reg_create k (x : obj k) (w : W) : registered (api_Create k x w).2 = registered w;
}.

Section operator.
Context {W : Type} `{!MainHost W, !RegisterLaws W, !ConfigAPI W, !ConfigAPILaws W,
  !ClusterAccess W, !ClusterAccessLaws W, !OperatorRegisterLaws W, Yaml : !ConfigYAML}.

Lemma reg_watcher dir opts w : registered (setupCertWatcher dir opts w).2 = registered w.
Proof using RegisterLaws0 OperatorRegisterLaws0.
  unfold setupCertWatcher, mbind, GoM_bind, lift.
  pose proof (reg_certwatcher (filepath_Join dir "tls.crt") (filepath_Join dir "tls.key") w) as Hw.
  destruct (certwatcher_New _ _ w) as [[nw|err] w1]; cbn in *; [done|].
  pose proof (reg_log (Some err) "Unable to create certificate watcher" w1) as Hl.
  destruct (log_Error _ _ w1); cbn in *; congruence.
Qed.

Lemma reg_ensure i a w : registered (ensureDefaultConfig i a w).2 = registered w.
Proof using OperatorRegisterLaws0 ClusterAccessLaws0 ConfigAPILaws0.
  unfold ensureDefaultConfig, mbind, GoM_bind, lift.
  pose proof (client_New_pure w) as Hp. destruct (client_New w) as [[err|] w1]; cbn in *; subst; [done|].
  pose proof (get_pure KConfig "" BpfmanConfigName w) as Hgp.
  destruct (api_Get KConfig "" BpfmanConfigName w) as [[c| |err] w1]; cbn in *; subst; [done| |done].
  pose proof (reg_create KConfig (defaultConfig i a) w) as Hc. by destruct (api_Create _ _ w).
Qed.

Lemma run_ensure_None i a w w' :
  ensureDefaultConfig i a w = (Ret None, w') → ∃ c, view KConfig "" BpfmanConfigName w' = Got c.
Proof using ConfigAPILaws0 ClusterAccessLaws0.
  unfold ensureDefaultConfig. unfold mbind at 1, GoM_bind at 1, lift at 1.
  pose proof (client_New_pure w) as Hp. destruct (client_New w) as [[err|] w1]; cbn in Hp |- *; [done|].
  subst w1. unfold mbind at 1, GoM_bind at 1, lift at 1.
  destruct (api_Get KConfig "" BpfmanConfigName w) as [g w1] eqn:Hg.
  assert (w1 = w) as ->
    by (pose proof (get_pure KConfig "" BpfmanConfigName w) as Hgp; by rewrite Hg in Hgp).
  destruct g as [c| |err]; [|intros Hc|done].
  - intros [= <-]. exists c. unfold view. by rewrite Hg.
  - unfold lift in Hc. destruct (api_Create KConfig (defaultConfig i a) w) as [r w2] eqn:Hcr.
    injection Hc as -> ->. destruct (create_stores KConfig _ _ _ Hcr) as (y & Hy & _). by exists y.
Qed.

(** The manager ran to its end, in a cluster with a Config and with these reconcilers. *)
Definition served (recs : list Reconciler) (w' : W) : Prop :=
  ∃ w1 c, registered w1 = recs ∧ view KConfig "" BpfmanConfigName w1 = Got c ∧
    (mgr_Start w1).1 = None ∧ w' = (mgr_Start w1).2.

(** The checks do not touch the cluster's Config, nor does anything else that is the
    manager's. *)
Lemma operator_start_zero i a w w' :
  operator_start i a w = (Ret 0, w') → served (registered w) w'.
Proof using All.
  unfold operator_start. intros [|[_ H]]%run_or_exit; [done|]. apply run_or_exit in H as [|[_ H]]; [done|].
  unfold mbind at 1, GoM_bind at 1 in H.
  match type of H with context [ensureDefaultConfig i a ?w] =>
    pose proof (reg_ensure i a w) as Hr; pose proof (run_ensure_None i a w) as Hv;
    destruct (ensureDefaultConfig i a w) as [[[err|]|why] w1] end; cbn in Hr, H.
  - by apply run_exit_with in H.
  - destruct (Hv w1 eq_refl) as [c Hc]. apply run_or_exit in H as [|[Hs H]]; [done|].
    injection H as <-. exists w1, c. split_and!; [|done..]. by rewrite Hr, reg_Readyz, reg_Healthz.
  - done.
Qed.

(** The operator ends with 0, when it is run as the operator, only after its manager has
    run to the end with a controller for the Config of the platform that the cluster has,
    one for each scope of the applications, and a Config in the cluster. *)
Lemma operator_discover_zero i a w w' :
  operator_discover (operator_start i a) w = (Ret 0, w') →
  ∃ r w1, IsOpenShift w1 = (Ret (Ok (IsOpenshift r)), w1) ∧
    HasMonitoringAPI w1 = (Ret (Ok (HasMonitoring r)), w1) ∧
    served (registered w ++ [BpfmanConfigReconciler_ r; BpfApplicationReconciler;
                             BpfNsApplicationReconciler]) w'.
Proof using All.
  unfold operator_discover. intros [|[_ H]]%run_or_exit; [done|].
  set (w1 := (NewDiscoveryClientForConfig w).2) in *.
  assert (Hpure : ∀ m, m = IsOpenShift ∨ m = HasMonitoringAPI → (m w1).2 = w1).
  { intros m [-> | ->]; unfold IsOpenShift, HasMonitoringAPI, mbind, GoM_bind, lift.
    - pose proof (version_pure w1) as Hv. destruct (ServerVersion w1) as [[v|e] w2]; cbn in *; subst; [|done].
      pose proof (groups_pure w1) as Hg. destruct (ServerGroups w1) as [[gs|e] w2]; cbn in *; by subst.
    - pose proof (groups_pure w1) as Hg. destruct (ServerGroups w1) as [[gs|e] w2]; cbn in *; by subst. }
  unfold mbind at 1, GoM_bind at 1 in H. pose proof (Hpure IsOpenShift (or_introl eq_refl)) as Hp1.
  destruct (IsOpenShift w1) as [[[b1|err]|why] w2] eqn:H1; cbn in Hp1, H; subst w2;
    [|by apply run_exit_with in H|done].
  unfold mbind at 1, GoM_bind at 1 in H. pose proof (Hpure HasMonitoringAPI (or_intror eq_refl)) as Hp2.
  destruct (HasMonitoringAPI w1) as [[[b2|err]|why] w2] eqn:H2; cbn in Hp2, H; subst w2;
    [|by apply run_exit_with in H|done].
  eexists (mkBpfmanConfigReconciler _ _ _ b1 b2), w1. split; [exact H1|]. split; [exact H2|].
  unfold operator_controllers in H.
  apply run_or_exit in H as [|[Hc1 H]]; [done|]. apply run_or_exit in H as [|[Hc2 H]]; [done|].
  apply run_or_exit in H as [|[Hc3 H]]; [done|]. apply reg_Complete in Hc1, Hc2, Hc3.
  rewrite Hc2, Hc1 in Hc3. unfold w1 in Hc3 at 2. rewrite reg_client, <- !app_assoc in Hc3.
  apply operator_start_zero in H. cbn [app] in Hc3. by rewrite Hc3 in H.
Qed.

(** C24: Run as the operator, the process ends with exit code 0 only after its manager ran
    to the end without an error, with a Config in the cluster, and with exactly these
    controllers registered: that of the Config, for the platform that the cluster's own
    answers describe, and one for each scope of the applications. *)
Theorem operator_main_zero b args flags w w' :
  operator_main b args flags w = (Ret 0, w') →
  head args ≠ Some "default-config" → of_showVersion flags = false →
  ∃ r w1, IsOpenShift w1 = (Ret (Ok (IsOpenshift r)), w1) ∧
    HasMonitoringAPI w1 = (Ret (Ok (HasMonitoring r)), w1) ∧
    served (registered w ++ [BpfmanConfigReconciler_ r; BpfApplicationReconciler;
                             BpfNsApplicationReconciler]) w'.
Proof using All.
  unfold operator_main. intros H Ha Hv. rewrite decide_False in H by done. rewrite Hv in H.
  assert (Hsame : ∃ i a w1, registered w1 = registered w ∧
    operator_discover (operator_start i a) w1 = (Ret 0, w')).
  { unfold mbind at 1, GoM_bind at 1, lift at 1 in H. pose proof (reg_images "BPFMAN_IMG" w) as Hr1.
    destruct (Getenv "BPFMAN_IMG" w) as [i w1]; cbn in Hr1.
    destruct (decide (i = "")); [by apply run_exit_with in H|].
    unfold mbind at 1, GoM_bind at 1, lift at 1 in H. pose proof (reg_images "BPFMAN_AGENT_IMG" w1) as Hr2.
    destruct (Getenv "BPFMAN_AGENT_IMG" w1) as [a w2]; cbn in Hr2.
    destruct (decide (a = "")); [by apply run_exit_with in H|].
    unfold mbind at 1, GoM_bind at 1, lift at 1 in H. pose proof (reg_images "GO_LOG" w2) as Hr3.
    destruct (Getenv "GO_LOG" w2) as [l w3]; cbn in Hr3.
    unfold mbind at 1, GoM_bind at 1, lift at 1 in H. pose proof (reg_SetLogger (agent_log_options l) w3) as Hr4.
    destruct (SetLogger (agent_log_options l) w3) as [u w4]; cbn in Hr4.
    unfold operator_manager in H. unfold mbind at 1, GoM_bind at 1 in H.
    pose proof (reg_watcher (of_certDir flags) [disableHTTP2 (of_enableHTTP2 flags)] w4) as Hr5.
    destruct (setupCertWatcher _ _ w4) as [[[cw opts]|why] w5]; cbn in Hr5; [|done].
    apply run_or_exit in H as [|[_ H]]; [done|]. exists i, a. destruct cw as [nw|].
    - apply run_or_exit in H as [|[_ H]]; [done|]. eexists. split; [|exact H].
      rewrite reg_manager, reg_NewManager. congruence.
    - eexists. split; [|exact H]. rewrite reg_NewManager. congruence. }
  destruct Hsame as (i & a & w1 & Hr & Hd). rewrite <- Hr. by eapply operator_discover_zero.
Qed.
End operator.
