(* ===== verification/ConfigSim.v ===== *)
(** A simulated cluster for the configuration controller: an API server that
    checks names and resource versions, fills in defaults and deletes objects whose
    last finalizer goes, with the files and the environment of the operator and the
    reconcilers of its manager. It satisfies the laws the controller's theorems
    assume. *)

From S2P Require Import Prelude ApiTypes Constants Operator ConfigTypes Config.
From S2P Require Import ConfigSpecs ConfigSteps ConfigTheorems ConfigReconcile OperatorMain.
From S2P Require Import Mains.
From stdpp Require Import options.

Definition store : Type := ∀ k, gmap (string * string) (obj k).

(** The store with the objects of type [k] changed by [f]. *)
Definition upd (k : RKind) (f : gmap (string * string) (obj k) → gmap (string * string) (obj k))
    (s : store) : store :=
  λ k', match decide (k = k') with
        | left E => match E in _ = k' return gmap (string * string) (obj k') with
                    | eq_refl => f (s k)
                    end
        | right _ => s k'
        end.

Lemma upd_same k f s : upd k f s k = f (s k).
Proof.
  unfold upd. destruct (decide (k = k)) as [E|Hne]; [|done].
  by rewrite (proof_irrel E eq_refl).
Qed.

Lemma upd_other k k' f s : k ≠ k' → upd k f s k' = s k'.
Proof. intros Hne. unfold upd. by destruct (decide (k = k')). Qed.

Record Cluster := mkCluster {
  cl_objs : store;
  cl_files : gmap string string;
  cl_env : gmap string string;
  cl_registered : list Reconciler;
}.

Definition with_objs (s : store) (w : Cluster) : Cluster :=
  mkCluster s (cl_files w) (cl_env w) (cl_registered w).

Definition sim_view (k : RKind) (ns n : string) (w : Cluster) : got (obj k) :=
  match cl_objs w k !! (ns, n) with
  | Some x => if decide (obj_ns x = ns ∧ obj_name x = n) then Got x else NotFound
  | None => NotFound
  end.

(** What the server adds to an object. *)
Definition default_policy (c : K8sContainer) : K8sContainer :=
  if decide (ct_ImagePullPolicy c = "") then with_ImagePullPolicy "IfNotPresent" c else c.

Definition defaults {k : RKind} : obj k → obj k :=
  match k return obj k → obj k with
  | KDaemonSet => λ x,
      let s := tpl_Spec (ds_Template x) in
      with_pod_spec (mkPodSpec (default_policy <$> InitContainers s)
        (default_policy <$> ps_Containers s) (ps_Volumes s) (AutomountServiceAccountToken s)
        (ps_other s)) x
  | KService => λ x,
      if decide (ClusterIP x = "") then with_ClusterIPs "10.0.0.1" ["10.0.0.1"] x else x
  | _ => λ x, x
  end.

Definition server_meta (version : string) (deleted : option Z) (m : ObjectMeta) : ObjectMeta :=
  mkObjectMeta (om_Name m) (om_Namespace m) (om_UID m) version deleted (om_Labels m)
    (om_Annotations m) (om_OwnerReferences m) (om_Finalizers m).

Definition written {k} (version : string) (deleted : option Z) (x : obj k) : obj k :=
  set_obj_meta (server_meta version deleted (obj_meta x)) (defaults x).

Definition put {k} (x : obj k) (w : Cluster) : Cluster :=
  with_objs (upd k <[(obj_ns x, obj_name x) := x]> (cl_objs w)) w.

Definition sim_Create k (x : obj k) (w : Cluster) : option error * Cluster :=
  match sim_view k (obj_ns x) (obj_name x) w with
  | NotFound => (None, put (written "1" None x) w)
  | _ => (Some "already exists", w)
  end.

Definition sim_Update k (x : obj k) (w : Cluster) : option error * Cluster :=
  match sim_view k (obj_ns x) (obj_name x) w with
  | Got e =>
      if decide (om_ResourceVersion (obj_meta x) = om_ResourceVersion (obj_meta e)) then
        let y := written (om_ResourceVersion (obj_meta e) +:+ "+")
                   (om_DeletionTimestamp (obj_meta e)) x in
        if decide (om_DeletionTimestamp (obj_meta e) ≠ None ∧ om_Finalizers (obj_meta x) = [])
        then (None, with_objs (upd k (delete (obj_ns x, obj_name x)) (cl_objs w)) w)
        else (None, put y w)
      else (Some "conflict", w)
  | _ => (Some "not found", w)
  end.

Definition config_owner (c : Config) : OwnerReference :=
  mkOwnerReference "Config" (om_Name (cfg_meta c)) (om_UID (cfg_meta c)) (Some true).

Definition sim_container (name image : string) (args : list string) : K8sContainer :=
  mkK8sContainer name image args "" [] no_other.

(** The manifests that the simulated decoder knows. *)
Definition sim_ds (m : ObjectMeta) : DaemonSet :=
  mkDaemonSet m (mkPodTemplate ∅ no_other (mkPodSpec [sim_container "mount-bpffs" "agent:0" []]
    [sim_container "bpfman" "bpfman:0" [];
     sim_container "bpfman-agent" "agent:0" ["--health-probe-bind-address=:1"; "--v"];
     sim_container "metrics-proxy" "agent:0" []] [] None no_other)) no_other no_other.

Definition sim_decode (k : RKind) (b : string) : obj k → result (option (obj k)) :=
  match k return obj k → result (option (obj k)) with
  | KDaemonSet => λ t, if decide (b = "daemonset") then Ok (Some (sim_ds (ds_meta t)))
                       else Err "not a daemon set"
  | KCSIDriver => λ t, if decide (b = "csidriver") then Ok (Some (mkCSIDriver (csi_meta t) b ""))
                       else Err "not a CSI driver"
  | _ => λ _, Err "unknown manifest"
  end.

Definition sim_ObjectKinds (k : RKind) : result (list GroupVersionKind) :=
  Ok [match k with
      | KConfig => mkGroupVersionKind "bpfman.io" "v1alpha1" "Config"
      | KConfigMap => mkGroupVersionKind "" "v1" "ConfigMap"
      | KCSIDriver => mkGroupVersionKind "storage.k8s.io" "v1" "CSIDriver"
      | KSCC => mkGroupVersionKind "security.openshift.io" "v1" "SecurityContextConstraints"
      | KDaemonSet => mkGroupVersionKind "apps" "v1" "DaemonSet"
      | KService => mkGroupVersionKind "" "v1" "Service"
      | KServiceMonitor => mkGroupVersionKind "monitoring.coreos.com" "v1" "ServiceMonitor"
      | KNamespace => mkGroupVersionKind "" "v1" "Namespace"
      | KClusterRoleBinding => mkGroupVersionKind rbac_group "v1" "ClusterRoleBinding"
      | KClusterRole => mkGroupVersionKind rbac_group "v1" "ClusterRole"
      | KRole => mkGroupVersionKind rbac_group "v1" "Role"
      | KRoleBinding => mkGroupVersionKind rbac_group "v1" "RoleBinding"
      end].

#[export] Instance Cluster_api : ConfigAPI Cluster := {|
  api_Get k ns n w := (sim_view k ns n w, w);
  api_Create := sim_Create;
  api_Update := sim_Update;
  SetControllerReference c k x :=
    Ok (set_obj_meta (set_OwnerReferences (config_owner c :: om_OwnerReferences (obj_meta x))
                        (obj_meta x)) x);
  ObjectKinds := sim_ObjectKinds;
  decode := sim_decode;
  read_file path w :=
    (match cl_files w !! path with Some b => Ok b | None => Err "no such file" end, w);
  Getenv v w := (default "" (cl_env w !! v), w);
|}.

Lemma sim_view_named k ns n w (x : obj k) :
  sim_view k ns n w = Got x → obj_ns x = ns ∧ obj_name x = n.
Proof.
  unfold sim_view. destruct (_ !! _) as [y|]; [|done]. case_decide; [|done]. by intros [= <-].
Qed.

Lemma written_key {k} v d (x : obj k) :
  obj_ns (written v d x) = obj_ns x ∧ obj_name (written v d x) = obj_name x.
Proof. unfold written, obj_ns, obj_name. by rewrite obj_meta_set. Qed.

Lemma put_view k (x : obj k) w : sim_view k (obj_ns x) (obj_name x) (put x w) = Got x.
Proof. unfold sim_view, put. cbn. by rewrite upd_same, lookup_insert_eq, decide_True. Qed.

Lemma view_upd_other k f k' ns' n' ns n (w : Cluster) :
  (k', ns', n') ≠ (k, ns, n) →
  (∀ m, (ns', n') ≠ (ns, n) → f m !! (ns', n') = m !! (ns', n')) →
  sim_view k' ns' n' (with_objs (upd k f (cl_objs w)) w) = sim_view k' ns' n' w.
Proof.
  intros Hne Hf. unfold sim_view. cbn. destruct (decide (k = k')) as [<-|Hk].
  - rewrite upd_same, Hf by congruence. done.
  - by rewrite upd_other.
Qed.

Lemma put_only_at k (x : obj k) w : only_at k (obj_ns x) (obj_name x) w (put x w).
Proof.
  split_and!; [|done|done]. intros k' ns' n' Hne.
  apply (view_upd_other k _ k' ns' n' (obj_ns x) (obj_name x)); [done|].
  intros m Hm. by rewrite lookup_insert_ne.
Qed.

Lemma delete_only_at k (x : obj k) w :
  only_at k (obj_ns x) (obj_name x) w
    (with_objs (upd k (delete (obj_ns x, obj_name x)) (cl_objs w)) w).
Proof.
  split_and!; [|done|done]. intros k' ns' n' Hne.
  apply (view_upd_other k _ k' ns' n' (obj_ns x) (obj_name x)); [done|].
  intros m Hm. by rewrite lookup_delete_ne.
Qed.

Lemma only_at_refl k ns n (w : Cluster) : only_at k ns n w w.
Proof. done. Qed.

Lemma default_policy_ok c : policy_defaulted c (default_policy c).
Proof.
  unfold policy_defaulted, default_policy. case_decide as H; [right|by left].
  split; [done|]. by destruct c.
Qed.

Lemma defaults_content k (x : obj k) m :
  om_Labels m = om_Labels (obj_meta x) → om_Annotations m = om_Annotations (obj_meta x) →
  content k x (set_obj_meta m (defaults x)).
Proof.
  intros Hl Ha. destruct k; cbn in *; try done.
  - split_and!; try done; rewrite Forall2_fmap_r; apply Forall_Forall2_diag, Forall_forall;
      intros c _; apply default_policy_ok.
  - by case_decide.
Qed.

Lemma written_stored k (x : obj k) v : stored x (written v None x).
Proof.
  unfold written. split; rewrite ?obj_meta_set; try done. by apply defaults_content.
Qed.

#[export] Instance Cluster_laws : ConfigAPILaws Cluster.
Proof.
  split; try done.
  - intros k ns n w x. apply sim_view_named.
  - intros k x w. cbn. unfold sim_Create. destruct (sim_view _ _ _ _); [apply only_at_refl| |apply only_at_refl].
    destruct (written_key "1" None x) as [<- <-]. apply put_only_at.
  - intros k x w. cbn. unfold sim_Update. destruct (sim_view _ _ _ _) as [e| |]; try apply only_at_refl.
    case_decide; [|apply only_at_refl]. case_decide; [apply delete_only_at|].
    destruct (written_key (om_ResourceVersion (obj_meta e) +:+ "+")
      (om_DeletionTimestamp (obj_meta e)) x) as [<- <-]. apply put_only_at.
  - intros k x w w'. cbn. unfold sim_Create. destruct (sim_view _ _ _ _); try done. intros [= <-].
    exists (written "1" None x). split; [|apply written_stored].
    destruct (written_key "1" None x) as [<- <-]. apply put_view.
  - intros k x e w w' He Hd. cbn in *. unfold sim_Update. unfold view in He. cbn in He.
    rewrite He, Hd. case_decide; [|done]. rewrite decide_False by naive_solver. intros [= <-].
    eexists. split; [|apply written_stored].
    destruct (written_key (om_ResourceVersion (obj_meta e) +:+ "+") None x) as [<- <-]. apply put_view.
  - intros c k x x' [= <-]. by rewrite obj_meta_set.
Qed.

#[export] Instance Cluster_serves : ConfigAPIServes Cluster.
Proof.
  split.
  - intros k ns n w e. unfold view. cbn. unfold sim_view.
    destruct (_ !! _); [by case_decide|done].
  - intros k x w. unfold view. cbn. unfold sim_Create. by intros ->.
  - intros k x e w. unfold view. cbn. unfold sim_Update. intros -> Hv.
    rewrite decide_True by done. by case_decide.
  - done.
Qed.

(** An OpenShift cluster with the Prometheus operator. *)
#[export] Instance Cluster_access : ClusterAccess Cluster := {|
  ServerVersion w := (Ok "v1.33", w);
  ServerGroups w := (Ok ["apps"; "route.openshift.io"; "monitoring.coreos.com"], w);
  client_New w := (None, w);
|}.

#[export] Instance Cluster_access_laws : ClusterAccessLaws Cluster.
Proof. done. Qed.

Lemma live_cluster (w : Cluster) :
  (∀ k, map_Forall (λ _ x, om_DeletionTimestamp (obj_meta x) = None) (cl_objs w k)) → live w.
Proof.
  intros H k ns n x. unfold view. cbn. unfold sim_view.
  destruct (cl_objs w k !! (ns, n)) as [y|] eqn:Hy; [|done]. case_decide; [|done].
  intros [= <-]. by apply (H k (ns, n)).
Qed.
