(* ===== verification/ConfigWitnesses.v ===== *)
(** The theorems on the configuration controller applied to the simulated cluster:
    an OpenShift cluster with the namespace, the manifests and nothing else; the same
    with a Config that excludes the daemon set; and one with a Config being
    deleted. *)

From S2P Require Import Prelude ApiTypes Constants Operator ConfigTypes Config.
From S2P Require Import ConfigSpecs ConfigSteps ConfigTheorems ConfigReconcile OperatorMain.
From S2P Require Import ConfigSim.
From stdpp Require Import options.

Definition demo_reconciler : BpfmanConfigReconciler :=
  mkBpfmanConfigReconciler BpfmanDaemonManifestPath BpfmanMetricsProxyPath BpfmanCsiDriverPath
    true true.

Definition demo_namespace : K8sNamespace := mkK8sNamespace (named "bpfman" "" ∅) no_other.

Definition cluster_with (configs : gmap (string * string) Config) : Cluster :=
  mkCluster
    (λ k, match k with
          | KConfig => configs
          | KNamespace => {[("", "bpfman") := demo_namespace]}
          | _ => ∅
          end)
    {[ BpfmanDaemonManifestPath := "daemonset"; BpfmanMetricsProxyPath := "daemonset";
       BpfmanCsiDriverPath := "csidriver" ]}
    {[ "BPFMAN_IMG" := "bpfman:1"; "BPFMAN_AGENT_IMG" := "agent:1" ]}
    [].

(** The default Config with an override for the daemon set, and its finalizers. *)
Definition demo_config (deleted : option Z) (finalizers : list string) : Config :=
  let c := defaultConfig "bpfman:1" "agent:1" in
  let s := Spec c in
  mkConfig (mkObjectMeta BpfmanConfigName "" "uid" "1" deleted ∅ ∅ [] finalizers)
    (mkConfigSpec (Agent s) (Configuration s) (Daemon s) (cs_Namespace s)
       [mkComponentOverride "apps/v2" "DaemonSet" "bpfman" "bpfman-daemon" true]).

Definition cluster0 : Cluster := cluster_with ∅.
Definition cluster_config (deleted : option Z) (finalizers : list string) : Cluster :=
  cluster_with {[("", BpfmanConfigName) := demo_config deleted finalizers]}.
Definition cluster1 : Cluster := cluster_config None [BpfmanConfigFinalizer; "other"].

Lemma cluster_prepared configs c :
  cs_Namespace (Spec c) = "bpfman" → prepared c demo_reconciler (cluster_with configs).
Proof.
  intros Hc. unfold prepared, ConfigTheorems.ns. rewrite Hc. split_and!.
  - apply (bool_decide_unpack _). vm_compute. exact I.
  - apply (bool_decide_unpack _). vm_compute. exact I.
  - intros _. apply (bool_decide_unpack _). vm_compute. exact I.
  - exists demo_namespace. vm_compute. reflexivity.
Qed.

Lemma cluster_live configs :
  map_Forall (λ _ c, om_DeletionTimestamp (cfg_meta c) = None) configs →
  live (cluster_with configs).
Proof.
  intros Hc. apply live_cluster. intros []; cbn; try done; try apply map_Forall_empty.
  by apply map_Forall_singleton.
Qed.

Lemma cluster1_live : live cluster1.
Proof. apply cluster_live. by apply map_Forall_singleton. Qed.

Lemma bootstrap_settles_witness :
  ∃ c w1 w2 w3,
    ensureDefaultConfig "bpfman:1" "agent:1" cluster0 = (Ret None, w1) ∧
    Reconcile demo_reconciler BpfmanConfigName w1 = (Ret None, w2) ∧
    Reconcile demo_reconciler BpfmanConfigName w2 = (Ret None, w3) ∧
    Spec c = Spec (defaultConfig "bpfman:1" "agent:1") ∧
    view KConfig "" BpfmanConfigName w3 = Got c ∧ settled c demo_reconciler w3 ∧
    Reconcile demo_reconciler BpfmanConfigName w3 = (Ret None, w3).
Proof.
  apply (bootstrap_settles demo_reconciler "bpfman:1" "agent:1" cluster0).
  - apply cluster_live, map_Forall_empty.
  - vm_compute. reflexivity.
  - reflexivity.
  - by apply cluster_prepared.
Defined.

Lemma Reconcile_settles_witness :
  ∃ w', Reconcile demo_reconciler BpfmanConfigName cluster1 = (Ret None, w') ∧
        settled (demo_config None [BpfmanConfigFinalizer; "other"]) demo_reconciler w' ∧
        Reconcile demo_reconciler BpfmanConfigName w' = (Ret None, w').
Proof.
  apply (Reconcile_settles _ demo_reconciler BpfmanConfigName cluster1).
  - exact cluster1_live.
  - vm_compute. reflexivity.
  - vm_compute. reflexivity.
  - by apply cluster_prepared.
Defined.

(** The override names another version of the API group and still counts. *)
Lemma Reconcile_spares_witness :
  view KDaemonSet "bpfman" "bpfman-daemon"
    (Reconcile demo_reconciler BpfmanConfigName cluster1).2 = NotFound.
Proof.
  rewrite (Reconcile_spares (demo_config None [BpfmanConfigFinalizer; "other"]) demo_reconciler
             BpfmanConfigName cluster1 KDaemonSet).
  - vm_compute. reflexivity.
  - vm_compute. reflexivity.
  - right. split; [vm_compute; reflexivity|discriminate].
  - discriminate.
Defined.

Lemma Reconcile_finalizer_witness :
  let w := cluster_config (Some 7) [BpfmanConfigFinalizer; "other"] in
  let c' := demo_config (Some 7) ["other"] in
  Reconcile demo_reconciler BpfmanConfigName w
    = (Ret (api_Update KConfig c' w).1, (api_Update KConfig c' w).2).
Proof.
  intros w c'.
  destruct (Reconcile_finalizer (demo_config (Some 7) [BpfmanConfigFinalizer; "other"])
    demo_reconciler BpfmanConfigName w) as [H _].
  - vm_compute. reflexivity.
  - left. discriminate.
  - exact H.
Defined.

Lemma reconcileNamespace_no_node_selector_witness :
  ∃ y, view KNamespace "" "bpfman"
         (reconcileNamespace demo_reconciler (demo_config None []) cluster1).2 = Got y ∧
       om_Annotations (obj_meta y) !! "openshift.io/node-selector" = None.
Proof.
  apply (reconcileNamespace_no_node_selector (demo_config None []) demo_reconciler cluster1 _
           demo_namespace).
  - exact cluster1_live.
  - vm_compute. reflexivity.
  - reflexivity.
  - vm_compute. reflexivity.
Defined.

Lemma configureBpfmanDs_spec_witness :
  ∃ ds' ct', configureBpfmanDs (sim_ds emptyObjectMeta) (demo_config None []) cluster1
               = (Ret ds', cluster1) ∧
    ps_Containers (tpl_Spec (ds_Template ds')) !! 1%nat = Some ct' ∧
    ct_Image ct' = "agent:1" ∧ ct_Args ct' = ["--health-probe-bind-address=:8175"; "--v"].
Proof.
  destruct (configureBpfmanDs_spec (sim_ds emptyObjectMeta) (demo_config None []) cluster1)
    as (ds' & H & _ & _ & _ & _ & _ & Hct).
  destruct (Hct 1%nat (sim_container "bpfman-agent" "agent:0"
    ["--health-probe-bind-address=:1"; "--v"])) as (ct' & Hi & Hconf); [reflexivity|].
  exists ds', ct'. split; [exact H|]. split; [exact Hi|]. split.
  - apply (configured_agent _ _ _ _ Hconf). reflexivity.
  - rewrite (configured_args _ _ _ _ Hconf). vm_compute. reflexivity.
Defined.
