(* ===== verification/Simulation.v ===== *)
(** A simulated node: the simulated daemon of Bpfman with a host whose
    namespaces, interfaces and containers are given, and an API server with the
    objects of the cluster scope. It satisfies the interfaces the agent's theorems
    assume, so that they can be applied to concrete runs. *)

From S2P Require Import Prelude ApiTypes Constants Bpfman Selectors Links LinkSpecs.
From S2P Require Import LinkTheorems LinkUpdate Kinds ClKinds NsKinds KindSpecs KindUpdates.
From S2P Require Import Application Apps AppSpecs AppLoop Operator.
From stdpp Require Import options.

(** The objects of the cluster scope and a clock in milliseconds. *)
Record SimAPI := mkSimAPI {
  sa_node : Node;
  sa_apps : list ClusterBpfApplication;
  sa_states : list ClusterBpfApplicationState;
  sa_clock : Z;
}.

Record SimNode := mkSimNode {
  sn_daemon : Sim;
  sn_uuids : nat;
  sn_netns : gmap string Z;
  sn_discovered : list (Interface * bool);
  sn_containers : list ContainerInfo;
  sn_api : SimAPI;
}.

Definition set_daemon (d : Sim) (s : SimNode) : SimNode :=
  mkSimNode d (sn_uuids s) (sn_netns s) (sn_discovered s) (sn_containers s) (sn_api s).

Definition set_api (a : SimAPI) (s : SimNode) : SimNode :=
  mkSimNode (sn_daemon s) (sn_uuids s) (sn_netns s) (sn_discovered s) (sn_containers s) a.

Definition on_daemon {A} (f : Sim → A * Sim) (s : SimNode) : A * SimNode :=
  let '(a, d) := f (sn_daemon s) in (a, set_daemon d s).

#[export] Instance SimNode_bpfman : BpfmanClient SimNode := {|
  bpfman_Load rq := on_daemon (bpfman_Load rq);
  bpfman_Unload id := on_daemon (bpfman_Unload id);
  bpfman_Attach rq := on_daemon (bpfman_Attach rq);
  bpfman_Detach l := on_daemon (bpfman_Detach l);
  bpfman_Get id := on_daemon (bpfman_Get id);
  bpfman_List rq := on_daemon (bpfman_List rq);
|}.

(** An expression matches the names it is a prefix of; one that opens a group
    does not compile. *)
Definition sim_Compile (s : string) : result (string → bool) :=
  if String.prefix "(" s then Err "missing closing )" else Ok (String.prefix s).

Definition sim_named (names : option (list string)) (cs : list ContainerInfo)
    : option (list ContainerInfo) :=
  match filter (λ c, match names with
                     | None => true
                     | Some ns => bool_decide (containerName c ∈ ns)
                     end = true) cs with
  | [] => None
  | cs => Some cs
  end.

#[export] Instance SimNode_env : AgentEnv SimNode := {|
  env_bpfman := SimNode_bpfman;
  env_netns := {|
    GetNetNsId path s := (sn_netns s !! netns_path path, s);
    NetNs_Reset s := (tt, s) |};
  env_uuid := {|
    uuid_New s := ("uuid-" +:+ pretty (sn_uuids s),
      mkSimNode (sn_daemon s) (S (sn_uuids s)) (sn_netns s) (sn_discovered s) (sn_containers s)
        (sn_api s)) |};
  env_interfaces := {| Interfaces_Range s := (sn_discovered s, s) |};
  env_hostnet := {| net_Interfaces s := (Ok [], s); net_ParseIP _ := None |};
  env_containers := {|
    GetContainers _ _ names s := (Ok (sim_named names (sn_containers s)), s) |};
  env_regexp := {| regexp_Compile := sim_Compile |};
|}.

Lemma on_daemon_1 {A} (f : Sim → A * Sim) s : (on_daemon f s).1 = (f (sn_daemon s)).1.
Proof. unfold on_daemon. by destruct (f (sn_daemon s)). Qed.
Lemma on_daemon_2 {A} (f : Sim → A * Sim) s :
  sn_daemon (on_daemon f s).2 = (f (sn_daemon s)).2.
Proof. unfold on_daemon. by destruct (f (sn_daemon s)). Qed.

#[export] Program Instance SimNode_laws : BpfmanLaws SimNode :=
  {| loaded s := loaded (sn_daemon s) |}.
Next Obligation.
  intros id w. cbv beta. change (bpfman_Get id w) with (on_daemon (bpfman_Get id) w).
  rewrite on_daemon_2. exact (law_Get_state (W := Sim) id (sn_daemon w)).
Qed.
Next Obligation.
  intros id w r. cbv beta. change (bpfman_Get id w) with (on_daemon (bpfman_Get id) w).
  rewrite on_daemon_1. exact (law_Get_Ok (W := Sim) id (sn_daemon w) r).
Qed.
Next Obligation.
  intros id w e. cbv beta. change (bpfman_Get id w) with (on_daemon (bpfman_Get id) w).
  rewrite on_daemon_1. exact (law_Get_Err (W := Sim) id (sn_daemon w) e).
Qed.
Next Obligation.
  intros rq w l. cbv beta. change (bpfman_Attach rq w) with (on_daemon (bpfman_Attach rq) w).
  rewrite on_daemon_1, on_daemon_2. exact (law_Attach_Ok (W := Sim) rq (sn_daemon w) l).
Qed.
Next Obligation.
  intros rq w e. cbv beta. change (bpfman_Attach rq w) with (on_daemon (bpfman_Attach rq) w).
  rewrite on_daemon_1, on_daemon_2. exact (law_Attach_Err (W := Sim) rq (sn_daemon w) e).
Qed.
Next Obligation.
  intros l w. cbv beta. change (bpfman_Detach l w) with (on_daemon (bpfman_Detach l) w).
  rewrite on_daemon_1, on_daemon_2. exact (law_Detach_Ok (W := Sim) l (sn_daemon w)).
Qed.
Next Obligation.
  intros l w e. cbv beta. change (bpfman_Detach l w) with (on_daemon (bpfman_Detach l) w).
  rewrite on_daemon_1, on_daemon_2. exact (law_Detach_Err (W := Sim) l (sn_daemon w) e).
Qed.
Next Obligation.
  intros id w. cbv beta. change (bpfman_Unload id w) with (on_daemon (bpfman_Unload id) w).
  rewrite on_daemon_1, on_daemon_2. exact (law_Unload_Ok (W := Sim) id (sn_daemon w)).
Qed.
Next Obligation.
  intros id w e. cbv beta. change (bpfman_Unload id w) with (on_daemon (bpfman_Unload id) w).
  rewrite on_daemon_1, on_daemon_2. exact (law_Unload_Err (W := Sim) id (sn_daemon w) e).
Qed.

#[export] Instance SimNode_reliable : BpfmanReliable SimNode.
Proof.
  split.
  - intros rq w. change (bpfman_Attach rq w) with (on_daemon (bpfman_Attach rq) w).
    rewrite on_daemon_1. exact (law_Attach_succeeds (W := Sim) rq (sn_daemon w)).
  - intros id ls l w. change (bpfman_Detach l w) with (on_daemon (bpfman_Detach l) w).
    rewrite on_daemon_1. exact (law_Detach_succeeds (W := Sim) id ls l (sn_daemon w)).
Qed.

#[export] Program Instance SimNode_host : HostLaws SimNode :=
  {| host_view s := mkHostView (λ path, sn_netns s !! netns_path path) (Ok [])
       (sn_discovered s) (λ _ _ names, Ok (sim_named names (sn_containers s))) |}.
Solve Obligations with done.

Lemma SimNode_ok : daemon_ok (W := SimNode) False ∅.
Proof. split; [set_solver|right; apply SimNode_reliable]. Qed.

Lemma SimNode_ok_any : daemon_ok (W := SimNode) True ∅.
Proof. split; [set_solver|by left]. Qed.

Lemma sim_load_spec infos d :
  Forall2 (λ i r, ∃ info kern, pr_Info r = Some info ∧ pr_KernelInfo r = Some kern ∧
    pi_Name info = li_Name i ∧ is_Some (loaded (sim_load infos d).2 !! ki_Id kern))
    infos (sim_load infos d).1 ∧
  ∀ id, is_Some (loaded d !! id) → is_Some (loaded (sim_load infos d).2 !! id).
Proof.
  revert d. induction infos as [|i infos IH]; intros d; [done|]. cbn [sim_load].
  set (id := sim_id d). set (info := mkProgramInfo (li_Name i) [] ∅).
  set (d1 := mkSim (<[id := info]> (sim_programs d)) (S (sim_next d))).
  destruct (IH d1) as [Hall Hkeep]. destruct (sim_load infos d1) as [rs d2]. cbn in *.
  assert (∀ i, is_Some (loaded d !! i) ∨ i = id → is_Some (loaded d1 !! i)) as Hd1.
  { intros x Hx. unfold loaded in *. cbn in *. unfold sim_loaded in *. cbn in *.
    rewrite lookup_fmap. rewrite lookup_fmap in Hx. destruct (decide (id = x)) as [->|Hne].
    - by rewrite lookup_insert_eq.
    - rewrite lookup_insert_ne by done. destruct Hx; congruence. }
  split.
  - constructor; [|done]. exists info, (sim_kernel id (li_Name i)).
    split; [done|]. split; [done|]. split; [done|]. apply Hkeep, Hd1. by right.
  - intros x Hx. apply Hkeep, Hd1. by left.
Qed.

#[export] Instance SimNode_load : BpfmanLoadLaws SimNode.
Proof.
  split.
  - intros rq w rs. change (bpfman_Load rq w) with (on_daemon (bpfman_Load rq) w).
    rewrite on_daemon_1. intros Hrs. destruct (sim_load_spec (lr_Info rq) (sn_daemon w)) as [Hall _].
    unfold loaded. cbn. rewrite on_daemon_2. cbn in *.
    destruct (sim_load (lr_Info rq) (sn_daemon w)) as [rs' d]. cbn in *. by injection Hrs as <-.
  - intros rq w id. change (bpfman_Load rq w) with (on_daemon (bpfman_Load rq) w).
    unfold loaded. cbn. rewrite on_daemon_2. cbn.
    destruct (sim_load_spec (lr_Info rq) (sn_daemon w)) as [_ Hkeep].
    destruct (sim_load (lr_Info rq) (sn_daemon w)) as [rs' d]. apply Hkeep.
Qed.

(** ** The simulated API server *)

(** A selector matches the label sets that contain its labels. *)
#[export] Instance Sim_labels : LabelLib := {|
  labelSelectorAsSelector sel := Ok (λ ls, bool_decide (MatchLabels sel ⊆ ls));
  nodeLabelSet ls := Ok ls;
|}.

#[export] Instance Sim_bytecode : BytecodeLib SimNode := {|
  reference_Domain _ := Ok "quay.io";
  ParseAuth _ _ s := (Ok None, s);
|}.

Definition sim_key (an : ClusterBpfApplicationState) : string * string :=
  (om_Namespace (as_meta an), om_Name (as_meta an)).

(** A write replaces the object of that name, if there is one; one that is being deleted
    goes with its last finalizer. *)
Definition sim_put_state (an : ClusterBpfApplicationState) (states : list ClusterBpfApplicationState)
    : result (list ClusterBpfApplicationState) :=
  match list_find (λ old, sim_key old = sim_key an) states with
  | Some (i, _) =>
      Ok (if decide (om_DeletionTimestamp (as_meta an) ≠ None ∧ om_Finalizers (as_meta an) = [])
          then delete i states else <[i := an]> states)
  | None => Err "not found"
  end.

Definition sim_put_status (an : ClusterBpfApplicationState) (states : list ClusterBpfApplicationState)
    : result (list ClusterBpfApplicationState) :=
  match list_find (λ old, sim_key old = sim_key an) states with
  | Some (i, _) => Ok (<[i := an]> states)
  | None => Err "not found"
  end.

Definition sim_owned (app : ClusterBpfApplication) (m : ObjectMeta) : ObjectMeta :=
  mkObjectMeta (om_Name m) (om_Namespace m) (om_UID m) (om_ResourceVersion m)
    (om_DeletionTimestamp m) (om_Labels m) (om_Annotations m)
    [mkOwnerReference "ClusterBpfApplication" (om_Name (app_meta app)) (om_UID (app_meta app)) (Some true)]
    (om_Finalizers m).

Definition sim_add_state (an : ClusterBpfApplicationState) (states : list ClusterBpfApplicationState)
    : result (list ClusterBpfApplicationState) :=
  if decide (sim_key an ∈ sim_key <$> states) then Err "already exists" else Ok (states ++ [an]).

Definition sim_write (states : list ClusterBpfApplicationState) (s : SimNode) : SimNode :=
  set_api (mkSimAPI (sa_node (sn_api s)) (sa_apps (sn_api s)) states (sa_clock (sn_api s))) s.

Definition sim_commit (an : ClusterBpfApplicationState)
    (states : result (list ClusterBpfApplicationState)) (s : SimNode)
    : result ClusterBpfApplicationState * SimNode :=
  match states with
  | Ok states => (Ok an, sim_write states s)
  | Err e => (Err e, s)
  end.

#[export] Instance Sim_API :
    ApplicationAPI SimNode ClBpfApplicationProgram ClBpfApplicationProgramState := {|
  api_GetNode _ s := (Ok (sa_node (sn_api s)), s);
  api_ListApps s := (Ok (sa_apps (sn_api s)), s);
  api_ListStates ns labels s :=
    (Ok (filter (λ an, labels ⊆ om_Labels (as_meta an) ∧
                       om_Namespace (as_meta an) = default (om_Namespace (as_meta an)) ns)
           (sa_states (sn_api s))), s);
  api_Create an s := sim_commit an (sim_add_state an (sa_states (sn_api s))) s;
  api_Update an s := sim_commit an (sim_put_state an (sa_states (sn_api s))) s;
  api_StatusUpdate an s := sim_commit an (sim_put_status an (sa_states (sn_api s))) s;
  api_SetControllerReference app an := Ok (mkAppState (sim_owned app (as_meta an)) (as_Status an));
  time_Now s := (sa_clock (sn_api s), s);
  poll_tick s :=
    let now := sa_clock (sn_api s) + updateRetryInterval_ms in
    (bool_decide (now ≤ updateTimeout_ms),
     set_api (mkSimAPI (sa_node (sn_api s)) (sa_apps (sn_api s)) (sa_states (sn_api s)) now) s);
|}.

#[export] Program Instance Sim_poll :
    PollLaws SimNode ClBpfApplicationProgram ClBpfApplicationProgramState :=
  {| elapsed s := sa_clock (sn_api s) |}.
Next Obligation. intros w Ht. cbn in *. apply bool_decide_eq_true in Ht. lia. Qed.

(** ** A node with one loaded XDP program *)

Definition sim_node : SimNode :=
  mkSimNode (mkSim {[1001 := mkProgramInfo "xdp_pass" [2001] ∅]} 1) 0
    {[host_netns := 42; "/host/proc/7/ns/net" := 43]}
    [(mkInterface "eth0" 1 "" [2; 0; 0; 0; 0; 1] 3, true);
     (mkInterface "lo" 2 "" [0; 0; 0; 0; 0; 0] 3, true)]
    [mkContainerInfo "pod-a" "main" 7] (mkSimAPI (mkNode emptyObjectMeta []) [] [] 0).

Definition xdp_link (should : bool) (uuid iface : string) (id : option Z)
    : ClXdpAttachInfoState :=
  mkClXdpAttachInfoState (mkAttachInfoStateCommon should uuid id ApAttachNotAttached)
    iface "" 1000 None.

Definition xdp_program (ifaces : list string) : ClBpfApplicationProgram :=
  mkClBpfApplicationProgram "xdp_pass" ProgTypeXDP
    (Some (mkWithLinks (Some [mkClXdpAttachInfo (mkInterfaceSelector None ifaces None) None
                                None None])))
    None None None None None None None None None.

Definition xdp_state (id : option Z) (links : list ClXdpAttachInfoState)
    : ClBpfApplicationProgramState :=
  mkClBpfApplicationProgramState (mkBpfProgramStateCommon "xdp_pass" ProgAttachPending id)
    ProgTypeXDP (Some (mkWithLinks (Some links))) None None None None None None None None None.

Definition sim_rec (ifaces : list string) (id : option Z) (links : list ClXdpAttachInfoState)
    : ProgRec ClBpfApplicationProgram ClBpfApplicationProgramState :=
  mkProgRec (mkReconcilerCommon "node-1" ClBpfApplicationControllerFinalizer
               (mkNode emptyObjectMeta [])) "" (xdp_program ifaces) (xdp_state id links).

(** ** A cluster-scoped application on that node *)

Definition sim_meta (name : string) (deleted : bool) (finalizers : list string) : ObjectMeta :=
  mkObjectMeta name "" "" "" (if deleted then Some 1 else None)
    (<[BpfAppStateOwner := "app"]> {[K8sHostLabel := "node-1"]}) ∅ [] finalizers.

Definition sim_app (deleted : bool) (programs : list ClBpfApplicationProgram)
    : ClusterBpfApplication :=
  mkApplication (sim_meta "app" deleted [BpfmanOperatorFinalizer])
    (mkBpfAppCommon (mkLabelSelector ∅ []) ∅ (mkByteCodeSelector None (Some "/tmp/a.o")) None)
    (Some programs) (mkBpfAppStatus None).

Definition sim_condition (type : string) : Condition :=
  mkCondition type ConditionTrue 0 (Some 0) type "".

Definition sim_app_state (load_status : AppLoadStatus) (programs : list ClBpfApplicationProgramState)
    (conditions : list Condition) : ClusterBpfApplicationState :=
  mkAppState (sim_meta "app-1" false [ClBpfApplicationControllerFinalizer])
    (mkAppStateStatus 1 "node-1" load_status (Some programs) (Some conditions)).

Definition sim_apprec (app : ClusterBpfApplication) (st : ClusterBpfApplicationState)
    : AppRec ClBpfApplicationProgram ClBpfApplicationProgramState :=
  mkAppRec (mkReconcilerCommon "node-1" ClBpfApplicationControllerFinalizer
              (mkNode emptyObjectMeta [])) app st.

(** The node with the application's state in the API server. *)
Definition sim_with (app : ClusterBpfApplication) (st : ClusterBpfApplicationState) : SimNode :=
  set_api (mkSimAPI (mkNode emptyObjectMeta []) [app] [st] 0) sim_node.

(** ** The operator's view of the same objects *)

(** The applications after a write of [app]; one that is being deleted goes with its
    last finalizer. *)
Definition sim_put (app : ClusterBpfApplication) (apps : list ClusterBpfApplication)
    : list ClusterBpfApplication :=
  filter (λ a, om_DeletionTimestamp (app_meta a) = None ∨ om_Finalizers (app_meta a) ≠ [])
    ((λ old, if decide (om_Name (app_meta old) = om_Name (app_meta app)) then app else old)
       <$> apps).

Definition set_apps (apps : list ClusterBpfApplication) (s : SimNode) : SimNode :=
  set_api (mkSimAPI (sa_node (sn_api s)) apps (sa_states (sn_api s)) (sa_clock (sn_api s))) s.

#[export] Instance Sim_operator :
    OperatorAPI SimNode ClBpfApplicationProgram ClBpfApplicationProgramState := {|
  op_GetApp _ name s :=
    (match filter (λ app, om_Name (app_meta app) = name) (sa_apps (sn_api s)) with
     | app :: _ => Got app
     | [] => NotFound
     end, s);
  op_GetState _ name s :=
    (match filter (λ an, om_Name (as_meta an) = name) (sa_states (sn_api s)) with
     | an :: _ => Got an
     | [] => NotFound
     end, s);
  op_ListStates _ labels s :=
    (Ok (filter (λ an, labels ⊆ om_Labels (as_meta an)) (sa_states (sn_api s))), s);
  op_ListNodes s := (Ok [sa_node (sn_api s)], s);
  op_Update app s := (None, set_apps (sim_put app (sa_apps (sn_api s))) s);
  op_StatusUpdate app s := (None, set_apps (sim_put app (sa_apps (sn_api s))) s);
  op_Now s := (sa_clock (sn_api s), s);
|}.
