(* ===== verification/Scenarios.v ===== *)
(** Whole runs of the cluster-scoped agent on the simulated node: the life of an
    application from its creation to its deletion, and a node that an application
    with attach points does not select. *)

From S2P Require Import Prelude ApiTypes Constants Bpfman Selectors Links Kinds ClKinds NsKinds.
From S2P Require Import Application Apps AppSpecs AppLoop Operator Simulation.
From stdpp Require Import options.

(** [n] Reconciles in a row: their results and the last world. *)
Fixpoint reconciles (n : nat) (w : SimNode) : list (outcome (result Z)) * SimNode :=
  match n with
  | O => ([], w)
  | S n' =>
      let '(res, w') := ClApp.Reconcile "node-1" "default/app" w in
      let '(rest, w'') := reconciles n' w' in
      (res :: rest, w'')
  end.

(** What the API server has of the application on this node. *)
Definition conditions_of (w : SimNode) : list (list string) :=
  (λ an, cond_Type <$> elems (st_Conditions (as_Status an))) <$> sa_states (sn_api w).
Definition finalizers_of (w : SimNode) : list (list string) :=
  (λ an, om_Finalizers (as_meta an)) <$> sa_states (sn_api w).

Definition node_of (labels : gmap string string) : Node :=
  mkNode (mkObjectMeta "node-1" "" "" "" None labels ∅ [] []) [].

Definition world (apps : list ClusterBpfApplication) (states : list ClusterBpfApplicationState)
    : SimNode :=
  set_daemon (mkSim ∅ 0) (set_api (mkSimAPI (node_of ∅) apps states 0) sim_node).

(** The application's deletion is requested. *)
Definition delete_apps (w : SimNode) : SimNode :=
  set_api (mkSimAPI (sa_node (sn_api w)) [sim_app true [xdp_program ["eth0"]]]
             (sa_states (sn_api w)) (sa_clock (sn_api w))) w.

Definition created : SimNode := (reconciles 1 (world [sim_app false [xdp_program ["eth0"]]] [])).2.
Definition running : SimNode := (reconciles 2 created).2.
Definition gone : SimNode := (reconciles 3 (delete_apps running)).2.

(** The programs the daemon has, with their links. *)
Definition daemon_of (w : SimNode) : list (Z * list Z) :=
  map_to_list (elements <$> loaded w).

(** On the simulated node an application goes through its whole life: the
    first Reconcile creates its state, pending; the next two load the program and
    attach it to the one interface of the spec, with condition Success; a further
    one changes neither the API server nor the daemon; once its deletion is
    requested three more leave the daemon empty, the state Unloaded and without
    the agent's finalizer. *)
Theorem application_lifecycle :
  (ClApp.Reconcile "node-1" "default/app" (world [sim_app false [xdp_program ["eth0"]]] [])).1 =
    Ret (Ok 0) ∧
  conditions_of created = [["Pending"]] ∧ daemon_of created = [] ∧
  conditions_of running = [["Success"]] ∧ daemon_of running = [(1001, [1002])] ∧
  sn_api (reconciles 1 running).2 = sn_api running ∧
  daemon_of (reconciles 1 running).2 = daemon_of running ∧
  conditions_of gone = [["Unloaded"]] ∧ finalizers_of gone = [[]] ∧ daemon_of gone = [].
Proof. by vm_compute. Qed.

(** The same application, but with a selector that the node does not match. *)
Definition unselect (w : SimNode) : SimNode :=
  set_api (mkSimAPI (sa_node (sn_api w))
             [mkApplication (sim_meta "app" false [BpfmanOperatorFinalizer])
                (mkBpfAppCommon (mkLabelSelector {["role" := "edge"]} []) ∅
                   (mkByteCodeSelector None (Some "/tmp/a.o")) None)
                (Some [xdp_program ["eth0"]]) (mkBpfAppStatus None)]
             (sa_states (sn_api w)) (sa_clock (sn_api w))) w.


(** ** Agent and operator together *)

(** The user requests the deletion of every application: one without a finalizer is
    gone at once. *)
Definition request_deletion (w : SimNode) : SimNode :=
  set_apps (filter (λ a, om_Finalizers (app_meta a) ≠ [])
    ((λ a, with_app_meta (mkObjectMeta (om_Name (app_meta a)) (om_Namespace (app_meta a))
             (om_UID (app_meta a)) (om_ResourceVersion (app_meta a)) (Some 1)
             (om_Labels (app_meta a)) (om_Annotations (app_meta a))
             (om_OwnerReferences (app_meta a)) (om_Finalizers (app_meta a))) a)
       <$> sa_apps (sn_api w))) w.

(** One Reconcile of the operator for the application. *)
Definition operate (w : SimNode) : SimNode := (ClOper.Reconcile "" "app" w).2.
Definition agents (n : nat) (w : SimNode) : SimNode := (reconciles n w).2.

(** The finalizers and conditions of the applications the API server has. *)
Definition apps_of (w : SimNode) : list (list string * list string) :=
  (λ a, (om_Finalizers (app_meta a), cond_Type <$> elems (app_Conditions a)))
    <$> sa_apps (sn_api w).

(** A cluster with an application that a user has just written. *)
Definition written : SimNode :=
  world [with_app_meta (sim_meta "app" false []) (sim_app false [xdp_program ["eth0"]])] [].

Definition guarded_run : SimNode := operate written.
Definition pending_run : SimNode := operate guarded_run.
Definition serving : SimNode := operate (agents 3 pending_run).
Definition closing : SimNode := operate (request_deletion serving).
Definition closed : SimNode := operate (agents 3 closing).

(** An application goes through its whole life with both controllers: the operator
    adds its finalizer and reports Pending while the node has no state; once the agent
    has loaded and attached the program it reports Success; when the deletion is
    requested it keeps the application, reporting DeleteError, until the agent has
    unloaded the program and let go of the state; then the application is gone. *)
Theorem cluster_lifecycle :
  apps_of guarded_run = [([BpfmanOperatorFinalizer], [])] ∧
  apps_of pending_run = [([BpfmanOperatorFinalizer], ["Pending"])] ∧
  apps_of serving = [([BpfmanOperatorFinalizer], ["Success"])] ∧
  daemon_of serving = [(1001, [1002])] ∧
  apps_of closing = [([BpfmanOperatorFinalizer], ["DeleteError"])] ∧
  daemon_of closing = [(1001, [1002])] ∧
  apps_of closed = [] ∧ daemon_of closed = [] ∧ finalizers_of closed = [[]].
Proof. by vm_compute. Qed.

(** The agent is faster than the operator, and the user deletes the application before
    the operator has added its finalizer. *)
Definition orphaned : SimNode := request_deletion (agents 3 written).

Lemma orphaned_steady n : (reconciles n orphaned).2 = orphaned.
Proof.
  assert (Hone : ClApp.Reconcile "node-1" "default/app" orphaned = (Ret (Ok 0), orphaned))
    by by vm_compute.
  induction n as [|n IH]; [done|]. cbn [reconciles]. rewrite Hone.
  destruct (reconciles n orphaned) as [rest w]. exact IH.
Qed.

