(* ===== verification/ProtocolWitnesses.v ===== *)
(** The simulated cluster keeps its state objects well-formed, under the agent, the
    operator and its user: the theorems of [Typing] and [Protocol] applied to it. *)

From S2P Require Import Prelude ApiTypes Constants Bpfman Selectors Links Kinds ClKinds NsKinds.
From S2P Require Import Application Apps AppSpecs Keeps Typing Operator OperatorSpecs Protocol.
From S2P Require Import Simulation Scenarios.
From stdpp Require Import options.

#[local] Abbreviation AK := (ClApp.app_kind (W := SimNode)).

(** ** The invariant of the simulated API server *)

Definition sim_live (live : owner → bool) (app : ClusterBpfApplication) : Prop :=
  app_isBeingDeleted app = negb (live (app_owner AK app)).

Definition sim_ok (live : owner → bool) (w : SimNode) : Prop :=
  Forall (well_formed AK live) (sa_states (sn_api w)) ∧
  Forall (sim_live live) (sa_apps (sn_api w)).

Lemma on_daemon_api {A} (f : Sim → A * Sim) w : sn_api (on_daemon f w).2 = sn_api w.
Proof. unfold on_daemon. by destruct (f (sn_daemon w)). Qed.

(** The objects depend on the API server's part of the node only. *)
Lemma sim_ok_api live w w' : sn_api w' = sn_api w → sim_ok live w → sim_ok live w'.
Proof. unfold sim_ok. by intros ->. Qed.

(** Neither the daemon nor a read touches the server. *)
Lemma sim_links_undisturbed (I : SimNode → Prop) :
  (∀ w w', sn_api w' = sn_api w → I w → I w') → LinksUndisturbed I.
Proof.
  intros HI. split; intros; (eapply HI; [|eassumption]); first [done|apply on_daemon_api].
Qed.

#[export] Instance sim_ok_undisturbed live : Undisturbed (sim_ok live).
Proof.
  split; [apply sim_links_undisturbed, sim_ok_api|..]; intros; (eapply sim_ok_api; [|eassumption]);
    apply on_daemon_api.
Qed.

#[export] Instance sim_ok_reads live :
  ReadsUndisturbed ClBpfApplicationProgram ClBpfApplicationProgramState (sim_ok live).
Proof. split; [apply sim_links_undisturbed, sim_ok_api|..]; by intros. Qed.

Lemma sim_ok_write live states w :
  Forall (well_formed AK live) states → sim_ok live w → sim_ok live (sim_write states w).
Proof. intros Hs [_ Ha]. by split. Qed.

Lemma sim_ok_commit live an states w :
  (∀ ans, states = Ok ans → Forall (well_formed AK live) ans) → sim_ok live w →
  sim_ok live (sim_commit an states w).2 ∧
  ∀ an', (sim_commit an states w).1 = Ok an' → an' = an.
Proof.
  intros Hs Hw. destruct states as [ans|e]; cbn; [|done]. split; [|congruence].
  apply sim_ok_write; [by apply Hs|exact Hw].
Qed.

Lemma sim_ok_replace live an w :
  well_formed AK live an → sim_ok live w →
  sim_ok live (sim_commit an (sim_put_state an (sa_states (sn_api w))) w).2 ∧
  ∀ an', (sim_commit an (sim_put_state an (sa_states (sn_api w))) w).1 = Ok an' → an' = an.
Proof.
  intros Han Hw. apply sim_ok_commit; [|exact Hw]. unfold sim_put_state.
  destruct (list_find _ _) as [[i old]|]; [|done]. intros ans [= <-].
  case_decide; [apply Forall_delete, Hw|apply Forall_insert; [apply Hw|exact Han]].
Qed.

Lemma sim_ok_replace_status live an w :
  well_formed AK live an → sim_ok live w →
  sim_ok live (sim_commit an (sim_put_status an (sa_states (sn_api w))) w).2 ∧
  ∀ an', (sim_commit an (sim_put_status an (sa_states (sn_api w))) w).1 = Ok an' → an' = an.
Proof.
  intros Han Hw. apply sim_ok_commit; [|exact Hw]. unfold sim_put_status.
  destruct (list_find _ _) as [[i old]|]; [|done]. intros ans [= <-].
  apply Forall_insert; [apply Hw|exact Han].
Qed.

Lemma Forall_filter_keep {A} (Q : A → Prop) (R : A → Prop) `{!∀ x, Decision (R x)} l :
  Forall Q l → Forall Q (filter R l).
Proof. rewrite !Forall_forall. intros HQ x [_ Hx]%list_elem_of_filter. auto. Qed.

Lemma sim_ok_list {A} (Q : A → Prop) (R : A → Prop) `{!∀ x, Decision (R x)} l :
  Forall Q l → Forall (λ x, Q x ∧ R x) (filter R l).
Proof.
  rewrite !Forall_forall. intros HQ x [HR Hx]%list_elem_of_filter. auto.
Qed.

#[export] Instance sim_typed_store live : TypedStore AK live (sim_ok live).
Proof.
  split; try (intros; assumption); try apply _.
  - intros w Hw. split; [done|]. intros apps [= <-]. apply Hw.
  - intros ns l w Hw. split; [done|]. intros ans [= <-].
    eapply Forall_impl; [apply sim_ok_list, Hw|]. intros an (Hwf & Hl & Hns).
    split_and!; [done..|]. by intros n ->.
  - intros an w Hw Han. destruct (sim_ok_commit live an (sim_add_state an (sa_states (sn_api w))) w)
      as [Hok Hans]; [|exact Hw|].
    + unfold sim_add_state. destruct (decide _); [done|]. intros ans [= <-].
      apply Forall_app. split; [apply Hw|by constructor].
    + split; [exact Hok|]. by intros an' ->%Hans.
  - intros an w Hw Han. by apply sim_ok_replace.
  - intros an w Hw Han. destruct (sim_ok_replace_status live an w Han Hw) as [Hok Hans].
    split; [exact Hok|]. by intros an' ->%Hans.
  - by intros app an an' [= <-].
Qed.

(** ** The operator and the users *)

Lemma sim_ok_apps live apps w :
  Forall (sim_live live) apps → sim_ok live w → sim_ok live (set_apps apps w).
Proof. intros Ha [Hs _]. by split. Qed.

Lemma sim_ok_put live app w :
  sim_live live app → sim_ok live w → sim_ok live (set_apps (sim_put app (sa_apps (sn_api w))) w).
Proof.
  intros Ha Hw. apply sim_ok_apps; [|exact Hw]. apply Forall_filter_keep, Forall_fmap.
  eapply Forall_impl; [apply Hw|]. intros old Hold. cbn. by destruct (decide _).
Qed.

#[export] Instance sim_operator_store live : OperatorStore AK live (sim_ok live).
Proof.
  split; try (intros; assumption).
  - intros ns name w Hw. split; [done|]. cbn.
    destruct (filter _ _) as [|a l] eqn:Hf; [done|]. intros app [= <-].
    assert (Ha : a ∈ filter (λ app, om_Name (app_meta app) = name) (sa_apps (sn_api w)))
      by (rewrite Hf; left).
    apply list_elem_of_filter in Ha as [_ Ha]. destruct Hw as [_ Hw].
    rewrite Forall_forall in Hw. by apply Hw.
  - intros ns l w Hw. split; [done|]. intros ans [= <-]. by apply Forall_filter_keep, Hw.
  - intros app w Hw Ha. by apply sim_ok_put.
  - intros app w Hw Ha. by apply sim_ok_put.
Qed.

(** What users and the cluster do: applications are created, changed and deleted, state
    objects are removed, the node and what the daemon has change. *)
Inductive sim_other (w : SimNode) : SimNode → Prop :=
  | user_creates app :
      app_isBeingDeleted app = false →
      Forall (λ a, om_Name (app_meta a) ≠ om_Name (app_meta app)) (sa_apps (sn_api w)) →
      (∀ an, an ∈ sa_states (sn_api w) → state_owner AK an = app_owner AK app → guarded AK an) →
      sim_other w (set_apps (sa_apps (sn_api w) ++ [app]) w)
  | user_changes i old app :
      sa_apps (sn_api w) !! i = Some old → om_Name (app_meta app) = om_Name (app_meta old) →
      om_DeletionTimestamp (app_meta app) = om_DeletionTimestamp (app_meta old) →
      sim_other w (set_apps (<[i := app]> (sa_apps (sn_api w))) w)
  | user_deletes : sim_other w (request_deletion w)
  | states_removed (kept : ClusterBpfApplicationState → Prop) `{!∀ an, Decision (kept an)} :
      sim_other w (sim_write (filter kept (sa_states (sn_api w))) w)
  | node_changes node :
      sim_other w (set_api (mkSimAPI node (sa_apps (sn_api w)) (sa_states (sn_api w))
                              (sa_clock (sn_api w))) w)
  | daemon_changes d : sim_other w (set_daemon d w).

Lemma sim_other_keeps w w' live :
  sim_other w w' → sim_ok live w → ∃ live', sim_ok live' w'.
Proof.
  intros [app Hd Hnew Hg|i old app Hi Hn Hdel| |kept Hdec|node|d] [Hs Ha].
  - exists (λ o, bool_decide (o = app_owner AK app) || live o). split.
    + apply Forall_forall. intros an Han. rewrite Forall_forall in Hs. destruct (Hs an Han) as [Ht Hw].
      split; [exact Ht|]. intros [Hr|[Ho%bool_decide_eq_true|Hl]%orb_true_iff]; auto.
    + apply Forall_app. split.
      * eapply Forall_impl; [apply Forall_and; exact (conj Ha Hnew)|]. intros a [Hla Hne].
        unfold sim_live. rewrite bool_decide_eq_false_2; [exact Hla|]. by intros [= Hn].
      * constructor; [|done]. unfold sim_live. by rewrite Hd, bool_decide_eq_true_2.
  - exists live. split; [exact Hs|]. apply Forall_insert; [exact Ha|].
    rewrite Forall_forall in Ha. specialize (Ha old). unfold sim_live, app_isBeingDeleted in *.
    rewrite Hdel, Ha by by eapply list_elem_of_lookup_2.
    by replace (app_owner AK app) with (app_owner AK old) by (unfold app_owner; cbn; by rewrite Hn).
  - exists (λ _, false). split.
    + eapply Forall_impl; [exact Hs|]. intros an [Ht Hg]. split; [exact Ht|].
      intros [Hr|Hl]; [|done]. by apply Hg; left.
    + apply Forall_filter_keep, Forall_fmap, Forall_true. by intros a.
  - exists live. split; [|exact Ha]. by apply Forall_filter_keep.
  - by exists live.
  - by exists live.
Qed.

(** ** The theorems *)

(** The cluster before there is an application, and before the first Reconcile. *)
Definition empty_cluster : SimNode := world [] [].

Lemma empty_ok : sim_ok (λ _, true) empty_cluster.
Proof. by split. Qed.

Lemma written_ok : sim_ok (λ _, true) written.
Proof. split; [by constructor|]. by constructor. Qed.

Lemma Reconcile_well_formed_witness :
  let w := (ClApp.Reconcile "node-1" "default/app" written).2 in
  sim_ok (λ _, true) w ∧ length (sa_states (sn_api w)) = 1%nat.
Proof.
  split; [|by vm_compute].
  apply (Reconcile_well_formed AK (λ _, true) (sim_ok (λ _, true))). exact written_ok.
Defined.

#[local] Abbreviation cluster_step := (step ClOper.kind AK sim_other).

Lemma operate_step w : cluster_step w (operate w).
Proof. apply operator_step. Qed.

Lemma agents_steps n w : rtc cluster_step w (agents n w).
Proof.
  revert w. induction n as [|n IH]; intros w; [done|].
  set (w' := (ClApp.Reconcile "node-1" "default/app" w).2).
  replace (agents (S n) w) with (agents n w').
  - apply rtc_l with w'; [|apply IH].
    apply (agent_step ClOper.kind AK sim_other "node-1" "default/app").
  - unfold agents, w'. cbn [reconciles].
    destruct (ClApp.Reconcile "node-1" "default/app" w) as [res w1]. cbn.
    by destruct (reconciles n w1).
Qed.

Lemma serving_steps : rtc cluster_step empty_cluster (request_deletion serving).
Proof.
  eapply (rtc_l _ _ written).
  { apply other_step. apply (user_creates empty_cluster); [done|constructor|].
    intros an Hin. by apply elem_of_nil in Hin. }
  eapply rtc_l; [apply operate_step|]. eapply rtc_l; [apply operate_step|].
  etransitivity; [apply (agents_steps 3)|].
  eapply rtc_l; [apply operate_step|]. eapply rtc_l; [apply other_step, user_deletes|]. done.
Qed.

(** The application of that cluster, and its state object. *)
Definition closing_app : ClusterBpfApplication :=
  default (sim_app true []) (head (sa_apps (sn_api (request_deletion serving)))).
Definition closing_states : list ClusterBpfApplicationState :=
  sa_states (sn_api (request_deletion serving)).

Lemma closing_records :
  ∃ s, s ∈ closing_states ∧ records (elems (st_Programs (as_Status s))).
Proof.
  assert (Hids : (λ an, progId <$> elems (st_Programs (as_Status an))) <$> closing_states
                 = [[Some 1001]]) by by vm_compute.
  destruct closing_states as [|an l]; [done|]. injection Hids as Han _.
  exists an. split; [left|]. destruct (elems _) as [|p ps]; [done|]. injection Han as Hp _.
  exists p. split; [left|]. by rewrite Hp.
Qed.

Lemma Ok_inj {A} (a b : A) : Ok a = Ok b → a = b.
Proof. by intros [=]. Qed.

(** The simulated server answers every list. *)
Lemma sim_listed app w :
  list_states ClOper.kind app w =
    (Ok (filter (λ an, {[BpfAppStateOwner := om_Name (app_meta app)]} ⊆ om_Labels (as_meta an))
           (sa_states (sn_api w))), w).
Proof. reflexivity. Qed.

