(* ===== verification/LedgerWitnesses.v ===== *)
(** The simulated cluster keeps books: the theorem of LedgerTheorems applied to it. *)

From S2P Require Import Prelude ApiTypes Constants Bpfman Selectors Links Kinds ClKinds NsKinds.
From S2P Require Import Application Apps AppSpecs Keeps Typing Ledger LedgerTheorems.
From S2P Require Import Operator Simulation Scenarios.
From stdpp Require Import options.

#[local] Abbreviation P := ClBpfApplicationProgram.
#[local] Abbreviation PS := ClBpfApplicationProgramState.

(** ** The simulated daemon *)

Lemma kernel_ids_cons info k rs :
  kernel_ids (mkProgramResponse info (Some k) :: rs) = ki_Id k :: kernel_ids rs.
Proof. done. Qed.

Lemma dom_sim_loaded (d : Sim) : dom (loaded d) = dom (sim_programs d).
Proof. unfold loaded. cbn. unfold sim_loaded. by rewrite dom_fmap_L. Qed.

Lemma sim_load_ledger infos d :
  Forall2 (λ i r, ∃ info k, pr_Info r = Some info ∧ pr_KernelInfo r = Some k ∧
    pi_Name info = li_Name i) infos (sim_load infos d).1 ∧
  (∀ x, x ∈ dom (sim_programs (sim_load infos d).2) ↔
        x ∈ dom (sim_programs d) ∨ x ∈ kernel_ids (sim_load infos d).1) ∧
  ∀ x, x ∈ kernel_ids (sim_load infos d).1 → x ∉ dom (sim_programs d).
Proof.
  revert d. induction infos as [|i infos IH]; intros d; cbn [sim_load].
  { cbn. split; [constructor|]. split; [intros x; set_solver|]. intros x Hx. set_solver. }
  set (d1 := mkSim _ _). destruct (IH d1) as (HF & Hd & Hn).
  assert (Hd1 : dom (sim_programs d1) = {[sim_id d]} ∪ dom (sim_programs d)) by apply dom_insert_L.
  destruct (sim_load infos d1) as [rs d2]. cbn [fst snd] in *. rewrite kernel_ids_cons.
  cbn [ki_Id]. split_and!.
  - constructor; [|done]. by repeat eexists.
  - intros x. rewrite Hd, Hd1. set_solver.
  - intros x [->|Hx]%elem_of_cons.
    + apply not_elem_of_dom, sim_id_free.
    + apply Hn in Hx. set_solver.
Qed.

#[export] Instance SimNode_ledger : LedgerDaemon SimNode.
Proof.
  split.
  - intros rq w rs. change (bpfman_Load rq w) with (on_daemon (bpfman_Load rq) w).
    rewrite on_daemon_1. intros Hrs.
    destruct (sim_load_ledger (lr_Info rq) (sn_daemon w)) as (HF & Hd & Hn).
    assert (Hl : ∀ s : SimNode, dom (loaded s) = dom (sim_programs (sn_daemon s)))
      by (intros s; apply (dom_sim_loaded (sn_daemon s))).
    rewrite !Hl, on_daemon_2. cbn in *.
    destruct (sim_load (lr_Info rq) (sn_daemon w)) as [rs' d]. cbn in *. by injection Hrs as <-.
  - intros rq w e. change (bpfman_Load rq w) with (on_daemon (bpfman_Load rq) w).
    rewrite on_daemon_1. cbn. by destruct (sim_load _ _).
  - intros id w e. change (bpfman_Unload id w) with (on_daemon (bpfman_Unload id) w).
    by rewrite on_daemon_1.
Qed.

(** ** The simulated API server *)

Definition sim_frozen (D : gset Z) (S : list ClusterBpfApplicationState) (w : SimNode) : Prop :=
  dom (loaded w) = D ∧ sa_states (sn_api w) = S.

Lemma sim_frozen_same D S w w' :
  dom (loaded w') = dom (loaded w) → sa_states (sn_api w') = sa_states (sn_api w) →
  sim_frozen D S w → sim_frozen D S w'.
Proof. unfold sim_frozen. by intros -> ->. Qed.

Lemma on_daemon_states {A} (f : Sim → A * Sim) w :
  sa_states (sn_api (on_daemon f w).2) = sa_states (sn_api w).
Proof. unfold on_daemon. by destruct (f (sn_daemon w)). Qed.

Lemma sim_dom_Attach rq (w : SimNode) : dom (loaded (bpfman_Attach rq w).2) = dom (loaded w).
Proof.
  destruct (bpfman_Attach rq w).1 as [l|e] eqn:Ha.
  - destruct (law_Attach_Ok _ _ _ Ha) as (ls & Hl & _ & ->). rewrite dom_insert_L.
    assert (ar_Id rq ∈ dom (loaded w)) by (apply elem_of_dom; by rewrite Hl). set_solver.
  - by rewrite (law_Attach_Err _ _ _ Ha).
Qed.

Lemma sim_dom_Detach l (w : SimNode) : dom (loaded (bpfman_Detach l w).2) = dom (loaded w).
Proof.
  destruct (bpfman_Detach l w).1 as [e|] eqn:Ha.
  - by rewrite (law_Detach_Err _ _ _ Ha).
  - rewrite (law_Detach_Ok _ _ Ha). apply dom_fmap_L.
Qed.

#[export] Instance sim_frozen_reads D S : ReadsUndisturbed P PS (sim_frozen D S).
Proof.
  split; [split|..]; intros; (eapply sim_frozen_same; [..|eassumption]);
    first [done|apply on_daemon_states|apply sim_dom_Attach|apply sim_dom_Detach|by rewrite law_Get_state].
Qed.

#[export] Instance sim_ledger_store : LedgerStore SimNode P PS.
Proof.
  refine {| states w := sa_states (sn_api w) |}.
  - intros rq w. apply on_daemon_states.
  - intros id w. apply on_daemon_states.
  - done.
  - intros D S ns l w [HD HS]. split; [done|]. intros ans [= <-]. by rewrite HS.
  - intros D S an w [HD HS]. cbn. unfold sim_commit, sim_add_state. rewrite HS.
    destruct (decide _) as [Hin|Hin]; cbn; [done|]. split_and!; [done..|]. by left.
  - intros D S an w [HD HS]. cbn. unfold sim_commit, sim_put_status. rewrite HS.
    destruct (list_find _ _) as [[i old]|] eqn:Hf; cbn; [|done].
    apply list_find_Some in Hf as (Hi & Hk & _). eexists. split; [done|].
    by exists i, old, an.
  - intros D S an w [HD HS]. cbn. unfold sim_commit, sim_put_state. rewrite HS.
    destruct (list_find _ _) as [[i old]|] eqn:Hf; cbn; [|by exists S; split; [|left]].
    apply list_find_Some in Hf as (Hi & Hk & _). eexists. split; [done|]. right.
    case_decide; [right; by exists i, old|left]. exists i, old, an. split_and!; [done..|by left|done].
  - by intros app an an' [= <-].
Defined.

(** ** The theorem *)

Definition step (w : SimNode) : SimNode := (ClApp.Reconcile "node-1" "default/app" w).2.

Lemma step_run (w : SimNode) :
  (ClApp.Reconcile "node-1" "default/app" w).1 = Ret (Ok 0) →
  Reconcile ClApp.app_kind "node-1" "default/app" w = (Ret (Ok 0), step w).
Proof.
  unfold step, ClApp.Reconcile.
  destruct (Reconcile ClApp.app_kind "node-1" "default/app" w). cbn. by intros ->.
Qed.

(** A node with no program and no state object. *)
Definition fresh_node : SimNode := world [sim_app false [xdp_program ["eth0"]]] [].

Lemma fresh_books : books ∅ fresh_node.
Proof.
  split; [constructor|]. split.
  - intros x. split; [|intros [Hx|(i & ids & Hi & _)]; [set_solver|done]].
    intros Hx. change (x ∈ (∅ : gset Z)) in Hx. set_solver.
  - done.
  - done.
  - constructor.
Qed.

Lemma delete_apps_books w : books ∅ w → books ∅ (delete_apps w).
Proof. done. Qed.

