(* ===== verification/LedgerScenarios.v ===== *)
(** What the theorem of LedgerTheorems excludes: a Reconcile that asks for a retry, a
    daemon whose Get fails for another reason than that the program is not loaded, and a
    daemon that gives out the ids of programs again. In each a program is lost, on the
    simulated node. *)

From S2P Require Import Prelude ApiTypes Constants Bpfman Selectors Links Kinds ClKinds NsKinds.
From S2P Require Import Application Apps AppSpecs Typing Ledger LedgerTheorems Operator.
From S2P Require Import Simulation Scenarios LedgerWitnesses.
From stdpp Require Import options.

#[local] Abbreviation P := ClBpfApplicationProgram.
#[local] Abbreviation PS := ClBpfApplicationProgramState.

(** The ids that the state objects record. *)
Definition recorded (w : SimNode) : list (list (option Z)) := records_of (sa_states (sn_api w)).

(** ** A write of the status that is refused *)

(** The server, but every write of a status meets a conflict. *)
Definition conflict_API : ApplicationAPI SimNode P PS := {|
  api_GetNode := api_GetNode (P := P) (PS := PS);
  api_ListApps := api_ListApps;
  api_ListStates := api_ListStates;
  api_Create := api_Create;
  api_Update := api_Update;
  api_StatusUpdate _ s := (Err "the object has been modified", s);
  api_SetControllerReference := api_SetControllerReference;
  time_Now := time_Now (P := P) (PS := PS);
  poll_tick := poll_tick (P := P) (PS := PS);
|}.

Definition conflict_step (w : SimNode) : outcome (result Z) * SimNode :=
  ClApp.Reconcile (ApplicationAPI0 := conflict_API) "node-1" "default/app" w.

(** ** A Get that fails *)

Definition timeout_env : AgentEnv SimNode := {|
  env_bpfman := {|
    bpfman_Load := bpfman_Load;
    bpfman_Unload := bpfman_Unload;
    bpfman_Attach := bpfman_Attach;
    bpfman_Detach := bpfman_Detach;
    bpfman_Get _ s := (Err "context deadline exceeded", s);
    bpfman_List := bpfman_List |};
  env_netns := env_netns;
  env_uuid := env_uuid;
  env_interfaces := env_interfaces;
  env_hostnet := env_hostnet;
  env_containers := env_containers;
  env_regexp := env_regexp;
|}.

Definition timeout_step (w : SimNode) : outcome (result Z) * SimNode :=
  ClApp.Reconcile (AgentEnv0 := timeout_env) "node-1" "default/app" w.

(** ** A node that starts again *)

(** Two applications with one program each. *)
Definition named_app (name : string) : ClusterBpfApplication :=
  with_app_meta
    (mkObjectMeta name "" "" "" None ∅ ∅ [] [BpfmanOperatorFinalizer])
    (sim_app false [xdp_program ["eth0"]]).
Definition two_apps (a b : string) : list ClusterBpfApplication := [named_app a; named_app b].

(** The daemon starts with no program and counts ids from the start; the objects are in
    the API server, which lists the applications in no fixed order. *)
Definition reboot (apps : list ClusterBpfApplication) (w : SimNode) : SimNode :=
  set_daemon (mkSim ∅ 0) (set_apps apps w).

Definition two_running : SimNode := (reconciles 6 (world (two_apps "a" "b") [])).2.
Definition rebooted : SimNode := (reconciles 4 (reboot (two_apps "b" "a") two_running)).2.


(** A Get that fails for a loaded program makes the load check answer no: the
    Reconcile of a running application then loads all of its programs again and records
    the new ids over the old ones, so that the first program is still loaded once the
    application is deleted and its state object released. *)
Theorem get_error_leaks :
  let w1 := (timeout_step running).2 in
  let w2 := step (step (step (delete_apps w1))) in
  recorded running = [[Some 1001]] ∧ daemon_of running = [(1001, [1002])] ∧
  (timeout_step running).1 = Ret (Ok 0) ∧
  recorded w1 = [[Some 1002]] ∧ daemon_of w1 = [(1001, [1002]); (1002, [1003])] ∧
  finalizers_of w2 = [[]] ∧ recorded w2 = [[None]] ∧ daemon_of w2 = [(1001, [1002])].
Proof. by vm_compute. Qed.

