(* ===== verification/LoopScenarios.v ===== *)
(** The agent and the operator driven by nothing but the events of their own watches, on
    the simulated cluster: every order in which the two take their turns is explored. *)

From S2P Require Import Prelude ApiTypes Constants Bpfman Selectors Links Kinds ClKinds NsKinds.
From S2P Require Import Application Apps AppSpecs Operator Watches Simulation Scenarios.
From stdpp Require Import options.

#[local] Abbreviation P := ClBpfApplicationProgram.
#[local] Abbreviation PS := ClBpfApplicationProgramState.
#[local] Abbreviation Object := (AppObject P PS).

(** ** Events of the API server *)

(** A generation that counts the request for deletion as the one change of the
    specification, and a resource version that changes with every write. *)
Definition app_object (version : string) (app : ClusterBpfApplication) : Object :=
  let m := app_meta app in
  AppObj (match om_DeletionTimestamp m with Some _ => 2 | None => 1 end)
    (with_app_meta (mkObjectMeta (om_Name m) (om_Namespace m) (om_UID m) version
       (om_DeletionTimestamp m) (om_Labels m) (om_Annotations m) (om_OwnerReferences m)
       (om_Finalizers m)) app).

Definition state_object (_ : string) (an : ClusterBpfApplicationState) : Object := StateObj an.

#[local] Instance ObjectMeta_eq_dec : EqDecision ObjectMeta.
Proof. solve_decision. Defined.

(** Nothing changes the specification in these runs. *)
Definition same_app (a b : ClusterBpfApplication) : bool :=
  bool_decide (app_meta a = app_meta b ∧ app_Conditions a = app_Conditions b).
Definition same_state (a b : ClusterBpfApplicationState) : bool :=
  bool_decide (as_meta a = as_meta b ∧ as_Status a = as_Status b).

(** What the watches are told when [old] has become [new]. *)
Definition changes {A} (name : A → string) (same : A → A → bool) (object : string → A → Object)
    (old new : list A) : list (WatchEvent Object) :=
  omap (λ a, match List.find (λ b, bool_decide (name b = name a)) new with
             | None => Some (OnDelete (object "1" a))
             | Some b => if same a b then None else Some (OnUpdate (object "1" a) (object "2" b))
             end) old ++
  omap (λ b, if decide (name b ∈ name <$> old) then None else Some (OnCreate (object "1" b))) new.

Definition events (w w' : SimNode) : list (WatchEvent Object) :=
  changes (λ a, om_Name (app_meta a)) same_app app_object (sa_apps (sn_api w)) (sa_apps (sn_api w')) ++
  changes (λ a, om_Name (as_meta a)) same_state state_object (sa_states (sn_api w))
    (sa_states (sn_api w')).

(** ** Controllers with their queues *)

Record Loop := mkLoop {
  lp_world : SimNode;
  lp_agent : list Request;
  lp_operator : list Request;
}.

(** A request that is in the queue is not added again. *)
Definition enqueue (reqs queue : list Request) : list Request :=
  foldl (λ q req, if decide (req ∈ q) then q else q ++ [req]) queue reqs.

Definition told (c : Controller AppKindOf Object) (w w' : SimNode) (queue : list Request)
    : list Request :=
  foldl (λ q e, enqueue (enqueued c e) q) queue (events w w').

(** The world changes and both controllers are told. *)
Definition becomes (w' : SimNode) (l : Loop) : Loop :=
  mkLoop w'
    (told (ClBpfApplicationReconciler_SetupWithManager "node-1") (lp_world l) w' (lp_agent l))
    (told BpfApplicationReconciler_SetupWithManager (lp_world l) w' (lp_operator l)).

(** One turn takes the first request of a queue; an error or a RequeueAfter puts it back. *)
Definition again (res : outcome (result Z)) (req : Request) : list Request :=
  match res with Ret (Ok 0) => [] | _ => [req] end.

Definition agent_turn (l : Loop) : option Loop :=
  match lp_agent l with
  | [] => None
  | req :: rest =>
      let '(res, w') := ClApp.Reconcile "node-1" (rq_Name req) (lp_world l) in
      Some (becomes w' (mkLoop (lp_world l) (enqueue (again res req) rest) (lp_operator l)))
  end.

Definition operator_turn (l : Loop) : option Loop :=
  match lp_operator l with
  | [] => None
  | req :: rest =>
      let '(res, w') := ClOper.Reconcile (rq_Namespace req) (rq_Name req) (lp_world l) in
      Some (becomes w' (mkLoop (lp_world l) (lp_agent l) (enqueue (again res req) rest)))
  end.

Definition turn (l l' : Loop) : Prop := agent_turn l = Some l' ∨ operator_turn l = Some l'.

(** Nobody has anything to do. *)
Definition quiet (l : Loop) : Prop := lp_agent l = [] ∧ lp_operator l = [].

(** ** Every order of turns *)

(** All runs of at most [n] turns: every one ends, and where it ends [Q] holds. *)
Fixpoint explore (n : nat) (Q : Loop → bool) (l : Loop) : bool :=
  match n with
  | O => false
  | S n' =>
      match agent_turn l, operator_turn l with
      | None, None => Q l
      | Some a, None => explore n' Q a
      | None, Some o => explore n' Q o
      | Some a, Some o => explore n' Q a && explore n' Q o
      end
  end.

Lemma quiet_turn l : quiet l ↔ agent_turn l = None ∧ operator_turn l = None.
Proof.
  unfold quiet, agent_turn, operator_turn.
  destruct (lp_agent l) as [|a as_], (lp_operator l) as [|o os];
    try destruct (ClApp.Reconcile _ _ _); try destruct (ClOper.Reconcile _ _ _);
    (split; intros [Ha Ho]; first [by split|discriminate Ha|discriminate Ho]).
Qed.

Lemma explore_sound n Q l :
  explore n Q l = true →
  Acc (flip turn) l ∧ ∀ l', rtc turn l l' → quiet l' → Q l' = true.
Proof.
  revert l. induction n as [|n IH]; intros l He; [done|]. cbn [explore] in He.
  assert (Hnext : ∀ l1, turn l l1 → explore n Q l1 = true).
  { intros l1 [Ht|Ht]; rewrite Ht in He.
    - destruct (operator_turn l); [by apply andb_true_iff in He as [? _]|done].
    - destruct (agent_turn l); [by apply andb_true_iff in He as [_ ?]|done]. }
  split.
  - constructor. intros l1 Hl1. by apply IH, Hnext.
  - intros l' Hrun Hq. destruct Hrun as [l|l l1 l' Ht Hrun].
    + apply quiet_turn in Hq as [Ha Ho]. by rewrite Ha, Ho in He.
    + by apply (proj2 (IH l1 (Hnext l1 Ht))).
Qed.

(** ** An application from its creation to its deletion *)

Definition begun : Loop := becomes written (mkLoop (world [] []) [] []).

Definition serves (l : Loop) : bool :=
  bool_decide (apps_of (lp_world l) = [([BpfmanOperatorFinalizer], [BpfAppCondSuccess])] ∧
               conditions_of (lp_world l) = [[BpfAppStateCondSuccess]] ∧
               daemon_of (lp_world l) = [(1001, [1002])]).

(** The user requests the deletion. *)
Definition user_deletes (l : Loop) : Loop := becomes (request_deletion (lp_world l)) l.

Definition released (l : Loop) : bool :=
  bool_decide (apps_of (lp_world l) = [] ∧ daemon_of (lp_world l) = []).

(** With the application its state objects are marked for deletion, as the namespace
    controller does at the other scope, where both are objects of the namespace. *)
Definition mark_states (w : SimNode) : SimNode :=
  sim_write ((λ an : ClusterBpfApplicationState,
    let m := as_meta an in
    mkAppState (mkObjectMeta (om_Name m) (om_Namespace m) (om_UID m) (om_ResourceVersion m) (Some 1)
      (om_Labels m) (om_Annotations m) (om_OwnerReferences m) (om_Finalizers m)) (as_Status an))
    <$> sa_states (sn_api w)) w.
Definition cascade (l : Loop) : Loop := becomes (mark_states (request_deletion (lp_world l))) l.

Definition stalled (l : Loop) : bool :=
  bool_decide (apps_of (lp_world l) = [([BpfmanOperatorFinalizer], [BpfAppCondDeleteError])] ∧
               conditions_of (lp_world l) = [] ∧ daemon_of (lp_world l) = []).



(** The turns in a given order, [true] for the agent. *)
Fixpoint turns (order : list bool) (l : Loop) : option Loop :=
  match order with
  | [] => Some l
  | b :: order => if b : bool then agent_turn l ≫= turns order else operator_turn l ≫= turns order
  end.

Lemma turns_run order l l' : turns order l = Some l' → rtc turn l l'.
Proof.
  revert l. induction order as [|[] order IH]; intros l; cbn.
  - by intros [= ->].
  - intros (l1 & H1 & H2)%bind_Some. eapply rtc_l; [by left|by apply IH].
  - intros (l1 & H1 & H2)%bind_Some. eapply rtc_l; [by right|by apply IH].
Qed.

(** One order of the turns for the life, one for the end. *)
Definition up : option Loop := turns [true; false; true; false; true; false; false] begun.
Definition down : option Loop :=
  up ≫= λ l, turns [false; false; true; true; true; false] (cascade l).

