(* ===== verification/Serving.v ===== *)
(** What the agent promises for one application: against a daemon that serves what it
    can, a Reconcile of a running application brings every program to the links its spec
    stands for. Proved for a scope that names the kind of each of its programs
    ([ServedScope]); that one program's reconcile leaves the links of the others alone is
    the reason why the reconciles of all of them can be composed. *)

From S2P Require Import Prelude ApiTypes Constants Bpfman Selectors Links LinkSpecs.
From S2P Require Import LinkTheorems LinkUpdate Kinds KindSpecs Application AppSpecs AppLoop.
From S2P Require Import Keeps Typing.
From stdpp Require Import options.
#[local] Set Default Proof Using "Type*".

(** ** The table of the daemon *)

(** No link belongs to two programs. *)
Definition unshared (m : gmap Z (gset Z)) : Prop :=
  ∀ p q id, tlinked m p id = true → tlinked m q id = true → p = q.

Section frame.
Context {L : Type} `{!LinkState L, !LinkStateLaws L} (F : Prop) (stale : gset Z) (pid : Z).
Implicit Types (m : gmap Z (gset Z)) (l : L) (ls : list L).

Lemma step_elsewhere m l m' l' p :
  link_step F stale pid m l m' l' → unshared m → p ≠ pid → m' !! p = m !! p.
Proof.
  destruct 1 as [Hs Ha|ks id Hs Ha Hm Hf Hst|Hs Ha Hm|id Hs Ha Hid|Hs Ha HF|Hs Ha];
    intros Hu Hp; try done.
  - by rewrite lookup_insert_ne.
  - rewrite lookup_fmap. destruct (m !! p) as [ks|] eqn:Hks; [|done]. cbn. f_equal.
    unfold attached in Ha. rewrite Hid in Ha.
    assert (id ∉ ks); [|set_solver]. intros Hin. apply Hp.
    apply (Hu p pid id); [apply tlinked_true; by exists ks|exact Ha].
Qed.

Lemma step_unshared m l m' l' : link_step F stale pid m l m' l' → unshared m → unshared m'.
Proof.
  destruct 1 as [Hs Ha|ks id Hs Ha Hm Hf Hst|Hs Ha Hm|id Hs Ha Hid|Hs Ha HF|Hs Ha];
    intros Hu p q i; try apply Hu.
  - assert (Hnew : ∀ x, tlinked m x id = true → False).
    { intros x (ls' & Hls' & Hin)%tlinked_true. by apply (Hf x ls'). }
    assert (Hold : ∀ x, tlinked (<[pid := {[id]} ∪ ks]> m) x i = true →
      tlinked m x i = true ∨ (x = pid ∧ i = id)).
    { intros x. rewrite tlinked_insert. destruct (decide (pid = x)) as [<-|]; [|by left].
      intros [->%elem_of_singleton|Hin]%bool_decide_eq_true%elem_of_union; [by right|].
      left. apply tlinked_true. by exists ks. }
    intros [Hp|[-> ->]]%Hold [Hq|[-> ?]]%Hold; subst; try done; [by apply (Hu p q i)|..];
      by edestruct Hnew.
  - rewrite !tlinked_detach, !andb_true_iff. intros [_ Hp] [_ Hq]. by apply (Hu p q i).
Qed.

Lemma steps_elsewhere m ls m' ls' p :
  link_steps F stale pid m ls m' ls' → unshared m → p ≠ pid → m' !! p = m !! p.
Proof.
  induction 1 as [|m l m1 l' ls m2 ls' Hstep _ IH]; intros Hu Hp; [done|].
  rewrite IH; [by eapply step_elsewhere|by eapply step_unshared|done].
Qed.

Lemma steps_unshared m ls m' ls' :
  link_steps F stale pid m ls m' ls' → unshared m → unshared m'.
Proof.
  induction 1 as [|m l m1 l' ls m2 ls' Hstep _ IH]; intros Hu; [done|].
  apply IH. by eapply step_unshared.
Qed.

Lemma tlinked_local m m' p id : m !! p = m' !! p → tlinked m p id = tlinked m' p id.
Proof using Type. unfold tlinked. by intros ->. Qed.

Lemma recorded_local m m' ls : m !! pid = m' !! pid → recorded stale m pid ls → recorded stale m' pid ls.
Proof using Type.
  intros Hm [Hnd Hin]. split; [done|]. intros id Hid. rewrite <- (tlinked_local m m'); auto.
Qed.

Lemma attached_local m m' l : m !! pid = m' !! pid → attached m pid l = attached m' pid l.
Proof using Type. intros Hm. unfold attached. destruct (lid l); [by apply tlinked_local|done]. Qed.
End frame.

(** ** A kind with its contract *)

Section package.
Context {W P S : Type} `{!AgentEnv W, !BpfmanLaws W, !HostLaws W, !ProgramState S, !ProgramStateLaws S}.
Context (v : HostView).

(** A kind of program with the key of its links and what its attach points expand to. *)
Record Package := mkPackage {
  pk_A : Type;
  pk_L : Type;
  pk_K : Type;
  pk_link :: LinkState pk_L;
  pk_link_laws :: LinkStateLaws pk_L;
  pk_dec :: EqDecision pk_K;
  pk_kind : Kind W P S pk_A pk_L;
  pk_kind_laws :: KindLaws pk_kind;
  pk_key : pk_L → option pk_K;
  pk_expects : ProgRec P S → pk_A → option (list pk_L) → Prop;
  pk_update :: ∀ m, UpdateSpec pk_kind (outside v m) pk_key pk_expects;
  pk_keeps : ∀ I : W → Prop, LinksUndisturbed I → KindKeeps I pk_kind;
}.

(** The recorded links of program [pid] in [s] have distinct ids and keys, and each id
    that is not stale is that of a link of the program. *)
Definition in_order (stale : gset Z) (m : gmap Z (gset Z)) (pk : Package) (s : S) : Prop :=
  ∃ pid sl, progId s = Some pid ∧ is_Some (m !! pid) ∧
    k_owns (k := pk_kind pk) s = true ∧ k_stateLinks (pk_kind pk) s = Some sl ∧
    recorded stale m pid (elems sl) ∧ NoDup (omap (pk_key pk) (elems sl)).

(** [s] has one attached link for each link that the attach points of the program stand
    for, and no other. *)
Definition serves (m : gmap Z (gset Z)) (pk : Package) (r : ProgRec P S) (s : S) : Prop :=
  ∃ pid sl groups, progId s = Some pid ∧ k_stateLinks (pk_kind pk) s = Some sl ∧
    expanded (pk_kind pk) (pk_expects pk) r groups ∧
    NoDup (pk_key pk <$> elems sl) ∧
    (∀ kk, Some kk ∈ pk_key pk <$> elems sl ↔ kk ∈ omap (pk_key pk) (concat groups)) ∧
    Forall (λ l, is_Some (pk_key pk l) ∧ sa l = true ∧ lst l = ApAttachAttached ∧
                 attached m pid l = true) (elems sl) ∧
    ps_ProgramLinkStatus (prog_common s) = ProgAttachSuccess.

(** The state says that an attach point could not be expanded. *)
Definition update_failed (s : S) : Prop :=
  ps_ProgramLinkStatus (prog_common s) = UpdateAttachInfoError.

#[export] Instance update_failed_dec s : Decision (update_failed s).
Proof using Type. unfold update_failed. apply _. Defined.

Lemma in_order_local stale m m' pk s :
  (∀ pid, progId s = Some pid → m' !! pid = m !! pid) → in_order stale m pk s → in_order stale m' pk s.
Proof using Type.
  intros Hm (pid & sl & Hp & Hl & Ho & Hsl & Hrec & Hnd). specialize (Hm pid Hp).
  exists pid, sl. rewrite Hm. split_and!; [done..| |done]. by eapply recorded_local.
Qed.

Lemma serves_local m m' pk r s :
  (∀ pid, progId s = Some pid → m' !! pid = m !! pid) → serves m pk r s → serves m' pk r s.
Proof using Type.
  intros Hm (pid & sl & groups & Hp & Hsl & Hexp & Hnd & Hk & Hall & Hst). specialize (Hm pid Hp).
  exists pid, sl, groups. split_and!; [done..| |done]. eapply Forall_impl; [exact Hall|].
  intros l (? & ? & ? & Ha). split_and!; [done..|]. by rewrite (attached_local _ m' m).
Qed.
End package.

Section reconcile.
Context {W P S : Type} `{!AgentEnv W, !BpfmanLaws W, !HostLaws W, !ProgramState S, !ProgramStateLaws S}.
Context (v : HostView) (pk : Package (P := P) (S := S) v).
Implicit Types (r : ProgRec P S) (w : W).

Lemma programId_processed r sl :
  programId (processed (pk_kind v pk) r sl) = programId r.
Proof. unfold processed, programId, update_prog. cbn. by rewrite prog_common_set, law_prog_set. Qed.

Lemma in_order_exhausted stale m s pid sl :
  progId s = Some pid → is_Some (m !! pid) → k_owns (k := pk_kind v pk) s = true →
  k_stateLinks (pk_kind v pk) s = Some sl → recorded stale m pid (elems sl) →
  NoDup (omap (pk_key v pk) (elems sl)) → progId s = Some pid ∧ in_order v stale m pk s.
Proof using Type. intros. split; [done|]. by exists pid, sl. Qed.

Lemma keys_kept (ls ls' : list (pk_L v pk)) :
  point <$> ls' = point <$> ls → NoDup (omap (pk_key v pk) ls) →
  NoDup (omap (pk_key v pk) (filter (λ l, removable l = false) ls')).
Proof.
  intros Hpt Hnd. pose proof (key_points (pk_kind v pk) (outside v ∅) (pk_key v pk) (pk_expects v pk) ls' ls Hpt) as Hk.
  assert (Homap : ∀ xs : list (pk_L v pk), omap (pk_key v pk) xs = omap id (pk_key v pk <$> xs)).
  { induction xs as [|x xs IH]; [done|]. cbn. rewrite IH. done. }
  eapply sublist_NoDup; [exact Hnd|]. rewrite (Homap ls), <- Hk, <- Homap.
  clear. induction ls' as [|l ls' IH]; [done|]. rewrite filter_cons. cbn.
  destruct (decide _), (pk_key v pk l) eqn:Hl; cbn; rewrite ?Hl; first [done|by constructor].
Qed.

(** A reconcile of a program leaves its state in order, with its id, and the links of the
    other programs alone. *)
Lemma reconcileProgram_frame stale r pid sl w err r' w' :
  daemon_ok False stale → outside v (loaded w) w → unshared (loaded w) → programId r = Some pid →
  is_Some (loaded w !! pid) → k_owns (k := pk_kind v pk) (currentProgramState r) = true →
  k_stateLinks (pk_kind v pk) (currentProgramState r) = Some sl →
  recorded stale (loaded w) pid (elems sl) → NoDup (omap (pk_key v pk) (elems sl)) →
  reconcileProgram (pk_kind v pk) r false w = (Ret (err, r'), w') →
  (progId (currentProgramState r') = Some pid ∧
   in_order v stale (loaded w') pk (currentProgramState r')) ∧
  unshared (loaded w') ∧ ∀ p, p ≠ pid → loaded w' !! p = loaded w !! p.
Proof.
  intros Hd Ho Hu Hp Hld Hown Hsl Hrec Hnd Hrun.
  destruct (updateLinks_merge (pk_kind v pk) (outside v (loaded w)) (pk_key v pk) (pk_expects v pk)
    r sl w Ho Hown Hsl Hnd) as (e & r1 & w1 & sl1 & groups & added & Hrun1 & [_ Hw1] & Hsl1 & Hp1 &
    Ho1 & Hcl & Hsub & Hnew & Hnd1 & _).
  assert (Hrec1 : recorded stale (loaded w) pid (elems sl1)).
  { unfold recorded. by rewrite (link_ids_extends (pk_kind v pk) (outside v (loaded w)) (pk_key v pk)
      (pk_expects v pk) _ _ _ _ Hcl Hsub Hnew). }
  unfold reconcileProgram in Hrun. rewrite (run_bind _ _ _ _ _ Hrun1) in Hrun. destruct e as [e|].
  - injection Hrun as _ <- <-. rewrite Hw1. split; [|done].
    apply (in_order_exhausted stale (loaded w) _ pid sl1); [|done| | |done..]; unfold update_prog; cbn.
    + unfold progId. rewrite prog_common_set. cbn. by rewrite <- Hp, <- Hp1.
    + by rewrite law_owns_prog.
    + by rewrite law_get_prog.
  - destruct (processLinks_run (pk_kind v pk) False stale pid r1 sl1 w1)
      as (ls' & sl' & w2 & Hrun2 & Hsteps & Hkept & Hsl' & _); [done|by rewrite Hp1|done|done|].
    rewrite Hrun2 in Hrun. injection Hrun as _ <- <-. rewrite Hw1 in Hsteps.
    split; [|split; [by eapply steps_unshared|intros p Hne; by eapply steps_elsewhere]].
    apply (in_order_exhausted stale (loaded w2) _ pid sl').
    + change (programId (processed (pk_kind v pk) r1 sl') = Some pid). by rewrite programId_processed, Hp1.
    + apply not_eq_None_Some. rewrite (steps_loaded _ _ _ _ _ _ _ pid Hsteps). by apply not_eq_None_Some.
    + unfold processed, update_prog. cbn. by rewrite law_owns_prog, law_owns_set.
    + exact Hsl'.
    + rewrite Hkept. apply (recorded_filter (pk_kind v pk)).
      by destruct (steps_invariant _ _ _ _ _ _ _ Hsteps [] Hrec1 (Forall_nil_2 _)).
    + rewrite Hkept. eapply keys_kept; [|exact Hnd1]. by destruct (steps_points _ _ _ _ _ _ _ Hsteps).
Qed.

Lemma reconcile_package stale r w :
  daemon_ok False stale → host_view w = v → unshared (loaded w) →
  in_order v stale (loaded w) pk (currentProgramState r) →
  ∃ err r' w' pid, reconcileProgram (pk_kind v pk) r false w = (Ret (err, r'), w') ∧
    progId (currentProgramState r) = Some pid ∧ unshared (loaded w') ∧
    (∀ p, p ≠ pid → loaded w' !! p = loaded w !! p) ∧
    in_order v stale (loaded w') pk (currentProgramState r') ∧
    match err with
    | Some _ => unexpandable (pk_kind v pk) (pk_expects v pk) r ∧ update_failed (currentProgramState r')
    | None => serves v (loaded w') pk r (currentProgramState r')
    end.
Proof.
  intros Hd Hv Hu (pid & sl & Hp & Hl & Hown & Hsl & Hrec & Hnd).
  assert (Ho : outside v (loaded w) w) by done.
  destruct (kind_reaches_spec (pk_kind v pk) (outside v (loaded w)) (pk_key v pk) (pk_expects v pk)
    stale pid r sl w) as (err & r' & w' & Hrun & Hres); try done.
  { by intros w1 [_ ?]. }
  destruct (reconcileProgram_frame stale r pid sl w err r' w') as ([Hp' Hord] & Hu' & Hf); [done..|].
  exists err, r', w', pid. split_and!; [done..|]. destruct err as [e|].
  - by destruct Hres as (? & _ & Hst).
  - destruct Hres as (groups & sl' & Hexp & Hsl' & Hnd' & Hk & Hall & Hst).
    by exists pid, sl', groups.
Qed.
End reconcile.

(** ** A scope whose programs have kinds *)

(** A scope names the kind of each of its programs, with which its reconciler is made; it
    finds the state of a program by its key; and a state with the struct of its type has
    the links of the program's kind. *)
Class ServedScope {W P PS} `{!AgentEnv W, !BpfmanLaws W, !HostLaws W, !ProgramState PS,
    !ProgramStateLaws PS} (ak : AppKind W P PS) `{!AppKindLaws ak, !TypedScope ak}
    (v : HostView) := {
  sv_kind : P → option (Package (P := P) (S := PS) v);
  sv_reconciler prog s pk :
    sv_kind prog = Some pk → ak_getProgramReconciler ak prog s = Ok (of_kind (pk_kind v pk));
  sv_links prog s pk :
    sv_kind prog = Some pk → ak_shaped s = true → state_key s = prog_key prog →
    k_owns (k := pk_kind v pk) s = true ∧ is_Some (k_stateLinks (pk_kind v pk) s);
  sv_finds prog ps i s (w : W) :
    is_Some (sv_kind prog) → typed_programs ak ps → ps !! i = Some s → state_key s = prog_key prog →
    ak_getProgState ak prog ps w = (Ret (Ok i), w);
  sv_name prog : (prog_key prog).1.2 = ak_progName ak prog;
  sv_state_name s : (state_key s).1.2 = ps_Name (prog_common s);
}.

(** ** The programs of an application *)

Lemma NoDup_fmap_lookup {A B} (f : A → B) (xs : list A) i j x y :
  NoDup (f <$> xs) → xs !! i = Some x → xs !! j = Some y → f x = f y → i = j.
Proof.
  intros Hnd Hi Hj Hf. apply (NoDup_lookup _ i j (f x) Hnd); rewrite list_lookup_fmap.
  - by rewrite Hi.
  - rewrite Hj. cbn. by rewrite Hf.
Qed.

Section programs.
Context {W P PS : Type} `{!AgentEnv W, !BpfmanLaws W, !HostLaws W, !LabelLib, !BytecodeLib W,
  !ApplicationAPI W P PS, !ProgramState PS, !ProgramStateLaws PS, !EqDecision PS}
  (ak : AppKind W P PS) `{!AppKindLaws ak, !TypedScope ak}
  (v : HostView) `{!ServedScope ak v, !LinksUndisturbed (λ w : W, host_view w = v)}.
Implicit Types (r : AppRec P PS) (w : W) (ps : list PS).

(** The state of [prog] among [ps] is in order. *)
Definition recorded_in (stale : gset Z) (m : gmap Z (gset Z)) ps (prog : P) : Prop :=
  ∃ i s pk, ps !! i = Some s ∧ state_key s = prog_key prog ∧ sv_kind prog = Some pk ∧
    in_order v stale m pk s.

(** [prog], whose state was [s], is served in [s'], or an attach point of it cannot be
    expanded, and [s'] says so; its records are in order. *)
Definition reconciled (stale : gset Z) (m : gmap Z (gset Z)) (rc : ReconcilerCommon)
    (prog : P) (s s' : PS) : Prop :=
  ∃ pk, sv_kind prog = Some pk ∧ in_order v stale m pk s' ∧
    (serves v m pk (mkProgRec rc "" prog s) s' ∨
     unexpandable (pk_kind v pk) (pk_expects v pk) (mkProgRec rc "" prog s) ∧ update_failed s').

Definition same_program (s s' : PS) : Prop := same_shape ak s s' ∧ progId s' = progId s.

Lemma same_program_refl s : same_program s s.
Proof using Type. by split; [apply same_shape_refl|]. Qed.

Lemma same_program_trans s1 s2 s3 : same_program s1 s2 → same_program s2 s3 → same_program s1 s3.
Proof using Type. unfold same_program, same_shape. intuition congruence. Qed.

Lemma same_programs_insert ps i s s' :
  ps !! i = Some s → same_program s s' → Forall2 same_program ps (<[i := s']> ps).
Proof using Type.
  intros Hi Hs. rewrite <- (list_insert_id ps i s Hi) at 1. apply Forall2_insert; [|done].
  apply Forall2_same_length_lookup_2; [done|]. intros j a b Ha Hb. rewrite Ha in Hb.
  injection Hb as ->. apply same_program_refl.
Qed.

Lemma set_programs_twice ps ps' r :
  programs r ≠ [] → set_programs ps' (set_programs ps r) = set_programs ps' r.
Proof using Type.
  destruct r as [rc app [m [uc nd al [l|] cs]]]; [|done]. unfold set_programs, with_status, status. cbn.
  by destruct l.
Qed.

(** One program. *)
Lemma run_program stale r w prog s pk :
  daemon_ok False stale → host_view w = v → unshared (loaded w) →
  sv_kind prog = Some pk → in_order v stale (loaded w) pk s →
  ∃ rec err rec' w' pid, ak_getProgramReconciler ak prog s = Ok rec ∧
    pr_reconcileProgram rec (progRec r prog s) false w = (Ret (err, rec'), w') ∧
    host_view w' = v ∧ unshared (loaded w') ∧ progId s = Some pid ∧
    (∀ p, p ≠ pid → loaded w' !! p = loaded w !! p) ∧
    same_program s (currentProgramState rec') ∧
    reconciled stale (loaded w') (app_rc r) prog s (currentProgramState rec').
Proof.
  intros Hd Hv Hu Hpk Hs. pose proof (sv_reconciler prog s pk Hpk) as Hrec.
  destruct (reconcile_package v pk stale (progRec r prog s) w) as
    (err & rec' & w' & pid & Hrun & Hp & Hu' & Hf & Hord & Hres); [done..|].
  exists (of_kind (pk_kind v pk)), err, rec', w', pid.
  destruct (keeps_prog (λ w, host_view w = v) prog s _ (progRec r prog s) false Hrec) as [_ Hk].
  destruct (Hk w Hv) as [Hv' Hsh]. change (pr_reconcileProgram (of_kind (pk_kind v pk)) (progRec r prog s) false)
    with (reconcileProgram (pk_kind v pk) (progRec r prog s) false) in *.
  rewrite Hrun in Hv', Hsh. cbn in Hv', Hsh. destruct Hsh as (Hsh & Hkey & Hid).
  split_and!; [done..| |]; [by split; [split|]|]. exists pk. split_and!; [done..|].
  destruct err; [by right|by left].
Qed.

Lemma recorded_in_insert stale m m' ps spec prog i s s' pid :
  ps !! i = Some s → state_key s = prog_key prog → progId s = Some pid → same_program s s' →
  NoDup (prog_key <$> prog :: spec) → NoDup (progId <$> ps) →
  (∀ p, p ≠ pid → m' !! p = m !! p) →
  Forall (recorded_in stale m ps) spec → Forall (recorded_in stale m' (<[i := s']> ps)) spec.
Proof.
  intros Hi Hk Hp Hs Hnd Hids Hf. rewrite !Forall_forall. intros Hall prog2 Hin.
  destruct (Hall prog2 Hin) as (j & s2 & pk2 & Hj & Hk2 & Hpk2 & Ho2).
  assert (i ≠ j) as Hij.
  { intros <-. rewrite Hi in Hj. injection Hj as <-. rewrite fmap_cons, NoDup_cons in Hnd.
    apply Hnd. rewrite <- Hk, Hk2. by apply list_elem_of_fmap_2. }
  exists j, s2, pk2. split_and!; [by rewrite list_lookup_insert_ne|done..|].
  eapply in_order_local; [|exact Ho2]. intros p2 Hp2. apply Hf. intros ->. apply Hij.
  apply (NoDup_fmap_lookup progId ps i j s s2); [done..|congruence].
Qed.

Lemma reconciled_local stale m m' rc prog s s' :
  (∀ pid, progId s' = Some pid → m' !! pid = m !! pid) →
  reconciled stale m rc prog s s' → reconciled stale m' rc prog s s'.
Proof using Type.
  intros Hm (pk & Hpk & Ho & Hs). exists pk. split; [done|].
  split; [by eapply in_order_local|]. destruct Hs as [Hs|Hs]; [left|by right].
  by eapply serves_local.
Qed.

(** What reconciling the programs of [spec] does to the table and to the states. *)
Record passed (stale : gset Z) (rc : ReconcilerCommon) (spec : list P)
    (m : gmap Z (gset Z)) ps (m' : gmap Z (gset Z)) ps' : Prop := {
  passed_unshared : unshared m';
  passed_same : Forall2 same_program ps ps';
  passed_table p :
    (∀ s, s ∈ ps → state_key s ∈ prog_key <$> spec → progId s ≠ Some p) → m' !! p = m !! p;
  passed_rest i s : ps !! i = Some s → state_key s ∉ prog_key <$> spec → ps' !! i = Some s;
  passed_served prog :
    prog ∈ spec → ∃ i s s', ps !! i = Some s ∧ state_key s = prog_key prog ∧
      ps' !! i = Some s' ∧ reconciled stale m' rc prog s s';
}.

Lemma passed_nil stale rc m ps : unshared m → passed stale rc [] m ps m ps.
Proof using Type.
  intros Hu. split; [done| |done..|].
  - apply Forall2_same_length_lookup_2; [done|]. intros i a b Ha Hb. rewrite Ha in Hb.
    injection Hb as ->. apply same_program_refl.
  - intros prog Hp. by apply elem_of_nil in Hp.
Qed.

Lemma progIds_insert ps i s s' :
  ps !! i = Some s → same_program s s' → progId <$> <[i := s']> ps = progId <$> ps.
Proof using Type.
  intros Hi [_ Hs]. rewrite list_fmap_insert. apply list_insert_id.
  rewrite list_lookup_fmap, Hi. cbn. by rewrite Hs.
Qed.

(** The program of the state at [i], then the others. *)
Section passed_cons.
Context (stale : gset Z) (rc : ReconcilerCommon) (prog : P) (spec : list P)
  (m m1 m' : gmap Z (gset Z)) (ps ps' : list PS) (i : nat) (s s1 : PS) (pid : Z)
  (Hi : ps !! i = Some s) (Hkey : state_key s = prog_key prog) (Hs1 : same_program s s1)
  (Hp : progId s = Some pid) (Hids : NoDup (progId <$> ps))
  (Hnd : NoDup (prog_key <$> prog :: spec))
  (Hm1 : ∀ p, p ≠ pid → m1 !! p = m !! p) (Hr1 : reconciled stale m1 rc prog s s1)
  (Hpass : passed stale rc spec m1 (<[i := s1]> ps) m' ps').

Lemma first_done : state_key s1 ∉ prog_key <$> spec.
Proof. destruct Hs1 as [[_ ->] _]. rewrite Hkey. by apply NoDup_cons in Hnd as [? _]. Qed.

Lemma first_kept : <[i := s1]> ps !! i = Some s1 ∧ ps' !! i = Some s1.
Proof.
  assert (<[i := s1]> ps !! i = Some s1) as H1
    by (apply list_lookup_insert_eq; by eapply lookup_lt_Some).
  split; [done|]. by eapply (passed_rest _ _ _ _ _ _ _ Hpass), first_done.
Qed.

Lemma passed_cons_table p :
  (∀ s, s ∈ ps → state_key s ∈ prog_key <$> prog :: spec → progId s ≠ Some p) → m' !! p = m !! p.
Proof.
  intros Hne. rewrite (passed_table _ _ _ _ _ _ _ Hpass); [apply Hm1|].
  - intros ->. apply (Hne s); [by eapply list_elem_of_lookup_2|rewrite Hkey; left|done].
  - intros s2 (j & Hj)%list_elem_of_lookup Hin. destruct (decide (i = j)) as [<-|Hij].
    + rewrite (proj1 first_kept) in Hj. injection Hj as <-. by destruct first_done.
    + rewrite list_lookup_insert_ne in Hj by done.
      apply Hne; [by eapply list_elem_of_lookup_2|by right].
Qed.

(** The later programs leave the link ids of the first one alone. *)
Lemma first_served : reconciled stale m' rc prog s s1.
Proof.
  eapply reconciled_local; [|exact Hr1]. intros p Hp1.
  apply (passed_table _ _ _ _ _ _ _ Hpass). intros s2 (j & Hj)%list_elem_of_lookup Hk2 Hp2.
  assert (i = j) as <-.
  { eapply (NoDup_fmap_lookup progId (<[i := s1]> ps)); [by rewrite (progIds_insert _ _ s)|
      apply first_kept|exact Hj|congruence]. }
  rewrite (proj1 first_kept) in Hj. injection Hj as <-. by destruct first_done.
Qed.

Lemma passed_cons : passed stale rc (prog :: spec) m ps m' ps'.
Proof.
  split.
  - apply Hpass.
  - assert (Transitive same_program) by (intros a b c; apply same_program_trans).
    etrans; [by eapply same_programs_insert|apply Hpass].
  - apply passed_cons_table.
  - intros j s2 Hj [Hne Hnin]%not_elem_of_cons. apply (passed_rest _ _ _ _ _ _ _ Hpass); [|done].
    rewrite list_lookup_insert_ne; [done|]. intros <-. congruence.
  - intros prog2 [->|Hin]%elem_of_cons.
    + exists i, s, s1. split_and!; [done..|apply first_kept|apply first_served].
    + destruct (passed_served _ _ _ _ _ _ _ Hpass prog2 Hin) as (j & s2 & s2' & Hj & Hk2 & Hj' & Hr2).
      assert (j ≠ i) as Hij.
      { intros ->. rewrite (proj1 first_kept) in Hj. injection Hj as <-. apply first_done.
        rewrite Hk2. by apply list_elem_of_fmap_2. }
      rewrite list_lookup_insert_ne in Hj by done. by exists j, s2, s2'.
Qed.
End passed_cons.

(** All of them. The spec is gone through in its order; every program of it has a state,
    found by its key. *)
Lemma run_programs stale spec r w :
  daemon_ok False stale → host_view w = v → unshared (loaded w) →
  app_isBeingDeleted (currentApp r) = false → typed_programs ak (programs r) →
  NoDup (prog_key <$> spec) → NoDup (progId <$> programs r) →
  Forall (recorded_in stale (loaded w) (programs r)) spec →
  ∃ ps' w',
    reconcile_programs ak spec r BpfAppStateCondSuccess w =
      (Ret (BpfAppStateCondSuccess, set_programs ps' r), w') ∧
    host_view w' = v ∧ passed stale (app_rc r) spec (loaded w) (programs r) (loaded w') ps'.
Proof.
  revert r w. induction spec as [|prog spec IH]; intros r w Hd Hv Hu Hdel Ht Hnd Hids Hall.
  { exists (programs r), w. rewrite set_programs_id by done. by split_and!; [..|apply passed_nil]. }
  apply Forall_cons in Hall as [(i & s & pk & Hi & Hk & Hpk & Ho) Hall].
  destruct (run_program stale r w prog s pk Hd Hv Hu Hpk Ho) as
    (rec & err & rec' & w1 & pid & Hrec & Hrun & Hv1 & Hu1 & Hp & Hf1 & Hs1 & Hr1).
  set (s1 := currentProgramState rec') in *.
  set (r1 := set_programs (<[i := s1]> (programs r)) r).
  assert (Hps1 : programs r1 = <[i := s1]> (programs r)) by apply programs_set_programs.
  destruct (IH r1 w1) as (ps' & w2 & Hrun2 & Hv2 & Hpass); try done.
  { rewrite Hps1. by eapply typed_insert; [exact Hi|apply Hs1|]. }
  { by apply NoDup_cons in Hnd as [_ ?]. }
  { by rewrite Hps1, (progIds_insert _ _ s). }
  { rewrite Hps1. by eapply recorded_in_insert. }
  exists ps', w2. split_and!; [|done|rewrite Hps1 in Hpass; by eapply passed_cons].
  cbn [reconcile_programs].
  rewrite (run_bind _ _ _ _ _ (sv_finds prog _ i s w (mk_is_Some _ _ Hpk) Ht Hi Hk)), Hi. cbn [deref].
  rewrite (run_bind _ _ _ _ _ (run_ret _ _)), Hrec, Hdel, (run_bind _ _ _ _ _ Hrun). cbv beta iota.
  fold s1 r1. rewrite Hrun2. unfold r1. rewrite set_programs_twice; [done|].
  intros Hnil. by rewrite Hnil in Hi.
Qed.
End programs.
