(* ===== verification/ServingTheorems.v ===== *)
(** A Reconcile of a running application as a whole: the load check, the reconciles of all
    programs, the condition and the status update. *)

From S2P Require Import Prelude ApiTypes Constants Bpfman Selectors Links LinkSpecs.
From S2P Require Import LinkTheorems LinkUpdate Kinds KindSpecs Application AppSpecs AppLoop.
From S2P Require Import Keeps Typing Serving.
From stdpp Require Import options.
#[local] Set Default Proof Using "Type*".

(** The API server and the clock leave the daemon alone. *)
Class DaemonApart (W P PS : Type) `{!AgentEnv W, !BpfmanLaws W, !ApplicationAPI W P PS} : Prop := {
  apart_Reset w : loaded (NetNs_Reset w).2 = loaded w;
  apart_GetNode n w : loaded (api_GetNode n w).2 = loaded w;
  apart_ListApps w : loaded (api_ListApps w).2 = loaded w;
  apart_Now w : loaded (time_Now w).2 = loaded w;
  apart_tick w : loaded (poll_tick w).2 = loaded w;
  apart_ListStates ns labels w : loaded (api_ListStates ns labels w).2 = loaded w;
  apart_StatusUpdate an w : loaded (api_StatusUpdate an w).2 = loaded w;
}.

Section apart.
Context {W P PS : Type} `{!AgentEnv W, !BpfmanLaws W, !LabelLib, !BytecodeLib W,
  !ApplicationAPI W P PS, !ProgramState PS, !EqDecision PS, !DaemonApart W P PS}
  (ak : AppKind W P PS).
Implicit Types (r : AppRec P PS) (w : W).

Lemma condition_apart t r w res w' :
  updateBpfAppStateCondition (app_methods ak) t r w = (Ret res, w') → loaded w' = loaded w.
Proof.
  assert (Hk : keeps (λ w0, loaded w0 = loaded w)
    (updateBpfAppStateCondition (app_methods ak) t r) (λ _, True)).
  { unfold updateBpfAppStateCondition. cbn [setAppStateConditions app_methods].
    unfold app_setAppStateConditions. keeps_tac; apply keeps_call; intros w0 Hw0;
      by rewrite apart_Now. }
  intros Hrun. pose proof (keeps_inv _ _ _ w Hk eq_refl) as Hw. by rewrite Hrun in Hw.
Qed.

Lemma status_apart original r w res w' :
  updateBpfAppStateStatus ak original r w = (Ret res, w') → loaded w' = loaded w.
Proof.
  set (I := λ w0, loaded w0 = loaded w).
  assert (Hpoll : ∀ A n i (cond : GoM W (option A)), keeps I cond (λ _, True) →
    keeps I (poll n i cond) (λ _, True)).
  { intros A n. induction n as [|n IH]; intros i cond Hc; cbn; [by apply keeps_ret|].
    apply keeps_then; [done|]. intros [a|]; [by apply keeps_ret|]. apply keeps_then; [|intros []; auto using keeps_ret].
    apply keeps_call. intros w0 Hw0. unfold I. by rewrite apart_tick. }
  assert (Hk : keeps I (updateBpfAppStateStatus ak original r) (λ _, True)).
  { unfold updateBpfAppStateStatus, waitForBpfAppStateStatusUpdate, getCurrentState, getBpfAppState.
    cbv zeta. destruct (match original with Some _ => _ | None => _ end); [by apply keeps_ret|].
    apply keeps_then; [apply keeps_call; intros w0 Hw0; unfold I; by rewrite apart_StatusUpdate|].
    intros [an|err]; [|by apply keeps_ret].
    apply keeps_then; [|intros [err r0]; by apply keeps_ret].
    apply keeps_then; [|intros [[an'|] i]; by apply keeps_ret]. apply Hpoll.
    apply keeps_then; [|intros res0; by apply keeps_ret].
    apply keeps_then; [apply keeps_call; intros w0 Hw0; unfold I; by rewrite apart_ListStates|].
    intros items. by apply keeps_ret. }
  intros Hrun. pose proof (keeps_inv _ _ _ w Hk eq_refl) as Hw. by rewrite Hrun in Hw.
Qed.
End apart.

Section serving.
Context {W P PS : Type} `{!AgentEnv W, !BpfmanLaws W, !HostLaws W, !LabelLib, !BytecodeLib W,
  !ApplicationAPI W P PS, !ProgramState PS, !ProgramStateLaws PS, !EqDecision PS,
  !DaemonApart W P PS} (ak : AppKind W P PS) `{!AppKindLaws ak, !TypedScope ak}
  (v : HostView) `{!ServedScope ak v, !ReadsUndisturbed P PS (λ w : W, host_view w = v)}.
Implicit Types (r : AppRec P PS) (w : W).

(** The node runs the application. *)
Definition running r : Prop :=
  isNodeSelected (NodeSelector (app_common (currentApp r)))
    (om_Labels (node_meta (rc_ourNode (app_rc r)))) = Ok true ∧
  app_isBeingDeleted (currentApp r) = false.

Definition spec_of r : list P := elems (app_Programs (currentApp r)).

(** The state has one entry for each program of the spec, whose names are different. *)
Definition matched r : Prop :=
  NoDup (ak_progName ak <$> spec_of r) ∧
  prog_key <$> spec_of r ≡ₚ state_key <$> programs r ∧ typed_programs ak (programs r).

(** The daemon has every program under an id of its own, with the links in order. *)
Definition tabled (stale : gset Z) r w : Prop :=
  unshared (loaded w) ∧ NoDup (progId <$> programs r) ∧
  Forall (recorded_in ak v stale (loaded w) (programs r)) (spec_of r).

Lemma matched_names r :
  matched r → NoDup (prog_key <$> spec_of r) ∧ NoDup (specNames ak r) ∧
  ∀ n, n ∈ specNames ak r ↔ n ∈ stateNames r.
Proof.
  intros (Hnd & Hperm & _).
  assert (Hnames : specNames ak r = (λ kk : key, kk.1.2) <$> (prog_key <$> spec_of r)).
  { unfold specNames. rewrite <- list_fmap_compose. apply list_fmap_ext.
    intros i prog _. symmetry. apply (sv_name (ak := ak) (v := v)). }
  assert (Hstates : stateNames r = (λ kk : key, kk.1.2) <$> (state_key <$> programs r)).
  { unfold stateNames. rewrite <- list_fmap_compose. apply list_fmap_ext.
    intros i s _. symmetry. apply (sv_state_name (ak := ak) (v := v)). }
  split; [|split; [exact Hnd|]].
  - apply (NoDup_fmap_1 (λ kk : key, kk.1.2)). by rewrite <- Hnames.
  - intros n. rewrite Hnames, Hstates. by rewrite Hperm.
Qed.
(** Every state stands for a program of the spec. *)
Lemma tabled_in_order stale r w s :
  matched r → tabled stale r w → s ∈ programs r →
  ∃ prog pk, prog ∈ spec_of r ∧ state_key s = prog_key prog ∧ sv_kind prog = Some pk ∧
    in_order v stale (loaded w) pk s.
Proof.
  intros (_ & Hperm & [_ Hnd]) (_ & _ & Hall) Hs.
  assert (state_key s ∈ prog_key <$> spec_of r) as (prog & Hk & Hin)%list_elem_of_fmap
    by (rewrite Hperm; by apply list_elem_of_fmap_2).
  rewrite Forall_forall in Hall. destruct (Hall prog Hin) as (i & s' & pk & Hi & Hk' & Hpk & Ho).
  apply list_elem_of_lookup in Hs as (j & Hj).
  assert (i = j) as <- by (eapply (NoDup_fmap_lookup state_key); [done..|congruence]).
  rewrite Hi in Hj. injection Hj as <-. by exists prog, pk.
Qed.

Definition loaded_state r : AppRec P PS := with_status (set_AppLoadStatus AppLoadSuccess) r.

(** A running application whose programs are loaded passes the checks. *)
Lemma run_reconcileLoad stale r w :
  running r → host_view w = v → matched r → tabled stale r w →
  ∃ w1, reconcileLoad (app_methods ak) r w = (Ret (None, loaded_state r), w1) ∧
    loaded w1 = loaded w ∧ host_view w1 = v ∧ app_isLoaded r w = (Ret true, w1).
Proof.
  intros [Hsel Hdel] Hv Hm Ht.
  destruct (matched_names r Hm) as (_ & Hnd & Hin).
  assert (Hval : app_validateProgramList ak r w = (Ret None, w)) by by apply validateProgramList_passes.
  destruct (wp_run (app_isLoaded r) (λ b w1, b = true ∧ loaded w1 = loaded w) w)
    as (b & w1 & Hrun & -> & Hw1).
  { apply (wp_isLoaded_loop ak). intros w1 Hw1. split; [|done]. apply forallb_True_iff. intros s Hs.
    destruct (tabled_in_order stale r w s Hm Ht Hs) as (prog & pk & _ & _ & _ & pid & sl & Hp & Hl & _).
    unfold program_loaded. unfold progId in Hp. rewrite Hp. by apply bool_decide_eq_true_2. }
  exists w1. split; [|split; [done|split; [|done]]].
  - unfold reconcileLoad.
    cbn [getNode getNodeSelector isBeingDeleted setAppLoadStatus validateProgramList isLoaded app_methods].
    rewrite Hsel. cbn [negb]. rewrite Hdel, (run_bind _ _ _ _ _ Hval), (run_bind _ _ _ _ _ Hrun). done.
  - pose proof (keeps_inv _ _ _ w (keeps_isLoaded (λ w, host_view w = v) r) Hv) as Hk.
    by rewrite Hrun in Hk.
Qed.

(** Every program of the spec is served in [r'], or an attach point of it could not be
    expanded; [r] is before the reconciles. *)
Definition brought (stale : gset Z) (m : gmap Z (gset Z)) r r' : Prop :=
  Forall2 (same_program ak) (programs r) (programs r') ∧
  ∀ prog, prog ∈ spec_of r → ∃ i s s', programs r !! i = Some s ∧ state_key s = prog_key prog ∧
    programs r' !! i = Some s' ∧ reconciled ak v stale m (app_rc r) prog s s'.

(** The condition says whether that was so for every program. *)
Definition reports r' : Prop :=
  st_AppLoadStatus (status r') = AppLoadSuccess ∧
  ∃ c, st_Conditions (status r') = Some [c] ∧
    ((cond_Type c = BpfAppStateCondSuccess ∧ ∀ s, s ∈ programs r' → ¬ update_failed s) ∨
     (cond_Type c = BpfAppStateCondError ∧ ∃ s, s ∈ programs r' ∧ update_failed s)).

Lemma brought_status stale m r r' s :
  matched r → brought stale m r r' → s ∈ programs r' →
  ps_ProgramLinkStatus (prog_common s) = ProgAttachSuccess ∨ update_failed s.
Proof.
  intros (_ & Hperm & [_ Hnd]) [Hsame Hb] (j & Hj)%list_elem_of_lookup.
  destruct (Forall2_lookup_r _ _ _ _ _ Hsame Hj) as (s0 & Hj0 & _).
  assert (state_key s0 ∈ prog_key <$> spec_of r) as (prog & Hk & Hin)%list_elem_of_fmap
    by (rewrite Hperm; apply list_elem_of_fmap_2; by eapply list_elem_of_lookup_2).
  destruct (Hb prog Hin) as (i & s1 & s' & Hi & Hk1 & Hi' & pk & _ & _ & Hr).
  assert (i = j) as -> by (eapply (NoDup_fmap_lookup state_key); [done..|congruence]).
  rewrite Hj in Hi'. injection Hi' as <-. destruct Hr as [Hs|[_ Hu]]; [|by right].
  destruct Hs as (pid & sl & groups & _ & _ & _ & _ & _ & _ & Hst). by left.
Qed.

(** What the next Reconcile finds. *)
Lemma brought_matched stale m r r' :
  currentApp r' = currentApp r → matched r → brought stale m r r' → matched r'.
Proof.
  intros Happ (Hnd & Hperm & Ht) [Hsame _]. unfold matched, spec_of. rewrite Happ.
  split; [done|]. split.
  - replace (state_key <$> programs r') with (state_key <$> programs r); [done|].
    clear Hperm Ht. induction Hsame as [|s s' ps ps' [[_ Hk] _] _ IH]; [done|]. cbn. by rewrite Hk, IH.
  - eapply typed_same_shape; [|exact Ht]. eapply Forall2_impl; [exact Hsame|]. by intros s s' [? _].
Qed.

Lemma brought_tabled stale r r' w w' :
  currentApp r' = currentApp r → tabled stale r w → unshared (loaded w') →
  brought stale (loaded w') r r' → tabled stale r' w'.
Proof.
  intros Happ (_ & Hids & _) Hu [Hsame Hb]. split; [done|]. split.
  - replace (progId <$> programs r') with (progId <$> programs r); [done|].
    clear Hids Hb. induction Hsame as [|s s' ps ps' [_ Hp] _ IH]; [done|]. cbn. by rewrite Hp, IH.
  - unfold spec_of. rewrite Happ. apply Forall_forall. intros prog Hin.
    destruct (Hb prog Hin) as (i & s & s' & Hi & Hk & Hi' & pk & Hpk & Ho & _).
    exists i, s', pk. split_and!; [done| |done..].
    destruct (Forall2_lookup_lr _ _ _ _ _ _ Hsame Hi Hi') as [[_ Hk'] _]. congruence.
Qed.

Lemma check_brought stale m r r' :
  matched r → brought stale m r r' → st_AppLoadStatus (status r') = AppLoadSuccess →
  (checkProgramStatus r' = BpfAppStateCondSuccess ∧ ∀ s, s ∈ programs r' → ¬ update_failed s) ∨
  (checkProgramStatus r' = BpfAppStateCondError ∧ ∃ s, s ∈ programs r' ∧ update_failed s).
Proof.
  intros Hm Hb Hl. unfold checkProgramStatus. rewrite Hl. rewrite !decide_False by done.
  destruct (forallb _ (programs r')) eqn:Hall.
  - left. split; [done|]. intros s Hs Hu. rewrite forallb_True_iff in Hall.
    apply Hall, bool_decide_eq_true in Hs. unfold update_failed in Hu. by rewrite Hs in Hu.
  - right. split; [done|]. apply not_true_iff_false in Hall. rewrite forallb_True_iff in Hall.
    apply Exists_exists, dec_stable. intros Hnone. apply Hall. intros s Hs.
    apply bool_decide_eq_true. destruct (brought_status stale m r r' s Hm Hb Hs); [done|].
    destruct Hnone. apply Exists_exists. by exists s.
Qed.

Lemma spec_of_loaded r : spec_of (loaded_state r) = spec_of r.
Proof using Type. done. Qed.

(** From a load check that has passed on. *)
Lemma serve_existing stale r w r1 w1 :
  daemon_ok False stale → reconcileLoad (app_methods ak) r w = (Ret (None, r1), w1) →
  app_isBeingDeleted (currentApp r1) = false → st_AppLoadStatus (status r1) = AppLoadSuccess →
  host_view w1 = v → matched r1 → tabled stale r1 w1 →
  ∃ r2 w2 changed err r3 w3,
    updateBpfAppStateStatus ak (Some (currentAppState r)) r2 w2 = (Ret (changed, err, r3), w3) ∧
    reconcile_existing ak r w = (Ret (match err with
      | Some _ => Some (Ok retryDurationAgent)
      | None => if changed then Some (Ok 0) else None
      end), w3) ∧
    (changed = false ↔ status r = status r2) ∧
    brought stale (loaded w3) r1 r2 ∧ reports r2 ∧ matched r2 ∧ tabled stale r2 w3.
Proof.
  intros Hd Hload Hdel Hst Hv Hm (Hu & Hids & Hall).
  destruct (matched_names r1 Hm) as (Hnd & _).
  destruct (run_programs ak v stale (spec_of r1) r1 w1) as
    (ps' & w2 & Hrun & Hv2 & Hpass);
    [done|done|done|done|by destruct Hm as (_ & _ & ?)|done|done|done|].
  set (r2 := set_programs ps' r1) in *.
  assert (Hps : programs r2 = ps') by apply programs_set_programs.
  assert (Hb : brought stale (loaded w2) r1 r2) by (split; rewrite Hps; apply Hpass).
  pose proof (brought_matched stale (loaded w2) r1 r2 eq_refl Hm Hb) as Hm2.
  assert (Ht2 : tabled stale r2 w2)
    by (apply (brought_tabled stale r1 r2 w1 w2 eq_refl); [done|apply Hpass|done]).
  destruct (check_brought stale (loaded w2) r1 r2 Hm Hb Hst) as [Hc|Hc].
  all: match type of Hc with checkProgramStatus _ = ?t ∧ _ =>
    destruct (updateBpfAppStateCondition_sets ak t r2 w2 eq_refl)
      as (b & r3 & w3 & c & Hcond & Hcs & Hty & Hr3 & _) end.
  all: destruct (updateBpfAppStateStatus_total ak (Some (currentAppState r)) r3 w3)
    as (changed & err & r4 & w4 & Hup & Hch & Hun & Happ & _).
  all: assert (Hl4 : loaded w4 = loaded w2)
    by (rewrite (status_apart ak _ _ _ _ _ Hup); by eapply condition_apart).
  all: assert (Ht4 : tabled stale r3 w4) by (unfold tabled; rewrite Hl4, Hr3; exact Ht2).
  all: exists r3, w3, changed, err, r4, w4; rewrite Hl4.
  all: split_and!; [exact Hup| | |rewrite Hr3; exact Hb|split; [by rewrite Hr3|]|
    rewrite Hr3; exact Hm2|exact Ht4].
  all: try (rewrite Hch; split; [by intros (o & [= <-] & Ho)|intros Ho; by eexists]).
  all: try (exists c; split; [exact Hcs|]; rewrite Hr3; rewrite Hty; destruct Hc as [_ Hc]; by auto).
  all: unfold reconcile_existing; rewrite (run_bind _ _ _ _ _ Hload), Hdel;
    fold (spec_of r1); rewrite (run_bind _ _ _ _ _ Hrun); fold r2; rewrite decide_True by done;
    destruct Hc as [-> _]; rewrite (run_bind _ _ _ _ _ Hcond), (run_bind _ _ _ _ _ Hup);
    destruct err as [e|]; [done|]; destruct changed; [done|].
  all: destruct (Hun eq_refl) as (_ & -> & ->); rewrite Hr3; unfold r2, set_programs, with_status;
    cbn [currentApp]; by rewrite Hdel.
Qed.

End serving.
