(* ===== verification/Resting.v ===== *)
(** A state that is as desired is left as it is: a reconcile of a program whose links are
    attached and whose attach points expand to the same links as before changes neither
    the state nor the daemon. The agent writes its status objects, and each write wakes it
    again; that it comes to rest depends on this. *)

From S2P Require Import Prelude ApiTypes Constants Bpfman Selectors Links LinkSpecs.
From S2P Require Import LinkTheorems LinkUpdate Kinds KindSpecs Application AppSpecs AppLoop.
From S2P Require Import Keeps Typing Serving.
From stdpp Require Import options.
#[local] Set Default Proof Using "Type*".

(** ** Merging into links that are all wanted *)

Section merge.
Context {L K : Type} `{!LinkState L, !LinkStateLaws L} `{!EqDecision K} (key : L → option K).
Hypothesis key_update : ∀ f l, key (update_link f l) = key l.
Implicit Types ls exps : list L.

Lemma omap_key_cleared ls : omap key (cleared ls) = omap key ls.
Proof using key_update.
  unfold cleared. induction ls as [|l ls IH]; [done|]. simpl. rewrite key_update.
  destruct (key l); [f_equal|]; apply IH.
Qed.

(** Nothing is appended for a key that is there. *)
Lemma merge_known ls exps :
  (∀ kk, kk ∈ omap key exps → kk ∈ omap key ls) →
  cleared (merge key ls exps) = cleared ls.
Proof using Type* key_update.
  revert ls. induction exps as [|e exps IH]; intros ls Hin; [done|].
  change (merge key ls (e :: exps)) with (merge key (merge1 key ls e) exps).
  assert (Hmark : cleared (merge1 key ls e) = cleared ls).
  { unfold merge1. destruct (key e) as [kk|] eqn:Hke; [|done].
    destruct (find_index _ ls) eqn:Hf; [by rewrite cleared_mark|].
    rewrite find_index_None in Hf. exfalso.
    assert (kk ∈ omap key ls) as (a & Ha & Hka)%list_elem_of_omap
      by (apply Hin; cbn; rewrite Hke; by left).
    specialize (Hf a Ha). rewrite Hka in Hf. by apply bool_decide_eq_false in Hf. }
  rewrite <- Hmark. apply (IH (merge1 key ls e)). intros kk Hkk.
  rewrite <- (omap_key_cleared (merge1 key ls e)), Hmark, omap_key_cleared.
  apply Hin. cbn. destruct (key e); [by right|done].
Qed.

Lemma wanted_again (l : L) : sa l = true → update_link (with_ShouldAttach true) l = l.
Proof using LinkStateLaws0.
  intros Hs. unfold update_link.
  assert (with_ShouldAttach true (link_common l) = link_common l) as ->; [|apply set_link_get].
  unfold sa in Hs. destruct (link_common l). cbn in *. by subst.
Qed.

Lemma cleared_inj ls ls' :
  cleared ls = cleared ls' → Forall (λ l, sa l = true) ls → Forall (λ l, sa l = true) ls' → ls = ls'.
Proof using LinkStateLaws0.
  assert (Hback : ∀ xs, Forall (λ l, sa l = true) xs →
    update_link (with_ShouldAttach true) <$> cleared xs = xs).
  { intros xs Hxs. unfold cleared. induction Hxs as [|x xs Hx _ IH]; [done|]. cbn.
    rewrite update_update. cbn. f_equal; [|exact IH]. by apply wanted_again. }
  intros Hc H1 H2. by rewrite <- (Hback ls H1), <- (Hback ls' H2), Hc.
Qed.

Lemma merge_at_rest ls exps :
  NoDup (omap key ls) → Forall (λ l, is_Some (key l) ∧ sa l = true) ls →
  Forall (λ e, sa e = true) exps → (∀ kk, kk ∈ omap key ls ↔ kk ∈ omap key exps) →
  merge key (cleared ls) exps = ls.
Proof using Type* key_update.
  intros Hnd Hls Hexps Hk.
  pose proof (merge_merged key key_update [] (cleared ls) exps
    (merged_cleared key key_update ls Hnd) Hexps) as (_ & Hsa & _).
  assert (Hcl : cleared (merge key (cleared ls) exps) = cleared ls).
  { rewrite merge_known.
    - unfold cleared. rewrite <- list_fmap_compose. apply list_fmap_ext. intros i l _.
      cbn. by rewrite update_update.
    - intros kk Hkk. rewrite omap_key_cleared. by apply Hk. }
  apply cleared_inj; [done| |by eapply Forall_impl; [exact Hls|]; intros l [_ ?]].
  apply Forall_forall. intros l Hl. apply Hsa; [done|].
  assert (key l ∈ key <$> merge key (cleared ls) exps) as Hkl by by apply list_elem_of_fmap_2.
  assert (Hfm : ∀ xs, key <$> cleared xs = key <$> xs).
  { intros xs. unfold cleared. rewrite <- list_fmap_compose. apply list_fmap_ext. intros i x _.
    apply key_update. }
  rewrite <- Hfm, Hcl, Hfm in Hkl. apply list_elem_of_fmap in Hkl as (x & Hx & Hin).
  rewrite Forall_forall in Hls. destruct (Hls x Hin) as [[kk Hkk] _].
  exists kk. split; [congruence|]. apply Hk, list_elem_of_omap. by exists x.
Qed.
End merge.

(** ** Keys *)

Section keys.
Context {L K : Type} (key : L → option K).

Lemma elem_of_omap_keys (ls : list L) kk : kk ∈ omap key ls ↔ Some kk ∈ key <$> ls.
Proof.
  rewrite list_elem_of_omap, list_elem_of_fmap.
  split; intros (x & ? & ?); exists x; by split.
Qed.

Lemma NoDup_omap_keys (ls : list L) : NoDup (key <$> ls) → NoDup (omap key ls).
Proof.
  induction ls as [|l ls IH]; [constructor|]. cbn. intros [Hnin Hnd]%NoDup_cons.
  destruct (key l) as [kk|] eqn:Hk; [|by apply IH]. constructor; [|by apply IH].
  by rewrite elem_of_omap_keys.
Qed.
End keys.

(** ** One program *)

Section program.
Context {W P S : Type} `{!AgentEnv W, !BpfmanLaws W, !HostLaws W, !ProgramState S, !ProgramStateLaws S}.
Context (v : HostView) (pk : Package (P := P) (S := S) v).
Context (I : W → Prop) `{!LinksUndisturbed I}.
Implicit Types (r : ProgRec P S) (w : W) (ls : list (pk_L v pk)).

(** As long as [I] holds the attach point expands to links with the keys [ks]. *)
Definition expands r (a : pk_A v pk) (ks : list (pk_K v pk)) : Prop :=
  ∀ w res w', I w → k_getExpectedLinks (pk_kind v pk) r a w = (Ret res, w') →
    ∃ ls, res = Ok ls ∧ omap (pk_key v pk) ls = ks.

(** The program has the links that its attach points expand to, all attached, and its
    status says so. *)
Definition at_rest (m : gmap Z (gset Z)) r : Prop :=
  ∃ pid sl kss, progId (currentProgramState r) = Some pid ∧
    k_owns (k := pk_kind v pk) (currentProgramState r) = true ∧
    k_stateLinks (pk_kind v pk) (currentProgramState r) = Some sl ∧
    NoDup (omap (pk_key v pk) (elems sl)) ∧
    Forall (λ l, is_Some (pk_key v pk l) ∧ sa l = true ∧ lst l = ApAttachAttached ∧
                 attached m pid l = true) (elems sl) ∧
    ps_ProgramLinkStatus (prog_common (currentProgramState r)) = ProgAttachSuccess ∧
    Forall2 (expands r) (k_appLinks (pk_kind v pk) (currentProgram r)) kss ∧
    ∀ kk, kk ∈ omap (pk_key v pk) (elems sl) ↔ kk ∈ concat kss.

(** A served program is at rest where its attach points still expand to what they did. *)
Lemma serves_at_rest m r s :
  serves v m pk r s → k_owns (k := pk_kind v pk) s = true →
  (∀ a g, pk_expects v pk r a (Some g) → expands (with_state r s) a (omap (pk_key v pk) g)) →
  at_rest m (with_state r s).
Proof using Type.
  intros (pid & sl & groups & Hp & Hsl & Hexp & Hnd & Hk & Hall & Hst) Hown Hsteady.
  set (keys := λ g : list (pk_L v pk), omap (pk_key v pk) g : list (pk_K v pk)).
  exists pid, sl, (keys <$> groups). split_and!; try done.
  - eapply NoDup_omap_keys. exact Hnd.
  - cbn. apply Forall2_fmap_r. eapply Forall2_impl; [exact Hexp|]. intros a g Ha. by apply Hsteady.
  - intros kk. cbn. rewrite elem_of_omap_keys, Hk. clear. induction groups as [|g gs IH]; [done|].
    cbn. rewrite omap_app, !elem_of_app. by rewrite IH.
Qed.

#[local] Instance calm_update m :
  UpdateSpec (pk_kind v pk) (λ w, outside v m w ∧ I w) (pk_key v pk) (pk_expects v pk).
Proof.
  assert (Hand : ∀ A (f : GoM W A) Q w, outside v m w ∧ I w → wp f (λ a w', outside v m w' ∧ Q a) w →
    keeps I f (λ _, True) → wp f (λ a w', (outside v m w' ∧ I w') ∧ Q a) w).
  { intros A f Q w [_ Hw] Hf Hk. pose proof (keeps_inv _ _ _ w Hk Hw) as Hw'.
    unfold wpg in *. destruct (f w) as [[a|] w1]; [|done]. cbn in Hw'. tauto. }
  destruct (pk_keeps v pk I LinksUndisturbed0) as [_ Hexp Hfind _]. split.
  - apply (us_key (k := pk_kind v pk) (Inv := outside v m)).
  - intros l links w Hw. apply Hand; [done|apply us_find; apply Hw|apply Hfind].
  - intros r a w Hw. apply Hand; [done|apply us_expect; apply Hw|apply Hexp].
Qed.
(** The attach points expand to the keys that they are known to expand to. *)
Lemma wp_expand_loop m r apps kss ls Q w :
  Forall2 (expands r) apps kss → outside v m w ∧ I w →
  (∀ groups w', outside v m w' ∧ I w' → Forall new_link (concat groups) →
     omap (pk_key v pk) (concat groups) = concat kss →
     Q (None, merge (pk_key v pk) ls (concat groups)) w') →
  wp (updateLinks_loop (pk_kind v pk) r apps ls) Q w.
Proof.
  intros Hexp. revert ls Q w. induction Hexp as [|a ks apps kss Ha _ IH]; intros ls Q w Hw HQ.
  { apply wpg_ret. by apply (HQ []). }
  cbn [updateLinks_loop]. wp_step.
  destruct (wp_run _ _ _ (us_expect (k := pk_kind v pk) r a w Hw)) as (res & w1 & Hrun & Hw1 & Hres).
  apply (run_wp _ _ _ res w1 Hrun). destruct (Ha w res w1 (proj2 Hw) Hrun) as (exps & -> & Hks).
  destruct Hres as [_ Hnew]. wp_step.
  apply (wp_merge_links (pk_kind v pk) (λ w, outside v m w ∧ I w) (pk_key v pk) (pk_expects v pk)); [done|].
  intros w2 Hw2. apply IH; [done|]. intros groups w3 Hw3 Hg Hk.
  specialize (HQ (exps :: groups) w3 Hw3). cbn in HQ. rewrite omap_app, Hks, Hk in HQ.
  unfold merge in HQ |- *. rewrite foldl_app in HQ. apply HQ; [|done]. by apply Forall_app.
Qed.

Lemma updateLinks_at_rest r w :
  outside v (loaded w) w ∧ I w → at_rest (loaded w) r →
  ∃ w', updateLinks (pk_kind v pk) r false w = (Ret (None, r), w') ∧ outside v (loaded w) w' ∧ I w'.
Proof.
  intros Hw (pid & sl & kss & _ & _ & Hsl & Hnd & Hall & _ & Hexp & Hk).
  destruct (wp_run (updateLinks (pk_kind v pk) r false)
    (λ res w', res = (None, r) ∧ outside v (loaded w) w' ∧ I w') w) as (res & w' & Hrun & -> & Hw');
    [|by exists w'].
  unfold updateLinks. rewrite Hsl. wp_step. eapply wpg_deref; [done|]. cbv zeta. wp_step.
  apply (wp_expand_loop (loaded w) r _ kss); [done|done|]. intros groups w1 Hw1 Hnew Hkeys.
  apply wpg_ret. split; [|done]. change (update_link (with_ShouldAttach false) <$> elems sl)
    with (cleared (elems sl)). rewrite merge_at_rest.
  - destruct sl as [[|l ls]|]; cbn; rewrite law_set_get by done; by destruct r.
  - apply (us_key (k := pk_kind v pk) (Inv := outside v (loaded w))).
  - done.
  - eapply Forall_impl; [exact Hall|]. by intros l (? & ? & _).
  - eapply Forall_impl; [exact Hnew|]. by intros l (? & _).
  - intros kk. by rewrite Hk, Hkeys.
Qed.

Lemma reconcileProgram_at_rest r w :
  host_view w = v → I w → at_rest (loaded w) r →
  ∃ w', reconcileProgram (pk_kind v pk) r false w = (Ret (None, r), w') ∧
    loaded w' = loaded w ∧ I w'.
Proof.
  intros Hv HI Hr. destruct (updateLinks_at_rest r w) as (w1 & Hrun1 & [_ Hw1] & HI1); [done|done|].
  destruct Hr as (pid & sl & kss & Hp & Hown & Hsl & _ & Hall & Hst & _).
  destruct (processLinks_steady (pk_kind v pk) pid r sl w1) as (w2 & Hrun2 & Hw2); [done..| |done|].
  { rewrite Hw1. eapply Forall_impl; [exact Hall|]. by intros l (_ & ? & ? & ?). }
  exists w2. unfold reconcileProgram. rewrite (run_bind _ _ _ _ _ Hrun1). split_and!; [done|congruence|].
  pose proof (keeps_inv I _ _ w1 (keeps_processLinks I (pk_kind v pk)
    (pk_keeps v pk I LinksUndisturbed0) (λ _, True) (λ _ _ _, Logic.I) (λ _ _ _, Logic.I) r Logic.I) HI1) as HI2.
  by rewrite Hrun2 in HI2.
Qed.
End program.
