(* ===== verification/RestingTheorems.v ===== *)
(** A Reconcile of applications that are as desired: no write to the API server, no change
    in the daemon. *)

From S2P Require Import Prelude ApiTypes Constants Bpfman Selectors Links LinkSpecs.
From S2P Require Import LinkTheorems LinkUpdate Kinds KindSpecs Application AppSpecs AppLoop.
From S2P Require Import Keeps Typing Serving ServingTheorems Resting.
From stdpp Require Import options.
#[local] Set Default Proof Using "Type*".

(** [I] says what the host and the API server are; neither the reconcile of a program nor
    a read of the server disturbs it. *)
Class Quiet {W P PS : Type} `{!AgentEnv W, !BpfmanLaws W, !HostLaws W, !BytecodeLib W,
    !ApplicationAPI W P PS} (v : HostView) (I : W → Prop) : Prop := {
  quiet_reads :: ReadsUndisturbed P PS I;
  quiet_host w : I w → host_view w = v;
  quiet_ListApps w : I w → I (api_ListApps (P := P) (PS := PS) w).2;
  quiet_ListStates ns labels w : I w → I (api_ListStates (P := P) (PS := PS) ns labels w).2;
}.
Arguments Quiet {_} _ _ {_ _ _ _ _} _ _.

Section resting.
Context {W P PS : Type} `{!AgentEnv W, !BpfmanLaws W, !HostLaws W, !LabelLib, !BytecodeLib W,
  !ApplicationAPI W P PS, !ProgramState PS, !ProgramStateLaws PS, !EqDecision PS,
  !DaemonApart W P PS} (ak : AppKind W P PS) `{!AppKindLaws ak, !TypedScope ak}
  (v : HostView) `{!ServedScope ak v, !ReadsUndisturbed P PS (λ w : W, host_view w = v)}
  (I : W → Prop) `{!Quiet P PS v I}.
Implicit Types (r : AppRec P PS) (w : W).

(** [prog] is at rest, with its state among the programs of [r]. *)
Definition program_rests (m : gmap Z (gset Z)) r (prog : P) : Prop :=
  ∃ i s pk, programs r !! i = Some s ∧ state_key s = prog_key prog ∧ sv_kind prog = Some pk ∧
    at_rest v pk I m (progRec r prog s).

(** Every program is, and the state reports that. *)
Definition rested (m : gmap Z (gset Z)) r : Prop :=
  st_AppLoadStatus (status r) = AppLoadSuccess ∧
  (∃ c, st_Conditions (status r) = Some [c] ∧ cond_Type c = BpfAppStateCondSuccess) ∧
  ∀ prog, prog ∈ spec_of r → program_rests m r prog.

Lemma run_programs_at_rest spec r w :
  app_isBeingDeleted (currentApp r) = false → typed_programs ak (programs r) → I w →
  (∀ prog, prog ∈ spec → program_rests (loaded w) r prog) →
  ∃ w', reconcile_programs ak spec r BpfAppStateCondSuccess w =
      (Ret (BpfAppStateCondSuccess, r), w') ∧ loaded w' = loaded w ∧ I w'.
Proof.
  intros Hdel Ht. revert w. induction spec as [|prog spec IH]; intros w HI Hall; [by exists w|].
  destruct (Hall prog ltac:(left)) as (i & s & pk & Hi & Hk & Hpk & Hrest).
  destruct (reconcileProgram_at_rest v pk I (progRec r prog s) w) as (w1 & Hrun & Hw1 & HI1);
    [by apply quiet_host|done|done|].
  destruct (IH w1 HI1) as (w2 & Hrun2 & Hw2 & HI2).
  { intros prog' Hin. rewrite Hw1. apply Hall. by right. }
  exists w2. split_and!; [|congruence|done]. cbn [reconcile_programs].
  rewrite (run_bind _ _ _ _ _ (sv_finds prog _ i s w (mk_is_Some _ _ Hpk) Ht Hi Hk)), Hi. cbn [deref].
  rewrite (run_bind _ _ _ _ _ (run_ret _ _)), (sv_reconciler prog s pk Hpk), Hdel.
  change (pr_reconcileProgram (of_kind (pk_kind v pk))) with (reconcileProgram (pk_kind v pk)).
  rewrite (run_bind _ _ _ _ _ Hrun). cbn [currentProgramState progRec].
  by rewrite list_insert_id, set_programs_id.
Qed.

(** Every state stands for a program of the spec, so all of them report success. *)
Lemma rested_success m r :
  matched ak r → rested m r → checkProgramStatus r = BpfAppStateCondSuccess.
Proof.
  intros (_ & Hperm & [_ Hnd]) (Hl & _ & Hall). unfold checkProgramStatus. rewrite Hl.
  rewrite !decide_False by done. rewrite (proj2 (forallb_True_iff _ _)); [done|].
  intros s (j & Hj)%list_elem_of_lookup. apply bool_decide_eq_true.
  assert (state_key s ∈ prog_key <$> spec_of r) as (prog & Hk & Hin)%list_elem_of_fmap
    by (rewrite Hperm; apply list_elem_of_fmap_2; by eapply list_elem_of_lookup_2).
  destruct (Hall prog Hin) as (i & s' & pk & Hi & Hk' & _ & pid & sl & kss & Hrest).
  assert (i = j) as -> by (eapply (NoDup_fmap_lookup state_key); [done..|congruence]).
  rewrite Hj in Hi. injection Hi as <-. by destruct Hrest as (_ & _ & _ & _ & _ & Hst & _).
Qed.

Lemma loaded_state_id r : st_AppLoadStatus (status r) = AppLoadSuccess → loaded_state r = r.
Proof using Type.
  intros Hl. unfold loaded_state, with_status. destruct r as [rc app [m st]]. cbn in *.
  by rewrite <- Hl; destruct st.
Qed.

Lemma run_existing_at_rest stale r w :
  I w → running r → matched ak r → tabled ak v stale r w → rested (loaded w) r →
  ∃ w', reconcile_existing ak r w = (Ret None, w') ∧ loaded w' = loaded w ∧ I w'.
Proof.
  intros HI Hrun Hm Ht Hr. pose proof Hr as (Hl & (c & Hc & Hty) & Hall).
  destruct (run_reconcileLoad ak v stale r w) as (w1 & Hload & Hw1 & _ & Hisl);
    [done|by apply quiet_host|done|done|].
  pose proof (keeps_inv I _ _ w (keeps_isLoaded I r) HI) as HI1. rewrite Hisl in HI1. cbn in HI1.
  rewrite (loaded_state_id r Hl) in Hload. destruct Hrun as [_ Hdel].
  destruct (run_programs_at_rest (spec_of r) r w1) as (w2 & Hprogs & Hw2 & HI2);
    [done|by destruct Hm as (_ & _ & ?)|done|by rewrite Hw1|].
  exists w2. split_and!; [|congruence|done]. unfold reconcile_existing.
  rewrite (run_bind _ _ _ _ _ Hload), Hdel. fold (spec_of r). rewrite (run_bind _ _ _ _ _ Hprogs).
  rewrite decide_True by done. rewrite (rested_success _ r Hm Hr).
  assert (Hcond : updateBpfAppStateCondition (app_methods ak) BpfAppStateCondSuccess r w2 =
    (Ret (false, r), w2)).
  { unfold updateBpfAppStateCondition. cbn [getAppStateConditions app_methods].
    rewrite Hc. unfold elems. cbn -[decide]. by rewrite decide_True. }
  rewrite (run_bind _ _ _ _ _ Hcond).
  assert (Hup : updateBpfAppStateStatus ak (Some (currentAppState r)) r w2 = (Ret (false, None, r), w2)).
  { unfold updateBpfAppStateStatus, deep_equal, status. by rewrite bool_decide_eq_true_2. }
  rewrite (run_bind _ _ _ _ _ Hup). by rewrite Hdel.
Qed.
(** ** The whole node *)

(** What the API server says while [I] holds. *)
Definition answered (NodeName : string) (node : Node) (apps : list (Application P))
    (st : Application P → AppState PS) : Prop :=
  ∀ w, I w →
    (api_GetNode (P := P) (PS := PS) NodeName w).1 = Ok node ∧
    (api_ListApps (P := P) (PS := PS) w).1 = Ok apps ∧
    ∀ app, app ∈ apps →
      (api_ListStates (P := P) (PS := PS) (ak_namespace ak app)
         (<[BpfAppStateOwner := om_Name (app_meta app)]> {[K8sHostLabel := NodeName]}) w).1 =
        Ok [st app].

(** Its programs are loaded and served, and its state reports that. *)
Definition app_rests (stale : gset Z) r w : Prop :=
  running r ∧ matched ak r ∧ tabled ak v stale r w ∧ rested (loaded w) r.

Lemma app_rests_loaded stale r w w' :
  loaded w' = loaded w → app_rests stale r w → app_rests stale r w'.
Proof using Type. unfold app_rests, tabled. by intros ->. Qed.

Lemma run_apps_at_rest stale rc node apps all st w :
  I w → answered (rc_NodeName rc) node all st → apps ⊆ all →
  (∀ app, app ∈ apps → app_rests stale (mkAppRec rc app (st app)) w) →
  ∃ w', reconcile_apps ak rc apps w = (Ret (Ok 0), w') ∧ loaded w' = loaded w ∧ I w'.
Proof.
  intros HI Hans. revert w HI. induction apps as [|app apps IH]; intros w HI Hsub Hall.
  { by exists w. }
  destruct (Hans w HI) as (_ & _ & Hst).
  pose proof (Hst app ltac:(apply Hsub; left)) as Hst0.
  pose proof (quiet_ListStates (v := v) (ak_namespace ak app)
    (<[BpfAppStateOwner := om_Name (app_meta app)]> {[K8sHostLabel := rc_NodeName rc]}) w HI) as HI1.
  pose proof (apart_ListStates (ak_namespace ak app)
    (<[BpfAppStateOwner := om_Name (app_meta app)]> {[K8sHostLabel := rc_NodeName rc]}) w) as Hl1.
  assert (Hget : getBpfAppState ak rc app w =
    (Ret (Ok (Some (st app))), (api_ListStates (P := P) (PS := PS) (ak_namespace ak app)
      (<[BpfAppStateOwner := om_Name (app_meta app)]> {[K8sHostLabel := rc_NodeName rc]}) w).2)).
  { unfold getBpfAppState, mbind, GoM_bind, lift.
    destruct (api_ListStates _ _ w) as [res w1]. cbn in *. by rewrite Hst0. }
  destruct (app_rests_loaded stale _ w _ Hl1 (Hall app ltac:(left))) as (Hrun & Hm & Ht & Hr).
  destruct (run_existing_at_rest stale _ _ HI1 Hrun Hm Ht Hr) as (w2 & Hex & Hw2 & HI2).
  destruct (IH w2 HI2) as (w3 & Hrest & Hw3 & HI3).
  { intros a Ha. apply Hsub. by right. }
  { intros a Ha. eapply app_rests_loaded; [|apply Hall; by right]. congruence. }
  exists w3. split_and!; [|congruence|done]. cbn [reconcile_apps].
  assert (Happ : reconcile_app ak rc app w = (Ret None, w2)).
  { unfold reconcile_app. by rewrite (run_bind _ _ _ _ _ Hget). }
  by rewrite (run_bind _ _ _ _ _ Happ).
Qed.

(** C2: a node that is as desired stays as it is: when every application of the node is
    loaded, every program has exactly the links that its attach points expand to, all of
    them attached, and the state objects report that, then a Reconcile returns without an
    error and without asking for another run, has gone through all applications, has
    changed nothing in the daemon, and has disturbed nothing that only a write to the API
    server or a change of the host could disturb: no status is written, so the agent does
    not wake itself again. *)
Theorem Reconcile_rests stale NodeName req node apps st w :
  I w → answered NodeName node apps st →
  (∀ app, app ∈ apps →
     app_rests stale (mkAppRec (mkReconcilerCommon NodeName (ak_finalizer ak) node) app (st app)) w) →
  ∃ w', Reconcile ak NodeName req w = (Ret (Ok 0), w') ∧ loaded w' = loaded w ∧ I w'.
Proof.
  intros HI Hans Hall. unfold Reconcile.
  set (w1 := (NetNs_Reset w).2).
  set (w2 := (api_GetNode (P := P) (PS := PS) NodeName w1).2).
  set (w3 := (api_ListApps (P := P) (PS := PS) w2).2).
  assert (HI1 : I w1) by by apply u_Reset.
  assert (HI2 : I w2) by by apply reads_GetNode.
  assert (HI3 : I w3) by by apply (quiet_ListApps (v := v)).
  assert (Hl : loaded w3 = loaded w) by (unfold w3, w2, w1; by rewrite apart_ListApps, apart_GetNode, apart_Reset).
  destruct (run_apps_at_rest stale (mkReconcilerCommon NodeName (ak_finalizer ak) node) node apps apps st w3)
    as (w4 & Hrun & Hw4 & HI4); [done|done|done| |].
  { intros app Ha. eapply app_rests_loaded; [exact Hl|by apply Hall]. }
  exists w4. split_and!; [|congruence|done].
  assert (Hreset : lift NetNs_Reset w = (Ret tt, w1))
    by (unfold lift, w1; by destruct (NetNs_Reset w) as [[]]).
  assert (Hnode : lift (api_GetNode (P := P) (PS := PS) NodeName) w1 = (Ret (Ok node), w2)).
  { unfold lift, w2. destruct (Hans w1 HI1) as (Hn & _). destruct (api_GetNode NodeName w1). cbn in *. by subst. }
  assert (Happs : lift (api_ListApps (P := P) (PS := PS)) w2 = (Ret (Ok apps), w3)).
  { unfold lift, w3. destruct (Hans w2 HI2) as (_ & Hn & _). destruct (api_ListApps w2). cbn in *. by subst. }
  by rewrite (run_bind _ _ _ _ _ Hreset), (run_bind _ _ _ _ _ Hnode), (run_bind _ _ _ _ _ Happs).
Qed.
End resting.
