(* ===== verification/ServingScopes.v ===== *)
(** The kinds of the programs of both scopes, with which the agent's promise
    ([ServedScope]) holds of them. *)

From S2P Require Import Prelude ApiTypes Constants Bpfman Selectors Links LinkSpecs.
From S2P Require Import LinkTheorems LinkUpdate Kinds ClKinds NsKinds KindSpecs KindUpdates.
From S2P Require Import Application Apps AppSpecs Keeps Typing Serving.
From stdpp Require Import options.
#[local] Set Default Proof Using "Type*".

Section scopes.
Context {W : Type} `{!AgentEnv W, !BpfmanLaws W, !HostLaws W} (v : HostView).
Implicit Types w : W.

Definition pack {P S A L K} `{!ProgramState S, !ProgramStateLaws S, !LinkState L,
    !LinkStateLaws L, !EqDecision K} (k : Kind W P S A L) `{!KindLaws k} (key : L → option K)
    (expects : ProgRec P S → A → option (list L) → Prop)
    (Hk : ∀ I : W → Prop, LinksUndisturbed I → KindKeeps I k)
    `{up : !∀ m, UpdateSpec k (outside v m) key expects} : Package (P := P) (S := S) v :=
  mkPackage v A L K _ _ _ k _ key expects up Hk.

(** Of a fentry or fexit program without its struct there is no state to be found. *)
Definition cl_package (prog : ClBpfApplicationProgram) :
    option (Package (P := ClBpfApplicationProgram) (S := ClBpfApplicationProgramState) v) :=
  let t := clp_Type prog in
  if decide (t = ProgTypeFentry) then
    (λ _, pack ClFentry.kind ClFentry_key ClFentry_expects ClFentry_keeps) <$> clp_FEntry prog
  else if decide (t = ProgTypeFexit) then
    (λ _, pack ClFexit.kind ClFexit_key ClFexit_expects ClFexit_keeps) <$> clp_FExit prog
  else if decide (t = ProgTypeKprobe) then Some (pack ClKprobe.kind ClKprobe_key ClKprobe_expects ClKprobe_keeps)
  else if decide (t = ProgTypeKretprobe) then
    Some (pack ClKretprobe.kind ClKretprobe_key ClKretprobe_expects ClKretprobe_keeps)
  else if decide (t = ProgTypeUprobe) then Some (pack ClUprobe.kind ClUprobe_key (ClUprobe_expects v) ClUprobe_keeps)
  else if decide (t = ProgTypeUretprobe) then Some (pack ClUprobe.kind ClUprobe_key (ClUprobe_expects v) ClUprobe_keeps)
  else if decide (t = ProgTypeTracepoint) then
    Some (pack ClTracepoint.kind ClTracepoint_key ClTracepoint_expects ClTracepoint_keeps)
  else if decide (t = ProgTypeTC) then
    Some (pack ClTc.kind (net_key v tc_NetnsPath ClTc_fields) (ClTc_expects v) ClTc_keeps)
  else if decide (t = ProgTypeTCX) then
    Some (pack ClTcx.kind (net_key v tcx_NetnsPath ClTcx_fields) (ClTcx_expects v) ClTcx_keeps)
  else if decide (t = ProgTypeXDP) then
    Some (pack ClXdp.kind (net_key v xdp_NetnsPath ClXdp_fields) (ClXdp_expects v) ClXdp_keeps)
  else None.

Definition ns_package (prog : BpfApplicationProgram) :
    option (Package (P := BpfApplicationProgram) (S := BpfApplicationProgramState) v) :=
  let t := nsp_Type prog in
  if decide (t = ProgTypeUprobe) then Some (pack NsUprobe.kind NsUprobe_key (NsUprobe_expects v) NsUprobe_keeps)
  else if decide (t = ProgTypeUretprobe) then Some (pack NsUprobe.kind NsUprobe_key (NsUprobe_expects v) NsUprobe_keeps)
  else if decide (t = ProgTypeTC) then
    Some (pack NsTc.kind (net_key v tc_NetnsPath NsTc_fields) (NsTc_expects v) NsTc_keeps)
  else if decide (t = ProgTypeTCX) then
    Some (pack NsTcx.kind (net_key v tcx_NetnsPath NsTcx_fields) (NsTcx_expects v) NsTcx_keeps)
  else if decide (t = ProgTypeXDP) then
    Some (pack NsXdp.kind (net_key v xdp_NetnsPath NsXdp_fields) (NsXdp_expects v) NsXdp_keeps)
  else None.

(** *** Reconcilers and links *)

Lemma cl_reconciler prog s pk :
  cl_package prog = Some pk → ClApp.getProgramReconciler prog s = Ok (of_kind (pk_kind v pk)).
Proof.
  unfold cl_package, ClApp.getProgramReconciler.
  destruct (decide _); [destruct (clp_FEntry prog); by intros [= <-]|].
  destruct (decide _); [destruct (clp_FExit prog); by intros [= <-]|].
  repeat (destruct (decide _); [by intros [= <-]|]). done.
Qed.

Lemma ns_reconciler prog s pk :
  ns_package prog = Some pk → NsApp.getProgramReconciler prog s = Ok (of_kind (pk_kind v pk)).
Proof.
  unfold ns_package, NsApp.getProgramReconciler.
  repeat (destruct (decide _); [by intros [= <-]|]). done.
Qed.

Lemma not_null {A} (p : option A) : negb (null p) = true → is_Some p.
Proof using Type. destruct p; [by eexists|done]. Qed.

Lemma cl_links prog s pk :
  cl_package prog = Some pk → cl_shaped s = true → cl_state_key s = cl_prog_key prog →
  k_owns (k := pk_kind v pk) s = true ∧ is_Some (k_stateLinks (pk_kind v pk) s).
Proof.
  intros Hpk Hsh [= Ht _ _]. revert Hpk Hsh. unfold cl_package, cl_shaped, cl_field. rewrite <- Ht.
  destruct s as [c t x tc tcx fe fx kp kr up ur tp]. cbn -[decide].
  repeat (destruct (decide _) as [->|]; [
    repeat match goal with |- context [_ <$> ?p _] => destruct (p prog) end;
    intros [= <-] Hs%not_null; destruct Hs as [? ->]; cbn; eauto|]). done.
Qed.

Lemma ns_links prog s pk :
  ns_package prog = Some pk → ns_shaped s = true → ns_state_key s = ns_prog_key prog →
  k_owns (k := pk_kind v pk) s = true ∧ is_Some (k_stateLinks (pk_kind v pk) s).
Proof.
  intros Hpk Hsh [= Ht _]. revert Hpk Hsh. unfold ns_package, ns_shaped, ns_field. rewrite <- Ht.
  destruct s as [c t x tc tcx up ur]. cbn -[decide].
  repeat (destruct (decide _) as [->|]; [intros [= <-] Hs%not_null; destruct Hs as [? ->]; cbn; eauto|]).
  done.
Qed.

(** *** The lookup of a state *)

Lemma cl_matches prog s w :
  is_Some (cl_package prog) → cl_shaped s = true →
  ClApp.matches prog s w = (Ret (bool_decide (cl_state_key s = cl_prog_key prog)), w).
Proof.
  intros Hpk Hsh. unfold ClApp.matches, cl_state_key, cl_prog_key.
  destruct (decide (clps_Type s = clp_Type prog ∧ ps_Name (clps_common s) = clp_Name prog)) as [[Ht Hn]|Hne].
  - rewrite Ht, Hn. revert Hpk Hsh. unfold cl_package, cl_shaped, cl_field, cl_fn. rewrite Ht.
    destruct (decide (clp_Type prog = ProgTypeFentry)) as [Hf|Hf];
      [|destruct (decide (clp_Type prog = ProgTypeFexit)) as [Hx|Hx]].
    + intros [pk Hpk]. destruct (clp_FEntry prog) as [sp|]; [|done]. intros [st ->]%not_null.
      unfold mbind, GoM_bind, mret, GoM_ret. cbn -[decide]. do 2 f_equal. apply bool_decide_ext.
      repeat case_decide; try done. cbn. split; congruence.
    + intros [pk Hpk]. destruct (clp_FExit prog) as [sp|]; [|done]. intros [st ->]%not_null.
      unfold mbind, GoM_bind, mret, GoM_ret. cbn -[decide]. do 2 f_equal. apply bool_decide_ext.
      repeat case_decide; try done. cbn. split; congruence.
    + intros _ _. rewrite !decide_False by done. by rewrite bool_decide_eq_true_2.
  - rewrite bool_decide_eq_false_2; [done|]. intros [= Ht Hn _]. by apply Hne.
Qed.

Lemma ns_matches prog s w :
  NsApp.matches prog s w = (Ret (bool_decide (ns_state_key s = ns_prog_key prog)), w).
Proof.
  unfold NsApp.matches, ns_state_key, ns_prog_key, mret, GoM_ret. do 2 f_equal.
  apply bool_decide_ext. split; [by intros [-> ->]|by intros [=]].
Qed.

(** A search that compares keys finds the one state with the key. *)
Lemma run_search {P PS} (matches : P → PS → GoM W bool)
    (from : nat → P → list PS → GoM W (result nat)) (sk : PS → key) (pk : key) (prog : P) w :
  (∀ i s ps, from i prog (s :: ps) =
     (found ← matches prog s; if (found : bool) then mret (Ok i) else from (1 + i)%nat prog ps)) →
  ∀ ps j i s, (∀ s, s ∈ ps → matches prog s w = (Ret (bool_decide (sk s = pk)), w)) →
    NoDup (sk <$> ps) → ps !! i = Some s → sk s = pk → from j prog ps w = (Ret (Ok (j + i)%nat), w).
Proof using Type.
  intros Hfrom ps. induction ps as [|s0 ps IH]; intros j i s Hm Hnd Hi Hk; [done|].
  rewrite Hfrom, (run_bind _ _ _ _ _ (Hm s0 ltac:(left))).
  apply NoDup_cons in Hnd as [Hnin Hnd]. destruct i as [|i]; cbn in Hi.
  - injection Hi as ->. rewrite bool_decide_eq_true_2 by done. by rewrite Nat.add_0_r.
  - rewrite bool_decide_eq_false_2.
    + rewrite (IH (1 + j)%nat i s); [do 3 f_equal; lia|intros; apply Hm; by right|done..].
    + intros Heq. apply Hnin. rewrite Heq, <- Hk. apply list_elem_of_fmap_2.
      by eapply list_elem_of_lookup_2.
Qed.

End scopes.

Section cl_scope.
Context {W : Type} `{!AgentEnv W, !BpfmanLaws W, !HostLaws W, !LabelLib, !BytecodeLib W,
  !ApplicationAPI W ClBpfApplicationProgram ClBpfApplicationProgramState} (v : HostView).

#[export] Instance ClApp_served : ServedScope (W := W) ClApp.app_kind v.
Proof.
  refine (Build_ServedScope W _ _ _ _ _ _ _ ClApp.app_kind _ _ v (cl_package v) _ _ _ _ _).
  - apply cl_reconciler.
  - apply cl_links.
  - intros prog ps i s w Hpk [Hsh Hnd] Hi Hk. cbn. unfold ClApp.getProgState.
    apply (run_search ClApp.matches ClApp.getProgState_from cl_state_key (cl_prog_key prog) prog w
      (λ _ _ _, eq_refl) ps 0 i s); [|done..].
    intros s0 Hs0. apply (cl_matches v); [done|]. rewrite Forall_forall in Hsh. by apply Hsh.
  - done.
  - done.
Defined.

End cl_scope.

Section ns_scope.
Context {W : Type} `{!AgentEnv W, !BpfmanLaws W, !HostLaws W, !LabelLib, !BytecodeLib W,
  !ApplicationAPI W BpfApplicationProgram BpfApplicationProgramState} (v : HostView).

#[export] Instance NsApp_served : ServedScope (W := W) NsApp.app_kind v.
Proof.
  refine (Build_ServedScope W _ _ _ _ _ _ _ NsApp.app_kind _ _ v (ns_package v) _ _ _ _ _).
  - apply ns_reconciler.
  - apply ns_links.
  - intros prog ps i s w Hpk [Hsh Hnd] Hi Hk. cbn. unfold NsApp.getProgState.
    apply (run_search NsApp.matches NsApp.getProgState_from ns_state_key (ns_prog_key prog) prog w
      (λ _ _ _, eq_refl) ps 0 i s); [|done..].
    intros s0 Hs0. apply ns_matches.
  - done.
  - done.
Defined.
End ns_scope.
