(* ===== verification/ServingWitnesses.v ===== *)
(** The agent's promise for an application, applied to one with two programs on the
    simulated node. *)

From S2P Require Import Prelude ApiTypes Constants Bpfman Selectors Links LinkSpecs.
From S2P Require Import LinkTheorems LinkUpdate Kinds ClKinds NsKinds KindSpecs KindUpdates.
From S2P Require Import Application Apps AppSpecs AppLoop Keeps Typing.
From S2P Require Import Simulation ProtocolWitnesses Serving ServingTheorems ServingScopes.
From stdpp Require Import options.

#[local] Abbreviation AK := (ClApp.app_kind (W := SimNode)).
#[local] Abbreviation P := ClBpfApplicationProgram.
#[local] Abbreviation PS := ClBpfApplicationProgramState.

#[export] Instance sim_apart : DaemonApart SimNode P PS.
Proof. split; intros; try done. cbn. by destruct (sim_put_status an (sa_states (sn_api w))). Qed.

(** Nothing that the agent asks for changes what the node answers. *)
Definition sim_parts (w : SimNode) := (sn_netns w, sn_discovered w, sn_containers w).

Lemma on_daemon_parts {A} (f : Sim → A * Sim) w : sim_parts (on_daemon f w).2 = sim_parts w.
Proof. unfold on_daemon. by destruct (f (sn_daemon w)). Qed.

#[export] Instance sim_view_reads v : ReadsUndisturbed P PS (λ w : SimNode, host_view w = v).
Proof.
  assert (Hkeep : ∀ w w' : SimNode, sim_parts w' = sim_parts w → host_view w = v → host_view w' = v)
    by (intros w w' [= Hn Hd Hc] <-; cbn; by rewrite Hn, Hd, Hc).
  split; [split|..]; intros; (eapply Hkeep; [|eassumption]); first [done|apply on_daemon_parts].
Qed.

(** ** Two programs, one of which still has to move *)

(** The XDP program of the node is recorded on lo but wanted on eth0; the kprobe, which the
    daemon has under id 1003, is recorded nowhere yet. *)
Definition pair_node : SimNode :=
  set_daemon (mkSim {[1001 := mkProgramInfo "xdp_pass" [2001] ∅;
                      1003 := mkProgramInfo "probe" [] ∅]} 4) sim_node.

Definition probe_program : ClBpfApplicationProgram :=
  mkClBpfApplicationProgram "probe" ProgTypeKprobe None None None None None
    (Some (mkWithLinks (Some [mkClKprobeAttachInfo "do_unlinkat" 0]))) None None None None.

Definition probe_state : ClBpfApplicationProgramState :=
  mkClBpfApplicationProgramState (mkBpfProgramStateCommon "probe" ProgAttachPending (Some 1003))
    ProgTypeKprobe None None None None None (Some (mkWithLinks None)) None None None None.

Definition moving_links : list ClXdpAttachInfoState :=
  [xdp_link true "uuid-a" "lo" (Some 2001)].

Definition pair_app : AppRec P PS :=
  sim_apprec (sim_app false [xdp_program ["eth0"]; probe_program])
    (sim_app_state AppLoadSuccess [xdp_state (Some 1001) moving_links; probe_state]
       [sim_condition BpfAppStateCondPending]).

Definition pair_view : HostView := host_view pair_node.

Lemma pair_running : running pair_app.
Proof. split; by vm_compute. Defined.

Lemma pair_matched : matched AK pair_app.
Proof.
  split; [apply (bool_decide_unpack _); by vm_compute|]. split; [done|].
  split; [by repeat constructor|apply (bool_decide_unpack _); by vm_compute].
Defined.

Lemma pair_unshared : unshared (loaded pair_node).
Proof.
  intros p q id (ks & Hp & Hi)%tlinked_true (ks' & Hq & Hi')%tlinked_true. revert Hp Hi Hq Hi'.
  change (loaded pair_node) with ({[1001 := {[2001]}; 1003 := ∅]} : gmap Z (gset Z)).
  intros [[<- <-]|[Hne [<- <-]%lookup_singleton_Some]]%lookup_insert_Some Hi
    [[<- <-]|[Hne' [<- <-]%lookup_singleton_Some]]%lookup_insert_Some Hi'; set_solver.
Defined.

Lemma pair_tabled : tabled AK pair_view ∅ pair_app pair_node.
Proof.
  split; [exact pair_unshared|]. split; [apply (bool_decide_unpack _); by vm_compute|].
  constructor; [|constructor; [|constructor]].
  - exists 0%nat, (xdp_state (Some 1001) moving_links). eexists. split_and!; [done..|].
    exists 1001, (Some moving_links). split_and!; [done|by eexists; vm_compute|done..| |].
    + split; [apply (bool_decide_unpack _); by vm_compute|]. intros id Hid. left.
      change (link_ids (elems (Some moving_links))) with [2001] in Hid.
      apply list_elem_of_singleton in Hid as ->. by vm_compute.
    + apply (bool_decide_unpack _). by vm_compute.
  - exists 1%nat, probe_state. eexists. split_and!; [done..|].
    exists 1003, None. split_and!; [done|by eexists; vm_compute|done..| |].
    + split; [constructor|]. intros id Hid. by apply elem_of_nil in Hid.
    + constructor.
Defined.


(** What that run leaves: one link for each attach point. *)
Lemma pair_served :
  let w := (reconcile_existing AK pair_app pair_node).2 in
  map_to_list (elements <$> loaded w) = [(1003, [1006]); (1001, [1005])].
Proof. by vm_compute. Qed.
