(* ===== verification/RestingWitnesses.v ===== *)
(** The two programs of [ServingWitnesses], once they are served: the node is at rest. *)

From S2P Require Import Prelude ApiTypes Constants Bpfman Selectors Links LinkSpecs.
From S2P Require Import LinkTheorems LinkUpdate Kinds ClKinds NsKinds KindSpecs KindUpdates.
From S2P Require Import Application Apps AppSpecs AppLoop Keeps Typing.
From S2P Require Import Simulation Scenarios ProtocolWitnesses Serving ServingTheorems.
From S2P Require Import ServingScopes.
From S2P Require Import ServingWitnesses Resting RestingTheorems.
From stdpp Require Import options.

#[local] Abbreviation AK := (ClApp.app_kind (W := SimNode)).
#[local] Abbreviation P := ClBpfApplicationProgram.
#[local] Abbreviation PS := ClBpfApplicationProgramState.

Definition served_links : list ClXdpAttachInfoState :=
  [mkClXdpAttachInfoState (mkAttachInfoStateCommon true "uuid-0" (Some 1005) ApAttachAttached)
     "eth0" "" 1000 None].

Definition served_xdp : ClBpfApplicationProgramState :=
  mkClBpfApplicationProgramState (mkBpfProgramStateCommon "xdp_pass" ProgAttachSuccess (Some 1001))
    ProgTypeXDP (Some (mkWithLinks (Some served_links))) None None None None None None None None None.

Definition served_probe_links : list ClKprobeAttachInfoState :=
  [mkClKprobeAttachInfoState (mkAttachInfoStateCommon true "uuid-1" (Some 1006) ApAttachAttached)
     "do_unlinkat" 0].

Definition served_probe : ClBpfApplicationProgramState :=
  mkClBpfApplicationProgramState (mkBpfProgramStateCommon "probe" ProgAttachSuccess (Some 1003))
    ProgTypeKprobe None None None None None (Some (mkWithLinks (Some served_probe_links)))
    None None None None.

Definition rest_state : ClusterBpfApplicationState :=
  mkAppState (sim_meta "app-1" false [ClBpfApplicationControllerFinalizer])
    (mkAppStateStatus 2 "node-1" AppLoadSuccess (Some [served_xdp; served_probe])
       (Some [sim_condition BpfAppStateCondSuccess])).

Definition rest_api : SimAPI := mkSimAPI (node_of ∅) [currentApp pair_app] [rest_state] 0.

Definition rest_node : SimNode :=
  mkSimNode (mkSim {[1001 := mkProgramInfo "xdp_pass" [1005] ∅;
                     1003 := mkProgramInfo "probe" [1006] ∅]} 4) 2
    (sn_netns sim_node) (sn_discovered sim_node) (sn_containers sim_node) rest_api.

(** What the Reconcile of the pair leaves. *)
Definition pair_world : SimNode :=
  set_api (mkSimAPI (node_of ∅) [currentApp pair_app] [currentAppState pair_app] 0) pair_node.

Lemma pair_comes_to_rest :
  let w := (ClApp.Reconcile "node-1" "default/app" pair_world).2 in
  st_Programs ∘ as_Status <$> sa_states (sn_api w) = [Some [served_xdp; served_probe]] ∧
  conditions_of w = [[BpfAppStateCondSuccess]] ∧
  map_to_list (elements <$> loaded w) = map_to_list (elements <$> loaded rest_node).
Proof. by vm_compute. Qed.

(** The objects of the server and the namespaces are as they were. *)
Definition objects (w : SimNode) : Node * list ClusterBpfApplication * list ClusterBpfApplicationState :=
  (sa_node (sn_api w), sa_apps (sn_api w), sa_states (sn_api w)).

Lemma on_daemon_objects {A} (f : Sim → A * Sim) w : objects (on_daemon f w).2 = objects w.
Proof. unfold objects. by rewrite on_daemon_api. Qed.

Definition calm (w : SimNode) : Prop :=
  objects w = objects rest_node ∧ sim_parts w = sim_parts sim_node.

#[export] Instance calm_reads : ReadsUndisturbed P PS calm.
Proof.
  assert (Hkeep : ∀ w w' : SimNode, sim_parts w' = sim_parts w → objects w' = objects w → calm w → calm w')
    by (intros w w' Hn Ha [? ?]; split; congruence).
  split; [split|..]; intros; (eapply Hkeep; [| |eassumption]);
    first [done|apply on_daemon_parts|apply on_daemon_objects].
Qed.

#[export] Instance calm_quiet : Quiet P PS pair_view calm.
Proof. split; [apply _|..]; try by intros. by intros w [_ [= Hn Hd Hc]]; unfold pair_view; cbn; rewrite Hn, Hd, Hc. Qed.

Definition rest_app : AppRec P PS :=
  mkAppRec (mkReconcilerCommon "node-1" ClBpfApplicationControllerFinalizer (node_of ∅))
    (currentApp pair_app) rest_state.

Lemma rest_running : running rest_app.
Proof. split; by vm_compute. Defined.

Lemma rest_matched : matched AK rest_app.
Proof.
  split; [apply (bool_decide_unpack _); by vm_compute|]. split; [done|].
  split; [by repeat constructor|apply (bool_decide_unpack _); by vm_compute].
Defined.

Lemma rest_unshared : unshared (loaded rest_node).
Proof.
  intros p q id (ks & Hp & Hi)%tlinked_true (ks' & Hq & Hi')%tlinked_true. revert Hp Hi Hq Hi'.
  change (loaded rest_node) with ({[1001 := {[1005]}; 1003 := {[1006]}]} : gmap Z (gset Z)).
  intros [[<- <-]|[Hne [<- <-]%lookup_singleton_Some]]%lookup_insert_Some Hi
    [[<- <-]|[Hne' [<- <-]%lookup_singleton_Some]]%lookup_insert_Some Hi'; set_solver.
Defined.

Lemma rest_tabled : tabled AK pair_view ∅ rest_app rest_node.
Proof.
  assert (Hone : ∀ (L : Type) `{!LinkState L} (ls : list L) pid id, link_ids ls = [id] →
    tlinked (loaded rest_node) pid id = true → recorded ∅ (loaded rest_node) pid ls).
  { intros L HL ls pid id Hids Ht. split; rewrite Hids; [apply NoDup_singleton|].
    intros i ->%list_elem_of_singleton. by left. }
  split; [exact rest_unshared|]. split; [apply (bool_decide_unpack _); by vm_compute|].
  constructor; [|constructor; [|constructor]].
  - exists 0%nat, served_xdp. eexists. split_and!; [done..|].
    exists 1001, (Some served_links). split_and!; [done|by eexists; vm_compute|done..| |].
    + apply (Hone _ _ served_links 1001 1005); by vm_compute.
    + apply (bool_decide_unpack _). by vm_compute.
  - exists 1%nat, served_probe. eexists. split_and!; [done..|].
    exists 1003, (Some served_probe_links). split_and!; [done|by eexists; vm_compute|done..| |].
    + apply (Hone _ _ served_probe_links 1003 1006); by vm_compute.
    + apply (bool_decide_unpack _). by vm_compute.
Defined.

(** The interface is named in the spec, so the attach point expands to it whatever else
    the host has. *)
Lemma rest_xdp pk : sv_kind (ak := AK) (v := pair_view) (xdp_program ["eth0"]) = Some pk →
  at_rest pair_view pk calm (loaded rest_node) (progRec rest_app (xdp_program ["eth0"]) served_xdp).
Proof.
  intros [= <-]. exists 1001, (Some served_links), [[(("eth0", 1000, None), 42)]].
  split_and!; [done..| | |done| |].
  - apply (bool_decide_unpack _). by vm_compute.
  - constructor; [|constructor]. split_and!; [by eexists; vm_compute|by vm_compute..].
  - constructor; [|constructor]. intros w res w' [_ Hn] Hrun. revert Hrun.
    cbn. intros [= <- <-]. eexists. split; [done|]. by vm_compute.
  - done.
Qed.

Lemma rest_probe pk : sv_kind (ak := AK) (v := pair_view) probe_program = Some pk →
  at_rest pair_view pk calm (loaded rest_node) (progRec rest_app probe_program served_probe).
Proof.
  intros [= <-]. exists 1003, (Some served_probe_links), [[("do_unlinkat", 0)]].
  split_and!; [done..| | |done| |].
  - apply (bool_decide_unpack _). by vm_compute.
  - constructor; [|constructor]. split_and!; [by eexists; vm_compute|by vm_compute..].
  - constructor; [|constructor]. intros w res w' [_ Hn] Hrun. revert Hrun.
    cbn. intros [= <- <-]. eexists. split; [done|]. by vm_compute.
  - done.
Qed.

Lemma rest_rested : rested AK pair_view calm (loaded rest_node) rest_app.
Proof.
  split; [done|]. split; [by eexists|].
  intros prog [->|[->|[]%elem_of_nil]%elem_of_cons]%elem_of_cons.
  - exists 0%nat, served_xdp. eexists. split_and!; [done..|]. by apply rest_xdp.
  - exists 1%nat, served_probe. eexists. split_and!; [done..|]. by apply rest_probe.
Qed.

Lemma rest_answered :
  answered AK calm "node-1" (node_of ∅) [currentApp pair_app] (λ _, rest_state).
Proof.
  intros w [[= Hn Ha Hs] _]. split_and!; [cbn; by rewrite Hn|cbn; by rewrite Ha|].
  intros app ->%list_elem_of_singleton. cbn. rewrite Hs. by vm_compute.
Qed.

Lemma Reconcile_rests_witness :
  ∃ w', ClApp.Reconcile "node-1" "default/app" rest_node = (Ret (Ok 0), w') ∧
    loaded w' = loaded rest_node ∧ sa_states (sn_api w') = [rest_state].
Proof.
  destruct (Reconcile_rests AK pair_view calm ∅ "node-1" "default/app" (node_of ∅)
    [currentApp pair_app] (λ _, rest_state) rest_node) as (w' & Hrun & Hl & [[= _ _ Hs] _]).
  - by split.
  - exact rest_answered.
  - intros app ->%list_elem_of_singleton.
    exact (conj rest_running (conj rest_matched (conj rest_tabled rest_rested))).
  - exists w'. split; [exact Hrun|]. split; [exact Hl|exact Hs].
Defined.
