(* ===== verification/WatchWitnesses.v ===== *)
(** The theorems of WatchTheorems applied to the simulated clusters: a ConfigMap that is
    deleted behind the operator's back, and the state update of the agent that reports an
    application as loaded. *)

From S2P Require Import Prelude ApiTypes Constants Bpfman Selectors Links Application Apps.
From S2P Require Import AppSpecs.
From S2P Require Import Operator OperatorSpecs ConfigTypes Config ConfigSpecs ConfigSteps.
From S2P Require Import ConfigTheorems ConfigReconcile OperatorMain Watches WatchTheorems.
From S2P Require Import ConfigSim ConfigWitnesses Simulation Scenarios.
From stdpp Require Import options.

#[export] Instance Cluster_owner : ConfigOwnerLaws Cluster.
Proof.
  split. intros c k x x' [= <-]. exists (config_owner c).
  unfold GetControllerOf. by rewrite obj_meta_set.
Qed.

#[local] Abbreviation demo := (demo_config None [BpfmanConfigFinalizer; "other"]).

(** The cluster after a pass, and without its ConfigMap. *)
Definition settled_cluster : Cluster := (Config.Reconcile demo_reconciler BpfmanConfigName cluster1).2.
Definition drifted_cluster : Cluster :=
  with_objs (upd KConfigMap (delete ("bpfman", BpfmanCmName)) (cl_objs settled_cluster)) settled_cluster.

Lemma drifted_live : live drifted_cluster.
Proof.
  apply live_cluster. intros []; apply (bool_decide_unpack _); vm_compute; exact I.
Qed.

Lemma drifted_prepared : prepared demo demo_reconciler drifted_cluster.
Proof.
  split_and!; [apply (bool_decide_unpack _); vm_compute; exact I..| |].
  - intros _. apply (bool_decide_unpack _). vm_compute. exact I.
  - eexists. vm_compute. reflexivity.
Qed.

Lemma cluster_settled : settled demo demo_reconciler settled_cluster.
Proof.
  eapply (pass_settles demo demo_reconciler BpfmanConfigName cluster1);
    [exact cluster1_live|vm_compute; reflexivity|vm_compute; reflexivity|].
  unfold settled_cluster.
  assert (Hr : (Config.Reconcile demo_reconciler BpfmanConfigName cluster1).1 = Ret None)
    by (vm_compute; reflexivity).
  destruct (Config.Reconcile demo_reconciler BpfmanConfigName cluster1). cbn in *. by rewrite Hr.
Qed.

Definition settled_cm : obj KConfigMap :=
  match view KConfigMap "bpfman" BpfmanCmName settled_cluster with
  | Got cm => cm
  | _ => bpfman_cm demo
  end.

Lemma drift_repaired_witness :
  ∃ req w'',
    view KConfigMap "bpfman" BpfmanCmName drifted_cluster = NotFound ∧
    req ∈ enqueued (BpfmanConfigReconciler_SetupWithManager demo_reconciler)
            (OnDelete (mkConfigObject KConfigMap settled_cm)) ∧
    Config.Reconcile demo_reconciler (rq_Name req) drifted_cluster = (Ret None, w'') ∧
    settled demo demo_reconciler w''.
Proof.
  destruct (drift_repaired demo demo_reconciler settled_cluster KConfigMap BpfmanCmName cluster_settled)
    as [_ Hrep]; [left|].
  destruct (Hrep "bpfman" settled_cm drifted_cluster (OnDelete (mkConfigObject KConfigMap settled_cm)))
    as (req & w'' & H1 & H2 & H3).
  - vm_compute. reflexivity.
  - exists (config_owner demo). split; [vm_compute; reflexivity|]. by split.
  - assert (Hgone : view KConfigMap "bpfman" BpfmanCmName drifted_cluster = NotFound)
      by (vm_compute; reflexivity).
    by rewrite Hgone.
  - exact drifted_live.
  - vm_compute. reflexivity.
  - vm_compute. reflexivity.
  - exact drifted_prepared.
  - exists req, w''. split; [vm_compute; reflexivity|]. by split_and!.
Defined.

(** ** The operator *)

Definition owned_app : ClusterBpfApplication := sim_app false [xdp_program ["eth0"]].
Definition owned_state (t : string) : ClusterBpfApplicationState :=
  mkAppState (sim_owned owned_app (sim_meta "app-1" false [ClBpfApplicationControllerFinalizer]))
    (mkAppStateStatus 1 "node-1" AppLoadSuccess (Some [xdp_state (Some 1001) []])
       (Some [sim_condition t])).

(** The agent's report of success wakes the operator for the application; the wake-up is
    for the name of the state object. *)
Lemma state_update_reaches_operator_witness :
  let w := world [owned_app] [owned_state BpfAppStateCondSuccess] in
  let e := OnUpdate (StateObj (owned_state BpfAppStateCondPending))
             (StateObj (owned_state BpfAppStateCondSuccess)) in
  enqueued BpfApplicationReconciler_SetupWithManager e ≠ [] ∧
  ∃ req, enqueued BpfApplicationReconciler_SetupWithManager e = [req] ∧
    op_Reconcile (PS := ClBpfApplicationProgramState) ClOper.kind (rq_Namespace req) (rq_Name req) w
      = reconcileBpfApplication (PS := ClBpfApplicationProgramState) ClOper.kind owned_app w.
Proof.
  intros w e.
  assert (Hne : enqueued BpfApplicationReconciler_SetupWithManager e ≠ []) by by vm_compute.
  split; [exact Hne|].
  destruct (state_update_reaches_operator (W := SimNode) ClOper.kind
    (owned_state BpfAppStateCondPending) (owned_state BpfAppStateCondSuccess)
    (mkOwnerReference "ClusterBpfApplication" "app" "" (Some true)) owned_app w) as [H|[H _]];
    [reflexivity|reflexivity|vm_compute; reflexivity|vm_compute; reflexivity|vm_compute; reflexivity
    |vm_compute; reflexivity|exact H|done].
Defined.
