(* ===== verification/MainWitnesses.v ===== *)
(** The main function of the operator run on the simulated cluster. *)

From S2P Require Import Prelude ApiTypes Constants Bpffs Processes Application Operator.
From S2P Require Import ConfigTypes Config ConfigSpecs OperatorMain Mains MainSpecs.
From S2P Require Import ConfigSim ConfigWitnesses.
From stdpp Require Import options.

Definition with_registered (rs : list Reconciler) (w : Cluster) : Cluster :=
  mkCluster (cl_objs w) (cl_files w) (cl_env w) rs.

(** A host whose manager starts and ends when it is told to, without certificates. *)
#[export] Instance Cluster_main : MainHost Cluster := {|
  main_Getenv v w := (default "" (cl_env w !! v), w);
  print_stdout _ w := (tt, w);
  print_stderr _ w := (tt, w);
  SetLogger _ w := (tt, w);
  log_Error _ _ w := (tt, w);
  certwatcher_New crt _ w := (Err ("open " +:+ crt +:+ ": no such file or directory"), w);
  ctrl_NewManager _ w := (None, w);
  server_NewServer _ w := (None, w);
  mgr_Add _ w := (None, w);
  mgr_Complete rec w := (None, with_registered (cl_registered w ++ [rec]) w);
  mgr_AddHealthzCheck _ w := (None, w);
  mgr_AddReadyzCheck _ w := (None, w);
  mgr_Start w := (None, w);
  NewDiscoveryClientForConfig w := (None, w);
|}.

#[export] Program Instance Cluster_registers : RegisterLaws Cluster := {|
  registered := cl_registered;
|}.
Solve All Obligations with done.

#[export] Instance Cluster_operator_registers : OperatorRegisterLaws Cluster.
Proof. split; try done. intros k x w. cbn. unfold sim_Create. by destruct (sim_view _ _ _ _). Qed.

#[export] Instance Cluster_yaml : ConfigYAML := {|
  json_Marshal c := Ok (om_Name (cfg_meta c));
  yaml_JSONToYAML data := Ok (data +:+ nl);
|}.

Definition demo_build : Build := mkBuild "" "" "" "go1.25" "linux/amd64".

(** On a cluster without a Config. *)
Definition operator_run : outcome Z * Cluster :=
  operator_main demo_build [] operator_default_flags cluster0.

Lemma operator_main_zero_witness :
  operator_run.1 = Ret 0 /\
  ∃ r w1, IsOpenShift w1 = (Ret (Ok (IsOpenshift r)), w1) ∧
    HasMonitoringAPI w1 = (Ret (Ok (HasMonitoring r)), w1) ∧
    served (registered cluster0 ++ [BpfmanConfigReconciler_ r; BpfApplicationReconciler;
                                    BpfNsApplicationReconciler]) operator_run.2.
Proof.
  split; [vm_compute; reflexivity|].
  apply (operator_main_zero demo_build [] operator_default_flags cluster0 operator_run.2).
  - apply surjective_pairing.
  - discriminate.
  - reflexivity.
Defined.
