(* ===== verification/Witnesses.v ===== *)
(** The theorems of the development at concrete inputs of the simulated node:
    each hypothesis is discharged by evaluation, which shows that it can hold. *)

From S2P Require Import Prelude ApiTypes Constants Bpfman Selectors Links LinkSpecs.
From S2P Require Import LinkTheorems LinkUpdate Kinds ClKinds NsKinds KindSpecs KindUpdates.
From S2P Require Import KindTheorems Application Apps AppSpecs AppLoop Operator OperatorSpecs.
From S2P Require Import Simulation.
From stdpp Require Import options.

#[local] Abbreviation K := (ClXdp.kind (W := SimNode)).

(** ** Links of the node's XDP program *)

(** The recorded link 2001 on lo is no longer wanted, one on eth0 is. *)
Definition move_links : list ClXdpAttachInfoState :=
  [xdp_link false "uuid-a" "lo" (Some 2001); xdp_link true "uuid-b" "eth0" None].

Definition move_rec : ProgRec ClBpfApplicationProgram ClBpfApplicationProgramState :=
  sim_rec ["eth0"] (Some 1001) move_links.

Lemma move_recorded : recorded ∅ (loaded sim_node) 1001 move_links.
Proof.
  split.
  - apply (bool_decide_unpack _). by vm_compute.
  - intros id Hid. left. change (link_ids move_links) with [2001] in Hid.
    apply list_elem_of_singleton in Hid as ->. by vm_compute.
Defined.


Lemma processLinks_converges_witness :
  ∃ r' w', processLinks ClXdp.kind move_rec sim_node = (Ret (None, r'), w') ∧
    programStatus r' = ProgAttachSuccess.
Proof.
  destruct (processLinks_converges K ∅ 1001 move_rec (Some move_links) sim_node)
    as (r' & w' & sl' & Hrun & _ & _ & _ & Hst & _);
    [exact SimNode_ok|reflexivity|by eexists; vm_compute|reflexivity..|exact move_recorded|].
  exists r', w'. split; [exact Hrun|exact Hst].
Defined.

(** The result of the pass over [move_rec]. *)
Definition moved : ProgRec ClBpfApplicationProgram ClBpfApplicationProgramState :=
  match (processLinks ClXdp.kind move_rec sim_node).1 with
  | Ret (_, r) => r
  | Panic _ => move_rec
  end.
Definition moved_node : SimNode := (processLinks ClXdp.kind move_rec sim_node).2.

Lemma processLinks_leaves_others_witness :
  tlinked (loaded moved_node) 1001 7 = true ↔
  tlinked (loaded sim_node) 1001 7 = true ∨
  (1001 = 1001 ∧ 7 ∈ link_ids (elems (default None (linksOf ClXdp.kind moved)))).
Proof.
  pose proof (processLinks_leaves_others K True ∅ 1001 move_rec (Some move_links) sim_node
    moved (default None (linksOf K moved)) moved_node 1001 7) as Hw.
  apply Hw; [exact SimNode_ok_any|reflexivity..|exact move_recorded| | |].
  - by vm_compute.
  - by vm_compute.
  - by apply (bool_decide_unpack _); vm_compute.
Defined.

(** The program as it is desired. *)
Definition steady_links : list ClXdpAttachInfoState :=
  [set_lst ApAttachAttached (xdp_link true "uuid-a" "eth0" (Some 2001))].
Definition steady_rec : ProgRec ClBpfApplicationProgram ClBpfApplicationProgramState :=
  update_prog (with_ProgramLinkStatus ProgAttachSuccess)
    (sim_rec ["eth0"] (Some 1001) steady_links).

Lemma processLinks_steady_witness :
  ∃ w', processLinks ClXdp.kind steady_rec sim_node = (Ret (None, steady_rec), w') ∧
    loaded w' = loaded sim_node.
Proof.
  pose proof (processLinks_steady K 1001 steady_rec (Some steady_links) sim_node) as Hw.
  apply Hw; [done|done|done| |done].
  constructor; [|constructor]. by vm_compute.
Defined.

(** A node that is not selected: the program has no id, its spec a link. *)
Lemma processLinks_unloaded_witness :
  processLinks ClXdp.kind (sim_rec ["eth0"] None move_links) sim_node =
  (Panic nil_dereference, sim_node).
Proof.
  pose proof (processLinks_unloaded K (sim_rec ["eth0"] None move_links)
    (Some move_links) sim_node) as Hrun.
  apply Hrun; reflexivity.
Defined.

(** ** Links of the spec *)

Definition sim_view : HostView := host_view sim_node.

Lemma sim_outside : outside sim_view (loaded sim_node) sim_node.
Proof. by split. Defined.

#[local] Abbreviation xdp_key := (net_key sim_view xdp_NetnsPath ClXdp_fields).

Lemma move_keys : NoDup (omap xdp_key move_links).
Proof. apply (bool_decide_unpack _). by vm_compute. Defined.

Lemma updateLinks_merges_witness :
  ∃ err r' w', updateLinks ClXdp.kind move_rec false sim_node = (Ret (err, r'), w') ∧
    programId r' = Some 1001.
Proof.
  destruct (updateLinks_merges K (outside sim_view (loaded sim_node)) xdp_key (ClXdp_expects sim_view)
    move_rec (Some move_links) sim_node)
    as (err & r' & w' & sl' & groups & added & Hrun & _ & _ & Hp & _);
    [exact sim_outside|reflexivity..|exact move_keys|].
  exists err, r', w'. split; [exact Hrun|exact Hp].
Defined.

Lemma reconcileProgram_converges_witness :
  ∃ err r' w', reconcileProgram ClXdp.kind move_rec false sim_node = (Ret (err, r'), w') ∧
    programStatus r' = (match err with Some _ => UpdateAttachInfoError | None => ProgAttachSuccess end).
Proof.
  destruct (reconcileProgram_converges K (outside sim_view (loaded sim_node)) xdp_key
    (ClXdp_expects sim_view) ∅ 1001 move_rec (Some move_links) sim_node)
    as (err & r' & w' & Hrun & Hres);
    [exact SimNode_ok|exact sim_outside|exact (λ w1 H, proj2 H)|reflexivity|by eexists; vm_compute|
     reflexivity..|exact move_recorded|exact move_keys|].
  exists err, r', w'. split; [exact Hrun|]. destruct err as [e|].
  - destruct Hres as (_ & _ & Hst). exact Hst.
  - destruct Hres as (groups & sl' & _ & _ & _ & _ & _ & Hst). exact Hst.
Defined.

Lemma cl_kinds_reach_spec_witness :
  ∃ err r' w', reconcileProgram ClXdp.kind move_rec false sim_node = (Ret (err, r'), w').
Proof.
  destruct (cl_kinds_reach_spec (W := SimNode) sim_view (loaded sim_node)) as (Hxdp & _).
  destruct (Hxdp ∅ 1001 move_rec (Some move_links) sim_node)
    as (err & r' & w' & Hrun & _);
    [exact SimNode_ok|exact sim_outside|exact (λ w1 H, proj2 H)|reflexivity|by eexists; vm_compute|
     reflexivity..|exact move_recorded|exact move_keys|].
  exists err, r', w'. exact Hrun.
Defined.

(** A namespaced XDP program that is wanted on eth0 in the pods of a namespace. *)
Definition pod_rec : ProgRec BpfApplicationProgram BpfApplicationProgramState :=
  mkProgRec (mkReconcilerCommon "node-1" NsBpfApplicationControllerFinalizer
               (mkNode emptyObjectMeta [])) "apps"
    (mkBpfApplicationProgram "xdp_pass" ProgTypeXDP
       (Some (mkWithLinks (Some [mkXdpAttachInfo (mkInterfaceSelector None ["eth0"] None)
          (mkNetworkNamespaceSelector (mkLabelSelector ∅ [])) None None]))) None None None None)
    (mkBpfApplicationProgramState (mkBpfProgramStateCommon "xdp_pass" ProgAttachPending (Some 1001))
       ProgTypeXDP (Some (mkWithLinks None)) None None None None).

Lemma ns_kinds_reach_spec_witness :
  ∃ err r' w', reconcileProgram NsXdp.kind pod_rec false sim_node = (Ret (err, r'), w').
Proof.
  destruct (ns_kinds_reach_spec (W := SimNode) sim_view (loaded sim_node)) as (Hxdp & _).
  destruct (Hxdp ∅ 1001 pod_rec None sim_node)
    as (err & r' & w' & Hrun & _);
    [exact SimNode_ok|exact sim_outside|exact (λ w1 H, proj2 H)|reflexivity|by eexists; vm_compute|
     reflexivity..| |constructor|].
  - split; [constructor|]. intros id Hid. by apply elem_of_nil in Hid.
  - exists err, r', w'. exact Hrun.
Defined.

(** It is attached in the namespace of the one pod. *)
Example pod_rec_reached :
  match (reconcileProgram NsXdp.kind pod_rec false sim_node).1 with
  | Ret (None, r) => (λ l : XdpAttachInfoState, (xdp_InterfaceName l, xdp_NetnsPath l)) <$>
      elems (default None (linksOf NsXdp.kind r))
  | _ => []
  end = [("eth0", "/host/proc/7/ns/net")].
Proof. by vm_compute. Qed.

(** ** Applications *)

#[local] Abbreviation AK := (ClApp.app_kind (W := SimNode)).

Definition loaded_app : AppRec ClBpfApplicationProgram ClBpfApplicationProgramState :=
  sim_apprec (sim_app false [xdp_program ["eth0"]])
    (sim_app_state AppLoadSuccess [xdp_state (Some 1001) move_links]
       [sim_condition BpfAppStateCondPending]).

Lemma updateBpfAppStateCondition_spec_witness :
  ∃ b r' w', updateBpfAppStateCondition (app_methods AK) BpfAppStateCondSuccess loaded_app sim_node =
    (Ret (b, r'), w').
Proof.
  pose proof (updateBpfAppStateCondition_spec AK BpfAppStateCondSuccess loaded_app sim_node) as Hw.
  destruct Hw as (b & r' & w' & c & Hrun & _); [reflexivity|].
  exists b, r', w'. exact Hrun.
Defined.

Lemma ProgramListChangedError_not_a_failure_witness :
  ∃ r' w', updateBpfAppStateCondition (app_methods AK) BpfAppStateCondProgramListChangedError
      loaded_app sim_node = (Ret (true, r'), w') ∧
    IsBpfAppStateConditionFailure (st_Conditions (status r')) = false.
Proof.
  pose proof (ProgramListChangedError_not_a_failure AK loaded_app sim_node) as Hw.
  destruct Hw as (r' & w' & Hrun & _ & Hf & _).
  - intros c [= <-]. by vm_compute.
  - exists r', w'. split; [exact Hrun|exact Hf].
Defined.

Lemma validateProgramList_iff_witness :
  app_validateProgramList AK loaded_app sim_node = (Ret None, sim_node).
Proof.
  pose proof (validateProgramList_iff AK loaded_app sim_node) as Hw. apply Hw. split.
  - apply (bool_decide_unpack _). by vm_compute.
  - intros n. change (specNames AK loaded_app) with (stateNames loaded_app). done.
Defined.

Lemma isLoaded_iff_witness :
  ∃ w', app_isLoaded loaded_app sim_node = (Ret true, w').
Proof.
  pose proof (isLoaded_iff AK loaded_app sim_node) as Hw.
  destruct Hw as (b & w' & Hrun & _ & Hb). exists w'. rewrite Hrun.
  assert (b = true) as ->; [|done]. apply Hb. intros s Hs.
  apply list_elem_of_singleton in Hs as ->. exists 1001. by split; [|eexists; vm_compute].
Defined.

Lemma unload_spec_witness :
  ∃ r' w', app_unload AK loaded_app sim_node = (Ret r', w') ∧ loaded w' !! 1001 = None.
Proof.
  pose proof (unload_spec AK True loaded_app sim_node) as Hw.
  destruct Hw as (r' & w' & Hrun & _ & _ & _ & Hgone).
  - by intros _ id w0.
  - repeat constructor.
  - exists r', w'. split; [exact Hrun|]. by apply (Hgone I (xdp_state (Some 1001) move_links)); [left|].
Defined.

(** A program that has not been loaded yet. *)
Definition fresh_app : AppRec ClBpfApplicationProgram ClBpfApplicationProgramState :=
  sim_apprec (sim_app false [xdp_program ["eth0"]])
    (sim_app_state AppLoadNotLoaded [xdp_state None []] []).

Definition freshly_loaded := app_load AK fresh_app sim_node.
Definition freshly_rec : AppRec ClBpfApplicationProgram ClBpfApplicationProgramState :=
  match freshly_loaded.1 with Ret (_, r) => r | Panic _ => fresh_app end.

Lemma load_then_isLoaded_witness :
  ∃ w'', app_isLoaded freshly_rec freshly_loaded.2 = (Ret true, w'').
Proof.
  pose proof (load_then_isLoaded AK fresh_app sim_node freshly_rec freshly_loaded.2) as Hw.
  destruct Hw as (_ & _ & w'' & Hrun & _).
  - by vm_compute.
  - exists w''. exact Hrun.
Defined.

Definition empty_app : AppRec ClBpfApplicationProgram ClBpfApplicationProgramState :=
  sim_apprec (sim_app false [xdp_program ["eth0"]]) (sim_app_state AppLoadNotLoaded [] []).
Definition initialised := initializeNodeProgramList AK empty_app sim_node.
Definition initialised_rec : AppRec ClBpfApplicationProgram ClBpfApplicationProgramState :=
  match initialised.1 with Ret (_, r) => r | Panic _ => empty_app end.

Lemma initializeNodeProgramList_ok_witness :
  Forall2 (initial AK) [xdp_program ["eth0"]] (programs initialised_rec).
Proof.
  pose proof (initializeNodeProgramList_ok AK empty_app sim_node initialised_rec initialised.2) as Hw.
  destruct Hw as (_ & _ & Hall); [by vm_compute|exact Hall].
Defined.


(** A program was added to the spec after the state was created. *)
Definition changed_app : ClusterBpfApplication :=
  sim_app false [xdp_program ["eth0"]; 
    mkClBpfApplicationProgram "other" ProgTypeXDP None None None None None None None None None None].
Definition changed_state : ClusterBpfApplicationState :=
  sim_app_state AppLoadSuccess [xdp_state (Some 1001) []] [].

Lemma load_failure_ends_loop_witness :
  ∃ res w', reconcile_apps AK (app_rc loaded_app) [changed_app; changed_app]
      (sim_with changed_app changed_state) = (Ret res, w').
Proof.
  pose proof (load_failure_ends_loop AK (app_rc loaded_app) changed_app changed_state [changed_app]
    (sim_with changed_app changed_state) (sim_with changed_app changed_state)
    "programs have been added: other " 
    (with_status (set_AppLoadStatus ProgListChangedError)
       (sim_apprec changed_app changed_state)) (sim_with changed_app changed_state)) as Hw.
  destruct Hw as (res & w' & Hrun & _); [by vm_compute..|].
  exists res, w'. exact Hrun.
Defined.

(** ** Deletion *)

Definition deleting_app : AppRec ClBpfApplicationProgram ClBpfApplicationProgramState :=
  sim_apprec (sim_app true [xdp_program ["eth0"]])
    (sim_app_state AppLoadSuccess [xdp_state (Some 1001) move_links]
       [sim_condition BpfAppStateCondSuccess]).

Lemma deletion_pass_witness :
  ∃ r2 w2 changed err r3 w3, released r2 ∧
    updateBpfAppStateStatus AK (Some (currentAppState deleting_app)) r2 w2 =
      (Ret (changed, err, r3), w3).
Proof.
  pose proof (deletion_pass AK deleting_app sim_node) as Hw.
  destruct Hw as (r2 & w2 & changed & err & r3 & w3 & Hrel & _ & Hup & _).
  - by split; vm_compute.
  - repeat constructor.
  - exists r2, w2, changed, err, r3, w3. split; [exact Hrel|exact Hup].
Defined.

Definition released_app : AppRec ClBpfApplicationProgram ClBpfApplicationProgramState :=
  sim_apprec (sim_app true [xdp_program ["eth0"]])
    (sim_app_state AppUnLoadSuccess
       [set_prog_common (mkBpfProgramStateCommon "xdp_pass" ProgAttachSuccess None)
          (xdp_state None [])]
       [sim_condition BpfAppStateCondUnloaded]).

Lemma deleted_app_released_witness :
  ∃ m, (reconcile_existing AK released_app sim_node).1 = Ret (Some (Ok 0)) ∧
    ClBpfApplicationControllerFinalizer ∉ om_Finalizers m.
Proof.
  pose proof (deleted_app_released AK released_app sim_node) as Hw.
  destruct Hw as (m & Hrun & Hfin & _).
  - by split; vm_compute.
  - split; [done|]. split; [by eexists|]. by repeat constructor.
  - by left.
  - exists m. rewrite Hrun. split; [done|]. intros Hin. by apply Hfin in Hin as [_ ?].
Defined.

(** ** The operator *)

Definition cluster (deleted : bool) (st : ClusterBpfApplicationState) : SimNode :=
  set_api (mkSimAPI (mkNode (sim_meta "node-1" false []) []) [sim_app deleted []] [st] 0) sim_node.

Definition success_state : ClusterBpfApplicationState :=
  sim_app_state AppLoadSuccess [] [sim_condition BpfAppStateCondSuccess].

Lemma sim_lists deleted :
  lists (PS := ClBpfApplicationProgramState) ClOper.kind (sim_app deleted [])
    (cluster deleted success_state) [success_state] [mkNode (sim_meta "node-1" false []) []]
    (cluster deleted success_state).
Proof. destruct deleted; eexists; by split; vm_compute. Defined.

Lemma reconcileBpfApplication_reports_witness :
  ∃ cond message, cond = BpfAppCondSuccess ∧
    reconcileBpfApplication (PS := ClBpfApplicationProgramState) ClOper.kind (sim_app false [])
      (cluster false success_state) =
    updateStatus (PS := ClBpfApplicationProgramState) (P := ClBpfApplicationProgram)
      ClOper.kind (om_Namespace (app_meta (sim_app false []))) (om_Name (app_meta (sim_app false [])))
      cond message (cluster false success_state).
Proof.
  pose proof (reconcileBpfApplication_reports (PS := ClBpfApplicationProgramState) ClOper.kind
    (sim_app false []) (cluster false success_state)
    [success_state] [mkNode (sim_meta "node-1" false []) []] (cluster false success_state)) as Hw.
  destruct Hw as (cond & message & Hrun & Hs & _ & _); [by vm_compute|done|by apply sim_lists|].
  exists cond, message. split; [|exact Hrun]. apply Hs. split.
  - intros n ->%list_elem_of_singleton. exists success_state. split; [by left|by vm_compute].
  - intros s ->%list_elem_of_singleton. split; vm_compute; reflexivity.
Defined.

Lemma reconcileBpfApplication_deletes_witness :
  held (PS := ClBpfApplicationProgramState) ClOper.kind success_state = true ∧
  ∃ message, reconcileBpfApplication (PS := ClBpfApplicationProgramState) ClOper.kind
      (sim_app true []) (cluster true success_state) =
    updateStatus (PS := ClBpfApplicationProgramState) (P := ClBpfApplicationProgram)
      ClOper.kind (om_Namespace (app_meta (sim_app true []))) (om_Name (app_meta (sim_app true [])))
      BpfAppCondDeleteError message (cluster true success_state).
Proof.
  split; [by vm_compute|].
  pose proof (reconcileBpfApplication_deletes (PS := ClBpfApplicationProgramState) ClOper.kind
    (sim_app true []) (cluster true success_state)) as Hw.
  assert (Hl : list_states ClOper.kind (sim_app true []) (cluster true success_state)
    = (Ok [success_state], cluster true success_state)) by by vm_compute.
  rewrite Hl in Hw. cbn [op_ListNodes Sim_operator] in Hw.
  destruct Hw as [[Hno _]|[_ Hrun]]; [by vm_compute|done| |].
  - specialize (Hno success_state ltac:(by left)). by vm_compute in Hno.
  - eexists. exact Hrun.
Defined.

Lemma updateCondition_spec_witness :
  updateCondition (PS := ClBpfApplicationProgramState)
    (with_app_Conditions (Some [sim_condition BpfAppCondError]) (sim_app false []))
    BpfAppCondError "failed on the following objects: [b]" sim_node = (Ret (Ok 0), sim_node).
Proof.
  pose proof (updateCondition_spec (PS := ClBpfApplicationProgramState)
    (with_app_Conditions (Some [sim_condition BpfAppCondError]) (sim_app false []))
    BpfAppCondError "failed on the following objects: [b]" sim_node) as Hw.
  destruct Hw as [(c & _ & _ & Hrun)|[Hno _]]; [reflexivity|exact Hrun|].
  destruct Hno. by eexists.
Defined.

Definition busier_state : ClusterBpfApplicationState :=
  mkAppState (as_meta success_state)
    (set_UpdateCount 2 (as_Status success_state)).

Lemma dropped_update_irrelevant_witness :
  node_missing [mkNode emptyObjectMeta []] [success_state] =
  node_missing [mkNode emptyObjectMeta []] [busier_state].
Proof.
  pose proof (dropped_update_irrelevant ClOper.kind success_state busier_state [] []
    [mkNode emptyObjectMeta []]) as Hw.
  apply Hw; by vm_compute.
Defined.

(** ** Selectors and constants *)

Lemma invalid_first_regexp_allows_all_witness :
  let '(res, ms) := setupAllowedInterfacesLists
    (mkInterfaceDiscovery None [] ["/(/"; "eth0"]) in
  interfaceInAllowedList "lo" res ms = true.
Proof.
  pose proof (invalid_first_regexp_allows_all (mkInterfaceDiscovery None [] ["/(/"; "eth0"])
    "/(/" "(" "missing closing )" ["eth0"] "lo") as Hw.
  apply Hw; by vm_compute.
Defined.

Lemma Internal_String_injective_witness :
  Internal.String 6 = "xdp" ∧ Internal.Xdp = 6.
Proof.
  split; [reflexivity|]. apply (Internal_String_injective Internal.Xdp 6); [by vm_compute|reflexivity].
Defined.

(** A host with one namespace, for the cache of namespace ids. *)
#[local] Instance one_netns : HostFS unit := {| os_Stat _ w := (Ok (Some 42), w) |}.

Lemma GetNetNsId_stable_witness :
  GetNetNsId host_netns (mkReconcilerNetNsCache {[host_netns := 42]} tt) =
  (Some 42, mkReconcilerNetNsCache {[host_netns := 42]} tt).
Proof.
  pose proof (GetNetNsId_stable "" (mkReconcilerNetNsCache ∅ tt) 42
    (mkReconcilerNetNsCache {[host_netns := 42]} tt)) as Hw.
  apply Hw; reflexivity.
Defined.
